(* ===== verification/_CoqProject ===== *)
-Q . S2P
Prelude.v
FloatOrder.v
Utf8.v
Times.v
Ids.v
GoLib.v
Domain.v
Validate.v
ValidateSpec.v
Database.v
Jobs.v
Health.v
Events.v
Lifecycle.v
Auth.v
Scheduler.v
Sync.v
WorkerStore.v
WorkerLog.v
WorkerProperties.v
Control.v
Agent.v
Paths.v
Source.v
Executor.v
Scenario.v
Guarantees.v
History.v
AuthProperties.v
HealthProperties.v
Storage.v
BasicProperties.v
JobProperties.v
SyncProperties.v
SchedulerProperties.v
AgentProperties.v
ExecutorLog.v
Ingest.v
Attempts.v
Launches.v
ExecutorScenario.v
ExecutorProperties.v
Encoding.v
FloatText.v
Details.v
Report.v
Console.v
Http.v
HttpLog.v
HttpProperties.v
DetailsProperties.v
Automation.v
AutomationProperties.v
ReportProperties.v
Migrations.v
MigrationsProperties.v
WorkerOpen.v
Sampler.v
SamplerProperties.v
Cli.v
CliProperties.v
Supervise.v
SuperviseProperties.v
Texts.v
Exchange.v
ExchangeProperties.v
Progress.v
Running.v
Artifacts.v
Html.v
Pages.v
