(* ===== verification/Prelude.v ===== *)
(** * Long Compute Job Scheduler: the verification development

    The program schedules long computations. A control plane keeps jobs in a
    SQLite database and serves an HTTP API and a console; agents on the workers
    ask it for work over that API, run each attempt of a job under a supervisor
    process, and report what happens; an operator submits, reads and cancels
    jobs from the command line; a runner evaluates health policies and delivers
    webhooks. This library models the code under src/ as executable definitions
    and proves what makes it correct.

    ** The parts and their files

    Shared: this file (machine integers, the state-and-error monad [M], strings
    and lists); FloatOrder (comparisons of doubles); Utf8 (strings through
    encoding/json); Times (instants and their texts); GoLib, Encoding and
    FloatText (the functions of Go's standard library the program calls on
    text); Paths (path/filepath).

    The domain, internal/domain/job.go and worker.go: Domain (structs and
    enumerations), Validate (JobSpec.Validate), ValidateSpec (what an accepted
    specification satisfies). Identifiers, internal/id/id.go: Ids.

    The control plane's database, internal/store/sqlite: Migrations (store.go
    Open, initialize, applyMigration and migrations/*.sql); Database (tables and
    statements, transactions); Jobs (store.go CreateJob, CancelJob, ListJobs);
    Events and Sync (workers.go: applyWorkerEvent, recordWorkerEvent,
    SyncWorker, credentials, ListWorkers); Scheduler (workers.go: offerJobs,
    jobFits, allocations); Health (health.go); Auth (auth.go); Details
    (job_detail.go, metrics.go).

    The control plane's server, internal/httpapi: Http (server.go, metrics.go),
    Report (report.go), Console (the functions in ui.go) and Pages (its three
    templates, on the model of html/template in Html). The runner,
    internal/automation/runner.go: Automation.

    The worker, internal/worker: WorkerStore and WorkerOpen (store.go), Agent
    (agent.go: configuration, the exchange), Source and Executor (executor.go),
    Artifacts (executor.go copyArtifact), Sampler (sampler.go), Exchange
    (agent.go: the exchange as an HTTP request).

    The program, cmd/lcjs: Cli (main.go, operator.go), Supervise (supervise.go),
    Running (New and the loops of agent.go and runner.go, the end of runServer).

    ** How state and operations correspond to the code

    An operation of a store is a function in the monad [M] over the database
    ([DB] or [WorkerDB]) and the random numbers drawn so far; [tx] gives back
    the old database when its body fails, as a rolled back transaction does.
    Each connection has one open handle (SetMaxOpenConns(1)), so statements and
    transactions do not interleave, and a run is a sequence of calls:
    [Control.callStep] takes one call of the store, with its arguments and the
    reading of its clock, and [reachable] is what any such sequence reaches. A
    call of several statements or transactions (authenticating and then
    serving, the health cycle, sending a webhook and recording its result) can
    interleave with others in the program between them; the model takes each
    call of the store as one step.
    The executor is in the same monad over its store, its repository, its
    samplers and its record of started processes and sent signals; what files,
    processes and the clock answer during a cycle is a record of functions
    ([Host]). The command line acts on a list of actions, the supervisor is a
    machine of steps. Integers of Go are elements of [Z], with [u32], [u64] and
    [i64] written where the code adds or converts; doubles are [spec_float].

    The agent and the control plane are put together twice. Agent has the
    abstract system ([sysStep]): the agent moves, the control plane moves, and an
    exchange may lose its request or its response. Exchange has the deployed
    program ([deployStep]): the agent's cycle sends the JSON of its request to
    [ServeHTTP] over a network, while anyone else sends requests, the runner
    does its cycles, commands open the database and the agent is started again.
    ExchangeProperties proves that every run of the program is a run of the
    system, on Texts, which shows that every string that crosses the network is
    valid UTF-8 and so is read as it was written.

    ** Parameters

    Each class holds code that is not under src/, or a function of the platform.
    [Env]: crypto/rand, SHA-256, the JSON text of a specification (its hash is
    the request's identity), net/url's Parse, and (Unicode) strings.ToLower
    beyond ASCII. [WorkerEnv]: the JSON text of a command and the agent's
    randomness. [GitEnv]: the git program and the repositories, of which nothing
    is assumed.
    [ExecEnv], [SampleText] with [SampleCodec], [StatusText] with [StatusCodec]:
    the JSON texts of samples and exit statuses, their decoders, and
    strconv.Quote; the laws say that what was encoded decodes to itself.
    [HttpEnv] with [HttpLaws]: decoding of request bodies, and the texts of
    errors. [SyncText] with [SyncTextLaws]: the JSON texts of sync requests and
    of response bodies, and decoding the latter. [DetailText] with [DetailLaws]:
    the state of a job in the JSON of a detail. [PayloadText], [IndentText]: JSON
    texts of webhooks, and indented. The laws are instantiated by concrete
    functions where a witness needs them. What the standard library of Go does is
    written out where it matters: the paths net/http's multiplexer cleans and
    redirects (Http), the redirects its client follows (Cli), path/filepath
    (Paths), html/template (Html).

    ** The theorems

    Lifecycle is an abstract state machine of jobs and attempts, and Control
    proves that every call of the store is a run of it, with every outcome.
    From this Guarantees reads off what holds in every reachable database: a job
    and its attempts agree, attempts are numbered and at most as many as the
    specification allows, a final job stays final, a worker changes its own
    attempts only. History: nothing is forgotten. SchedulerProperties: the
    choice of jobs stays within the worker's capacity and leaves none out that
    fits. HealthProperties, AutomationProperties: policies fire once per key,
    deliveries are sent at most ten times and settle. SyncProperties,
    AgentProperties: events are recorded once and none is lost between the
    outbox and the control plane, whatever the network does.
    ExchangeProperties: the deployed program is a run of that system, so it
    loses no event and starts no attempt twice, and an exchange that is small
    enough gets through. Progress: a cycle that succeeds has taken up whatever
    the control plane wants of the worker. Running: the loop of the agent keeps
    its pace. Artifacts: a stored artifact is whole, and is what was announced,
    unless another copy uses its name with ".partial". WorkerProperties:
    the worker's store refines a machine of commands; events of an attempt tell
    its story in order. Ingest, Attempts, Launches, ExecutorProperties: metrics
    are taken up once, commands are launched once, cancellations signal only
    their own process group, collecting copies nothing from or to other places
    than its directories, a pinned commit is started only in a directory prepared
    for it, and what is reported is what the machine shows. SuperviseProperties:
    what the agent concludes from a look at the status file and a later one at
    the process is what became of the job, but for a status published between
    the two. SamplerProperties: samples are read back as taken, and which of them
    the control plane accepts.
    MigrationsProperties, WorkerOpen: databases of every earlier version are
    upgraded with all their rows. HttpProperties: serving is a run of calls,
    writes are authorized, and requests without a token get an error or the
    redirect of an unclean path. DetailsProperties, ReportProperties, Console: what
    is shown is complete. Pages: no value changes the markup of a page.
    CliProperties: requests, and the redirects of them, carry the token to the
    operator's host only; waiting ends with the first poll that finds the job over
    at the control plane; credentials work. BasicProperties, Storage, JobProperties,
    AuthProperties: times, specifications, stored values, submissions and
    cancellations, tokens and sessions.

    Scenario and ExecutorScenario are concrete runs on which the witnesses
    evaluate the definitions.

    ** Bounds and fuel

    Loops over slices are recursions on lists. Fuel appears where Go loops on
    something else: the functions on UTF-8 text and on white space take the
    length of the text, and each step takes at least one byte; the loop of job
    wait takes the number of polls, and [CliProperties.wait_returns] says that
    any number above that of the polls before the job is over gives the result;
    the client's redirects are at most ten requests, as in net/http. The
    loops of Run (agent, automation) have no end of their own: they are
    recursions on the turns that have come, of which there may be any number.

    ** Not modelled

    The style sheet and the scripts of ui.go and static/ (constant text for the
    browser), with the headers that go with each kind of body;
    internal/protocol/sync.go, whose types no package uses; the transport itself
    (TCP, TLS, HTTP framing, net/http's server and its limits of time), the
    Referer header of a redirect and host names beyond ASCII, the
    timers and signal contexts (when a turn comes and whether the context is
    done are arguments); log output; the engine's own failures inside SQLite (an
    operation of the model fails by the code's checks and by the schema's
    constraints, and with the errors of the file system when a database is
    opened). In the deployed program a cycle of the agent is one step, and what
    others ask of the server while it runs is a step before or after it: only
    the exchange in its middle touches the control plane's database, and a
    request of others never touches the worker's, so the states are the same.
    Nobody but the agent uses the token of its worker. *)

From Stdlib Require Export ZArith Lia.
From Stdlib Require Export Floats.SpecFloat.
From Stdlib Require Export Ascii.
From stdpp Require Export base tactics gmap sets list strings sorting pretty numbers.
(* the list lemmas of stdpp take precedence over those of the Standard Library *)
Export stdpp.list_basics.list stdpp.list_relations.list stdpp.list_misc.list stdpp.list_monad.list.

Open Scope Z_scope.
Declare Scope lcjs_scope.
Delimit Scope lcjs_scope with lcjs.

(** ** Machine integers of the source: uint32, uint64, int64 *)

Definition u32 (z : Z) : Z := z mod 2 ^ 32.
Definition u64 (z : Z) : Z := z mod 2 ^ 64.
(** Two's complement reading of the low 64 bits. *)
Definition i64 (z : Z) : Z := (z + 2 ^ 63) mod 2 ^ 64 - 2 ^ 63.

Lemma u32_small z : 0 <= z < 2 ^ 32 -> u32 z = z.
Proof. intros ?. unfold u32. by apply Z.mod_small. Qed.

Lemma u64_small z : 0 <= z < 2 ^ 64 -> u64 z = z.
Proof. intros ?. unfold u64. by apply Z.mod_small. Qed.

Lemma u32_bound z : 0 <= u32 z < 2 ^ 32.
Proof. unfold u32. apply Z.mod_pos_bound. lia. Qed.

Lemma u64_bound z : 0 <= u64 z < 2 ^ 64.
Proof. unfold u64. apply Z.mod_pos_bound. lia. Qed.

Lemma i64_small z : - 2 ^ 63 <= z < 2 ^ 63 -> i64 z = z.
Proof. intros ?. unfold i64. rewrite Z.mod_small; lia. Qed.

(** ** IEEE double precision values, as the executable [spec_float] *)

Abbreviation float64 := spec_float.
Definition f64_add : float64 -> float64 -> float64 := SFadd 53 1024.
Definition f64_sub : float64 -> float64 -> float64 := SFsub 53 1024.
Definition f64_mul : float64 -> float64 -> float64 := SFmul 53 1024.
Definition f64_div : float64 -> float64 -> float64 := SFdiv 53 1024.
Definition f64_ltb : float64 -> float64 -> bool := SFltb.
Definition f64_leb : float64 -> float64 -> bool := SFleb.
Definition f64_eqb : float64 -> float64 -> bool := SFeqb.
(** The conversion float64(n) of an integer. *)
Definition f64_of_Z (z : Z) : float64 := binary_normalize 53 1024 z 0 false.
Definition f64_zero : float64 := S754_zero false.
Definition isNaN (f : float64) : bool := match f with S754_nan => true | _ => false end.
Definition isInf (f : float64) : bool := match f with S754_infinity _ => true | _ => false end.
Definition f64_finite (f : float64) : bool := negb (isNaN f || isInf f).

#[export] Instance float64_eq_dec : EqDecision float64.
Proof. solve_decision. Defined.

(** ** Strings *)

(** The bytes of a string, and len(s). *)
Abbreviation chars := String.list_ascii_of_string.
Abbreviation unchars := String.string_of_list_ascii.
Definition len (s : string) : Z := Z.of_nat (String.length s).

Lemma string_app_nil_l (s : string) : "" +:+ s = s.
Proof. done. Qed.

Lemma string_app_cons c (s t : string) : String c s +:+ t = String c (s +:+ t).
Proof. done. Qed.
Lemma chars_app a b : chars (a +:+ b) = chars a ++ chars b.
Proof. induction a as [|c a IH]; [done|]. rewrite string_app_cons. simpl. by rewrite IH. Qed.
Lemma unchars_app a b : unchars (a ++ b) = unchars a +:+ unchars b.
Proof. induction a as [|c a IH]; [done|]. simpl. by rewrite IH. Qed.

Lemma string_app_assoc (a b c : string) : (a +:+ b) +:+ c = a +:+ (b +:+ c).
Proof.
  induction a as [|? a IH]; [done|]. by rewrite !string_app_cons, IH.
Qed.

Lemma string_app_nil_r (a : string) : a +:+ "" = a.
Proof. induction a as [|? a IH]; [done|]. by rewrite string_app_cons, IH. Qed.

Create Rewrite HintDb str.
#[export] Hint Rewrite string_app_nil_l string_app_cons string_app_assoc string_app_nil_r : str.

#[export] Instance nil_dec {A} (l : list A) : Decision (l = []).
Proof. destruct l; [by left|by right]. Defined.

(** ** Tables *)

Lemma alter_row {A} (f : A -> A) (table : gmap string A) id row :
  table !! id = Some row -> alter f id table = <[id := f row]> table.
Proof.
  intros Hr. apply map_eq. intros i. destruct (decide (id = i)) as [<-|].
  - by rewrite lookup_alter_eq, Hr, lookup_insert_eq.
  - by rewrite lookup_alter_ne, lookup_insert_ne.
Qed.

(** ** Sorted lists *)

Lemma sorted_snoc l z : StronglySorted Z.lt l -> Forall (λ x, x < z) l -> StronglySorted Z.lt (l ++ [z]).
Proof.
  induction 1 as [|x l Hs IH Hx]; intros Hz; simpl; [by repeat constructor|].
  apply Forall_cons in Hz as [Hxz Hz]. constructor; [by apply IH|].
  apply Forall_app. split; [done|]. by apply Forall_singleton.
Qed.

(** ** Results and the state-error monad of the stateful code *)

Inductive result (E A : Type) :=
  | Ok (a : A)
  | Err (e : E).
Arguments Ok {E A} a.
Arguments Err {E A} e.

Definition isOk {E A} (r : result E A) : bool :=
  match r with Ok _ => true | Err _ => false end.

(** A call that reads and writes a state of type [S] and may return an error.
    The state is kept when the call fails, as Go code keeps what it has written. *)
Definition M (S E A : Type) : Type := S -> result E A * S.

#[export] Instance M_ret S E : MRet (M S E) := λ A a s, (Ok a, s).
#[export] Instance M_bind S E : MBind (M S E) := λ A B k m s,
  match m s with
  | (Ok a, s') => k a s'
  | (Err e, s') => (Err e, s')
  end.

Definition mfail {S E A} (e : E) : M S E A := λ s, (Err e, s).
Definition mget {S E} : M S E S := λ s, (Ok s, s).
Definition mmodify {S E} (f : S -> S) : M S E unit := λ s, (Ok tt, f s).
Definition mreads {S E A} (f : S -> A) : M S E A := λ s, (Ok (f s), s).
(** [if bad { return err }] *)
Definition mguard {S E} (ok : bool) (e : E) : M S E unit :=
  if ok then mret tt else mfail e.

(** A loop over a slice whose body may return an error out of the function. *)
Fixpoint mfor {S E A} (xs : list A) (body : A -> M S E unit) : M S E unit :=
  match xs with
  | [] => mret tt
  | x :: rest => body x ;; mfor rest body
  end.

(** A loop threading one local variable. *)
Fixpoint mfold {S E A B} (xs : list A) (b : B) (body : B -> A -> M S E B) : M S E B :=
  match xs with
  | [] => mret b
  | x :: rest => b' ← body b x ; mfold rest b' body
  end.

Section monad.
Context {S E : Type}.

Lemma bind_ok {A B} (m : M S E A) (k : A -> M S E B) s b s' :
  (m ≫= k) s = (Ok b, s') ->
  exists a s1, m s = (Ok a, s1) /\ k a s1 = (Ok b, s').
Proof.
  unfold mbind, M_bind. destruct (m s) as [[a|e] s1]; intros H; [eauto|done].
Qed.

Lemma bind_err {A B} (m : M S E A) (k : A -> M S E B) s e s' :
  (m ≫= k) s = (Err e, s') ->
  m s = (Err e, s') \/ exists a s1, m s = (Ok a, s1) /\ k a s1 = (Err e, s').
Proof.
  unfold mbind, M_bind. destruct (m s) as [[a|e'] s1]; intros H; [eauto|].
  left. congruence.
Qed.

Lemma bind_run {A B} (m : M S E A) (k : A -> M S E B) s a s1 :
  m s = (Ok a, s1) -> (m ≫= k) s = k a s1.
Proof. unfold mbind, M_bind. by intros ->. Qed.

Lemma bind_run_err {A B} (m : M S E A) (k : A -> M S E B) s e s1 :
  m s = (Err e, s1) -> (m ≫= k) s = (Err e, s1).
Proof. unfold mbind, M_bind. by intros ->. Qed.

Lemma guard_ok b e (s : S) u s' :
  mguard (E := E) b e s = (Ok u, s') -> b = true /\ s' = s.
Proof. unfold mguard. destruct b; intros H; inversion H; auto. Qed.

Lemma mfor_app {A} (xs ys : list A) (body : A -> M S E unit) s :
  mfor (xs ++ ys) body s = (mfor xs body ;; mfor ys body) s.
Proof.
  revert s. induction xs as [|x xs IH]; intros s; [done|].
  simpl. unfold mbind, M_bind. destruct (body x s) as [[?|?] s1]; [|done].
  rewrite IH. done.
Qed.

(** A property that one body run keeps, whether or not it fails, is kept by
    the whole call. *)
Definition keeps {A} (P : S -> Prop) (m : M S E A) : Prop :=
  forall s, P s -> P (m s).2.

Lemma keeps_ret {A} P (a : A) : keeps P (mret a).
Proof. by intros s. Qed.
Lemma keeps_fail {A} P (e : E) : keeps P (mfail (A := A) e).
Proof. by intros s. Qed.
Lemma keeps_reads {A} P (f : S -> A) : keeps P (mreads f).
Proof. by intros s. Qed.
Lemma keeps_get P : keeps P mget.
Proof. by intros s. Qed.
Lemma keeps_guard P b (e : E) : keeps P (mguard b e).
Proof. by destruct b; intros s. Qed.
Lemma keeps_modify (P : S -> Prop) f : (forall s, P s -> P (f s)) -> keeps P (mmodify f).
Proof. intros Hf s. apply Hf. Qed.
Lemma keeps_bind {A B} P (m : M S E A) (k : A -> M S E B) :
  keeps P m -> (forall a, keeps P (k a)) -> keeps P (m ≫= k).
Proof.
  intros Hm Hk s Hs. specialize (Hm s Hs). unfold mbind, M_bind.
  destruct (m s) as [[a|e] s1]; [by apply Hk|done].
Qed.
Lemma keeps_mfor {A} P (xs : list A) (body : A -> M S E unit) :
  (forall x, keeps P (body x)) -> keeps P (mfor xs body).
Proof.
  intros Hb. induction xs as [|x xs IH]; simpl; [apply keeps_ret|].
  apply keeps_bind; auto.
Qed.
Lemma keeps_mfold {A B} P (xs : list A) (b : B) (body : B -> A -> M S E B) :
  (forall b x, keeps P (body b x)) -> keeps P (mfold xs b body).
Proof.
  intros Hb. revert b. induction xs as [|x xs IH]; intros b; simpl; [apply keeps_ret|].
  apply keeps_bind; auto.
Qed.

(** Loop invariant rule for a successful loop. *)
Lemma mfor_ok_ind {A} (I : list A -> S -> Prop) (xs : list A) (body : A -> M S E unit) s u s' :
  mfor xs body s = (Ok u, s') ->
  I [] s ->
  (forall done x s1 s2, done ++ [x] `prefix_of` xs -> I done s1 ->
     body x s1 = (Ok tt, s2) -> I (done ++ [x]) s2) ->
  I xs s'.
Proof.
  intros Hrun H0 Hstep.
  enough (forall pre post s0, xs = pre ++ post -> I pre s0 ->
    mfor post body s0 = (Ok u, s') -> I xs s') as H by (eapply (H [] xs); eauto).
  intros pre post. revert pre. induction post as [|x post IH]; intros pre s0 -> HI Hr.
  - simpl in Hr. inversion Hr; subst. by rewrite app_nil_r.
  - apply bind_ok in Hr as ([] & s1 & Hx & Hr).
    specialize (IH (pre ++ [x]) s1). rewrite <- app_assoc in IH. apply IH; auto.
    eapply Hstep; eauto. exists post. by rewrite <- app_assoc.
Qed.

(** The same rule for a loop with a local variable. *)
Lemma mfold_ok_ind {A B} (I : list A -> B -> S -> Prop) (xs : list A) b (body : B -> A -> M S E B) s b' s' :
  mfold xs b body s = (Ok b', s') ->
  I [] b s ->
  (forall done x b1 s1 b2 s2, done ++ [x] `prefix_of` xs -> I done b1 s1 ->
     body b1 x s1 = (Ok b2, s2) -> I (done ++ [x]) b2 s2) ->
  I xs b' s'.
Proof.
  intros Hrun H0 Hstep.
  enough (forall pre post b0 s0, xs = pre ++ post -> I pre b0 s0 ->
    mfold post b0 body s0 = (Ok b', s') -> I xs b' s') as H by (eapply (H [] xs); eauto).
  intros pre post. revert pre. induction post as [|x post IH]; intros pre b0 s0 -> HI Hr.
  - simpl in Hr. inversion Hr; subst. by rewrite app_nil_r.
  - apply bind_ok in Hr as (b1 & s1 & Hx & Hr).
    specialize (IH (pre ++ [x]) b1 s1). rewrite <- app_assoc in IH. apply IH; auto.
    eapply Hstep; eauto. exists post. by rewrite <- app_assoc.
Qed.

(** A collecting loop without writes returns one item per row. *)
Lemma collect_ok {A B} (body : A -> M S E B) (xs : list A) (P : A -> B -> Prop) s ys s' :
  (forall x s1 y s2, body x s1 = (Ok y, s2) -> s2 = s1 /\ P x y) ->
  mfold xs [] (λ acc x, y ← body x; mret (acc ++ [y])) s = (Ok ys, s') ->
  s' = s /\ Forall2 P xs ys.
Proof.
  intros Hbody Hrun.
  apply (mfold_ok_ind (λ done acc s1, s1 = s /\ Forall2 P done acc)) in Hrun; [done|by split|].
  intros pre x acc s1 acc' s2 _ [-> Hacc] Hx.
  apply bind_ok in Hx as (y & s3 & Hb & [= <- <-]).
  apply Hbody in Hb as [-> Hp]. split; [done|]. apply Forall2_app; auto.
Qed.
End monad.

Create HintDb keeps.
#[export] Hint Resolve keeps_ret keeps_fail keeps_reads keeps_get keeps_guard : keeps.
#[export] Hint Resolve keeps_bind keeps_mfor keeps_mfold : keeps.

(** Inverts a successful run of a sequence of binds in hypothesis [H]. *)
Ltac run_inv H :=
  repeat match type of H with
  | (_ ≫= _) _ = (Ok _, _) =>
      let a := fresh "v" in let s := fresh "s" in
      let H1 := fresh "R" in
      apply bind_ok in H as (a & s & H1 & H)
  end.

(** Case analysis on the scrutinee of a match in the goal or in [H]. *)
Ltac case_in H :=
  match type of H with
  | context [match ?x with _ => _ end] =>
      lazymatch x with context [match _ with _ => _ end] => fail | _ => destruct x eqn:? end
  end.
