(* ===== verification/FloatOrder.v ===== *)
(** * The order of double precision values

    The comparisons of [spec_float] are a total preorder on the values that are
    not NaN. *)

From S2P Require Import Prelude.

Module FloatOrder.

(** Sign class, and the signed exponent and mantissa that decide within it. *)
Definition rank (f : float64) : Z * Z * Z :=
  match f with
  | S754_infinity true => (-2, 0, 0)
  | S754_finite true m e => (-1, - e, - Zpos m)
  | S754_zero _ | S754_nan => (0, 0, 0)
  | S754_finite false m e => (1, e, Zpos m)
  | S754_infinity false => (2, 0, 0)
  end.

Definition compareRank (x y : Z * Z * Z) : comparison :=
  match x.1.1 ?= y.1.1 with
  | Eq => match x.1.2 ?= y.1.2 with Eq => x.2 ?= y.2 | c => c end
  | c => c
  end.

Lemma compare_opp x y : (- x ?= - y) = CompOpp (x ?= y).
Proof. rewrite Z.compare_opp. apply Z.compare_antisym. Qed.

Lemma compare_rank f g : isNaN f = false -> isNaN g = false ->
  SFcompare f g = Some (compareRank (rank f) (rank g)).
Proof.
  intros Hf Hg. destruct f as [[]|[]| |[] m e], g as [[]|[]| |[] n k]; try done; unfold compareRank; simpl.
  rewrite (compare_opp e k). by destruct (e ?= k).
Qed.

Lemma leb_rank f g : isNaN f = false -> isNaN g = false ->
  f64_leb f g = true <-> compareRank (rank f) (rank g) <> Gt.
Proof. intros Hf Hg. unfold f64_leb, SFleb. rewrite compare_rank by done. by destruct (compareRank _ _). Qed.

Lemma ltb_rank f g : isNaN f = false -> isNaN g = false ->
  f64_ltb f g = true <-> compareRank (rank f) (rank g) = Lt.
Proof. intros Hf Hg. unfold f64_ltb, SFltb. rewrite compare_rank by done. by destruct (compareRank _ _). Qed.

Lemma compareRank_le x y : compareRank x y <> Gt <->
  x.1.1 < y.1.1 \/ (x.1.1 = y.1.1 /\ (x.1.2 < y.1.2 \/ (x.1.2 = y.1.2 /\ x.2 <= y.2))).
Proof.
  unfold compareRank. destruct (Z.compare_spec x.1.1 y.1.1), (Z.compare_spec x.1.2 y.1.2),
    (Z.compare_spec x.2 y.2); split; try done; try lia; intros; try lia.
Qed.

Lemma compareRank_lt x y : compareRank x y = Lt <-> compareRank y x = Gt.
Proof.
  unfold compareRank. rewrite (Z.compare_antisym x.1.1), (Z.compare_antisym x.1.2), (Z.compare_antisym x.2).
  by destruct (x.1.1 ?= y.1.1), (x.1.2 ?= y.1.2), (x.2 ?= y.2).
Qed.

Lemma f64_leb_refl f : isNaN f = false -> f64_leb f f = true.
Proof. intros Hf. apply leb_rank; [done..|]. apply compareRank_le. lia. Qed.

Lemma f64_leb_trans f g h : isNaN f = false -> isNaN g = false -> isNaN h = false ->
  f64_leb f g = true -> f64_leb g h = true -> f64_leb f h = true.
Proof. intros Hf Hg Hh. rewrite !leb_rank, !compareRank_le by done. lia. Qed.

Lemma ltb_negb_leb f g : isNaN f = false -> isNaN g = false -> f64_ltb f g = negb (f64_leb g f).
Proof.
  intros Hf Hg. apply eq_true_iff_eq. rewrite negb_true_iff, ltb_rank by done.
  rewrite compareRank_lt, <- not_true_iff_false, leb_rank by done.
  destruct (compareRank (rank g) (rank f)); intuition discriminate.
Qed.

Lemma f64_ltb_leb f g : isNaN f = false -> isNaN g = false -> f64_ltb f g = true -> f64_leb f g = true.
Proof. intros Hf Hg. rewrite ltb_rank, leb_rank by done. by intros ->. Qed.

End FloatOrder.
