(* ===== verification/Utf8.v ===== *)
(** * Text through encoding/json

    json.Marshal writes the replacement character U+FFFD for every byte that is
    not part of a valid UTF-8 sequence, and json.Unmarshal reads it back as its
    three bytes. [jsonText] is what a string becomes by that round trip; it may
    be three times as long. *)

From S2P Require Import Prelude.

Module Utf8.

Definition code (c : ascii) : N := N_of_ascii c.
Definition inRange (lo hi : N) (c : ascii) : bool := (lo <=? code c)%N && (code c <=? hi)%N.
Definition continues (c : ascii) : bool := inRange 128 191 c.

(** The number of bytes of the character at the front, as utf8.DecodeRune finds
    it; None for a byte that starts no valid sequence. *)
Definition runeSize (s : list ascii) : option nat :=
  match s with
  | [] => None
  | c0 :: rest =>
      if inRange 0 127 c0 then Some 1%nat
      else match rest with
      | [] => None
      | c1 :: rest1 =>
          if inRange 194 223 c0 then (if continues c1 then Some 2%nat else None)
          else match rest1 with
          | [] => None
          | c2 :: rest2 =>
              let lo3 := if (code c0 =? 224)%N then 160%N else 128%N in
              let hi3 := if (code c0 =? 237)%N then 159%N else 191%N in
              if inRange 224 239 c0
              then (if inRange lo3 hi3 c1 && continues c2 then Some 3%nat else None)
              else match rest2 with
              | [] => None
              | c3 :: _ =>
                  let lo4 := if (code c0 =? 240)%N then 144%N else 128%N in
                  let hi4 := if (code c0 =? 244)%N then 143%N else 191%N in
                  if inRange 240 244 c0 && inRange lo4 hi4 c1 && continues c2 && continues c3
                  then Some 4%nat else None
              end
          end
      end
  end.

Definition replacement : list ascii := [ascii_of_N 239; ascii_of_N 191; ascii_of_N 189].

(** One character or replaced byte per step; the length of the text is enough
    fuel. *)
Fixpoint coerce (fuel : nat) (s : list ascii) : list ascii :=
  match fuel with
  | O => []
  | S fuel' =>
      match s with
      | [] => []
      | _ :: rest =>
          match runeSize s with
          | Some n => take n s ++ coerce fuel' (drop n s)
          | None => replacement ++ coerce fuel' rest
          end
      end
  end.

(** utf8.Valid *)
Fixpoint validFrom (fuel : nat) (s : list ascii) : bool :=
  match fuel with
  | O => bool_decide (s = [])
  | S fuel' =>
      match s with
      | [] => true
      | _ => match runeSize s with Some n => validFrom fuel' (drop n s) | None => false end
      end
  end.

End Utf8.

Definition jsonText (s : string) : string := unchars (Utf8.coerce (String.length s) (chars s)).
Definition utf8Valid (s : string) : bool := Utf8.validFrom (String.length s) (chars s).

Module Utf8Theory.
Import Utf8.

Lemma chars_length s : length (chars s) = String.length s.
Proof. induction s; simpl; congruence. Qed.

Lemma unchars_chars s : unchars (chars s) = s.
Proof. apply String.string_of_list_ascii_of_string. Qed.

Lemma chars_unchars l : chars (unchars l) = l.
Proof. apply String.list_ascii_of_string_of_list_ascii. Qed.

(** A recognized character has one to four bytes, all of them present. *)
Lemma runeSize_bound s n : runeSize s = Some n -> (1 <= n <= length s)%nat.
Proof.
  unfold runeSize. destruct s as [|c0 [|c1 [|c2 [|c3 s]]]]; intros Hn; repeat case_in Hn; try done;
    injection Hn as <-; simpl; lia.
Qed.

Lemma coerce_valid fuel s : (length s <= fuel)%nat -> validFrom fuel s = true -> coerce fuel s = s.
Proof.
  revert s. induction fuel as [|fuel IH]; intros s Hl Hv; [by destruct s; simpl in *; [|lia]|].
  simpl in *. destruct s as [|c s]; [done|]. destruct (runeSize (c :: s)) as [n|] eqn:E; [|done].
  pose proof (runeSize_bound _ _ E). rewrite IH; [apply take_drop|rewrite length_drop; simpl in *; lia|done].
Qed.

(** Valid text is unchanged. *)
Lemma jsonText_valid s : utf8Valid s = true -> jsonText s = s.
Proof.
  unfold utf8Valid, jsonText. intros Hv. rewrite coerce_valid; [apply unchars_chars| |done].
  by rewrite chars_length.
Qed.

Lemma coerce_length fuel s : (length (coerce fuel s) <= 3 * length s)%nat.
Proof.
  revert s. induction fuel as [|fuel IH]; intros s; simpl; [lia|]. destruct s as [|c s]; [simpl; lia|].
  destruct (runeSize (c :: s)) as [n|] eqn:E.
  - pose proof (runeSize_bound _ _ E). rewrite length_app, length_take.
    specialize (IH (drop n (c :: s))). rewrite length_drop in IH. simpl in *. lia.
  - specialize (IH s). simpl. lia.
Qed.

(** The text grows to at most three times its length. *)
Lemma jsonText_length s : len (jsonText s) <= 3 * len s.
Proof.
  unfold len, jsonText. rewrite <- chars_length, chars_unchars.
  pose proof (coerce_length (String.length s) (chars s)). rewrite chars_length in H. lia.
Qed.

(** Bytes that start no character, such as 0xFF, are replaced one by one. *)
Lemma coerce_replaced n fuel : (n <= fuel)%nat ->
  coerce fuel (replicate n (ascii_of_N 255)) = mjoin (replicate n replacement).
Proof.
  revert n. induction fuel as [|fuel IH]; intros n Hn; [by destruct n; [|lia]|].
  destruct n as [|n]; [done|]. rewrite !replicate_S. cbn [coerce mjoin list_join].
  assert (E : runeSize (ascii_of_N 255 :: replicate n (ascii_of_N 255)) = None)
    by (destruct n as [|[|[|n]]]; reflexivity).
  rewrite E, IH by lia. done.
Qed.

Lemma length_join_replicate {A} n (l : list A) : length (mjoin (replicate n l)) = (n * length l)%nat.
Proof. induction n as [|n IH]; [done|]. rewrite replicate_S. simpl. by rewrite length_app, IH. Qed.

Lemma jsonText_replaced n : len (jsonText (unchars (replicate n (ascii_of_N 255)))) = 3 * Z.of_nat n.
Proof.
  unfold len, jsonText. rewrite <- chars_length, !chars_unchars, coerce_replaced.
  - rewrite length_join_replicate. change (length replacement) with 3%nat. lia.
  - rewrite <- chars_length, chars_unchars, length_replicate. done.
Qed.

End Utf8Theory.

Example jsonText_ascii : jsonText "loss=0.5" = "loss=0.5".
Proof. reflexivity. Qed.
Example utf8_euro : utf8Valid (unchars (ascii_of_N <$> [226; 130; 172]%N)) = true.
Proof. reflexivity. Qed.
Example utf8_cut : utf8Valid (unchars (ascii_of_N <$> [226; 130]%N)) = false.
Proof. reflexivity. Qed.
