(* ===== verification/Times.v ===== *)
(** * Instants and the two text formats the databases store

    Every timestamp column of both databases holds text that [formatTime]
    (RFC3339Nano) or [formatSortableTime] wrote, and SQL compares and orders that
    text byte by byte. This file models instants, the two formats, the parser
    that reads them back, and proves when the order of the text is the order of
    the instants. *)

From S2P Require Import Prelude.

(** ** Text order: SQLite's BINARY collation *)

Module Text.

(** The three-way byte comparison of two strings. *)
Fixpoint cmp (s t : string) : comparison :=
  match s, t with
  | EmptyString, EmptyString => Eq
  | EmptyString, String _ _ => Lt
  | String _ _, EmptyString => Gt
  | String a s', String b t' =>
      match N.compare (Ascii.N_of_ascii a) (Ascii.N_of_ascii b) with
      | Eq => cmp s' t'
      | c => c
      end
  end.

Definition ltb (s t : string) : bool := match cmp s t with Lt => true | _ => false end.
Definition leb (s t : string) : bool := match cmp s t with Gt => false | _ => true end.

Lemma N_of_ascii_inj a b : Ascii.N_of_ascii a = Ascii.N_of_ascii b -> a = b.
Proof. intros H. by rewrite <- (Ascii.ascii_N_embedding a), H, Ascii.ascii_N_embedding. Qed.

Lemma cmp_refl s : cmp s s = Eq.
Proof. induction s; simpl; [done|]. by rewrite N.compare_refl. Qed.

Lemma cmp_eq s t : cmp s t = Eq -> s = t.
Proof.
  revert t. induction s as [|a s IH]; intros [|b t]; simpl; try done.
  destruct (N.compare_spec (Ascii.N_of_ascii a) (Ascii.N_of_ascii b)) as [He| |]; try done.
  intros H. f_equal; [by apply N_of_ascii_inj|auto].
Qed.

Lemma cmp_antisym s t : cmp t s = CompOpp (cmp s t).
Proof.
  revert t. induction s as [|a s IH]; intros [|b t]; simpl; try done.
  rewrite N.compare_antisym. by destruct (N.compare _ _); simpl.
Qed.

Lemma cmp_app_same p s t : cmp (p +:+ s) (p +:+ t) = cmp s t.
Proof. induction p; simpl; [done|]. by rewrite N.compare_refl. Qed.

Lemma cmp_lt_trans s t u : cmp s t = Lt -> cmp t u = Lt -> cmp s u = Lt.
Proof.
  revert t u. induction s as [|a s IH]; intros [|b t] [|c u]; simpl; try done.
  intros H1 H2.
  destruct (N.compare_spec (Ascii.N_of_ascii a) (Ascii.N_of_ascii b));
    destruct (N.compare_spec (Ascii.N_of_ascii b) (Ascii.N_of_ascii c)); try done;
    destruct (N.compare_spec (Ascii.N_of_ascii a) (Ascii.N_of_ascii c)); try lia; eauto.
Qed.

Lemma leb_refl s : leb s s = true.
Proof. unfold leb. by rewrite cmp_refl. Qed.

Lemma leb_total s t : leb s t = true \/ leb t s = true.
Proof. unfold leb. rewrite (cmp_antisym s t). destruct (cmp s t); simpl; auto. Qed.

Lemma leb_trans s t u : leb s t = true -> leb t u = true -> leb s u = true.
Proof.
  unfold leb. intros H1 H2.
  destruct (cmp s t) eqn:E1; try done; destruct (cmp t u) eqn:E2; try done.
  - apply cmp_eq in E1, E2. subst. by rewrite cmp_refl.
  - apply cmp_eq in E1. subst. by rewrite E2.
  - apply cmp_eq in E2. subst. by rewrite E1.
  - by rewrite (cmp_lt_trans s t u).
Qed.

Lemma leb_antisym s t : leb s t = true -> leb t s = true -> s = t.
Proof.
  unfold leb. rewrite (cmp_antisym s t). destruct (cmp s t) eqn:E1; simpl; try done.
  intros _ _. by apply cmp_eq.
Qed.

Lemma ltb_leb s t : ltb s t = negb (leb t s).
Proof. unfold ltb, leb. rewrite (cmp_antisym s t). by destruct (cmp s t). Qed.

End Text.

(** ** Decimal fields *)

Definition digit (z : Z) : ascii := Ascii.ascii_of_N (48 + Z.to_N (z mod 10)).

(** [z] as [n] decimal digits, leading zeros included. *)
Fixpoint pad (n : nat) (z : Z) : string :=
  match n with
  | O => ""
  | S n' => pad n' (z / 10) +:+ String (digit z) EmptyString
  end.

(** Drops the trailing zeros of a fraction. *)
Fixpoint trimZeros (s : string) : string :=
  match s with
  | EmptyString => EmptyString
  | String c rest =>
      match trimZeros rest with
      | EmptyString => if decide (c = "0"%char) then EmptyString else String c EmptyString
      | trimmed => String c trimmed
      end
  end.

(** ** Instants: nanoseconds since 1970-01-01T00:00:00Z *)

Abbreviation time := Z (only parsing).

Module GoTime.

Definition Nanosecond : Z := 1.
Definition Second : Z := 10 ^ 9.
Definition Minute : Z := 60 * Second.
Definition Hour : Z := 60 * Minute.

(** The zero time.Time, 0001-01-01T00:00:00Z; IsZero compares with it. *)
Definition zero : time := - 62135596800 * Second.
Definition IsZero (t : time) : bool := t =? zero.

Definition seconds (t : time) : Z := t / Second.
Definition nanos (t : time) : Z := t mod Second.
Definition day (t : time) : Z := seconds t / 86400.
Definition secondOfDay (t : time) : Z := seconds t mod 86400.

(** Proleptic Gregorian date of a day count, over 400-year eras that start on
    the first of March. *)
Definition civilOfEraDay (doe : Z) : Z * Z * Z :=
  let yoe := (doe - doe / 1460 + doe / 36524 - doe / 146096) / 365 in
  let doy := doe - (365 * yoe + yoe / 4 - yoe / 100) in
  let mp := (5 * doy + 2) / 153 in
  let d := doy - (153 * mp + 2) / 5 + 1 in
  let m := if mp <? 10 then mp + 3 else mp - 9 in
  (yoe + (if m <=? 2 then 1 else 0), m, d).

Definition civil (days : Z) : Z * Z * Z :=
  let z := days + 719468 in
  let '(y, m, d) := civilOfEraDay (z mod 146097) in
  (y + 400 * (z / 146097), m, d).

(** The inverse used by the parser. *)
Definition daysOf (year month d : Z) : Z :=
  let y := if month <=? 2 then year - 1 else year in
  let yoe := y mod 400 in
  let mp := if 2 <? month then month - 3 else month + 9 in
  let doy := (153 * mp + 2) / 5 + d - 1 in
  let doe := yoe * 365 + yoe / 4 - yoe / 100 + doy in
  (y / 400) * 146097 + doe - 719468.

(** Years 0000 to 9999, the range in which a year has four digits. *)
Definition fourDigitYear (t : time) : Prop :=
  daysOf 0 1 1 * 86400 * Second <= t < daysOf 10000 1 1 * 86400 * Second.

#[export] Instance fourDigitYear_dec t : Decision (fourDigitYear t).
Proof. unfold fourDigitYear. apply _. Defined.

(** YYYY-MM-DDTHH:MM:SS *)
Definition dateTimeText (t : time) : string :=
  let '(y, m, d) := civil (day t) in
  let s := secondOfDay t in
  pad 4 y +:+ "-" +:+ pad 2 m +:+ "-" +:+ pad 2 d +:+ "T" +:+
  pad 2 (s / 3600) +:+ ":" +:+ pad 2 (s / 60 mod 60) +:+ ":" +:+ pad 2 (s mod 60).

End GoTime.
Import GoTime.

(** [formatTime]: value.UTC().Format(time.RFC3339Nano), whose fraction drops its
    trailing zeros and disappears when it is zero. *)
Definition formatTime (t : time) : string :=
  dateTimeText t +:+
  (if nanos t =? 0 then "Z" else "." +:+ trimZeros (pad 9 (nanos t)) +:+ "Z").

(** [formatSortableTime]: the layout with nine fixed fraction digits. *)
Definition formatSortableTime (t : time) : string :=
  dateTimeText t +:+ "." +:+ pad 9 (nanos t) +:+ "Z".

Example formatTime_ex1 : formatTime 0 = "1970-01-01T00:00:00Z".
Proof. reflexivity. Qed.
Example formatTime_ex2 : formatTime 1767225600120000000 = "2026-01-01T00:00:00.12Z".
Proof. reflexivity. Qed.
Example formatTime_ex3 : formatTime zero = "0001-01-01T00:00:00Z".
Proof. reflexivity. Qed.
Example formatSortableTime_ex :
  formatSortableTime 951782400000000001 = "2000-02-29T00:00:00.000000001Z".
Proof. reflexivity. Qed.

(** ** Reading a timestamp back: time.Parse(time.RFC3339Nano, text) on UTC text *)

Definition digitVal (c : ascii) : option Z :=
  let n := Z.of_N (N_of_ascii c) in
  if (48 <=? n) && (n <=? 57) then Some (n - 48) else None.

Fixpoint parseDigits (n : nat) (acc : Z) (s : string) : option (Z * string) :=
  match n with
  | O => Some (acc, s)
  | S n' =>
      match s with
      | EmptyString => None
      | String c rest => v ← digitVal c; parseDigits n' (10 * acc + v) rest
      end
  end.

Definition parseChar (c : ascii) (s : string) : option string :=
  match s with
  | String c' rest => if decide (c = c') then Some rest else None
  | EmptyString => None
  end.

(** The fraction's digits, each with its weight; digits past the ninth are ignored. *)
Fixpoint parseFraction (w : nat) (s : string) : Z * string :=
  match s with
  | String c rest =>
      match digitVal c with
      | Some v =>
          let '(ns, tail) := parseFraction (pred w) rest in
          ((if (w =? 0)%nat then 0 else v * 10 ^ Z.of_nat (pred w)) + ns, tail)
      | None => (0, s)
      end
  | EmptyString => (0, s)
  end.

Definition isLeap (y : Z) : bool :=
  (y mod 4 =? 0) && (negb (y mod 100 =? 0) || (y mod 400 =? 0)).
Definition daysIn (m y : Z) : Z :=
  if m =? 2 then (if isLeap y then 29 else 28)
  else if (m =? 4) || (m =? 6) || (m =? 9) || (m =? 11) then 30 else 31.

Definition parseTime (s : string) : option time :=
  '(y, s) ← parseDigits 4 0 s; s ← parseChar "-" s;
  '(m, s) ← parseDigits 2 0 s; s ← parseChar "-" s;
  '(d, s) ← parseDigits 2 0 s; s ← parseChar "T" s;
  '(h, s) ← parseDigits 2 0 s; s ← parseChar ":" s;
  '(mi, s) ← parseDigits 2 0 s; s ← parseChar ":" s;
  '(sec, s) ← parseDigits 2 0 s;
  '(ns, s) ← match parseChar "." s with
             | Some s' =>
                 match s' with
                 | String c _ => _ ← digitVal c; Some (parseFraction 9 s')
                 | EmptyString => None
                 end
             | None => Some (0, s)
             end;
  s ← parseChar "Z" s;
  if (s =? "")%string && (1 <=? m) && (m <=? 12) && (1 <=? d) && (d <=? daysIn m y) &&
     (h <? 24) && (mi <? 60) && (sec <? 60)
  then Some ((((daysOf y m d * 24 + h) * 60 + mi) * 60 + sec) * Second + ns)
  else None.

Example parseTime_ex : parseTime "2026-01-01T00:00:00.12Z" = Some 1767225600120000000.
Proof. reflexivity. Qed.
Example parseTime_bad : parseTime "2026-02-29T00:00:00Z" = None.
Proof. reflexivity. Qed.

(** ** The calendar: a 400-year era is 400 years of at most 366 days *)

Module Calendar.

(** First day of year [y] of an era, and the year the conversion picks. *)
Definition yearStart (y : Z) : Z := 365 * y + y / 4 - y / 100.
Definition yearOf (doe : Z) : Z := (doe - doe / 1460 + doe / 36524 - doe / 146096) / 365.
(** Month and day of a day of the (March-based) year. *)
Definition monthDay (doy : Z) : Z * Z :=
  let mp := (5 * doy + 2) / 153 in
  (if mp <? 10 then mp + 3 else mp - 9, doy - (153 * mp + 2) / 5 + 1).
Definition carry (m : Z) : Z := if m <=? 2 then 1 else 0.

Definition dayKey (ymd : Z * Z * Z) : Z :=
  let '(y, m, d) := ymd in y * 512 + m * 32 + d.

Lemma civilOfEraDay_eq doe :
  civilOfEraDay doe =
  let y := yearOf doe in
  let '(m, d) := monthDay (doe - yearStart y) in (y + carry m, m, d).
Proof. done. Qed.

Definition rangeCheck (P : Z -> bool) (n : nat) : bool := forallb P (seqZ 0 (Z.of_nat n)).

Lemma rangeCheck_spec P n i :
  rangeCheck P n = true -> 0 <= i < Z.of_nat n -> P i = true.
Proof.
  unfold rangeCheck. rewrite forallb_forall. intros H Hi. apply H.
  apply list_elem_of_In. apply elem_of_seqZ. lia.
Qed.

Definition yearCheck (y : Z) : bool :=
  (yearOf (yearStart y) =? y) && ((y =? 0) || (yearOf (yearStart y - 1) =? y - 1)) &&
  (yearStart (y + 1) - yearStart y <=? 366) &&
  (isLeap (y + 1) || ((yearStart (y + 1) - yearStart y =? 365) && negb (y =? 399))).

Lemma years_checked : rangeCheck yearCheck 400 = true.
Proof. vm_compute. reflexivity. Qed.

Definition monthKey (doy : Z) : Z :=
  let '(m, d) := monthDay doy in carry m * 512 + m * 32 + d.

Definition doyCheck (doy : Z) : bool :=
  let '(m, d) := monthDay doy in
  (1 <=? m) && (m <=? 12) && (1 <=? d) &&
  ((d <=? daysIn m 1) || ((doy =? 365) && (m =? 2) && (d =? 29))) &&
  (let mp := if 2 <? m then m - 3 else m + 9 in (153 * mp + 2) / 5 + d - 1 =? doy) &&
  ((doy =? 365) || (monthKey doy <? monthKey (doy + 1))) &&
  (monthKey doy <? monthKey 0 + 512).

Lemma days_checked : rangeCheck doyCheck 366 = true.
Proof. vm_compute. reflexivity. Qed.

Lemma yearOf_mono a b : 0 <= a <= b -> b < 146096 -> yearOf a <= yearOf b.
Proof.
  intros Hab Hb. unfold yearOf. apply Z.div_le_mono; [lia|].
  rewrite (Z.div_small b 146096), (Z.div_small a 146096) by lia.
  assert (b / 1460 - a / 1460 <= b - a).
  { pose proof (Z.div_mod a 1460). pose proof (Z.div_mod b 1460).
    pose proof (Z.mod_pos_bound a 1460). pose proof (Z.mod_pos_bound b 1460). lia. }
  pose proof (Z.div_le_mono a b 36524). lia.
Qed.

Lemma yearOf_spec doe : 0 <= doe < 146097 ->
  let y := yearOf doe in
  0 <= y < 400 /\ yearStart y <= doe /\ (y < 399 -> doe < yearStart (y + 1)).
Proof.
  intros Hd y. destruct (decide (doe = 146096)) as [Hlast|Hlast].
  { subst y. rewrite Hlast. vm_compute. intuition discriminate. }
  assert (Hy : 0 <= y < 400).
  { pose proof (yearOf_mono 0 doe). pose proof (yearOf_mono doe 146095).
    change (yearOf 0) with 0 in *. change (yearOf 146095) with 399 in *. lia. }
  pose proof (rangeCheck_spec _ _ y years_checked ltac:(lia)) as Hc. unfold yearCheck in Hc.
  assert (Hs : 0 <= yearStart y) by (unfold yearStart; pose proof (Z.div_pos y 4);
    pose proof (Z.div_le_upper_bound y 100 y); lia).
  split; [done|split].
  - destruct (decide (yearStart y <= doe)); [done|exfalso].
    pose proof (yearOf_mono doe (yearStart y - 1)).
    assert (yearStart y <= 146096).
    { unfold yearStart. pose proof (Z.div_le_mono y 399 4). 
      change (399 / 4) with 99 in *. pose proof (Z.div_pos y 100). lia. }
    destruct (Z.eqb_spec y 0); [subst y; rewrite e in *; change (yearStart 0) with 0 in *; lia|].
    lia.
  - intros Hy'. pose proof (rangeCheck_spec _ _ (y + 1) years_checked ltac:(lia)) as Hc'.
    unfold yearCheck in Hc'. destruct (decide (doe < yearStart (y + 1))); [done|exfalso].
    assert (0 <= yearStart (y + 1)) by (unfold yearStart; pose proof (Z.div_pos (y + 1) 4);
      pose proof (Z.div_le_upper_bound (y + 1) 100 (y + 1)); lia).
    pose proof (yearOf_mono (yearStart (y + 1)) doe). lia.
Qed.

(** Year, month and day of a day of the era, with the offset in the year. *)
Lemma era_day doe : 0 <= doe < 146097 ->
  exists y doy m d,
    civilOfEraDay doe = (y + carry m, m, d) /\ 0 <= y < 400 /\ 0 <= doy <= 365 /\
    doe = yearStart y + doy /\ monthDay doy = (m, d) /\
    (y < 399 -> doe < yearStart (y + 1)) /\ (doy = 365 -> isLeap (y + 1) = true).
Proof.
  intros Hd. pose proof (yearOf_spec doe Hd) as (Hy & H1 & H2). set (y := yearOf doe) in *.
  destruct (monthDay (doe - yearStart y)) as [m d] eqn:Emd.
  exists y, (doe - yearStart y), m, d. rewrite civilOfEraDay_eq. fold y. cbv zeta. rewrite Emd.
  pose proof (rangeCheck_spec _ _ y years_checked ltac:(lia)) as Hc. unfold yearCheck in Hc.
  assert (Hlast : y = 399 -> yearStart y = 145731) by (by intros ->).
  repeat split; try lia; try done.
  intros H365. destruct (isLeap (y + 1)); [done|].
  destruct (decide (y = 399)); lia.
Qed.

Lemma daysOf_shift y m d e : daysOf (y + 400 * e) m d = daysOf y m d + 146097 * e.
Proof.
  unfold daysOf.
  replace (if m <=? 2 then y + 400 * e - 1 else y + 400 * e)
    with ((if m <=? 2 then y - 1 else y) + e * 400) by (destruct (m <=? 2); lia).
  rewrite Z.mod_add, Z.div_add by lia. lia.
Qed.

Lemma daysIn_shift m y e : daysIn m (y + 400 * e) = daysIn m y.
Proof.
  unfold daysIn, isLeap.
  replace (y + 400 * e) with (y + (100 * e) * 4) at 1 by lia.
  replace (y + 400 * e) with (y + (4 * e) * 100) at 1 by lia.
  replace (y + 400 * e) with (y + e * 400) by lia.
  by rewrite !Z.mod_add by lia.
Qed.

Lemma daysIn_le m y : daysIn m 1 <= daysIn m y <= 31.
Proof.
  unfold daysIn. change (isLeap 1) with false.
  destruct (m =? 2), (isLeap y); try lia; destruct (_ || _); lia.
Qed.

Lemma civilOfEraDay_spec doe y m d : 0 <= doe < 146097 ->
  civilOfEraDay doe = (y, m, d) ->
  1 <= m <= 12 /\ 1 <= d <= daysIn m y /\ daysOf y m d = doe - 719468.
Proof.
  intros Hd Hc. destruct (era_day doe Hd) as (y0 & doy & m0 & d0 & Hc' & Hy & Hdoy & He & Hmd & _ & Hl).
  rewrite Hc' in Hc. injection Hc as <- <- <-.
  pose proof (rangeCheck_spec _ _ doy days_checked ltac:(lia)) as Hk. unfold doyCheck in Hk.
  rewrite Hmd in Hk. split; [lia|]. split.
  - pose proof (daysIn_le m0 (y0 + carry m0)).
    destruct (Z.leb_spec d0 (daysIn m0 1)); [lia|].
    assert (m0 = 2 /\ d0 = 29 /\ doy = 365) as (-> & -> & ->) by lia.
    unfold daysIn. simpl. change (carry 2) with 1. rewrite Hl by done. lia.
  - unfold daysOf. replace (if m0 <=? 2 then y0 + carry m0 - 1 else y0 + carry m0) with y0
      by (unfold carry; destruct (m0 <=? 2); lia).
    rewrite Z.mod_small, Z.div_small by lia. unfold yearStart in He. lia.
Qed.

(** [daysOf] inverts [civil], and [civil] gives a real month and day. *)
Lemma civil_spec days y m d :
  civil days = (y, m, d) ->
  1 <= m <= 12 /\ 1 <= d <= daysIn m y /\ daysOf y m d = days.
Proof.
  unfold civil. pose proof (Z.mod_pos_bound (days + 719468) 146097 ltac:(lia)) as Hb.
  destruct (civilOfEraDay _) as [[y0 m0] d0] eqn:Ec. intros [= <- <- <-].
  rewrite daysOf_shift, daysIn_shift.
  pose proof (civilOfEraDay_spec _ _ _ _ Hb Ec).
  pose proof (Z.div_mod (days + 719468) 146097 ltac:(lia)). lia.
Qed.

Lemma eraKey_succ doe : 0 <= doe < 146096 ->
  dayKey (civilOfEraDay doe) < dayKey (civilOfEraDay (doe + 1)).
Proof.
  intros Hd.
  destruct (era_day doe ltac:(lia)) as (y & doy & m & d & -> & Hy & Hdoy & He & Hmd & Hlt & _).
  destruct (era_day (doe + 1) ltac:(lia)) as (y' & doy' & m' & d' & -> & Hy' & Hdoy' & He' & Hmd' & Hlt' & _).
  pose proof (rangeCheck_spec _ _ doy days_checked ltac:(lia)) as Hk. unfold doyCheck in Hk.
  rewrite Hmd in Hk.
  assert (Hmk : monthKey doy = carry m * 512 + m * 32 + d) by (unfold monthKey; by rewrite Hmd).
  assert (Hmk' : monthKey doy' = carry m' * 512 + m' * 32 + d') by (unfold monthKey; by rewrite Hmd').
  assert (Hmon : forall a b, a < b -> yearStart (a + 1) <= yearStart b).
  { intros a b Hab. unfold yearStart. pose proof (Z.div_le_mono (a + 1) b 4).
    assert (b / 100 - (a + 1) / 100 <= b - (a + 1)).
    { pose proof (Z.div_mod (a + 1) 100). pose proof (Z.div_mod b 100).
      pose proof (Z.mod_pos_bound (a + 1) 100). pose proof (Z.mod_pos_bound b 100). lia. }
    lia. }
  unfold dayKey. destruct (Z.lt_trichotomy y y') as [Hlt1|[Heq|Hgt]].
  - assert (y' = y + 1).
    { destruct (decide (y' = y + 1)); [done|]. pose proof (Hmon (y + 1) y' ltac:(lia)).
      pose proof (Hmon y (y + 1) ltac:(lia)).
      assert (yearStart (y + 1) < yearStart (y + 1 + 1)).
      { unfold yearStart. pose proof (Z.div_le_mono (y + 1) (y + 1 + 1) 4).
        assert ((y + 1 + 1) / 100 <= (y + 1) / 100 + 1).
        { replace (y + 1 + 1) with (y + 1 + 1) by lia.
          pose proof (Z.div_le_mono (y + 1 + 1) (y + 1 + 1 * 100) 100). rewrite Z.div_add in * by lia. lia. }
        lia. }
      lia. }
    subst y'. assert (doy' = 0) by (pose proof (Hlt ltac:(lia)); lia). subst doy'. lia.
  - subst y'. assert (doy' = doy + 1) by lia. subst doy'. lia.
  - pose proof (Hmon y' y Hgt). pose proof (Hlt' ltac:(lia)). lia.
Qed.

Lemma dayKey_succ days : dayKey (civil days) < dayKey (civil (days + 1)).
Proof.
  unfold civil. pose proof (Z.mod_pos_bound (days + 719468) 146097 ltac:(lia)) as Hb.
  pose proof (Z.div_mod (days + 719468) 146097 ltac:(lia)) as Hdm.
  set (q := (days + 719468) / 146097) in *. set (r := (days + 719468) mod 146097) in *.
  destruct (Z.eqb_spec r 146096) as [Hr|Hr].
  - replace ((days + 1 + 719468) mod 146097) with 0
      by (apply (Z.mod_unique _ _ (q + 1)); lia).
    replace ((days + 1 + 719468) / 146097) with (q + 1)
      by (apply (Z.div_unique _ _ _ 0); lia).
    rewrite Hr. change (civilOfEraDay 146096) with (400, 2, 29).
    change (civilOfEraDay 0) with (0, 3, 1). unfold dayKey. lia.
  - replace ((days + 1 + 719468) mod 146097) with (r + 1)
      by (apply (Z.mod_unique _ _ q); lia).
    replace ((days + 1 + 719468) / 146097) with q
      by (apply (Z.div_unique _ _ _ (r + 1)); lia).
    pose proof (eraKey_succ r ltac:(lia)).
    destruct (civilOfEraDay r) as [[y m] d].
    destruct (civilOfEraDay (r + 1)) as [[y' m'] d']. unfold dayKey in *. lia.
Qed.

Lemma dayKey_mono a b : a < b -> dayKey (civil a) < dayKey (civil b).
Proof.
  intros Hab. replace b with (a + 1 + Z.of_nat (Z.to_nat (b - a - 1))) by lia.
  induction (Z.to_nat (b - a - 1)) as [|n IH].
  - rewrite Z.add_0_r. apply dayKey_succ.
  - rewrite Nat2Z.inj_succ. etrans; [apply IH|].
    replace (a + 1 + Z.succ (Z.of_nat n)) with (a + 1 + Z.of_nat n + 1) by lia.
    apply dayKey_succ.
Qed.

End Calendar.

(** ** Text of fixed-width fields *)

Lemma digit_code z : N_of_ascii (digit z) = (48 + Z.to_N (z mod 10))%N.
Proof.
  unfold digit. apply N_ascii_embedding.
  pose proof (Z.mod_pos_bound z 10 ltac:(lia)). lia.
Qed.

Lemma digitVal_digit z : digitVal (digit z) = Some (z mod 10).
Proof.
  unfold digitVal. rewrite digit_code. pose proof (Z.mod_pos_bound z 10 ltac:(lia)).
  rewrite N2Z.inj_add, Z2N.id by lia.
  rewrite (proj2 (Z.leb_le _ _)), (proj2 (Z.leb_le _ _)) by lia. simpl. f_equal. lia.
Qed.

Lemma pad_snoc n z s : pad (S n) z +:+ s = pad n (z / 10) +:+ String (digit z) s.
Proof. cbn [pad]. by rewrite string_app_assoc. Qed.

Lemma digit_field n z : 0 <= z < 10 ^ Z.of_nat (S n) ->
  0 <= z / 10 < 10 ^ Z.of_nat n /\ z = 10 * (z / 10) + z mod 10 /\ 0 <= z mod 10 < 10.
Proof.
  intros Hz. rewrite Nat2Z.inj_succ, Z.pow_succ_r in Hz by lia.
  pose proof (Z.div_mod z 10 ltac:(lia)). pose proof (Z.mod_pos_bound z 10 ltac:(lia)).
  split; [|lia]. split; [apply Z.div_pos; lia|apply Z.div_lt_upper_bound; lia].
Qed.

(** Fixed-width fields compare as the numbers do, and then by what follows. *)
Lemma cmp_pad n a b s t :
  0 <= a < 10 ^ Z.of_nat n -> 0 <= b < 10 ^ Z.of_nat n ->
  Text.cmp (pad n a +:+ s) (pad n b +:+ t) =
  match a ?= b with Eq => Text.cmp s t | c => c end.
Proof.
  revert a b s t. induction n as [|n IH]; intros a b s t Ha Hb.
  { simpl. change (10 ^ Z.of_nat 0) with 1 in *. replace a with b by lia. by rewrite Z.compare_refl. }
  rewrite !pad_snoc. destruct (digit_field n a Ha) as (Ha1 & Ha2 & Ha3).
  destruct (digit_field n b Hb) as (Hb1 & Hb2 & Hb3). rewrite IH by done.
  destruct (Z.compare_spec (a / 10) (b / 10)).
  - simpl. rewrite !digit_code.
    destruct (N.compare_spec (48 + Z.to_N (a mod 10)) (48 + Z.to_N (b mod 10)));
      destruct (Z.compare_spec a b); try done; lia.
  - destruct (Z.compare_spec a b); try done; lia.
  - destruct (Z.compare_spec a b); try done; lia.
Qed.

Lemma parse_pad n z acc s : 0 <= z < 10 ^ Z.of_nat n ->
  parseDigits n acc (pad n z +:+ s) = Some (acc * 10 ^ Z.of_nat n + z, s).
Proof.
  enough (H : forall n k z acc s, 0 <= z < 10 ^ Z.of_nat n ->
    parseDigits (n + k) acc (pad n z +:+ s) =
    parseDigits k (acc * 10 ^ Z.of_nat n + z) s).
  { intros Hz. specialize (H n 0%nat z acc s Hz). by rewrite Nat.add_0_r in H. }
  clear. induction n as [|n IH]; intros k z acc s Hz.
  { simpl. change (10 ^ Z.of_nat 0) with 1 in *. f_equal. lia. }
  destruct (digit_field n z Hz) as (H1 & H2 & H3).
  rewrite pad_snoc. replace (S n + k)%nat with (n + S k)%nat by lia. rewrite IH by done.
  simpl. rewrite digitVal_digit. simpl. f_equal.
  rewrite Nat2Z.inj_succ, Z.pow_succ_r by lia. lia.
Qed.

Lemma parse_pad0 n z s : 0 <= z < 10 ^ Z.of_nat n ->
  parseDigits n 0 (pad n z +:+ s) = Some (z, s).
Proof. intros Hz. rewrite parse_pad by done. do 2 f_equal. Qed.

(** *** The fraction *)

Definition allDigits (s : string) : Prop :=
  Forall (λ c, is_Some (digitVal c)) (chars s).

(** The value of a digit string whose first digit has weight 10^(w-1). *)
Fixpoint fractionValue (w : nat) (s : string) : Z :=
  match s with
  | EmptyString => 0
  | String c rest =>
      (if (w =? 0)%nat then 0 else default 0 (digitVal c) * 10 ^ Z.of_nat (pred w))
      + fractionValue (pred w) rest
  end.

Lemma parseFraction_value w s : allDigits s ->
  parseFraction w (s +:+ "Z") = (fractionValue w s, "Z").
Proof.
  revert w. induction s as [|c s IH]; intros w Hs; [done|].
  inversion Hs as [|? ? [v Hv] Hs']; subst. simpl. rewrite Hv, IH by done. done.
Qed.

Lemma trimZeros_digits s : allDigits s -> allDigits (trimZeros s).
Proof.
  induction s as [|c s IH]; intros Hs; [done|].
  inversion Hs; subst. simpl. specialize (IH ltac:(done)).
  destruct (trimZeros s) eqn:E.
  - case_decide; [constructor|]. by repeat constructor.
  - by constructor.
Qed.

Lemma fractionValue_trim w s : allDigits s ->
  fractionValue w (trimZeros s) = fractionValue w s.
Proof.
  revert w. induction s as [|c s IH]; intros w Hs; [done|].
  inversion Hs; subst. specialize (IH (pred w) ltac:(done)). simpl.
  destruct (trimZeros s) as [|c' s'] eqn:E.
  - rewrite <- IH. case_decide; subst; simpl; [|lia].
    change (default 0 (digitVal "0")) with 0. destruct (w =? 0)%nat; lia.
  - simpl in *. rewrite <- IH. done.
Qed.

Lemma allDigits_app s t : allDigits s -> allDigits t -> allDigits (s +:+ t).
Proof.
  unfold allDigits. induction s; simpl; [done|]. intros Hs Ht. inversion Hs; subst.
  constructor; auto.
Qed.

Lemma pad_digits n z : allDigits (pad n z).
Proof.
  revert z. induction n as [|n IH]; intros z; simpl; [constructor|].
  apply allDigits_app; [apply IH|]. constructor; [|constructor].
  rewrite digitVal_digit. eauto.
Qed.

Lemma fractionValue_pad n z : 0 <= z < 10 ^ Z.of_nat n -> fractionValue n (pad n z) = z.
Proof.
  enough (H : forall n k z s, 0 <= z < 10 ^ Z.of_nat n ->
    fractionValue (n + k) (pad n z +:+ s) = z * 10 ^ Z.of_nat k + fractionValue k s).
  { intros Hz. specialize (H n 0%nat z ""%string Hz).
    rewrite Nat.add_0_r, string_app_nil_r in H. rewrite H. simpl. lia. }
  clear. induction n as [|n IH]; intros k z s Hz.
  { change (10 ^ Z.of_nat 0) with 1 in *. replace z with 0 by lia. simpl. done. }
  destruct (digit_field n z Hz) as (H1 & H2 & H3).
  rewrite pad_snoc. replace (S n + k)%nat with (n + S k)%nat by lia. rewrite IH by done.
  cbn [fractionValue Nat.eqb pred]. rewrite digitVal_digit. cbn [default from_option id].
  rewrite Nat2Z.inj_succ, Z.pow_succ_r by lia.
  set (p := 10 ^ Z.of_nat k). set (f := fractionValue k s).
  replace (z * p) with ((10 * (z / 10) + z mod 10) * p) by (by rewrite <- H2). ring.
Qed.

(** ** Dates and times of day *)

Module Fields.

(** Everything [dateTimeText] prints, with the ranges of the fields. *)
Lemma civil_fields t : fourDigitYear t ->
  exists y m d, civil (day t) = (y, m, d) /\ 0 <= y < 10000 /\ 1 <= m <= 12 /\
    1 <= d <= 31 /\ d <= daysIn m y /\ daysOf y m d = day t.
Proof.
  intros Ht. destruct (civil (day t)) as [[y m] d] eqn:Ec.
  destruct (Calendar.civil_spec _ _ _ _ Ec) as (Hm & Hd & Hday).
  pose proof (Calendar.daysIn_le m y).
  exists y, m, d. split; [done|]. split; [|by repeat split; try lia].
  assert (Hr : daysOf 0 1 1 <= day t < daysOf 10000 1 1).
  { unfold fourDigitYear in Ht. unfold day, seconds, Second in *. split.
    - apply Z.div_le_lower_bound; [lia|]. apply Z.div_le_lower_bound; lia.
    - apply Z.div_lt_upper_bound; [lia|]. apply Z.div_lt_upper_bound; lia. }
  change (daysOf 0 1 1) with (-719528) in Hr. change (daysOf 10000 1 1) with 2932897 in Hr.
  assert (H1 : Calendar.dayKey (civil (-719528)) <= Calendar.dayKey (y, m, d)).
  { rewrite <- Ec. destruct (decide (day t = -719528)) as [->|]; [done|].
    apply Z.lt_le_incl, Calendar.dayKey_mono. lia. }
  assert (H2 : Calendar.dayKey (y, m, d) < Calendar.dayKey (civil 2932897)).
  { rewrite <- Ec. apply Calendar.dayKey_mono. lia. }
  change (civil (-719528)) with (0, 1, 1) in H1. change (civil 2932897) with (10000, 1, 1) in H2.
  unfold Calendar.dayKey in *. lia.
Qed.

Lemma secondOfDay_bound t : 0 <= secondOfDay t < 86400.
Proof. apply Z.mod_pos_bound. lia. Qed.

Lemma seconds_split t : seconds t = day t * 86400 + secondOfDay t.
Proof. unfold day, secondOfDay. pose proof (Z.div_mod (seconds t) 86400). lia. Qed.

Lemma time_split t : t = seconds t * Second + nanos t.
Proof. unfold seconds, nanos, Second. pose proof (Z.div_mod t (10 ^ 9)). lia. Qed.

Lemma nanos_bound t : 0 <= nanos t < 10 ^ 9.
Proof. apply Z.mod_pos_bound. unfold Second. lia. Qed.

Lemma clock_fields s : 0 <= s < 86400 ->
  0 <= s / 3600 < 24 /\ 0 <= s / 60 mod 60 < 60 /\ 0 <= s mod 60 < 60 /\
  s = (s / 3600 * 60 + s / 60 mod 60) * 60 + s mod 60.
Proof.
  intros Hs. change 3600 with (60 * 60). rewrite <- Z.div_div by lia.
  pose proof (Z.div_mod s 60). pose proof (Z.div_mod (s / 60) 60).
  pose proof (Z.mod_pos_bound s 60). pose proof (Z.mod_pos_bound (s / 60) 60). lia.
Qed.

Lemma cmp_char c s t : Text.cmp (String c s) (String c t) = Text.cmp s t.
Proof. simpl. by rewrite N.compare_refl. Qed.

Lemma cmp_str c s t : Text.cmp (String c "" +:+ s) (String c "" +:+ t) = Text.cmp s t.
Proof. apply cmp_char. Qed.

(** Lexicographic comparison of two fields is comparison of the combined number. *)
Lemma lex_step (k a1 r1 a2 r2 : Z) (X : comparison) :
  0 <= r1 < k -> 0 <= r2 < k ->
  match a1 ?= a2 with Eq => match r1 ?= r2 with Eq => X | c => c end | c => c end =
  match a1 * k + r1 ?= a2 * k + r2 with Eq => X | c => c end.
Proof.
  intros H1 H2. destruct (Z.compare_spec a1 a2), (Z.compare_spec r1 r2),
    (Z.compare_spec (a1 * k + r1) (a2 * k + r2)); subst; try done; nia.
Qed.

Lemma dayKey_compare a b :
  (Calendar.dayKey (civil a) ?= Calendar.dayKey (civil b)) = (a ?= b).
Proof.
  destruct (Z.compare_spec a b) as [->|H|H].
  - by rewrite Z.compare_refl.
  - by apply Z.compare_lt_iff, Calendar.dayKey_mono.
  - by apply Z.compare_gt_iff, Calendar.dayKey_mono.
Qed.

(** Two date-times compare as their seconds do, and then by what follows. *)
Lemma cmp_dateTimeText t1 t2 s1 s2 : fourDigitYear t1 -> fourDigitYear t2 ->
  Text.cmp (dateTimeText t1 +:+ s1) (dateTimeText t2 +:+ s2) =
  match seconds t1 ?= seconds t2 with Eq => Text.cmp s1 s2 | c => c end.
Proof.
  intros Ht1 Ht2. pose proof (dayKey_compare (day t1) (day t2)) as Hdk. unfold dateTimeText.
  destruct (civil_fields t1 Ht1) as (y1 & m1 & d1 & E1 & Hy1 & Hm1 & Hd1 & _ & _).
  destruct (civil_fields t2 Ht2) as (y2 & m2 & d2 & E2 & Hy2 & Hm2 & Hd2 & _ & _).
  rewrite E1, E2 in *. rewrite !string_app_assoc.
  pose proof (clock_fields _ (secondOfDay_bound t1)) as (Hh1 & Hi1 & Hs1 & Hc1).
  pose proof (clock_fields _ (secondOfDay_bound t2)) as (Hh2 & Hi2 & Hs2 & Hc2).
  do 5 (rewrite cmp_pad by (simpl; lia); rewrite cmp_str). rewrite cmp_pad by (simpl; lia).
  rewrite (lex_step 60 (secondOfDay t1 / 60 mod 60)) by lia.
  rewrite (lex_step 3600 (secondOfDay t1 / 3600)) by lia.
  rewrite (lex_step 32 m1) by lia. rewrite (lex_step 512 y1) by lia.
  replace (y1 * 512 + (m1 * 32 + d1)) with (Calendar.dayKey (y1, m1, d1)) by (simpl; lia).
  replace (y2 * 512 + (m2 * 32 + d2)) with (Calendar.dayKey (y2, m2, d2)) by (simpl; lia).
  rewrite Hdk, (lex_step 86400) by lia.
  match goal with |- match ?a ?= ?b with _ => _ end = _ =>
    replace a with (seconds t1) by (rewrite seconds_split; lia);
    replace b with (seconds t2) by (rewrite seconds_split; lia)
  end. done.
Qed.

(** The parser's view of what [dateTimeText] printed. *)
Lemma parse_dateTimeText t : fourDigitYear t ->
  exists y m d, 0 <= y < 10000 /\ 1 <= m <= 12 /\ 1 <= d <= 31 /\ d <= daysIn m y /\
    daysOf y m d = day t /\
    forall rest, dateTimeText t +:+ rest =
      pad 4 y +:+ "-" +:+ pad 2 m +:+ "-" +:+ pad 2 d +:+ "T" +:+
      pad 2 (secondOfDay t / 3600) +:+ ":" +:+ pad 2 (secondOfDay t / 60 mod 60) +:+ ":" +:+
      pad 2 (secondOfDay t mod 60) +:+ rest.
Proof.
  intros Ht. destruct (civil_fields t Ht) as (y & m & d & E & Hy & Hm & Hd & Hdm & Hday).
  exists y, m, d. repeat split; try lia. intros rest. unfold dateTimeText. rewrite E.
  by rewrite !string_app_assoc.
Qed.

Lemma parseChar_app c s : parseChar c (String c "" +:+ s) = Some s.
Proof. rewrite string_app_cons, string_app_nil_l. unfold parseChar. by rewrite decide_True. Qed.

End Fields.

(** ** The properties of the formats *)

Module TimesTheory.
Import Fields.

(** Sortable text: the byte order of the text is the order of the instants. *)
Lemma cmp_formatSortableTime t1 t2 : fourDigitYear t1 -> fourDigitYear t2 ->
  Text.cmp (formatSortableTime t1) (formatSortableTime t2) = (t1 ?= t2).
Proof.
  intros H1 H2. unfold formatSortableTime. rewrite cmp_dateTimeText, cmp_str by done.
  pose proof (nanos_bound t1). pose proof (nanos_bound t2).
  rewrite cmp_pad by (simpl; lia). rewrite Text.cmp_refl, (lex_step Second) by (unfold Second; lia).
  rewrite <- !time_split. by destruct (t1 ?= t2).
Qed.

(** Trimmed text still orders instants that differ in their whole second. *)
Lemma cmp_formatTime_seconds t1 t2 : fourDigitYear t1 -> fourDigitYear t2 ->
  seconds t1 < seconds t2 -> Text.cmp (formatTime t1) (formatTime t2) = Lt.
Proof.
  intros H1 H2 Hlt. unfold formatTime. rewrite cmp_dateTimeText by done.
  by rewrite (proj2 (Z.compare_lt_iff _ _) Hlt).
Qed.

Lemma trimZeros_cons n z : 0 < z < 10 ^ Z.of_nat n -> trimZeros (pad n z) <> "".
Proof.
  intros Hz He. pose proof (fractionValue_trim n _ (pad_digits n z)) as H.
  rewrite He, fractionValue_pad in H by lia. simpl in H. lia.
Qed.

(** The part of the parser that reads the fraction. *)
Definition fractionOf (s : string) : option (Z * string) :=
  match parseChar "." s with
  | Some s' =>
      match s' with
      | String c _ => _ ← digitVal c; Some (parseFraction 9 s')
      | EmptyString => None
      end
  | None => Some (0, s)
  end.

(** A printed date-time parses whatever way its fraction is printed. *)
Lemma parse_text t tail : fourDigitYear t -> fractionOf tail = Some (nanos t, "Z") ->
  parseTime (dateTimeText t +:+ tail) = Some t.
Proof.
  intros Ht Htail. unfold parseTime.
  destruct (parse_dateTimeText t Ht) as (y & m & d & Hy & Hm & Hd & Hdm & Hday & ->).
  pose proof (clock_fields _ (secondOfDay_bound t)) as (Hh & Hi & Hs & Hc).
  do 5 (rewrite parse_pad0 by (simpl; lia); cbn [mbind option_bind]; rewrite parseChar_app;
        cbn [mbind option_bind]).
  rewrite parse_pad0 by (simpl; lia). cbn [mbind option_bind].
  unfold fractionOf in Htail. rewrite Htail. cbn [mbind option_bind].
  change (parseChar "Z" "Z") with (Some ""%string). cbn [mbind option_bind].
  assert (Hok : (("" =? "")%string && (1 <=? m) && (m <=? 12) && (1 <=? d) && (d <=? daysIn m y) &&
     (secondOfDay t / 3600 <? 24) && (secondOfDay t / 60 mod 60 <? 60) &&
     (secondOfDay t mod 60 <? 60)) = true) by (simpl; lia).
  rewrite Hok, Hday. f_equal. pose proof (time_split t). pose proof (seconds_split t). lia.
Qed.

Lemma fractionOf_digits s v : allDigits s -> s <> "" -> fractionValue 9 s = v ->
  fractionOf ("." +:+ s +:+ "Z") = Some (v, "Z").
Proof.
  intros Hdig Hne Hval. unfold fractionOf. rewrite parseChar_app. destruct s as [|c r]; [done|].
  rewrite string_app_cons. inversion Hdig as [|? ? [w Hw] _]; subst. rewrite Hw.
  cbn [mbind option_bind]. by rewrite <- string_app_cons, parseFraction_value.
Qed.

(** Parsing what [formatTime] wrote gives the instant back. *)
Lemma parse_formatTime t : fourDigitYear t -> parseTime (formatTime t) = Some t.
Proof.
  intros Ht. unfold formatTime. apply parse_text; [done|]. pose proof (nanos_bound t).
  destruct (Z.eqb_spec (nanos t) 0) as [->|Hz]; [done|].
  apply fractionOf_digits; [by apply trimZeros_digits, pad_digits|apply trimZeros_cons; simpl; lia|].
  by rewrite fractionValue_trim, fractionValue_pad by (apply pad_digits || (simpl; lia)).
Qed.

(** The same for the sortable format. *)
Lemma parse_formatSortableTime t : fourDigitYear t -> parseTime (formatSortableTime t) = Some t.
Proof.
  intros Ht. unfold formatSortableTime. apply parse_text; [done|]. pose proof (nanos_bound t).
  apply fractionOf_digits; [apply pad_digits|done|]. apply fractionValue_pad. simpl; lia.
Qed.

Lemma formatSortableTime_ltb t1 t2 : fourDigitYear t1 -> fourDigitYear t2 ->
  Text.ltb (formatSortableTime t1) (formatSortableTime t2) = (t1 <? t2).
Proof. intros H1 H2. unfold Text.ltb, Z.ltb. by rewrite cmp_formatSortableTime. Qed.

Lemma formatSortableTime_leb t1 t2 : fourDigitYear t1 -> fourDigitYear t2 ->
  Text.leb (formatSortableTime t1) (formatSortableTime t2) = (t1 <=? t2).
Proof. intros H1 H2. unfold Text.leb, Z.leb. by rewrite cmp_formatSortableTime. Qed.

(** The stored text determines the instant. *)
Lemma formatTime_inj t1 t2 : fourDigitYear t1 -> fourDigitYear t2 ->
  formatTime t1 = formatTime t2 -> t1 = t2.
Proof.
  intros H1 H2 He. pose proof (parse_formatTime t1 H1) as P1. pose proof (parse_formatTime t2 H2).
  rewrite He in P1. congruence.
Qed.

End TimesTheory.
