(* ===== verification/Ids.v ===== *)
(** * Opaque identifiers (internal/id/id.go)

    [New] takes the sixteen random bytes as an argument: rand.Read is the
    operating system's. The theorems show that an identifier determines its
    prefix and its random bytes, so two draws collide only when the system
    returns the same bytes twice. *)

From S2P Require Import Prelude.
From Stdlib Require Import Strings.Byte.

Module Base32.

(** The alphabet the source gives to base32.NewEncoding. *)
Definition alphabet : list ascii := chars "0123456789abcdefghjkmnpqrstvwxyz".

(** Eight bits of a byte, the most significant first. *)
Definition byteBits (b : byte) : list bool :=
  let '(b0, (b1, (b2, (b3, (b4, (b5, (b6, b7))))))) := Byte.to_bits b in
  [b7; b6; b5; b4; b3; b2; b1; b0].

Definition quintet (b4 b3 b2 b1 b0 : bool) : nat :=
  (16 * Nat.b2n b4 + 8 * Nat.b2n b3 + 4 * Nat.b2n b2 + 2 * Nat.b2n b1 + Nat.b2n b0)%nat.

(** Groups of five bits; the last group is filled with zero bits. *)
Fixpoint quintets (bits : list bool) : list nat :=
  match bits with
  | b4 :: b3 :: b2 :: b1 :: b0 :: rest => quintet b4 b3 b2 b1 b0 :: quintets rest
  | [b4; b3; b2; b1] => [quintet b4 b3 b2 b1 false]
  | [b4; b3; b2] => [quintet b4 b3 b2 false false]
  | [b4; b3] => [quintet b4 b3 false false false]
  | [b4] => [quintet b4 false false false false]
  | [] => []
  end.

Definition symbol (n : nat) : ascii := nth n alphabet "0"%char.

(** encoding.EncodeToString without padding. *)
Definition EncodeToString (data : list byte) : string :=
  unchars (symbol <$> quintets (data ≫= byteBits)).

End Base32.

(** strings.ToLower on ASCII letters; other bytes are kept. *)
Definition lowerAscii (c : ascii) : ascii :=
  let n := N_of_ascii c in
  if (65 <=? n)%N && (n <=? 90)%N then ascii_of_N (n + 32) else c.
Definition ToLower (s : string) : string := unchars (lowerAscii <$> chars s).

(** strings.Contains(prefix, "_") *)
Definition containsUnderscore (s : string) : bool :=
  existsb (λ c, bool_decide (c = "_"%char)) (chars s).

(** id.New(prefix), with the bytes rand.Read produced. *)
Definition New (prefix : string) (random : list byte) : result string string :=
  if (prefix =? "")%string || containsUnderscore prefix
  then Err ("invalid ID prefix")
  else Ok (prefix +:+ "_" +:+ ToLower (Base32.EncodeToString random)).

Example New_zero : New "job" (replicate 16 x00) = Ok "job_00000000000000000000000000".
Proof. reflexivity. Qed.
Example New_ff : New "att" (replicate 16 xff) = Ok "att_zzzzzzzzzzzzzzzzzzzzzzzzzw".
Proof. reflexivity. Qed.
Example New_bad : New "a_b" (replicate 16 x00) = Err "invalid ID prefix".
Proof. reflexivity. Qed.

(** ** The encoding is injective on inputs of one length *)

Module IdsTheory.
Import Base32.

Lemma byteBits_inj b c : byteBits b = byteBits c -> b = c.
Proof.
  unfold byteBits. intros H.
  rewrite <- (Byte.of_bits_to_bits b), <- (Byte.of_bits_to_bits c). f_equal.
  destruct (Byte.to_bits b) as (?&?&?&?&?&?&?&?), (Byte.to_bits c) as (?&?&?&?&?&?&?&?).
  congruence.
Qed.

Lemma byteBits_length b : length (byteBits b) = 8%nat.
Proof. unfold byteBits. by destruct (Byte.to_bits b) as (?&?&?&?&?&?&?&?). Qed.

Lemma bits_inj l1 l2 : length l1 = length l2 ->
  l1 ≫= byteBits = l2 ≫= byteBits -> l1 = l2.
Proof.
  revert l2. induction l1 as [|b l1 IH]; intros [|c l2] Hlen; simpl; try done.
  intros H. apply app_inj_1 in H as [H1 H2]; [|by rewrite !byteBits_length].
  rewrite (byteBits_inj _ _ H1), (IH l2); auto.
Qed.

Lemma bits_length l : length (l ≫= byteBits) = (8 * length l)%nat.
Proof.
  induction l as [|b l IH]; simpl; [done|]. rewrite length_app, byteBits_length.
  unfold mbind in IH. lia.
Qed.

Lemma quintet_inj a4 a3 a2 a1 a0 b4 b3 b2 b1 b0 :
  quintet a4 a3 a2 a1 a0 = quintet b4 b3 b2 b1 b0 ->
  a4 = b4 /\ a3 = b3 /\ a2 = b2 /\ a1 = b1 /\ a0 = b0.
Proof.
  destruct a4, b4; try (destruct a3, a2, a1, a0, b3, b2, b1, b0; discriminate);
  destruct a3, b3; try (destruct a2, a1, a0, b2, b1, b0; discriminate);
  destruct a2, b2; try (destruct a1, a0, b1, b0; discriminate);
  destruct a1, b1, a0, b0; intros; try discriminate; auto.
Qed.

Lemma quintet_bound b4 b3 b2 b1 b0 : (quintet b4 b3 b2 b1 b0 < 32)%nat.
Proof. destruct b4, b3, b2, b1, b0; cbv; lia. Qed.

Lemma quintets_inj n l1 l2 : (length l1 <= n)%nat -> length l1 = length l2 ->
  quintets l1 = quintets l2 -> l1 = l2.
Proof.
  revert l1 l2. induction n as [|n IH]; intros l1 l2 Hn Hlen H.
  { destruct l1, l2; simpl in *; done || lia. }
  destruct l1 as [|a4 [|a3 [|a2 [|a1 [|a0 l1]]]]], l2 as [|c4 [|c3 [|c2 [|c1 [|c0 l2]]]]];
    try done; simpl in H; injection H as Hq;
    apply quintet_inj in Hq as (? & ? & ? & ? & ?); subst; try done.
  simpl in *. do 5 f_equal. apply IH; [lia|lia|]. congruence.
Qed.

Lemma quintets_bound n l : (length l <= n)%nat -> Forall (λ q, (q < 32)%nat) (quintets l).
Proof.
  revert l. induction n as [|n IH]; intros l Hn.
  { destruct l; simpl in *; [constructor|lia]. }
  destruct l as [|a4 [|a3 [|a2 [|a1 [|a0 l]]]]]; cbn [quintets];
    repeat first [apply Forall_nil_2 | apply Forall_cons_2; [apply quintet_bound|]].
  apply IH. simpl in Hn. lia.
Qed.

(** What the check over the 32 symbols establishes. *)
Definition symbolOk (n : nat) : bool :=
  bool_decide (list_find (λ c, c = symbol n) alphabet = Some (n, symbol n)) &&
  bool_decide (symbol n <> "_"%char) && bool_decide (lowerAscii (symbol n) = symbol n).

Lemma symbols_ok : forallb symbolOk (seq 0 32) = true.
Proof. vm_compute. reflexivity. Qed.

Lemma symbol_ok n : (n < 32)%nat -> symbolOk n = true.
Proof.
  intros Hn. eapply forallb_forall; [apply symbols_ok|]. apply in_seq. lia.
Qed.

Lemma symbol_inj m n : (m < 32)%nat -> (n < 32)%nat -> symbol m = symbol n -> m = n.
Proof.
  intros Hm Hn He. pose proof (symbol_ok m Hm) as H1. pose proof (symbol_ok n Hn) as H2.
  unfold symbolOk in *. rewrite !andb_true_iff, !bool_decide_eq_true in *.
  rewrite He in H1. destruct H1 as [[H1 _] _], H2 as [[H2 _] _]. congruence.
Qed.

Lemma map_symbol_inj l1 l2 : Forall (λ q, (q < 32)%nat) l1 -> Forall (λ q, (q < 32)%nat) l2 ->
  symbol <$> l1 = symbol <$> l2 -> l1 = l2.
Proof.
  revert l2. induction l1 as [|m l1 IH]; intros [|n l2] H1 H2; try done.
  inversion H1; inversion H2; subst. simpl. intros [= Hs Hr].
  rewrite (symbol_inj m n), (IH l2); auto.
Qed.

Lemma unchars_inj l1 l2 : unchars l1 = unchars l2 -> l1 = l2.
Proof.
  intros H. by rewrite <- (String.list_ascii_of_string_of_list_ascii l1), H,
    String.list_ascii_of_string_of_list_ascii.
Qed.

Lemma lowerAscii_idem c : lowerAscii (lowerAscii c) = lowerAscii c.
Proof. destruct c as [[] [] [] [] [] [] [] []]; reflexivity. Qed.

Lemma ToLower_idem s : ToLower (ToLower s) = ToLower s.
Proof.
  unfold ToLower. rewrite String.list_ascii_of_string_of_list_ascii, <- list_fmap_compose. f_equal.
  apply list_fmap_ext. intros i c _. apply lowerAscii_idem.
Qed.

Lemma encode_lower data : ToLower (EncodeToString data) = EncodeToString data.
Proof.
  unfold ToLower, EncodeToString. rewrite String.list_ascii_of_string_of_list_ascii.
  f_equal. pose proof (quintets_bound _ (data ≫= byteBits) (Nat.le_refl _)) as Hb.
  rewrite <- list_fmap_compose. apply list_fmap_ext. intros i q Hq.
  rewrite Forall_lookup in Hb. pose proof (symbol_ok q (Hb i q Hq)) as H.
  unfold symbolOk in H. rewrite !andb_true_iff, !bool_decide_eq_true in H. by destruct H.
Qed.

Lemma encode_inj d1 d2 : length d1 = length d2 ->
  EncodeToString d1 = EncodeToString d2 -> d1 = d2.
Proof.
  intros Hlen H. apply bits_inj; [done|].
  assert (Hl : length (d1 ≫= byteBits) = length (d2 ≫= byteBits)) by (by rewrite !bits_length, Hlen).
  apply (quintets_inj (length (d1 ≫= byteBits))); [done|done|].
  apply map_symbol_inj; [by eapply quintets_bound| |by apply unchars_inj].
  eapply quintets_bound. rewrite <- Hl. done.
Qed.

(** Splitting at the first underscore. *)
Lemma split_underscore p1 p2 s1 s2 :
  containsUnderscore p1 = false -> containsUnderscore p2 = false ->
  p1 +:+ "_" +:+ s1 = p2 +:+ "_" +:+ s2 -> p1 = p2 /\ s1 = s2.
Proof.
  revert p2. unfold containsUnderscore.
  induction p1 as [|c p1 IH]; intros [|d p2]; autorewrite with str; intros H1 H2 H.
  - by injection H.
  - injection H as <- _. simpl in H2. done.
  - injection H as -> _. simpl in H1. done.
  - injection H as -> H. simpl in H1, H2. apply orb_false_iff in H1 as [_ H1], H2 as [_ H2].
    destruct (IH p2 H1 H2) as [-> ->]; [|done]. by autorewrite with str.
Qed.

Lemma New_ok p r s : New p r = Ok s ->
  containsUnderscore p = false /\ s = p +:+ "_" +:+ EncodeToString r.
Proof.
  unfold New. rewrite encode_lower.
  destruct (_ =? _)%string, (containsUnderscore p); simpl; intros [= <-]; auto.
Qed.

Lemma New_inj p1 p2 r1 r2 s : length r1 = length r2 ->
  New p1 r1 = Ok s -> New p2 r2 = Ok s -> p1 = p2 /\ r1 = r2.
Proof.
  intros Hlen H1 H2. apply New_ok in H1 as [Hu1 ->], H2 as [Hu2 H2].
  destruct (split_underscore _ _ _ _ Hu1 Hu2 H2) as [-> He].
  split; [done|]. by apply encode_inj.
Qed.

End IdsTheory.
