(* ===== verification/GoLib.v ===== *)
(** * The standard-library functions the program calls on text and durations

    strings.TrimSpace, HasPrefix, Contains, TrimPrefix, TrimRight and
    time.ParseDuration, as executable functions on byte strings. *)

From S2P Require Import Prelude Times.

Module Strings.

Fixpoint dropPrefix (p s : list ascii) : option (list ascii) :=
  match p, s with
  | [], _ => Some s
  | a :: p', b :: s' => if decide (a = b) then dropPrefix p' s' else None
  | _ :: _, [] => None
  end.

Definition HasPrefix (s prefix : string) : bool :=
  bool_decide (is_Some (dropPrefix (chars prefix) (chars s))).

Definition TrimPrefix (s prefix : string) : string :=
  match dropPrefix (chars prefix) (chars s) with Some rest => unchars rest | None => s end.

(** strings.Contains *)
Fixpoint containsChars (s sub : list ascii) : bool :=
  bool_decide (is_Some (dropPrefix sub s)) ||
  match s with [] => false | _ :: s' => containsChars s' sub end.
Definition Contains (s sub : string) : bool := containsChars (chars s) (chars sub).

(** The UTF-8 encodings of the characters unicode.IsSpace accepts. *)
Definition byte2 (a b : N) : list ascii := [ascii_of_N a; ascii_of_N b].
Definition byte3 (a b c : N) : list ascii := [ascii_of_N a; ascii_of_N b; ascii_of_N c].
Definition spaces : list (list ascii) :=
  ((λ n, [ascii_of_N n]) <$> [9; 10; 11; 12; 13; 32]%N) ++
  [byte2 194 133; byte2 194 160; byte3 225 154 128] ++
  (byte3 226 128 <$> [128; 129; 130; 131; 132; 133; 134; 135; 136; 137; 138; 168; 169; 175]%N) ++
  [byte3 226 129 159; byte3 227 128 128].

(** One leading space character removed, if there is one. *)
Definition stripOne (pats : list (list ascii)) (s : list ascii) : option (list ascii) :=
  foldr (λ p acc, match dropPrefix p s with Some r => Some r | None => acc end) None pats.

Fixpoint strip (fuel : nat) (pats : list (list ascii)) (s : list ascii) : list ascii :=
  match fuel with
  | O => s
  | S fuel' => match stripOne pats s with Some r => strip fuel' pats r | None => s end
  end.

Definition stripAll (pats : list (list ascii)) (s : list ascii) : list ascii :=
  strip (length s) pats s.

Definition TrimSpace (s : string) : string :=
  unchars (reverse (stripAll (reverse <$> spaces) (reverse (stripAll spaces (chars s))))).

(** strings.TrimRight(s, cutset) for a one-character cutset, and TrimLeft. *)
Definition TrimLeftChar (c : ascii) (s : string) : string := unchars (stripAll [[c]] (chars s)).
Definition TrimRightChar (c : ascii) (s : string) : string :=
  unchars (reverse (stripAll [[c]] (reverse (chars s)))).

(** strings.Cut around a one-byte separator. *)
Fixpoint cutChars (sep : ascii) (s : list ascii) : option (list ascii * list ascii) :=
  match s with
  | [] => None
  | c :: rest =>
      if decide (c = sep) then Some ([], rest)
      else '(a, b) ← cutChars sep rest; Some (c :: a, b)
  end.
Definition Cut (s : string) (sep : ascii) : string * string * bool :=
  match cutChars sep (chars s) with
  | Some (a, b) => (unchars a, unchars b, true)
  | None => (s, "", false)
  end.

End Strings.
Export Strings.

Example TrimSpace_ex : TrimSpace "  a b	 " = "a b".
Proof. reflexivity. Qed.
Example Contains_ex : Contains "a/../b" "/../" = true /\ Contains "a/.." "/../" = false.
Proof. split; reflexivity. Qed.
Example Cut_ex : Cut "gpu=a=b" "=" = ("gpu", "a=b", true).
Proof. reflexivity. Qed.

(** ** time.ParseDuration *)

Module Duration.

Definition unitOf (u : string) : option Z :=
  if (u =? "ns")%string then Some 1
  else if (u =? "us")%string then Some 1000
  else if (u =? unchars (byte2 194 181 ++ ["s"%char]))%string then Some 1000
  else if (u =? unchars (byte2 206 188 ++ ["s"%char]))%string then Some 1000
  else if (u =? "ms")%string then Some 1000000
  else if (u =? "s")%string then Some GoTime.Second
  else if (u =? "m")%string then Some GoTime.Minute
  else if (u =? "h")%string then Some GoTime.Hour
  else None.

(** Leading digits: value, rest; None on overflow. *)
Fixpoint leadingInt (x : Z) (s : list ascii) : option (Z * list ascii) :=
  match s with
  | [] => Some (x, [])
  | c :: rest =>
      match digitVal c with
      | None => Some (x, s)
      | Some v =>
          if 2 ^ 63 / 10 <? x then None
          else let x' := x * 10 + v in
               if 2 ^ 63 <? x' then None else leadingInt x' rest
      end
  end.

(** Digits after the point: value, scale, rest; digits past the overflow are skipped. *)
Fixpoint leadingFraction (over : bool) (x : Z) (scale : float64) (s : list ascii)
    : Z * float64 * list ascii :=
  match s with
  | [] => (x, scale, [])
  | c :: rest =>
      match digitVal c with
      | None => (x, scale, s)
      | Some v =>
          if over then leadingFraction true x scale rest
          else if (2 ^ 63 - 1) / 10 <? x then leadingFraction true x scale rest
          else let y := x * 10 + v in
               if 2 ^ 63 <? y then leadingFraction true x scale rest
               else leadingFraction false y (f64_mul scale (f64_of_Z 10)) rest
      end
  end.

(** uint64(f) of a non-negative finite value. *)
Definition truncate (f : float64) : Z :=
  match f with
  | S754_finite false m e => if 0 <=? e then Zpos m * 2 ^ e else Zpos m / 2 ^ (- e)
  | _ => 0
  end.

Definition isNumChar (c : ascii) : bool :=
  bool_decide (c = "."%char) || bool_decide (is_Some (digitVal c)).

Fixpoint spanUnit (s : list ascii) : list ascii * list ascii :=
  match s with
  | c :: rest => if isNumChar c then ([], s) else let '(u, r) := spanUnit rest in (c :: u, r)
  | [] => ([], [])
  end.

(** One value-and-unit group: nanoseconds and the rest of the text. *)
Definition parseGroup (s : list ascii) : option (Z * list ascii) :=
  match s with
  | [] => None
  | c0 :: _ =>
      if negb (isNumChar c0) then None
      else
        '(v, s1) ← leadingInt 0 s;
        let pre := negb (length s1 =? length s)%nat in
        let '(f, scale, s2, post) :=
          match s1 with
          | c :: rest =>
              if decide (c = "."%char)
              then let '(f, scale, r) := leadingFraction false 0 (f64_of_Z 1) rest in
                   (f, scale, r, negb (length r =? length rest)%nat)
              else (0, f64_of_Z 1, s1, false)
          | [] => (0, f64_of_Z 1, s1, false)
          end in
        if negb pre && negb post then None
        else
          let '(u, s3) := spanUnit s2 in
          unit ← unitOf (unchars u);
          if 2 ^ 63 / unit <? v then None
          else
            let v1 := v * unit in
            let v2 := if 0 <? f
                      then v1 + truncate (f64_mul (f64_of_Z f) (f64_div (f64_of_Z unit) scale))
                      else v1 in
            if 2 ^ 63 <? v2 then None else Some (v2, s3)
  end.

Fixpoint parseGroups (fuel : nat) (d : Z) (s : list ascii) : option Z :=
  match s, fuel with
  | [], _ => Some d
  | _, O => None
  | _, S fuel' =>
      '(v, rest) ← parseGroup s;
      let d' := d + v in
      if 2 ^ 63 <? d' then None else parseGroups fuel' d' rest
  end.

Definition ParseDuration (s : string) : option Z :=
  let s0 := chars s in
  let '(neg, s1) :=
    match s0 with
    | c :: rest =>
        if decide (c = "-"%char) then (true, rest)
        else if decide (c = "+"%char) then (false, rest) else (false, s0)
    | [] => (false, s0)
    end in
  if decide (s1 = ["0"%char]) then Some 0
  else match s1 with
       | [] => None
       | _ => d ← parseGroups (length s1) 0 s1;
              if (neg : bool) then Some (- d) else if 2 ^ 63 - 1 <? d then None else Some d
       end.

End Duration.
Export Duration.

Example ParseDuration_ex1 : ParseDuration "1h30m" = Some (5400 * GoTime.Second).
Proof. vm_compute. reflexivity. Qed.
Example ParseDuration_ex2 : ParseDuration "1.5s" = Some 1500000000.
Proof. vm_compute. reflexivity. Qed.
Example ParseDuration_ex3 : ParseDuration "soon" = None.
Proof. vm_compute. reflexivity. Qed.
Example ParseDuration_ex4 : ParseDuration "-10s" = Some (- 10 * GoTime.Second).
Proof. vm_compute. reflexivity. Qed.
Example ParseDuration_ex5 : ParseDuration "10" = None.
Proof. vm_compute. reflexivity. Qed.
