(* ===== verification/Domain.v ===== *)
(** * The domain model (internal/domain/job.go, internal/domain/worker.go)

    Structs become records, with the type's initial before each field name.
    uint32, uint64 and int64 fields are integers; [SpecTyped] and
    [CapacityTyped] state the ranges Go's types give them. A pointer field is an
    [option]. Job and attempt states, which only the program writes, are
    inductive types; the enumerations a client may fill with any text (sharing,
    format, kind, ...) stay strings, as they are in Go. *)

From S2P Require Import Prelude Times GoLib.

(** ** Job specifications *)

Inductive JobState :=
  | JobQueued | JobRunning | JobSucceeded | JobFailed
  | JobCanceling | JobCanceled | JobRetryWait.

#[export] Instance JobState_eq_dec : EqDecision JobState.
Proof. solve_decision. Defined.

Definition JobState_text (s : JobState) : string :=
  match s with
  | JobQueued => "queued" | JobRunning => "running" | JobSucceeded => "succeeded"
  | JobFailed => "failed" | JobCanceling => "canceling" | JobCanceled => "canceled"
  | JobRetryWait => "retry_wait"
  end.

Definition GPUExclusive : string := "exclusive".
Definition GPUShared : string := "shared".
Definition LostWorkerManual : string := "manual".
Definition LostWorkerRetry : string := "retry".
Definition LostWorkerFail : string := "fail".

Record Source := { src_GitURL : string; src_Commit : string; src_OCIImage : string }.

Record GPURequest := { g_Count : Z; g_MemoryBytes : Z; g_Sharing : string }.

Record ResourceRequest := {
  r_CPU : Z;
  r_MemoryBytes : Z;
  r_ScratchBytes : Z;
  r_GPUs : list GPURequest;
}.

Record RetryPolicy := { rp_MaxAttempts : Z; rp_LostWorker : string }.

Record CheckpointPolicy := { cp_Glob : string; cp_ResumeCommand : list string }.

Record ArtifactRule := { ar_Name : string; ar_Glob : string }.

Record HealthPolicy := {
  hp_Kind : string;
  hp_Metric : string;
  hp_Mode : string;
  hp_Window : string;
  hp_MinimumDelta : float64;
  hp_Action : string;
  hp_Target : string;
}.

Definition HealthKindMetricStalled : string := "metric_stalled".
Definition HealthKindPeriodic : string := "periodic".
Definition HealthKindFinished : string := "finished".
Definition HealthModeMax : string := "max".
Definition HealthModeMin : string := "min".
Definition HealthActionNotify : string := "notify".

Definition MetricFormatNumber : string := "number".
Definition MetricFormatPercent : string := "percent".
Definition MetricFormatBytes : string := "bytes".
Definition MetricObjectiveNone : string := "none".
Definition MetricObjectiveMaximize : string := "maximize".
Definition MetricObjectiveMinimize : string := "minimize".
Definition MetricReferenceGoal : string := "goal".
Definition MetricReferenceBenchmark : string := "benchmark".
Definition MetricReferenceBaseline : string := "baseline".
Definition MetricReferenceThreshold : string := "threshold".

Record MetricReferenceLine := { rl_Label : string; rl_Value : float64; rl_Kind : string }.

Record MetricDefinition := {
  m_Name : string;
  m_DisplayName : string;
  m_Format : string;
  m_Unit : string;
  m_Precision : option Z;
  m_Objective : string;
  m_ReferenceLines : list MetricReferenceLine;
}.

Definition SystemMetricPrefix : string := "lcjs/".

Definition SystemMetricDefinitions : list MetricDefinition :=
  let def name display format :=
    {| m_Name := SystemMetricPrefix +:+ name; m_DisplayName := display; m_Format := format;
       m_Unit := ""; m_Precision := None; m_Objective := ""; m_ReferenceLines := [] |} in
  [def "gpu_util" "GPU utilization" MetricFormatPercent;
   def "gpu_mem_bytes" "GPU memory" MetricFormatBytes;
   def "rss_bytes" "Memory (RSS)" MetricFormatBytes].

Definition SystemMetricDefinition (name : string) : option MetricDefinition :=
  List.find (λ d, (m_Name d =? name)%string) SystemMetricDefinitions.

Record JobSpec := {
  s_Project : string;
  s_Name : string;
  s_Priority : Z;
  s_Source : Source;
  s_Command : list string;
  s_Environment : gmap string string;
  s_SecretRefs : gmap string string;
  s_Resources : ResourceRequest;
  s_Labels : gmap string string;  (* Constraints.Labels *)
  s_Retry : RetryPolicy;
  s_Checkpoint : option CheckpointPolicy;
  s_Artifacts : list ArtifactRule;
  s_Metrics : list MetricDefinition;
  s_Health : list HealthPolicy;
}.

Record Job := {
  j_ID : string;
  j_State : JobState;
  j_Revision : Z;
  j_Spec : JobSpec;
  j_CreatedAt : time;
  j_UpdatedAt : time;
}.

(** ** Workers, attempts and the sync messages *)

Inductive AttemptState :=
  | AttemptOffered | AttemptAccepted | AttemptRunning
  | AttemptSucceeded | AttemptFailed | AttemptCanceled.

#[export] Instance AttemptState_eq_dec : EqDecision AttemptState.
Proof. solve_decision. Defined.

Definition AttemptState_text (s : AttemptState) : string :=
  match s with
  | AttemptOffered => "offered" | AttemptAccepted => "accepted" | AttemptRunning => "running"
  | AttemptSucceeded => "succeeded" | AttemptFailed => "failed" | AttemptCanceled => "canceled"
  end.

Inductive WorkerStatus := WorkerOnline | WorkerOffline.

#[export] Instance WorkerStatus_eq_dec : EqDecision WorkerStatus.
Proof. solve_decision. Defined.

Record WorkerCapacity := {
  c_CPU : Z;
  c_MemoryBytes : Z;
  c_GPUCount : Z;
  c_GPUSharedSlots : Z;
  c_MaxParallel : Z;
  c_Labels : gmap string string;
  c_Projects : list string;
}.

Record Worker := {
  w_ID : string;
  w_Name : string;
  w_Status : WorkerStatus;
  w_AgentVersion : string;
  w_Capacity : WorkerCapacity;
  w_LastSeenAt : option time;
  w_CreatedAt : time;
}.

Definition WorkerCommandRunJob : string := "run_job".
Definition WorkerCommandCancelAttempt : string := "cancel_attempt".

Definition WorkerEventAttemptAccepted : string := "attempt_accepted".
Definition WorkerEventAttemptStarted : string := "attempt_started".
Definition WorkerEventAttemptFinished : string := "attempt_finished".
Definition WorkerEventMetricSample : string := "metric_sample".
Definition WorkerEventArtifacts : string := "artifacts".

Record MetricSample := {
  ms_Name : string;
  ms_Value : float64;
  ms_Step : option Z;
  ms_ObservedAt : time;
}.

Record ArtifactAnnouncement := {
  aa_Name : string;
  aa_URI : string;
  aa_SizeBytes : Z;
  aa_SHA256 : string;
  aa_Content : string;
}.

Record GitState := { gs_Commit : string; gs_Branch : string; gs_Dirty : bool }.

Record WorkerEvent := {
  e_Sequence : Z;
  e_EventID : string;
  e_AttemptID : string;
  e_Kind : string;
  e_OccurredAt : time;
  e_ExitCode : option Z;
  e_Error : string;
  e_LogURI : string;
  e_LogTail : string;
  e_Git : option GitState;
  e_Metric : option MetricSample;
  e_Artifacts : list ArtifactAnnouncement;
}.

Record WorkerSyncRequest := {
  q_WorkerID : string;
  q_SessionID : string;
  q_AgentVersion : string;
  q_Capacity : WorkerCapacity;
  q_Events : list WorkerEvent;
}.

Record WorkerCommand := {
  k_CommandID : string;
  k_AttemptID : string;
  k_AttemptNumber : Z;
  k_Kind : string;
  k_Job : option Job;  (* None for the zero Job of a cancel_attempt command *)
  k_LeaseExpiresAt : time;
}.

Record WorkerSyncResponse := {
  p_ServerTime : time;
  p_AcceptedThrough : Z;
  p_NextSyncSeconds : Z;
  p_Commands : list WorkerCommand;
}.

(** ** Decidable equality: the program compares encoded commands *)

#[export] Instance Source_eq_dec : EqDecision Source.
Proof. solve_decision. Defined.
#[export] Instance GPURequest_eq_dec : EqDecision GPURequest.
Proof. solve_decision. Defined.
#[export] Instance ResourceRequest_eq_dec : EqDecision ResourceRequest.
Proof. solve_decision. Defined.
#[export] Instance RetryPolicy_eq_dec : EqDecision RetryPolicy.
Proof. solve_decision. Defined.
#[export] Instance CheckpointPolicy_eq_dec : EqDecision CheckpointPolicy.
Proof. solve_decision. Defined.
#[export] Instance ArtifactRule_eq_dec : EqDecision ArtifactRule.
Proof. solve_decision. Defined.
#[export] Instance HealthPolicy_eq_dec : EqDecision HealthPolicy.
Proof. solve_decision. Defined.
#[export] Instance MetricReferenceLine_eq_dec : EqDecision MetricReferenceLine.
Proof. solve_decision. Defined.
#[export] Instance MetricDefinition_eq_dec : EqDecision MetricDefinition.
Proof. solve_decision. Defined.
#[export] Instance JobSpec_eq_dec : EqDecision JobSpec.
Proof. solve_decision. Defined.
#[export] Instance Job_eq_dec : EqDecision Job.
Proof. solve_decision. Defined.
#[export] Instance WorkerCommand_eq_dec : EqDecision WorkerCommand.
Proof. solve_decision. Defined.

(** ** The ranges Go's integer types give *)

Definition isU32 (z : Z) : Prop := 0 <= z < 2 ^ 32.
Definition isU64 (z : Z) : Prop := 0 <= z < 2 ^ 64.

Record ResourcesTyped (r : ResourceRequest) : Prop := {
  rt_cpu : isU32 (r_CPU r);
  rt_mem : isU64 (r_MemoryBytes r);
  rt_gpus : Forall (λ g, isU32 (g_Count g)) (r_GPUs r);
}.

Record SpecTyped (s : JobSpec) : Prop := {
  st_resources : ResourcesTyped (s_Resources s);
  st_attempts : isU32 (rp_MaxAttempts (s_Retry s));
}.

Record CapacityTyped (c : WorkerCapacity) : Prop := {
  ct_cpu : isU32 (c_CPU c);
  ct_mem : isU64 (c_MemoryBytes c);
  ct_gpus : isU32 (c_GPUCount c);
  ct_slots : isU32 (c_GPUSharedSlots c);
  ct_parallel : isU32 (c_MaxParallel c);
}.
