(* ===== verification/Validate.v ===== *)
(** * Job specification validation (JobSpec.Validate, internal/domain/job.go)

    [Validate] returns the list of problems the source joins; the empty list is
    the nil error. Each check of the source is a definition of its own. The
    range loops over Go maps run in an unspecified order, so the order of the
    problems of one map is not meant to be the source's. *)

From S2P Require Import Prelude Times GoLib Domain Ids.

(** One constructor per error text of the source. *)
Inductive ValidationError :=
  | BadProject | BadName
  | SourceConflict | CommitRequired | BadCommit | NoExecutable
  | BadEnvironmentKey (name : string) | ReservedEnvironmentKey (name : string)
  | BadSecretReference (name : string)
  | GPUCountZero (i : nat) | GPUBadSharing (i : nat)
  | NoAttempts | BadLostWorker
  | CheckpointIncomplete | CheckpointEscapes
  | ArtifactIncomplete (i : nat) | ArtifactEscapes (i : nat)
  | TooManyMetrics
  | MetricBadName (i : nat) | MetricReservedName (i : nat) | MetricDuplicated (i : nat)
  | MetricDisplayNameLong (i : nat) | MetricBadFormat (i : nat) | MetricUnitLong (i : nat)
  | MetricUnitNotAllowed (i : nat) | MetricBadPrecision (i : nat) | MetricBadObjective (i : nat)
  | TooManyLines (i : nat)
  | LineBadLabel (i l : nat) | LineDuplicated (i l : nat) | LineNotFinite (i l : nat)
  | LineNotFraction (i l : nat) | LineBadKind (i l : nat)
  | TooManyPolicies
  | PolicyBadAction (i : nat) | PolicyBadTarget (i : nat) | PolicyBadWindow (i : nat)
  | PolicyUnknownMetric (i : nat) | PolicyBadMode (i : nat) | PolicyBadDelta (i : nat)
  | PeriodicExtraFields (i : nat) | FinishedExtraFields (i : nat) | PolicyBadKind (i : nat).

(** [if bad { errs = append(errs, e) }] *)
Definition errIf (bad : bool) (e : ValidationError) : list ValidationError :=
  if bad then [e] else [].

(** ** The patterns *)

Definition inRange (lo hi : ascii) (c : ascii) : bool :=
  (N_of_ascii lo <=? N_of_ascii c)%N && (N_of_ascii c <=? N_of_ascii hi)%N.
Definition isDigit : ascii -> bool := inRange "0" "9".
Definition isLower : ascii -> bool := inRange "a" "z".
Definition isUpper : ascii -> bool := inRange "A" "Z".
Definition isAlnum (c : ascii) : bool := isDigit c || isLower c || isUpper c.
Definition isHex (c : ascii) : bool := isDigit c || inRange "a" "f" c || inRange "A" "F" c.
Definition isOneOf (s : string) (c : ascii) : bool := existsb (Ascii.eqb c) (chars s).

(** ^[a-z0-9][a-z0-9._-]{0,62}$ *)
Definition slugPattern (s : string) : bool :=
  match chars s with
  | [] => false
  | c :: rest =>
      (isLower c || isDigit c) &&
      forallb (λ c, isLower c || isDigit c || isOneOf "._-" c) rest && (length rest <=? 62)%nat
  end.

(** ^(?:[0-9a-fA-F]{40}|[0-9a-fA-F]{64})$ *)
Definition commitPattern (s : string) : bool :=
  forallb isHex (chars s) && ((len s =? 40) || (len s =? 64)).

(** ^[A-Za-z_][A-Za-z0-9_]*$ *)
Definition envPattern (s : string) : bool :=
  match chars s with
  | [] => false
  | c :: rest =>
      (isLower c || isUpper c || Ascii.eqb c "_") && forallb (λ c, isAlnum c || Ascii.eqb c "_") rest
  end.

(** ^[A-Za-z0-9][A-Za-z0-9._/-]{0,126}[A-Za-z0-9]$|^[A-Za-z0-9]$ *)
Definition metricPattern (s : string) : bool :=
  match chars s with
  | [] => false
  | [c] => isAlnum c
  | c :: rest =>
      let middle := removelast rest in
      isAlnum c && forallb (λ c, isAlnum c || isOneOf "._/-" c) middle &&
      (length middle <=? 126)%nat && isAlnum (List.last rest c)
  end.

(** filepath.ToSlash is the identity on the systems the program targets. *)
Definition unsafeRelativeGlob (pattern : string) : bool :=
  HasPrefix pattern "/" || (pattern =? "..")%string || HasPrefix pattern "../" ||
  Contains pattern "/../".

(** ** The checks, in the order of the source *)

Definition validateIdentity (spec : JobSpec) : list ValidationError :=
  errIf (negb (slugPattern (s_Project spec))) BadProject ++
  errIf (negb (slugPattern (s_Name spec))) BadName.

Definition isEmpty (s : string) : bool := (s =? "")%string.

Definition validateSource (spec : JobSpec) : list ValidationError :=
  let src := s_Source spec in
  let hasGit := negb (isEmpty (src_GitURL src)) || negb (isEmpty (src_Commit src)) in
  errIf (hasGit && negb (isEmpty (src_OCIImage src))) SourceConflict ++
  errIf (negb (isEmpty (src_GitURL src)) && isEmpty (src_Commit src)) CommitRequired ++
  errIf (negb (isEmpty (src_Commit src)) && negb (commitPattern (src_Commit src))) BadCommit ++
  errIf (match s_Command spec with [] => true | c :: _ => isEmpty (TrimSpace c) end) NoExecutable.

Definition validateEnvironment (spec : JobSpec) : list ValidationError :=
  (map_to_list (s_Environment spec) ≫= λ '(name, _),
     errIf (negb (envPattern name)) (BadEnvironmentKey name) ++
     errIf (HasPrefix name "LCJS_") (ReservedEnvironmentKey name)) ++
  (map_to_list (s_SecretRefs spec) ≫= λ '(name, reference),
     errIf (negb (envPattern name) || isEmpty (TrimSpace reference)) (BadSecretReference name)).

(** for i, x := range xs *)
Definition rangeErrors {A} (check : nat -> A -> list ValidationError) (xs : list A)
    : list ValidationError := concat (imap check xs).

Definition validateGPU (i : nat) (gpu : GPURequest) : list ValidationError :=
  errIf (g_Count gpu =? 0) (GPUCountZero i) ++
  errIf (negb (g_Sharing gpu =? GPUExclusive)%string && negb (g_Sharing gpu =? GPUShared)%string)
    (GPUBadSharing i).

Definition validateRetry (spec : JobSpec) : list ValidationError :=
  let r := s_Retry spec in
  errIf (rp_MaxAttempts r =? 0) NoAttempts ++
  errIf (negb (rp_LostWorker r =? LostWorkerManual)%string &&
         negb (rp_LostWorker r =? LostWorkerRetry)%string &&
         negb (rp_LostWorker r =? LostWorkerFail)%string) BadLostWorker.

Definition validateCheckpoint (spec : JobSpec) : list ValidationError :=
  match s_Checkpoint spec with
  | None => []
  | Some cp =>
      if isEmpty (TrimSpace (cp_Glob cp)) || (length (cp_ResumeCommand cp) =? 0)%nat
      then [CheckpointIncomplete]
      else errIf (unsafeRelativeGlob (cp_Glob cp)) CheckpointEscapes
  end.

Definition validateArtifact (i : nat) (a : ArtifactRule) : list ValidationError :=
  if negb (slugPattern (ar_Name a)) || isEmpty (TrimSpace (ar_Glob a))
  then [ArtifactIncomplete i]
  else errIf (unsafeRelativeGlob (ar_Glob a)) (ArtifactEscapes i).

(** The name check of one metric: its problem, or the name that is now taken. *)
Definition validateMetricName (i : nat) (names : gset string) (metric : MetricDefinition)
    : list ValidationError * gset string :=
  let name := m_Name metric in
  if negb (metricPattern name) then ([MetricBadName i], names)
  else if HasPrefix name SystemMetricPrefix then ([MetricReservedName i], names)
  else if bool_decide (name ∈ names) then ([MetricDuplicated i], names)
  else ([], {[ name ]} ∪ names).

Definition formatOf (metric : MetricDefinition) : string :=
  if isEmpty (m_Format metric) then MetricFormatNumber else m_Format metric.
Definition objectiveOf (metric : MetricDefinition) : string :=
  if isEmpty (m_Objective metric) then MetricObjectiveNone else m_Objective metric.

Definition validateMetricFields (i : nat) (metric : MetricDefinition) : list ValidationError :=
  let format := formatOf metric in
  let objective := objectiveOf metric in
  errIf (100 <? len (m_DisplayName metric)) (MetricDisplayNameLong i) ++
  errIf (negb (format =? MetricFormatNumber)%string && negb (format =? MetricFormatPercent)%string &&
         negb (format =? MetricFormatBytes)%string) (MetricBadFormat i) ++
  errIf (24 <? len (m_Unit metric)) (MetricUnitLong i) ++
  errIf (negb (format =? MetricFormatNumber)%string && negb (isEmpty (m_Unit metric)))
    (MetricUnitNotAllowed i) ++
  errIf (match m_Precision metric with Some p => 9 <? p | None => false end) (MetricBadPrecision i) ++
  errIf (negb (objective =? MetricObjectiveNone)%string &&
         negb (objective =? MetricObjectiveMaximize)%string &&
         negb (objective =? MetricObjectiveMinimize)%string) (MetricBadObjective i) ++
  errIf (16 <? Z.of_nat (length (m_ReferenceLines metric))) (TooManyLines i).

(** strings.ToLower maps every letter of Unicode; only that it is a function
    is used here. *)
Class Unicode := toLower : string -> string.

Section labels.
Context {lower : Unicode}.

(** The label check of one reference line. *)
Definition validateLineLabel (i l : nat) (labels : gset string) (line : MetricReferenceLine)
    : list ValidationError * gset string :=
  let label := TrimSpace (rl_Label line) in
  if isEmpty label || (100 <? len label) then ([LineBadLabel i l], labels)
  else if bool_decide (toLower label ∈ labels) then ([LineDuplicated i l], labels)
  else ([], {[ toLower label ]} ∪ labels).

Definition validateLineFields (i l : nat) (format : string) (line : MetricReferenceLine)
    : list ValidationError :=
  errIf (isNaN (rl_Value line) || isInf (rl_Value line)) (LineNotFinite i l) ++
  errIf ((format =? MetricFormatPercent)%string &&
         (f64_ltb (rl_Value line) f64_zero || f64_ltb (f64_of_Z 1) (rl_Value line)))
    (LineNotFraction i l) ++
  errIf (negb (rl_Kind line =? MetricReferenceGoal)%string &&
         negb (rl_Kind line =? MetricReferenceBenchmark)%string &&
         negb (rl_Kind line =? MetricReferenceBaseline)%string &&
         negb (rl_Kind line =? MetricReferenceThreshold)%string) (LineBadKind i l).

Fixpoint validateLines (i l : nat) (format : string) (labels : gset string)
    (lines : list MetricReferenceLine) : list ValidationError :=
  match lines with
  | [] => []
  | line :: rest =>
      let '(errs, labels') := validateLineLabel i l labels line in
      errs ++ validateLineFields i l format line ++ validateLines i (S l) format labels' rest
  end.

(** The loop over the metrics, with the names seen so far. *)
Fixpoint validateMetrics (i : nat) (names : gset string) (metrics : list MetricDefinition)
    : list ValidationError * gset string :=
  match metrics with
  | [] => ([], names)
  | metric :: rest =>
      let '(errs, names') := validateMetricName i names metric in
      let '(more, names'') := validateMetrics (S i) names' rest in
      (errs ++ validateMetricFields i metric ++
       validateLines i 0 (formatOf metric) ∅ (m_ReferenceLines metric) ++ more, names'')
  end.

End labels.

(** requireWindow *)
Definition validateWindow (i : nat) (policy : HealthPolicy) : list ValidationError :=
  match ParseDuration (hp_Window policy) with
  | None => [PolicyBadWindow i]
  | Some window =>
      errIf ((window <? 10 * GoTime.Second) || (30 * 24 * GoTime.Hour <? window)) (PolicyBadWindow i)
  end.

Definition validatePolicy (names : gset string) (i : nat) (policy : HealthPolicy)
    : list ValidationError :=
  let kind := hp_Kind policy in
  errIf (negb (hp_Action policy =? HealthActionNotify)%string) (PolicyBadAction i) ++
  errIf (negb (slugPattern (hp_Target policy))) (PolicyBadTarget i) ++
  (if (kind =? HealthKindMetricStalled)%string then
     validateWindow i policy ++
     errIf (negb (bool_decide (hp_Metric policy ∈ names))) (PolicyUnknownMetric i) ++
     errIf (negb (hp_Mode policy =? HealthModeMax)%string && negb (hp_Mode policy =? HealthModeMin)%string)
       (PolicyBadMode i) ++
     errIf (isNaN (hp_MinimumDelta policy) || isInf (hp_MinimumDelta policy) ||
            f64_ltb (hp_MinimumDelta policy) f64_zero) (PolicyBadDelta i)
   else if (kind =? HealthKindPeriodic)%string then
     validateWindow i policy ++
     errIf (negb (isEmpty (hp_Metric policy)) || negb (isEmpty (hp_Mode policy)) ||
            negb (f64_eqb (hp_MinimumDelta policy) f64_zero)) (PeriodicExtraFields i)
   else if (kind =? HealthKindFinished)%string then
     errIf (negb (isEmpty (hp_Window policy)) || negb (isEmpty (hp_Metric policy)) ||
            negb (isEmpty (hp_Mode policy)) || negb (f64_eqb (hp_MinimumDelta policy) f64_zero))
       (FinishedExtraFields i)
   else [PolicyBadKind i]).

Definition Validate `{Unicode} (spec : JobSpec) : list ValidationError :=
  let '(metricErrors, metricNames) := validateMetrics 0 ∅ (s_Metrics spec) in
  validateIdentity spec ++ validateSource spec ++ validateEnvironment spec ++
  rangeErrors validateGPU (r_GPUs (s_Resources spec)) ++
  validateRetry spec ++ validateCheckpoint spec ++
  rangeErrors validateArtifact (s_Artifacts spec) ++
  errIf (64 <? Z.of_nat (length (s_Metrics spec))) TooManyMetrics ++ metricErrors ++
  errIf (16 <? Z.of_nat (length (s_Health spec))) TooManyPolicies ++
  rangeErrors (validatePolicy metricNames) (s_Health spec).
