(* ===== verification/ValidateSpec.v ===== *)
(** * What an accepted job specification satisfies

    The rules of the API documentation as predicates, and the proof that
    [Validate] reports no problem exactly for the specifications that satisfy
    them. *)

From S2P Require Import Prelude Times GoLib Domain Ids Validate.

(** ** The rules *)

Definition oneOf (s : string) (options : list string) : Prop := s ∈ options.

Record ValidLine (format : string) (line : MetricReferenceLine) : Prop := {
  vl_label : TrimSpace (rl_Label line) <> "" /\ len (TrimSpace (rl_Label line)) <= 100;
  vl_finite : f64_finite (rl_Value line) = true;
  vl_fraction : format = MetricFormatPercent ->
    f64_ltb (rl_Value line) f64_zero = false /\ f64_ltb (f64_of_Z 1) (rl_Value line) = false;
  vl_kind : oneOf (rl_Kind line) [MetricReferenceGoal; MetricReferenceBenchmark;
                                  MetricReferenceBaseline; MetricReferenceThreshold];
}.

(** The key under which two labels of one metric must differ. *)
Definition labelKey `{Unicode} (line : MetricReferenceLine) : string := toLower (TrimSpace (rl_Label line)).

Record ValidMetric `{Unicode} (m : MetricDefinition) : Prop := {
  vm_name : metricPattern (m_Name m) = true;
  vm_reserved : HasPrefix (m_Name m) SystemMetricPrefix = false;
  vm_display : len (m_DisplayName m) <= 100;
  vm_format : oneOf (formatOf m) [MetricFormatNumber; MetricFormatPercent; MetricFormatBytes];
  vm_unit : len (m_Unit m) <= 24;
  vm_unit_number : formatOf m = MetricFormatNumber \/ m_Unit m = "";
  vm_precision : forall p, m_Precision m = Some p -> p <= 9;
  vm_objective : oneOf (objectiveOf m)
    [MetricObjectiveNone; MetricObjectiveMaximize; MetricObjectiveMinimize];
  vm_line_count : (length (m_ReferenceLines m) <= 16)%nat;
  vm_lines : Forall (ValidLine (formatOf m)) (m_ReferenceLines m);
  vm_labels : NoDup (labelKey <$> m_ReferenceLines m);
}.

Definition ValidWindow (p : HealthPolicy) : Prop :=
  exists d, ParseDuration (hp_Window p) = Some d /\
    10 * GoTime.Second <= d <= 30 * 24 * GoTime.Hour.

(** The three kinds of policy, each with the fields it may set. *)
Inductive ValidPolicyKind (metrics : list string) (p : HealthPolicy) : Prop :=
  | ValidStalled :
      hp_Kind p = HealthKindMetricStalled -> ValidWindow p -> hp_Metric p ∈ metrics ->
      oneOf (hp_Mode p) [HealthModeMax; HealthModeMin] ->
      f64_finite (hp_MinimumDelta p) = true -> f64_ltb (hp_MinimumDelta p) f64_zero = false ->
      ValidPolicyKind metrics p
  | ValidPeriodic :
      hp_Kind p = HealthKindPeriodic -> ValidWindow p -> hp_Metric p = "" -> hp_Mode p = "" ->
      f64_eqb (hp_MinimumDelta p) f64_zero = true -> ValidPolicyKind metrics p
  | ValidFinished :
      hp_Kind p = HealthKindFinished -> hp_Window p = "" -> hp_Metric p = "" -> hp_Mode p = "" ->
      f64_eqb (hp_MinimumDelta p) f64_zero = true -> ValidPolicyKind metrics p.

Record ValidPolicy (metrics : list string) (p : HealthPolicy) : Prop := {
  vp_action : hp_Action p = HealthActionNotify;
  vp_target : slugPattern (hp_Target p) = true;
  vp_kind : ValidPolicyKind metrics p;
}.

Record ValidSource (src : Source) : Prop := {
  vs_exclusive : (src_GitURL src = "" /\ src_Commit src = "") \/ src_OCIImage src = "";
  vs_commit : src_GitURL src <> "" -> src_Commit src <> "";
  vs_object : src_Commit src <> "" -> commitPattern (src_Commit src) = true;
}.

Definition ValidGPU (g : GPURequest) : Prop :=
  g_Count g <> 0 /\ oneOf (g_Sharing g) [GPUExclusive; GPUShared].

Definition ValidArtifact (a : ArtifactRule) : Prop :=
  slugPattern (ar_Name a) = true /\ TrimSpace (ar_Glob a) <> "" /\
  unsafeRelativeGlob (ar_Glob a) = false.

Definition ValidCheckpoint (c : CheckpointPolicy) : Prop :=
  TrimSpace (cp_Glob c) <> "" /\ cp_ResumeCommand c <> [] /\ unsafeRelativeGlob (cp_Glob c) = false.

Record ValidSpec `{Unicode} (s : JobSpec) : Prop := {
  v_project : slugPattern (s_Project s) = true;
  v_name : slugPattern (s_Name s) = true;
  v_source : ValidSource (s_Source s);
  v_command : exists c args, s_Command s = c :: args /\ TrimSpace c <> "";
  v_environment : forall k v, s_Environment s !! k = Some v ->
    envPattern k = true /\ HasPrefix k "LCJS_" = false;
  v_secrets : forall k v, s_SecretRefs s !! k = Some v ->
    envPattern k = true /\ TrimSpace v <> "";
  v_gpus : Forall ValidGPU (r_GPUs (s_Resources s));
  v_attempts : rp_MaxAttempts (s_Retry s) <> 0;
  v_lost : oneOf (rp_LostWorker (s_Retry s)) [LostWorkerManual; LostWorkerRetry; LostWorkerFail];
  v_checkpoint : forall c, s_Checkpoint s = Some c -> ValidCheckpoint c;
  v_artifacts : Forall ValidArtifact (s_Artifacts s);
  v_metric_count : (length (s_Metrics s) <= 64)%nat;
  v_metrics : Forall ValidMetric (s_Metrics s);
  v_metric_names : NoDup (m_Name <$> s_Metrics s);
  v_policy_count : (length (s_Health s) <= 16)%nat;
  v_policies : Forall (ValidPolicy (m_Name <$> s_Metrics s)) (s_Health s);
}.

(** ** The checks against the rules *)

Module ValidateTheory.

Lemma errIf_nil b e : errIf b e = [] <-> b = false.
Proof. by destruct b. Qed.

Lemma isEmpty_true s : isEmpty s = true <-> s = "".
Proof. apply String.eqb_eq. Qed.

Lemma isEmpty_false s : isEmpty s = false <-> s <> "".
Proof. apply String.eqb_neq. Qed.

Lemma rangeErrors_nil {A} (check : nat -> A -> list ValidationError) (P : A -> Prop) xs :
  (forall i x, check i x = [] <-> P x) -> rangeErrors check xs = [] <-> Forall P xs.
Proof.
  unfold rangeErrors. intros H. revert check H.
  induction xs as [|x xs IH]; intros check H; simpl; [by rewrite Forall_nil|].
  rewrite app_nil, Forall_cons, H. by rewrite (IH (check ∘ S)) by (intros; apply H).
Qed.

Lemma mapErrors_nil {V} (m : gmap string V) (check : string * V -> list ValidationError)
    (P : string -> V -> Prop) :
  (forall k v, check (k, v) = [] <-> P k v) ->
  map_to_list m ≫= check = [] <-> (forall k v, m !! k = Some v -> P k v).
Proof.
  intros H. split.
  - intros Hn k v Hk. apply H. apply elem_of_map_to_list in Hk.
    apply list_elem_of_split in Hk as (l1 & l2 & Hl). rewrite Hl in Hn.
    rewrite bind_app in Hn. simpl in Hn. rewrite !app_nil in Hn. tauto.
  - intros Hall. assert (forall l, (forall k v, (k, v) ∈ l -> P k v) -> l ≫= check = []) as Hl.
    { induction l as [|[k v] l IH]; [done|]. intros Hp. simpl. apply app_nil. split.
      - apply H, Hp. left.
      - apply IH. intros k' v' Hin. apply Hp. by right. }
    apply Hl. intros k v. rewrite elem_of_map_to_list. apply Hall.
Qed.

Create Rewrite HintDb checks.
#[local] Hint Rewrite errIf_nil (@app_nil ValidationError) orb_false_iff andb_false_iff negb_false_iff
  isEmpty_true isEmpty_false String.eqb_eq String.eqb_neq Z.ltb_ge : checks.

Ltac checks := autorewrite with checks.

Lemma oneOf_cons s o l : oneOf s (o :: l) <-> s = o \/ oneOf s l.
Proof. apply elem_of_cons. Qed.
Lemma oneOf_nil s : oneOf s [] <-> False.
Proof. unfold oneOf. by rewrite elem_of_nil. Qed.

Ltac oneOf := rewrite ?oneOf_cons, ?oneOf_nil.

Lemma validateIdentity_ok s : validateIdentity s = [] <->
  slugPattern (s_Project s) = true /\ slugPattern (s_Name s) = true.
Proof. unfold validateIdentity. checks. tauto. Qed.

Lemma validateSource_ok s : validateSource s = [] <->
  ValidSource (s_Source s) /\ exists c args, s_Command s = c :: args /\ TrimSpace c <> "".
Proof.
  unfold validateSource. checks.
  assert (Hc : match s_Command s with [] => true | c :: _ => isEmpty (TrimSpace c) end = false <->
    exists c args, s_Command s = c :: args /\ TrimSpace c <> "").
  { destruct (s_Command s) as [|c args].
    - split; [done|]. by intros (? & ? & ? & _).
    - rewrite isEmpty_false. split; [eauto|]. by intros (? & ? & [= <- <-] & ?). }
  rewrite Hc. split.
  - intros (H1 & H2 & H3 & H4). split; [|done]. split; [tauto| |].
    + destruct H2 as [|H2]; [congruence|done].
    + destruct H3 as [|H3]; [congruence|done].
  - intros [[H1 H2 H3] H4]. repeat split; try tauto.
    + destruct (decide (src_GitURL (s_Source s) = "")); auto.
    + destruct (decide (src_Commit (s_Source s) = "")); auto.
Qed.

Lemma validateEnvironment_ok s : validateEnvironment s = [] <->
  (forall k v, s_Environment s !! k = Some v -> envPattern k = true /\ HasPrefix k "LCJS_" = false) /\
  (forall k v, s_SecretRefs s !! k = Some v -> envPattern k = true /\ TrimSpace v <> "").
Proof.
  unfold validateEnvironment. rewrite app_nil.
  rewrite (mapErrors_nil _ _ (λ k _, envPattern k = true /\ HasPrefix k "LCJS_" = false)).
  2: { intros k v. by checks. }
  rewrite (mapErrors_nil _ _ (λ k v, envPattern k = true /\ TrimSpace v <> "")); [done|].
  intros k v. by checks.
Qed.

Lemma validateGPU_ok i g : validateGPU i g = [] <-> ValidGPU g.
Proof.
  unfold validateGPU, ValidGPU. checks. oneOf. rewrite Z.eqb_neq. tauto.
Qed.

Lemma validateRetry_ok s : validateRetry s = [] <->
  rp_MaxAttempts (s_Retry s) <> 0 /\
  oneOf (rp_LostWorker (s_Retry s)) [LostWorkerManual; LostWorkerRetry; LostWorkerFail].
Proof. unfold validateRetry. checks. oneOf. rewrite Z.eqb_neq. tauto. Qed.

Lemma validateCheckpoint_ok s : validateCheckpoint s = [] <->
  (forall c, s_Checkpoint s = Some c -> ValidCheckpoint c).
Proof.
  unfold validateCheckpoint, ValidCheckpoint. destruct (s_Checkpoint s) as [c|]; [|naive_solver].
  destruct (isEmpty (TrimSpace (cp_Glob c))) eqn:E1; simpl.
  { apply isEmpty_true in E1. split; [done|]. intros H. by destruct (H c eq_refl). }
  apply isEmpty_false in E1. destruct (cp_ResumeCommand c) as [|x l] eqn:E2; simpl.
  { split; [done|]. intros H. by destruct (H c eq_refl) as (_ & ? & _). }
  rewrite errIf_nil. split; [|intros H; apply (H c eq_refl)].
  intros ? ? [= <-]. by rewrite E2.
Qed.

Lemma validateArtifact_ok i a : validateArtifact i a = [] <-> ValidArtifact a.
Proof.
  unfold validateArtifact, ValidArtifact. destruct (slugPattern (ar_Name a)); simpl; [|by split; [|intros [? _]]].
  destruct (isEmpty (TrimSpace (ar_Glob a))) eqn:E.
  - apply isEmpty_true in E. split; [done|]. by intros (_ & ? & _).
  - apply isEmpty_false in E. rewrite errIf_nil. tauto.
Qed.

Lemma validateLineFields_ok i l format line :
  validateLineFields i l format line = [] <->
  f64_finite (rl_Value line) = true /\
  (format = MetricFormatPercent ->
     f64_ltb (rl_Value line) f64_zero = false /\ f64_ltb (f64_of_Z 1) (rl_Value line) = false) /\
  oneOf (rl_Kind line) [MetricReferenceGoal; MetricReferenceBenchmark;
                        MetricReferenceBaseline; MetricReferenceThreshold].
Proof.
  unfold validateLineFields, f64_finite. checks. oneOf. rewrite negb_true_iff, orb_false_iff.
  assert (forall P : Prop, (format <> MetricFormatPercent \/ P) <-> (format = MetricFormatPercent -> P)).
  { intros P. destruct (decide (format = MetricFormatPercent)); tauto. }
  rewrite H. tauto.
Qed.

(** Names that avoid one more taken name. *)
Lemma fresh_cons {A} (f : A -> string) k (taken : gset string) l :
  Forall (λ y, f y ∉ {[k]} ∪ taken) l <-> (k ∉ f <$> l) /\ Forall (λ y, f y ∉ taken) l.
Proof.
  rewrite !Forall_forall, list_elem_of_fmap. split.
  - intros H. split; [intros (y & -> & Hy)|intros y Hy]; specialize (H y Hy); set_solver.
  - intros [Hk H] y Hy. specialize (H y Hy).
    rewrite not_elem_of_union, not_elem_of_singleton. split; [intros <-; eauto|done].
Qed.

Section labels.
Context {lower : Unicode}.

Lemma validateLines_ok i l format labels lines :
  validateLines i l format labels lines = [] <->
  Forall (ValidLine format) lines /\ NoDup (labelKey <$> lines) /\
  Forall (λ line, labelKey line ∉ labels) lines.
Proof.
  revert l labels. induction lines as [|line lines IH]; intros l labels; simpl.
  { rewrite !Forall_nil, NoDup_nil. tauto. }
  unfold validateLineLabel. fold (labelKey line). rewrite !Forall_cons, NoDup_cons.
  assert (HV : ValidLine format line <->
    (TrimSpace (rl_Label line) <> "" /\ len (TrimSpace (rl_Label line)) <= 100) /\
    validateLineFields i l format line = []).
  { rewrite validateLineFields_ok. split; [intros []; tauto|]. intros (? & ? & ? & ?). by split. }
  rewrite HV. clear HV.
  destruct (isEmpty (TrimSpace (rl_Label line))) eqn:E1; simpl.
  { apply isEmpty_true in E1. split; [done|]. by intros ((((? & _) & _) & _) & _). }
  apply isEmpty_false in E1.
  destruct (Z.ltb_spec 100 (len (TrimSpace (rl_Label line)))); simpl.
  { split; [done|]. intros ((((_ & ?) & _) & _) & _). lia. }
  case_bool_decide as Hin; simpl; [split; [done|]; by intros (_ & _ & ? & _)|].
  rewrite app_nil, IH, fresh_cons. tauto.
Qed.

Lemma validateMetricFields_ok i m :
  (validateMetricFields i m = [] /\ validateLines i 0 (formatOf m) ∅ (m_ReferenceLines m) = []) /\
  metricPattern (m_Name m) = true /\ HasPrefix (m_Name m) SystemMetricPrefix = false <->
  ValidMetric m.
Proof.
  unfold validateMetricFields. rewrite validateLines_ok. checks.
  assert (Hp : match m_Precision m with Some p => 9 <? p | None => false end = false <->
    (forall p, m_Precision m = Some p -> p <= 9)).
  { destruct (m_Precision m); [rewrite Z.ltb_ge|]; naive_solver. }
  rewrite Hp.
  assert (Hd : Forall (λ line, labelKey line ∉ (∅ : gset string)) (m_ReferenceLines m)).
  { apply Forall_forall. set_solver. }
  split.
  - intros (((H1 & H2 & H3 & H4 & H5 & H6 & H7) & H8 & H9 & _) & H10 & H11).
    split; try done; try (oneOf; tauto); lia.
  - intros [H1 H2 H3 H4 H5 H6 H7 H8 H9 H10 H11].
    revert H4 H8. oneOf. intros H4 H8. repeat split; try tauto; lia.
Qed.

Lemma validateMetrics_ok i names ms errs names' :
  validateMetrics i names ms = (errs, names') ->
  (errs = [] <-> Forall ValidMetric ms /\ NoDup (m_Name <$> ms) /\
                 Forall (λ m, m_Name m ∉ names) ms) /\
  (errs = [] -> names' = names ∪ list_to_set (m_Name <$> ms)).
Proof.
  revert i names errs names'. induction ms as [|m ms IH]; intros i names errs names'; simpl.
  { intros [= <- <-]. rewrite !Forall_nil, NoDup_nil. split; [tauto|]. set_solver. }
  destruct (validateMetricName i names m) as [e1 n1] eqn:E1.
  destruct (validateMetrics (S i) n1 ms) as [e2 n2] eqn:E2. intros [= <- <-].
  destruct (IH _ _ _ _ E2) as [IH1 IH2].
  rewrite !app_nil, !Forall_cons, NoDup_cons, <- (validateMetricFields_ok i m), IH1.
  revert E1. unfold validateMetricName.
  destruct (metricPattern (m_Name m)) eqn:Hpat; simpl; [|intros [= <- <-]; naive_solver].
  destruct (HasPrefix (m_Name m) SystemMetricPrefix) eqn:Hres; simpl; [intros [= <- <-]; naive_solver|].
  case_bool_decide as Hin; intros [= <- <-]; [naive_solver|].
  rewrite fresh_cons. split; [tauto|].
  intros Hr. rewrite IH2 by (apply IH1; rewrite fresh_cons; tauto). simpl. set_solver +.
Qed.

End labels.

Lemma validateWindow_ok i p : validateWindow i p = [] <-> ValidWindow p.
Proof.
  unfold validateWindow, ValidWindow. destruct (ParseDuration (hp_Window p)) as [d|].
  - checks. split; [intros [? ?]; exists d; auto|].
    intros (d' & [= <-] & ?). lia.
  - split; [done|]. by intros (? & ? & _).
Qed.

Lemma validatePolicy_ok (names : gset string) metrics i p :
  (forall x, x ∈ names <-> x ∈ metrics) ->
  validatePolicy names i p = [] <-> ValidPolicy metrics p.
Proof.
  intros Hn. unfold validatePolicy. checks.
  assert (HV : ValidPolicy metrics p <-> hp_Action p = HealthActionNotify /\
    slugPattern (hp_Target p) = true /\ ValidPolicyKind metrics p)
    by (split; [intros []; tauto|intros (?&?&?); by split]).
  rewrite HV. clear HV. do 2 (apply and_iff_compat_l).
  destruct (String.eqb_spec (hp_Kind p) HealthKindMetricStalled) as [Hk|Hk1].
  { checks. rewrite validateWindow_ok. split.
    - intros (? & ? & ? & (? & ?) & ?). apply ValidStalled; try done.
      + apply Hn. by destruct (bool_decide_reflect (hp_Metric p ∈ names)).
      + oneOf. tauto.
      + unfold f64_finite. apply negb_true_iff, orb_false_iff. auto.
    - intros [? ? Hm Ho Hf ?|H0|H0]; try (rewrite Hk in H0; discriminate).
      unfold f64_finite in Hf. apply negb_true_iff, orb_false_iff in Hf. revert Ho. oneOf.
      rewrite bool_decide_eq_true, Hn. tauto. }
  destruct (String.eqb_spec (hp_Kind p) HealthKindPeriodic) as [Hk|Hk2].
  { checks. rewrite validateWindow_ok. split.
    - intros (? & (? & ?) & ?). by apply ValidPeriodic.
    - intros [H0|?|H0]; try (rewrite Hk in H0; discriminate). tauto. }
  destruct (String.eqb_spec (hp_Kind p) HealthKindFinished) as [Hk|Hk3].
  { checks. split.
    - intros (((? & ?) & ?) & ?). by apply ValidFinished.
    - intros [H0|H0|?]; try (rewrite Hk in H0; discriminate). tauto. }
  split; [done|]. intros []; congruence.
Qed.

(** [Validate] accepts a specification exactly when it satisfies the rules. *)
Lemma Validate_ok `{Unicode} s : Validate s = [] <-> ValidSpec s.
Proof.
  unfold Validate. destruct (validateMetrics 0 ∅ (s_Metrics s)) as [errs names] eqn:Em.
  destruct (validateMetrics_ok _ _ _ _ _ Em) as [Hm Hn].
  rewrite !app_nil, !errIf_nil, validateIdentity_ok, validateSource_ok, validateEnvironment_ok,
    validateRetry_ok, validateCheckpoint_ok, !Z.ltb_ge.
  rewrite (rangeErrors_nil _ _ _ validateGPU_ok), (rangeErrors_nil _ _ _ validateArtifact_ok).
  assert (Hempty : Forall (λ m, m_Name m ∉ (∅ : gset string)) (s_Metrics s))
    by (apply Forall_forall; set_solver).
  assert (Hpol : errs = [] -> rangeErrors (validatePolicy names) (s_Health s) = [] <->
    Forall (ValidPolicy (m_Name <$> s_Metrics s)) (s_Health s)).
  { intros He. apply rangeErrors_nil. intros i p. apply validatePolicy_ok.
    rewrite (Hn He). set_solver +. }
  split.
  - intros ((? & ?) & (? & ?) & (? & ?) & ? & (? & ?) & ? & ? & ? & He & ? & Hp).
    apply Hpol in Hp; [|done]. apply Hm in He as (? & ? & _). split; try done; lia.
  - intros []. assert (He : errs = []) by (apply Hm; auto). rewrite Hpol by done.
    split_and!; try done; lia.
Qed.

(** Every float of an accepted specification is finite. *)
Definition specFinite (s : JobSpec) : Prop :=
  Forall (λ m, Forall (λ line, f64_finite (rl_Value line) = true) (m_ReferenceLines m)) (s_Metrics s) /\
  Forall (λ p, f64_finite (hp_MinimumDelta p) = true) (s_Health s).

Lemma f64_eqb_zero_finite f : f64_eqb f f64_zero = true -> f64_finite f = true.
Proof. by destruct f as [s|s| |s m e]; try destruct s. Qed.

Lemma valid_finite `{Unicode} s : ValidSpec s -> specFinite s.
Proof.
  intros Hv. split.
  - eapply Forall_impl; [apply (v_metrics _ Hv)|]. intros m Hm.
    eapply Forall_impl; [apply (vm_lines _ Hm)|]. intros l Hl. apply Hl.
  - eapply Forall_impl; [apply (v_policies _ Hv)|].
    intros p [_ _ [ | | ]]; auto using f64_eqb_zero_finite.
Qed.

End ValidateTheory.
