(* ===== verification/Database.v ===== *)
(** * The control plane's database (internal/store/sqlite, migrations/*.sql)

    The tables of the schema and the statements the store runs on them. A row
    holds what its columns hold: times are the texts the code writes and parses
    back, JSON columns are the values they encode. A table with a primary key
    is a finite map from that key; the tables without updates (events, worker
    events, metric samples) are lists in insertion order. INSERT statements
    fail where a PRIMARY KEY, UNIQUE or REFERENCES clause of the migrations is
    violated, and INSERT OR IGNORE ignores the first two. *)

From S2P Require Import Prelude Times Ids Domain Validate.
From Stdlib Require Import Strings.Byte.

(** ** What the store relies on from outside the repository

    [entropy n] is the [n]-th 16-byte read of crypto/rand, [sha256] the digest,
    [specJSON] the JSON encoding of a specification (a deterministic function:
    encoding/json sorts map keys), and [urlParse] is net/url.Parse. *)

Record URL := {
  u_Scheme : string; u_Host : string; u_Hostname : string;
  u_User : bool; u_Fragment : string; u_String : string;
}.

Class Env := {
  entropy : nat -> list byte;
  sha256 : string -> string;
  specJSON : JobSpec -> string;
  urlParse : string -> option URL;
  #[global] env_unicode :: Unicode;
}.

(** ** Errors *)

Inductive Error :=
  | ErrNotFound
  | ErrIdempotencyConflict
  | ErrInvalidTransition (state : option JobState)
  | ErrKeyRequired
  | ErrValidate (errs : list ValidationError)
  | ErrHealthTarget (name : string)         (* validate job: health target not configured *)
  | ErrTargetNotConfigured (name : string)  (* the same condition while firing *)
  | ErrIdentifier (what : string)
  | ErrArgument (what : string)
  | ErrConstraint (table : string)          (* an INSERT statement the schema rejects *)
  | ErrTime (text : string)                 (* a stored time that does not parse *)
  | ErrInteger                              (* a uint64 argument with the high bit set *)
  | ErrEncode
  | ErrDecode
  | ErrEventFields
  | ErrDuplicateMissing                     (* read duplicate worker event: no rows *)
  | ErrSequenceConflict (sequence : Z) (existing : string)
  | ErrNotAssigned
  | ErrAttemptState (action : string) (state : AttemptState)
  | ErrLogTail
  | ErrArtifactContent
  | ErrNoArtifacts
  | ErrMetricSample
  | ErrMetricUndefined (name : string)
  | ErrEventKind (kind : string).

(** ** Rows *)

Record JobRow := {
  jr_project : string; jr_name : string; jr_state : JobState; jr_priority : Z;
  jr_revision : Z; jr_spec : JobSpec; jr_created_at : string; jr_updated_at : string;
}.

Record AttemptRow := {
  at_job_id : string; at_number : Z; at_worker_id : string; at_command_id : string;
  at_state : AttemptState; at_revision : Z; at_offered_at : string; at_lease : string;
  at_accepted_at : option string; at_started_at : option string; at_finished_at : option string;
  at_exit_code : option Z; at_error : string; at_log_uri : string; at_log_tail : string;
  at_git : option GitState;
}.

Record WorkerRow := {
  wr_name : string; wr_status : WorkerStatus; wr_agent_version : string; wr_session_id : string;
  wr_capacity : WorkerCapacity; wr_last_seen_at : option string; wr_created_at : string;
  wr_updated_at : string;
}.

Record WorkerTokenRow := {
  wt_worker_id : string; wt_created_at : string; wt_last_used_at : option string;
  wt_revoked_at : option string;
}.

(** Why a health policy fired, with the data of the printed sentence. *)
Inductive Reason :=
  | ReasonFinished (state : AttemptState) (exitCode : Z)
  | ReasonRunning (running : Z)
  | ReasonStalled (metric : string) (delta : float64) (samples : nat) (window : Z) (minimum : float64).

(** The JSON payloads of control events and health firings. *)
Inductive Payload :=
  | PStr (s : string) | PInt (z : Z) | PTime (t : time) | PPolicy (p : HealthPolicy)
  | PReason (r : Reason) | PObj (fields : list (string * Payload)).

Record EventRow := {
  ev_event_id : string; ev_kind : string; ev_resource_id : string; ev_payload : Payload;
  ev_recorded_at : string;
}.

Record WorkerEventRow := {
  we_worker_id : string; we_session_id : string; we_sequence : Z; we_event : WorkerEvent;
  we_recorded_at : string;
}.

Record MetricRow := {
  mr_attempt_id : string; mr_event_id : string; mr_name : string; mr_value : float64;
  mr_step : option Z; mr_observed_at : string; mr_recorded_at : string;
}.

Record ArtifactRow := {
  af_size_bytes : Z; af_sha256 : string; af_content : option string; af_created_at : string;
}.

Record IdempotencyRow := { ik_request_hash : string; ik_resource_id : string; ik_created_at : string }.

Record TargetRow := {
  tg_name : string; tg_url : string; tg_secret : string; tg_created_at : string;
  tg_revoked_at : option string;
}.

Record FiringRow := {
  hf_job_id : string; hf_attempt_id : string; hf_policy_index : Z; hf_firing_key : string;
  hf_kind : string; hf_target_name : string; hf_payload : Payload; hf_created_at : string;
}.

Inductive DeliveryState := DeliveryPending | DeliveryDelivered | DeliveryDead.

#[export] Instance DeliveryState_eq_dec : EqDecision DeliveryState.
Proof. solve_decision. Defined.

Record DeliveryRow := {
  wd_firing_id : string; wd_target_id : string; wd_state : DeliveryState; wd_attempt_count : Z;
  wd_next_attempt_at : string; wd_response_code : option Z; wd_last_error : string;
  wd_created_at : string; wd_updated_at : string; wd_delivered_at : option string;
}.

Record TokenRow := {
  tk_name : string; tk_hash : string; tk_scope : string; tk_created_at : string;
  tk_last_used_at : option string; tk_revoked_at : option string;
}.

Record SessionRow := {
  bs_token_id : string; bs_created_at : string; bs_expires_at : string; bs_last_used_at : string;
}.

Record DB := {
  jobs : gmap string JobRow;
  attempts : gmap string AttemptRow;
  workers : gmap string WorkerRow;
  worker_tokens : gmap string WorkerTokenRow;           (* by token_hash *)
  events : list EventRow;
  worker_events : list WorkerEventRow;
  metric_samples : list MetricRow;
  artifacts : gmap (string * string * string) ArtifactRow; (* by attempt_id, name, uri *)
  idempotency_keys : gmap string IdempotencyRow;        (* operation create_job, by key *)
  webhook_targets : gmap string TargetRow;
  health_firings : gmap string FiringRow;
  webhook_deliveries : gmap string DeliveryRow;
  api_tokens : gmap string TokenRow;
  browser_sessions : gmap string SessionRow;            (* by session_hash *)
}.

Definition emptyDB : DB := {|
  jobs := ∅; attempts := ∅; workers := ∅; worker_tokens := ∅; events := []; worker_events := [];
  metric_samples := []; artifacts := ∅; idempotency_keys := ∅; webhook_targets := ∅;
  health_firings := ∅; webhook_deliveries := ∅; api_tokens := ∅; browser_sessions := ∅ |}.

(** ** The connection: the database and the random reads made so far *)

Record St := { db : DB; draws : nat }.
Abbreviation Act A := (M St Error A).

Definition with_jobs (x : gmap string JobRow) (d : DB) : DB :=
  {| jobs := x; attempts := attempts d; workers := workers d; worker_tokens := worker_tokens d;
     events := events d; worker_events := worker_events d; metric_samples := metric_samples d;
     artifacts := artifacts d; idempotency_keys := idempotency_keys d; webhook_targets :=
     webhook_targets d; health_firings := health_firings d; webhook_deliveries :=
     webhook_deliveries d; api_tokens := api_tokens d; browser_sessions := browser_sessions d |}.
Definition with_attempts (x : gmap string AttemptRow) (d : DB) : DB :=
  {| jobs := jobs d; attempts := x; workers := workers d; worker_tokens := worker_tokens d;
     events := events d; worker_events := worker_events d; metric_samples := metric_samples d;
     artifacts := artifacts d; idempotency_keys := idempotency_keys d; webhook_targets :=
     webhook_targets d; health_firings := health_firings d; webhook_deliveries :=
     webhook_deliveries d; api_tokens := api_tokens d; browser_sessions := browser_sessions d |}.
Definition with_workers (x : gmap string WorkerRow) (d : DB) : DB :=
  {| jobs := jobs d; attempts := attempts d; workers := x; worker_tokens := worker_tokens d;
     events := events d; worker_events := worker_events d; metric_samples := metric_samples d;
     artifacts := artifacts d; idempotency_keys := idempotency_keys d; webhook_targets :=
     webhook_targets d; health_firings := health_firings d; webhook_deliveries :=
     webhook_deliveries d; api_tokens := api_tokens d; browser_sessions := browser_sessions d |}.
Definition with_worker_tokens (x : gmap string WorkerTokenRow) (d : DB) : DB :=
  {| jobs := jobs d; attempts := attempts d; workers := workers d; worker_tokens := x; events :=
     events d; worker_events := worker_events d; metric_samples := metric_samples d; artifacts :=
     artifacts d; idempotency_keys := idempotency_keys d; webhook_targets := webhook_targets d;
     health_firings := health_firings d; webhook_deliveries := webhook_deliveries d; api_tokens
     := api_tokens d; browser_sessions := browser_sessions d |}.
Definition with_events (x : list EventRow) (d : DB) : DB :=
  {| jobs := jobs d; attempts := attempts d; workers := workers d; worker_tokens := worker_tokens
     d; events := x; worker_events := worker_events d; metric_samples := metric_samples d;
     artifacts := artifacts d; idempotency_keys := idempotency_keys d; webhook_targets :=
     webhook_targets d; health_firings := health_firings d; webhook_deliveries :=
     webhook_deliveries d; api_tokens := api_tokens d; browser_sessions := browser_sessions d |}.
Definition with_worker_events (x : list WorkerEventRow) (d : DB) : DB :=
  {| jobs := jobs d; attempts := attempts d; workers := workers d; worker_tokens := worker_tokens
     d; events := events d; worker_events := x; metric_samples := metric_samples d; artifacts :=
     artifacts d; idempotency_keys := idempotency_keys d; webhook_targets := webhook_targets d;
     health_firings := health_firings d; webhook_deliveries := webhook_deliveries d; api_tokens
     := api_tokens d; browser_sessions := browser_sessions d |}.
Definition with_metric_samples (x : list MetricRow) (d : DB) : DB :=
  {| jobs := jobs d; attempts := attempts d; workers := workers d; worker_tokens := worker_tokens
     d; events := events d; worker_events := worker_events d; metric_samples := x; artifacts :=
     artifacts d; idempotency_keys := idempotency_keys d; webhook_targets := webhook_targets d;
     health_firings := health_firings d; webhook_deliveries := webhook_deliveries d; api_tokens
     := api_tokens d; browser_sessions := browser_sessions d |}.
Definition with_artifacts (x : gmap (string * string * string) ArtifactRow) (d : DB) : DB :=
  {| jobs := jobs d; attempts := attempts d; workers := workers d; worker_tokens := worker_tokens
     d; events := events d; worker_events := worker_events d; metric_samples := metric_samples d;
     artifacts := x; idempotency_keys := idempotency_keys d; webhook_targets := webhook_targets
     d; health_firings := health_firings d; webhook_deliveries := webhook_deliveries d;
     api_tokens := api_tokens d; browser_sessions := browser_sessions d |}.
Definition with_idempotency_keys (x : gmap string IdempotencyRow) (d : DB) : DB :=
  {| jobs := jobs d; attempts := attempts d; workers := workers d; worker_tokens := worker_tokens
     d; events := events d; worker_events := worker_events d; metric_samples := metric_samples d;
     artifacts := artifacts d; idempotency_keys := x; webhook_targets := webhook_targets d;
     health_firings := health_firings d; webhook_deliveries := webhook_deliveries d; api_tokens
     := api_tokens d; browser_sessions := browser_sessions d |}.
Definition with_webhook_targets (x : gmap string TargetRow) (d : DB) : DB :=
  {| jobs := jobs d; attempts := attempts d; workers := workers d; worker_tokens := worker_tokens
     d; events := events d; worker_events := worker_events d; metric_samples := metric_samples d;
     artifacts := artifacts d; idempotency_keys := idempotency_keys d; webhook_targets := x;
     health_firings := health_firings d; webhook_deliveries := webhook_deliveries d; api_tokens
     := api_tokens d; browser_sessions := browser_sessions d |}.
Definition with_health_firings (x : gmap string FiringRow) (d : DB) : DB :=
  {| jobs := jobs d; attempts := attempts d; workers := workers d; worker_tokens := worker_tokens
     d; events := events d; worker_events := worker_events d; metric_samples := metric_samples d;
     artifacts := artifacts d; idempotency_keys := idempotency_keys d; webhook_targets :=
     webhook_targets d; health_firings := x; webhook_deliveries := webhook_deliveries d;
     api_tokens := api_tokens d; browser_sessions := browser_sessions d |}.
Definition with_webhook_deliveries (x : gmap string DeliveryRow) (d : DB) : DB :=
  {| jobs := jobs d; attempts := attempts d; workers := workers d; worker_tokens := worker_tokens
     d; events := events d; worker_events := worker_events d; metric_samples := metric_samples d;
     artifacts := artifacts d; idempotency_keys := idempotency_keys d; webhook_targets :=
     webhook_targets d; health_firings := health_firings d; webhook_deliveries := x; api_tokens
     := api_tokens d; browser_sessions := browser_sessions d |}.
Definition with_api_tokens (x : gmap string TokenRow) (d : DB) : DB :=
  {| jobs := jobs d; attempts := attempts d; workers := workers d; worker_tokens := worker_tokens
     d; events := events d; worker_events := worker_events d; metric_samples := metric_samples d;
     artifacts := artifacts d; idempotency_keys := idempotency_keys d; webhook_targets :=
     webhook_targets d; health_firings := health_firings d; webhook_deliveries :=
     webhook_deliveries d; api_tokens := x; browser_sessions := browser_sessions d |}.
Definition with_browser_sessions (x : gmap string SessionRow) (d : DB) : DB :=
  {| jobs := jobs d; attempts := attempts d; workers := workers d; worker_tokens := worker_tokens
     d; events := events d; worker_events := worker_events d; metric_samples := metric_samples d;
     artifacts := artifacts d; idempotency_keys := idempotency_keys d; webhook_targets :=
     webhook_targets d; health_firings := health_firings d; webhook_deliveries :=
     webhook_deliveries d; api_tokens := api_tokens d; browser_sessions := x |}.

(** ** Statements *)

Section statements.
Context `{Env}.

(** id.New: the next 16 random bytes in the prefix's name space. *)
Definition newID (prefix : string) : Act string := λ s,
  match New prefix (entropy (draws s)) with
  | Ok i => (Ok i, {| db := db s; draws := S (draws s) |})
  | Err what => (Err (ErrIdentifier what), s)
  end.

(** BeginTx, the body, and Commit; a body that returns an error is rolled back. *)
Definition tx {A} (body : Act A) : Act A := λ s,
  match body s with
  | (Ok a, s') => (Ok a, s')
  | (Err e, s') => (Err e, {| db := db s; draws := draws s' |})
  end.

Definition query {A} (f : DB -> A) : Act A := mreads (f ∘ db).
Definition exec (f : DB -> DB) : Act unit :=
  mmodify (λ s, {| db := f (db s); draws := draws s |}).
(** A statement that fails where [ok] does not hold. *)
Definition execIf (ok : DB -> bool) (e : Error) (f : DB -> DB) : Act unit :=
  good ← query ok; mguard good e ;; exec f.

(** INSERT OR IGNORE and its row count: nothing happens where a uniqueness
    constraint would be violated; other constraints fail as usual. *)
Definition insertOrIgnore (ignored ok : DB -> bool) (e : Error) (f : DB -> DB) : Act nat := λ s,
  if ignored (db s) then (Ok 0%nat, s)
  else if ok (db s) then (Ok 1%nat, {| db := f (db s); draws := draws s |})
  else (Err e, s).

(** A result the query must have. *)
Definition found {A} (o : option A) (e : Error) : Act A :=
  match o with Some a => mret a | None => mfail e end.

Definition parsed (text : string) : Act time := found (parseTime text) (ErrTime text).

(** *** Inserts and the constraints of their tables *)

Definition insertJob (id : string) (row : JobRow) : Act unit :=
  execIf (λ d, bool_decide (jobs d !! id = None)) (ErrConstraint "jobs")
    (λ d, with_jobs (<[id := row]> (jobs d)) d).

(** No stored attempt violates the UNIQUE clauses against [row]. *)
Definition attemptUnique (d : DB) (row : AttemptRow) : Prop :=
  map_Forall (λ _ a, at_command_id a <> at_command_id row /\
    ~ (at_job_id a = at_job_id row /\ at_number a = at_number row)) (attempts d).

#[export] Instance attemptUnique_dec d row : Decision (attemptUnique d row).
Proof. apply _. Defined.

Definition insertAttempt (id : string) (row : AttemptRow) : Act unit :=
  execIf (λ d, bool_decide (attempts d !! id = None /\ attemptUnique d row /\
      is_Some (jobs d !! at_job_id row) /\ is_Some (workers d !! at_worker_id row)))
    (ErrConstraint "attempts")
    (λ d, with_attempts (<[id := row]> (attempts d)) d).

Definition insertWorker (id : string) (row : WorkerRow) : Act unit :=
  execIf (λ d, bool_decide (workers d !! id = None /\
      map_Forall (λ _ w, wr_name w <> wr_name row) (workers d)))
    (ErrConstraint "workers")
    (λ d, with_workers (<[id := row]> (workers d)) d).

Definition insertWorkerToken (hash : string) (row : WorkerTokenRow) : Act unit :=
  execIf (λ d, bool_decide (worker_tokens d !! hash = None /\
      is_Some (workers d !! wt_worker_id row)))
    (ErrConstraint "worker_tokens")
    (λ d, with_worker_tokens (<[hash := row]> (worker_tokens d)) d).

Definition insertEvent (row : EventRow) : Act unit :=
  execIf (λ d, bool_decide (Forall (λ e, ev_event_id e <> ev_event_id row) (events d)))
    (ErrConstraint "events")
    (λ d, with_events (events d ++ [row]) d).

(** The rows a worker event collides with: PRIMARY KEY(worker_id, session_id,
    sequence) and UNIQUE(event_id). *)
Definition sameSlot (w session : string) (sequence : Z) (row : WorkerEventRow) : Prop :=
  we_worker_id row = w /\ we_session_id row = session /\ we_sequence row = sequence.

#[export] Instance sameSlot_dec w session sequence row : Decision (sameSlot w session sequence row).
Proof. apply _. Defined.

Definition workerEventCollides (d : DB) (row : WorkerEventRow) : Prop :=
  Exists (λ r, sameSlot (we_worker_id row) (we_session_id row) (we_sequence row) r \/
    e_EventID (we_event r) = e_EventID (we_event row)) (worker_events d).

#[export] Instance workerEventCollides_dec d row : Decision (workerEventCollides d row).
Proof. apply _. Defined.

(** INSERT OR IGNORE INTO worker_events: the number of inserted rows. *)
Definition insertWorkerEvent (row : WorkerEventRow) : Act nat :=
  mguard (we_sequence row <? 2 ^ 63) ErrInteger ;;
  insertOrIgnore (λ d, bool_decide (workerEventCollides d row))
    (λ d, bool_decide (is_Some (workers d !! we_worker_id row) /\
        is_Some (attempts d !! e_AttemptID (we_event row))))
    (ErrConstraint "worker_events")
    (λ d, with_worker_events (worker_events d ++ [row]) d).

Definition insertMetricSample (row : MetricRow) : Act unit :=
  execIf (λ d, bool_decide (Forall (λ r, mr_event_id r <> mr_event_id row) (metric_samples d) /\
      is_Some (attempts d !! mr_attempt_id row) /\
      Exists (λ r, e_EventID (we_event r) = mr_event_id row) (worker_events d)))
    (ErrConstraint "metric_samples")
    (λ d, with_metric_samples (metric_samples d ++ [row]) d).

(** INSERT ... ON CONFLICT(attempt_id, name, uri) DO UPDATE *)
Definition upsertArtifact (attemptID name uri : string) (row : ArtifactRow) : Act unit :=
  execIf (λ d, bool_decide (is_Some (attempts d !! attemptID))) (ErrConstraint "artifacts")
    (λ d, with_artifacts (<[(attemptID, name, uri) := row]> (artifacts d)) d).

Definition insertIdempotencyKey (key : string) (row : IdempotencyRow) : Act unit :=
  execIf (λ d, bool_decide (idempotency_keys d !! key = None)) (ErrConstraint "idempotency_keys")
    (λ d, with_idempotency_keys (<[key := row]> (idempotency_keys d)) d).

Definition insertTarget (id : string) (row : TargetRow) : Act unit :=
  execIf (λ d, bool_decide (webhook_targets d !! id = None /\
      map_Forall (λ _ t, tg_name t <> tg_name row) (webhook_targets d) /\ 32 <= len (tg_secret row)))
    (ErrConstraint "webhook_targets")
    (λ d, with_webhook_targets (<[id := row]> (webhook_targets d)) d).

(** UNIQUE(job_id, attempt_id, policy_index, firing_key) *)
Definition sameFiring (a b : FiringRow) : Prop :=
  hf_job_id a = hf_job_id b /\ hf_attempt_id a = hf_attempt_id b /\
  hf_policy_index a = hf_policy_index b /\ hf_firing_key a = hf_firing_key b.

#[export] Instance sameFiring_dec a b : Decision (sameFiring a b).
Proof. apply _. Defined.

(** INSERT OR IGNORE INTO health_firings: the number of inserted rows. *)
Definition insertFiring (id : string) (row : FiringRow) : Act nat :=
  insertOrIgnore (λ d, bool_decide (is_Some (health_firings d !! id) \/
      map_Exists (λ _ f, sameFiring f row) (health_firings d)))
    (λ d, bool_decide (is_Some (jobs d !! hf_job_id row) /\
        is_Some (attempts d !! hf_attempt_id row))) (ErrConstraint "health_firings")
    (λ d, with_health_firings (<[id := row]> (health_firings d)) d).

Definition insertDelivery (id : string) (row : DeliveryRow) : Act unit :=
  execIf (λ d, bool_decide (webhook_deliveries d !! id = None /\
      map_Forall (λ _ w, ~ (wd_firing_id w = wd_firing_id row /\ wd_target_id w = wd_target_id row))
        (webhook_deliveries d) /\
      is_Some (health_firings d !! wd_firing_id row) /\ is_Some (webhook_targets d !! wd_target_id row)))
    (ErrConstraint "webhook_deliveries")
    (λ d, with_webhook_deliveries (<[id := row]> (webhook_deliveries d)) d).

Definition insertToken (id : string) (row : TokenRow) : Act unit :=
  execIf (λ d, bool_decide (api_tokens d !! id = None /\ len (tk_hash row) = 32 /\
      map_Forall (λ _ t, tk_name t <> tk_name row /\ tk_hash t <> tk_hash row) (api_tokens d)))
    (ErrConstraint "api_tokens")
    (λ d, with_api_tokens (<[id := row]> (api_tokens d)) d).

Definition insertSession (hash : string) (row : SessionRow) : Act unit :=
  execIf (λ d, bool_decide (browser_sessions d !! hash = None /\ len hash = 32 /\
      is_Some (api_tokens d !! bs_token_id row)))
    (ErrConstraint "browser_sessions")
    (λ d, with_browser_sessions (<[hash := row]> (browser_sessions d)) d).

(** *** Updates by primary key: UPDATE ... WHERE id = ? *)

Definition updateJob (id : string) (f : JobRow -> JobRow) : Act unit :=
  exec (λ d, with_jobs (alter f id (jobs d)) d).
Definition updateAttempt (id : string) (f : AttemptRow -> AttemptRow) : Act unit :=
  exec (λ d, with_attempts (alter f id (attempts d)) d).
End statements.

(** ** Selection *)

(** ORDER BY with a total order of the keys. *)
Definition isLe {A} (le : A -> A -> bool) : relation A := λ x y, le x y = true.
#[export] Instance isLe_dec {A} (le : A -> A -> bool) : RelDecision (isLe le).
Proof. intros x y. unfold isLe. apply _. Defined.

Definition orderBy {A} (le : A -> A -> bool) (rows : list A) : list A :=
  merge_sort (isLe le) rows.

(** The order of "ORDER BY c1, c2": the first comparison that decides. *)
Definition lexc (c d : comparison) : comparison := match c with Eq => d | _ => c end.
Definition notGt (c : comparison) : bool := match c with Gt => false | _ => true end.

(** COUNT( * ) and EXISTS over a table. *)
Definition rowsWhere {K A} `{Countable K} (P : K * A -> Prop) `{forall x, Decision (P x)}
    (table : gmap K A) : list (K * A) := filter P (map_to_list table).

(** appendControlEvent *)
Definition appendControlEvent `{Env} (kind resourceID : string) (value : Payload) (now : time) : Act unit :=
  eventID ← newID "evt";
  insertEvent {| ev_event_id := eventID; ev_kind := kind; ev_resource_id := resourceID;
    ev_payload := value; ev_recorded_at := formatTime now |}.

(** ** Running statements *)

Module DatabaseTheory.
Section runs.
Context `{Env}.

Lemma query_ok {A} (f : DB -> A) s a s' : query f s = (Ok a, s') -> a = f (db s) /\ s' = s.
Proof. unfold query, mreads. intros [= <- <-]. done. Qed.

Lemma query_run {A B} (f : DB -> A) (k : A -> Act B) s : (query f ≫= k) s = k (f (db s)) s.
Proof. done. Qed.

Lemma ret_ok {A} (a b : A) (s s' : St) : mret (M := M St Error) a s = (Ok b, s') -> b = a /\ s' = s.
Proof. by intros [= <- <-]. Qed.

Lemma fail_ok {A} (e : Error) (s : St) (a : A) (s' : St) : mfail e s = (Ok a, s') -> False.
Proof. done. Qed.

Lemma found_ok {A} (o : option A) e s a s' : found o e s = (Ok a, s') -> o = Some a /\ s' = s.
Proof. unfold found. destruct o; [|done]. by intros [= <- <-]. Qed.

Lemma exec_ok f s u s' : exec f s = (Ok u, s') -> s' = {| db := f (db s); draws := draws s |}.
Proof. unfold exec, mmodify. by intros [= _ <-]. Qed.

Lemma execIf_ok ok e f s u s' : execIf ok e f s = (Ok u, s') ->
  ok (db s) = true /\ s' = {| db := f (db s); draws := draws s |}.
Proof.
  unfold execIf. intros Hr. run_inv Hr. apply query_ok in R as [-> ->].
  apply guard_ok in R0 as [-> ->]. by apply exec_ok in Hr.
Qed.

Lemma insertOrIgnore_ok ignored ok e f s n s' : insertOrIgnore ignored ok e f s = (Ok n, s') ->
  (n = 0%nat /\ ignored (db s) = true /\ s' = s) \/
  (n = 1%nat /\ ignored (db s) = false /\ ok (db s) = true /\
   s' = {| db := f (db s); draws := draws s |}).
Proof.
  unfold insertOrIgnore. destruct (ignored (db s)), (ok (db s)); intros [= <- <-]; auto.
Qed.

Lemma newID_ok p s i s' : newID p s = (Ok i, s') ->
  New p (entropy (draws s)) = Ok i /\ s' = {| db := db s; draws := S (draws s) |}.
Proof. unfold newID. destruct (New _ _) eqn:E; [|done]. by intros [= <- <-]. Qed.

Lemma tx_ok {A} (m : Act A) s a s' : tx m s = (Ok a, s') -> m s = (Ok a, s').
Proof. unfold tx. destruct (m s) as [[] ?]; naive_solver. Qed.

Lemma tx_err {A} (m : Act A) s e s' : tx m s = (Err e, s') ->
  db s' = db s /\ exists s1, m s = (Err e, s1) /\ draws s' = draws s1.
Proof. unfold tx. destruct (m s) as [[] s1]; [done|]. intros [= <- <-]. eauto. Qed.

(** A transaction either commits its body or leaves the database as it was. *)
Lemma tx_cases {A} (m : Act A) s :
  (exists a s', m s = (Ok a, s') /\ tx m s = (Ok a, s')) \/
  (exists e s', m s = (Err e, s') /\ (tx m s).1 = Err e /\ db (tx m s).2 = db s).
Proof. unfold tx. destruct (m s) as [[a|e] s1]; [left|right]; eauto. Qed.

(** [keeps] for the statements. *)
Lemma keeps_query {A} P (f : DB -> A) : keeps P (query f).
Proof. apply keeps_reads. Qed.
Lemma keeps_found {A} P (o : option A) e : keeps P (found o e).
Proof. destruct o; [apply keeps_ret|apply keeps_fail]. Qed.
Lemma keeps_execIf (P : St -> Prop) ok e f :
  (forall s, P s -> ok (db s) = true -> P {| db := f (db s); draws := draws s |}) -> keeps P (execIf ok e f).
Proof.
  intros Hf s Hs. unfold execIf. rewrite query_run. destruct (ok (db s)) eqn:E; simpl; auto.
Qed.

(** A property of the database that reads no random bytes. *)
Definition onDB (P : DB -> Prop) (s : St) : Prop := P (db s).

Lemma keeps_newID P p : keeps (onDB P) (newID p).
Proof. intros s Hs. unfold newID. by destruct (New _ _). Qed.
Lemma keeps_tx {A} P (m : Act A) : keeps (onDB P) m -> keeps (onDB P) (tx m).
Proof.
  intros Hm s Hs. specialize (Hm s Hs). unfold tx. by destruct (m s) as [[] ?].
Qed.
Lemma keeps_exec (P : DB -> Prop) f : (forall d, P d -> P (f d)) -> keeps (onDB P) (exec f).
Proof. intros Hf s. apply Hf. Qed.
Lemma keeps_onDB_execIf (P : DB -> Prop) ok e f :
  (forall d, P d -> ok d = true -> P (f d)) -> keeps (onDB P) (execIf ok e f).
Proof. intros Hf. apply keeps_execIf. intros s. apply Hf. Qed.

(** Only the result of a call that neither reads nor writes is used. *)
Lemma keeps_eq {A} (m : Act A) s : (forall P, keeps (onDB P) m) -> db (m s).2 = db s.
Proof. intros Hk. by apply (Hk (λ d, d = db s)). Qed.

End runs.
Lemma elem_of_rowsWhere {K A} `{Countable K} (P : K * A -> Prop) `{forall x, Decision (P x)}
    (table : gmap K A) k a : (k, a) ∈ rowsWhere P table <-> P (k, a) /\ table !! k = Some a.
Proof. unfold rowsWhere. by rewrite list_elem_of_filter, elem_of_map_to_list. Qed.

Lemma NoDup_rowsWhere {K A} `{Countable K} (P : K * A -> Prop) `{forall x, Decision (P x)}
    (table : gmap K A) : NoDup (rowsWhere P table).*1.
Proof.
  unfold rowsWhere. apply (sublist_NoDup _ (map_to_list table).*1);
    [apply NoDup_fst_map_to_list|apply fmap_sublist, sublist_filter].
Qed.

Lemma orderBy_Permutation {A} (le : A -> A -> bool) rows : orderBy le rows ≡ₚ rows.
Proof. apply merge_sort_Permutation. Qed.

(** The largest of the values and 0. *)
Lemma max_spec (l : list Z) : 0 <= foldr Z.max 0 l /\ (forall x, x ∈ l -> x <= foldr Z.max 0 l) /\
  (foldr Z.max 0 l = 0 \/ foldr Z.max 0 l ∈ l).
Proof.
  induction l as [|y l (H0 & H1 & H2)]; simpl.
  - split_and!; [lia|set_solver|by left].
  - split_and!; [lia| |].
    + intros x [->|Hx]%elem_of_cons; [lia|]. specialize (H1 x Hx). lia.
    + destruct (Z.max_spec y (foldr Z.max 0 l)) as [[_ ->]|[_ ->]].
      * destruct H2 as [->|H2]; [by left|right; by apply elem_of_cons; right].
      * right. apply elem_of_cons. by left.
Qed.

End DatabaseTheory.
Export DatabaseTheory.

#[export] Hint Resolve keeps_query keeps_found keeps_newID keeps_tx : keeps.

(** Inverts the successful runs among the hypotheses. *)
Ltac runs :=
  repeat match goal with
  | H : (_ ≫= _) _ = (Ok _, _) |- _ =>
      let a := fresh "v" in let s := fresh "s" in let R := fresh "R" in
      apply bind_ok in H as (a & s & R & H)
  | H : query _ _ = (Ok _, _) |- _ => apply query_ok in H as [-> ->]
  | H : mret _ _ = (Ok _, _) |- _ => apply ret_ok in H as [? ->]
  | H : mfail _ _ = (Ok _, _) |- _ => by apply fail_ok in H
  | H : mguard _ _ _ = (Ok _, _) |- _ => apply guard_ok in H as [? ->]
  | H : found _ _ _ = (Ok _, _) |- _ => apply found_ok in H as [? ->]
  | H : newID _ _ = (Ok _, _) |- _ => apply newID_ok in H as [? ->]
  | H : exec _ _ = (Ok _, _) |- _ => apply exec_ok in H as ->
  | H : execIf _ _ _ _ = (Ok _, _) |- _ => apply execIf_ok in H as [? ->]
  | H : tx _ _ = (Ok _, _) |- _ => apply tx_ok in H
  | H : bool_decide _ = true |- _ => apply bool_decide_eq_true in H
  end; simpl in *.
