(* ===== verification/Jobs.v ===== *)
(** * Jobs in the store (internal/store/sqlite/store.go)

    Submitting, reading, listing and canceling jobs. *)

From S2P Require Import Prelude Times Ids Domain Validate Database.

(** Attempts a worker may still be executing: state IN (offered, accepted, running). *)
Definition live (s : AttemptState) : bool :=
  match s with AttemptOffered | AttemptAccepted | AttemptRunning => true | _ => false end.

Record CreateJobResult := { cr_Job : Job; cr_Created : bool }.

Section jobs.
Context `{Env}.

Definition scanJob (id : string) (row : JobRow) : Act Job :=
  createdAt ← parsed (jr_created_at row);
  updatedAt ← parsed (jr_updated_at row);
  mret {| j_ID := id; j_State := jr_state row; j_Revision := jr_revision row;
          j_Spec := jr_spec row; j_CreatedAt := createdAt; j_UpdatedAt := updatedAt |}.

Definition getJob (jobID : string) : Act Job :=
  o ← query (λ d, jobs d !! jobID);
  row ← found o ErrNotFound;
  scanJob jobID row.

Definition GetJob (jobID : string) : Act Job := getJob jobID.

(** SELECT id FROM webhook_targets WHERE name = ? AND revoked_at IS NULL *)
Definition activeTarget (d : DB) (name : string) : option string :=
  match rowsWhere (λ kt, tg_name kt.2 = name /\ tg_revoked_at kt.2 = None) (webhook_targets d) with
  | (id, _) :: _ => Some id
  | [] => None
  end.

(** The loop over spec.Health that requires each target to be configured. *)
Definition checkTargets (policies : list HealthPolicy) : Act (gset string) :=
  mfold policies ∅ (λ checkedTargets policy,
    if bool_decide (hp_Target policy ∈ checkedTargets) then mret checkedTargets
    else
      o ← query (λ d, activeTarget d (hp_Target policy));
      _ ← found o (ErrHealthTarget (hp_Target policy));
      mret ({[hp_Target policy]} ∪ checkedTargets)).

Definition requestHash (spec : JobSpec) : string := sha256 (specJSON spec).

Definition CreateJob (now : time) (key : string) (spec : JobSpec) : Act CreateJobResult :=
  mguard (negb (key =? "")%string) ErrKeyRequired ;;
  mguard (bool_decide (Validate spec = [])) (ErrValidate (Validate spec)) ;;
  tx (
    stored ← query (λ d, idempotency_keys d !! key);
    match stored with
    | Some row =>
        mguard (ik_request_hash row =? requestHash spec)%string ErrIdempotencyConflict ;;
        job ← getJob (ik_resource_id row);
        mret {| cr_Job := job; cr_Created := false |}
    | None =>
        _ ← checkTargets (s_Health spec);
        jobID ← newID "job";
        eventID ← newID "evt";
        let job := {| j_ID := jobID; j_State := JobQueued; j_Revision := 1; j_Spec := spec;
                      j_CreatedAt := now; j_UpdatedAt := now |} in
        insertJob jobID {| jr_project := s_Project spec; jr_name := s_Name spec;
          jr_state := JobQueued; jr_priority := s_Priority spec; jr_revision := 1;
          jr_spec := spec; jr_created_at := formatTime now; jr_updated_at := formatTime now |} ;;
        insertEvent {| ev_event_id := eventID; ev_kind := "job_submitted"; ev_resource_id := jobID;
          ev_payload := PObj [("job_id", PStr jobID); ("revision", PInt 1)];
          ev_recorded_at := formatTime now |} ;;
        insertIdempotencyKey key {| ik_request_hash := requestHash spec;
          ik_resource_id := jobID; ik_created_at := formatTime now |} ;;
        mret {| cr_Job := job; cr_Created := true |}
    end).

(** SELECT COUNT of the job's attempts in a live state. *)
Definition liveAttempts (d : DB) (jobID : string) : list (string * AttemptRow) :=
  rowsWhere (λ ka, at_job_id ka.2 = jobID /\ live (at_state ka.2) = true) (attempts d).

Definition setJobState (state : JobState) (now : time) (row : JobRow) : JobRow :=
  {| jr_project := jr_project row; jr_name := jr_name row; jr_state := state;
     jr_priority := jr_priority row; jr_revision := jr_revision row + 1; jr_spec := jr_spec row;
     jr_created_at := jr_created_at row; jr_updated_at := formatTime now |}.

(** UPDATE jobs ... WHERE id = ? AND revision = ? AND state IN (queued,
    retry_wait, running), and the check of its row count. *)
Definition cancelRow (job : Job) (target : JobState) (now : time) : Act unit :=
  let matches d :=
    match jobs d !! j_ID job with
    | Some row => bool_decide (jr_revision row = j_Revision job) &&
        bool_decide (jr_state row ∈ [JobQueued; JobRetryWait; JobRunning])
    | None => false
    end in
  execIf matches (ErrInvalidTransition None)
    (λ d, with_jobs (alter (setJobState target now) (j_ID job) (jobs d)) d).

Definition cancelJobTx (now : time) (jobID : string) : Act (option Job) :=
  tx (
    job ← getJob jobID;
    if bool_decide (j_State job ∈ [JobCanceled; JobCanceling]) then mret (Some job)
    else if bool_decide (j_State job ∈ [JobSucceeded; JobFailed])
    then mfail (ErrInvalidTransition (Some (j_State job)))
    else
      n ← query (λ d, length (liveAttempts d (j_ID job)));
      let '(target, eventKind) :=
        if (0 <? n)%nat then (JobCanceling, "job_cancel_requested")
        else (JobCanceled, "job_canceled") in
      cancelRow job target now ;;
      appendControlEvent eventKind (j_ID job) (PObj [("job_id", PStr (j_ID job))]) now ;;
      mret None).

Definition CancelJob (now : time) (jobID : string) : Act Job :=
  o ← cancelJobTx now jobID;
  match o with
  | Some job => mret job
  | None => GetJob jobID
  end.

(** ORDER BY created_at DESC, id DESC *)
Definition newestFirst (x y : string * JobRow) : bool :=
  notGt (lexc (Text.cmp (jr_created_at y.2) (jr_created_at x.2)) (Text.cmp y.1 x.1)).

Definition clampLimit (limit : Z) : Z :=
  let limit := if limit <=? 0 then 100 else limit in
  if 1000 <? limit then 1000 else limit.

Definition ListJobs (limit : Z) : Act (list Job) :=
  rows ← query (λ d, take (Z.to_nat (clampLimit limit))
                       (orderBy newestFirst (map_to_list (jobs d))));
  mfold rows [] (λ acc row, job ← scanJob row.1 row.2; mret (acc ++ [job])).
End jobs.
