(* ===== verification/Health.v ===== *)
(** * Health policies and webhook deliveries (internal/store/sqlite/health.go)

    Webhook targets, the evaluation of the periodic and metric_stalled
    policies, the firing of a policy with its delivery and control event, and
    the delivery queue with its retries. *)

From S2P Require Import Prelude Times GoLib Ids Domain Validate Database Jobs.

Definition maxWebhookAttempts : Z := 10.

Record WebhookTarget := { wk_ID : string; wk_Name : string; wk_URL : string }.

Record WebhookDelivery := {
  dl_ID : string; dl_FiringID : string; dl_TargetName : string; dl_URL : string;
  dl_Secret : string; dl_Payload : Payload; dl_AttemptCount : Z;
}.

Record healthCandidate := {
  hc_JobID : string; hc_AttemptID : string; hc_AttemptNumber : Z; hc_WorkerID : string;
  hc_StartedAt : time; hc_Spec : JobSpec;
}.

(** time.Time.Sub: the difference, saturated at the ends of time.Duration. *)
Definition timeSub (a b : time) : Z := Z.max (- 2 ^ 63) (Z.min (2 ^ 63 - 1) (a - b)).

(** time.Duration.Round for a positive multiple. *)
Definition durationRound (d m : Z) : Z :=
  let r := Z.rem d m in
  if d <? 0
  then if - r + - r <? m then d - r else Z.max (- 2 ^ 63) (d - m - r)
  else if r + r <? m then d - r else Z.min (2 ^ 63 - 1) (d + m - r).

(** ** The stalled test *)

Record observedValue := { ob_value : float64; ob_at : time }.

Definition observedBefore (x y : observedValue) : bool := ob_at x <=? ob_at y.

(** The best value of the window, in the direction of the policy. *)
Definition bestValue (mode : string) (first : float64) (rest : list observedValue) : float64 :=
  foldl (λ best o,
    let value := ob_value o in
    let best := if (mode =? HealthModeMax)%string && f64_ltb best value then value else best in
    if (mode =? HealthModeMin)%string && f64_ltb value best then value else best) first rest.

(** The verdict on the observations of the window, sorted by time. Which of two
    observations of one instant comes first, sort.Slice leaves open; here it is
    the one that was recorded first. *)
Definition stalledVerdict (policy : HealthPolicy) (observations : list observedValue)
    : bool * float64 * nat :=
  match observations with
  | first :: (_ :: _) as rest =>
      let best := bestValue (hp_Mode policy) (ob_value first) rest in
      let delta :=
        if (hp_Mode policy =? HealthModeMin)%string then f64_sub (ob_value first) best
        else f64_sub best (ob_value first) in
      (f64_ltb delta (hp_MinimumDelta policy), delta, length observations)
  | _ => (false, f64_zero, length observations)
  end.

(** ** Delivery retries *)

(** The wait after the given number of failed attempts. *)
Definition backoffAfter (attempts : Z) : Z :=
  let backoff := 5 * GoTime.Second * Z.shiftl 1 (Z.min (u32 (attempts - 1)) 10) in
  if GoTime.Hour <? backoff then GoTime.Hour else backoff.

Definition nullableResponseCode (code : Z) : option Z := if code =? 0 then None else Some code.

Definition truncateString (value : string) (limit : nat) : string :=
  if (String.length value <=? limit)%nat then value else String.substring 0 limit value.

Definition setDelivered (attempts responseCode : Z) (now : time) (row : DeliveryRow) : DeliveryRow :=
  {| wd_firing_id := wd_firing_id row; wd_target_id := wd_target_id row;
     wd_state := DeliveryDelivered; wd_attempt_count := attempts;
     wd_next_attempt_at := wd_next_attempt_at row; wd_response_code := Some responseCode;
     wd_last_error := ""; wd_created_at := wd_created_at row; wd_updated_at := formatTime now;
     wd_delivered_at := Some (formatTime now) |}.

Definition setRetry (nextState : DeliveryState) (attempts responseCode : Z) (deliveryError : string)
    (next now : time) (row : DeliveryRow) : DeliveryRow :=
  {| wd_firing_id := wd_firing_id row; wd_target_id := wd_target_id row;
     wd_state := nextState; wd_attempt_count := attempts;
     wd_next_attempt_at := formatTime next; wd_response_code := nullableResponseCode responseCode;
     wd_last_error := truncateString deliveryError 2000; wd_created_at := wd_created_at row;
     wd_updated_at := formatTime now; wd_delivered_at := wd_delivered_at row |}.

(** The row after the result of one delivery attempt. *)
Definition deliveryResult (now : time) (responseCode : Z) (deliveryError : string)
    (row : DeliveryRow) : DeliveryRow :=
  let attempts := u32 (wd_attempt_count row + 1) in
  if (200 <=? responseCode) && (responseCode <? 300) && (deliveryError =? "")%string
  then setDelivered attempts responseCode now row
  else
    let nextState := if maxWebhookAttempts <=? attempts then DeliveryDead else DeliveryPending in
    setRetry nextState attempts responseCode deliveryError (now + backoffAfter attempts) now row.

Section health.
Context `{Env}.

Definition CreateWebhookTarget (now : time) (name rawURL secret : string) : Act WebhookTarget :=
  let name := TrimSpace name in
  mguard (slugPattern name) (ErrArgument "webhook target name") ;;
  match urlParse rawURL with
  | None => mfail (ErrArgument "webhook target URL")
  | Some parsed =>
      mguard (negb ((u_Host parsed =? "")%string || u_User parsed || negb (u_Fragment parsed =? "")%string))
        (ErrArgument "webhook target URL") ;;
      mguard ((u_Scheme parsed =? "https")%string || ((u_Scheme parsed =? "http")%string &&
          ((u_Hostname parsed =? "127.0.0.1")%string || (u_Hostname parsed =? "localhost")%string)))
        (ErrArgument "webhook target URL must use HTTPS") ;;
      mguard (32 <=? len secret) (ErrArgument "webhook signing secret") ;;
      targetID ← newID "hkt";
      insertTarget targetID {| tg_name := name; tg_url := u_String parsed; tg_secret := secret;
        tg_created_at := formatTime now; tg_revoked_at := None |} ;;
      mret {| wk_ID := targetID; wk_Name := name; wk_URL := u_String parsed |}
  end.

(** body[name] = value *)
Definition putField (fields : list (string * Payload)) (f : string * Payload) : list (string * Payload) :=
  filter (λ g, g.1 <> f.1) fields ++ [f].

Definition firingBody (candidate : healthCandidate) (firingID : string) (policyIndex : Z)
    (policy : HealthPolicy) (reason : Reason) (extra : list (string * Payload)) (now : time) : Payload :=
  let body := [
    ("event_id", PStr firingID); ("kind", PStr "health_policy_fired");
    ("job", PObj [("id", PStr (hc_JobID candidate)); ("project", PStr (s_Project (hc_Spec candidate)));
                  ("name", PStr (s_Name (hc_Spec candidate)))]);
    ("attempt", PObj [("id", PStr (hc_AttemptID candidate)); ("number", PInt (hc_AttemptNumber candidate));
                      ("worker_id", PStr (hc_WorkerID candidate))]);
    ("policy_index", PInt policyIndex); ("policy", PPolicy policy);
    ("reason", PReason reason); ("observed_at", PTime now)] in
  PObj (foldl putField body extra).

Definition fireHealthPolicyTx (candidate : healthCandidate) (policyIndex : Z) (policy : HealthPolicy)
    (firingKey : string) (reason : Reason) (extra : list (string * Payload)) (now : time) : Act bool :=
  firingID ← newID "hlf";
  deliveryID ← newID "dlv";
  let payload := firingBody candidate firingID policyIndex policy reason extra now in
  target ← query (λ d, activeTarget d (hp_Target policy));
  targetID ← found target (ErrTargetNotConfigured (hp_Target policy));
  inserted ← insertFiring firingID {| hf_job_id := hc_JobID candidate;
    hf_attempt_id := hc_AttemptID candidate; hf_policy_index := policyIndex;
    hf_firing_key := firingKey; hf_kind := hp_Kind policy; hf_target_name := hp_Target policy;
    hf_payload := payload; hf_created_at := formatTime now |};
  if (inserted =? 0)%nat then mret false
  else
    insertDelivery deliveryID {| wd_firing_id := firingID; wd_target_id := targetID;
      wd_state := DeliveryPending; wd_attempt_count := 0; wd_next_attempt_at := formatTime now;
      wd_response_code := None; wd_last_error := ""; wd_created_at := formatTime now;
      wd_updated_at := formatTime now; wd_delivered_at := None |} ;;
    appendControlEvent "health_policy_fired" (hc_JobID candidate)
      (PObj [("firing_id", PStr firingID); ("attempt_id", PStr (hc_AttemptID candidate));
             ("policy_index", PInt policyIndex); ("target", PStr (hp_Target policy))]) now ;;
    mret true.

Definition fireHealthPolicy (candidate : healthCandidate) (policyIndex : Z) (policy : HealthPolicy)
    (firingKey : string) (reason : Reason) (now : time) : Act bool :=
  tx (fireHealthPolicyTx candidate policyIndex policy firingKey reason [] now).

Definition metricStalled (attemptID : string) (policy : HealthPolicy) (cutoff : time)
    : Act (bool * float64 * nat) :=
  rows ← query (λ d, filter (λ r, mr_attempt_id r = attemptID /\ mr_name r = hp_Metric policy)
                       (metric_samples d));
  observations ← mfold rows [] (λ acc r,
    observedAt ← parsed (mr_observed_at r);
    if observedAt <? cutoff then mret acc
    else mret (acc ++ [{| ob_value := mr_value r; ob_at := observedAt |}]));
  mret (stalledVerdict policy (orderBy observedBefore observations)).

(** What one policy of a running attempt fires, if anything. *)
Definition policyFires (now : time) (candidate : healthCandidate) (policy : HealthPolicy)
    : Act (option (string * Reason)) :=
  match ParseDuration (hp_Window policy) with
  | None => mret None
  | Some window =>
      if window <=? 0 then mret None
      else if (hp_Kind policy =? HealthKindPeriodic)%string then
        let bucket := Z.quot (timeSub now (hc_StartedAt candidate)) window in
        if bucket <? 1 then mret None
        else mret (Some ("periodic:" +:+ pretty bucket,
               ReasonRunning (durationRound (timeSub now (hc_StartedAt candidate)) GoTime.Second)))
      else if (hp_Kind policy =? HealthKindMetricStalled)%string then
        if timeSub now (hc_StartedAt candidate) <? window then mret None
        else
          verdict ← metricStalled (hc_AttemptID candidate) policy (now - window);
          let '(stalled, delta, samples) := verdict in
          if (stalled : bool)
          then mret (Some ("stalled", ReasonStalled (hp_Metric policy) delta samples window
                                        (hp_MinimumDelta policy)))
          else mret None
      else mret None
  end.

(** ORDER BY j.id, a.attempt_number *)
Definition candidateOrder (x y : string * AttemptRow) : bool :=
  notGt (lexc (Text.cmp (at_job_id x.2) (at_job_id y.2)) (Z.compare (at_number x.2) (at_number y.2))).

Definition runningAttempts (d : DB) : list (string * AttemptRow * JobRow) :=
  omap (λ ka,
    match jobs d !! at_job_id ka.2 with
    | Some j => if bool_decide (jr_state j = JobRunning) then Some (ka, j) else None
    | None => None
    end)
  (orderBy candidateOrder
    (rowsWhere (λ ka, at_state ka.2 = AttemptRunning /\ at_started_at ka.2 <> None) (attempts d))).

Definition scanCandidate (row : string * AttemptRow * JobRow) : Act healthCandidate :=
  let '(id, a, j) := row in
  startedAt ← parsed (default "" (at_started_at a));
  mret {| hc_JobID := at_job_id a; hc_AttemptID := id; hc_AttemptNumber := at_number a;
          hc_WorkerID := at_worker_id a; hc_StartedAt := startedAt; hc_Spec := jr_spec j |}.

Definition evaluatePolicy (now : time) (candidate : healthCandidate) (fired : nat)
    (ip : Z * HealthPolicy) : Act nat :=
  o ← policyFires now candidate ip.2;
  match o with
  | None => mret fired
  | Some (firingKey, reason) =>
      inserted ← fireHealthPolicy candidate (u32 ip.1) ip.2 firingKey reason now;
      mret (if (inserted : bool) then S fired else fired)
  end.

(** The index-value pairs of "for index, policy := range policies". *)
Definition indexed {A} (xs : list A) : list (Z * A) := imap (λ i x, (Z.of_nat i, x)) xs.

Definition EvaluateHealthPolicies (now : time) : Act nat :=
  rows ← query runningAttempts;
  candidates ← mfold rows [] (λ acc row, c ← scanCandidate row; mret (acc ++ [c]));
  mfold candidates 0%nat (λ fired candidate,
    mfold (indexed (s_Health (hc_Spec candidate))) fired (evaluatePolicy now candidate)).

(** ORDER BY d.next_attempt_at, d.created_at, d.id *)
Definition dueOrder (x y : string * DeliveryRow) : bool :=
  notGt (lexc (Text.cmp (wd_next_attempt_at x.2) (wd_next_attempt_at y.2))
        (lexc (Text.cmp (wd_created_at x.2) (wd_created_at y.2)) (Text.cmp x.1 y.1))).

(** One row of the join with its firing and its unrevoked target. *)
Definition dueRow (d : DB) (row : string * DeliveryRow) : option WebhookDelivery :=
  f ← health_firings d !! wd_firing_id row.2;
  t ← webhook_targets d !! wd_target_id row.2;
  if bool_decide (tg_revoked_at t = None)
  then Some {| dl_ID := row.1; dl_FiringID := wd_firing_id row.2; dl_TargetName := tg_name t;
               dl_URL := tg_url t; dl_Secret := tg_secret t; dl_Payload := hf_payload f;
               dl_AttemptCount := wd_attempt_count row.2 |}
  else None.

Definition dueDeliveries (d : DB) (now : time) : list WebhookDelivery :=
  omap (dueRow d) (orderBy dueOrder (rowsWhere (λ kw, wd_state kw.2 = DeliveryPending /\
    Text.leb (wd_next_attempt_at kw.2) (formatTime now) = true) (webhook_deliveries d))).

Definition DueWebhookDeliveries (now : time) (limit : Z) : Act (list WebhookDelivery) :=
  let limit := if (limit <=? 0) || (100 <? limit) then 20 else limit in
  query (λ d, take (Z.to_nat limit) (dueDeliveries d now)).

Definition RecordWebhookResult (now : time) (deliveryID : string) (responseCode : Z)
    (deliveryError : string) : Act unit :=
  tx (
    o ← query (λ d, webhook_deliveries d !! deliveryID);
    row ← found o ErrNotFound;
    if bool_decide (wd_state row <> DeliveryPending) then mret tt
    else exec (λ d, with_webhook_deliveries
           (<[deliveryID := deliveryResult now responseCode deliveryError row]>
              (webhook_deliveries d)) d)).
End health.
