(* ===== verification/Events.v ===== *)
(** * Worker events (internal/store/sqlite/workers.go)

    Recording an event a worker reports, once per worker, session and sequence
    number, and its effect on the attempt, the job, the artifacts and the
    metrics. *)

From S2P Require Import Prelude Times GoLib Ids Domain Validate Database Jobs Health.

(** ** Metrics *)

(** metric.Format != percent || (value >= 0 && value <= 1) *)
Definition metricValueFits (metric : MetricDefinition) (value : float64) : bool :=
  negb (m_Format metric =? MetricFormatPercent)%string ||
  (f64_leb f64_zero value && f64_leb value (f64_of_Z 1)).

Definition definedMetric (metrics : list MetricDefinition) (name : string) (value : float64) : bool :=
  match List.find (λ m, (m_Name m =? name)%string) metrics with
  | Some metric => metricValueFits metric value
  | None =>
      match SystemMetricDefinition name with
      | Some metric => metricValueFits metric value
      | None => false
      end
  end.

(** json.Marshal fails on the floats JSON has no text for. *)
Definition eventEncodes (event : WorkerEvent) : bool :=
  match e_Metric event with Some m => f64_finite (ms_Value m) | None => true end.

(** ** Updates of an attempt *)

Definition setAccepted (at_ : time) (a : AttemptRow) : AttemptRow :=
  {| at_job_id := at_job_id a; at_number := at_number a; at_worker_id := at_worker_id a;
     at_command_id := at_command_id a; at_state := AttemptAccepted; at_revision := at_revision a + 1;
     at_offered_at := at_offered_at a; at_lease := at_lease a;
     at_accepted_at := Some (formatTime at_); at_started_at := at_started_at a;
     at_finished_at := at_finished_at a; at_exit_code := at_exit_code a; at_error := at_error a;
     at_log_uri := at_log_uri a; at_log_tail := at_log_tail a; at_git := at_git a |}.

Definition setRunning (at_ : time) (git : option GitState) (a : AttemptRow) : AttemptRow :=
  {| at_job_id := at_job_id a; at_number := at_number a; at_worker_id := at_worker_id a;
     at_command_id := at_command_id a; at_state := AttemptRunning; at_revision := at_revision a + 1;
     at_offered_at := at_offered_at a; at_lease := at_lease a;
     at_accepted_at := at_accepted_at a; at_started_at := Some (formatTime at_);
     at_finished_at := at_finished_at a; at_exit_code := at_exit_code a; at_error := at_error a;
     at_log_uri := at_log_uri a; at_log_tail := at_log_tail a; at_git := git |}.

Definition setFinished (state : AttemptState) (exitCode : Z) (event : WorkerEvent) (a : AttemptRow)
    : AttemptRow :=
  {| at_job_id := at_job_id a; at_number := at_number a; at_worker_id := at_worker_id a;
     at_command_id := at_command_id a; at_state := state; at_revision := at_revision a + 1;
     at_offered_at := at_offered_at a; at_lease := at_lease a;
     at_accepted_at := at_accepted_at a; at_started_at := at_started_at a;
     at_finished_at := Some (formatTime (e_OccurredAt event)); at_exit_code := Some exitCode;
     at_error := e_Error event; at_log_uri := e_LogURI event; at_log_tail := e_LogTail event;
     at_git := at_git a |}.

(** The states the finished event leads to, from the job's state, the attempt's
    number and the specification. *)
Definition finishStates (jobState : JobState) (attemptNumber : Z) (spec : JobSpec) (exitCode : Z)
    (error : string) : AttemptState * JobState :=
  if bool_decide (jobState = JobCanceling \/ jobState = JobCanceled)
  then (AttemptCanceled, JobCanceled)
  else if (exitCode =? 0) && (error =? "")%string then (AttemptSucceeded, JobSucceeded)
  else if attemptNumber <? rp_MaxAttempts (s_Retry spec) then (AttemptFailed, JobQueued)
  else (AttemptFailed, JobFailed).

Definition exitCodeOf (event : WorkerEvent) : Z := default (-1) (e_ExitCode event).

Definition jobStartable (s : JobState) : bool := bool_decide (s = JobQueued).

Section events.
Context `{Env}.

(** The loop that records announced artifacts. *)
Definition recordArtifacts (attemptID : string) (artifacts : list ArtifactAnnouncement)
    (recordedAt : time) : Act unit :=
  mfor artifacts (λ artifact,
    mguard (len (aa_Content artifact) <=? 65536) ErrArtifactContent ;;
    let content := if (aa_Content artifact =? "")%string then None else Some (aa_Content artifact) in
    upsertArtifact attemptID (aa_Name artifact) (aa_URI artifact)
      {| af_size_bytes := aa_SizeBytes artifact; af_sha256 := aa_SHA256 artifact;
         af_content := content; af_created_at := formatTime recordedAt |}).

(** A call whose error is logged and dropped; its writes and reads stay. *)
Definition logged {A} (call : Act A) : Act unit := λ s, (Ok tt, (call s).2).

(** The attempt row joined with its job. *)
Record Assigned := {
  as_state : AttemptState; as_job_id : string; as_job_state : JobState;
  as_number : Z; as_spec : JobSpec;
}.

Definition assignedAttempt (d : DB) (attemptID workerID : string) : option Assigned :=
  a ← attempts d !! attemptID;
  j ← jobs d !! at_job_id a;
  if bool_decide (at_worker_id a = workerID)
  then Some {| as_state := at_state a; as_job_id := at_job_id a; as_job_state := jr_state j;
               as_number := at_number a; as_spec := jr_spec j |}
  else None.

Definition applyAccepted (cur : Assigned) (event : WorkerEvent) : Act unit :=
  mguard (bool_decide (as_state cur = AttemptOffered)) (ErrAttemptState "accept" (as_state cur)) ;;
  updateAttempt (e_AttemptID event) (setAccepted (e_OccurredAt event)).

Definition applyStarted (cur : Assigned) (workerID : string) (event : WorkerEvent)
    (recordedAt : time) : Act unit :=
  mguard (bool_decide (as_state cur ∈ [AttemptAccepted; AttemptOffered]))
    (ErrAttemptState "start" (as_state cur)) ;;
  updateAttempt (e_AttemptID event) (setRunning (e_OccurredAt event) (e_Git event)) ;;
  updateJob (as_job_id cur) (λ j,
    if jobStartable (jr_state j) then setJobState JobRunning recordedAt j else j) ;;
  appendControlEvent "attempt_started" (as_job_id cur)
    (PObj [("attempt_id", PStr (e_AttemptID event)); ("worker_id", PStr workerID)]) recordedAt.

(** The finished health policies of the job, none of which may fail the event. *)
Definition fireFinished (cur : Assigned) (workerID : string) (event : WorkerEvent)
    (attemptState : AttemptState) (nextJobState : JobState) (exitCode : Z) (recordedAt : time)
    : Act unit :=
  mfor (indexed (s_Health (as_spec cur))) (λ ip,
    if negb (hp_Kind ip.2 =? HealthKindFinished)%string then mret tt
    else
      let candidate := {| hc_JobID := as_job_id cur; hc_AttemptID := e_AttemptID event;
        hc_AttemptNumber := as_number cur; hc_WorkerID := workerID; hc_StartedAt := GoTime.zero;
        hc_Spec := as_spec cur |} in
      let extra := [("attempt_state", PStr (AttemptState_text attemptState));
                    ("exit_code", PInt exitCode); ("job_state", PStr (JobState_text nextJobState))] in
      logged (fireHealthPolicyTx candidate (u32 ip.1) ip.2 "finished"
        (ReasonFinished attemptState exitCode) extra recordedAt)).

Definition applyFinished (cur : Assigned) (workerID : string) (event : WorkerEvent)
    (recordedAt : time) : Act unit :=
  mguard (bool_decide (as_state cur ∈ [AttemptRunning; AttemptAccepted]))
    (ErrAttemptState "finish" (as_state cur)) ;;
  let exitCode := exitCodeOf event in
  mguard (len (e_LogTail event) <=? 65536) ErrLogTail ;;
  let '(attemptState, nextJobState) :=
    finishStates (as_job_state cur) (as_number cur) (as_spec cur) exitCode (e_Error event) in
  updateAttempt (e_AttemptID event) (setFinished attemptState exitCode event) ;;
  updateJob (as_job_id cur) (setJobState nextJobState recordedAt) ;;
  recordArtifacts (e_AttemptID event) (e_Artifacts event) recordedAt ;;
  fireFinished cur workerID event attemptState nextJobState exitCode recordedAt ;;
  appendControlEvent "attempt_finished" (as_job_id cur)
    (PObj [("attempt_id", PStr (e_AttemptID event)); ("worker_id", PStr workerID);
           ("state", PStr (AttemptState_text attemptState)); ("exit_code", PInt exitCode)]) recordedAt.

Definition applyArtifacts (event : WorkerEvent) (recordedAt : time) : Act unit :=
  mguard (bool_decide (e_Artifacts event <> [])) ErrNoArtifacts ;;
  recordArtifacts (e_AttemptID event) (e_Artifacts event) recordedAt.

Definition applyMetric (cur : Assigned) (event : WorkerEvent) (recordedAt : time) : Act unit :=
  match e_Metric event with
  | None => mfail ErrMetricSample
  | Some m =>
      mguard (negb (ms_Name m =? "")%string && f64_finite (ms_Value m)) ErrMetricSample ;;
      mguard (definedMetric (s_Metrics (as_spec cur)) (ms_Name m) (ms_Value m))
        (ErrMetricUndefined (ms_Name m)) ;;
      insertMetricSample {| mr_attempt_id := e_AttemptID event; mr_event_id := e_EventID event;
        mr_name := ms_Name m; mr_value := ms_Value m; mr_step := ms_Step m;
        mr_observed_at := formatTime (ms_ObservedAt m); mr_recorded_at := formatTime recordedAt |}
  end.

Definition applyWorkerEvent (workerID : string) (event : WorkerEvent) (recordedAt : time) : Act unit :=
  o ← query (λ d, assignedAttempt d (e_AttemptID event) workerID);
  cur ← found o ErrNotAssigned;
  if (e_Kind event =? WorkerEventAttemptAccepted)%string then applyAccepted cur event
  else if (e_Kind event =? WorkerEventAttemptStarted)%string
  then applyStarted cur workerID event recordedAt
  else if (e_Kind event =? WorkerEventAttemptFinished)%string
  then applyFinished cur workerID event recordedAt
  else if (e_Kind event =? WorkerEventArtifacts)%string then applyArtifacts event recordedAt
  else if (e_Kind event =? WorkerEventMetricSample)%string then applyMetric cur event recordedAt
  else mfail (ErrEventKind (e_Kind event)).

(** SELECT event_id FROM worker_events WHERE worker_id = ? AND session_id = ? AND sequence = ? *)
Definition recordedEventID (d : DB) (workerID sessionID : string) (sequence : Z) : option string :=
  match filter (sameSlot workerID sessionID sequence) (worker_events d) with
  | r :: _ => Some (e_EventID (we_event r))
  | [] => None
  end.

Definition recordWorkerEvent (workerID sessionID : string) (event : WorkerEvent)
    (recordedAt : time) : Act unit :=
  mguard (negb ((e_Sequence event =? 0) || (e_EventID event =? "")%string ||
                (e_AttemptID event =? "")%string)) ErrEventFields ;;
  mguard (eventEncodes event) ErrEncode ;;
  inserted ← insertWorkerEvent {| we_worker_id := workerID; we_session_id := sessionID;
    we_sequence := e_Sequence event; we_event := event; we_recorded_at := formatTime recordedAt |};
  if (inserted =? 0)%nat then
    o ← query (λ d, recordedEventID d workerID sessionID (e_Sequence event));
    existing ← found o ErrDuplicateMissing;
    mguard (existing =? e_EventID event)%string (ErrSequenceConflict (e_Sequence event) existing)
  else applyWorkerEvent workerID event recordedAt.
End events.
