(* ===== verification/Lifecycle.v ===== *)
(** * The lifecycle of jobs and attempts

    The abstract specification of the control plane: a state machine over the
    jobs and the attempts, with one rule per kind of change the operators and
    the workers may cause, and the invariant its rules keep. The operations of
    the store are shown to be runs of this machine in Control.v. *)

From S2P Require Import Prelude Times Domain Validate ValidateSpec Database Jobs Events.

Record core := Core { cJ : gmap string JobRow; cA : gmap string AttemptRow }.

Definition coreOf (d : DB) : core := Core (jobs d) (attempts d).

(** ** States of a job that go together with the states of its live attempt *)

Definition compatible (job : JobState) (liveAttempt : option AttemptState) : bool :=
  match job, liveAttempt with
  | JobQueued, None => true
  | JobQueued, Some (AttemptOffered | AttemptAccepted) => true
  | JobRunning, Some AttemptRunning => true
  | JobCanceling, Some s => live s
  | (JobSucceeded | JobFailed | JobCanceled), None => true
  | _, _ => false
  end.

Definition terminal (s : JobState) : bool :=
  match s with JobSucceeded | JobFailed | JobCanceled => true | _ => false end.

Definition maxAttempts (j : JobRow) : Z := rp_MaxAttempts (s_Retry (jr_spec j)).

(** [aid] is the live attempt [a] of the job [jid]. *)
Definition isLive (c : core) (jid aid : string) (a : AttemptRow) : Prop :=
  cA c !! aid = Some a /\ at_job_id a = jid /\ live (at_state a) = true.

Definition hasLive (c : core) (jid : string) : Prop := exists aid a, isLive c jid aid a.

(** The fields that identify a row, which no update changes. *)
Definition sameAttempt (a b : AttemptRow) : Prop :=
  at_job_id a = at_job_id b /\ at_number a = at_number b /\
  at_worker_id a = at_worker_id b /\ at_command_id a = at_command_id b.

Definition sameJob (a b : JobRow) : Prop :=
  jr_spec a = jr_spec b /\ jr_priority a = jr_priority b /\ jr_created_at a = jr_created_at b /\
  jr_project a = jr_project b /\ jr_name a = jr_name b.

(** ** The rules *)

Section rules.
Context {lower : Unicode}.
(** The rules a worker's sync may use act on that worker's attempts only. *)
Variable w : option string.

Inductive step : core -> core -> Prop :=
  | Submit J A id j now :
      jr_created_at j = formatTime now -> jr_updated_at j = formatTime now -> GoTime.fourDigitYear now ->
      J !! id = None -> jr_state j = JobQueued -> jr_revision j = 1 ->
      Validate (jr_spec j) = [] -> SpecTyped (jr_spec j) -> w = None ->
      step (Core J A) (Core (<[id := j]> J) A)
  | Cancel J A id j target now :
      GoTime.fourDigitYear now ->
      J !! id = Some j -> jr_state j ∈ [JobQueued; JobRetryWait; JobRunning] ->
      (target = JobCanceling /\ hasLive (Core J A) id \/
       target = JobCanceled /\ ~ hasLive (Core J A) id) -> w = None ->
      step (Core J A) (Core (<[id := setJobState target now j]> J) A)
  | Offer J A aid a j :
      A !! aid = None -> J !! at_job_id a = Some j -> jr_state j = JobQueued ->
      ~ hasLive (Core J A) (at_job_id a) -> at_state a = AttemptOffered ->
      1 <= at_number a ->
      (forall aid' a', A !! aid' = Some a' -> at_command_id a' <> at_command_id a) ->
      (forall aid' a', A !! aid' = Some a' -> at_job_id a' = at_job_id a ->
         at_number a' < at_number a) ->
      (at_number a = 1 \/ exists aid' a', A !! aid' = Some a' /\ at_job_id a' = at_job_id a /\
         at_number a' = at_number a - 1) ->
      w = Some (at_worker_id a) ->
      step (Core J A) (Core J (<[aid := a]> A))
  | Accept J A aid a at_ :
      A !! aid = Some a -> at_state a = AttemptOffered -> w = Some (at_worker_id a) ->
      step (Core J A) (Core J (<[aid := setAccepted at_ a]> A))
  | Start J A aid a j at_ git now :
      GoTime.fourDigitYear now ->
      A !! aid = Some a -> at_state a = AttemptOffered \/ at_state a = AttemptAccepted ->
      J !! at_job_id a = Some j -> w = Some (at_worker_id a) ->
      step (Core J A)
        (Core (<[at_job_id a := if jobStartable (jr_state j) then setJobState JobRunning now j else j]> J)
              (<[aid := setRunning at_ git a]> A))
  | Finish J A aid a j event now st next :
      GoTime.fourDigitYear now ->
      A !! aid = Some a -> at_state a = AttemptRunning \/ at_state a = AttemptAccepted ->
      J !! at_job_id a = Some j -> w = Some (at_worker_id a) ->
      finishStates (jr_state j) (at_number a) (jr_spec j) (exitCodeOf event) (e_Error event) = (st, next) ->
      step (Core J A)
        (Core (<[at_job_id a := setJobState next now j]> J)
              (<[aid := setFinished st (exitCodeOf event) event a]> A)).
End rules.

(** ** The invariant *)

(** The times of a job are texts the program can read back. *)
Definition jobTimes (j : JobRow) : Prop :=
  exists created updated, GoTime.fourDigitYear created /\ GoTime.fourDigitYear updated /\
    jr_created_at j = formatTime created /\ jr_updated_at j = formatTime updated.

Record Inv `{Unicode} (c : core) : Prop := {
  inv_job : forall aid a, cA c !! aid = Some a -> is_Some (cJ c !! at_job_id a);
  inv_one : forall jid a1 r1 a2 r2, isLive c jid a1 r1 -> isLive c jid a2 r2 -> a1 = a2;
  inv_latest : forall jid aid a aid' a', isLive c jid aid a ->
    cA c !! aid' = Some a' -> at_job_id a' = jid -> at_number a' <= at_number a;
  inv_command : forall a1 r1 a2 r2, cA c !! a1 = Some r1 -> cA c !! a2 = Some r2 ->
    at_command_id r1 = at_command_id r2 -> a1 = a2;
  inv_number : forall a1 r1 a2 r2, cA c !! a1 = Some r1 -> cA c !! a2 = Some r2 ->
    at_job_id r1 = at_job_id r2 -> at_number r1 = at_number r2 -> a1 = a2;
  inv_gapless : forall aid a n, cA c !! aid = Some a -> 1 <= n <= at_number a ->
    exists aid' a', cA c !! aid' = Some a' /\ at_job_id a' = at_job_id a /\ at_number a' = n;
  inv_bound : forall aid a j, cA c !! aid = Some a -> cJ c !! at_job_id a = Some j ->
    1 <= at_number a <= maxAttempts j;
  inv_retry : forall aid a j, cA c !! aid = Some a -> cJ c !! at_job_id a = Some j ->
    jr_state j = JobQueued -> live (at_state a) = false -> at_number a < maxAttempts j;
  inv_live : forall jid j aid a, cJ c !! jid = Some j -> isLive c jid aid a ->
    compatible (jr_state j) (Some (at_state a)) = true;
  inv_idle : forall jid j, cJ c !! jid = Some j -> ~ hasLive c jid ->
    compatible (jr_state j) None = true;
  inv_spec : forall jid j, cJ c !! jid = Some j -> Validate (jr_spec j) = [] /\ SpecTyped (jr_spec j);
  inv_times : forall jid j, cJ c !! jid = Some j -> jobTimes j;
}.

(** ** The rules keep the invariant *)

Module LifecycleTheory.
Section theory.
Context {lower : Unicode}.

Lemma maxAttempts_pos j : Validate (jr_spec j) = [] -> SpecTyped (jr_spec j) -> 1 <= maxAttempts j.
Proof.
  intros Hv [_ [Ht _]]. apply ValidateTheory.Validate_ok in Hv. pose proof (v_attempts _ Hv).
  unfold maxAttempts. lia.
Qed.

Lemma isLive_insert_eq J A aid a jid b : isLive (Core J (<[aid := a]> A)) jid aid b <->
  b = a /\ at_job_id a = jid /\ live (at_state a) = true.
Proof.
  unfold isLive; simpl. rewrite lookup_insert_eq. split.
  - intros ([= ->] & ? & ?). auto.
  - intros (-> & ? & ?). auto.
Qed.

Lemma isLive_insert_ne J A aid a jid aid' b : aid <> aid' ->
  isLive (Core J (<[aid := a]> A)) jid aid' b <-> isLive (Core J A) jid aid' b.
Proof. intros. unfold isLive; simpl. by rewrite lookup_insert_ne. Qed.

Lemma inv_empty : Inv (Core ∅ ∅).
Proof.
  split; unfold isLive; simpl; intros; destruct_and?; simplify_map_eq.
Qed.

(** Case analysis on a lookup in an updated map. *)
Ltac lookups :=
  repeat match goal with
  | H : insert _ _ _ !! _ = Some _ |- _ => apply lookup_insert_Some in H as [[? ?]|[? H]]
  | H : isLive (Core _ (insert ?i _ _)) _ ?k _ |- _ =>
      destruct (decide (i = k)) as [?|?];
      [subst; apply isLive_insert_eq in H as (? & ? & ?) | apply isLive_insert_ne in H; [|done]]
  end; subst.

Lemma jobTimes_set st now j : GoTime.fourDigitYear now -> jobTimes j -> jobTimes (setJobState st now j).
Proof. intros Hn (c & u & Hc & _ & Ec & _). by exists c, now. Qed.

Lemma inv_submit J A id j now : jr_created_at j = formatTime now -> jr_updated_at j = formatTime now ->
  GoTime.fourDigitYear now -> Inv (Core J A) -> J !! id = None -> jr_state j = JobQueued ->
  Validate (jr_spec j) = [] -> SpecTyped (jr_spec j) -> Inv (Core (<[id := j]> J) A).
Proof.
  intros Hc Hu Hy HI Hid Hst Hv Ht.
  assert (Hno : forall aid a, A !! aid = Some a -> at_job_id a <> id).
  { intros aid a Ha <-. destruct (inv_job _ HI aid a Ha) as [? Hj]. simpl in Hj. congruence. }
  destruct HI; split; unfold hasLive in *; simpl in *; eauto.
  - intros aid a Ha. rewrite lookup_insert_ne; eauto. by apply not_eq_sym, Hno with aid.
  - intros aid a j0 Ha Hj. rewrite lookup_insert_ne in Hj; eauto. by apply not_eq_sym, Hno with aid.
  - intros aid a j0 Ha Hj. rewrite lookup_insert_ne in Hj; eauto. by apply not_eq_sym, Hno with aid.
  - intros jid j0 aid a Hj (Ha & Hjid & Hl). simpl in Ha. lookups; [by destruct (Hno aid a)|].
    eapply inv_live0; eauto. by split.
  - intros jid j0 Hj Hn. lookups; [by rewrite Hst|]. eapply inv_idle0; eauto.
  - intros jid j0 Hj. lookups; eauto.
  - intros jid j0 Hj. lookups; [by exists now, now|eauto].
Qed.

Lemma inv_cancel J A id j target now : GoTime.fourDigitYear now -> Inv (Core J A) -> J !! id = Some j ->
  (target = JobCanceling /\ hasLive (Core J A) id \/ target = JobCanceled /\ ~ hasLive (Core J A) id) ->
  Inv (Core (<[id := setJobState target now j]> J) A).
Proof.
  intros Hy HI Hid Ht. destruct HI; split; unfold hasLive in *; simpl in *; eauto.
  - intros aid a Ha. destruct (decide (id = at_job_id a)) as [->|];
      [rewrite lookup_insert_eq|rewrite lookup_insert_ne]; eauto.
  - intros aid a j0 Ha Hj. lookups; [|eauto]. unfold maxAttempts; simpl. eapply inv_bound0; eauto.
  - intros aid a j0 Ha Hj Hs. lookups; [|eauto]. simpl in Hs. destruct Ht as [[-> _]|[-> _]]; done.
  - intros jid j0 aid a Hj Hl. lookups; [|eauto].
    destruct Ht as [[-> _]|[_ Hn]]; simpl; [apply Hl|]. exfalso. eauto.
  - intros jid j0 Hj Hn. lookups; [|eauto]. destruct Ht as [[_ Hl]|[-> _]]; [tauto|done].
  - intros jid j0 Hj. lookups; eauto. simpl. eauto.
  - intros jid j0 Hj. lookups; eauto using jobTimes_set.
Qed.

Lemma inv_offer J A aid a j : Inv (Core J A) -> A !! aid = None -> J !! at_job_id a = Some j ->
  jr_state j = JobQueued -> ~ hasLive (Core J A) (at_job_id a) -> at_state a = AttemptOffered ->
  1 <= at_number a ->
  (forall aid' a', A !! aid' = Some a' -> at_command_id a' <> at_command_id a) ->
  (forall aid' a', A !! aid' = Some a' -> at_job_id a' = at_job_id a -> at_number a' < at_number a) ->
  (at_number a = 1 \/ exists aid' a', A !! aid' = Some a' /\ at_job_id a' = at_job_id a /\
     at_number a' = at_number a - 1) ->
  Inv (Core J (<[aid := a]> A)).
Proof.
  intros HI Haid Hj Hst Hidle Hoff Hpos Hcmd Hmax Hprev.
  assert (Hnl : forall aid' b, isLive (Core J A) (at_job_id a) aid' b -> False)
    by (intros; apply Hidle; unfold hasLive; eauto).
  assert (Hbound : at_number a <= maxAttempts j).
  { destruct (inv_spec _ HI _ _ Hj) as [Hv Ht]. pose proof (maxAttempts_pos j Hv Ht).
    destruct Hprev as [->|(aid' & a' & Ha' & Hjob & Hn)]; [done|].
    destruct (live (at_state a')) eqn:Hl; [destruct (Hnl aid' a'); by split|].
    rewrite <- Hjob in Hj. pose proof (inv_retry _ HI aid' a' j Ha' Hj Hst Hl). lia. }
  destruct HI; split; simpl in *.
  - intros aid' b Hb. lookups; eauto.
  - intros jid a1 r1 a2 r2 H1 H2. lookups; try done; [| |eauto]; by edestruct Hnl.
  - intros jid aid1 b aid2 b2 H1 H2 H3. lookups; [lia| | |eauto].
    + by edestruct Hnl.
    + specialize (Hmax _ _ H2 (eq_sym H1)). lia.
  - intros a1 r1 a2 r2 H1 H2 Hc. lookups; [done| | |eauto].
    + by destruct (Hcmd a1 r1 H1).
    + by destruct (Hcmd a2 r2 H2).
  - intros a1 r1 a2 r2 H1 H2 Hjob Hn. lookups; [done| | |eauto].
    + specialize (Hmax a1 r1 H1 Hjob). lia.
    + specialize (Hmax a2 r2 H2 (eq_sym Hjob)). lia.
  - intros aid1 b n Hb Hn.
    assert (Hold : forall aid2 b2, A !! aid2 = Some b2 -> 1 <= n <= at_number b2 ->
      exists aid' a', <[aid := a]> A !! aid' = Some a' /\ at_job_id a' = at_job_id b2 /\ at_number a' = n).
    { intros aid2 b2 H2 Hn2. destruct (inv_gapless0 aid2 b2 n H2 Hn2) as (x & y & Hx & Hy).
      exists x, y. rewrite lookup_insert_ne by congruence. auto. }
    lookups; [|eauto].
    destruct (decide (n = at_number b)) as [->|Hne]; [exists aid1, b; by rewrite lookup_insert_eq|].
    destruct Hprev as [?|(aid' & a' & Ha' & <- & Hn')]; [lia|]. apply (Hold aid' a'); [done|lia].
  - intros aid1 b j0 Hb Hj0. lookups; [|eauto]. rewrite Hj in Hj0. injection Hj0 as <-. lia.
  - intros aid1 b j0 Hb Hj0 Hq Hl. lookups; [|eauto]. rewrite Hoff in Hl. done.
  - intros jid j0 aid1 b Hj0 Hl. lookups; [|eauto].
    rewrite Hj in Hj0. injection Hj0 as <-. by rewrite Hst, Hoff.
  - intros jid j0 Hj0 Hn. apply (inv_idle0 jid j0 Hj0). intros (x & y & Hl).
    apply Hn. exists x, y. apply isLive_insert_ne; [|done]. intros ->. destruct Hl. simpl in *. congruence.
  - eauto.
  - eauto.
Qed.

(** A change of a live attempt together with its job: what it must respect. *)
Definition goodUpdate (a a' : AttemptRow) (j' : JobRow) : Prop :=
  if live (at_state a') then compatible (jr_state j') (Some (at_state a')) = true
  else compatible (jr_state j') None = true /\
       (jr_state j' = JobQueued -> at_number a < maxAttempts j').

Lemma inv_update J A aid a a' j j' : Inv (Core J A) -> A !! aid = Some a ->
  live (at_state a) = true -> J !! at_job_id a = Some j -> sameAttempt a a' -> sameJob j j' ->
  jobTimes j' -> goodUpdate a a' j' -> Inv (Core (<[at_job_id a := j']> J) (<[aid := a']> A)).
Proof.
  intros HI Ha Hl Hj (Sj & Sn & Sw & Sc) (Ts & _) Hjt Hg.
  assert (Hlive : isLive (Core J A) (at_job_id a) aid a) by by split.
  assert (Hspec : forall j0, j0 = j \/ j0 = j' -> maxAttempts j0 = maxAttempts j).
  { unfold maxAttempts. intros j0 [->| ->]; by rewrite ?Ts. }
  assert (Hold : forall aid2 b, <[aid := a']> A !! aid2 = Some b -> exists b0,
    A !! aid2 = Some b0 /\ sameAttempt b0 b).
  { intros aid2 b Hb. lookups; [exists a; split; [done|]; by repeat split|].
    exists b. split; [done|]. by repeat split. }
  assert (Hjob : forall jid j0, <[at_job_id a := j']> J !! jid = Some j0 -> exists j1,
    J !! jid = Some j1 /\ jr_spec j1 = jr_spec j0).
  { intros jid j0 H0. lookups; eauto. }
  assert (Hwas : forall jid aid2 b, isLive (Core (<[at_job_id a := j']> J) (<[aid := a']> A)) jid aid2 b ->
    exists b0, isLive (Core J A) jid aid2 b0 /\ at_number b0 = at_number b).
  { intros jid aid2 b Hb. destruct (decide (aid = aid2)) as [<-|].
    - apply isLive_insert_eq in Hb as (-> & <- & _). exists a. split; [|done]. by rewrite <- Sj.
    - apply isLive_insert_ne in Hb; [|done]. by exists b. }
  split; simpl.
  - intros aid2 b Hb. apply Hold in Hb as (b0 & Hb0 & <- & _).
    destruct (inv_job _ HI _ _ Hb0) as [x Hx]. simpl in Hx.
    destruct (decide (at_job_id a = at_job_id b0)) as [<-|];
      [rewrite lookup_insert_eq|rewrite lookup_insert_ne]; eauto.
  - intros jid a1 r1 a2 r2 H1 H2. apply Hwas in H1 as (? & H1 & _), H2 as (? & H2 & _).
    by eapply (inv_one _ HI).
  - intros jid aid1 b1 aid2 b2 H1 H2 H3. apply Hwas in H1 as (c1 & H1 & <-).
    apply Hold in H2 as (c2 & H2 & Ej & <- & _).
    eapply (inv_latest _ HI); eauto. congruence.
  - intros a1 r1 a2 r2 H1 H2 Hc. apply Hold in H1 as (c1 & H1 & _ & _ & _ & E1), H2 as (c2 & H2 & _ & _ & _ & E2).
    eapply (inv_command _ HI); eauto. congruence.
  - intros a1 r1 a2 r2 H1 H2 Ej En. apply Hold in H1 as (c1 & H1 & J1 & N1 & _), H2 as (c2 & H2 & J2 & N2 & _).
    eapply (inv_number _ HI); eauto; congruence.
  - intros aid1 b n Hb Hn. apply Hold in Hb as (b0 & Hb0 & Eb & En & _).
    rewrite <- En in Hn. destruct (inv_gapless _ HI aid1 b0 n Hb0 Hn) as (x & y & Hx & Hy & Hyn).
    simpl in Hx. destruct (decide (aid = x)) as [<-|].
    + exists aid, a'. rewrite lookup_insert_eq. split; [done|]. assert (y = a) as -> by congruence.
      split; congruence.
    + exists x, y. rewrite lookup_insert_ne by done. split; [done|]. split; congruence.
  - intros aid1 b j0 Hb Hj0. apply Hold in Hb as (b0 & Hb0 & Eb & <- & _).
    apply Hjob in Hj0 as (j1 & Hj1 & Es). rewrite <- Eb in Hj1.
    pose proof (inv_bound _ HI _ _ _ Hb0 Hj1). unfold maxAttempts in *. by rewrite <- Es.
  - intros aid1 b j0 Hb Hj0 Hq Hlb. unfold goodUpdate in Hg.
    assert (Hcase : aid = aid1 /\ b = a' \/ aid <> aid1 /\ A !! aid1 = Some b).
    { lookups; auto. }
    destruct Hcase as [[-> ->]|[Hne Hb']].
    + rewrite Hlb in Hg. rewrite <- Sj, lookup_insert_eq in Hj0. injection Hj0 as <-.
      rewrite <- Sn. by apply Hg.
    + clear Hb. lookups; [|eapply (inv_retry _ HI); eauto].
      destruct (live (at_state a')) eqn:Ha'; [|].
      * assert (at_number b <= at_number a) by (eapply (inv_latest _ HI); eauto).
        assert (at_number b <> at_number a).
        { intros E. apply Hne. eapply (inv_number _ HI); eauto. }
        pose proof (inv_bound _ HI _ _ _ Ha Hj). rewrite Hspec by auto. lia.
      * assert (at_number b <= at_number a) by (eapply (inv_latest _ HI); eauto).
        destruct Hg as [_ Hg]. specialize (Hg Hq). lia.
  - intros jid j0 aid1 b Hj0 Hlb. unfold goodUpdate in Hg.
    destruct (decide (aid = aid1)) as [<-|Hne].
    + apply isLive_insert_eq in Hlb as (-> & <- & Hlb). rewrite Hlb in Hg.
      rewrite <- Sj, lookup_insert_eq in Hj0. by injection Hj0 as <-.
    + apply isLive_insert_ne in Hlb; [|done]. lookups; [|eapply (inv_live _ HI); eauto].
      destruct Hne. eapply (inv_one _ HI); eauto.
  - intros jid j0 Hj0 Hn. unfold goodUpdate in Hg. destruct (decide (jid = at_job_id a)) as [->|Hne].
    + rewrite lookup_insert_eq in Hj0. injection Hj0 as <-.
      destruct (live (at_state a')) eqn:Ha'; [|by apply Hg].
      destruct Hn. exists aid, a'. apply isLive_insert_eq. by rewrite <- Sj.
    + rewrite lookup_insert_ne in Hj0 by done. apply (inv_idle _ HI jid j0 Hj0).
      intros (x & y & Hx). apply Hn. exists x, y. destruct (decide (aid = x)) as [<-|].
      * destruct Hx as (Hx & <- & _). simpl in Hx. congruence.
      * by apply isLive_insert_ne.
  - intros jid j0 Hj0. apply Hjob in Hj0 as (j1 & Hj1 & <-). eapply (inv_spec _ HI); eauto.
  - intros jid j0 Hj0. lookups; [done|eapply (inv_times _ HI); eauto].
Qed.

Lemma goodUpdate_finish a a' j now next :
  at_state a = AttemptRunning \/ at_state a = AttemptAccepted ->
  (exists ec err, finishStates (jr_state j) (at_number a) (jr_spec j) ec err = (at_state a', next)) ->
  goodUpdate a a' (setJobState next now j).
Proof.
  intros Hs (ec & err & Hf). unfold finishStates in Hf. unfold goodUpdate.
  case_bool_decide as Hc; [injection Hf as <- <-; done|].
  destruct ((ec =? 0) && (err =? "")%string); [injection Hf as <- <-; done|].
  destruct (Z.ltb_spec (at_number a) (rp_MaxAttempts (s_Retry (jr_spec j))));
    injection Hf as <- <-; done.
Qed.

Lemma step_inv w c c' : step w c c' -> Inv c -> Inv c'.
Proof.
  intros Hs HI. destruct Hs as [J A id j now Hc Hu Hy| | | J A aid a at_ Ha Hst _
    |J A aid a j at_ git now Hy Ha Hst Hj _|J A aid a j event now st next Hy Ha Hst Hj _ Hf].
  - by apply inv_submit with now.
  - by apply inv_cancel.
  - eapply inv_offer; eauto.
  - destruct (inv_job _ HI aid a Ha) as [j Hj]. simpl in Hj.
    rewrite <- (insert_id J (at_job_id a) j) by done.
    eapply inv_update; eauto; [by rewrite Hst|done|done|by eapply (inv_times _ HI)|].
    assert (HC : compatible (jr_state j) (Some (at_state a)) = true).
    { apply (inv_live _ HI _ j aid a Hj). split; [done|]. by rewrite Hst. }
    unfold goodUpdate; simpl. rewrite Hst in HC. by destruct (jr_state j).
  - assert (HC : compatible (jr_state j) (Some (at_state a)) = true).
    { apply (inv_live _ HI _ j aid a Hj). split; [done|]. by destruct Hst as [-> | ->]. }
    pose proof (inv_times _ HI _ _ Hj) as Hjt.
    eapply inv_update; eauto; [by destruct Hst as [-> | ->]|done|by destruct (jr_state j)| |].
    { destruct (jobStartable _); [by apply jobTimes_set|done]. }
    unfold goodUpdate; simpl. unfold jobStartable.
    destruct Hst as [Hst|Hst]; rewrite Hst in HC; destruct (jr_state j) eqn:E; simpl; try done; by rewrite E.
  - eapply inv_update; eauto; [by destruct Hst as [-> | ->]|done|done| |].
    { apply jobTimes_set; [done|]. by eapply (inv_times _ HI). }
    apply goodUpdate_finish; [done|]. eauto.
Qed.

Lemma steps_inv w c c' : rtc (step w) c c' -> Inv c -> Inv c'.
Proof. induction 1; eauto using step_inv. Qed.

#[export] Instance hasLive_dec c jid : Decision (hasLive c jid).
Proof.
  destruct (decide (map_Exists (λ _ a, at_job_id a = jid /\ live (at_state a) = true) (cA c))) as [H|H];
    [left|right].
  - destruct H as (aid & a & Ha & Hj & Hl). exists aid, a. by split.
  - intros (aid & a & Ha & Hj & Hl). apply H. exists aid, a. auto.
Defined.

(** Every job is in a state compatible with the live attempt it has, if any. *)
Lemma inv_cases c jid j : Inv c -> cJ c !! jid = Some j ->
  (exists aid a, isLive c jid aid a /\ compatible (jr_state j) (Some (at_state a)) = true) \/
  (~ hasLive c jid /\ compatible (jr_state j) None = true).
Proof.
  intros HI Hj. destruct (decide (hasLive c jid)) as [(aid & a & Hl)|Hn]; [left|right].
  - exists aid, a. split; [done|]. by eapply (inv_live _ HI).
  - split; [done|]. by eapply (inv_idle _ HI).
Qed.

Lemma inv_retry_wait c jid j : Inv c -> cJ c !! jid = Some j -> jr_state j <> JobRetryWait.
Proof.
  intros HI Hj E. destruct (inv_cases _ _ _ HI Hj) as [(? & ? & _ & H)|[_ H]]; by rewrite E in H.
Qed.

(** ** What a run does to one job *)

(** The moves of the job automaton. *)
Inductive transition : JobState -> JobState -> Prop :=
  | t_start : transition JobQueued JobRunning
  | t_end s o : s = JobQueued \/ s = JobRunning -> o ∈ [JobSucceeded; JobFailed; JobQueued] -> transition s o
  | t_cancel s o : s = JobQueued \/ s = JobRunning -> o ∈ [JobCanceling; JobCanceled] -> transition s o
  | t_canceled : transition JobCanceling JobCanceled.

(** One job evolves along the automaton, its revision counting the moves, and
    keeps its specification. *)
Inductive evolves : JobRow -> JobRow -> Prop :=
  | e_refl j : evolves j j
  | e_step j j' j'' : evolves j j' -> transition (jr_state j') (jr_state j'') ->
      jr_revision j'' = jr_revision j' + 1 -> sameJob j' j'' -> evolves j j''.

Lemma evolves_trans j1 j2 j3 : evolves j1 j2 -> evolves j2 j3 -> evolves j1 j3.
Proof. intros H1 H2. revert H1. induction H2; eauto using evolves. Qed.

Lemma evolves_one j j' : transition (jr_state j) (jr_state j') ->
  jr_revision j' = jr_revision j + 1 -> sameJob j j' -> evolves j j'.
Proof. intros. eapply e_step; eauto. constructor. Qed.

Lemma finish_transition jobState n spec ec err st next s :
  finishStates jobState n spec ec err = (st, next) -> compatible jobState (Some s) = true ->
  transition jobState next.
Proof.
  unfold finishStates. intros Hf HC. case_bool_decide as Hc.
  - injection Hf as _ <-. destruct Hc as [-> | ->]; [apply t_canceled|done].
  - assert (Hq : jobState = JobQueued \/ jobState = JobRunning)
      by (destruct jobState; simpl in HC; auto; try done; destruct Hc; auto).
    assert (Hn : next ∈ [JobSucceeded; JobFailed; JobQueued])
      by (repeat case_match; simplify_eq; set_solver +).
    by apply t_end.
Qed.

Lemma step_job w c c' jid j : step w c c' -> Inv c -> cJ c !! jid = Some j ->
  exists j', cJ c' !! jid = Some j' /\ evolves j j'.
Proof.
  intros Hs HI Hj.
  assert (Hkeep : exists j', cJ c !! jid = Some j' /\ evolves j j')
    by (exists j; split; [done|constructor]).
  assert (Hput : forall id r r' J, J = cJ c -> J !! id = Some r -> evolves r r' ->
    exists j', <[id := r']> J !! jid = Some j' /\ evolves j j').
  { intros id r r' J -> Hid He. destruct (decide (id = jid)) as [<-|Hne].
    - exists r'. rewrite lookup_insert_eq. split; [done|]. by replace j with r by congruence.
    - rewrite lookup_insert_ne by done. done. }
  destruct Hs as [J A id r now _ _ _ Hid| J A id r target now _ Hid Hst Ht| | |
    J A aid a r at_ git now _ Ha Hst Hr _|J A aid a r event now st next _ Ha Hst Hr _ Hf]; simpl in *; try done.
  - rewrite lookup_insert_ne by congruence. done.
  - apply (Hput id r); [done..|]. apply evolves_one; [|done|done]. simpl.
    pose proof (inv_retry_wait _ _ _ HI Hid). apply t_cancel;
      [|destruct Ht as [[-> _]|[-> _]]; set_solver +].
    rewrite !elem_of_cons, elem_of_nil in Hst. tauto.
  - apply (Hput (at_job_id a) r); [done..|].
    assert (HC : compatible (jr_state r) (Some (at_state a)) = true).
    { apply (inv_live _ HI _ r aid a Hr). split; [done|]. by destruct Hst as [-> | ->]. }
    unfold jobStartable. case_bool_decide as Hq; [|constructor].
    apply evolves_one; simpl; [|done|done]. rewrite Hq. constructor.
  - apply (Hput (at_job_id a) r); [done..|]. apply evolves_one; simpl; [|done|done].
    eapply finish_transition; [done|]. apply (inv_live _ HI _ r aid a Hr). split; [done|].
    by destruct Hst as [-> | ->].
Qed.

Lemma steps_job w c c' jid j : rtc (step w) c c' -> Inv c -> cJ c !! jid = Some j ->
  exists j', cJ c' !! jid = Some j' /\ evolves j j'.
Proof.
  intros Hs. revert j. induction Hs as [c|c c1 c' H1 _ IH]; intros j HI Hj.
  - exists j. split; [done|constructor].
  - destruct (step_job _ _ _ _ _ H1 HI Hj) as (j1 & Hj1 & E1).
    destruct (IH j1 (step_inv _ _ _ H1 HI) Hj1) as (j2 & Hj2 & E2).
    exists j2. split; [done|]. by eapply evolves_trans.
Qed.

Lemma evolves_terminal j j' : evolves j j' -> terminal (jr_state j) = true -> j' = j.
Proof.
  induction 1 as [|j j1 j2 _ IH Ht _ _]; [done|]. intros Hterm. rewrite (IH Hterm) in Ht.
  destruct Ht as [| s o [-> | ->] | s o [-> | ->] |]; done.
Qed.

Lemma evolves_revision j j' : evolves j j' -> jr_revision j <= jr_revision j' /\
  (jr_revision j = jr_revision j' -> j' = j).
Proof.
  induction 1 as [|j j1 j2 _ [IH _] _ Hr _]; [split; [lia|done]|]. split; lia.
Qed.

Lemma evolves_spec j j' : evolves j j' -> jr_spec j' = jr_spec j.
Proof. induction 1 as [|j j1 j2 _ IH _ _ (Hs & _)]; congruence. Qed.

(** ** What a run does to one attempt *)

(** The order of attempt states: offered, accepted, running, ended. *)
Definition rank (s : AttemptState) : Z :=
  match s with
  | AttemptOffered => 0 | AttemptAccepted => 1 | AttemptRunning => 2
  | AttemptSucceeded | AttemptFailed | AttemptCanceled => 3
  end.

Definition progresses (a a' : AttemptRow) : Prop :=
  a' = a \/ sameAttempt a a' /\ rank (at_state a) < rank (at_state a').

Lemma progresses_trans a b c : progresses a b -> progresses b c -> progresses a c.
Proof.
  intros [->|[(?&?&?&?) ?]]; [done|]. intros [->|[(?&?&?&?) ?]]; right; unfold sameAttempt; [auto|].
  split; [|lia]. split_and!; congruence.
Qed.

Lemma finish_rank jobState n spec ec err st next :
  finishStates jobState n spec ec err = (st, next) -> rank st = 3.
Proof.
  unfold finishStates. intros Hf. repeat case_match; by simplify_eq.
Qed.

(** An attempt of the worker moves forward; an attempt of another worker stays. *)
Lemma step_attempt w c c' aid a : step w c c' -> cA c !! aid = Some a ->
  exists a', cA c' !! aid = Some a' /\ progresses a a' /\ (w <> Some (at_worker_id a) -> a' = a).
Proof.
  intros Hs Ha.
  assert (Hput : forall id r r' A, A = cA c -> A !! id = Some r -> w = Some (at_worker_id r) ->
    sameAttempt r r' -> rank (at_state r) < rank (at_state r') ->
    exists a', <[id := r']> A !! aid = Some a' /\ progresses a a' /\ (w <> Some (at_worker_id a) -> a' = a)).
  { intros id r r' A -> Hid Hw Hsame Hrank. destruct (decide (id = aid)) as [<-|Hne].
    - exists r'. rewrite lookup_insert_eq. rewrite Ha in Hid. injection Hid as ->.
      split_and!; [done|by right|done].
    - exists a. rewrite lookup_insert_ne by done. split_and!; [done|by left|done]. }
  assert (Hkeep : exists a', cA c !! aid = Some a' /\ progresses a a' /\ (w <> Some (at_worker_id a) -> a' = a))
    by (exists a; split_and!; [done|by left|done]).
  destruct Hs as [| | J A id r j Hid | J A id r at_ Hr Hst Hw | J A id r j at_ git now _ Hr Hst Hj Hw |
    J A id r j event now st next _ Hr Hst Hj Hw Hf]; simpl in *; try done.
  - rewrite lookup_insert_ne by congruence. done.
  - apply (Hput id r); try done. by rewrite Hst.
  - apply (Hput id r); try done. by destruct Hst as [-> | ->].
  - apply (Hput id r); try done. simpl. rewrite (finish_rank _ _ _ _ _ _ _ Hf).
    by destruct Hst as [-> | ->].
Qed.

Lemma steps_attempt w c c' aid a : rtc (step w) c c' -> cA c !! aid = Some a ->
  exists a', cA c' !! aid = Some a' /\ progresses a a' /\ (w <> Some (at_worker_id a) -> a' = a).
Proof.
  intros Hs. revert a. induction Hs as [c|c c1 c' H1 _ IH]; intros a Ha.
  - exists a. split_and!; [done|by left|done].
  - destruct (step_attempt _ _ _ _ _ H1 Ha) as (a1 & Ha1 & P1 & W1).
    destruct (IH a1 Ha1) as (a2 & Ha2 & P2 & W2). exists a2. split; [done|].
    split; [by eapply progresses_trans|]. intros Hw. specialize (W1 Hw) as ->. auto.
Qed.

End theory.
End LifecycleTheory.
