(* ===== verification/Auth.v ===== *)
(** * API tokens and browser sessions (internal/store/sqlite/auth.go)

    Operator tokens and the sessions of the web interface. Both are stored
    under the SHA-256 of their secret; the expiry of a session is compared as
    text, in the sortable format. *)

From S2P Require Import Prelude Times GoLib Ids Domain Validate Database.

Definition OperatorScope : string := "operator".

Record APIToken := { tok_ID : string; tok_Name : string; tok_Scope : string }.

Record BrowserSession := { ses_TokenID : string; ses_TokenName : string; ses_ExpiresAt : time }.

(** UPDATE api_tokens SET last_used_at = ? *)
Definition setUsed (now : time) (t : TokenRow) : TokenRow :=
  {| tk_name := tk_name t; tk_hash := tk_hash t; tk_scope := tk_scope t;
     tk_created_at := tk_created_at t; tk_last_used_at := Some (formatTime now);
     tk_revoked_at := tk_revoked_at t |}.

(** UPDATE browser_sessions SET last_used_at = ? *)
Definition setSessionUsed (now : time) (s : SessionRow) : SessionRow :=
  {| bs_token_id := bs_token_id s; bs_created_at := bs_created_at s;
     bs_expires_at := bs_expires_at s; bs_last_used_at := formatSortableTime now |}.

(** SELECT ... FROM api_tokens WHERE token_hash = ? AND revoked_at IS NULL *)
Definition tokenRows (d : DB) (hash : string) : list (string * TokenRow) :=
  rowsWhere (λ kt, tk_hash kt.2 = hash /\ tk_revoked_at kt.2 = None) (api_tokens d).

(** The join of an unexpired session with its unrevoked token. *)
Definition sessionRow (d : DB) (hash text : string) : option (string * string * string) :=
  s ← browser_sessions d !! hash;
  t ← api_tokens d !! bs_token_id s;
  if bool_decide (Text.ltb text (bs_expires_at s) = true /\ tk_revoked_at t = None)
  then Some (bs_token_id s, tk_name t, bs_expires_at s) else None.

(** DELETE FROM browser_sessions WHERE expires_at <= ? *)
Definition dropExpired (text : string) (d : DB) : DB :=
  with_browser_sessions
    (filter (λ hs, Text.leb (bs_expires_at hs.2) text = false) (browser_sessions d)) d.

Section auth.
Context `{Env}.

Definition CreateAPIToken (now : time) (name rawToken : string) : Act APIToken :=
  let name := TrimSpace name in
  mguard (negb ((name =? "")%string || (100 <? len name))) (ErrArgument "token name") ;;
  mguard (32 <=? len rawToken) (ErrArgument "token") ;;
  tokenID ← newID "tok";
  let token := {| tok_ID := tokenID; tok_Name := name; tok_Scope := OperatorScope |} in
  insertToken (tok_ID token) {| tk_name := tok_Name token; tk_hash := sha256 rawToken;
    tk_scope := tok_Scope token; tk_created_at := formatTime now; tk_last_used_at := None;
    tk_revoked_at := None |} ;;
  mret token.

Definition AuthenticateAPIToken (now : time) (rawToken : string) : Act APIToken :=
  rows ← query (λ d, tokenRows d (sha256 rawToken));
  row ← found (head rows) ErrNotFound;
  exec (λ d, with_api_tokens (alter (setUsed now) row.1 (api_tokens d)) d) ;;
  mret {| tok_ID := row.1; tok_Name := tk_name row.2; tok_Scope := tk_scope row.2 |}.

Definition CreateBrowserSession (now : time) (tokenID rawSession : string) (expiresAt : time)
    : Act unit :=
  mguard (negb ((tokenID =? "")%string || (len rawSession <? 32))) (ErrArgument "session") ;;
  mguard (now <? expiresAt) (ErrArgument "session expiry") ;;
  tx (
    exec (dropExpired (formatSortableTime now)) ;;
    insertSession (sha256 rawSession) {| bs_token_id := tokenID;
      bs_created_at := formatSortableTime now; bs_expires_at := formatSortableTime expiresAt;
      bs_last_used_at := formatSortableTime now |}).

Definition AuthenticateBrowserSession (now : time) (rawSession : string) : Act BrowserSession :=
  o ← query (λ d, sessionRow d (sha256 rawSession) (formatSortableTime now));
  row ← found o ErrNotFound;
  let '(tokenID, tokenName, expiry) := row in
  expiresAt ← parsed expiry;
  exec (λ d, with_browser_sessions
    (alter (setSessionUsed now) (sha256 rawSession) (browser_sessions d)) d) ;;
  mret {| ses_TokenID := tokenID; ses_TokenName := tokenName; ses_ExpiresAt := expiresAt |}.

Definition DeleteBrowserSession (rawSession : string) : Act unit :=
  exec (λ d, with_browser_sessions (delete (sha256 rawSession) (browser_sessions d)) d).
End auth.
