(* ===== verification/Scheduler.v ===== *)
(** * Offering jobs to a worker (internal/store/sqlite/workers.go)

    The resources a worker's live attempts hold, the test that a job fits beside
    them, and the loop that offers queued jobs in priority order. uint32 and
    uint64 sums wrap, as they do in Go. *)

From S2P Require Import Prelude Times Ids Domain Validate Database Jobs.

Record resourceAllocation := {
  al_CPU : Z;
  al_MemoryBytes : Z;
  al_GPUSharedSlots : Z;
  al_GPUExclusive : bool;
  al_GPUInUse : bool;
  al_ActiveAttempts : Z;
}.

Definition noAllocation : resourceAllocation :=
  {| al_CPU := 0; al_MemoryBytes := 0; al_GPUSharedSlots := 0;
     al_GPUExclusive := false; al_GPUInUse := false; al_ActiveAttempts := 0 |}.

Definition isExclusive (gpu : GPURequest) : bool := (g_Sharing gpu =? GPUExclusive)%string.

Definition addGPU (al : resourceAllocation) (gpu : GPURequest) : resourceAllocation :=
  if isExclusive gpu
  then {| al_CPU := al_CPU al; al_MemoryBytes := al_MemoryBytes al;
          al_GPUSharedSlots := al_GPUSharedSlots al; al_GPUExclusive := true;
          al_GPUInUse := true; al_ActiveAttempts := al_ActiveAttempts al |}
  else {| al_CPU := al_CPU al; al_MemoryBytes := al_MemoryBytes al;
          al_GPUSharedSlots := u32 (al_GPUSharedSlots al + g_Count gpu);
          al_GPUExclusive := al_GPUExclusive al;
          al_GPUInUse := true; al_ActiveAttempts := al_ActiveAttempts al |}.

Definition addAllocation (al : resourceAllocation) (resources : ResourceRequest) : resourceAllocation :=
  foldl addGPU
    {| al_CPU := u32 (al_CPU al + r_CPU resources);
       al_MemoryBytes := u64 (al_MemoryBytes al + r_MemoryBytes resources);
       al_GPUSharedSlots := al_GPUSharedSlots al; al_GPUExclusive := al_GPUExclusive al;
       al_GPUInUse := al_GPUInUse al; al_ActiveAttempts := al_ActiveAttempts al |}
    (r_GPUs resources).

(** allocation.ActiveAttempts++ *)
Definition incActive (al : resourceAllocation) : resourceAllocation :=
  {| al_CPU := al_CPU al; al_MemoryBytes := al_MemoryBytes al;
     al_GPUSharedSlots := al_GPUSharedSlots al; al_GPUExclusive := al_GPUExclusive al;
     al_GPUInUse := al_GPUInUse al; al_ActiveAttempts := u32 (al_ActiveAttempts al + 1) |}.

Definition occupy (al : resourceAllocation) (resources : ResourceRequest) : resourceAllocation :=
  incActive (addAllocation al resources).

(** The exclusive and the shared GPU counts of a request. *)
Definition gpuCounts (gpus : list GPURequest) : Z * Z :=
  foldl (λ acc gpu,
    if isExclusive gpu then (u32 (acc.1 + g_Count gpu), acc.2)
    else (acc.1, u32 (acc.2 + g_Count gpu))) (0, 0) gpus.

(** capacity.Labels[name] != value for no label of the job *)
Definition labelsMatch (wanted offered : gmap string string) : bool :=
  bool_decide (map_Forall (λ name value, default "" (offered !! name) = value) wanted).

Definition jobFits (spec : JobSpec) (capacity : WorkerCapacity) (al : resourceAllocation) : bool :=
  let res := s_Resources spec in
  if negb (bool_decide (s_Project spec ∈ c_Projects capacity)) then false
  else if negb (labelsMatch (s_Labels spec) (c_Labels capacity)) then false
  else if (0 <? c_CPU capacity) && (c_CPU capacity <? u32 (al_CPU al + r_CPU res)) then false
  else if (0 <? c_MemoryBytes capacity) &&
          (c_MemoryBytes capacity <? u64 (al_MemoryBytes al + r_MemoryBytes res)) then false
  else
    let '(exclusive, shared) := gpuCounts (r_GPUs res) in
    if 0 <? exclusive
    then negb (al_GPUInUse al) && (shared =? 0) && (exclusive <=? c_GPUCount capacity)
    else if 0 <? shared
    then negb (al_GPUExclusive al) &&
         (u32 (al_GPUSharedSlots al + shared) <=? c_GPUSharedSlots capacity)
    else true.

(** The defaults offerJobs fills in. *)
Definition normalCapacity (c : WorkerCapacity) : WorkerCapacity :=
  {| c_CPU := c_CPU c; c_MemoryBytes := c_MemoryBytes c; c_GPUCount := c_GPUCount c;
     c_GPUSharedSlots := if c_GPUSharedSlots c =? 0 then c_GPUCount c else c_GPUSharedSlots c;
     c_MaxParallel := if c_MaxParallel c =? 0 then 1 else c_MaxParallel c;
     c_Labels := c_Labels c; c_Projects := c_Projects c |}.

(** ** The worker's live attempts *)

Definition heldAttempts (d : DB) (workerID : string) : list (string * AttemptRow) :=
  rowsWhere (λ ka, at_worker_id ka.2 = workerID /\ live (at_state ka.2) = true) (attempts d).

(** The specifications of the worker's live attempts, in the order of the join. *)
Definition heldSpecs (d : DB) (workerID : string) : list JobSpec :=
  omap (λ ka, jr_spec <$> jobs d !! at_job_id ka.2) (heldAttempts d workerID).

Definition currentAllocation (d : DB) (workerID : string) : resourceAllocation :=
  foldl (λ al spec, occupy al (s_Resources spec)) noAllocation (heldSpecs d workerID).

(** ** The schedulable jobs *)

(** ORDER BY j.priority DESC, j.created_at, j.id *)
Definition queueOrder (x y : string * JobRow) : bool :=
  notGt (lexc (Z.compare (jr_priority y.2) (jr_priority x.2))
        (lexc (Text.cmp (jr_created_at x.2) (jr_created_at y.2)) (Text.cmp x.1 y.1))).

Definition schedulable (d : DB) (kj : string * JobRow) : Prop :=
  jr_state kj.2 = JobQueued /\ liveAttempts d kj.1 = [].

#[export] Instance schedulable_dec d kj : Decision (schedulable d kj).
Proof. unfold schedulable. apply _. Defined.

Definition schedulableJobs (d : DB) : list (string * JobRow) :=
  take 100 (orderBy queueOrder (rowsWhere (schedulable d) (jobs d))).

(** COALESCE(MAX(attempt_number), 0) *)
Definition maxNumber (d : DB) (jobID : string) : Z :=
  foldr Z.max 0 ((λ ka, at_number ka.2) <$>
    rowsWhere (λ ka, at_job_id ka.2 = jobID) (attempts d)).

Section scheduler.
Context `{Env}.

Definition nextAttemptNumber (jobID : string) : Act Z :=
  n ← query (λ d, maxNumber d jobID + 1);
  mguard (n <? 2 ^ 32) ErrInteger ;;
  mret n.

(** The offer of one job that fits. *)
Definition offerAttempt (workerID : string) (now : time) (jobID : string) : Act unit :=
  attemptID ← newID "att";
  commandID ← newID "cmd";
  attemptNumber ← nextAttemptNumber jobID;
  insertAttempt attemptID {| at_job_id := jobID; at_number := attemptNumber;
    at_worker_id := workerID; at_command_id := commandID; at_state := AttemptOffered;
    at_revision := 1; at_offered_at := formatTime now;
    at_lease := formatTime (now + 2 * GoTime.Minute); at_accepted_at := None;
    at_started_at := None; at_finished_at := None; at_exit_code := None; at_error := "";
    at_log_uri := ""; at_log_tail := ""; at_git := None |} ;;
  appendControlEvent "attempt_offered" jobID
    (PObj [("attempt_id", PStr attemptID); ("worker_id", PStr workerID)]) now.

Fixpoint offerLoop (workerID : string) (now : time) (capacity : WorkerCapacity)
    (al : resourceAllocation) (queue : list Job) : Act unit :=
  match queue with
  | [] => mret tt
  | job :: rest =>
      if c_MaxParallel capacity <=? al_ActiveAttempts al then mret tt
      else if negb (jobFits (j_Spec job) capacity al)
      then offerLoop workerID now capacity al rest
      else
        offerAttempt workerID now (j_ID job) ;;
        offerLoop workerID now capacity (occupy al (s_Resources (j_Spec job))) rest
  end.

Definition scanJobs (rows : list (string * JobRow)) : Act (list Job) :=
  mfold rows [] (λ acc row, job ← scanJob row.1 row.2; mret (acc ++ [job])).

Definition offerJobs (workerID : string) (capacity : WorkerCapacity) (now : time) : Act unit :=
  let capacity := normalCapacity capacity in
  al ← query (λ d, currentAllocation d workerID);
  if c_MaxParallel capacity <=? al_ActiveAttempts al then mret tt
  else
    rows ← query schedulableJobs;
    queue ← scanJobs rows;
    offerLoop workerID now capacity al queue.
End scheduler.
