(* ===== verification/Sync.v ===== *)
(** * Workers and their synchronization (internal/store/sqlite/workers.go)

    Worker credentials, the sync transaction with the commands it returns, and
    the worker list. *)

From S2P Require Import Prelude Times GoLib Ids Domain Validate Database Jobs Health Events.
From S2P Require Import Scheduler.

Record WorkerCredential := { wc_WorkerID : string; wc_Name : string }.

Definition zeroCapacity (labels : gmap string string) : WorkerCapacity :=
  {| c_CPU := 0; c_MemoryBytes := 0; c_GPUCount := 0; c_GPUSharedSlots := 0; c_MaxParallel := 0;
     c_Labels := labels; c_Projects := [] |}.

(** ORDER BY a.offered_at, a.id *)
Definition offerOrder (x y : string * AttemptRow) : bool :=
  notGt (lexc (Text.cmp (at_offered_at x.2) (at_offered_at y.2)) (Text.cmp x.1 y.1)).

Definition joinJobs (d : DB) (rows : list (string * AttemptRow)) : list (string * AttemptRow * JobRow) :=
  omap (λ ka, (λ j, (ka, j)) <$> jobs d !! at_job_id ka.2) rows.

(** ORDER BY name, id *)
Definition workerOrder (x y : string * WorkerRow) : bool :=
  notGt (lexc (Text.cmp (wr_name x.2) (wr_name y.2)) (Text.cmp x.1 y.1)).

Section sync.
Context `{Env}.

Definition CreateWorker (now : time) (name rawToken : string) (labels : gmap string string)
    : Act WorkerCredential :=
  let name := TrimSpace name in
  mguard (negb ((name =? "")%string || (100 <? len name))) (ErrArgument "worker name") ;;
  mguard (32 <=? len rawToken) (ErrArgument "worker token") ;;
  workerID ← newID "wrk";
  tx (
    insertWorker workerID {| wr_name := name; wr_status := WorkerOffline; wr_agent_version := "";
      wr_session_id := ""; wr_capacity := zeroCapacity labels; wr_last_seen_at := None;
      wr_created_at := formatTime now; wr_updated_at := formatTime now |} ;;
    insertWorkerToken (sha256 rawToken) {| wt_worker_id := workerID; wt_created_at := formatTime now;
      wt_last_used_at := None; wt_revoked_at := None |} ;;
    mret {| wc_WorkerID := workerID; wc_Name := name |}).

Definition setTokenUsed (now : time) (t : WorkerTokenRow) : WorkerTokenRow :=
  {| wt_worker_id := wt_worker_id t; wt_created_at := wt_created_at t;
     wt_last_used_at := Some (formatTime now); wt_revoked_at := wt_revoked_at t |}.

(** The worker of an unrevoked token. *)
Definition tokenWorker (d : DB) (hash : string) : option WorkerCredential :=
  t ← worker_tokens d !! hash;
  w ← workers d !! wt_worker_id t;
  if bool_decide (wt_revoked_at t = None)
  then Some {| wc_WorkerID := wt_worker_id t; wc_Name := wr_name w |} else None.

Definition AuthenticateWorkerToken (now : time) (rawToken : string) : Act WorkerCredential :=
  let hash := sha256 rawToken in
  o ← query (λ d, tokenWorker d hash);
  worker ← found o ErrNotFound;
  exec (λ d, with_worker_tokens (alter (setTokenUsed now) hash (worker_tokens d)) d) ;;
  mret worker.

(** UPDATE workers SET status, agent_version, session_id, capacity_json, ... *)
Definition setSeen (request : WorkerSyncRequest) (now : time) (w : WorkerRow) : WorkerRow :=
  {| wr_name := wr_name w; wr_status := WorkerOnline; wr_agent_version := q_AgentVersion request;
     wr_session_id := q_SessionID request; wr_capacity := q_Capacity request;
     wr_last_seen_at := Some (formatTime now); wr_created_at := wr_created_at w;
     wr_updated_at := formatTime now |}.

Definition runCommand (row : string * AttemptRow * JobRow) : Act WorkerCommand :=
  let '(id, a, j) := row in
  lease ← parsed (at_lease a);
  job ← scanJob (at_job_id a) j;
  mret {| k_CommandID := at_command_id a; k_AttemptID := id; k_AttemptNumber := at_number a;
          k_Kind := WorkerCommandRunJob; k_Job := Some job; k_LeaseExpiresAt := lease |}.

Definition offeredCommands (workerID : string) : Act (list WorkerCommand) :=
  rows ← query (λ d, joinJobs d (orderBy offerOrder
    (rowsWhere (λ ka, at_worker_id ka.2 = workerID /\ at_state ka.2 = AttemptOffered) (attempts d))));
  mfold rows [] (λ acc row, command ← runCommand row; mret (acc ++ [command])).

Definition cancelCommand (row : string * AttemptRow * JobRow) : WorkerCommand :=
  let '(id, a, _) := row in
  {| k_CommandID := at_command_id a +:+ "-cancel"; k_AttemptID := id; k_AttemptNumber := at_number a;
     k_Kind := WorkerCommandCancelAttempt; k_Job := None; k_LeaseExpiresAt := GoTime.zero |}.

Definition canceledRows (d : DB) (workerID : string) : list (string * AttemptRow * JobRow) :=
  filter (λ row, jr_state row.2 = JobCanceling \/ jr_state row.2 = JobCanceled)
    (joinJobs d (orderBy offerOrder (heldAttempts d workerID))).

Definition cancelCommands (workerID : string) : Act (list WorkerCommand) :=
  rows ← query (λ d, canceledRows d workerID);
  mret (cancelCommand <$> rows).

(** SELECT COALESCE(MAX(sequence), 0) of the worker's session *)
Definition acceptedThrough (d : DB) (workerID sessionID : string) : Z :=
  foldr Z.max 0 (we_sequence <$>
    filter (λ r, we_worker_id r = workerID /\ we_session_id r = sessionID) (worker_events d)).

Definition SyncWorker (now : time) (workerID : string) (request : WorkerSyncRequest)
    : Act WorkerSyncResponse :=
  tx (
    known ← query (λ d, bool_decide (is_Some (workers d !! workerID)));
    exec (λ d, with_workers (alter (setSeen request now) workerID (workers d)) d) ;;
    mguard known ErrNotFound ;;
    mfor (q_Events request) (λ event, recordWorkerEvent workerID (q_SessionID request) event now) ;;
    offerJobs workerID (q_Capacity request) now ;;
    commands ← offeredCommands workerID;
    cancels ← cancelCommands workerID;
    through ← query (λ d, acceptedThrough d workerID (q_SessionID request));
    mret {| p_ServerTime := now; p_AcceptedThrough := through; p_NextSyncSeconds := 5;
            p_Commands := commands ++ cancels |}).

Definition scanWorker (now : time) (offlineAfter : Z) (id : string) (w : WorkerRow) : Act Worker :=
  createdAt ← parsed (wr_created_at w);
  lastSeen ← match wr_last_seen_at w with
             | None => mret None
             | Some text => t ← parsed text; mret (Some t)
             end;
  let status := match lastSeen with
    | Some t => if timeSub now t <=? offlineAfter then WorkerOnline else WorkerOffline
    | None => WorkerOffline
    end in
  mret {| w_ID := id; w_Name := wr_name w; w_Status := status;
          w_AgentVersion := wr_agent_version w; w_Capacity := wr_capacity w;
          w_LastSeenAt := lastSeen; w_CreatedAt := createdAt |}.

Definition ListWorkers (now : time) (offlineAfter : Z) : Act (list Worker) :=
  let offlineAfter := if offlineAfter <=? 0 then 30 * GoTime.Second else offlineAfter in
  rows ← query (λ d, orderBy workerOrder (map_to_list (workers d)));
  mfold rows [] (λ acc row, worker ← scanWorker now offlineAfter row.1 row.2; mret (acc ++ [worker])).
End sync.
