(* ===== verification/WorkerStore.v ===== *)
(** * The worker's durable store (internal/worker/store.go)

    The commands a worker has accepted and the outbox of events it has not seen
    acknowledged. A command moves from pending to running to finished, and each
    of its moves enqueues one event in the same transaction. *)

From S2P Require Import Prelude Utf8 Times Ids Domain Events.
From Stdlib Require Import Strings.Byte.

(** What the store relies on from outside: the 16-byte reads of crypto/rand and
    the JSON encoding of a command, which is compared as text. *)
Class WorkerEnv := {
  worker_entropy : nat -> list byte;
  commandJSON : WorkerCommand -> string;
}.

(** ** Rows *)

Inductive CommandState := CommandPending | CommandRunning | CommandFinished.

#[export] Instance CommandState_eq_dec : EqDecision CommandState.
Proof. solve_decision. Defined.

(** A row of commands; an empty text stands for no cancel request. *)
Record CommandRow := {
  cm_attempt_id : string; cm_command : WorkerCommand; cm_state : CommandState; cm_pid : Z;
  cm_work_dir : string; cm_status_path : string; cm_metrics_path : string; cm_metric_offset : Z;
  cm_created_at : string; cm_updated_at : string; cm_cancel_requested_at : string;
}.

Record OutboxRow := { ob_sequence : Z; ob_event : WorkerEvent; ob_created_at : string }.

(** The tables, the outbox in insertion order, with the largest sequence that
    AUTOINCREMENT has handed out. *)
Record WorkerDB := {
  commands : gmap string CommandRow;   (* by command_id *)
  outbox : list OutboxRow;
  last_sequence : Z;
}.

Definition emptyWorkerDB : WorkerDB := {| commands := ∅; outbox := []; last_sequence := 0 |}.

Record StoredCommand := {
  sc_Command : WorkerCommand; sc_State : CommandState; sc_PID : Z; sc_WorkDir : string;
  sc_StatusPath : string; sc_MetricsPath : string; sc_MetricOffset : Z;
  sc_CancelRequestedAt : time;
}.

Inductive WorkerError :=
  | WErrIdentifier (what : string)
  | WErrChanged (commandID : string)         (* command changed after it was accepted *)
  | WErrNotPending (commandID : string)
  | WErrNotActive (commandID : string)       (* not running or pending *)
  | WErrNoRows                               (* sql.ErrNoRows *)
  | WErrEncode                               (* json.Marshal *)
  | WErrConstraint                           (* the UNIQUE clause of event_id *)
  | WErrFull                                 (* AUTOINCREMENT ran out of sequences *)
  | WErrInteger                              (* a uint64 argument with the high bit set *)
  | WErrTime (text : string).

Record WSt := { wdb : WorkerDB; wdraws : nat }.
Abbreviation WAct A := (M WSt WorkerError A).

(** ** Updates of a command *)

Definition setCanceled (now : time) (r : CommandRow) : CommandRow :=
  {| cm_attempt_id := cm_attempt_id r; cm_command := cm_command r; cm_state := cm_state r;
     cm_pid := cm_pid r; cm_work_dir := cm_work_dir r; cm_status_path := cm_status_path r;
     cm_metrics_path := cm_metrics_path r; cm_metric_offset := cm_metric_offset r;
     cm_created_at := cm_created_at r; cm_updated_at := formatTime now;
     cm_cancel_requested_at := formatTime now |}.

Definition setStarted (pid : Z) (workDir statusPath metricsPath : string) (now : time) (r : CommandRow)
    : CommandRow :=
  {| cm_attempt_id := cm_attempt_id r; cm_command := cm_command r; cm_state := CommandRunning;
     cm_pid := pid; cm_work_dir := workDir; cm_status_path := statusPath;
     cm_metrics_path := metricsPath; cm_metric_offset := cm_metric_offset r;
     cm_created_at := cm_created_at r; cm_updated_at := formatTime now;
     cm_cancel_requested_at := cm_cancel_requested_at r |}.

Definition setCommandFinished (now : time) (r : CommandRow) : CommandRow :=
  {| cm_attempt_id := cm_attempt_id r; cm_command := cm_command r; cm_state := CommandFinished;
     cm_pid := cm_pid r; cm_work_dir := cm_work_dir r; cm_status_path := cm_status_path r;
     cm_metrics_path := cm_metrics_path r; cm_metric_offset := cm_metric_offset r;
     cm_created_at := cm_created_at r; cm_updated_at := formatTime now;
     cm_cancel_requested_at := cm_cancel_requested_at r |}.

Definition setOffset (offset : Z) (now : time) (r : CommandRow) : CommandRow :=
  {| cm_attempt_id := cm_attempt_id r; cm_command := cm_command r; cm_state := cm_state r;
     cm_pid := cm_pid r; cm_work_dir := cm_work_dir r; cm_status_path := cm_status_path r;
     cm_metrics_path := cm_metrics_path r; cm_metric_offset := offset;
     cm_created_at := cm_created_at r; cm_updated_at := formatTime now;
     cm_cancel_requested_at := cm_cancel_requested_at r |}.

(** state IN ('pending', 'running') *)
Definition active (s : CommandState) : bool :=
  match s with CommandPending | CommandRunning => true | CommandFinished => false end.

(** The UPDATE of a cancel command. *)
Definition requestCancel (attemptID : string) (now : time) (r : CommandRow) : CommandRow :=
  if bool_decide (cm_attempt_id r = attemptID) && active (cm_state r) &&
     (cm_cancel_requested_at r =? "")%string
  then setCanceled now r else r.

(** ** Events *)

(** An event after its round trip through event_json. *)
Definition jsonArtifact (a : ArtifactAnnouncement) : ArtifactAnnouncement :=
  {| aa_Name := jsonText (aa_Name a); aa_URI := jsonText (aa_URI a); aa_SizeBytes := aa_SizeBytes a;
     aa_SHA256 := jsonText (aa_SHA256 a); aa_Content := jsonText (aa_Content a) |}.
Definition jsonGit (g : GitState) : GitState :=
  {| gs_Commit := jsonText (gs_Commit g); gs_Branch := jsonText (gs_Branch g); gs_Dirty := gs_Dirty g |}.
Definition jsonMetric (m : MetricSample) : MetricSample :=
  {| ms_Name := jsonText (ms_Name m); ms_Value := ms_Value m; ms_Step := ms_Step m;
     ms_ObservedAt := ms_ObservedAt m |}.
Definition jsonEvent (e : WorkerEvent) : WorkerEvent :=
  {| e_Sequence := e_Sequence e; e_EventID := jsonText (e_EventID e); e_AttemptID := jsonText (e_AttemptID e);
     e_Kind := jsonText (e_Kind e); e_OccurredAt := e_OccurredAt e; e_ExitCode := e_ExitCode e;
     e_Error := jsonText (e_Error e); e_LogURI := jsonText (e_LogURI e); e_LogTail := jsonText (e_LogTail e);
     e_Git := jsonGit <$> e_Git e; e_Metric := jsonMetric <$> e_Metric e;
     e_Artifacts := jsonArtifact <$> e_Artifacts e |}.

(** event.Sequence = sequence *)
Definition withSequence (sequence : Z) (e : WorkerEvent) : WorkerEvent :=
  {| e_Sequence := sequence; e_EventID := e_EventID e; e_AttemptID := e_AttemptID e; e_Kind := e_Kind e;
     e_OccurredAt := e_OccurredAt e; e_ExitCode := e_ExitCode e; e_Error := e_Error e;
     e_LogURI := e_LogURI e; e_LogTail := e_LogTail e; e_Git := e_Git e; e_Metric := e_Metric e;
     e_Artifacts := e_Artifacts e |}.

Definition withEventID (id : string) (e : WorkerEvent) : WorkerEvent :=
  {| e_Sequence := e_Sequence e; e_EventID := id; e_AttemptID := e_AttemptID e; e_Kind := e_Kind e;
     e_OccurredAt := e_OccurredAt e; e_ExitCode := e_ExitCode e; e_Error := e_Error e;
     e_LogURI := e_LogURI e; e_LogTail := e_LogTail e; e_Git := e_Git e; e_Metric := e_Metric e;
     e_Artifacts := e_Artifacts e |}.

(** domain.WorkerEvent{AttemptID: ..., Kind: ..., OccurredAt: ...}, the rest zero *)
Definition plainEvent (attemptID kind : string) (at_ : time) : WorkerEvent :=
  {| e_Sequence := 0; e_EventID := ""; e_AttemptID := attemptID; e_Kind := kind; e_OccurredAt := at_;
     e_ExitCode := None; e_Error := ""; e_LogURI := ""; e_LogTail := ""; e_Git := None; e_Metric := None;
     e_Artifacts := [] |}.
Definition startedEvent (attemptID : string) (at_ : time) (git : option GitState) : WorkerEvent :=
  {| e_Sequence := 0; e_EventID := ""; e_AttemptID := attemptID; e_Kind := WorkerEventAttemptStarted;
     e_OccurredAt := at_; e_ExitCode := None; e_Error := ""; e_LogURI := ""; e_LogTail := ""; e_Git := git;
     e_Metric := None; e_Artifacts := [] |}.
Definition finishedEvent (attemptID : string) (at_ : time) (exitCode : Z) (runError logURI logTail : string)
    (artifacts : list ArtifactAnnouncement) : WorkerEvent :=
  {| e_Sequence := 0; e_EventID := ""; e_AttemptID := attemptID; e_Kind := WorkerEventAttemptFinished;
     e_OccurredAt := at_; e_ExitCode := Some exitCode; e_Error := runError; e_LogURI := logURI;
     e_LogTail := logTail; e_Git := None; e_Metric := None; e_Artifacts := artifacts |}.
Definition artifactsEvent (attemptID : string) (at_ : time) (artifacts : list ArtifactAnnouncement) : WorkerEvent :=
  {| e_Sequence := 0; e_EventID := ""; e_AttemptID := attemptID; e_Kind := WorkerEventArtifacts;
     e_OccurredAt := at_; e_ExitCode := None; e_Error := ""; e_LogURI := ""; e_LogTail := ""; e_Git := None;
     e_Metric := None; e_Artifacts := artifacts |}.
Definition metricEvent (attemptID : string) (sample : MetricSample) : WorkerEvent :=
  {| e_Sequence := 0; e_EventID := ""; e_AttemptID := attemptID; e_Kind := WorkerEventMetricSample;
     e_OccurredAt := ms_ObservedAt sample; e_ExitCode := None; e_Error := ""; e_LogURI := ""; e_LogTail := "";
     e_Git := None; e_Metric := Some sample; e_Artifacts := [] |}.

(** ** Statements *)

Definition wtx {A} (body : WAct A) : WAct A := λ s,
  match body s with
  | (Ok a, s') => (Ok a, s')
  | (Err e, s') => (Err e, {| wdb := wdb s; wdraws := wdraws s' |})
  end.
Definition wquery {A} (f : WorkerDB -> A) : WAct A := mreads (f ∘ wdb).
Definition wexec (f : WorkerDB -> WorkerDB) : WAct unit :=
  mmodify (λ s, {| wdb := f (wdb s); wdraws := wdraws s |}).

Definition with_commands (x : gmap string CommandRow) (d : WorkerDB) : WorkerDB :=
  {| commands := x; outbox := outbox d; last_sequence := last_sequence d |}.
Definition with_outbox (x : list OutboxRow) (d : WorkerDB) : WorkerDB :=
  {| commands := commands d; outbox := x; last_sequence := last_sequence d |}.

(** INSERT INTO outbox: the sequence is one more than any handed out before. *)
Definition appendOutbox (event : WorkerEvent) (createdAt : string) (d : WorkerDB) : WorkerDB :=
  {| commands := commands d;
     outbox := outbox d ++ [{| ob_sequence := last_sequence d + 1; ob_event := event;
                               ob_created_at := createdAt |}];
     last_sequence := last_sequence d + 1 |}.

(** ORDER BY created_at, command_id *)
Definition commandOrder (x y : string * CommandRow) : bool :=
  match Text.cmp (cm_created_at x.2) (cm_created_at y.2) with
  | Eq => Text.leb x.1 y.1
  | Lt => true
  | Gt => false
  end.

#[export] Instance commandOrder_dec : RelDecision (λ x y, commandOrder x y = true).
Proof. intros x y. apply _. Defined.

Section store.
Context `{WorkerEnv}.

Definition wnewID (prefix : string) : WAct string := λ s,
  match New prefix (worker_entropy (wdraws s)) with
  | Ok i => (Ok i, {| wdb := wdb s; wdraws := S (wdraws s) |})
  | Err what => (Err (WErrIdentifier what), s)
  end.

Definition enqueueEvent (event : WorkerEvent) (now : time) : WAct unit :=
  eventID ← wnewID "wev";
  let event := withEventID eventID event in
  mguard (eventEncodes event) WErrEncode ;;
  unique ← wquery (λ d, bool_decide (Forall (λ r, e_EventID (ob_event r) <> eventID) (outbox d)));
  mguard unique WErrConstraint ;;
  room ← wquery (λ d, last_sequence d <? 2 ^ 63 - 1);
  mguard room WErrFull ;;
  wexec (appendOutbox (jsonEvent event) (formatTime now)).

(** The row of a command that was just accepted. *)
Definition pendingRow (command : WorkerCommand) (now : time) : CommandRow :=
  {| cm_attempt_id := k_AttemptID command; cm_command := command; cm_state := CommandPending;
     cm_pid := 0; cm_work_dir := ""; cm_status_path := ""; cm_metrics_path := "";
     cm_metric_offset := 0; cm_created_at := formatTime now; cm_updated_at := formatTime now;
     cm_cancel_requested_at := "" |}.

(** INSERT OR IGNORE INTO commands: whether the row was inserted. *)
Definition insertCommand (command : WorkerCommand) (now : time) : WAct bool := λ s,
  let d := wdb s in
  if bool_decide (is_Some (commands d !! k_CommandID command) \/
       map_Exists (λ _ r, cm_attempt_id r = k_AttemptID command) (commands d))
  then (Ok false, s)
  else (Ok true, {| wdb := with_commands (<[k_CommandID command := pendingRow command now]> (commands d)) d;
                    wdraws := wdraws s |}).

(** One command of a sync response, at the time the loop reaches it. *)
Definition acceptCommand (now : time) (command : WorkerCommand) : WAct unit :=
  if (k_Kind command =? WorkerCommandCancelAttempt)%string then
    wexec (λ d, with_commands (requestCancel (k_AttemptID command) now <$> commands d) d)
  else if (k_Kind command =? WorkerCommandRunJob)%string then
    inserted ← insertCommand command now;
    if (inserted : bool)
    then enqueueEvent (plainEvent (k_AttemptID command) WorkerEventAttemptAccepted now) now
    else
      o ← wquery (λ d, commands d !! k_CommandID command);
      match o with
      | None => mfail WErrNoRows
      | Some row => mguard (commandJSON (cm_command row) =? commandJSON command)%string
                      (WErrChanged (k_CommandID command))
      end
  else mret tt.

(** [clock i] is the time at the i-th command. *)
Definition AcceptCommands (clock : nat -> time) (cmds : list WorkerCommand) : WAct unit :=
  wtx (mfor (imap (λ i c, (i, c)) cmds) (λ ic, acceptCommand (clock ic.1) ic.2)).

Definition scanStored (row : CommandRow) : WAct StoredCommand :=
  canceled ← (if (cm_cancel_requested_at row =? "")%string then mret GoTime.zero
              else match parseTime (cm_cancel_requested_at row) with
                   | Some t => mret t
                   | None => mfail (WErrTime (cm_cancel_requested_at row))
                   end);
  mret {| sc_Command := cm_command row; sc_State := cm_state row; sc_PID := cm_pid row;
          sc_WorkDir := cm_work_dir row; sc_StatusPath := cm_status_path row;
          sc_MetricsPath := cm_metrics_path row; sc_MetricOffset := cm_metric_offset row;
          sc_CancelRequestedAt := canceled |}.

Definition selectCommands (where_ : CommandRow -> bool) (d : WorkerDB) : list (string * CommandRow) :=
  merge_sort (λ x y, commandOrder x y = true)
    (filter (λ kr, where_ kr.2 = true) (map_to_list (commands d))).

Definition listCommands (where_ : CommandRow -> bool) (limit : Z) : WAct (list StoredCommand) :=
  let limit := if limit <=? 0 then 100 else limit in
  rows ← wquery (λ d, take (Z.to_nat limit) (selectCommands where_ d));
  mfold rows [] (λ acc row, c ← scanStored row.2; mret (acc ++ [c])).

Definition PendingCommands (limit : Z) : WAct (list StoredCommand) :=
  listCommands (λ r, bool_decide (cm_state r = CommandPending) && (cm_cancel_requested_at r =? "")%string) limit.
Definition PendingCanceledCommands : WAct (list StoredCommand) :=
  listCommands (λ r, bool_decide (cm_state r = CommandPending) &&
    negb (cm_cancel_requested_at r =? "")%string) 1000.
Definition RunningCommands : WAct (list StoredCommand) :=
  listCommands (λ r, bool_decide (cm_state r = CommandRunning)) 1000.

Definition updateCommand (commandID : string) (f : CommandRow -> CommandRow) : WAct unit :=
  wexec (λ d, with_commands (alter f commandID (commands d)) d).

Definition MarkStarted (now : time) (commandID : string) (pid : Z) (workDir statusPath metricsPath : string)
    (git : option GitState) : WAct unit :=
  wtx (
    o ← wquery (λ d, commands d !! commandID);
    match o with
    | Some row =>
        mguard (bool_decide (cm_state row = CommandPending)) (WErrNotPending commandID) ;;
        updateCommand commandID (setStarted pid workDir statusPath metricsPath now) ;;
        enqueueEvent (startedEvent (cm_attempt_id row) now git) now
    | None => mfail (WErrNotPending commandID)
    end).

Definition MarkFinished (now : time) (commandID : string) (exitCode : Z) (runError logURI logTail : string)
    (artifacts : list ArtifactAnnouncement) : WAct unit :=
  wtx (
    o ← wquery (λ d, commands d !! commandID);
    match o with
    | Some row =>
        mguard (active (cm_state row)) (WErrNotActive commandID) ;;
        updateCommand commandID (setCommandFinished now) ;;
        enqueueEvent (finishedEvent (cm_attempt_id row) now exitCode runError logURI logTail artifacts) now
    | None => mfail (WErrNotActive commandID)
    end).

Definition AnnounceArtifacts (now : time) (commandID : string) (artifacts : list ArtifactAnnouncement)
    : WAct unit :=
  if bool_decide (artifacts = []) then mret tt
  else wtx (
    o ← wquery (λ d, commands d !! commandID);
    match o with
    | Some row =>
        mguard (bool_decide (cm_state row = CommandRunning)) WErrNoRows ;;
        enqueueEvent (artifactsEvent (cm_attempt_id row) now artifacts) now
    | None => mfail WErrNoRows
    end).

Definition SkipMetric (now : time) (commandID : string) (newOffset : Z) : WAct unit :=
  updateCommand commandID (setOffset newOffset now).

Definition EnqueueMetric (now : time) (commandID attemptID : string) (sample : MetricSample) (newOffset : Z)
    : WAct unit :=
  wtx (
    enqueueEvent (metricEvent attemptID sample) now ;;
    updateCommand commandID (setOffset newOffset now)).

(** ORDER BY sequence: the order of insertion. *)
Definition WorkerEvents (limit : Z) : WAct (list WorkerEvent) :=
  let limit := if (limit <=? 0) || (1000 <? limit) then 1000 else limit in
  wquery (λ d, (λ r, withSequence (ob_sequence r) (ob_event r)) <$> take (Z.to_nat limit) (outbox d)).

Definition Acknowledge (through : Z) : WAct unit :=
  if through =? 0 then mret tt
  else
    mguard (through <? 2 ^ 63) WErrInteger ;;
    wexec (λ d, with_outbox (filter (λ r, through < ob_sequence r) (outbox d)) d).
End store.
