(* ===== verification/WorkerLog.v ===== *)
(** * The worker store: the calls and their relations

    The calls of the agent on its store, and rules that follow a call down to
    its statements: a relation that every statement respects is respected by
    the whole call, with every outcome. *)

From S2P Require Import Prelude Utf8 Times Ids Domain Events WorkerStore.

(** The calls that change the store, each with the time it reads. *)
Inductive WorkerCall :=
  | WCallAccept (clock : nat -> time) (cmds : list WorkerCommand)
  | WCallStarted (now : time) (commandID : string) (pid : Z) (workDir statusPath metricsPath : string)
      (git : option GitState)
  | WCallFinished (now : time) (commandID : string) (exitCode : Z) (runError logURI logTail : string)
      (artifacts : list ArtifactAnnouncement)
  | WCallAnnounce (now : time) (commandID : string) (artifacts : list ArtifactAnnouncement)
  | WCallSkip (now : time) (commandID : string) (newOffset : Z)
  | WCallEnqueue (now : time) (commandID attemptID : string) (sample : MetricSample) (newOffset : Z)
  | WCallAcknowledge (through : Z).

Definition workerPerform `{WorkerEnv} (c : WorkerCall) : WAct unit :=
  match c with
  | WCallAccept clock cmds => AcceptCommands clock cmds
  | WCallStarted now id pid workDir statusPath metricsPath git =>
      MarkStarted now id pid workDir statusPath metricsPath git
  | WCallFinished now id code err uri tail artifacts => MarkFinished now id code err uri tail artifacts
  | WCallAnnounce now id artifacts => AnnounceArtifacts now id artifacts
  | WCallSkip now id offset => SkipMetric now id offset
  | WCallEnqueue now id attemptID sample offset => EnqueueMetric now id attemptID sample offset
  | WCallAcknowledge through => Acknowledge through
  end.

(** Text that came through JSON is valid UTF-8, and so is every identifier. *)
Definition workerCallTyped (c : WorkerCall) : Prop :=
  match c with
  | WCallAccept _ cmds => Forall (λ k, utf8Valid (k_AttemptID k) = true) cmds
  | _ => True
  end.

(** One call, with any outcome. *)
Inductive workerStep `{WorkerEnv} : WSt -> WSt -> Prop :=
  | worker_step s c : workerCallTyped c -> workerStep s (workerPerform c s).2.

Definition workerInitial : WSt := {| wdb := emptyWorkerDB; wdraws := 0 |}.

(** ** Relations between the stores before and after a call *)

Definition wobeys {A} (R : relation WorkerDB) (m : WAct A) : Prop := forall s, R (wdb s) (wdb (m s).2).

Module WorkerTheory.
Section obeys.
Context (R : relation WorkerDB) `{!PreOrder R}.

Lemma wobeys_ret {A} (a : A) : wobeys R (mret a).
Proof. intros s. reflexivity. Qed.
Lemma wobeys_fail {A} e : wobeys R (mfail (A := A) e).
Proof. intros s. reflexivity. Qed.
Lemma wobeys_guard b e : wobeys R (mguard b e).
Proof. by destruct b; intros s. Qed.
Lemma wobeys_bind {A B} (m : WAct A) (k : A -> WAct B) :
  wobeys R m -> (forall a, wobeys R (k a)) -> wobeys R (m ≫= k).
Proof.
  intros Hm Hk s. specialize (Hm s). unfold mbind, M_bind.
  destruct (m s) as [[a|e] s1]; [|done]. etrans; [exact Hm|apply Hk].
Qed.
Lemma wobeys_guard_bind {A} b e (k : WAct A) : (b = true -> wobeys R k) -> wobeys R (mguard b e ;; k).
Proof. intros Hk s. destruct b; [by apply Hk|]. reflexivity. Qed.
Lemma wobeys_tx {A} (m : WAct A) : wobeys R m -> wobeys R (wtx m).
Proof. intros Hm s. specialize (Hm s). unfold wtx. by destruct (m s) as [[a|e] s1]. Qed.
(** In a transaction only the successful runs count. *)
Lemma wobeys_tx_ok {A} (m : WAct A) :
  (forall s a s', m s = (Ok a, s') -> R (wdb s) (wdb s')) -> wobeys R (wtx m).
Proof. intros Hm s. unfold wtx. destruct (m s) as [[a|e] s1] eqn:E; [by eapply Hm|]. simpl. reflexivity. Qed.
Lemma wobeys_exec f : (forall d, R d (f d)) -> wobeys R (wexec f).
Proof. intros Hf s. apply Hf. Qed.
Lemma wobeys_query {A} (f : WorkerDB -> A) : wobeys R (wquery f).
Proof. intros s. reflexivity. Qed.
Lemma wobeys_insertCommand k now :
  (forall d, R d (with_commands (<[k_CommandID k := pendingRow k now]> (commands d)) d)) ->
  wobeys R (insertCommand k now).
Proof. intros Hd s. unfold insertCommand. case_bool_decide; [reflexivity|apply Hd]. Qed.
Lemma wobeys_mfor {A} (xs : list A) (body : A -> WAct unit) :
  (forall x, x ∈ xs -> wobeys R (body x)) -> wobeys R (mfor xs body).
Proof.
  intros Hb. induction xs as [|x xs IH]; simpl; [apply wobeys_ret|].
  apply wobeys_bind; [apply Hb, list_elem_of_here|]. intros _. apply IH. intros y Hy. apply Hb. by right.
Qed.
End obeys.

Section runs.
Context `{WorkerEnv}.

Lemma wquery_run {A B} (f : WorkerDB -> A) (k : A -> WAct B) s : (wquery f ≫= k) s = k (f (wdb s)) s.
Proof. done. Qed.

Lemma wret_ok {A} (a b : A) (s s' : WSt) : (mret a : WAct A) s = (Ok b, s') -> b = a /\ s' = s.
Proof. by intros [= <- <-]. Qed.

Lemma wtx_ok {A} (m : WAct A) s a s' : wtx m s = (Ok a, s') -> m s = (Ok a, s').
Proof. unfold wtx. destruct (m s) as [[] ?]; naive_solver. Qed.

Lemma wtx_err {A} (m : WAct A) s e s' : wtx m s = (Err e, s') -> wdb s' = wdb s.
Proof. unfold wtx. destruct (m s) as [[] ?]; [done|]. by intros [= _ <-]. Qed.

Lemma wexec_ok f s u s' : wexec f s = (Ok u, s') -> s' = {| wdb := f (wdb s); wdraws := wdraws s |}.
Proof. unfold wexec, mmodify. by intros [= _ <-]. Qed.

(** An event that was enqueued is the last row of the outbox, under a new
    sequence and a new identifier. *)
Lemma enqueueEvent_ok event now s u s' : enqueueEvent event now s = (Ok u, s') -> exists id,
  New "wev" (worker_entropy (wdraws s)) = Ok id /\
  Forall (λ r, e_EventID (ob_event r) <> id) (outbox (wdb s)) /\
  eventEncodes event = true /\ last_sequence (wdb s) < 2 ^ 63 - 1 /\
  wdb s' = appendOutbox (jsonEvent (withEventID id event)) (formatTime now) (wdb s).
Proof.
  unfold enqueueEvent. intros Hr. apply bind_ok in Hr as (id & s1 & H1 & Hr).
  unfold wnewID in H1. destruct (New _ _) as [i|] eqn:E; [|done]. injection H1 as <- <-.
  apply bind_ok in Hr as ([] & s1 & H1 & Hr). apply guard_ok in H1 as [Henc ->].
  rewrite wquery_run in Hr. apply bind_ok in Hr as ([] & s1 & H1 & Hr).
  apply guard_ok in H1 as [Hu%bool_decide_eq_true ->]. rewrite wquery_run in Hr.
  apply bind_ok in Hr as ([] & s1 & H1 & Hr). apply guard_ok in H1 as [Hl%Z.ltb_lt ->].
  apply wexec_ok in Hr as ->. exists i. split_and!; try done. 
Qed.

(** A relation that respects appending events respects enqueueing. *)
Lemma wobeys_enqueue R `{!PreOrder R} event now :
  (forall id text d, R d (appendOutbox (jsonEvent (withEventID id event)) text d)) ->
  wobeys R (enqueueEvent event now).
Proof.
  intros HR s. destruct (enqueueEvent event now s) as [[[]|e] s'] eqn:E; cbn [snd].
  - apply enqueueEvent_ok in E as (id & _ & _ & _ & _ & ->). apply HR.
  - assert (Hs : wdb s' = wdb s).
    { unfold enqueueEvent, wnewID in E. unfold mbind, M_bind in E. destruct (New _ _);
        [|apply (f_equal snd) in E; simpl in E; by rewrite <- E].
      unfold mguard, wquery, mreads, wexec, mmodify in E.
      repeat (match type of E with context [if ?b then _ else _] => destruct b end; simpl in E);
        first [discriminate E | apply (f_equal snd) in E; simpl in E; by rewrite <- E]. }
    rewrite Hs. reflexivity.
Qed.

(** Every step keeps what every call keeps. *)
Lemma steps_ind (P : WorkerDB -> Prop) s1 s2 :
  (forall c s, workerCallTyped c -> P (wdb s) -> P (wdb (workerPerform c s).2)) ->
  rtc workerStep s1 s2 -> P (wdb s1) -> P (wdb s2).
Proof. intros HP. induction 1 as [|x y z [] _ IH]; auto. Qed.

Lemma steps_rel (R : relation WorkerDB) `{!PreOrder R} s1 s2 :
  (forall c, workerCallTyped c -> wobeys R (workerPerform c)) ->
  rtc workerStep s1 s2 -> R (wdb s1) (wdb s2).
Proof.
  intros HR. induction 1 as [|x y z [s c Hc] _ IH]; [reflexivity|]. etrans; [apply (HR c Hc s)|done].
Qed.
End runs.
End WorkerTheory.
Export WorkerTheory.

Create HintDb worker.
#[export] Hint Unfold AcceptCommands acceptCommand MarkStarted MarkFinished AnnounceArtifacts SkipMetric
  EnqueueMetric Acknowledge updateCommand workerPerform : worker.

(** Follows a call down to its statements; [leaf] proves the relation for one. *)
Ltac wobey leaf :=
  repeat match goal with
  | |- wobeys _ (mret _) => apply wobeys_ret; apply _
  | |- wobeys _ (mfail _) => apply wobeys_fail; apply _
  | |- wobeys _ (mguard _ _ ≫= _) => apply wobeys_guard_bind; [apply _|intros ?]
  | |- wobeys _ (mguard _ _) => apply wobeys_guard; apply _
  | |- wobeys _ (wquery _) => apply wobeys_query; apply _
  | |- wobeys _ (insertCommand _ _) => apply wobeys_insertCommand; [apply _|intros ?; leaf]
  | |- wobeys _ (_ ≫= _) => apply wobeys_bind; [apply _| |intros ?]
  | |- wobeys _ (wtx _) => apply wobeys_tx; [apply _|]
  | |- wobeys _ (wexec _) => apply wobeys_exec; intros ?; leaf
  | |- wobeys _ (enqueueEvent _ _) => apply wobeys_enqueue; [apply _|intros ???; leaf]
  | |- wobeys _ (mfor _ _) => apply wobeys_mfor; [apply _|intros ? ?]
  | |- wobeys _ (match ?x with _ => _ end) => destruct x
  | |- wobeys _ _ => progress autounfold with worker
  end.
