(* ===== verification/WorkerProperties.v ===== *)
(** * The worker store: the lifecycle of commands and events

    The moves of the worker store as rules, the proof that every call is a run
    of these rules, and what the rules keep: the outbox is in sequence order,
    a command only moves forward, and the events of an attempt tell its story
    in order. *)

From S2P Require Import Prelude Utf8 Times Ids Domain Events WorkerStore WorkerLog.
From Stdlib Require Import Strings.Byte.

(** ** The rules *)

(** An event in the outbox under a new sequence. *)
Definition enqueued (id : string) (event : WorkerEvent) (now : time) (d : WorkerDB) : WorkerDB :=
  appendOutbox (jsonEvent (withEventID id event)) (formatTime now) d.

Definition freshEvent (id : string) (d : WorkerDB) : Prop :=
  (exists random, New "wev" random = Ok id) /\
  Forall (λ r, e_EventID (ob_event r) <> id) (outbox d) /\ last_sequence d < 2 ^ 63 - 1.

Definition withRow (commandID : string) (row : CommandRow) (d : WorkerDB) : WorkerDB :=
  with_commands (<[commandID := row]> (commands d)) d.

Inductive wmove : relation WorkerDB :=
  | move_accept d k now id :
      commands d !! k_CommandID k = None ->
      map_Forall (λ _ r, cm_attempt_id r <> k_AttemptID k) (commands d) ->
      utf8Valid (k_AttemptID k) = true -> freshEvent id d ->
      wmove d (enqueued id (plainEvent (k_AttemptID k) WorkerEventAttemptAccepted now) now
                 (withRow (k_CommandID k) (pendingRow k now) d))
  | move_cancel d attemptID now :
      wmove d (with_commands (requestCancel attemptID now <$> commands d) d)
  | move_start d commandID row pid workDir statusPath metricsPath git now id :
      commands d !! commandID = Some row -> cm_state row = CommandPending -> freshEvent id d ->
      wmove d (enqueued id (startedEvent (cm_attempt_id row) now git) now
                 (withRow commandID (setStarted pid workDir statusPath metricsPath now row) d))
  | move_finish d commandID row exitCode runError logURI logTail artifacts now id :
      commands d !! commandID = Some row -> active (cm_state row) = true -> freshEvent id d ->
      wmove d (enqueued id (finishedEvent (cm_attempt_id row) now exitCode runError logURI logTail artifacts) now
                 (withRow commandID (setCommandFinished now row) d))
  | move_artifacts d commandID row artifacts now id :
      commands d !! commandID = Some row -> cm_state row = CommandRunning -> artifacts <> [] ->
      freshEvent id d ->
      wmove d (enqueued id (artifactsEvent (cm_attempt_id row) now artifacts) now d)
  | move_metric d commandID attemptID sample offset now id :
      f64_finite (ms_Value sample) = true -> freshEvent id d ->
      wmove d (with_commands (alter (setOffset offset now) commandID (commands d))
                 (enqueued id (metricEvent attemptID sample) now d))
  | move_offset d commandID offset now :
      wmove d (with_commands (alter (setOffset offset now) commandID (commands d)) d)
  | move_acknowledge d through :
      0 < through < 2 ^ 63 \/ through < 0 ->
      wmove d (with_outbox (filter (λ r, through < ob_sequence r) (outbox d)) d).

(** ** The invariant *)

(** The lifecycle events a worker may have sent for a command. *)
Definition streams (s : CommandState) : list (list string) :=
  match s with
  | CommandPending => [[WorkerEventAttemptAccepted]]
  | CommandRunning => [[WorkerEventAttemptAccepted; WorkerEventAttemptStarted]]
  | CommandFinished =>
      [[WorkerEventAttemptAccepted; WorkerEventAttemptStarted; WorkerEventAttemptFinished];
       [WorkerEventAttemptAccepted; WorkerEventAttemptFinished]]
  end.

Definition isLifecycle (kind : string) : bool :=
  (kind =? WorkerEventAttemptAccepted)%string || (kind =? WorkerEventAttemptStarted)%string ||
  (kind =? WorkerEventAttemptFinished)%string.

(** The kinds of the attempt's lifecycle events in the outbox, in order. *)
Definition lifecycle (attemptID : string) (rows : list OutboxRow) : list string :=
  (λ r, e_Kind (ob_event r)) <$>
    filter (λ r, e_AttemptID (ob_event r) = attemptID /\ isLifecycle (e_Kind (ob_event r)) = true) rows.

Record WorkerInv (d : WorkerDB) : Prop := {
  wi_sorted : StronglySorted Z.lt (ob_sequence <$> outbox d);
  wi_bound : 0 <= last_sequence d /\ Forall (λ r, 0 < ob_sequence r <= last_sequence d) (outbox d);
  wi_attempts : forall i j r r', commands d !! i = Some r -> commands d !! j = Some r' ->
    cm_attempt_id r = cm_attempt_id r' -> i = j;
  wi_rows : map_Forall (λ i r, i = k_CommandID (cm_command r) /\ cm_attempt_id r = k_AttemptID (cm_command r) /\
    utf8Valid (cm_attempt_id r) = true) (commands d);
  wi_streams : map_Forall (λ _ r, exists stream, stream ∈ streams (cm_state r) /\
    lifecycle (cm_attempt_id r) (outbox d) `suffix_of` stream) (commands d);
  wi_orphans : forall attemptID, map_Forall (λ _ r, cm_attempt_id r <> attemptID) (commands d) ->
    lifecycle attemptID (outbox d) = [];
}.

(** A command keeps its identity and only moves forward; a cancel request stays. *)
Definition stateRank (s : CommandState) : nat :=
  match s with CommandPending => 0 | CommandRunning => 1 | CommandFinished => 2 end.
Record rowEvolves (r r' : CommandRow) : Prop := {
  re_command : cm_command r' = cm_command r;
  re_attempt : cm_attempt_id r' = cm_attempt_id r;
  re_state : (stateRank (cm_state r) <= stateRank (cm_state r'))%nat;
  re_cancel : cm_cancel_requested_at r <> "" -> cm_cancel_requested_at r' = cm_cancel_requested_at r;
}.

#[export] Instance rowEvolves_preorder : PreOrder rowEvolves.
Proof.
  split; [by split|]. intros r1 r2 r3 [A1 A2 A3 A4] [B1 B2 B3 B4]. split; [congruence|congruence|lia|].
  intros Hc. rewrite B4; [by apply A4|]. by rewrite A4.
Qed.

Definition commandsEvolve (d d' : WorkerDB) : Prop := forall id r, commands d !! id = Some r ->
  exists r', commands d' !! id = Some r' /\ rowEvolves r r'.

#[export] Instance commandsEvolve_preorder : PreOrder commandsEvolve.
Proof.
  split; [intros d id r Hr; by exists r|]. intros d1 d2 d3 H1 H2 id r Hr.
  destruct (H1 _ _ Hr) as (r2 & Hr2 & E1). destruct (H2 _ _ Hr2) as (r3 & Hr3 & E2).
  exists r3. split; [done|by etrans].
Qed.

Module WorkerLifecycle.

(** *** The outbox *)

Lemma lifecycle_app a l k : lifecycle a (l ++ k) = lifecycle a l ++ lifecycle a k.
Proof. unfold lifecycle. by rewrite filter_app, fmap_app. Qed.

Lemma filter_above through rows : Forall (λ r, through < ob_sequence r) rows ->
  filter (λ r, through < ob_sequence r) rows = rows.
Proof. induction 1; [done|]. rewrite filter_cons_True by done. by f_equal. Qed.

(** Dropping the acknowledged rows of a sorted outbox leaves its end. *)
Lemma acknowledged_suffix through rows : StronglySorted Z.lt (ob_sequence <$> rows) ->
  filter (λ r, through < ob_sequence r) rows `suffix_of` rows.
Proof.
  induction rows as [|r rows IH]; intros Hs; [by exists []|]. inversion Hs as [|?? Hs' Hr]; subst.
  destruct (decide (through < ob_sequence r)).
  - rewrite filter_cons_True, filter_above; [by exists []| |done].
    rewrite Forall_fmap in Hr. eapply Forall_impl; [exact Hr|]. simpl. lia.
  - rewrite filter_cons_False by done. by apply suffix_cons_r, IH.
Qed.

Lemma lifecycle_suffix a l k : l `suffix_of` k -> lifecycle a l `suffix_of` lifecycle a k.
Proof. intros [m ->]. rewrite lifecycle_app. by exists (lifecycle a m). Qed.

Lemma suffix_snoc {A} (l k : list A) x : l `suffix_of` k -> l ++ [x] `suffix_of` k ++ [x].
Proof. intros [m ->]. exists m. by rewrite app_assoc. Qed.


(** *** Commands whose rows change *)

(** What no change of a row touches. *)
Definition ident (r : CommandRow) : string * WorkerCommand := (cm_attempt_id r, cm_command r).

Definition sameIdents (cs cs' : gmap string CommandRow) : Prop := ident <$> cs' = ident <$> cs.

Lemma sameIdents_sym cs cs' : sameIdents cs cs' -> sameIdents cs' cs.
Proof. unfold sameIdents. congruence. Qed.

Lemma sameIdents_lookup cs cs' i r' : sameIdents cs cs' -> cs' !! i = Some r' ->
  exists r, cs !! i = Some r /\ cm_attempt_id r = cm_attempt_id r' /\ cm_command r = cm_command r'.
Proof.
  intros Hs Hr. assert (Hi : (ident <$> cs') !! i = Some (ident r')) by (by rewrite lookup_fmap, Hr).
  rewrite Hs, lookup_fmap in Hi. apply fmap_Some in Hi as (r & Hr0 & He). exists r.
  injection He as E1 E2. done.
Qed.

Lemma sameIdents_insert cs id row row' : cs !! id = Some row -> ident row' = ident row ->
  sameIdents cs (<[id := row']> cs).
Proof.
  intros Hr He. unfold sameIdents. rewrite fmap_insert, He. apply insert_id. by rewrite lookup_fmap, Hr.
Qed.

Lemma sameIdents_alter cs id f : (forall r, ident (f r) = ident r) -> sameIdents cs (alter f id cs).
Proof.
  intros Hf. unfold sameIdents. apply map_eq. intros i. rewrite !lookup_fmap. destruct (decide (id = i)) as [->|].
  - rewrite lookup_alter_eq. destruct (cs !! i); simpl; [by rewrite Hf|done].
  - by rewrite lookup_alter_ne.
Qed.

Lemma sameIdents_fmap cs f : (forall r, ident (f r) = ident r) -> sameIdents cs (f <$> cs).
Proof.
  intros Hf. unfold sameIdents. rewrite <- map_fmap_compose. apply map_fmap_ext. intros i r _. apply Hf.
Qed.

Lemma sameIdents_orphan cs cs' a : sameIdents cs cs' ->
  map_Forall (λ _ r, cm_attempt_id r <> a) cs' -> map_Forall (λ _ r, cm_attempt_id r <> a) cs.
Proof.
  intros Hs Ho i r Hr. apply sameIdents_sym in Hs.
  destruct (sameIdents_lookup _ _ _ _ Hs Hr) as (r' & Hr' & <- & _). by eapply Ho.
Qed.

(** The lifecycle kinds of one event. *)
Definition kindsOf (a : string) (e : WorkerEvent) : list string :=
  if decide (e_AttemptID e = a /\ isLifecycle (e_Kind e) = true) then [e_Kind e] else [].

Lemma lifecycle_row a n e text :
  lifecycle a [{| ob_sequence := n; ob_event := e; ob_created_at := text |}] = kindsOf a e.
Proof.
  unfold lifecycle, kindsOf. destruct (decide _) as [Hd|Hd].
  - by rewrite filter_cons_True.
  - by rewrite filter_cons_False.
Qed.

(** Commands with new rows of the same identity, and an event appended. *)
Lemma winv_update d cs (event : option (WorkerEvent * string)) :
  WorkerInv d -> sameIdents (commands d) cs ->
  (forall i r r', commands d !! i = Some r -> cs !! i = Some r' ->
     forall stream, stream ∈ streams (cm_state r) ->
     stream ++ (match event with Some (e, _) => kindsOf (cm_attempt_id r) e | None => [] end)
       ∈ streams (cm_state r')) ->
  (forall e text a, event = Some (e, text) -> map_Forall (λ _ r, cm_attempt_id r <> a) (commands d) ->
     kindsOf a e = []) ->
  WorkerInv (match event with
             | Some (e, text) => appendOutbox e text (with_commands cs d)
             | None => with_commands cs d
             end).
Proof.
  intros [Hsort [Hb0 Hbd] Hatt Hrow Hstr Horp] Hs Hmove Hev.
  assert (Hatt' : forall i j r r', cs !! i = Some r -> cs !! j = Some r' ->
    cm_attempt_id r = cm_attempt_id r' -> i = j).
  { intros i j r r' Hi Hj He. destruct (sameIdents_lookup _ _ _ _ Hs Hi) as (r1 & Hi1 & E1 & _).
    destruct (sameIdents_lookup _ _ _ _ Hs Hj) as (r2 & Hj2 & E2 & _). apply (Hatt i j r1 r2); congruence. }
  assert (Hrow' : map_Forall (λ i r, i = k_CommandID (cm_command r) /\
    cm_attempt_id r = k_AttemptID (cm_command r) /\ utf8Valid (cm_attempt_id r) = true) cs).
  { intros i r' Hr'. destruct (sameIdents_lookup _ _ _ _ Hs Hr') as (r & Hr & <- & <-). by apply Hrow. }
  destruct event as [[e text]|].
  - split; [| |exact Hatt'|exact Hrow'| |]; unfold appendOutbox; cbn [outbox commands last_sequence with_commands].
    + rewrite fmap_app. simpl. apply sorted_snoc; [done|]. rewrite Forall_fmap.
      eapply Forall_impl; [exact Hbd|]. simpl. lia.
    + split; [lia|]. apply Forall_app. split; [eapply Forall_impl; [exact Hbd|]; simpl; lia|].
      apply Forall_singleton. simpl. lia.
    + intros i r' Hr'. destruct (sameIdents_lookup _ _ _ _ Hs Hr') as (r & Hr & <- & _).
      destruct (Hstr _ _ Hr) as (stream & Hin & Hsuf). eexists. split; [by eapply Hmove|].
      rewrite lifecycle_app, lifecycle_row. destruct Hsuf as [m ->]. exists m. by rewrite app_assoc.
    + intros a Ha. rewrite lifecycle_app, lifecycle_row. apply (sameIdents_orphan _ _ _ Hs) in Ha.
      by rewrite Horp, (Hev e text a eq_refl Ha).
  - split; [done|done|exact Hatt'|exact Hrow'| |]; cbn [outbox commands with_commands].
    + intros i r' Hr'. destruct (sameIdents_lookup _ _ _ _ Hs Hr') as (r & Hr & <- & _).
      destruct (Hstr _ _ Hr) as (stream & Hin & Hsuf). exists stream. split; [|done].
      rewrite <- (app_nil_r stream). by eapply Hmove.
    + intros a Ha. apply Horp. by eapply sameIdents_orphan.
Qed.

(** *** The rules keep the invariant *)

Lemma kindsOf_event a id ev : utf8Valid (e_AttemptID ev) = true -> jsonText (e_Kind ev) = e_Kind ev ->
  kindsOf a (jsonEvent (withEventID id ev)) =
  if decide (e_AttemptID ev = a /\ isLifecycle (e_Kind ev) = true) then [e_Kind ev] else [].
Proof.
  intros Hv Hk. unfold kindsOf. cbn [e_AttemptID e_Kind jsonEvent withEventID].
  by rewrite Hk, (Utf8Theory.jsonText_valid _ Hv).
Qed.

(** One command moves, with the event of the move. *)
Lemma inv_move d cid row row' id ev now : WorkerInv d -> commands d !! cid = Some row ->
  ident row' = ident row -> e_AttemptID ev = cm_attempt_id row -> jsonText (e_Kind ev) = e_Kind ev ->
  isLifecycle (e_Kind ev) = true ->
  (forall stream, stream ∈ streams (cm_state row) -> stream ++ [e_Kind ev] ∈ streams (cm_state row')) ->
  WorkerInv (enqueued id ev now (withRow cid row' d)).
Proof.
  intros Hi Hr He Ha Hk Hl Hs. destruct (wi_rows _ Hi _ _ Hr) as (_ & _ & Hv).
  apply (winv_update d _ (Some (jsonEvent (withEventID id ev), formatTime now)) Hi).
  - by eapply sameIdents_insert.
  - intros i r r' Hr1 Hr2 stream Hstr. rewrite kindsOf_event by (rewrite ?Ha; done). rewrite Ha.
    apply lookup_insert_Some in Hr2 as [[<- <-]|[Hne Hr2]].
    + rewrite Hr in Hr1. injection Hr1 as <-. rewrite decide_True by done. by apply Hs.
    + rewrite Hr1 in Hr2. injection Hr2 as <-. rewrite decide_False, app_nil_r; [done|].
      intros [E _]. apply Hne. by eapply (wi_attempts _ Hi).
  - intros e text a [= <- <-] Ho. rewrite kindsOf_event by (rewrite ?Ha; done). rewrite Ha.
    rewrite decide_False; [done|]. intros [E _]. by apply (Ho _ _ Hr).
Qed.

(** Rows that keep their state, and possibly an event outside the lifecycle. *)
Lemma inv_quiet d cs event : WorkerInv d -> sameIdents (commands d) cs ->
  (forall i r r', commands d !! i = Some r -> cs !! i = Some r' -> cm_state r' = cm_state r) ->
  (match event with Some (e, _) => isLifecycle (e_Kind e) = false | None => True end) ->
  WorkerInv (match event with
             | Some (e, text) => appendOutbox e text (with_commands cs d)
             | None => with_commands cs d
             end).
Proof.
  intros Hi Hs Hst He. assert (Hk : forall e text a, event = Some (e, text) -> kindsOf a e = []).
  { intros e text a ->. unfold kindsOf. rewrite decide_False; [done|]. intros [_ E]. congruence. }
  apply (winv_update d cs event Hi Hs).
  - intros i r r' Hr Hr' stream Hstr. rewrite (Hst _ _ _ Hr Hr').
    replace (match event with Some (e, _) => _ | None => _ end) with (@nil string); [by rewrite app_nil_r|].
    destruct event as [[e text]|]; [|done]. symmetry. by eapply Hk.
  - intros e text a E _. by eapply Hk.
Qed.

Lemma inv_accept d k now id : WorkerInv d -> commands d !! k_CommandID k = None ->
  map_Forall (λ _ r, cm_attempt_id r <> k_AttemptID k) (commands d) -> utf8Valid (k_AttemptID k) = true ->
  WorkerInv (enqueued id (plainEvent (k_AttemptID k) WorkerEventAttemptAccepted now) now
               (withRow (k_CommandID k) (pendingRow k now) d)).
Proof.
  intros [Hsort [Hb0 Hbd] Hatt Hrow Hstr Horp] Hn Hu Hv.
  assert (Hk : forall a, kindsOf a (jsonEvent (withEventID id (plainEvent (k_AttemptID k)
      WorkerEventAttemptAccepted now))) = if decide (k_AttemptID k = a) then [WorkerEventAttemptAccepted] else []).
  { intros a. rewrite kindsOf_event by done. cbn [e_AttemptID e_Kind plainEvent].
    destruct (decide (k_AttemptID k = a)); [by rewrite decide_True|by rewrite decide_False by tauto]. }
  unfold enqueued, withRow, appendOutbox. split; cbn [outbox commands last_sequence with_commands].
  - rewrite fmap_app. simpl. apply sorted_snoc; [done|]. rewrite Forall_fmap.
    eapply Forall_impl; [exact Hbd|]. simpl. lia.
  - split; [lia|]. apply Forall_app. split; [eapply Forall_impl; [exact Hbd|]; simpl; lia|].
    apply Forall_singleton. simpl. lia.
  - intros i j r r' Hi Hj He. apply lookup_insert_Some in Hi as [[<- <-]|[Hi1 Hi]], Hj as [[<- <-]|[Hj1 Hj]];
      [done| | |by eapply Hatt].
    + exfalso. by apply (Hu _ _ Hj).
    + exfalso. by apply (Hu _ _ Hi).
  - intros i r Hr. apply lookup_insert_Some in Hr as [[<- <-]|[_ Hr]]; [done|by apply Hrow].
  - intros i r Hr. rewrite lifecycle_app, lifecycle_row, Hk.
    apply lookup_insert_Some in Hr as [[<- <-]|[Hne Hr]]; simpl.
    + rewrite Horp, decide_True by done. eexists. split; [apply list_elem_of_here|by exists []].
    + rewrite decide_False, app_nil_r; [by apply Hstr in Hr|]. intros E. by apply (Hu _ _ Hr).
  - intros a Ha. rewrite lifecycle_app, lifecycle_row, Hk.
    apply map_Forall_insert in Ha as [Ha1 Ha]; [|done]. by rewrite Horp, decide_False by done.
Qed.

Lemma inv_acknowledge d through : WorkerInv d ->
  WorkerInv (with_outbox (filter (λ r, through < ob_sequence r) (outbox d)) d).
Proof.
  intros [Hsort [Hb0 Hbd] Hatt Hrow Hstr Horp].
  pose proof (acknowledged_suffix through _ Hsort) as Hsuf. destruct Hsuf as [dropped Hd].
  assert (Hl : forall a, lifecycle a (filter (λ r, through < ob_sequence r) (outbox d)) `suffix_of`
    lifecycle a (outbox d)) by (intros a; apply lifecycle_suffix; by exists dropped).
  split; cbn [outbox commands last_sequence with_outbox]; [| |exact Hatt|exact Hrow| |].
  - rewrite Hd, fmap_app in Hsort. by apply StronglySorted_app_1_r in Hsort.
  - split; [done|]. rewrite Hd in Hbd. by apply Forall_app in Hbd as [_ ?].
  - intros i r Hr. destruct (Hstr _ _ Hr) as (stream & Hin & Hs). exists stream. split; [done|].
    etrans; [apply Hl|done].
  - intros a Ha. specialize (Hl a). rewrite Horp in Hl by done. by apply suffix_nil_inv in Hl.
Qed.

Lemma requestCancel_ident a now r : ident (requestCancel a now r) = ident r.
Proof. unfold requestCancel. by destruct (_ && _). Qed.
Lemma requestCancel_state a now r : cm_state (requestCancel a now r) = cm_state r.
Proof. unfold requestCancel. by destruct (_ && _). Qed.

Lemma alter_state (cs : gmap string CommandRow) id f i r r' : (forall r, cm_state (f r) = cm_state r) -> cs !! i = Some r ->
  alter f id cs !! i = Some r' -> cm_state r' = cm_state r.
Proof.
  intros Hf Hr Hr'. apply lookup_alter_Some in Hr' as [(<- & r0 & Hr0 & ->)|[_ Hr']]; [|congruence].
  rewrite Hf. congruence.
Qed.

Lemma wmove_inv d d' : wmove d d' -> WorkerInv d -> WorkerInv d'.
Proof.
  intros Hm Hi. destruct Hm.
  - by apply inv_accept.
  - apply (inv_quiet d _ None Hi); [apply sameIdents_fmap, requestCancel_ident| |done].
    intros i r r' Hr Hr'. rewrite lookup_fmap, Hr in Hr'. injection Hr' as <-. apply requestCancel_state.
  - eapply inv_move; [done|done|done|done|reflexivity|reflexivity|].
    rewrite H0. intros stream Hin. simpl in Hin. apply list_elem_of_singleton in Hin as ->. apply list_elem_of_here.
  - eapply inv_move; [done|done|done|done|reflexivity|reflexivity|].
    intros stream Hin. destruct (cm_state row); [| |done]; simpl in Hin; apply list_elem_of_singleton in Hin as ->;
      simpl; set_solver.
  - assert (E : with_commands (commands d) d = d) by by destruct d.
    unfold enqueued. rewrite <- E. apply (inv_quiet d _ (Some (_, _)) Hi); [done| |reflexivity]. congruence.
  - refine (inv_quiet d (alter (setOffset offset now) commandID (commands d))
      (Some (jsonEvent (withEventID id (metricEvent attemptID sample)), formatTime now)) Hi _ _ _);
      [by apply sameIdents_alter| |reflexivity].
    intros i r r'. by apply alter_state.
  - apply (inv_quiet d (alter (setOffset offset now) commandID (commands d)) None Hi);
      [by apply sameIdents_alter| |done].
    intros i r r'. by apply alter_state.
  - by apply inv_acknowledge.
Qed.

Lemma wmoves_inv d d' : rtc wmove d d' -> WorkerInv d -> WorkerInv d'.
Proof. induction 1; [done|]. intros. eauto using wmove_inv. Qed.

Lemma winv_empty : WorkerInv emptyWorkerDB.
Proof.
  split; simpl; try done; try constructor; try done; try (by apply map_Forall_empty).
Qed.

(** *** Every call is a run of the rules *)

Section refinement.
Context `{WorkerEnv}.

Lemma enqueue_fresh event now s u s' : enqueueEvent event now s = (Ok u, s') -> exists id,
  freshEvent id (wdb s) /\ eventEncodes event = true /\ wdb s' = enqueued id event now (wdb s).
Proof.
  intros Hr. apply enqueueEvent_ok in Hr as (id & Hid & Hu & Henc & Hl & ->). exists id.
  split; [|done]. split; [by eexists|done].
Qed.

Lemma insertCommand_ok k now s b s' : insertCommand k now s = (Ok b, s') ->
  (b = false /\ s' = s) \/
  (b = true /\ commands (wdb s) !! k_CommandID k = None /\
   map_Forall (λ _ r, cm_attempt_id r <> k_AttemptID k) (commands (wdb s)) /\
   wdb s' = withRow (k_CommandID k) (pendingRow k now) (wdb s)).
Proof.
  unfold insertCommand. case_bool_decide as Hc; intros [= <- <-]; [by left|]. right.
  apply Decidable.not_or in Hc as [H1 H2]. split_and!; [done|by apply eq_None_not_Some| |done].
  intros i r Hr He. apply H2. by exists i, r.
Qed.

Lemma acceptCommand_moves k now s u s' : utf8Valid (k_AttemptID k) = true ->
  acceptCommand now k s = (Ok u, s') -> rtc wmove (wdb s) (wdb s').
Proof.
  intros Hv Hr. unfold acceptCommand in Hr. destruct (k_Kind k =? WorkerCommandCancelAttempt)%string.
  { apply wexec_ok in Hr as ->. apply rtc_once, move_cancel. }
  destruct (k_Kind k =? WorkerCommandRunJob)%string; [|apply wret_ok in Hr as [_ ->]; reflexivity].
  apply bind_ok in Hr as (b & s1 & H1 & Hr).
  apply insertCommand_ok in H1 as [[-> ->]|(-> & Hn & Hu & E)].
  - rewrite wquery_run in Hr. destruct (commands (wdb s) !! _); [|done].
    apply guard_ok in Hr as [_ ->]. reflexivity.
  - apply enqueue_fresh in Hr as (id & (Hf1 & Hf2 & Hf3) & _ & ->). rewrite E in Hf2, Hf3 |- *.
    apply rtc_once, move_accept; [done|done|done|]. by split_and!.
Qed.

Lemma mfor_moves {A} (body : A -> WAct unit) xs s u s' :
  (forall x s1 s2, x ∈ xs -> body x s1 = (Ok tt, s2) -> rtc wmove (wdb s1) (wdb s2)) ->
  mfor xs body s = (Ok u, s') -> rtc wmove (wdb s) (wdb s').
Proof.
  intros Hb. revert s. induction xs as [|x xs IH]; intros s Hr; simpl in Hr.
  - apply wret_ok in Hr as [_ ->]. reflexivity.
  - apply bind_ok in Hr as ([] & s1 & H1 & Hr). etrans; [eapply Hb; [apply list_elem_of_here|done]|].
    apply (IH (λ y s1 s2 Hy, Hb y s1 s2 (list_elem_of_further _ _ _ Hy)) s1 Hr).
Qed.

Lemma wtx_moves {A} (m : WAct A) s :
  (forall a s', m s = (Ok a, s') -> rtc wmove (wdb s) (wdb s')) -> rtc wmove (wdb s) (wdb (wtx m s).2).
Proof.
  intros Hm. unfold wtx. destruct (m s) as [[a|e] s1] eqn:E; [by eapply Hm|]. simpl. reflexivity.
Qed.

(** A move of one row, and the enqueueing of its event. *)
Lemma moved_event id f event now s1 u s2 row d : commands d !! id = Some row ->
  wdb s1 = d -> (updateCommand id f ;; enqueueEvent event now) s1 = (Ok u, s2) ->
  exists eid, freshEvent eid d /\ wdb s2 = enqueued eid event now (withRow id (f row) d).
Proof.
  intros Hr <- Hrun. apply bind_ok in Hrun as ([] & s3 & H1 & Hrun). apply wexec_ok in H1 as ->.
  apply enqueue_fresh in Hrun as (eid & (Hf1 & Hf2 & Hf3) & _ & ->). exists eid. split; [by split_and!|].
  cbn [wdb]. unfold withRow. by rewrite (alter_row f _ _ _ Hr).
Qed.

Lemma workerPerform_moves c s : workerCallTyped c -> rtc wmove (wdb s) (wdb (workerPerform c s).2).
Proof.
  intros Ht. destruct c; cbn [workerPerform].
  - apply wtx_moves. intros [] s' Hr. eapply mfor_moves; [|exact Hr]. intros [i k] s1 s2 Hin Hk.
    eapply acceptCommand_moves; [|exact Hk]. simpl in Ht. rewrite Forall_forall in Ht. apply Ht.
    apply elem_of_lookup_imap in Hin as (j & x & [= -> ->] & Hx). by eapply list_elem_of_lookup_2.
  - apply wtx_moves. intros [] s' Hr. rewrite wquery_run in Hr.
    destruct (commands (wdb s) !! commandID) as [row|] eqn:Erow; [|done].
    apply bind_ok in Hr as ([] & s1 & H1 & Hr). apply guard_ok in H1 as [Hp%bool_decide_eq_true ->].
    destruct (moved_event _ _ _ _ _ _ _ _ _ Erow eq_refl Hr) as (id & Hf & ->).
    by apply rtc_once, move_start.
  - apply wtx_moves. intros [] s' Hr. rewrite wquery_run in Hr.
    destruct (commands (wdb s) !! commandID) as [row|] eqn:Erow; [|done].
    apply bind_ok in Hr as ([] & s1 & H1 & Hr). apply guard_ok in H1 as [Hp ->].
    destruct (moved_event _ _ _ _ _ _ _ _ _ Erow eq_refl Hr) as (id & Hf & ->).
    by apply rtc_once, move_finish.
  - unfold AnnounceArtifacts. case_bool_decide as Hne; [reflexivity|]. apply wtx_moves. intros [] s' Hr.
    rewrite wquery_run in Hr. destruct (commands (wdb s) !! commandID) as [row|] eqn:Erow; [|done].
    apply bind_ok in Hr as ([] & s1 & H1 & Hr). apply guard_ok in H1 as [Hp%bool_decide_eq_true ->].
    apply enqueue_fresh in Hr as (id & Hf & _ & ->). by eapply rtc_once, move_artifacts.
  - apply rtc_once, move_offset.
  - apply wtx_moves. intros [] s' Hr. apply bind_ok in Hr as ([] & s1 & H1 & Hr).
    apply enqueue_fresh in H1 as (id & Hf & Henc & E). apply wexec_ok in Hr as ->. cbn [wdb]. rewrite E.
    apply rtc_once. exact (move_metric (wdb s) commandID attemptID sample newOffset now id Henc Hf).
  - unfold Acknowledge. destruct (Z.eqb_spec through 0); [reflexivity|].
    destruct (Z.ltb_spec through (2 ^ 63)); [|reflexivity].
    apply rtc_once, (move_acknowledge (wdb s)). lia.
Qed.

Lemma steps_moves s s' : rtc workerStep s s' -> rtc wmove (wdb s) (wdb s').
Proof. induction 1 as [|x y z [s c Hc] _ IH]; [reflexivity|]. etrans; [by apply workerPerform_moves|done]. Qed.

Lemma worker_reachable_inv s : rtc workerStep workerInitial s -> WorkerInv (wdb s).
Proof. intros Hs. apply steps_moves in Hs. eapply wmoves_inv; [exact Hs|apply winv_empty]. Qed.
End refinement.

(** *** Commands only move forward *)

Lemma evolve_insert_new d id row : commands d !! id = None -> commandsEvolve d (withRow id row d).
Proof.
  intros Hn i r Hr. exists r. split; [|reflexivity]. simpl. rewrite lookup_insert_ne; [done|congruence].
Qed.

Lemma evolve_insert d id row row' : commands d !! id = Some row -> rowEvolves row row' ->
  commandsEvolve d (withRow id row' d).
Proof.
  intros Hrow He i r Hr. simpl. destruct (decide (id = i)) as [<-|].
  - exists row'. rewrite lookup_insert_eq. split; [done|]. congruence.
  - exists r. by rewrite lookup_insert_ne.
Qed.

Lemma evolve_map d cs : (forall i r, commands d !! i = Some r -> exists r', cs !! i = Some r' /\ rowEvolves r r') ->
  commandsEvolve d (with_commands cs d).
Proof. done. Qed.

Lemma requestCancel_evolves a now r : rowEvolves r (requestCancel a now r).
Proof.
  unfold requestCancel. destruct (_ && active _ && _) eqn:E; [|reflexivity].
  apply andb_true_iff in E as [_ E%String.eqb_eq]. split; [done..|]. by rewrite E.
Qed.

Lemma evolve_alter d id f : (forall r, rowEvolves r (f r)) ->
  commandsEvolve d (with_commands (alter f id (commands d)) d).
Proof.
  intros Hf i r Hr. simpl. destruct (decide (id = i)) as [<-|].
  - exists (f r). by rewrite lookup_alter_eq, Hr.
  - exists r. by rewrite lookup_alter_ne.
Qed.

Lemma wmove_evolves d d' : wmove d d' -> commandsEvolve d d'.
Proof.
  intros []; unfold enqueued.
  - by apply evolve_insert_new.
  - intros i r Hr. exists (requestCancel attemptID now r). simpl. rewrite lookup_fmap, Hr. split; [done|].
    apply requestCancel_evolves.
  - eapply evolve_insert; [done|]. split; simpl; try done. match goal with E : cm_state row = _ |- _ => rewrite E end. simpl. lia.
  - eapply evolve_insert; [done|]. split; simpl; try done. destruct (cm_state row); simpl; lia.
  - intros i r Hr. exists r. split; [exact Hr|reflexivity].
  - apply (evolve_alter d0 commandID). intros r. by split.
  - apply (evolve_alter d0 commandID). intros r. by split.
  - intros i r Hr. exists r. split; [exact Hr|reflexivity].
Qed.

Lemma wmoves_evolve d d' : rtc wmove d d' -> commandsEvolve d d'.
Proof. induction 1; [reflexivity|]. etrans; [by apply wmove_evolves|done]. Qed.

Section replay.
Context `{WorkerEnv}.

(** Calls other than accepting commands add no command. *)
Definition sameCommands (d d' : WorkerDB) : Prop := dom (commands d') = dom (commands d).

#[local] Instance sameCommands_preorder : PreOrder sameCommands.
Proof. split; unfold sameCommands; [done|]. intros d1 d2 d3 -> ->. done. Qed.

Definition accepts (c : WorkerCall) : bool := match c with WCallAccept _ _ => true | _ => false end.

Lemma perform_sameCommands c : accepts c = false -> wobeys sameCommands (workerPerform c).
Proof.
  intros Hc. destruct c; [done|..];
    wobey ltac:(first [reflexivity | apply dom_alter_L]).
Qed.

(** What the acceptance of a command leaves behind. *)
Definition settled (d : WorkerDB) (k : WorkerCommand) : Prop :=
  if (k_Kind k =? WorkerCommandCancelAttempt)%string then
    map_Forall (λ _ r, cm_attempt_id r = k_AttemptID k -> active (cm_state r) = true ->
      cm_cancel_requested_at r <> "") (commands d)
  else if (k_Kind k =? WorkerCommandRunJob)%string then
    exists row, commands d !! k_CommandID k = Some row /\ commandJSON (cm_command row) = commandJSON k
  else True.

Lemma settled_run d d' k : k_Kind k = WorkerCommandRunJob -> commandsEvolve d d' -> settled d k -> settled d' k.
Proof.
  unfold settled. intros Hk He. rewrite Hk. intros (row & Hrow & Hj). destruct (He _ _ Hrow) as (row' & Hr' & Hev).
  exists row'. split; [exact Hr'|]. by rewrite (re_command _ _ Hev).
Qed.

Lemma settled_same d d' k : commandsEvolve d d' -> sameCommands d d' -> settled d k -> settled d' k.
Proof.
  intros He Hd. unfold settled. destruct (_ =? _)%string.
  - intros Hs i r' Hr' Ha Hact.
    assert (Hin : is_Some (commands d !! i)) by (apply elem_of_dom; rewrite <- Hd; apply elem_of_dom; eauto).
    destruct Hin as [r Hr]. destruct (He _ _ Hr) as (r'' & Hr'' & [E1 E2 E3 E4]).
    rewrite Hr' in Hr''. injection Hr'' as <-. rewrite E4; (eapply Hs; [exact Hr|congruence|]);
      destruct (cm_state r), (cm_state r'); simpl in *; try done; lia.
  - destruct (_ =? _)%string; [|done]. intros (row & Hrow & Hj). destruct (He _ _ Hrow) as (row' & Hr' & Hev).
    exists row'. split; [exact Hr'|]. by rewrite (re_command _ _ Hev).
Qed.

Lemma formatTime_nonempty t : formatTime t <> "".
Proof.
  unfold formatTime. destruct (GoTime.dateTimeText t); [by destruct (_ =? 0)|by autorewrite with str].
Qed.

Lemma requestCancel_settled d k now : k_Kind k = WorkerCommandCancelAttempt ->
  settled (with_commands (requestCancel (k_AttemptID k) now <$> commands d) d) k.
Proof.
  unfold settled. intros ->. simpl. intros i r' Hr' Ha Hact. rewrite lookup_fmap in Hr'.
  apply fmap_Some in Hr' as (r & Hr & ->). unfold requestCancel in *.
  destruct (bool_decide (cm_attempt_id r = k_AttemptID k) && active (cm_state r)) eqn:E; simpl in *.
  - destruct (cm_cancel_requested_at r =? "")%string eqn:E2; simpl in *; [apply formatTime_nonempty|].
    by apply String.eqb_neq.
  - rewrite Hact, bool_decide_eq_true_2 in E; done.
Qed.

Lemma requestCancel_noop d k now : k_Kind k = WorkerCommandCancelAttempt -> settled d k ->
  with_commands (requestCancel (k_AttemptID k) now <$> commands d) d = d.
Proof.
  unfold settled. intros ->. simpl. intros Hs.
  assert (E : requestCancel (k_AttemptID k) now <$> commands d = commands d).
  { apply map_eq. intros i. rewrite lookup_fmap. destruct (commands d !! i) as [r|] eqn:Er; [|done]. simpl.
    f_equal. unfold requestCancel. destruct (_ && _ && _) eqn:E; [|done].
    apply andb_true_iff in E as [E E3%String.eqb_eq]. apply andb_true_iff in E as [E1%bool_decide_eq_true E2].
    by destruct (Hs _ _ Er E1 E2). }
  rewrite E. by destruct d.
Qed.

Lemma settled_noop k now s : settled (wdb s) k -> acceptCommand now k s = (Ok tt, s).
Proof.
  intros Hs. unfold acceptCommand. destruct (k_Kind k =? WorkerCommandCancelAttempt)%string eqn:E1.
  - apply String.eqb_eq in E1. unfold wexec, mmodify. rewrite requestCancel_noop by done. by destruct s.
  - unfold settled in Hs. rewrite E1 in Hs. destruct (k_Kind k =? WorkerCommandRunJob)%string; [|done].
    destruct Hs as (row & Hrow & Hj). rewrite (bind_run _ _ _ false s).
    + rewrite wquery_run, Hrow. by rewrite Hj, String.eqb_refl.
    + unfold insertCommand. rewrite bool_decide_eq_true_2; [done|]. left. by exists row.
Qed.

Lemma accept_settles k now s s' : acceptCommand now k s = (Ok tt, s') -> settled (wdb s') k.
Proof.
  unfold acceptCommand. destruct (k_Kind k =? WorkerCommandCancelAttempt)%string eqn:E1; intros Hr.
  { apply wexec_ok in Hr as ->. apply String.eqb_eq in E1. by apply requestCancel_settled. }
  unfold settled. rewrite E1. destruct (k_Kind k =? WorkerCommandRunJob)%string; [|done].
  apply bind_ok in Hr as (b & s1 & H1 & Hr). apply insertCommand_ok in H1 as [[-> ->]|(-> & Hn & Hu & E)].
  - rewrite wquery_run in Hr. destruct (commands (wdb s) !! _) as [row|] eqn:Erow; [|done].
    apply guard_ok in Hr as [Hj%String.eqb_eq ->]. by exists row.
  - apply enqueue_fresh in Hr as (id & _ & _ & ->). rewrite E. eexists. split; [apply lookup_insert_eq|done].
Qed.

Lemma cancel_same k now s s' : k_Kind k = WorkerCommandCancelAttempt -> acceptCommand now k s = (Ok tt, s') ->
  commandsEvolve (wdb s) (wdb s') /\ sameCommands (wdb s) (wdb s').
Proof.
  unfold acceptCommand. intros -> Hr. simpl in Hr. apply wexec_ok in Hr as ->. split.
  - apply wmove_evolves. apply move_cancel.
  - unfold sameCommands. simpl. apply dom_fmap_L.
Qed.

Lemma mfor_noop {A} (body : A -> WAct unit) xs s : (forall x, x ∈ xs -> body x s = (Ok tt, s)) ->
  mfor xs body s = (Ok tt, s).
Proof.
  intros Hb. induction xs as [|x xs IH]; [done|]. simpl.
  rewrite (bind_run _ _ _ tt s) by apply Hb, list_elem_of_here. apply IH. intros y Hy. apply Hb. by right.
Qed.

(** Run commands, then cancel commands: all are settled afterwards. *)
Lemma runs_settle clock (runs : list (nat * WorkerCommand)) s s' :
  Forall (λ ik, k_Kind ik.2 = WorkerCommandRunJob /\ utf8Valid (k_AttemptID ik.2) = true) runs ->
  mfor runs (λ ic, acceptCommand (clock ic.1) ic.2) s = (Ok tt, s') ->
  Forall (λ ik, settled (wdb s') ik.2) runs.
Proof.
  intros Hruns Hr. revert s Hr. induction runs as [|[i k] runs IH]; intros s Hr; [by apply Forall_nil|].
  apply Forall_cons in Hruns as [[Hk Hv] Hruns]. simpl in Hr. apply bind_ok in Hr as ([] & s1 & H1 & Hr).
  constructor; [|by eapply IH]. apply accept_settles in H1. simpl in *. eapply settled_run; [done| |exact H1].
  apply wmoves_evolve. eapply mfor_moves; [|exact Hr]. intros [j x] s2 s3 Hin Hx. rewrite Forall_forall in Hruns.
  destruct (Hruns _ Hin) as [_ Hvx]. by eapply acceptCommand_moves.
Qed.

Lemma cancels_same clock (cancels : list (nat * WorkerCommand)) s s' :
  Forall (λ ik, k_Kind ik.2 = WorkerCommandCancelAttempt) cancels ->
  mfor cancels (λ ic, acceptCommand (clock ic.1) ic.2) s = (Ok tt, s') ->
  commandsEvolve (wdb s) (wdb s') /\ sameCommands (wdb s) (wdb s') /\
  Forall (λ ik, settled (wdb s') ik.2) cancels.
Proof.
  intros Hc Hr. revert s Hr. induction cancels as [|[i k] cancels IH]; intros s Hr; simpl in Hr.
  { apply wret_ok in Hr as [_ ->]. split_and!; [reflexivity..|by apply Forall_nil]. }
  apply Forall_cons in Hc as [Hk Hc]. apply bind_ok in Hr as ([] & s1 & H1 & Hr).
  destruct (IH Hc _ Hr) as (He & Hd & Hs). pose proof (accept_settles _ _ _ _ H1) as Hset.
  destruct (cancel_same _ _ _ _ Hk H1) as [He1 Hd1]. split_and!; [by etrans|by etrans|].
  constructor; [by eapply settled_same|done].
Qed.

Lemma accept_all_settled clock runs cancels s s' :
  Forall (λ k, k_Kind k = WorkerCommandRunJob /\ utf8Valid (k_AttemptID k) = true) runs ->
  Forall (λ k, k_Kind k = WorkerCommandCancelAttempt) cancels ->
  AcceptCommands clock (runs ++ cancels) s = (Ok tt, s') ->
  Forall (settled (wdb s')) (runs ++ cancels).
Proof.
  intros Hruns Hcancels Hr%wtx_ok. rewrite imap_app, mfor_app in Hr.
  apply bind_ok in Hr as ([] & s1 & H1 & Hr).
  apply runs_settle in H1; [|apply Forall_forall; intros [i k] Hin;
    apply elem_of_lookup_imap in Hin as (j & x & [= -> ->] & Hx);
    rewrite Forall_forall in Hruns; apply Hruns; by eapply list_elem_of_lookup_2].
  apply cancels_same in Hr as (He & Hd & Hs); [|apply Forall_forall; intros [i k] Hin;
    apply elem_of_lookup_imap in Hin as (j & x & [= -> ->] & Hx);
    rewrite Forall_forall in Hcancels; apply Hcancels; by eapply list_elem_of_lookup_2].
  assert (Hpair : forall (P : WorkerCommand -> Prop) (f : nat -> nat) l,
    Forall (λ ik : nat * WorkerCommand, P ik.2) (imap (λ i c, (f i, c)) l) -> Forall P l).
  { intros P f l Hall. apply Forall_forall. intros x Hx. apply list_elem_of_lookup in Hx as [i Hi].
    rewrite Forall_forall in Hall. apply (Hall (f i, x)). apply elem_of_lookup_imap. by exists i, x. }
  apply Forall_app. split.
  - eapply Forall_impl; [exact (Hpair (settled (wdb s1)) (λ i, i) _ H1)|]. intros k Hk. by eapply settled_same.
  - exact (Hpair (settled (wdb s')) (λ i, length runs + i)%nat _ Hs).
Qed.
End replay.

End WorkerLifecycle.

(** An agent call other than one that acknowledges the sequence. *)
Definition retains (sequence : Z) (c : WorkerCall) : Prop :=
  match c with WCallAcknowledge through => through < sequence | _ => True end.

(** A call that is not the acceptance of commands. *)
Definition quietCall (c : WorkerCall) : Prop := workerCallTyped c /\ WorkerLifecycle.accepts c = false.

Section properties.
Context `{WorkerEnv}.

(** C29: Every call on the worker store, with every outcome, is a run of the
    rules: a command is accepted, started or finished together with its event,
    or nothing happens. *)
Theorem worker_calls_refine (c : WorkerCall) (s : WSt) : workerCallTyped c ->
  rtc wmove (wdb s) (wdb (workerPerform c s).2).
Proof. apply WorkerLifecycle.workerPerform_moves. Qed.

(** C30: In every state the agent can reach, the outbox is in the order of its
    sequences, none of them beyond the last one handed out; and for every
    command the lifecycle events of its attempt still in the outbox are the end
    of accepted, started, finished (or accepted, finished) as far as the
    command's state has come. *)
Theorem worker_streams (s : WSt) : rtc workerStep workerInitial s -> WorkerInv (wdb s).
Proof. apply WorkerLifecycle.worker_reachable_inv. Qed.

(** An accepted command is never lost or changed: it keeps its attempt and
    its content, its state only moves forward, and a cancel request stays. *)
Theorem commands_forward (id : string) (r : CommandRow) (s s' : WSt) :
  commands (wdb s) !! id = Some r -> rtc workerStep s s' ->
  exists r', commands (wdb s') !! id = Some r' /\ rowEvolves r r'.
Proof.
  intros Hr Hs. apply WorkerLifecycle.steps_moves, WorkerLifecycle.wmoves_evolve in Hs. by apply Hs.
Qed.

(** Accepting the same commands again is harmless: when a response with run
    commands and then cancel commands was accepted, accepting it again after
    any progress of the agent succeeds and changes nothing. *)
Theorem accept_replay (clock clock' : nat -> time) (runs cancels : list WorkerCommand) (s s1 s2 : WSt) :
  Forall (λ k, k_Kind k = WorkerCommandRunJob /\ utf8Valid (k_AttemptID k) = true) runs ->
  Forall (λ k, k_Kind k = WorkerCommandCancelAttempt) cancels ->
  AcceptCommands clock (runs ++ cancels) s = (Ok tt, s1) ->
  rtc (λ x y, exists c, quietCall c /\ y = (workerPerform c x).2) s1 s2 ->
  AcceptCommands clock' (runs ++ cancels) s2 = (Ok tt, s2).
Proof.
  intros Hruns Hcancels Hr Hs.
  pose proof (WorkerLifecycle.accept_all_settled _ _ _ _ _ Hruns Hcancels Hr) as Hset. clear Hr.
  assert (Hset2 : Forall (WorkerLifecycle.settled (wdb s2)) (runs ++ cancels)).
  { induction Hs as [|x y z (c & [Ht Hc] & ->) _ IH]; [done|]. apply IH. eapply Forall_impl; [exact Hset|].
    intros k. apply WorkerLifecycle.settled_same.
    - apply WorkerLifecycle.wmoves_evolve. by apply WorkerLifecycle.workerPerform_moves.
    - by apply (WorkerLifecycle.perform_sameCommands c Hc x). }
  unfold AcceptCommands, wtx. rewrite WorkerLifecycle.mfor_noop; [by destruct s2|].
  intros [i k] Hin. apply elem_of_lookup_imap in Hin as (j & x & [= -> ->] & Hx).
  apply WorkerLifecycle.settled_noop. rewrite Forall_forall in Hset2. apply Hset2.
  by eapply list_elem_of_lookup_2.
Qed.

(** An event stays in the outbox, as it is, until its sequence is
    acknowledged. *)
Theorem events_kept (row : OutboxRow) (s s' : WSt) :
  row ∈ outbox (wdb s) ->
  rtc (λ x y, exists c, retains (ob_sequence row) c /\ y = (workerPerform c x).2) s s' ->
  row ∈ outbox (wdb s').
Proof.
  intros Hrow Hs. induction Hs as [|x y z (c & Hc & ->) _ IH]; [done|]. apply IH. revert Hrow.
  assert (Hpre : PreOrder (λ d d', row ∈ outbox d -> row ∈ outbox d')) by (split; unfold Reflexive, Transitive; auto).
  enough (Ho : wobeys (λ d d', row ∈ outbox d -> row ∈ outbox d') (workerPerform c)) by apply (Ho x).
  destruct c; wobey ltac:(simpl; first [done | intros ?; apply elem_of_app; by left
    | intros ?; apply list_elem_of_filter; simpl in Hc; split; [lia|done]]).
Qed.

End properties.

(** ** A log tail that outgrows its limit *)

(** A finished event whose log tail, 64 KiB of bytes that are not text, was
    valid when the worker read it. *)
Definition binaryTail : string := unchars (replicate (Z.to_nat (64 * 1024)) (ascii_of_N 255)).

(** The tail of a log that is not UTF-8 passes the worker's limit of 64 KiB,
    but what the outbox stores of it is three times as long, beyond what the
    control plane accepts. *)
Theorem binary_tail_grows (now : time) (attemptID : string) :
  len binaryTail <= 64 * 1024 /\
  len (e_LogTail (jsonEvent (finishedEvent attemptID now 0 "" "" binaryTail []))) = 3 * 64 * 1024.
Proof.
  split.
  - unfold len, binaryTail. rewrite <- Utf8Theory.chars_length, Utf8Theory.chars_unchars, length_replicate, Z2Nat.id; lia.
  - cbn [e_LogTail jsonEvent finishedEvent]. unfold binaryTail. rewrite Utf8Theory.jsonText_replaced, Z2Nat.id; lia.
Qed.

(** ** The properties in a concrete run *)

#[local] Instance demoWorkerEnv : WorkerEnv := {
  worker_entropy n := default x00 (Byte.of_N (N.of_nat n)) :: replicate 15 x00;
  commandJSON k := k_CommandID k +:+ "/" +:+ k_AttemptID k;
}.

Definition demoCommand : WorkerCommand := {|
  k_CommandID := "cmd_1"; k_AttemptID := "att_1"; k_AttemptNumber := 1; k_Kind := WorkerCommandRunJob;
  k_Job := None; k_LeaseExpiresAt := 0 |}.
Definition demoCancel : WorkerCommand := {|
  k_CommandID := "cmd_1-cancel"; k_AttemptID := "att_1"; k_AttemptNumber := 1;
  k_Kind := WorkerCommandCancelAttempt; k_Job := None; k_LeaseExpiresAt := 0 |}.

Definition wafter (s : WSt) (c : WorkerCall) : WSt := (workerPerform c s).2.
Definition acceptedW : WSt := wafter workerInitial (WCallAccept (λ _, 0) ([demoCommand] ++ [demoCancel])).
Definition demoStart : WorkerCall := WCallStarted 0 "cmd_1" 77 "/work" "/status" "/metrics" None.
Definition startedW : WSt := wafter acceptedW demoStart.

Lemma accept_typed : workerCallTyped (WCallAccept (λ _, 0) ([demoCommand] ++ [demoCancel])).
Proof. repeat constructor. Qed.

Lemma accepted_run : AcceptCommands (λ _, 0) ([demoCommand] ++ [demoCancel]) workerInitial = (Ok tt, acceptedW).
Proof. reflexivity. Qed.

Lemma startedW_reachable : rtc workerStep workerInitial startedW.
Proof.
  eapply rtc_l; [exact (worker_step workerInitial _ accept_typed)|]. apply rtc_once.
  exact (worker_step acceptedW demoStart I).
Qed.

Lemma worker_calls_refine_witness : rtc wmove (wdb acceptedW) (wdb startedW) /\
  cm_state <$> commands (wdb startedW) !! "cmd_1" = Some CommandRunning.
Proof. split; [exact (worker_calls_refine demoStart acceptedW I)|reflexivity]. Defined.

Lemma worker_streams_witness : WorkerInv (wdb startedW) /\
  lifecycle "att_1" (outbox (wdb startedW)) = [WorkerEventAttemptAccepted; WorkerEventAttemptStarted].
Proof. split; [exact (worker_streams startedW startedW_reachable)|vm_compute; reflexivity]. Defined.

Lemma commands_forward_witness : exists r', commands (wdb startedW) !! "cmd_1" = Some r' /\
  cm_command r' = demoCommand.
Proof.
  destruct (commands (wdb acceptedW) !! "cmd_1") as [r|] eqn:E; [|discriminate E].
  destruct (commands_forward "cmd_1" r acceptedW startedW E (rtc_once _ _ (worker_step acceptedW demoStart I)))
    as (r' & Hr' & He).
  exists r'. split; [exact Hr'|]. rewrite (re_command _ _ He).
  assert (Hc : cm_command <$> commands (wdb acceptedW) !! "cmd_1" = Some demoCommand) by reflexivity.
  rewrite E in Hc. apply Some_inj in Hc. exact Hc.
Defined.

Lemma accept_replay_witness :
  AcceptCommands (λ _, 5) ([demoCommand] ++ [demoCancel]) startedW = (Ok tt, startedW).
Proof.
  refine (accept_replay (λ _, 0) (λ _, 5) [demoCommand] [demoCancel] workerInitial acceptedW startedW
    _ _ accepted_run (rtc_once _ _ _)).
  - repeat constructor.
  - repeat constructor.
  - exists demoStart. split; [split; [exact I|reflexivity]|reflexivity].
Defined.

Lemma events_kept_witness : Exists (λ row, row ∈ outbox (wdb startedW)) (outbox (wdb acceptedW)).
Proof.
  assert (Hx : Exists (λ row, ob_sequence row = 1) (outbox (wdb acceptedW)))
    by (apply (bool_decide_unpack _); vm_compute; exact I).
  apply Exists_exists in Hx as (row & Hin & Hseq). apply Exists_exists. exists row. split; [exact Hin|].
  refine (events_kept row acceptedW startedW Hin (rtc_once _ _ _)).
  exists demoStart. split; [exact I|reflexivity].
Defined.
