(* ===== verification/Control.v ===== *)
(** * The control plane refines the lifecycle

    Every store operation, on every database and with every outcome, is a run of
    the lifecycle rules on the jobs and attempts tables. *)

From S2P Require Import Prelude Times GoLib Ids Domain Validate ValidateSpec Database Jobs Health.
From S2P Require Import Events Lifecycle Auth Scheduler Sync.

(** ** Calls that leave jobs and attempts alone *)

Definition frames `{Env} {A} (m : Act A) : Prop := forall c, keeps (onDB (λ d, coreOf d = c)) m.

(** A successful run of [m] is a run of the rules. *)
Definition refinesOk `{Env} {A} (w : option string) (m : Act A) : Prop :=
  forall s a s', m s = (Ok a, s') -> rtc (step w) (coreOf (db s)) (coreOf (db s')).

(** Every run of [m] is. *)
Definition refines `{Env} {A} (w : option string) (m : Act A) : Prop :=
  forall s, rtc (step w) (coreOf (db s)) (coreOf (db (m s).2)).

Create HintDb frames.

Module ControlTheory.
Section frames.
Context `{Env}.

Lemma frames_ret {A} (a : A) : frames (mret a).
Proof. intros c. apply keeps_ret. Qed.
Lemma frames_fail {A} e : frames (mfail (A := A) e).
Proof. intros c. apply keeps_fail. Qed.
Lemma frames_guard b e : frames (mguard b e).
Proof. intros c. apply keeps_guard. Qed.
Lemma frames_query {A} (f : DB -> A) : frames (query f).
Proof. intros c. apply keeps_query. Qed.
Lemma frames_found {A} (o : option A) e : frames (found o e).
Proof. intros c. apply keeps_found. Qed.
Lemma frames_newID p : frames (newID p).
Proof. intros c. apply keeps_newID. Qed.
Lemma frames_bind {A B} (m : Act A) (k : A -> Act B) :
  frames m -> (forall a, frames (k a)) -> frames (m ≫= k).
Proof. intros Hm Hk c. apply keeps_bind; [apply Hm|]. intros a. apply Hk. Qed.
Lemma frames_tx {A} (m : Act A) : frames m -> frames (tx m).
Proof. intros Hm c. apply keeps_tx, Hm. Qed.
Lemma frames_exec f : (forall d, coreOf (f d) = coreOf d) -> frames (exec f).
Proof. intros Hf c. apply keeps_exec. intros d <-. apply Hf. Qed.
Lemma frames_execIf ok e f : (forall d, coreOf (f d) = coreOf d) -> frames (execIf ok e f).
Proof. intros Hf c. apply keeps_onDB_execIf. intros d <- _. apply Hf. Qed.
Lemma frames_insertOrIgnore ignored ok e f : (forall d, coreOf (f d) = coreOf d) ->
  frames (insertOrIgnore ignored ok e f).
Proof.
  intros Hf c s <-. unfold onDB, insertOrIgnore.
  destruct (ignored (db s)), (ok (db s)); simpl; auto.
Qed.
Lemma frames_mfor {A} (xs : list A) (body : A -> Act unit) :
  (forall x, frames (body x)) -> frames (mfor xs body).
Proof. intros Hb c. apply keeps_mfor. intros x. apply Hb. Qed.
Lemma frames_mfold {A B} (xs : list A) (b : B) (body : B -> A -> Act B) :
  (forall b x, frames (body b x)) -> frames (mfold xs b body).
Proof. intros Hb c. apply keeps_mfold. intros b0 x. apply Hb. Qed.
Lemma frames_logged {A} (m : Act A) : frames m -> frames (logged m).
Proof. intros Hm c s Hs. apply (Hm c s Hs). Qed.

Lemma frames_run {A} (m : Act A) s r s' : frames m -> m s = (r, s') ->
  coreOf (db s') = coreOf (db s).
Proof. intros Hm Hr. specialize (Hm _ s eq_refl). by rewrite Hr in Hm. Qed.

Lemma frames_refines {A} w (m : Act A) : frames m -> refines w m.
Proof.
  intros Hm s. destruct (m s) as [r s'] eqn:E. rewrite <- (frames_run _ _ _ _ Hm E). reflexivity.
Qed.

Lemma refines_ok {A} w (m : Act A) : refines w m -> refinesOk w m.
Proof. intros Hm s a s' Hr. specialize (Hm s). by rewrite Hr in Hm. Qed.

(** A transaction needs to follow the rules only where it commits. *)
Lemma refines_tx {A} w (m : Act A) : refinesOk w m -> refines w (tx m).
Proof.
  intros Hm s. destruct (tx_cases m s) as [(a & s' & Hr & ->)|(e & s' & _ & _ & ->)].
  - by eapply Hm.
  - reflexivity.
Qed.

Lemma refines_bind {A B} w (m : Act A) (k : A -> Act B) :
  refines w m -> (forall a, refines w (k a)) -> refines w (m ≫= k).
Proof.
  intros Hm Hk s. specialize (Hm s). unfold mbind, M_bind.
  destruct (m s) as [[a|e] s1]; [|done]. etrans; [apply Hm|apply Hk].
Qed.

Lemma refinesOk_bind {A B} w (m : Act A) (k : A -> Act B) :
  refinesOk w m -> (forall a, refinesOk w (k a)) -> refinesOk w (m ≫= k).
Proof.
  intros Hm Hk s b s' Hr. apply bind_ok in Hr as (a & s1 & H1 & H2).
  etrans; [by eapply Hm|by eapply Hk].
Qed.

Lemma refinesOk_mfor {A} w (xs : list A) (body : A -> Act unit) :
  (forall x, refinesOk w (body x)) -> refinesOk w (mfor xs body).
Proof.
  intros Hb. induction xs as [|x xs IH]; simpl.
  - apply refines_ok, frames_refines, frames_ret.
  - apply refinesOk_bind; auto.
Qed.
End frames.
End ControlTheory.
Export ControlTheory.

#[export] Hint Resolve frames_ret frames_fail frames_guard frames_query frames_found frames_newID
  frames_bind frames_tx frames_mfor frames_mfold frames_logged : frames.

(** Proves that a call leaves jobs and attempts alone. *)
Ltac frame :=
  repeat match goal with
  | |- forall _, _ => intros ?
  | |- frames (execIf _ _ _) => apply frames_execIf; intros; reflexivity
  | |- frames (insertOrIgnore _ _ _ _) => apply frames_insertOrIgnore; intros; reflexivity
  | |- frames (exec _) => apply frames_exec; intros; reflexivity
  | |- frames (_ ≫= _) => apply frames_bind
  | |- frames (tx _) => apply frames_tx
  | |- frames (mfor _ _) => apply frames_mfor
  | |- frames (mfold _ _ _) => apply frames_mfold
  | |- frames (logged _) => apply frames_logged
  | |- frames (match ?x with _ => _ end) => destruct x
  | |- frames (let _ := _ in _) => intros ?
  | |- frames _ => solve [eauto with frames]
  end.

Module Frames.
Section frames.
Context `{Env}.

Lemma frames_parsed t : frames (parsed t).
Proof. unfold parsed. frame. Qed.
Lemma frames_scanJob id row : frames (scanJob id row).
Proof. unfold scanJob. repeat first [apply frames_parsed | frame]. Qed.
Lemma frames_getJob id : frames (getJob id).
Proof. unfold getJob. repeat first [apply frames_scanJob | frame]. Qed.
Lemma frames_insertEvent row : frames (insertEvent row).
Proof. unfold insertEvent. frame. Qed.
Lemma frames_control kind id v now : frames (appendControlEvent kind id v now).
Proof. unfold appendControlEvent. repeat first [apply frames_insertEvent | frame]. Qed.
Lemma frames_insertWorkerEvent row : frames (insertWorkerEvent row).
Proof. unfold insertWorkerEvent. frame. Qed.
Lemma frames_insertMetricSample row : frames (insertMetricSample row).
Proof. unfold insertMetricSample. frame. Qed.
Lemma frames_upsertArtifact a n u row : frames (upsertArtifact a n u row).
Proof. unfold upsertArtifact. frame. Qed.
Lemma frames_insertIdempotencyKey k row : frames (insertIdempotencyKey k row).
Proof. unfold insertIdempotencyKey. frame. Qed.
Lemma frames_insertTarget k row : frames (insertTarget k row).
Proof. unfold insertTarget. frame. Qed.
Lemma frames_insertFiring k row : frames (insertFiring k row).
Proof. unfold insertFiring. frame. Qed.
Lemma frames_insertDelivery k row : frames (insertDelivery k row).
Proof. unfold insertDelivery. frame. Qed.
Lemma frames_insertWorker k row : frames (insertWorker k row).
Proof. unfold insertWorker. frame. Qed.
Lemma frames_insertWorkerToken k row : frames (insertWorkerToken k row).
Proof. unfold insertWorkerToken. frame. Qed.
End frames.
#[export] Hint Resolve frames_parsed frames_scanJob frames_getJob frames_insertEvent frames_control
  frames_insertWorkerEvent frames_insertMetricSample frames_upsertArtifact
  frames_insertIdempotencyKey frames_insertTarget frames_insertFiring frames_insertDelivery
  frames_insertWorker frames_insertWorkerToken : frames.

Section operations.
Context `{Env}.

Lemma frames_checkTargets ps : frames (checkTargets ps).
Proof. unfold checkTargets. frame. Qed.
Lemma frames_ListJobs n : frames (ListJobs n).
Proof. unfold ListJobs. frame. Qed.
Lemma frames_fireTx c i p k r x now : frames (fireHealthPolicyTx c i p k r x now).
Proof. unfold fireHealthPolicyTx. frame. Qed.
Lemma frames_metricStalled a p t : frames (metricStalled a p t).
Proof. unfold metricStalled. frame. Qed.
Lemma frames_CreateWebhookTarget now n u s : frames (CreateWebhookTarget now n u s).
Proof. unfold CreateWebhookTarget. frame. Qed.
Lemma frames_RecordWebhookResult now d c e : frames (RecordWebhookResult now d c e).
Proof. unfold RecordWebhookResult. frame. Qed.
Lemma frames_scanCandidate row : frames (scanCandidate row).
Proof. unfold scanCandidate. frame. Qed.
Lemma frames_recordArtifacts a l t : frames (recordArtifacts a l t).
Proof. unfold recordArtifacts. frame. Qed.
Lemma frames_CreateWorker now n t l : frames (CreateWorker now n t l).
Proof. unfold CreateWorker. frame. Qed.
Lemma frames_AuthenticateWorkerToken now t : frames (AuthenticateWorkerToken now t).
Proof. unfold AuthenticateWorkerToken. frame. Qed.
Lemma frames_offeredCommands w : frames (offeredCommands w).
Proof. unfold offeredCommands, runCommand. frame. Qed.
Lemma frames_cancelCommands w : frames (cancelCommands w).
Proof. unfold cancelCommands. frame. Qed.
Lemma frames_scanJobs rows : frames (scanJobs rows).
Proof. unfold scanJobs. frame. Qed.
End operations.
#[export] Hint Resolve frames_checkTargets frames_fireTx frames_metricStalled frames_scanCandidate
  frames_recordArtifacts frames_offeredCommands frames_cancelCommands frames_scanJobs : frames.

Section health.
Context `{Env}.
Lemma frames_fireFinished c w e s n x t : frames (fireFinished c w e s n x t).
Proof. unfold fireFinished. frame. Qed.
Lemma frames_policyFires now c p : frames (policyFires now c p).
Proof. unfold policyFires. frame. Qed.
Lemma frames_evaluatePolicy now c n ip : frames (evaluatePolicy now c n ip).
Proof.
  unfold evaluatePolicy, fireHealthPolicy. repeat first [apply frames_policyFires | frame].
Qed.
Lemma frames_EvaluateHealthPolicies now : frames (EvaluateHealthPolicies now).
Proof.
  unfold EvaluateHealthPolicies. repeat first [apply frames_evaluatePolicy | frame].
Qed.
End health.
End Frames.
Export Frames.
#[export] Hint Resolve frames_fireFinished : frames.

(** ** The operations that change jobs and attempts *)

Module Refinement.

Lemma liveAttempts_nil d jid : liveAttempts d jid = [] <-> ~ hasLive (coreOf d) jid.
Proof.
  split.
  - intros Hn (aid & a & Ha & Hj & Hl).
    assert (Hin : (aid, a) ∈ liveAttempts d jid) by (apply elem_of_rowsWhere; auto).
    rewrite Hn in Hin. by apply elem_of_nil in Hin.
  - intros Hn. destruct (liveAttempts d jid) as [|[aid a] l] eqn:E; [done|].
    destruct Hn. exists aid, a.
    assert (Hin : (aid, a) ∈ liveAttempts d jid) by (rewrite E; left).
    apply elem_of_rowsWhere in Hin as [[? ?] ?]. by split.
Qed.

Section refinement.
Context `{Env}.

Lemma scanJob_ok id row s j s' : scanJob id row s = (Ok j, s') ->
  s' = s /\ j_ID j = id /\ j_State j = jr_state row /\ j_Revision j = jr_revision row /\
  j_Spec j = jr_spec row.
Proof. unfold scanJob, parsed. intros Hr. runs. by subst. Qed.

Lemma getJob_ok id s j s' : getJob id s = (Ok j, s') ->
  s' = s /\ exists row, jobs (db s) !! id = Some row /\ j_ID j = id /\
    j_State j = jr_state row /\ j_Revision j = jr_revision row /\ j_Spec j = jr_spec row.
Proof.
  unfold getJob. intros Hr. runs. apply scanJob_ok in Hr as (-> & ?). split; [done|]. eauto.
Qed.

Lemma CreateJob_refines now key spec : GoTime.fourDigitYear now -> SpecTyped spec -> refines None (CreateJob now key spec).
Proof.
  intros Hy Ht. unfold CreateJob. apply refines_bind; [apply frames_refines; frame|]. intros _.
  intros s. destruct (decide (Validate spec = [])) as [Hv|Hv];
    [rewrite (bool_decide_eq_true_2 _ Hv)|rewrite (bool_decide_eq_false_2 _ Hv)]; [|reflexivity].
  rewrite (bind_run _ _ s tt s) by done. revert s. apply refines_tx. intros s r s' Hr.
  apply bind_ok in Hr as (stored & s1 & Hq & Hr). apply query_ok in Hq as [-> ->].
  destruct (idempotency_keys (db s) !! key).
  { revert Hr. apply refines_ok, frames_refines. frame. }
  apply bind_ok in Hr as (ts & s1 & Hq & Hr).
  apply frames_run in Hq; [|auto with frames]. unfold insertJob, insertEvent, insertIdempotencyKey in Hr.
  runs. unfold coreOf in *. simpl in *. rewrite <- Hq. apply rtc_once, (Submit _ _ _ _ _ now); try done.
Qed.

Lemma cancelJobTx_refines now jobID : GoTime.fourDigitYear now -> refines None (cancelJobTx now jobID).
Proof.
  intros Hy. apply refines_tx. intros s r s' Hr.
  apply bind_ok in Hr as (job & s1 & Hq & Hr). apply getJob_ok in Hq as (-> & row & Hrow & Hid & Hst & Hrev & Hsp).
  case_bool_decide; [runs; reflexivity|]. case_bool_decide; [done|].
  apply bind_ok in Hr as (n & s1 & Hq & Hr). apply query_ok in Hq as [-> ->].
  assert (Hcase : forall target kind now',
    (target = JobCanceling /\ hasLive (coreOf (db s)) jobID \/
     target = JobCanceled /\ ~ hasLive (coreOf (db s)) jobID) ->
    (cancelRow job target now ;; appendControlEvent kind (j_ID job) (PObj [("job_id", PStr (j_ID job))]) now' ;;
     mret None) s = (Ok r, s') -> rtc (step None) (coreOf (db s)) (coreOf (db s'))).
  { intros target kind now' Ht Hrun. apply bind_ok in Hrun as ([] & s1 & Hc & Hrun).
    apply frames_run in Hrun; [rewrite Hrun|frame]. unfold cancelRow in Hc. runs.
    rewrite Hid, Hrow in *. apply rtc_once. unfold coreOf; simpl.
    rewrite (alter_row _ _ _ _ Hrow). apply andb_true_iff in H2 as [_ Hin].
    apply bool_decide_eq_true in Hin. by eapply Cancel. }
  rewrite Hid in *. destruct (Nat.ltb_spec 0 (length (liveAttempts (db s) jobID))) as [Hn|Hn].
  - eapply Hcase; [left; split; [done|]|exact Hr].
    destruct (decide (hasLive (coreOf (db s)) jobID)) as [|Hno]; [done|].
    apply liveAttempts_nil in Hno. rewrite Hno in Hn. simpl in Hn. lia.
  - eapply Hcase; [right; split; [done|]|exact Hr]. apply liveAttempts_nil, nil_length_inv. lia.
Qed.

Lemma CancelJob_refines now jobID : GoTime.fourDigitYear now -> refines None (CancelJob now jobID).
Proof.
  intros Hy. apply refines_bind; [by apply cancelJobTx_refines|].
  intros [j|]; apply frames_refines; unfold GetJob; frame.
Qed.

(** *** Worker events *)

Lemma assigned_ok d aid w cur : assignedAttempt d aid w = Some cur ->
  exists a j, attempts d !! aid = Some a /\ jobs d !! at_job_id a = Some j /\ at_worker_id a = w /\
    as_state cur = at_state a /\ as_job_id cur = at_job_id a /\ as_job_state cur = jr_state j /\
    as_number cur = at_number a /\ as_spec cur = jr_spec j.
Proof.
  unfold assignedAttempt. intros Ha.
  destruct (attempts d !! aid) as [a|] eqn:Ea; [|done]. simpl in Ha.
  destruct (jobs d !! at_job_id a) as [j|] eqn:Ej; [|done]. simpl in Ha.
  case_bool_decide; [|done]. injection Ha as <-. exists a, j. done.
Qed.

(** The two updates of an event as one change of the core. *)
Lemma update_both d aid a jid j f g : attempts d !! aid = Some a -> jobs d !! jid = Some j ->
  Core (alter g jid (jobs d)) (alter f aid (attempts d)) =
  Core (<[jid := g j]> (jobs d)) (<[aid := f a]> (attempts d)).
Proof. intros Ha Hj. by rewrite (alter_row _ _ _ _ Ha), (alter_row _ _ _ _ Hj). Qed.

Lemma applyAccepted_refines d cur w event s u s' :
  assignedAttempt d (e_AttemptID event) w = Some cur -> db s = d ->
  applyAccepted cur event s = (Ok u, s') -> rtc (step (Some w)) (coreOf (db s)) (coreOf (db s')).
Proof.
  intros (a & j & Ha & Hj & <- & Hs & _)%assigned_ok <- Hr.
  unfold applyAccepted, updateAttempt in Hr. runs. apply rtc_once. unfold coreOf; simpl.
  rewrite (alter_row _ _ _ _ Ha). apply Accept; [done|congruence|done].
Qed.

Lemma applyStarted_refines d cur w event t s u s' : GoTime.fourDigitYear t ->
  assignedAttempt d (e_AttemptID event) w = Some cur -> db s = d ->
  applyStarted cur w event t s = (Ok u, s') -> rtc (step (Some w)) (coreOf (db s)) (coreOf (db s')).
Proof.
  intros Hy (a & j & Ha & Hj & <- & Hs & Hid & _)%assigned_ok <- Hr.
  unfold applyStarted, updateAttempt, updateJob in Hr.
  apply bind_ok in Hr as ([] & s1 & H1 & Hr). apply guard_ok in H1 as [Hst ->].
  apply bool_decide_eq_true in Hst.
  apply bind_ok in Hr as ([] & s1 & H1 & Hr). apply exec_ok in H1 as ->.
  apply bind_ok in Hr as ([] & s1 & H1 & Hr). apply exec_ok in H1 as ->.
  apply frames_run in Hr; [rewrite Hr|frame]. apply rtc_once. unfold coreOf; simpl.
  rewrite Hid, (update_both _ _ _ _ _ _ _ Ha Hj). apply Start; try done.
  rewrite <- Hs. rewrite !elem_of_cons, elem_of_nil in Hst. tauto.
Qed.

Lemma applyFinished_refines d cur w event t s u s' : GoTime.fourDigitYear t ->
  assignedAttempt d (e_AttemptID event) w = Some cur -> db s = d ->
  applyFinished cur w event t s = (Ok u, s') -> rtc (step (Some w)) (coreOf (db s)) (coreOf (db s')).
Proof.
  intros Hy (a & j & Ha & Hj & <- & Hs & Hid & Hjs & Hn & Hsp)%assigned_ok <- Hr.
  unfold applyFinished, updateAttempt, updateJob in Hr.
  apply bind_ok in Hr as ([] & s1 & H1 & Hr). apply guard_ok in H1 as [Hst ->].
  apply bool_decide_eq_true in Hst.
  apply bind_ok in Hr as ([] & s1 & H1 & Hr). apply guard_ok in H1 as [_ ->].
  destruct (finishStates _ _ _ _ _) as [st next] eqn:Hf.
  apply bind_ok in Hr as ([] & s1 & H1 & Hr). apply exec_ok in H1 as ->.
  apply bind_ok in Hr as ([] & s1 & H1 & Hr). apply exec_ok in H1 as ->.
  apply frames_run in Hr; [rewrite Hr|frame]. apply rtc_once. unfold coreOf; simpl.
  rewrite Hid, (update_both _ _ _ _ _ _ _ Ha Hj). eapply Finish; try done.
  - rewrite <- Hs. rewrite !elem_of_cons, elem_of_nil in Hst. tauto.
  - by rewrite <- Hjs, <- Hn, <- Hsp.
Qed.

Lemma applyWorkerEvent_refines w event t : GoTime.fourDigitYear t ->
  refinesOk (Some w) (applyWorkerEvent w event t).
Proof.
  intros Hy s u s' Hr. unfold applyWorkerEvent in Hr.
  apply bind_ok in Hr as (o & s1 & H1 & Hr). apply query_ok in H1 as [-> ->].
  apply bind_ok in Hr as (cur & s1 & H1 & Hr). apply found_ok in H1 as [Hcur ->].
  destruct (_ =? _)%string; [by eapply applyAccepted_refines|].
  destruct (_ =? _)%string; [by eapply applyStarted_refines|].
  destruct (_ =? _)%string; [by eapply applyFinished_refines|].
  assert (Hf : forall (m : Act unit), frames m -> m s = (Ok u, s') ->
    rtc (step (Some w)) (coreOf (db s)) (coreOf (db s'))).
  { intros m Hm Hrun. by rewrite (frames_run _ _ _ _ Hm Hrun). }
  destruct (_ =? _)%string; [revert Hr; apply Hf; unfold applyArtifacts; frame|].
  destruct (_ =? _)%string; [revert Hr; apply Hf; unfold applyMetric; frame|done].
Qed.

Lemma recordWorkerEvent_refines w session event t : GoTime.fourDigitYear t ->
  refinesOk (Some w) (recordWorkerEvent w session event t).
Proof.
  intros Hy. unfold recordWorkerEvent. repeat (apply refinesOk_bind;
    [apply refines_ok, frames_refines; frame|intros ?]).
  destruct (_ =? _)%nat; [apply refines_ok, frames_refines; frame|by apply applyWorkerEvent_refines].
Qed.

(** *** Offers *)

Lemma maxNumber_spec d jid :
  (forall aid a, attempts d !! aid = Some a -> at_job_id a = jid -> at_number a <= maxNumber d jid) /\
  0 <= maxNumber d jid /\
  (maxNumber d jid = 0 \/ exists aid a, attempts d !! aid = Some a /\ at_job_id a = jid /\
     at_number a = maxNumber d jid).
Proof.
  unfold maxNumber. set (l := _ <$> _). destruct (max_spec l) as (H0 & H1 & H2).
  split_and!; [|done|].
  - intros aid a Ha Hj. apply H1, list_elem_of_fmap. exists (aid, a). split; [done|].
    by apply elem_of_rowsWhere.
  - destruct H2 as [->|H2]; [by left|right].
    apply list_elem_of_fmap in H2 as ([aid a] & E & Hin). apply elem_of_rowsWhere in Hin as [? ?].
    exists aid, a. by rewrite E.
Qed.

(** An offer adds one attempt of the job. *)
Lemma offerAttempt_ok w now jid s u s' : offerAttempt w now jid s = (Ok u, s') ->
  exists aid a, coreOf (db s') = Core (jobs (db s)) (<[aid := a]> (attempts (db s))) /\
    attempts (db s) !! aid = None /\ at_job_id a = jid /\ at_worker_id a = w /\
    at_state a = AttemptOffered /\ at_number a = maxNumber (db s) jid + 1 /\ at_number a < 2 ^ 32 /\
    attemptUnique (db s) a.
Proof.
  unfold offerAttempt, nextAttemptNumber, insertAttempt. intros Hr.
  apply bind_ok in Hr as (aid & s1 & H1 & Hr). apply newID_ok in H1 as [_ ->].
  apply bind_ok in Hr as (cid & s1 & H1 & Hr). apply newID_ok in H1 as [_ ->].
  apply bind_ok in Hr as (n & s1 & H1 & Hr). runs. subst n.
  apply frames_run in Hr; [rewrite Hr|frame].
  match goal with H : attempts _ !! _ = None /\ _ |- _ => destruct H as (Hn & Hu & _) end.
  eexists aid, _. split; [reflexivity|]. simpl. split_and!; try done. by apply Z.ltb_lt.
Qed.

Lemma offer_step s w now jid u s' j : offerAttempt w now jid s = (Ok u, s') ->
  jobs (db s) !! jid = Some j -> jr_state j = JobQueued -> ~ hasLive (coreOf (db s)) jid ->
  step (Some w) (coreOf (db s)) (coreOf (db s')).
Proof.
  intros Hr Hj Hq Hn. apply offerAttempt_ok in Hr as (aid & a & -> & Ha & <- & <- & Hst & Hnum & _ & Hu).
  destruct (maxNumber_spec (db s) (at_job_id a)) as (H1 & H2 & H3).
  apply (Offer _ _ _ aid a j); try done; [lia| | |].
  - intros aid' a' Ha' E. by destruct (Hu aid' a' Ha').
  - intros aid' a' Ha' E. specialize (H1 aid' a' Ha' E). lia.
  - destruct H3 as [H3|(aid' & a' & Ha' & E & Hmax)]; [left; lia|right]. exists aid', a'.
    split_and!; [done|done|lia].
Qed.

(** The jobs of the queue are queued, distinct and without a live attempt. *)
Definition queueReady (d : DB) (queue : list Job) : Prop :=
  NoDup (j_ID <$> queue) /\ Forall (λ job, exists j, jobs d !! j_ID job = Some j /\
    jr_state j = JobQueued /\ j_Spec job = jr_spec j /\ ~ hasLive (coreOf d) (j_ID job)) queue.

Lemma queueReady_tail d job rest : queueReady d (job :: rest) -> queueReady d rest.
Proof. intros [H1 H2]. inversion H1. inversion H2. by split. Qed.

Lemma offer_queueReady w now job rest s u s' : offerAttempt w now (j_ID job) s = (Ok u, s') ->
  queueReady (db s) (job :: rest) -> queueReady (db s') rest.
Proof.
  intros Hr [Hnd Hall]. apply offerAttempt_ok in Hr as (aid & a & Hc & Ha & Hjob & _).
  rewrite fmap_cons, NoDup_cons in Hnd. destruct Hnd as [Hnew Hnd]. split; [done|].
  apply Forall_cons in Hall as [_ Hall]. injection Hc as HJ HA.
  apply Forall_forall. intros x Hx. rewrite Forall_forall in Hall.
  destruct (Hall x Hx) as (j & Hj & Hst & Hsp & Hnl). exists j. rewrite HJ. split_and!; try done.
  intros (aid' & b & Hb). apply Hnl. unfold coreOf in Hb. rewrite HJ, HA in Hb.
  exists aid', b. eapply LifecycleTheory.isLive_insert_ne; [|exact Hb]. intros <-.
  apply LifecycleTheory.isLive_insert_eq in Hb as (-> & Hb & _). apply Hnew.
  apply list_elem_of_fmap. exists x. split; [congruence|done].
Qed.

Lemma offerLoop_refines w now cap al queue s u s' : queueReady (db s) queue ->
  offerLoop w now cap al queue s = (Ok u, s') -> rtc (step (Some w)) (coreOf (db s)) (coreOf (db s')).
Proof.
  revert al s. induction queue as [|job rest IH]; intros al s Hq Hr; simpl in Hr.
  { runs. reflexivity. }
  destruct (_ <=? _); [runs; reflexivity|]. destruct (negb _).
  { apply (IH al); [by eapply queueReady_tail|done]. }
  apply bind_ok in Hr as ([] & s1 & H1 & Hr).
  assert (Hq' := offer_queueReady _ _ _ _ _ _ _ H1 Hq).
  destruct Hq as [_ Hq]. apply Forall_cons in Hq as [(j & Hj & Hst & _ & Hnl) _].
  eapply rtc_l; [by eapply offer_step|]. by eapply IH.
Qed.

Lemma scanJobs_ok rows s queue s' : scanJobs rows s = (Ok queue, s') ->
  s' = s /\ Forall2 (λ row job, j_ID job = row.1 /\ j_State job = jr_state row.2 /\
    j_Spec job = jr_spec row.2) rows queue.
Proof.
  unfold scanJobs. apply collect_ok. intros row s1 job s2 Hr.
  apply scanJob_ok in Hr as (-> & H1 & H2 & _ & H3). done.
Qed.

Lemma Forall2_ids rows queue : Forall2 (λ row job, j_ID job = row.1 /\ j_State job = jr_state row.2 /\
    j_Spec job = jr_spec row.2) rows queue -> j_ID <$> queue = rows.*1.
Proof. induction 1 as [|?? ?? (? & _) ? IH]; [done|]. rewrite !fmap_cons. congruence. Qed.

Lemma schedulable_row d id j : (id, j) ∈ schedulableJobs d ->
  jobs d !! id = Some j /\ jr_state j = JobQueued /\ ~ hasLive (coreOf d) id.
Proof.
  unfold schedulableJobs. intros Hin.
  assert (Hin' : (id, j) ∈ rowsWhere (schedulable d) (jobs d)).
  { rewrite <- (orderBy_Permutation queueOrder). apply list_elem_of_lookup in Hin as [i Hi]. apply lookup_take_Some in Hi as [Hi _].
    by eapply list_elem_of_lookup_2. }
  apply elem_of_rowsWhere in Hin' as [[Hq Hl] Hj]. split_and!; [done|done|].
  by apply liveAttempts_nil.
Qed.

Lemma schedulable_NoDup d : NoDup (schedulableJobs d).*1.
Proof.
  unfold schedulableJobs. rewrite fmap_take. apply (sublist_NoDup _ (orderBy queueOrder
    (rowsWhere (schedulable d) (jobs d))).*1); [|apply sublist_take].
  rewrite (orderBy_Permutation queueOrder). apply NoDup_rowsWhere.
Qed.

Lemma scanJobs_ready s queue s' : scanJobs (schedulableJobs (db s)) s = (Ok queue, s') ->
  s' = s /\ queueReady (db s) queue.
Proof.
  intros Hr. apply scanJobs_ok in Hr as [-> Hall]. split; [done|]. split.
  - rewrite (Forall2_ids _ _ Hall). apply schedulable_NoDup.
  - apply Forall_forall. intros job Hin. apply list_elem_of_lookup in Hin as [i Hi].
    destruct (Forall2_lookup_r _ _ _ _ _ Hall Hi) as ([id j] & Hrow & H1 & H2 & H3). simpl in *.
    destruct (schedulable_row (db s) id j) as (Hj & Hq & Hn); [by eapply list_elem_of_lookup_2|].
    exists j. by rewrite H1.
Qed.

Lemma offerJobs_refines w cap now : refinesOk (Some w) (offerJobs w cap now).
Proof.
  intros s u s' Hr. unfold offerJobs in Hr.
  apply bind_ok in Hr as (al & s1 & H1 & Hr). apply query_ok in H1 as [-> ->].
  destruct (_ <=? _); [runs; reflexivity|].
  apply bind_ok in Hr as (rows & s1 & H1 & Hr). apply query_ok in H1 as [-> ->].
  apply bind_ok in Hr as (queue & s1 & H1 & Hr). apply scanJobs_ready in H1 as [-> Hq].
  by eapply offerLoop_refines.
Qed.

Lemma SyncWorker_refines now w request : GoTime.fourDigitYear now ->
  refines (Some w) (SyncWorker now w request).
Proof.
  intros Hy. unfold SyncWorker. apply refines_tx.
  do 3 (apply refinesOk_bind; [apply refines_ok, frames_refines; frame|intros ?]).
  apply refinesOk_bind; [apply refinesOk_mfor; intros x; exact (recordWorkerEvent_refines _ _ _ _ Hy)|intros _].
  apply refinesOk_bind; [apply offerJobs_refines|intros _].
  apply refines_ok, frames_refines. frame.
Qed.

End refinement.
End Refinement.

(** ** The control plane as a whole *)

(** The calls that reach the store, with the time of each. *)
Inductive Call :=
  | CallCreateJob (key : string) (spec : JobSpec)
  | CallCancelJob (jobID : string)
  | CallGetJob (jobID : string)
  | CallListJobs (limit : Z)
  | CallCreateWorker (name rawToken : string) (labels : gmap string string)
  | CallAuthenticateWorkerToken (rawToken : string)
  | CallSyncWorker (workerID : string) (request : WorkerSyncRequest)
  | CallListWorkers (offlineAfter : Z)
  | CallCreateWebhookTarget (name rawURL secret : string)
  | CallEvaluateHealthPolicies
  | CallDueWebhookDeliveries (limit : Z)
  | CallRecordWebhookResult (deliveryID : string) (responseCode : Z) (deliveryError : string)
  | CallCreateAPIToken (name rawToken : string)
  | CallAuthenticateAPIToken (rawToken : string)
  | CallCreateBrowserSession (tokenID rawSession : string) (expiresAt : time)
  | CallAuthenticateBrowserSession (rawSession : string)
  | CallDeleteBrowserSession (rawSession : string).

(** The integers of a decoded request are in the range of their Go types, and
    the expiry the server gives a session is in the years 0 to 9999. *)
Definition callTyped (c : Call) : Prop :=
  match c with
  | CallCreateJob _ spec => SpecTyped spec
  | CallCreateBrowserSession _ _ expiresAt => GoTime.fourDigitYear expiresAt
  | _ => True
  end.

Definition callWorker (c : Call) : option string :=
  match c with CallSyncWorker w _ => Some w | _ => None end.

(** A call that neither submits a job nor syncs a worker. *)
Definition plainCall (c : Call) : Prop :=
  match c with CallCreateJob _ _ | CallSyncWorker _ _ => False | _ => True end.

Section control.
Context `{Env}.

Definition ignore {A} (m : Act A) : Act unit := m ;; mret tt.

Definition perform (now : time) (c : Call) : Act unit :=
  match c with
  | CallCreateJob key spec => ignore (CreateJob now key spec)
  | CallCancelJob jobID => ignore (CancelJob now jobID)
  | CallGetJob jobID => ignore (GetJob jobID)
  | CallListJobs limit => ignore (ListJobs limit)
  | CallCreateWorker name token labels => ignore (CreateWorker now name token labels)
  | CallAuthenticateWorkerToken token => ignore (AuthenticateWorkerToken now token)
  | CallSyncWorker w request => ignore (SyncWorker now w request)
  | CallListWorkers offlineAfter => ignore (ListWorkers now offlineAfter)
  | CallCreateWebhookTarget name url secret => ignore (CreateWebhookTarget now name url secret)
  | CallEvaluateHealthPolicies => ignore (EvaluateHealthPolicies now)
  | CallDueWebhookDeliveries limit => ignore (DueWebhookDeliveries now limit)
  | CallRecordWebhookResult d code err => ignore (RecordWebhookResult now d code err)
  | CallCreateAPIToken name token => ignore (CreateAPIToken now name token)
  | CallAuthenticateAPIToken token => ignore (AuthenticateAPIToken now token)
  | CallCreateBrowserSession id session expiry => ignore (CreateBrowserSession now id session expiry)
  | CallAuthenticateBrowserSession session => ignore (AuthenticateBrowserSession now session)
  | CallDeleteBrowserSession session => ignore (DeleteBrowserSession session)
  end.

(** One call, at any time of the years 0 to 9999 and with any outcome. *)
Inductive callStep : St -> St -> Prop :=
  | call_step s now c : GoTime.fourDigitYear now -> callTyped c -> callStep s (perform now c s).2.

(** One call out of some, at any time and with any outcome. *)
Inductive allowedStep (allowed : Call -> Prop) : St -> St -> Prop :=
  | allowed_step s now c : GoTime.fourDigitYear now -> callTyped c -> allowed c ->
      allowedStep allowed s (perform now c s).2.

Lemma allowedStep_call allowed s s' : allowedStep allowed s s' -> callStep s s'.
Proof. intros [s1 now c Hy Ht _]. by apply call_step. Qed.
Lemma allowed_calls allowed s s' : rtc (allowedStep allowed) s s' -> rtc callStep s s'.
Proof. apply rtc_subrel. intros x y. apply allowedStep_call. Qed.
Lemma allowed_weaken (P Q : Call -> Prop) s s' : (forall c, P c -> Q c) ->
  rtc (allowedStep P) s s' -> rtc (allowedStep Q) s s'.
Proof. intros Hpq. apply rtc_subrel. intros x y [s1 now c Hy Ht Hc]. apply allowed_step; auto. Qed.

Definition initial : St := {| db := emptyDB; draws := 0 |}.

Definition reachable (s : St) : Prop := rtc callStep initial s.
End control.

Module ControlSafety.
Section safety.
Context `{Env}.

Lemma refines_ignore {A} w (m : Act A) : refines w m -> refines w (ignore m).
Proof. intros Hm. apply refines_bind; [done|]. intros _. apply frames_refines. frame. Qed.

(** Every call is a run of the lifecycle rules. *)
Lemma perform_refines now c : GoTime.fourDigitYear now -> callTyped c -> refines (callWorker c) (perform now c).
Proof.
  intros Hy Ht. destruct c; simpl in *; apply refines_ignore;
    [by apply Refinement.CreateJob_refines|by apply Refinement.CancelJob_refines| | | |
     |by apply Refinement.SyncWorker_refines|..]; apply frames_refines.
  - unfold GetJob. frame.
  - apply frames_ListJobs.
  - apply frames_CreateWorker.
  - apply frames_AuthenticateWorkerToken.
  - unfold ListWorkers, scanWorker. frame.
  - apply frames_CreateWebhookTarget.
  - apply frames_EvaluateHealthPolicies.
  - unfold DueWebhookDeliveries. frame.
  - apply frames_RecordWebhookResult.
  - unfold CreateAPIToken, insertToken. frame.
  - unfold AuthenticateAPIToken. frame.
  - unfold CreateBrowserSession, insertSession. frame.
  - unfold AuthenticateBrowserSession, parsed. frame.
  - unfold DeleteBrowserSession. frame.
Qed.

Lemma perform_inv now c s : GoTime.fourDigitYear now -> callTyped c -> Inv (coreOf (db s)) -> Inv (coreOf (db (perform now c s).2)).
Proof.
  intros Hy Ht. eapply LifecycleTheory.steps_inv, perform_refines, Ht. done.
Qed.

(** What every call keeps holds after any calls. *)
Lemma calls_ind (P : St -> Prop) s1 s2 :
  (forall s now c, GoTime.fourDigitYear now -> callTyped c -> P s -> P (perform now c s).2) ->
  rtc callStep s1 s2 -> P s1 -> P s2.
Proof. intros HP. induction 1 as [|x y z [] _ IH]; auto. Qed.

Lemma reachable_inv s : reachable s -> Inv (coreOf (db s)).
Proof.
  intros Hr. eapply (calls_ind (λ s, Inv (coreOf (db s)))); [|exact Hr|apply LifecycleTheory.inv_empty].
  intros s1 now c Hy Ht. by apply perform_inv.
Qed.
End safety.
End ControlSafety.
