(* ===== verification/Agent.v ===== *)
(** * The agent and its exchange with the control plane (internal/worker/agent.go)

    The configuration checks, the request one cycle sends, what the agent does
    with the response, and the system of one agent and the control plane. *)

From S2P Require Import Prelude Utf8 Times GoLib Ids Domain Validate Database Jobs Health Events.
From S2P Require Import Lifecycle Auth Scheduler Sync WorkerStore WorkerLog Control.

(** ** Configuration *)

Record AgentConfig := {
  cf_ServerURL : string; cf_WorkerID : string; cf_Token : string; cf_Version : string;
  cf_ArtifactRoot : string; cf_Projects : gmap string string; cf_Capacity : WorkerCapacity;
}.

Inductive AgentError :=
  | AErrURL | AErrCredentials | AErrArtifactRoot | AErrNoProjects
  | AErrProjectPath | AErrProjectDirectory.

(** slices.Sorted(maps.Keys(projects)) *)
Definition projectNames (projects : gmap string string) : list string :=
  merge_sort (λ x y, Text.leb x y = true) (map_to_list projects).*1.

Definition withProjects (c : WorkerCapacity) (projects : list string) : WorkerCapacity :=
  {| c_CPU := c_CPU c; c_MemoryBytes := c_MemoryBytes c; c_GPUCount := c_GPUCount c;
     c_GPUSharedSlots := c_GPUSharedSlots c;
     c_MaxParallel := if c_MaxParallel c =? 0 then 1 else c_MaxParallel c;
     c_Labels := c_Labels c; c_Projects := projects |}.

(** filepath.IsAbs *)
Definition isAbs (path : string) : bool := HasPrefix path "/".

Section config.
Context (parseURL : string -> option URL) (isDirectory : string -> bool).

(** The checks of New in its order. Go visits the projects in a random order and
    reports the first failing one it meets; here it is the first of the map's. *)
Definition checkProject (np : string * string) : option AgentError :=
  if (np.1 =? "")%string || negb (isAbs np.2) then Some AErrProjectPath
  else if negb (isDirectory np.2) then Some AErrProjectDirectory
  else None.

Definition checkConfig (config : AgentConfig) : result AgentError AgentConfig :=
  match parseURL (cf_ServerURL config) with
  | None => Err AErrURL
  | Some parsed =>
      if (u_Host parsed =? "")%string ||
         (negb (u_Scheme parsed =? "https")%string && negb (u_Hostname parsed =? "127.0.0.1")%string &&
          negb (u_Hostname parsed =? "localhost")%string)
      then Err AErrURL
      else if (cf_WorkerID config =? "")%string || (len (cf_Token config) <? 32) then Err AErrCredentials
      else if (cf_ArtifactRoot config =? "")%string then Err AErrArtifactRoot
      else if bool_decide (cf_Projects config = ∅) then Err AErrNoProjects
      else match omap checkProject (map_to_list (cf_Projects config)) with
      | e :: _ => Err e
      | [] => Ok {|
          cf_ServerURL := TrimRightChar "/" (cf_ServerURL config); cf_WorkerID := cf_WorkerID config;
          cf_Token := cf_Token config; cf_Version := cf_Version config;
          cf_ArtifactRoot := cf_ArtifactRoot config; cf_Projects := cf_Projects config;
          cf_Capacity := withProjects (cf_Capacity config) (projectNames (cf_Projects config)) |}
      end
  end.
End config.

(** ** One exchange *)

Definition syncRequest (config : AgentConfig) (sessionID : string) (events : list WorkerEvent)
    : WorkerSyncRequest :=
  {| q_WorkerID := cf_WorkerID config; q_SessionID := sessionID; q_AgentVersion := cf_Version config;
     q_Capacity := cf_Capacity config; q_Events := events |}.

(** The pause before the next cycle. *)
Definition nextDelay (seconds : Z) : Z :=
  let delay := i64 (seconds * GoTime.Second) in
  if (delay <? GoTime.Second) || (GoTime.Minute <? delay) then 5 * GoTime.Second else delay.

Section exchange.
Context `{WorkerEnv}.

Definition cycleRequest (config : AgentConfig) (sessionID : string) : WAct WorkerSyncRequest :=
  events ← WorkerEvents 1000;
  mret (syncRequest config sessionID events).

(** Commands are persisted before the events are acknowledged. *)
Definition receiveResponse (clock : nat -> time) (response : WorkerSyncResponse) : WAct unit :=
  AcceptCommands clock (p_Commands response) ;;
  Acknowledge (p_AcceptedThrough response).
End exchange.

(** ** One agent and the control plane *)

Record Sys := { y_server : St; y_worker : WSt; y_session : string }.

Section system.
Context `{Env} `{WorkerEnv} (config : AgentConfig).

(** The requests the agent makes of its store outside of an exchange. *)
Definition localCall (c : WorkerCall) : Prop :=
  match c with WCallAccept _ _ | WCallAcknowledge _ => False | _ => True end.

(** The control plane serves others; the agent works on its own; the two
    exchange, with the request or the response possibly lost; and the agent
    restarts under a session the control plane has not seen. *)
Inductive sysStep : Sys -> Sys -> Prop :=
  | sys_server y now c : GoTime.fourDigitYear now -> callTyped c ->
      callWorker c <> Some (cf_WorkerID config) ->
      sysStep y {| y_server := (perform now c (y_server y)).2; y_worker := y_worker y;
                   y_session := y_session y |}
  | sys_local y c : localCall c ->
      sysStep y {| y_server := y_server y; y_worker := (workerPerform c (y_worker y)).2;
                   y_session := y_session y |}
  | sys_response_lost y now request : GoTime.fourDigitYear now ->
      (cycleRequest config (y_session y) (y_worker y)).1 = Ok request ->
      sysStep y {| y_server := (SyncWorker now (cf_WorkerID config) request (y_server y)).2;
                   y_worker := y_worker y; y_session := y_session y |}
  | sys_exchange y now clock request response : GoTime.fourDigitYear now ->
      (cycleRequest config (y_session y) (y_worker y)).1 = Ok request ->
      (SyncWorker now (cf_WorkerID config) request (y_server y)).1 = Ok response ->
      sysStep y {| y_server := (SyncWorker now (cf_WorkerID config) request (y_server y)).2;
                   y_worker := (receiveResponse clock response (y_worker y)).2; y_session := y_session y |}
  | sys_restart y session :
      Forall (λ r, we_worker_id r = cf_WorkerID config -> we_session_id r <> session)
        (worker_events (db (y_server y))) ->
      sysStep y {| y_server := y_server y; y_worker := y_worker y; y_session := session |}.

Definition sysInitial (session : string) : Sys :=
  {| y_server := initial; y_worker := workerInitial; y_session := session |}.
End system.
