(* ===== verification/Paths.v ===== *)
(** * Slash-separated paths (path/filepath on Unix)

    filepath.Clean, Join and Rel as the worker uses them, and where a path made
    by Join can point: below its first element, as long as the others are plain
    names. *)

From S2P Require Import Prelude GoLib.

(** strings.Split around a one-byte separator. *)
Fixpoint Split (s : string) (sep : ascii) : list string :=
  match s with
  | "" => [""]
  | String c rest =>
      if decide (c = sep) then "" :: Split rest sep
      else match Split rest sep with
           | segment :: segments => String c segment :: segments
           | [] => []
           end
  end.

(** strings.Join *)
Fixpoint JoinStrings (sep : string) (parts : list string) : string :=
  match parts with
  | [] => ""
  | [part] => part
  | part :: rest => part +:+ sep +:+ JoinStrings sep rest
  end.

Definition slash : ascii := "/".

Module Filepath.

(** One element of a path; [out] holds the cleaned elements, the last first. *)
Definition cleanStep (rooted : bool) (out : list string) (segment : string) : list string :=
  if (segment =? "")%string || (segment =? ".")%string then out
  else if (segment =? "..")%string then
    match out with
    | top :: rest => if (top =? "..")%string then segment :: out else rest
    | [] => if rooted then [] else [segment]
    end
  else segment :: out.

Definition rooted (path : string) : bool := HasPrefix path "/".

(** The elements of the cleaned path. *)
Definition elements (path : string) : list string :=
  reverse (foldl (cleanStep (rooted path)) [] (Split path slash)).

Definition Clean (path : string) : string :=
  match rooted path, elements path with
  | true, es => "/" +:+ JoinStrings "/" es
  | false, [] => "."
  | false, es => JoinStrings "/" es
  end.

(** filepath.Join: empty leading elements are skipped. *)
Fixpoint Join (parts : list string) : string :=
  match parts with
  | [] => ""
  | part :: rest => if (part =? "")%string then Join rest else Clean (JoinStrings "/" parts)
  end.

(** The rest of two lists behind their longest common prefix. *)
Fixpoint stripCommon (xs ys : list string) : list string * list string :=
  match xs, ys with
  | x :: xs', y :: ys' => if (x =? y)%string then stripCommon xs' ys' else (xs, ys)
  | _, _ => (xs, ys)
  end.

Definition Rel (base target : string) : option string :=
  if (Clean target =? Clean base)%string then Some "."
  else if negb (Bool.eqb (rooted base) (rooted target)) then None
  else
    let targets := match rooted target, elements target with false, [] => ["."] | _, es => es end in
    let '(up, down) := stripCommon (elements base) targets in
    if bool_decide (head up = Some "..") then None
    else Some (JoinStrings "/" (replicate (length up) ".." ++ down)).

Definition Dir (path : string) : string :=
  Clean (match reverse (Split path slash) with
         | _ :: rest => match rest with [] => "" | _ => JoinStrings "/" (reverse rest) +:+ "/" end
         | [] => ""
         end).

End Filepath.

Example Clean_ex : Filepath.Clean "/a/./b//../c/" = "/a/c" /\ Filepath.Clean "../../a/.." = "../.." /\
  Filepath.Clean "" = "." /\ Filepath.Clean "/../a" = "/a".
Proof. by vm_compute. Qed.
Example Join_ex : Filepath.Join ["root"; "p"; "j"; "1"; "out"; "sub/f.txt"] = "root/p/j/1/out/sub/f.txt".
Proof. by vm_compute. Qed.
Example Rel_ex : Filepath.Rel "/a/b" "/a/b/c/d" = Some "c/d" /\ Filepath.Rel "/a/b" "/a/c" = Some "../c" /\
  Filepath.Rel "/a/b" "/a/b" = Some "." /\ Filepath.Rel "a" "/b" = None /\ Filepath.Rel "/" "/x" = Some "x".
Proof. by vm_compute. Qed.
Example Dir_ex : Filepath.Dir "/a/b/run-status.json" = "/a/b" /\ Filepath.Dir "x" = "." /\ Filepath.Dir "/x" = "/".
Proof. by vm_compute. Qed.

(** ** Where joined paths point *)

Module PathTheory.
Import Filepath.

(** A name that cannot leave its directory. *)
Definition plain (s : string) : Prop := s <> "" /\ s <> "." /\ s <> ".." /\ ~ In slash (chars s).

#[global] Instance In_ascii_dec (x : ascii) l : Decision (In x l) := in_dec ascii_dec x l.
#[global] Instance plain_dec s : Decision (plain s).
Proof. unfold plain. apply _. Defined.

Lemma Split_nonempty s sep : Split s sep <> [].
Proof. induction s as [|c s IH]; simpl; [done|]. destruct (decide _); [done|]. by destruct (Split s sep). Qed.

Lemma Split_app a b sep : Split (a +:+ String sep b) sep = Split a sep ++ Split b sep.
Proof.
  induction a as [|c a IH].
  - change ("" +:+ String sep b) with (String sep b). simpl. by rewrite decide_True.
  - rewrite string_app_cons. simpl. destruct (decide (c = sep)); [by rewrite IH|].
    rewrite IH. pose proof (Split_nonempty a sep). by destruct (Split a sep).
Qed.

Lemma Split_single s sep : ~ In sep (chars s) -> Split s sep = [s].
Proof.
  induction s as [|c s IH]; [done|]. simpl. intros Hn. rewrite decide_False by (intros ->; tauto).
  rewrite IH by tauto. done.
Qed.

Lemma Split_join parts : parts <> [] -> Forall (λ s, ~ In slash (chars s)) parts ->
  Split (JoinStrings "/" parts) slash = parts.
Proof.
  induction parts as [|x parts IH]; [done|]. intros _ Hall. apply Forall_cons in Hall as [Hx Hall].
  destruct parts as [|y parts]; [by apply Split_single|].
  change (JoinStrings "/" (x :: y :: parts)) with (x +:+ "/" +:+ JoinStrings "/" (y :: parts)).
  change ("/" +:+ JoinStrings "/" (y :: parts)) with (String slash (JoinStrings "/" (y :: parts))).
  rewrite Split_app, Split_single by done. rewrite IH; done.
Qed.

(** The elements a cleaned path can have. *)
Definition cleaned (r : bool) (out : list string) : Prop :=
  Forall (λ s, s <> "" /\ s <> "." /\ ~ In slash (chars s) /\ (r = true -> s <> "..")) out.

Lemma Split_parts s sep : Forall (λ p, ~ In sep (chars p)) (Split s sep).
Proof.
  induction s as [|c s IH]; simpl; [constructor; [tauto|constructor]|]. destruct (decide (c = sep)); [by constructor; [tauto|]|].
  destruct (Split s sep) as [|p ps]; [done|]. apply Forall_cons in IH as [Hp IH]. constructor; [|done].
  simpl. intros [->|?]; tauto.
Qed.

Lemma cleanStep_cleaned r out s : ~ In slash (chars s) -> cleaned r out -> cleaned r (cleanStep r out s).
Proof.
  intros Hs Ho. unfold cleanStep. destruct (String.eqb_spec s ""), (String.eqb_spec s "."); try done. simpl.
  destruct (String.eqb_spec s "..") as [->|]; [|by constructor].
  destruct out as [|top rest]; [destruct r; [done|]; constructor; [|done]; by split_and!|].
  destruct (String.eqb_spec top "..") as [->|]; [|by apply Forall_cons in Ho as [_ ?]].
  constructor; [|done]. split_and!; try done. intros ->. apply Forall_cons in Ho as [(_ & _ & _ & Hn) _]. by apply Hn.
Qed.

Lemma foldl_cleaned r segments out : Forall (λ p, ~ In slash (chars p)) segments -> cleaned r out ->
  cleaned r (foldl (cleanStep r) out segments).
Proof.
  revert out. induction segments as [|s segments IH]; intros out Hs Ho; [done|].
  apply Forall_cons in Hs as [Hs Hss]. simpl. apply IH; [done|]. by apply cleanStep_cleaned.
Qed.

Lemma elements_cleaned path : cleaned (rooted path) (elements path).
Proof.
  unfold elements, cleaned. apply Forall_reverse. apply foldl_cleaned; [apply Split_parts|constructor].
Qed.

(** Names are pushed as they are, but for the dot. *)
Definition undotted (names : list string) : list string := filter (λ s, s <> ".") names.

Lemma foldl_plain r out names : Forall (λ s, s <> "" /\ s <> "..") names ->
  foldl (cleanStep r) out names = reverse (undotted names) ++ out.
Proof.
  unfold undotted. revert out. induction names as [|s names IH]; intros out Hs; [done|].
  apply Forall_cons in Hs as [(H1 & H3) Hs]. rewrite filter_cons. cbn [foldl]. rewrite IH by done.
  unfold cleanStep. apply String.eqb_neq in H1, H3. rewrite H1, H3.
  destruct (String.eqb_spec s "."); [by rewrite decide_False by tauto|].
  rewrite decide_True by done. simpl. by rewrite reverse_cons, <- app_assoc.
Qed.

Lemma undotted_plain names : Forall plain names -> undotted names = names.
Proof.
  unfold undotted. induction 1 as [|n names (_ & Hn & _) _ IH]; [done|]. by rewrite filter_cons_True, IH.
Qed.

Lemma rooted_app a b : a <> "" -> rooted (a +:+ b) = rooted a.
Proof.
  destruct a as [|c a]; [done|]. intros _. rewrite string_app_cons. unfold rooted, HasPrefix. apply bool_decide_ext.
  simpl. destruct (decide _); [split; by eexists|split; by intros []].
Qed.

Lemma Join_split root names : root <> "" -> names <> [] ->
  Split (JoinStrings "/" (root :: names)) slash = Split root slash ++ (names ≫= λ n, Split n slash).
Proof.
  intros _. revert root. induction names as [|n names IH]; intros root Hn; [done|].
  change (JoinStrings "/" (root :: n :: names)) with (root +:+ String slash (JoinStrings "/" (n :: names))).
  rewrite Split_app. f_equal. rewrite bind_cons. destruct names as [|m names]; [by rewrite app_nil_r|].
  by rewrite IH.
Qed.

Lemma Split_plains names : Forall plain names -> (names ≫= λ n, Split n slash) = names.
Proof.
  induction 1 as [|n names (_ & _ & _ & Hn) _ IH]; [done|]. rewrite bind_cons, IH. by rewrite Split_single.
Qed.

(** A path joined from a root and names without double dots is the root's
    elements followed by the names. *)
Lemma elements_join root names : root <> "" -> names <> [] ->
  Forall (λ s, s <> "" /\ s <> "..") (names ≫= λ n, Split n slash) ->
  elements (JoinStrings "/" (root :: names)) = elements root ++ undotted (names ≫= λ n, Split n slash) /\
  rooted (JoinStrings "/" (root :: names)) = rooted root.
Proof.
  intros Hr Hn Hp. assert (E : rooted (JoinStrings "/" (root :: names)) = rooted root).
  { destruct names as [|n names]; [done|].
    change (JoinStrings "/" (root :: n :: names)) with (root +:+ String slash (JoinStrings "/" (n :: names))).
    by apply rooted_app. }
  split; [|done]. unfold elements. rewrite E, Join_split, foldl_app, foldl_plain by done.
  by rewrite reverse_app, reverse_involutive.
Qed.

(** The path that is the root of some elements. *)
Definition pathOf (r : bool) (es : list string) : string :=
  (if r then "/" else "") +:+ JoinStrings "/" es.

Lemma Join_below root name names : root <> "" -> plain name ->
  Forall (λ s, s <> "" /\ s <> "..") (names ≫= λ n, Split n slash) ->
  Join (root :: name :: names) =
    pathOf (rooted root) (elements root ++ name :: undotted (names ≫= λ n, Split n slash)).
Proof.
  intros Hr Hn Hp. pose proof Hn as (N1 & N2 & N3 & N4).
  assert (E : (name :: names) ≫= (λ n, Split n slash) = name :: (names ≫= λ n, Split n slash))
    by (rewrite bind_cons; by rewrite Split_single).
  destruct (elements_join root (name :: names) Hr ltac:(done)) as [E1 E2]; [rewrite E; by constructor|].
  rewrite E in E1. unfold undotted in E1. rewrite filter_cons_True in E1 by done. fold (undotted (names ≫= λ n, Split n slash)) in E1.
  unfold Join. apply String.eqb_neq in Hr as Hr'. rewrite Hr'. unfold Clean. rewrite E1, E2. unfold pathOf.
  destruct (rooted root); [done|]. by destruct (elements root).
Qed.

Lemma stripCommon_suffix xs ys up down : stripCommon xs ys = (up, down) -> down `suffix_of` ys.
Proof.
  revert ys. induction xs as [|x xs IH]; intros [|y ys]; simpl; try (by intros [= <- <-]).
  destruct (x =? y)%string; [|by intros [= <- <-]]. intros Hs. apply suffix_cons_r. by eapply IH.
Qed.

Lemma stripCommon_all xs ys down : stripCommon xs ys = ([], down) -> ys = xs ++ down.
Proof.
  revert ys. induction xs as [|x xs IH]; intros [|y ys]; simpl; try (by intros [= <-]).
  destruct (String.eqb_spec x y) as [->|]; [|done]. intros Hs. by rewrite (IH _ Hs).
Qed.

(** The elements of a rooted path are its cleaned text. *)
Lemma elements_Clean base target : rooted base = true -> rooted target = true -> Clean target = Clean base ->
  elements target = elements base.
Proof.
  intros Hb Ht. unfold Clean. rewrite Hb, Ht. intros E. apply (inj (String.app "/")) in E.
  pose proof (elements_cleaned base) as H1. pose proof (elements_cleaned target) as H2. unfold cleaned in H1, H2.
  assert (Hs : forall es, Forall (λ s, s <> "" /\ s <> "." /\ ~ In slash (chars s) /\ (true = true -> s <> "..")) es ->
    (es = [] \/ JoinStrings "/" es <> "") /\ (es <> [] -> Split (JoinStrings "/" es) slash = es)).
  { intros es Hes. split.
    - destruct es as [|[|c s] [|s2 es]]; [by left|..]; apply Forall_cons in Hes as [(? & _) _]; try done; by right.
    - intros Hne. apply Split_join; [done|]. eapply Forall_impl; [exact Hes|]. by intros s (_ & _ & ? & _). }
  rewrite Hb in H1. rewrite Ht in H2. destruct (Hs _ H1) as [[E1|E1] S1], (Hs _ H2) as [[E2|E2] S2].
  - congruence.
  - rewrite E1 in E. by destruct E2.
  - rewrite E2 in E. by destruct E1.
  - rewrite <- S1, <- S2, E; [done|intros E3; by rewrite E3 in E2|intros E3; by rewrite E3 in E1].
Qed.

(** A relative path that does not start with two dots leads below its base. *)
Lemma Rel_below base target relative : rooted base = true -> Rel base target = Some relative ->
  HasPrefix relative ".." = false ->
  exists rest, Forall plain rest /\ rooted target = true /\ elements target = elements base ++ rest /\
    ((relative = "." /\ rest = []) \/ (rest <> [] /\ relative = JoinStrings "/" rest)).
Proof.
  intros Hb Hr Hp. unfold Rel in Hr. destruct (_ =? _)%string eqn:Ec.
  { injection Hr as <-. apply String.eqb_eq in Ec. exists []. rewrite app_nil_r. 
    assert (Ht : rooted target = true).
    { destruct (rooted target) eqn:Et; [done|]. exfalso. unfold Clean in Ec. rewrite Hb, Et in Ec.
      pose proof (elements_cleaned target) as Hc. rewrite Et in Hc. unfold cleaned in Hc.
      destruct (elements target) as [|[|c s] es]; [done|apply Forall_cons in Hc as [(? & _) _]; done|].
      apply Forall_cons in Hc as [(_ & _ & Hs & _) _]. assert (Hc : c = slash) by (destruct es; by injection Ec).
      subst c. apply Hs. by left. }
    split_and!; [constructor|done|by apply elements_Clean|by left]. }
  rewrite Hb in Hr. destruct (rooted target) eqn:Et; [simpl in Hr|done].
  destruct (stripCommon (elements base) (elements target)) as [up down] eqn:Es.
  assert (Hplain : Forall plain down).
  { pose proof (elements_cleaned target) as Hc. rewrite Et in Hc. apply stripCommon_suffix in Es as [m Hm].
    unfold cleaned in Hc. rewrite Hm in Hc. apply Forall_app in Hc as [_ Hc]. eapply Forall_impl; [exact Hc|].
    intros s (H1 & H2 & H3 & H4). split_and!; [done|done|by apply H4|done]. }
  destruct up as [|u up].
  - simpl in Hr. injection Hr as <-. apply stripCommon_all in Es. exists down. split_and!; [done|done|done|].
    destruct down as [|d down]; [|by right]. exfalso. rewrite app_nil_r in Es.
    apply String.eqb_neq in Ec. apply Ec. unfold Clean. by rewrite Hb, Et, Es.
  - exfalso. case_bool_decide; [done|]. injection Hr as <-. simpl in Hp.
    by destruct (replicate (length up) ".." ++ down).
Qed.
End PathTheory.

(** ** Names of the control plane's making are plain *)

Module PlainNames.
Import PathTheory.

(** A name of other characters than slashes that starts with a letter or digit. *)
Lemma plain_first c s : c <> "."%char -> ~ In slash (chars (String c s)) -> plain (String c s).
Proof. intros Hc Hs. split_and!; [done|congruence|congruence|done]. Qed.

Definition decimal (c : ascii) : Prop := c ∈ chars "0123456789".

Lemma pretty_char_decimal n : decimal (pretty_N_char n).
Proof. unfold decimal, pretty_N_char. destruct n as [|[[[[]|[]|]|[[]|[]|]|]|[[[]|[]|]|[[]|[]|]|]|]]; set_solver. Qed.

Lemma pretty_go_decimal x s : Forall decimal (chars s) -> Forall decimal (chars (pretty_N_go x s)) /\
  (s <> "" \/ x <> 0%N -> pretty_N_go x s <> "").
Proof.
  revert s. induction (N.lt_wf_0 x) as [x _ IH]; intros s Hs. destruct (decide (x = 0%N)) as [->|Hx].
  - rewrite pretty_N_go_0. split; [done|]. intros [?|?]; done.
  - rewrite pretty_N_go_step by lia.
    destruct (IH (x `div` 10)%N ltac:(apply N.div_lt; lia) (String (pretty_N_char (x `mod` 10)) s)) as [H1 H2].
    + simpl. constructor; [apply pretty_char_decimal|done].
    + split; [done|]. intros _. apply H2. by left.
Qed.

Lemma decimal_plain s : Forall decimal (chars s) -> s <> "" -> plain s.
Proof.
  destruct s as [|c s]; [done|]. intros Hd _. apply plain_first.
  - simpl in Hd. apply Forall_cons in Hd as [Hd _]. intros ->. unfold decimal in Hd. revert Hd. set_solver.
  - rewrite <- list_elem_of_In. rewrite Forall_forall in Hd. intros Hin. specialize (Hd _ Hin). unfold decimal in Hd. revert Hd. set_solver.
Qed.

Lemma number_plain z : 0 <= z -> plain (pretty z).
Proof.
  intros Hz. destruct z as [|p|p]; [by apply (bool_decide_unpack _)| |lia].
  change (pretty (Z.pos p)) with (pretty (N.pos p)). unfold pretty, pretty_N. rewrite decide_False by done.
  destruct (pretty_go_decimal (N.pos p) "") as [H1 H2]; [constructor|]. apply decimal_plain; [done|]. apply H2. by right.
Qed.
End PlainNames.
