(* ===== verification/Source.v ===== *)
(** * Preparing the source of an attempt (internal/worker/executor.go)

    The git commands the worker runs in a project directory before it starts a
    job, and what it reports of the directory's state. The repository and the
    git program are parameters. *)

From S2P Require Import Prelude GoLib Ids Domain.

(** A finished git process: its error, if it failed, and what it printed. *)
Record GitRun := { gr_error : option string; gr_output : string; gr_combined : string }.

(** [git dir arguments] in some state of the machine's repositories. *)
Class GitEnv := {
  Repo : Type;
  git : string -> list string -> Repo -> GitRun * Repo;
}.

Section source.
Context `{GitEnv}.

(** Code that reads and changes the repositories. *)
Definition GitAct (A : Type) : Type := Repo -> A * Repo.

Definition gitOutput (workDir : string) (arguments : list string) : GitAct (option string) := λ r,
  let '(run, r') := git workDir arguments r in
  (match gr_error run with Some _ => None | None => Some (TrimSpace (gr_output run)) end, r').

Definition observeGitState (workDir : string) : GitAct (option GitState) := λ r,
  let '(head, r) := gitOutput workDir ["rev-parse"; "HEAD"] r in
  match head with
  | None => (None, r)
  | Some commit =>
      let '(branch, r) := gitOutput workDir ["symbolic-ref"; "--short"; "--quiet"; "HEAD"] r in
      let '(status, r) := gitOutput workDir ["status"; "--porcelain"; "--untracked-files=no"] r in
      (Some {| gs_Commit := commit; gs_Branch := default "" branch;
               gs_Dirty := match status with Some text => negb (text =? "")%string | None => false end |}, r)
  end.

(** The error of a failed fetch or checkout. *)
Definition gitFailure (what : string) (run : GitRun) : option string :=
  e ← gr_error run; Some (what +:+ ": " +:+ e +:+ ": " +:+ TrimSpace (gr_combined run)).

(** Makes the pinned commit present: an error, or none. *)
Definition ensureCommit (workDir : string) (source : Source) : GitAct (option string) := λ r,
  let '(found, r) := gitOutput workDir
    ["rev-parse"; "--quiet"; "--verify"; src_Commit source +:+ "^{commit}"] r in
  match found with
  | Some _ => (None, r)
  | None =>
      if (src_GitURL source =? "")%string
      then (Some ("pinned commit " +:+ src_Commit source +:+ " is not present in the project directory"), r)
      else let '(run, r) := git workDir ["fetch"; src_GitURL source; src_Commit source] r in
           (gitFailure "fetch pinned commit" run, r)
  end.

Definition checkoutCommit (workDir : string) (source : Source) : GitAct (option string) := λ r,
  let '(missing, r) := ensureCommit workDir source r in
  match missing with
  | Some e => (Some e, r)
  | None =>
      let '(run, r) := git workDir ["checkout"; "--detach"; src_Commit source] r in
      (gitFailure "check out pinned commit" run, r)
  end.

(** The observed state, and the error if the source could not be prepared. *)
Definition prepareSource (workDir : string) (source : Source)
    : GitAct (option GitState * option string) := λ r,
  if negb (src_OCIImage source =? "")%string then
    let '(state, r) := observeGitState workDir r in
    (state, Some "OCI image execution is not implemented", r)
  else
    let '(state, r) := observeGitState workDir r in
    if (src_Commit source =? "")%string then (state, None, r)
    else match state with
    | None => (None, Some ("source pins commit " +:+ src_Commit source +:+
                " but the project directory is not a git repository"), r)
    | Some st =>
        if gs_Dirty st then
          (state, Some ("source pins commit " +:+ src_Commit source +:+ " but the project directory has " +:+
            "uncommitted changes; commit or stash them, or submit without a pinned source"), r)
        else
          let '(failed, r) := (if (gs_Commit st =? src_Commit source)%string then (None, r)
                               else checkoutCommit workDir source r) in
          match failed with
          | Some e => (state, Some e, r)
          | None => let '(state, r) := observeGitState workDir r in (state, None, r)
          end
    end.
End source.

(** ** What a successful preparation has done *)

Section prepared.
Context `{GitEnv} (workDir : string) (source : Source).

(** The pinned commit is there, or was fetched. *)
Definition present (r r' : Repo) : Prop :=
  (exists text, gitOutput workDir ["rev-parse"; "--quiet"; "--verify"; src_Commit source +:+ "^{commit}"] r = (Some text, r')) \/
  (src_GitURL source <> "" /\ exists r0 run,
     gitOutput workDir ["rev-parse"; "--quiet"; "--verify"; src_Commit source +:+ "^{commit}"] r = (None, r0) /\
     git workDir ["fetch"; src_GitURL source; src_Commit source] r0 = (run, r') /\ gr_error run = None).

(** The pinned commit is present and was checked out. *)
Definition checkedOut (r r' : Repo) : Prop := exists r0 run,
  present r r0 /\ git workDir ["checkout"; "--detach"; src_Commit source] r0 = (run, r') /\ gr_error run = None.

(** The directory was without uncommitted changes; it was at the pinned commit,
    or that was checked out; and [state] is what git showed of it afterwards. *)
Definition prepared (r : Repo) (state : option GitState) (r' : Repo) : Prop :=
  src_OCIImage source = "" /\ exists st r1 r2,
    observeGitState workDir r = (Some st, r1) /\ gs_Dirty st = false /\
    ((gs_Commit st = src_Commit source /\ r2 = r1) \/ checkedOut r1 r2) /\
    observeGitState workDir r2 = (state, r').

Lemma gitFailure_none what run : gitFailure what run = None -> gr_error run = None.
Proof. unfold gitFailure. by destruct (gr_error run). Qed.

Lemma checkoutCommit_ok r r' : checkoutCommit workDir source r = (None, r') -> checkedOut r r'.
Proof.
  unfold checkoutCommit, ensureCommit. intros Hc.
  destruct (gitOutput workDir ["rev-parse"; "--quiet"; "--verify"; _] r) as [[text|] r0] eqn:Ev.
  - destruct (git workDir ["checkout"; _; _] r0) as [run r1] eqn:Eg. injection Hc as Hf <-.
    exists r0, run. split_and!; [left; by exists text|done|by eapply gitFailure_none].
  - destruct (String.eqb_spec (src_GitURL source) "") as [|Hu]; [done|].
    destruct (git workDir ["fetch"; _; _] r0) as [run r1] eqn:Ef.
    destruct (gitFailure _ run) eqn:Hf; [done|]. apply gitFailure_none in Hf.
    destruct (git workDir ["checkout"; _; _] r1) as [run2 r2] eqn:Eg. injection Hc as Hg <-.
    exists r1, run2. split_and!; [right; split; [done|]; by exists r0, run|done|by eapply gitFailure_none].
Qed.

Lemma prepareSource_ok r state r' : prepareSource workDir source r = (state, None, r') -> src_Commit source <> "" ->
  prepared r state r'.
Proof.
  unfold prepareSource. intros Hp Hc. apply String.eqb_neq in Hc. rewrite Hc in Hp.
  destruct (String.eqb_spec (src_OCIImage source) "") as [Ho|_]; cbn [negb] in Hp; [|by destruct (observeGitState workDir r)].
  split; [done|]. destruct (observeGitState workDir r) as [[st|] r1] eqn:Eo; [|done].
  destruct (gs_Dirty st) eqn:Ed; [done|].
  destruct (String.eqb_spec (gs_Commit st) (src_Commit source)) as [E|_].
  - destruct (observeGitState workDir r1) as [state2 r3] eqn:E2. injection Hp as <- <-. exists st, r1, r1. by split_and!; [..|left|].
  - destruct (checkoutCommit workDir source r1) as [[e|] r2] eqn:Ek; [done|]. apply checkoutCommit_ok in Ek.
    destruct (observeGitState workDir r2) as [state2 r3] eqn:E2. injection Hp as <- <-. exists st, r1, r2. by split_and!; [..|right|].
Qed.

(** A directory with uncommitted changes is looked at, and nothing else. *)
Lemma prepareSource_dirty r st r' : src_OCIImage source = "" -> src_Commit source <> "" ->
  observeGitState workDir r = (Some st, r') -> gs_Dirty st = true ->
  exists e, prepareSource workDir source r = (Some st, Some e, r').
Proof.
  intros Ho Hc Hst Hd. unfold prepareSource. rewrite Ho. apply String.eqb_neq in Hc. rewrite Hc. cbn [String.eqb negb].
  rewrite Hst, Hd. by eexists.
Qed.
End prepared.
