(* ===== verification/Executor.v ===== *)
(** * The executor of the worker (internal/worker/executor.go)

    One cycle of the agent on its machine: it reads the metrics, exit statuses,
    logs and artifacts of the attempts it runs, finishes those that ended,
    signals those that are canceled, and launches the commands that wait. What
    the machine answers is a record of functions; what the agent does to it is
    recorded in its state. *)

From S2P Require Import Prelude Utf8 Times GoLib Ids Domain Events WorkerStore Agent Paths Source.
Import Filepath.

(** ** The machine *)

(** A file as it is read: absent, not readable, or its contents and whether
    reading fails behind them. *)
Inductive FileRead :=
  | Absent
  | Unreadable (reason : string)
  | Contents (data : string) (broken : option string).

Record RunStatus := { rs_ExitCode : Z; rs_Error : string; rs_FinishedAt : time }.

(** A supervised process: what exec.Cmd is given. *)
Record Process := {
  pr_Executable : string; pr_Arguments : list string; pr_Dir : string; pr_Environment : list string;
}.

Inductive Signal := SIGTERM | SIGKILL.

#[export] Instance Signal_eq_dec : EqDecision Signal.
Proof. solve_decision. Defined.

(** What one cycle finds on the machine. [h_clock n] is the n-th reading of the
    clock; the results of operations that can fail carry the error's text. *)
Record Host := {
  h_clock : nat -> time;
  h_file : string -> FileRead;
  h_alive : Z -> bool;                               (* processAlive *)
  h_glob : string -> result string (list string);    (* filepath.Glob *)
  h_regular : string -> bool;                        (* os.Stat says a regular file *)
  h_copy : string -> string -> result string (Z * string);  (* size and checksum copied *)
  h_mkdir : string -> option string;                 (* the error of os.MkdirAll *)
  h_openLog : string -> option string;
  h_executable : result string string;
  h_start : Process -> result string Z;              (* the process identifier *)
  h_environ : list string;
}.

(** Decoding a JSON metric sample and exit status, and strconv.Quote. *)
Class ExecEnv := {
  decodeSample : string -> option MetricSample;
  decodeStatus : string -> option RunStatus;
  Quote : string -> string;
}.

(** ** The state of the agent *)

(** A resource sampler: process group, metrics file, whether it asks the GPU. *)
Record Sampler := { sm_Group : Z; sm_MetricsPath : string; sm_WantGPU : bool }.

(** A process that was started for a command, and whether that was recorded. *)
Record Launch := { ln_CommandID : string; ln_Process : Process; ln_PID : Z; ln_Recorded : bool }.

Inductive ExecError :=
  | XStore (e : WorkerError)
  | XOpenMetrics (reason : string) | XReadMetrics (reason : string) | XMetricLine
  | XOpenStatus (reason : string) | XDecodeStatus.

Section executor.
Context `{WorkerEnv} `{GitEnv} `{ExecEnv}.

Record Exec := {
  x_store : WSt;
  x_ticks : nat;                                 (* clock readings so far *)
  x_repo : Repo;
  x_samplers : gmap string Sampler;              (* by command *)
  x_sweep : gmap string time;                    (* lastArtifactSweep *)
  x_hash : gmap string (gmap string string);     (* lastArtifactHash *)
  x_launches : list Launch;
  x_signals : list (Z * Signal);                 (* process group and signal *)
}.

Abbreviation XAct A := (M Exec ExecError A).

Definition set_store (w : WSt) (x : Exec) : Exec :=
  {| x_store := w; x_ticks := x_ticks x; x_repo := x_repo x; x_samplers := x_samplers x;
     x_sweep := x_sweep x; x_hash := x_hash x; x_launches := x_launches x; x_signals := x_signals x |}.
Definition set_repo (r : Repo) (x : Exec) : Exec :=
  {| x_store := x_store x; x_ticks := x_ticks x; x_repo := r; x_samplers := x_samplers x;
     x_sweep := x_sweep x; x_hash := x_hash x; x_launches := x_launches x; x_signals := x_signals x |}.
Definition set_samplers (s : gmap string Sampler) (x : Exec) : Exec :=
  {| x_store := x_store x; x_ticks := x_ticks x; x_repo := x_repo x; x_samplers := s;
     x_sweep := x_sweep x; x_hash := x_hash x; x_launches := x_launches x; x_signals := x_signals x |}.
Definition set_sweep (s : gmap string time) (x : Exec) : Exec :=
  {| x_store := x_store x; x_ticks := x_ticks x; x_repo := x_repo x; x_samplers := x_samplers x;
     x_sweep := s; x_hash := x_hash x; x_launches := x_launches x; x_signals := x_signals x |}.
Definition set_hash (s : gmap string (gmap string string)) (x : Exec) : Exec :=
  {| x_store := x_store x; x_ticks := x_ticks x; x_repo := x_repo x; x_samplers := x_samplers x;
     x_sweep := x_sweep x; x_hash := s; x_launches := x_launches x; x_signals := x_signals x |}.
Definition add_launch (l : Launch) (x : Exec) : Exec :=
  {| x_store := x_store x; x_ticks := x_ticks x; x_repo := x_repo x; x_samplers := x_samplers x;
     x_sweep := x_sweep x; x_hash := x_hash x; x_launches := x_launches x ++ [l]; x_signals := x_signals x |}.
Definition add_signal (pid : Z) (s : Signal) (x : Exec) : Exec :=
  {| x_store := x_store x; x_ticks := x_ticks x; x_repo := x_repo x; x_samplers := x_samplers x;
     x_sweep := x_sweep x; x_hash := x_hash x; x_launches := x_launches x; x_signals := x_signals x ++ [(pid, s)] |}.

(** time.Now() *)
Definition readClock (h : Host) : XAct time := λ x,
  (Ok (h_clock h (x_ticks x)),
   {| x_store := x_store x; x_ticks := S (x_ticks x); x_repo := x_repo x; x_samplers := x_samplers x;
      x_sweep := x_sweep x; x_hash := x_hash x; x_launches := x_launches x; x_signals := x_signals x |}).

(** A call of the worker store. *)
Definition onStore {A} (m : WAct A) : XAct A := λ x,
  let '(r, w) := m (x_store x) in
  (match r with Ok a => Ok a | Err e => Err (XStore e) end, set_store w x).

(** A call of the worker store that reads the clock. *)
Definition timed {A} (h : Host) (m : time -> WAct A) : XAct A :=
  now ← readClock h; onStore (m now).

Definition onGit {A} (m : GitAct A) : XAct A := λ x,
  let '(a, r) := m (x_repo x) in (Ok a, set_repo r x).

(** ** Names and paths *)

Definition zeroSpec : JobSpec := {|
  s_Project := ""; s_Name := ""; s_Priority := 0;
  s_Source := {| src_GitURL := ""; src_Commit := ""; src_OCIImage := "" |};
  s_Command := []; s_Environment := ∅; s_SecretRefs := ∅;
  s_Resources := {| r_CPU := 0; r_MemoryBytes := 0; r_ScratchBytes := 0; r_GPUs := [] |}; s_Labels := ∅;
  s_Retry := {| rp_MaxAttempts := 0; rp_LostWorker := "" |};
  s_Checkpoint := None; s_Artifacts := []; s_Metrics := []; s_Health := [] |}.

(** command.Job.Spec and command.Job.ID, of the zero Job when there is none *)
Definition specOf (command : WorkerCommand) : JobSpec :=
  match k_Job command with Some job => j_Spec job | None => zeroSpec end.
Definition jobIDOf (command : WorkerCommand) : string :=
  match k_Job command with Some job => j_ID job | None => "" end.

(** strconv.FormatUint of the attempt number *)
Definition attemptNumberText (command : WorkerCommand) : string := pretty (k_AttemptNumber command).

Definition artifactDirOf (config : AgentConfig) (command : WorkerCommand) : string :=
  Join [cf_ArtifactRoot config; s_Project (specOf command); jobIDOf command; attemptNumberText command].

Definition workerURI (workerID : string) (command : WorkerCommand) (name : string) : string :=
  "worker://" +:+ workerID +:+ "/" +:+ s_Project (specOf command) +:+ "/" +:+ jobIDOf command +:+ "/" +:+
  attemptNumberText command +:+ "/" +:+ TrimLeftChar slash name.

(** ** Metrics *)

(** The complete lines of a file, with their line ends, as ReadString('\n')
    returns them. *)
Definition newline : ascii := ascii_of_N 10.
Fixpoint completeLines (data : string) : list string :=
  match data with
  | "" => []
  | String c rest =>
      if decide (c = newline) then String c "" :: completeLines rest
      else match completeLines rest with
           | [] => []
           | line :: lines => String c line :: lines
           end
  end.

(** What is left of a file behind an offset. *)
Definition seek (offset : Z) (data : string) : string :=
  unchars (drop (Z.to_nat offset) (chars data)).

Definition withObserved (now : time) (s : MetricSample) : MetricSample :=
  {| ms_Name := ms_Name s; ms_Value := ms_Value s; ms_Step := ms_Step s; ms_ObservedAt := now |}.

(** One line of the metrics file: the offset behind it. *)
Definition ingestLine (h : Host) (command : StoredCommand) (offset : Z) (line : string) : XAct Z :=
  mguard (len line <=? 2 ^ 20) XMetricLine ;;
  let newOffset := offset + len line in
  let id := k_CommandID (sc_Command command) in
  match decodeSample (TrimSpace line) with
  | None =>
      timed h (λ now, SkipMetric now id newOffset) ;;
      mret newOffset
  | Some sample =>
      if isNaN (ms_Value sample) || isInf (ms_Value sample) then
        timed h (λ now, SkipMetric now id newOffset) ;;
        mret newOffset
      else
        sample ← (if GoTime.IsZero (ms_ObservedAt sample)
                  then now ← readClock h; mret (withObserved now sample) else mret sample);
        timed h (λ now, EnqueueMetric now id (k_AttemptID (sc_Command command)) sample newOffset) ;;
        mret newOffset
  end.

Definition ingestMetrics (h : Host) (command : StoredCommand) : XAct unit :=
  match h_file h (sc_MetricsPath command) with
  | Absent => mret tt
  | Unreadable reason => mfail (XOpenMetrics reason)
  | Contents data broken =>
      _ ← mfold (completeLines (seek (sc_MetricOffset command) data)) (sc_MetricOffset command)
            (ingestLine h command);
      match broken with Some reason => mfail (XReadMetrics reason) | None => mret tt end
  end.

(** ** Artifacts *)

Definition maxInlineArtifactBytes : Z := 64 * 1024.

Definition inlineArtifactContent (h : Host) (path : string) (size : Z) : string :=
  if (size =? 0) || (maxInlineArtifactBytes <? size) then ""
  else match h_file h path with
       | Contents data None => if (len data =? size) && utf8Valid data then data else ""
       | _ => ""
       end.

Definition artifactRules (spec : JobSpec) : list ArtifactRule :=
  s_Artifacts spec ++
  match s_Checkpoint spec with
  | Some checkpoint => [{| ar_Name := "checkpoint"; ar_Glob := cp_Glob checkpoint |}]
  | None => []
  end.

(** Where a collected file is copied to. *)
Definition artifactDestination (artifactRoot : string) (command : WorkerCommand) (rule : ArtifactRule)
    (relative : string) : string :=
  Join [artifactRoot; s_Project (specOf command); jobIDOf command; attemptNumberText command;
        ar_Name rule; relative].

(** One file a rule matched: its announcement, nothing, or the error's text. *)
Definition collectMatch (h : Host) (workerID artifactRoot : string) (command : StoredCommand)
    (rule : ArtifactRule) (sourcePath : string) : result string (option ArtifactAnnouncement) :=
  if negb (h_regular h sourcePath) then Ok None
  else
    match Rel (sc_WorkDir command) sourcePath with
    | None => Err ("artifact " +:+ Quote sourcePath +:+ " is outside the work directory")
    | Some relative =>
        if HasPrefix relative ".." then
          Err ("artifact " +:+ Quote sourcePath +:+ " is outside the work directory")
        else
          let k := sc_Command command in
          let destination := artifactDestination artifactRoot k rule relative in
          match h_copy h sourcePath destination with
          | Err e => Err e
          | Ok (size, checksum) =>
              Ok (Some {| aa_Name := ar_Name rule;
                          aa_URI := workerURI workerID k (Join [ar_Name rule; relative]);
                          aa_SizeBytes := size; aa_SHA256 := checksum;
                          aa_Content := inlineArtifactContent h destination size |})
          end
    end.

(** A loop that collects what its body yields until one fails. *)
Fixpoint collectAll {A B} (body : A -> result string (list B)) (xs : list A) : result string (list B) :=
  match xs with
  | [] => Ok []
  | x :: rest =>
      match body x with
      | Err e => Err e
      | Ok ys => match collectAll body rest with Err e => Err e | Ok zs => Ok (ys ++ zs) end
      end
  end.

Definition collectRule (h : Host) (workerID artifactRoot : string) (command : StoredCommand)
    (rule : ArtifactRule) : result string (list ArtifactAnnouncement) :=
  if isAbs (ar_Glob rule) || Contains (ar_Glob rule) "../" then
    Err ("artifact glob " +:+ Quote (ar_Glob rule) +:+ " escapes the work directory")
  else
    match h_glob h (Join [sc_WorkDir command; ar_Glob rule]) with
    | Err e => Err ("expand artifact " +:+ ar_Name rule +:+ ": " +:+ e)
    | Ok matches =>
        collectAll (λ sourcePath,
          match collectMatch h workerID artifactRoot command rule sourcePath with
          | Err e => Err e
          | Ok (Some a) => Ok [a]
          | Ok None => Ok []
          end) matches
    end.

Definition collectArtifacts (h : Host) (workerID artifactRoot : string) (command : StoredCommand)
    : result string (list ArtifactAnnouncement) :=
  collectAll (collectRule h workerID artifactRoot command)
    (artifactRules (specOf (sc_Command command))).

(** artifactInterval (agent.go) *)
Definition artifactInterval : Z := 60 * GoTime.Second.

(** The announcements whose checksum is new for their name, and the checksums
    afterwards. *)
Fixpoint changedArtifacts (seen : gmap string string) (artifacts : list ArtifactAnnouncement)
    : list ArtifactAnnouncement * gmap string string :=
  match artifacts with
  | [] => ([], seen)
  | a :: rest =>
      if (default "" (seen !! aa_Name a) =? aa_SHA256 a)%string then changedArtifacts seen rest
      else let '(changed, seen') := changedArtifacts (<[aa_Name a := aa_SHA256 a]> seen) rest in
           (a :: changed, seen')
  end.

(** An error of the store is logged and dropped. *)
Definition logged (m : XAct unit) : XAct unit := λ x,
  match m x with (Ok tt, x') => (Ok tt, x') | (Err _, x') => (Ok tt, x') end.

(** Whether the last sweep of the command is recent; time.Since reads the clock
    only when there was one. *)
Definition sweptRecently (h : Host) (id : string) : XAct bool := λ x,
  match x_sweep x !! id with
  | None => (Ok false, x)
  | Some last => (now ← readClock h; mret (now - last <? artifactInterval)) x
  end.

Definition announceProgress (h : Host) (config : AgentConfig) (command : StoredCommand) : XAct unit :=
  let id := k_CommandID (sc_Command command) in
  recent ← sweptRecently h id;
  if (recent : bool) then mret tt
  else
    now ← readClock h;
    mmodify (λ x, set_sweep (<[id := now]> (x_sweep x)) x) ;;
    match collectArtifacts h (cf_WorkerID config) (cf_ArtifactRoot config) command with
    | Err _ => mret tt
    | Ok [] => mret tt
    | Ok artifacts =>
        seen ← mreads (λ x, default ∅ (x_hash x !! id));
        let '(changed, seen') := changedArtifacts seen artifacts in
        mmodify (λ x, set_hash (<[id := seen']> (x_hash x)) x) ;;
        match changed with
        | [] => mret tt
        | _ => logged (timed h (λ now, AnnounceArtifacts now id changed))
        end
    end.

(** ** Running attempts *)

Definition cancelGrace : Z := 30 * GoTime.Second.

Definition signalCancel (h : Host) (command : StoredCommand) : XAct unit :=
  now ← readClock h;
  let signal := if cancelGrace <? now - sc_CancelRequestedAt command then SIGKILL else SIGTERM in
  mmodify (add_signal (sc_PID command) signal).

Definition ensureSampler (command : StoredCommand) : XAct unit :=
  let id := k_CommandID (sc_Command command) in
  mmodify (λ x,
    if bool_decide (is_Some (x_samplers x !! id)) || (sc_PID command <=? 0) then x
    else set_samplers (<[id := {| sm_Group := sc_PID command; sm_MetricsPath := sc_MetricsPath command;
           sm_WantGPU := negb (bool_decide (r_GPUs (s_Resources (specOf (sc_Command command))) = [])) |}]>
           (x_samplers x)) x).

Definition stopSampler (commandID : string) : XAct unit :=
  mmodify (λ x, set_samplers (delete commandID (x_samplers x)) x).

Definition readRunStatus (h : Host) (path : string) : XAct (option RunStatus) :=
  match h_file h path with
  | Absent => mret None
  | Unreadable reason => mfail (XOpenStatus reason)
  | Contents data _ => match decodeStatus data with Some st => mret (Some st) | None => mfail XDecodeStatus end
  end.

(** The last bytes of a file; no error when it does not exist. *)
Definition readFileTail (h : Host) (path : string) (limit : Z) : result string string :=
  match h_file h path with
  | Absent => Ok ""
  | Unreadable reason => Err reason
  | Contents data (Some reason) => Err reason
  | Contents data None => Ok (seek (Z.max 0 (len data - limit)) data)
  end.

(** errors.Join(errors.New(first), second).Error() *)
Definition joinErrors (first second : string) : string := first +:+ String newline "" +:+ second.

(** The exit code and error a finished attempt reports, its log tail and its
    artifacts. *)
Definition finalReport (h : Host) (config : AgentConfig) (command : StoredCommand) (status : RunStatus)
    : Z * string * string * list ArtifactAnnouncement :=
  let '(code, err, artifacts) :=
    match collectArtifacts h (cf_WorkerID config) (cf_ArtifactRoot config) command with
    | Ok artifacts => (rs_ExitCode status, rs_Error status, artifacts)
    | Err e => (-1, joinErrors (rs_Error status) e, [])
    end in
  match readFileTail h (Join [Dir (sc_StatusPath command); "run.log"]) (64 * 1024) with
  | Ok logTail => (code, err, logTail, artifacts)
  | Err e => (-1, joinErrors err ("read run log: " +:+ e), "", artifacts)
  end.

Definition finishAttempt (h : Host) (config : AgentConfig) (command : StoredCommand) (status : RunStatus)
    : XAct unit :=
  let id := k_CommandID (sc_Command command) in
  stopSampler id ;;
  let '(code, err, logTail, artifacts) := finalReport h config command status in
  timed h (λ now, MarkFinished now id code err
                    (workerURI (cf_WorkerID config) (sc_Command command) "run.log") logTail artifacts).

(** One running command of a reconciliation. *)
Definition reconcileCommand (h : Host) (config : AgentConfig) (command : StoredCommand) : XAct unit :=
  ingestMetrics h command ;;
  status ← readRunStatus h (sc_StatusPath command);
  match status with
  | Some status => finishAttempt h config command status
  | None =>
      if (0 <? sc_PID command) && h_alive h (sc_PID command) then
        if negb (GoTime.IsZero (sc_CancelRequestedAt command)) then signalCancel h command
        else ensureSampler command ;; announceProgress h config command
      else
        now ← readClock h;
        finishAttempt h config command
          {| rs_ExitCode := -1; rs_Error := "worker supervisor disappeared before recording an exit status";
             rs_FinishedAt := now |}
  end.

(** A command that was canceled before it was launched. *)
Definition finishCanceled (h : Host) (command : StoredCommand) : XAct unit :=
  timed h (λ now, MarkFinished now (k_CommandID (sc_Command command)) (-1) "canceled before start" "" "" []).

Definition reconcileRunning (h : Host) (config : AgentConfig) : XAct unit :=
  canceled ← onStore PendingCanceledCommands;
  mfor canceled (finishCanceled h) ;;
  running ← onStore RunningCommands;
  mfor running (reconcileCommand h config).

(** ** Launching *)

Definition jobEnvironment (h : Host) (command : WorkerCommand) (metricsPath artifactDir : string) : list string :=
  h_environ h ++
  ((λ nv, nv.1 +:+ "=" +:+ nv.2) <$> map_to_list (s_Environment (specOf command))) ++
  ["LCJS_JOB_ID=" +:+ jobIDOf command; "LCJS_ATTEMPT_ID=" +:+ k_AttemptID command;
   "LCJS_ATTEMPT_NUMBER=" +:+ attemptNumberText command; "LCJS_METRICS_FILE=" +:+ metricsPath;
   "LCJS_ARTIFACT_DIR=" +:+ artifactDir].

Definition buildProcess (h : Host) (executable : string) (command : WorkerCommand)
    (workDir statusPath metricsPath artifactDir : string) : Process :=
  {| pr_Executable := executable;
     pr_Arguments := ["supervise"; "--status"; statusPath; "--"] ++ s_Command (specOf command);
     pr_Dir := workDir;
     pr_Environment := jobEnvironment h command metricsPath artifactDir |}.

Definition failBeforeLaunch (h : Host) (config : AgentConfig) (command : WorkerCommand)
    (workDir artifactDir : string) (gitState : option GitState) (runErr : string) : XAct unit :=
  timed h (λ now, MarkStarted now (k_CommandID command) 0 workDir (Join [artifactDir; "run-status.json"])
                    (Join [artifactDir; "metrics.jsonl"]) gitState) ;;
  timed h (λ now, MarkFinished now (k_CommandID command) (-1) runErr
                    (workerURI (cf_WorkerID config) command "run.log") "" []).

(** The process runs: the command is marked started, or the process is
    terminated again. *)
Definition recordLaunch (h : Host) (command : WorkerCommand) (process : Process) (pid : Z)
    (workDir statusPath metricsPath : string) (gitState : option GitState) : XAct unit := λ x,
  match timed h (λ now, MarkStarted now (k_CommandID command) pid workDir statusPath metricsPath gitState) x with
  | (Ok tt, x') =>
      (Ok tt, add_launch {| ln_CommandID := k_CommandID command; ln_Process := process; ln_PID := pid;
                            ln_Recorded := true |} x')
  | (Err e, x') =>
      (Err e, add_signal pid SIGTERM
                (add_launch {| ln_CommandID := k_CommandID command; ln_Process := process; ln_PID := pid;
                               ln_Recorded := false |} x'))
  end.

Definition launch (h : Host) (config : AgentConfig) (command : WorkerCommand) : XAct unit :=
  let spec := specOf command in
  let artifactDir := artifactDirOf config command in
  match cf_Projects config !! s_Project spec with
  | None =>
      failBeforeLaunch h config command "" artifactDir None
        ("worker has no project directory for project " +:+ Quote (s_Project spec))
  | Some workDir =>
      match h_mkdir h artifactDir with
      | Some e => failBeforeLaunch h config command workDir artifactDir None ("create artifact directory: " +:+ e)
      | None =>
          let statusPath := Join [artifactDir; "run-status.json"] in
          let metricsPath := Join [artifactDir; "metrics.jsonl"] in
          prepared ← onGit (prepareSource workDir (s_Source spec));
          let gitState := prepared.1 in
          let fail_ := failBeforeLaunch h config command workDir artifactDir gitState in
          match prepared.2 with
          | Some e => fail_ e
          | None =>
              if negb (bool_decide (s_SecretRefs spec = ∅))
              then fail_ "secret references require a configured worker secret provider"
              else
                match h_openLog h (Join [artifactDir; "run.log"]) with
                | Some e => fail_ ("open run log: " +:+ e)
                | None =>
                    match h_executable h with
                    | Err e => fail_ e
                    | Ok executable =>
                        let process := buildProcess h executable command workDir statusPath metricsPath artifactDir in
                        match h_start h process with
                        | Err e => fail_ ("start supervisor: " +:+ e)
                        | Ok pid => recordLaunch h command process pid workDir statusPath metricsPath gitState
                        end
                    end
                end
          end
      end
  end.

Definition launchPending (h : Host) (config : AgentConfig) : XAct unit :=
  commands ← onStore (PendingCommands (c_MaxParallel (cf_Capacity config)));
  mfor commands (λ stored, launch h config (sc_Command stored)).

(** ** One cycle *)

(** The first half: the attempts are brought up to date, and the oldest events
    are put in a request. *)
Definition prepareSync (h : Host) (config : AgentConfig) (sessionID : string) : XAct WorkerSyncRequest :=
  reconcileRunning h config ;;
  onStore (cycleRequest config sessionID).

(** s.now() as each command of a response is accepted. *)
Definition acceptResponse (h : Host) (response : WorkerSyncResponse) : XAct unit := λ x,
  onStore (receiveResponse (λ n, h_clock h (x_ticks x + n)%nat) response)
    {| x_store := x_store x; x_ticks := (x_ticks x + length (p_Commands response))%nat; x_repo := x_repo x;
       x_samplers := x_samplers x; x_sweep := x_sweep x; x_hash := x_hash x; x_launches := x_launches x;
       x_signals := x_signals x |}.

(** The second half: the response is stored, and waiting commands are launched;
    the result is the pause before the next cycle. *)
Definition finishSync (h : Host) (config : AgentConfig) (response : WorkerSyncResponse) : XAct Z :=
  acceptResponse h response ;;
  launchPending h config ;;
  mret (nextDelay (p_NextSyncSeconds response)).

(** The cycle, with what the network makes of a request: the response of the
    control plane, or none. *)
Definition cycle (h : Host) (config : AgentConfig) (sessionID : string)
    (send : WorkerSyncRequest -> option WorkerSyncResponse) : XAct (option Z) :=
  request ← prepareSync h config sessionID;
  match send request with
  | None => mret None
  | Some response => delay ← finishSync h config response; mret (Some delay)
  end.

(** The pause of Run: five seconds after an error. *)
Definition pauseAfter (r : result ExecError (option Z)) : Z :=
  match r with Ok (Some delay) => delay | _ => 5 * GoTime.Second end.
End executor.

Abbreviation XAct A := (M Exec ExecError A).
