(* ===== verification/Scenario.v ===== *)
(** * A concrete run

    An environment in which every call can be evaluated, and a short history of
    the control plane: a worker is enrolled, a job is submitted and offered,
    starts, fails and is offered again. The witnesses of the properties use its
    states. *)

From S2P Require Import Prelude Times Ids Domain Validate Database Jobs Health Events Lifecycle.
From S2P Require Import Scheduler Sync Control.
From Stdlib Require Import Strings.Byte.

Definition padTo (n : nat) (s : string) : string :=
  String.substring 0 n (s +:+ unchars (replicate n "."%char)).

#[local] Instance demoEnv : Env := {
  entropy n := default x00 (Byte.of_N (N.of_nat n)) :: replicate 15 x00;
  sha256 := padTo 32;
  specJSON s := s_Project s +:+ "/" +:+ s_Name s;
  urlParse s := Some {| u_Scheme := "https"; u_Host := s; u_Hostname := s; u_User := false;
                        u_Fragment := ""; u_String := s |};
  env_unicode := ToLower;
}.

(** 2023-11-14T22:13:20Z *)
Definition t0 : time := 1700000000 * GoTime.Second.

Lemma t0_year : GoTime.fourDigitYear t0.
Proof. apply (bool_decide_unpack _). reflexivity. Qed.

Definition demoResources : ResourceRequest :=
  {| r_CPU := 2; r_MemoryBytes := 1024; r_ScratchBytes := 0; r_GPUs := [] |}.

Definition demoSpec : JobSpec := {|
  s_Project := "physics"; s_Name := "train"; s_Priority := 5;
  s_Source := {| src_GitURL := ""; src_Commit := ""; src_OCIImage := "" |};
  s_Command := ["python"; "train.py"]; s_Environment := ∅; s_SecretRefs := ∅;
  s_Resources := demoResources; s_Labels := ∅;
  s_Retry := {| rp_MaxAttempts := 2; rp_LostWorker := LostWorkerManual |};
  s_Checkpoint := None; s_Artifacts := []; s_Metrics := []; s_Health := [] |}.

Definition demoCapacity : WorkerCapacity := {|
  c_CPU := 8; c_MemoryBytes := 4096; c_GPUCount := 0; c_GPUSharedSlots := 0; c_MaxParallel := 1;
  c_Labels := ∅; c_Projects := ["physics"] |}.

Definition demoSync (events : list WorkerEvent) : WorkerSyncRequest := {|
  q_WorkerID := ""; q_SessionID := "session"; q_AgentVersion := "dev"; q_Capacity := demoCapacity;
  q_Events := events |}.

Definition demoEvent (sequence : Z) (id attempt kind : string) (exitCode : option Z) : WorkerEvent := {|
  e_Sequence := sequence; e_EventID := id; e_AttemptID := attempt; e_Kind := kind;
  e_OccurredAt := t0; e_ExitCode := exitCode; e_Error := ""; e_LogURI := ""; e_LogTail := "";
  e_Git := None; e_Metric := None; e_Artifacts := [] |}.

Definition demoToken : string := unchars (replicate 40 "x"%char).
Definition demoWorker : string := "wrk_00000000000000000000000000".
Definition demoJob : string := "job_04000000000000000000000000".
Definition demoAttempt1 : string := "att_0c000000000000000000000000".
Definition demoAttempt2 : string := "att_10000000000000000000000000".

(** ** The history *)

Definition callEnroll : Call := CallCreateWorker "box" demoToken ∅.
Definition callSubmit : Call := CallCreateJob "key" demoSpec.
Definition callOffer : Call := CallSyncWorker demoWorker (demoSync []).
Definition callStart : Call := CallSyncWorker demoWorker (demoSync [
  demoEvent 1 "e1" demoAttempt1 WorkerEventAttemptAccepted None;
  demoEvent 2 "e2" demoAttempt1 WorkerEventAttemptStarted None]).
Definition callFail : Call := CallSyncWorker demoWorker (demoSync [
  demoEvent 3 "e3" demoAttempt1 WorkerEventAttemptFinished (Some 1)]).
Definition callSucceed : Call := CallSyncWorker demoWorker (demoSync [
  demoEvent 4 "e4" demoAttempt2 WorkerEventAttemptAccepted None;
  demoEvent 5 "e5" demoAttempt2 WorkerEventAttemptStarted None;
  demoEvent 6 "e6" demoAttempt2 WorkerEventAttemptFinished (Some 0)]).

Definition after (s : St) (c : Call) : St := (perform t0 c s).2.

Definition enrolled : St := after initial callEnroll.
Definition submitted : St := after enrolled callSubmit.
Definition offered : St := after submitted callOffer.
Definition running : St := after offered callStart.
Definition retried : St := after running callFail.
Definition succeeded : St := after retried callSucceed.
Definition cancelRequested : St := after running (CallCancelJob demoJob).

(** A call of the history as the operation it performs. *)
Lemma after_sync s w request r s' : SyncWorker t0 w request s = (r, s') ->
  after s (CallSyncWorker w request) = s'.
Proof. unfold after, perform, ignore, mbind, M_bind. intros ->. by destruct r. Qed.

Lemma after_create s key spec r s' : CreateJob t0 key spec s = (r, s') ->
  after s (CallCreateJob key spec) = s'.
Proof. unfold after, perform, ignore, mbind, M_bind. intros ->. by destruct r. Qed.

Lemma demoSpec_typed : SpecTyped demoSpec.
Proof. repeat split; try apply Forall_nil; simpl; lia. Qed.

Lemma reachable_after s c : reachable s -> callTyped c -> reachable (after s c).
Proof. intros Hs Hc. eapply rtc_r; [exact Hs|]. apply call_step; [apply t0_year|done]. Qed.

Lemma submitted_to_succeeded : rtc callStep submitted succeeded.
Proof.
  apply (rtc_l _ _ offered); [exact (call_step submitted t0 callOffer t0_year I)|].
  apply (rtc_l _ _ running); [exact (call_step offered t0 callStart t0_year I)|].
  apply (rtc_l _ _ retried); [exact (call_step running t0 callFail t0_year I)|].
  apply rtc_once. exact (call_step retried t0 callSucceed t0_year I).
Qed.

Lemma enrolled_reachable : reachable enrolled.
Proof. by apply reachable_after; [apply rtc_refl|]. Qed.
Lemma submitted_reachable : reachable submitted.
Proof. apply reachable_after; [apply enrolled_reachable|apply demoSpec_typed]. Qed.
Lemma offered_reachable : reachable offered.
Proof. by apply reachable_after; [apply submitted_reachable|]. Qed.
Lemma running_reachable : reachable running.
Proof. by apply reachable_after; [apply offered_reachable|]. Qed.
Lemma retried_reachable : reachable retried.
Proof. by apply reachable_after; [apply running_reachable|]. Qed.
Lemma succeeded_reachable : reachable succeeded.
Proof. by apply reachable_after; [apply retried_reachable|]. Qed.
Lemma cancelRequested_reachable : reachable cancelRequested.
Proof. by apply reachable_after; [apply running_reachable|]. Qed.

(** ** What the history does *)

Definition stateOf (s : St) (jobID : string) : option (JobState * Z) :=
  (λ j, (jr_state j, jr_revision j)) <$> jobs (db s) !! jobID.
Definition attemptOf (s : St) (id : string) : option (AttemptState * Z) :=
  (λ a, (at_state a, at_number a)) <$> attempts (db s) !! id.

Example submitted_state : stateOf submitted demoJob = Some (JobQueued, 1).
Proof. vm_compute. reflexivity. Qed.
Example offered_state : attemptOf offered demoAttempt1 = Some (AttemptOffered, 1).
Proof. vm_compute. reflexivity. Qed.
Example running_state : stateOf running demoJob = Some (JobRunning, 2).
Proof. vm_compute. reflexivity. Qed.
Example retried_state : (stateOf retried demoJob, attemptOf retried demoAttempt1,
    attemptOf retried demoAttempt2) =
  (Some (JobQueued, 3), Some (AttemptFailed, 1), Some (AttemptOffered, 2)).
Proof. vm_compute. reflexivity. Qed.
Example succeeded_state : stateOf succeeded demoJob = Some (JobSucceeded, 5).
Proof. vm_compute. reflexivity. Qed.
Example cancelRequested_state : stateOf cancelRequested demoJob = Some (JobCanceling, 3).
Proof. vm_compute. reflexivity. Qed.

(** Names the row that a lookup in a concrete database finds. *)
Ltac the_row t x E := destruct t as [x|] eqn:E; [|exfalso; vm_compute in E; discriminate E].

(** The row's state in that database. *)
Lemma stateOf_state s id j st n : jobs (db s) !! id = Some j -> stateOf s id = Some (st, n) -> jr_state j = st.
Proof. unfold stateOf. intros ->. by intros [= <- _]. Qed.
