(* ===== verification/Guarantees.v ===== *)
(** * What the control plane guarantees

    The properties of every reachable database and of every call, read off the
    lifecycle rules the calls refine. *)

From S2P Require Import Prelude Times GoLib Ids Domain Validate ValidateSpec Database Jobs Health.
From S2P Require Import Events Lifecycle Scheduler Sync Control Scenario.

(** All attempts of a job. *)
Definition jobAttempts (d : DB) (jobID : string) : list (string * AttemptRow) :=
  rowsWhere (λ ka, at_job_id ka.2 = jobID) (attempts d).

(** The live attempts of a job agree with its state. *)
Definition agrees (d : DB) (jobID : string) (j : JobRow) : Prop :=
  match liveAttempts d jobID with
  | [] => compatible (jr_state j) None = true
  | [(_, a)] => compatible (jr_state j) (Some (at_state a)) = true
  | _ => False
  end.

Module GuaranteesTheory.

Lemma elem_liveAttempts d jid aid a : (aid, a) ∈ liveAttempts d jid <-> isLive (coreOf d) jid aid a.
Proof.
  unfold liveAttempts, isLive. rewrite elem_of_rowsWhere. simpl. tauto.
Qed.

Lemma inv_agrees {lower : Unicode} d jid j : Inv (coreOf d) -> jobs d !! jid = Some j -> agrees d jid j.
Proof.
  intros HI Hj. unfold agrees. destruct (liveAttempts d jid) as [|[a1 r1] [|[a2 r2] l]] eqn:E.
  - apply (inv_idle _ HI jid j Hj). by apply Refinement.liveAttempts_nil.
  - apply (inv_live _ HI jid j a1 r1 Hj), elem_liveAttempts. rewrite E. left.
  - assert (H1 : isLive (coreOf d) jid a1 r1) by (apply elem_liveAttempts; rewrite E; left).
    assert (H2 : isLive (coreOf d) jid a2 r2) by (apply elem_liveAttempts; rewrite E; right; left).
    pose proof (inv_one _ HI _ _ _ _ _ H1 H2) as <-.
    assert (Hnd := NoDup_rowsWhere (λ ka, at_job_id ka.2 = jid /\ live (at_state ka.2) = true) (attempts d)).
    change (NoDup (liveAttempts d jid).*1) in Hnd. rewrite E in Hnd.
    simpl in Hnd. apply NoDup_cons in Hnd as [Hnd _]. apply Hnd. left.
Qed.

(** Distinct positive numbers closed downwards are 1, 2, ..., n. *)
Lemma numbers_seq (l : list Z) : NoDup l -> Forall (λ n, 1 <= n) l ->
  (forall n m, n ∈ l -> 1 <= m <= n -> m ∈ l) -> l ≡ₚ seqZ 1 (Z.of_nat (length l)).
Proof.
  intros Hnd Hpos Hclosed. destruct (max_spec l) as (H0 & Hle & Hin).
  set (n := foldr Z.max 0 l) in *.
  assert (Hp : l ≡ₚ seqZ 1 n).
  { apply NoDup_Permutation; [done|apply NoDup_seqZ|]. intros m. rewrite elem_of_seqZ. split.
    - intros Hm. rewrite Forall_forall in Hpos. specialize (Hpos m Hm). specialize (Hle m Hm). lia.
    - intros Hm. destruct Hin as [->|Hin]; [lia|]. apply (Hclosed n m); [done|lia]. }
  pose proof (Permutation_length Hp) as Hlen. rewrite length_seqZ in Hlen.
  by replace (Z.of_nat (length l)) with n by lia.
Qed.

Lemma inv_numbers {lower : Unicode} d jid : Inv (coreOf d) ->
  (at_number ∘ snd <$> jobAttempts d jid) ≡ₚ seqZ 1 (Z.of_nat (length (jobAttempts d jid))).
Proof.
  intros HI. set (l := _ <$> _).
  replace (length (jobAttempts d jid)) with (length l) by apply length_fmap.
  assert (Hin : forall n, n ∈ l <-> exists aid a, attempts d !! aid = Some a /\ at_job_id a = jid /\ n = at_number a).
  { intros n. unfold l. rewrite list_elem_of_fmap. split.
    - intros ([aid a] & -> & Ha). apply elem_of_rowsWhere in Ha as [? ?]. exists aid, a. done.
    - intros (aid & a & Ha & Hj & ->). exists (aid, a). split; [done|]. by apply elem_of_rowsWhere. }
  apply numbers_seq.
  - apply NoDup_fmap_2_strong.
    + intros [a1 r1] [a2 r2] [H1 H1']%elem_of_rowsWhere [H2 H2']%elem_of_rowsWhere Hn.
      simpl in *. assert (a1 = a2) as <- by (eapply (inv_number _ HI); eauto; congruence). congruence.
    + apply (NoDup_fmap_1 fst), NoDup_rowsWhere.
  - apply Forall_forall. intros n (aid & a & Ha & Hj & ->)%Hin.
    destruct (inv_job _ HI aid a Ha) as [j Hj']. by destruct (inv_bound _ HI aid a j Ha Hj').
  - intros n m (aid & a & Ha & Hj & ->)%Hin Hm.
    destruct (inv_gapless _ HI aid a m Ha Hm) as (aid' & a' & Ha' & Hj' & <-).
    apply Hin. exists aid', a'. split_and!; [done|congruence|done].
Qed.

Lemma inv_count {lower : Unicode} d jid j : Inv (coreOf d) -> jobs d !! jid = Some j ->
  Z.of_nat (length (jobAttempts d jid)) <= maxAttempts j.
Proof.
  intros HI Hj. pose proof (inv_numbers d jid HI) as Hp.
  destruct (decide (length (jobAttempts d jid) = 0%nat)) as [->|Hne].
  { destruct (inv_spec _ HI _ _ Hj) as [Hv Ht].
    pose proof (LifecycleTheory.maxAttempts_pos j Hv Ht). lia. }
  assert (Hin : Z.of_nat (length (jobAttempts d jid)) ∈ at_number ∘ snd <$> jobAttempts d jid).
  { rewrite Hp, elem_of_seqZ. lia. }
  apply list_elem_of_fmap in Hin as ([aid a] & -> & Ha). apply elem_of_rowsWhere in Ha as [Ha' Ha].
  simpl in *. subst jid. by destruct (inv_bound _ HI aid a j Ha Hj).
Qed.

End GuaranteesTheory.

Section guarantees.
Context `{Env}.

(** C1: In every reachable database every job has at most one live attempt, and
    its state fits it: a queued job has none or one not yet started, a running
    job exactly one running attempt, a canceling job exactly one live attempt, a
    succeeded, failed or canceled job none; the unused retry_wait state never
    occurs. *)
Theorem job_attempt_agreement (s : St) (jid : string) (j : JobRow) :
  reachable s -> jobs (db s) !! jid = Some j -> agrees (db s) jid j.
Proof. intros Hr. by apply GuaranteesTheory.inv_agrees, ControlSafety.reachable_inv. Qed.

(** C8: The attempts of a job are numbered 1, 2, ..., n without gaps or repeats,
    and n never exceeds the MaxAttempts of its retry policy. *)
Theorem attempts_numbered (s : St) (jid : string) (j : JobRow) :
  reachable s -> jobs (db s) !! jid = Some j ->
  (at_number ∘ snd <$> jobAttempts (db s) jid) ≡ₚ seqZ 1 (Z.of_nat (length (jobAttempts (db s) jid))) /\
  Z.of_nat (length (jobAttempts (db s) jid)) <= rp_MaxAttempts (s_Retry (jr_spec j)).
Proof.
  intros Hr%ControlSafety.reachable_inv Hj. split.
  - by apply GuaranteesTheory.inv_numbers.
  - by apply GuaranteesTheory.inv_count.
Qed.

(** C3: Every call to the store, whatever its outcome, changes jobs and attempts
    by a sequence of lifecycle rules; a worker's sync uses only the rules for
    that worker's own attempts, the other calls only submission and cancellation. *)
Theorem calls_refine_lifecycle (now : time) (c : Call) (s : St) :
  GoTime.fourDigitYear now -> callTyped c ->
  rtc (step (callWorker c)) (coreOf (db s)) (coreOf (db (perform now c s).2)).
Proof. intros Hy Ht. by apply ControlSafety.perform_refines. Qed.

(** C19: From a reachable database no call changes a job that has succeeded,
    failed or been canceled. *)
Theorem terminal_jobs_final (now : time) (c : Call) (s : St) (jid : string) (j : JobRow) :
  reachable s -> GoTime.fourDigitYear now -> callTyped c ->
  jobs (db s) !! jid = Some j -> terminal (jr_state j) = true ->
  jobs (db (perform now c s).2) !! jid = Some j.
Proof.
  intros Hr%ControlSafety.reachable_inv Hy Ht Hj Hterm.
  pose proof (ControlSafety.perform_refines now c Hy Ht s) as Hsteps.
  destruct (LifecycleTheory.steps_job _ _ _ _ _ Hsteps Hr Hj) as (j' & Hj' & He).
  by rewrite (LifecycleTheory.evolves_terminal _ _ He Hterm) in Hj'.
Qed.

(** From a reachable database every call keeps every job and its
    specification, and moves its state only along the job automaton, the
    revision counting the moves. *)
Theorem jobs_evolve (now : time) (c : Call) (s : St) (jid : string) (j : JobRow) :
  reachable s -> GoTime.fourDigitYear now -> callTyped c -> jobs (db s) !! jid = Some j ->
  exists j', jobs (db (perform now c s).2) !! jid = Some j' /\ LifecycleTheory.evolves j j' /\
    jr_spec j' = jr_spec j /\ jr_revision j <= jr_revision j' /\
    (jr_revision j' = jr_revision j -> j' = j).
Proof.
  intros Hr%ControlSafety.reachable_inv Hy Ht Hj.
  pose proof (ControlSafety.perform_refines now c Hy Ht s) as Hsteps.
  destruct (LifecycleTheory.steps_job _ _ _ _ _ Hsteps Hr Hj) as (j' & Hj' & He).
  destruct (LifecycleTheory.evolves_revision _ _ He) as [Hle Heq].
  exists j'. split_and!; auto using LifecycleTheory.evolves_spec.
Qed.

(** C20: No call changes an attempt except a sync by the worker it is assigned
    to, and that moves it forward from offered through accepted and running to
    an end, never back. *)
Theorem attempts_isolated (now : time) (c : Call) (s : St) (aid : string) (a : AttemptRow) :
  GoTime.fourDigitYear now -> callTyped c -> attempts (db s) !! aid = Some a ->
  exists a', attempts (db (perform now c s).2) !! aid = Some a' /\ LifecycleTheory.progresses a a' /\
    (callWorker c <> Some (at_worker_id a) -> a' = a).
Proof.
  intros Hy Ht Ha. pose proof (ControlSafety.perform_refines now c Hy Ht s) as Hsteps.
  by eapply LifecycleTheory.steps_attempt in Hsteps.
Qed.

End guarantees.

(** ** The properties in the concrete run *)

#[local] Existing Instance demoEnv.

Lemma job_attempt_agreement_witness :
  exists j, jobs (db running) !! demoJob = Some j /\ agrees (db running) demoJob j.
Proof.
  the_row (jobs (db running) !! demoJob) j E. exists j. split; [reflexivity|].
  exact (job_attempt_agreement running demoJob j running_reachable E).
Defined.

Lemma attempts_numbered_witness :
  (at_number ∘ snd <$> jobAttempts (db retried) demoJob) ≡ₚ
    seqZ 1 (Z.of_nat (length (jobAttempts (db retried) demoJob))).
Proof.
  the_row (jobs (db retried) !! demoJob) j E.
  exact (proj1 (attempts_numbered retried demoJob j retried_reachable E)).
Defined.

Lemma calls_refine_lifecycle_witness :
  rtc (step (Some demoWorker)) (coreOf (db running)) (coreOf (db (perform t0 callFail running).2)).
Proof. exact (calls_refine_lifecycle t0 callFail running t0_year I). Defined.

Lemma terminal_jobs_final_witness :
  jobs (db (perform t0 (CallCancelJob demoJob) succeeded).2) !! demoJob = jobs (db succeeded) !! demoJob.
Proof.
  the_row (jobs (db succeeded) !! demoJob) j E.
  refine (terminal_jobs_final t0 (CallCancelJob demoJob) succeeded demoJob j
    succeeded_reachable t0_year I E _).
  by rewrite (stateOf_state _ _ _ _ _ E succeeded_state).
Defined.

Lemma jobs_evolve_witness :
  exists j j', jobs (db running) !! demoJob = Some j /\
    jobs (db (perform t0 callFail running).2) !! demoJob = Some j' /\ jr_spec j' = jr_spec j.
Proof.
  the_row (jobs (db running) !! demoJob) j E. exists j.
  destruct (jobs_evolve t0 callFail running demoJob j running_reachable t0_year I E)
    as (j' & Hj' & _ & Hs & _).
  exists j'. split_and!; [reflexivity|exact Hj'|exact Hs].
Defined.

Lemma attempts_isolated_witness :
  attempts (db (perform t0 (CallCancelJob demoJob) running).2) !! demoAttempt1 =
  attempts (db running) !! demoAttempt1.
Proof.
  the_row (attempts (db running) !! demoAttempt1) a E.
  destruct (attempts_isolated t0 (CallCancelJob demoJob) running demoAttempt1 a t0_year I E)
    as (a' & Ha' & _ & Hkeep).
  rewrite Ha'. f_equal. apply Hkeep. discriminate.
Defined.
