(* ===== verification/History.v ===== *)
(** * What the database never forgets

    Every call only adds to the event log, the worker events, the metric
    samples, the idempotency keys and the health firings, and removes no job,
    attempt, worker, API token or webhook target. *)

From S2P Require Import Prelude Times GoLib Ids Domain Validate Database Jobs Health Events.
From S2P Require Import Lifecycle Auth Scheduler Sync Control Scenario.

(** ** Calls that relate the databases before and after *)

Definition obeys `{Env} {A} (R : relation DB) (m : Act A) : Prop :=
  forall s, R (db s) (db (m s).2).

Record grows (d d' : DB) : Prop := {
  g_events : events d `prefix_of` events d';
  g_worker_events : worker_events d `prefix_of` worker_events d';
  g_metric_samples : metric_samples d `prefix_of` metric_samples d';
  g_keys : idempotency_keys d ⊆ idempotency_keys d';
  g_firings : health_firings d ⊆ health_firings d';
  g_targets : webhook_targets d ⊆ webhook_targets d';
  g_jobs : dom (jobs d) ⊆ dom (jobs d');
  g_attempts : dom (attempts d) ⊆ dom (attempts d');
  g_workers : dom (workers d) ⊆ dom (workers d');
  g_tokens : dom (api_tokens d) ⊆ dom (api_tokens d');
}.

#[export] Instance grows_preorder : PreOrder grows.
Proof.
  split.
  - intros d. by split.
  - intros d1 d2 d3 [] []. split; by etrans.
Qed.

Module HistoryTheory.
Section obeys.
Context `{Env} (R : relation DB) `{!PreOrder R}.

Lemma obeys_ret {A} (a : A) : obeys R (mret a).
Proof. intros s. reflexivity. Qed.
Lemma obeys_fail {A} e : obeys R (mfail (A := A) e).
Proof. intros s. reflexivity. Qed.
Lemma obeys_guard b e : obeys R (mguard b e).
Proof. by destruct b; intros s. Qed.
Lemma obeys_query {A} (f : DB -> A) : obeys R (query f).
Proof. intros s. reflexivity. Qed.
Lemma obeys_found {A} (o : option A) e : obeys R (found o e).
Proof. by destruct o; intros s. Qed.
Lemma obeys_newID p : obeys R (newID p).
Proof. intros s. unfold newID. by destruct (New _ _). Qed.
Lemma obeys_bind {A B} (m : Act A) (k : A -> Act B) :
  obeys R m -> (forall a, obeys R (k a)) -> obeys R (m ≫= k).
Proof.
  intros Hm Hk s. specialize (Hm s). unfold mbind, M_bind.
  destruct (m s) as [[a|e] s1]; [|done]. etrans; [exact Hm|apply Hk].
Qed.
Lemma obeys_guard_bind {A} b e (k : Act A) : (b = true -> obeys R k) -> obeys R (mguard b e ;; k).
Proof. intros Hk s. destruct b; [by apply Hk|]. reflexivity. Qed.
Lemma obeys_tx {A} (m : Act A) : obeys R m -> obeys R (tx m).
Proof. intros Hm s. specialize (Hm s). unfold tx. by destruct (m s) as [[a|e] s1]. Qed.
Lemma obeys_exec f : (forall d, R d (f d)) -> obeys R (exec f).
Proof. intros Hf s. apply Hf. Qed.
Lemma obeys_execIf ok e f : (forall d, ok d = true -> R d (f d)) -> obeys R (execIf ok e f).
Proof. intros Hf s. unfold execIf. rewrite query_run. destruct (ok (db s)) eqn:E; [by apply Hf|reflexivity]. Qed.
Lemma obeys_insertOrIgnore ignored ok e f :
  (forall d, ignored d = false -> ok d = true -> R d (f d)) -> obeys R (insertOrIgnore ignored ok e f).
Proof.
  intros Hf s. unfold insertOrIgnore.
  destruct (ignored (db s)) eqn:E1; [reflexivity|]. destruct (ok (db s)) eqn:E2; [by apply Hf|reflexivity].
Qed.
Lemma obeys_mfor {A} (xs : list A) (body : A -> Act unit) :
  (forall x, obeys R (body x)) -> obeys R (mfor xs body).
Proof.
  intros Hb. induction xs as [|x xs IH]; simpl; [apply obeys_ret|]. apply obeys_bind; auto.
Qed.
Lemma obeys_mfold {A B} (xs : list A) (b : B) (body : B -> A -> Act B) :
  (forall b x, obeys R (body b x)) -> obeys R (mfold xs b body).
Proof.
  intros Hb. revert b. induction xs as [|x xs IH]; intros b; simpl; [apply obeys_ret|].
  apply obeys_bind; auto.
Qed.
Lemma obeys_logged {A} (m : Act A) : obeys R m -> obeys R (logged m).
Proof. intros Hm s. apply Hm. Qed.
End obeys.

Lemma obeys_offerLoop `{Env} R `{!PreOrder R} w now cap al queue :
  (forall jid, obeys R (offerAttempt w now jid)) -> obeys R (offerLoop w now cap al queue).
Proof.
  intros Ho. revert al. induction queue as [|job rest IH]; intros al; simpl; [by apply obeys_ret|].
  destruct (_ <=? _); [by apply obeys_ret|]. destruct (negb _); [apply IH|].
  apply obeys_bind; auto.
Qed.

(** ** The statements grow the database *)

Lemma grows_prefix {A} (l l' : list A) : l `prefix_of` l ++ l'.
Proof. by exists l'. Qed.

Lemma grows_dom_insert {A} (m : gmap string A) k x : dom m ⊆ dom (<[k := x]> m).
Proof. rewrite dom_insert. set_solver +. Qed.

Lemma grows_dom_alter {A} (m : gmap string A) k f : dom m ⊆ dom (alter f k m).
Proof. by rewrite dom_alter. Qed.

End HistoryTheory.
Export HistoryTheory.

Create HintDb ops.
#[export] Hint Unfold parsed scanJob getJob GetJob checkTargets CreateJob cancelRow cancelJobTx CancelJob
  ListJobs insertJob insertAttempt insertWorker insertWorkerToken insertEvent insertWorkerEvent
  insertMetricSample upsertArtifact insertIdempotencyKey insertTarget insertFiring insertDelivery
  updateJob updateAttempt appendControlEvent CreateWebhookTarget fireHealthPolicyTx fireHealthPolicy
  metricStalled policyFires scanCandidate evaluatePolicy EvaluateHealthPolicies DueWebhookDeliveries
  RecordWebhookResult recordArtifacts applyAccepted applyStarted fireFinished applyFinished
  applyArtifacts applyMetric applyWorkerEvent recordWorkerEvent nextAttemptNumber offerAttempt
  scanJobs offerJobs CreateWorker AuthenticateWorkerToken runCommand offeredCommands cancelCommands
  SyncWorker scanWorker ListWorkers insertToken insertSession CreateAPIToken AuthenticateAPIToken
  CreateBrowserSession AuthenticateBrowserSession DeleteBrowserSession ignore perform : ops.

(** One statement keeps what the database holds. *)
Ltac grown :=
  repeat match goal with
  | H : bool_decide _ = true |- _ => apply bool_decide_eq_true in H
  | H : bool_decide (_ \/ _) = false |- _ => apply bool_decide_eq_false in H; apply Decidable.not_or in H as [H _]
  | H : ~ is_Some _ |- _ => apply eq_None_not_Some in H
  end; destruct_and?; split; simpl;
  solve [done | apply grows_prefix | apply grows_dom_insert | apply grows_dom_alter
        | by apply insert_subseteq].

(** Follows the control flow of a call down to its statements; [leaf] proves
    the relation for one of them. *)
Ltac obey_step leaf :=
  match goal with
  | |- obeys _ (mret _) => apply obeys_ret; apply _
  | |- obeys _ (mfail _) => apply obeys_fail; apply _
  | |- obeys _ (mguard _ _) => apply obeys_guard; apply _
  | |- obeys _ (query _) => apply obeys_query; apply _
  | |- obeys _ (found _ _) => apply obeys_found; apply _
  | |- obeys _ (newID _) => apply obeys_newID; apply _
  | |- obeys _ (mguard _ _ ≫= _) => apply obeys_guard_bind; [apply _|intros ?]
  | |- obeys _ (_ ≫= _) => apply obeys_bind; [apply _| |intros ?]
  | |- obeys _ (tx _) => apply obeys_tx; [apply _|]
  | |- obeys _ (insertOrIgnore _ _ _ _) => apply obeys_insertOrIgnore; [apply _|intros ? ? ?; leaf]
  | |- obeys _ (exec _) => apply obeys_exec; intros ?; leaf
  | |- obeys _ (execIf _ _ _) => apply obeys_execIf; [apply _|intros ? ?; leaf]
  | |- obeys _ (mfor _ _) => apply obeys_mfor; [apply _|intros ?]
  | |- obeys _ (mfold _ _ _) => apply obeys_mfold; [apply _|intros ? ?]
  | |- obeys _ (logged _) => apply obeys_logged
  | |- obeys _ (offerLoop _ _ _ _ _) => apply obeys_offerLoop; [apply _|intros ?]
  | |- obeys _ (match ?x with _ => _ end) => destruct x
  | |- obeys _ _ => progress autounfold with ops
  end.
Ltac obey leaf := repeat obey_step leaf.

Section history.
Context `{Env}.

Lemma perform_grows now c : obeys grows (perform now c).
Proof. destruct c; obey grown. Qed.
End history.

Section properties.
Context `{Env}.

(** Every call, whatever its outcome, only appends to the control event log,
    the recorded worker events and the metric samples, keeps every idempotency
    key, health firing and webhook target as it is, and removes no job, attempt,
    worker or API token. *)
Theorem history_append_only (now : time) (c : Call) (s : St) : grows (db s) (db (perform now c s).2).
Proof. apply perform_grows. Qed.

End properties.
