(* ===== verification/AuthProperties.v ===== *)
(** * Tokens and sessions: the properties

    The sessions table as a finite map from the digest of the secret to the
    token and the instant of expiry. Creating, authenticating and deleting
    sessions act on that map as the specification says, although the table
    stores and compares expiries as text. *)

From S2P Require Import Prelude Times GoLib Ids Domain Validate Database Jobs Health Events.
From S2P Require Import Lifecycle Auth Scheduler Sync Control Scenario History.

(** ** The abstract sessions *)

Definition absSession (row : SessionRow) : option (string * time) :=
  t ← parseTime (bs_expires_at row); Some (bs_token_id row, t).

(** The token and the expiry of each session. *)
Definition absSessions (d : DB) : gmap string (string * time) := omap absSession (browser_sessions d).

(** Every stored expiry is the sortable text of a time. *)
Definition sessionsFormatted (d : DB) : Prop :=
  map_Forall (λ _ row, exists t, GoTime.fourDigitYear t /\ bs_expires_at row = formatSortableTime t)
    (browser_sessions d).

(** A call keeps a property of the database. *)
Definition preserves (P : DB -> Prop) : relation DB := λ d d', P d -> P d'.

#[export] Instance preserves_preorder P : PreOrder (preserves P).
Proof. split; unfold preserves; [intros d|intros d1 d2 d3]; auto. Qed.

(** The session of [hash] belongs to an active token and expires at [expiresAt]. *)
Definition sessionHeld (hash tokenID : string) (expiresAt : time) (d : DB) : Prop :=
  (exists row, browser_sessions d !! hash = Some row /\ bs_token_id row = tokenID /\
    bs_expires_at row = formatSortableTime expiresAt) /\
  (exists t, api_tokens d !! tokenID = Some t /\ tk_revoked_at t = None).

(** The token is stored, active, and the only one with its digest. *)
Definition tokenHeld (hash : string) (token : APIToken) (d : DB) : Prop :=
  (exists row, api_tokens d !! tok_ID token = Some row /\ tk_hash row = hash /\
    tk_name row = tok_Name token /\ tk_scope row = tok_Scope token /\ tk_revoked_at row = None) /\
  map_Forall (λ id row, tk_hash row = hash -> id = tok_ID token) (api_tokens d).

Module AuthTheory.
Section auth.
Context `{Env}.

(** *** The invariants under every call *)

Lemma formatted_drop text d : sessionsFormatted d -> sessionsFormatted (dropExpired text d).
Proof. intros Hf h row [Hrow _]%map_lookup_filter_Some. by eapply Hf. Qed.

Lemma formatted_alter h now d : sessionsFormatted d ->
  sessionsFormatted (with_browser_sessions (alter (setSessionUsed now) h (browser_sessions d)) d).
Proof.
  intros Hf h' row' Hrow. simpl in Hrow. apply lookup_alter_Some in Hrow as
    [(<- & row & Hrow & ->)|[_ Hrow]]; [exact (Hf _ _ Hrow)|by eapply Hf].
Qed.

(** Leaf tactic for calls on other tables. *)
Ltac untouched := intros Hp; exact Hp.

Lemma perform_formatted now c : GoTime.fourDigitYear now -> callTyped c ->
  obeys (preserves sessionsFormatted) (perform now c).
Proof.
  intros Hy Ht. destruct c; try solve [obey untouched]; simpl in Ht.
  - obey idtac; [intros Hf; by apply formatted_drop|]. intros Hf h row Hrow. simpl in Hrow.
    apply lookup_insert_Some in Hrow as [[_ <-]|[_ Hrow]]; [by eexists|by eapply Hf].
  - obey idtac. intros Hf. by apply formatted_alter.
  - obey idtac. intros Hf h row Hrow. simpl in Hrow.
    apply lookup_delete_Some in Hrow as [_ Hrow]. by eapply Hf.
Qed.

Lemma reachable_formatted s : reachable s -> sessionsFormatted (db s).
Proof.
  intros Hr. apply (ControlSafety.calls_ind (λ s, sessionsFormatted (db s)) initial); [|exact Hr|].
  - intros s1 now c Hy Ht. by apply perform_formatted.
  - by apply map_Forall_empty.
Qed.

(** *** Lookups *)

Lemma absSessions_lookup d h : absSessions d !! h = browser_sessions d !! h ≫= absSession.
Proof. apply lookup_omap. Qed.

Lemma absSession_formatted row t : GoTime.fourDigitYear t -> bs_expires_at row = formatSortableTime t ->
  absSession row = Some (bs_token_id row, t).
Proof. intros Hy He. unfold absSession. by rewrite He, TimesTheory.parse_formatSortableTime. Qed.

(** The join with the token, in terms of instants. *)
Lemma sessionRow_spec d h now : sessionsFormatted d -> GoTime.fourDigitYear now ->
  sessionRow d h (formatSortableTime now) =
  '(tokenID, expiresAt) ← absSessions d !! h;
  t ← api_tokens d !! tokenID;
  if bool_decide (now < expiresAt /\ tk_revoked_at t = None)
  then Some (tokenID, tk_name t, formatSortableTime expiresAt) else None.
Proof.
  intros Hf Hy. unfold sessionRow. rewrite absSessions_lookup.
  destruct (browser_sessions d !! h) as [row|] eqn:Erow; [|done]. simpl.
  destruct (Hf _ _ Erow) as (t & Ht & He). rewrite (absSession_formatted _ _ Ht He). simpl.
  rewrite He, TimesTheory.formatSortableTime_ltb by done.
  destruct (api_tokens d !! bs_token_id row) as [tk|]; [|reflexivity]. cbn [mbind option_bind].
  erewrite bool_decide_ext; [reflexivity|]. by rewrite Z.ltb_lt.
Qed.

Lemma absSessions_used h now d :
  absSessions (with_browser_sessions (alter (setSessionUsed now) h (browser_sessions d)) d) = absSessions d.
Proof.
  apply map_eq. intros i. rewrite !absSessions_lookup. simpl.
  destruct (decide (h = i)) as [<-|]; [rewrite lookup_alter_eq|by rewrite lookup_alter_ne].
  destruct (browser_sessions d !! h); reflexivity.
Qed.

Lemma absSessions_drop now d : GoTime.fourDigitYear now -> sessionsFormatted d ->
  absSessions (dropExpired (formatSortableTime now) d) = filter (λ ks, now < ks.2.2) (absSessions d).
Proof.
  intros Hy Hf. apply map_eq. intros h. rewrite map_lookup_filter, !absSessions_lookup.
  unfold dropExpired. simpl. rewrite map_lookup_filter.
  destruct (browser_sessions d !! h) as [row|] eqn:Erow; [|done]. simpl.
  destruct (Hf _ _ Erow) as (t & Ht & He). rewrite (absSession_formatted _ _ Ht He). simpl.
  case_guard as G; case_guard as G'; simpl; rewrite He, TimesTheory.formatSortableTime_leb in G by done;
    simpl in *; rewrite ?(absSession_formatted _ _ Ht He); try done; lia.
Qed.

Lemma absSessions_insert h row t d : GoTime.fourDigitYear t -> bs_expires_at row = formatSortableTime t ->
  absSessions (with_browser_sessions (<[h := row]> (browser_sessions d)) d) =
  <[h := (bs_token_id row, t)]> (absSessions d).
Proof.
  intros Ht He. unfold absSessions. simpl. by rewrite (omap_insert_Some _ _ _ _ (_, t)) by
    by apply absSession_formatted.
Qed.

(** *** Held sessions and tokens *)

Lemma held_session_used hash tokenID expiry h now d : sessionHeld hash tokenID expiry d ->
  sessionHeld hash tokenID expiry
    (with_browser_sessions (alter (setSessionUsed now) h (browser_sessions d)) d).
Proof.
  intros [(row & Hrow & Hid & He) Ht]. split; [|exact Ht]. simpl.
  destruct (decide (h = hash)) as [->|]; [rewrite lookup_alter_eq, Hrow|rewrite lookup_alter_ne by done];
    eauto.
Qed.

Lemma held_token_used hash tokenID expiry h now d : sessionHeld hash tokenID expiry d ->
  sessionHeld hash tokenID expiry (with_api_tokens (alter (setUsed now) h (api_tokens d)) d).
Proof.
  intros [Hs (t & Ht & Hr)]. split; [exact Hs|]. simpl.
  destruct (decide (h = tokenID)) as [->|]; [rewrite lookup_alter_eq, Ht|rewrite lookup_alter_ne by done];
    eauto.
Qed.

Lemma held_drop hash tokenID expiry now d : GoTime.fourDigitYear now -> GoTime.fourDigitYear expiry ->
  now < expiry -> sessionHeld hash tokenID expiry d ->
  sessionHeld hash tokenID expiry (dropExpired (formatSortableTime now) d).
Proof.
  intros Hn Hx Hlt [(row & Hrow & Hid & He) Ht]. split; [|exact Ht]. exists row. split; [|done].
  simpl. apply map_lookup_filter_Some. split; [done|]. simpl.
  rewrite He, TimesTheory.formatSortableTime_leb by done. lia.
Qed.

(** A call made before the expiry, other than the deletion of the session. *)
Definition quiet (hash : string) (expiry now : time) (c : Call) : Prop :=
  GoTime.fourDigitYear now /\ callTyped c /\ now < expiry /\
  match c with CallDeleteBrowserSession raw => sha256 raw <> hash | _ => True end.

Lemma perform_session_held hash tokenID expiry now c : GoTime.fourDigitYear expiry ->
  quiet hash expiry now c -> obeys (preserves (sessionHeld hash tokenID expiry)) (perform now c).
Proof.
  intros Hx (Hy & Ht & Hlt & Hq). destruct c; try solve [obey untouched].
  - obey idtac. intros [Hs (t & Hrow & Hr)]. split; [exact Hs|]. exists t. split; [|done]. simpl.
    rewrite lookup_insert_ne; [done|]. intros ->. runs. naive_solver.
  - obey idtac. intros Hh. by apply held_token_used.
  - obey idtac; [intros Hh; by apply held_drop|]. intros [(row & Hrow & Hr) Htok]. split; [|exact Htok].
    exists row. split; [|done]. simpl. rewrite lookup_insert_ne; [done|]. intros Heq. runs. naive_solver.
  - obey idtac. intros Hh. by apply held_session_used.
  - obey idtac. intros [(row & Hrow & Hr) Htok]. split; [|exact Htok].
    exists row. split; [|done]. simpl. by rewrite lookup_delete_ne.
Qed.

Lemma perform_token_held hash token now c : obeys (preserves (tokenHeld hash token)) (perform now c).
Proof.
  destruct c; try solve [obey untouched].
  - obey idtac. intros [(row & Hrow & Hr) Hu]. runs. split.
    + exists row. split; [|done]. simpl. rewrite lookup_insert_ne; naive_solver.
    + intros id row' Hrow' Hh. simpl in Hrow'. apply lookup_insert_Some in Hrow' as [[<- <-]|[_ Hrow']].
      * exfalso. simpl in Hh. destruct_and?.
        match goal with Hall : map_Forall (λ _ t, _ /\ _) _ |- _ => by destruct (Hall _ _ Hrow); subst end.
      * by eapply Hu.
  - obey idtac. intros [(row & Hrow & Hr) Hu]. split.
    + simpl. destruct (decide (a0.1 = tok_ID token)) as [->|].
      * rewrite lookup_alter_eq, Hrow. by eexists.
      * rewrite lookup_alter_ne by done. by exists row.
    + intros id row' Hrow' Hh. simpl in Hrow'.
      apply lookup_alter_Some in Hrow' as [(<- & row'' & Hrow' & ->)|[_ Hrow']]; by eapply Hu.
Qed.

(** An active session authenticates. *)
Lemma held_authenticates now raw tokenID expiry s : GoTime.fourDigitYear now -> GoTime.fourDigitYear expiry ->
  now < expiry -> sessionHeld (sha256 raw) tokenID expiry (db s) -> exists name,
  (AuthenticateBrowserSession now raw s).1 =
    Ok {| ses_TokenID := tokenID; ses_TokenName := name; ses_ExpiresAt := expiry |}.
Proof.
  intros Hn Hx Hlt [(row & Hrow & <- & He) (t & Ht & Hr)]. exists (tk_name t).
  unfold AuthenticateBrowserSession. rewrite query_run. unfold sessionRow.
  rewrite Hrow. cbn [mbind option_bind]. rewrite Ht. cbn [mbind option_bind].
  rewrite He, bool_decide_eq_true_2.
  2: { rewrite TimesTheory.formatSortableTime_ltb by done. split; [lia|done]. }
  unfold found. rewrite (bind_run _ _ _ _ s) by reflexivity.
  unfold parsed. rewrite TimesTheory.parse_formatSortableTime by done. reflexivity.
Qed.

Lemma head_rowsWhere (P : string * TokenRow -> Prop) `{forall x, Decision (P x)} table id row :
  table !! id = Some row -> P (id, row) ->
  (forall id' row', table !! id' = Some row' -> P (id', row') -> id' = id) ->
  head (rowsWhere P table) = Some (id, row).
Proof.
  intros Hrow HP Hu. assert (Hin : (id, row) ∈ rowsWhere P table) by by apply elem_of_rowsWhere.
  destruct (rowsWhere P table) as [|[id' row'] l] eqn:E; [by apply elem_of_nil in Hin|]. simpl.
  assert (Hin' : (id', row') ∈ rowsWhere P table) by (rewrite E; apply list_elem_of_here).
  apply elem_of_rowsWhere in Hin' as [HP' Hrow']. assert (id' = id) as -> by by eapply Hu. congruence.
Qed.
(** What a created session and a created token have done. *)
Lemma CreateBrowserSession_ok now tokenID raw expiry s u s' :
  CreateBrowserSession now tokenID raw expiry s = (Ok u, s') -> now < expiry /\
  is_Some (api_tokens (db s) !! tokenID) /\
  let d := dropExpired (formatSortableTime now) (db s) in
  db s' = with_browser_sessions (<[sha256 raw := {| bs_token_id := tokenID;
    bs_created_at := formatSortableTime now; bs_expires_at := formatSortableTime expiry;
    bs_last_used_at := formatSortableTime now |}]> (browser_sessions d)) d.
Proof.
  unfold CreateBrowserSession, insertSession. intros Hr. runs.
  destruct_and?. split_and!; [lia|done|done].
Qed.

Lemma CreateAPIToken_ok now name raw token s s' : CreateAPIToken now name raw s = (Ok token, s') ->
  api_tokens (db s) !! tok_ID token = None /\
  map_Forall (λ _ t, tk_hash t <> sha256 raw) (api_tokens (db s)) /\
  db s' = with_api_tokens (<[tok_ID token := {| tk_name := tok_Name token; tk_hash := sha256 raw;
    tk_scope := tok_Scope token; tk_created_at := formatTime now; tk_last_used_at := None;
    tk_revoked_at := None |}]> (api_tokens (db s))) (db s).
Proof.
  unfold CreateAPIToken, insertToken. intros Hr. runs. destruct_and?. subst token.
  split_and!; [done| |done]. eapply map_Forall_impl; [eassumption|]. simpl. tauto.
Qed.
End auth.
End AuthTheory.

Section properties.
Context `{Env}.

(** A session that was created keeps authenticating as its token, with its
    expiry, at every time before the expiry and after any calls made before it,
    unless it is deleted. *)
Theorem session_lasts (now now' : time) (tokenID raw : string) (expiry : time) (s s1 s2 : St) :
  GoTime.fourDigitYear now' -> GoTime.fourDigitYear expiry -> now' < expiry ->
  map_Forall (λ _ t, tk_revoked_at t = None) (api_tokens (db s)) ->
  CreateBrowserSession now tokenID raw expiry s = (Ok tt, s1) ->
  rtc (λ x y, exists t c, AuthTheory.quiet (sha256 raw) expiry t c /\ y = (perform t c x).2) s1 s2 ->
  exists name, (AuthenticateBrowserSession now' raw s2).1 =
    Ok {| ses_TokenID := tokenID; ses_TokenName := name; ses_ExpiresAt := expiry |}.
Proof.
  intros Hy Hx Hlt Hact Hr Hcalls. apply AuthTheory.held_authenticates; [done..|].
  assert (H1 : sessionHeld (sha256 raw) tokenID expiry (db s1)).
  { apply AuthTheory.CreateBrowserSession_ok in Hr as (_ & [t Ht] & ->).
    split; [eexists; split; [apply lookup_insert_eq|done]|]. exists t. split; [exact Ht|]. by eapply Hact. }
  clear Hr. induction Hcalls as [|x y z (t & c & Hq & ->) _ IH]; [done|]. apply IH.
  by apply (AuthTheory.perform_session_held _ _ _ t c Hx Hq).
Qed.

(** In every reachable state a secret authenticates exactly when its session
    expires later than now and its token is not revoked; the answer is the
    session's token and expiry, and no session changes its token or expiry. *)
Theorem session_authentication (now : time) (raw : string) (s : St) :
  reachable s -> GoTime.fourDigitYear now ->
  let session := absSessions (db s) !! sha256 raw in
  match AuthenticateBrowserSession now raw s with
  | (Ok ses, s') => session = Some (ses_TokenID ses, ses_ExpiresAt ses) /\ now < ses_ExpiresAt ses /\
      (exists t, api_tokens (db s) !! ses_TokenID ses = Some t /\ tk_revoked_at t = None /\
        tk_name t = ses_TokenName ses) /\
      absSessions (db s') = absSessions (db s)
  | (Err e, s') => e = ErrNotFound /\ s' = s /\ forall tokenID expiry t, session = Some (tokenID, expiry) ->
      api_tokens (db s) !! tokenID = Some t -> tk_revoked_at t = None -> expiry <= now
  end.
Proof.
  intros Hs Hy session. pose proof (AuthTheory.reachable_formatted s Hs) as Hf.
  unfold AuthenticateBrowserSession. rewrite query_run, AuthTheory.sessionRow_spec by done.
  fold session. destruct session as [[tokenID expiry]|] eqn:E; [|done]. cbn [mbind option_bind].
  destruct (api_tokens (db s) !! tokenID) as [t|] eqn:Et; cbn [mbind option_bind].
  2: { split_and!; [done..|]. intros ??? [= <- <-] Ht. congruence. }
  case_bool_decide as Hc.
  - destruct Hc as [Hlt Hr]. unfold parsed.
    assert (Hx : GoTime.fourDigitYear expiry /\ parseTime (formatSortableTime expiry) = Some expiry).
    { unfold session in E. rewrite AuthTheory.absSessions_lookup in E.
      destruct (browser_sessions (db s) !! sha256 raw) as [row|] eqn:Er; [|done]. simpl in E.
      destruct (Hf _ _ Er) as (x & Hx & He). rewrite (AuthTheory.absSession_formatted _ _ Hx He) in E.
      injection E as _ <-. split; [done|]. by apply TimesTheory.parse_formatSortableTime. }
    rewrite (bind_run _ _ _ (tokenID, tk_name t, formatSortableTime expiry) s) by reflexivity.
    unfold parsed. destruct Hx as [_ ->]. simpl. split_and!; [done|done|by exists t|].
    apply AuthTheory.absSessions_used.
  - split_and!; [done..|]. intros ? ? t' [= <- <-] Ht' Hr. rewrite Et in Ht'. injection Ht' as ->.
    destruct (decide (now < expiry)); [|lia]. exfalso. by apply Hc.
Qed.

(** Creating a session adds it to the sessions and drops exactly those that
    have expired, whatever the text of their expiry looks like. *)
Theorem session_created (now expiry : time) (tokenID raw : string) (s s' : St) :
  reachable s -> GoTime.fourDigitYear now -> GoTime.fourDigitYear expiry ->
  CreateBrowserSession now tokenID raw expiry s = (Ok tt, s') ->
  now < expiry /\ absSessions (db s') =
    <[sha256 raw := (tokenID, expiry)]> (filter (λ ks, now < ks.2.2) (absSessions (db s))).
Proof.
  intros Hs Hy Hx Hr. pose proof (AuthTheory.reachable_formatted s Hs) as Hf.
  apply AuthTheory.CreateBrowserSession_ok in Hr as (Hlt & _ & ->). split; [done|].
  rewrite <- AuthTheory.absSessions_drop by done.
  exact (AuthTheory.absSessions_insert _ {| bs_token_id := tokenID;
    bs_created_at := formatSortableTime now; bs_expires_at := formatSortableTime expiry;
    bs_last_used_at := formatSortableTime now |} expiry _ Hx eq_refl).
Qed.

(** An API token authenticates from its creation on, after any calls: a
    secret is accepted as that token exactly when its digest is the token's. *)
Theorem api_token_lasts (now now' : time) (name raw raw' : string) (token : APIToken) (s s1 s2 : St) :
  CreateAPIToken now name raw s = (Ok token, s1) -> rtc callStep s1 s2 ->
  (AuthenticateAPIToken now' raw' s2).1 = Ok token <-> sha256 raw' = sha256 raw.
Proof.
  intros Hr Hcalls. assert (H2 : tokenHeld (sha256 raw) token (db s2)).
  { apply (ControlSafety.calls_ind (λ s, tokenHeld (sha256 raw) token (db s)) s1); [|exact Hcalls|].
    - intros x t c _ _. apply (AuthTheory.perform_token_held (sha256 raw) token t c x).
    - apply AuthTheory.CreateAPIToken_ok in Hr as (Hn & Hu & ->). split.
      + eexists. split; [apply lookup_insert_eq|done].
      + intros id row Hrow Hh. simpl in Hrow. apply lookup_insert_Some in Hrow as [[<- _]|[_ Hrow]]; [done|].
        by destruct (Hu _ _ Hrow). }
  destruct H2 as [(row & Hrow & Hh & Hname & Hscope & Hrev) Hu].
  unfold AuthenticateAPIToken. rewrite query_run. split.
  - intros Ha. destruct (head _) as [[id row']|] eqn:Eh; [|done]. simpl in Ha. injection Ha as <-.
    simpl in *. apply head_Some_elem_of, elem_of_rowsWhere in Eh as [[Hh' _] Hrow']. simpl in *. congruence.
  - intros He. unfold tokenRows. rewrite (AuthTheory.head_rowsWhere _ _ (tok_ID token) row); [|done|split; simpl; congruence|].
    + simpl. rewrite Hname, Hscope. by destruct token.
    + intros id row' Hrow' [Hh' _]. eapply Hu; [exact Hrow'|]. simpl in Hh'. congruence.
Qed.

End properties.

(** ** The properties in a concrete run *)

#[local] Existing Instance demoEnv.

Definition demoSecret : string := unchars (replicate 40 "s"%char).
Definition demoTokenRun : result Error APIToken * St := CreateAPIToken t0 " ops " demoToken submitted.
Definition demoTokenID : string := match demoTokenRun.1 with Ok token => tok_ID token | Err _ => "" end.
Definition demoSession : result Error unit * St :=
  CreateBrowserSession t0 demoTokenID demoSecret (t0 + GoTime.Hour) demoTokenRun.2.

Lemma demoExpiry_year : GoTime.fourDigitYear (t0 + GoTime.Hour).
Proof. apply (bool_decide_unpack _). vm_compute. exact I. Qed.
Lemma demoMinute_year : GoTime.fourDigitYear (t0 + GoTime.Minute).
Proof. apply (bool_decide_unpack _). vm_compute. exact I. Qed.

(** A successful run as the pair of its result and its state. *)
Lemma run_pair {A} (m : result Error A * St) a : m.1 = Ok a -> m = (Ok a, m.2).
Proof. destruct m. simpl. by intros ->. Qed.

Lemma demoSession_ok : demoSession.1 = Ok tt.
Proof. vm_compute. reflexivity. Qed.

Lemma demoSession_run : CreateBrowserSession t0 demoTokenID demoSecret (t0 + GoTime.Hour) demoTokenRun.2 =
  (Ok tt, demoSession.2).
Proof. exact (run_pair demoSession tt demoSession_ok). Qed.

Lemma tokened_reachable : reachable demoTokenRun.2.
Proof.
  pose proof (reachable_after submitted (CallCreateAPIToken " ops " demoToken) submitted_reachable I) as Hr.
  unfold after, perform, ignore, mbind, M_bind in Hr. fold demoTokenRun in Hr.
  by destruct demoTokenRun as [[]].
Qed.

Lemma session_reachable : reachable demoSession.2.
Proof.
  pose proof (reachable_after _ (CallCreateBrowserSession demoTokenID demoSecret (t0 + GoTime.Hour))
    tokened_reachable demoExpiry_year) as Hr.
  unfold after, perform, ignore, mbind, M_bind in Hr. fold demoSession in Hr. by destruct demoSession as [[]].
Qed.

Lemma session_lasts_witness : exists name,
  (AuthenticateBrowserSession (t0 + GoTime.Minute) demoSecret
     (perform t0 (CallAuthenticateBrowserSession demoSecret) demoSession.2).2).1 =
  Ok {| ses_TokenID := demoTokenID; ses_TokenName := name; ses_ExpiresAt := t0 + GoTime.Hour |}.
Proof.
  refine (session_lasts t0 (t0 + GoTime.Minute) demoTokenID demoSecret (t0 + GoTime.Hour)
    demoTokenRun.2 demoSession.2 _ demoMinute_year demoExpiry_year _ _ demoSession_run (rtc_once _ _ _)).
  - vm_compute. reflexivity.
  - apply (bool_decide_unpack _). vm_compute. reflexivity.
  - exists t0, (CallAuthenticateBrowserSession demoSecret). split; [|reflexivity].
    split; [apply t0_year|]. split; [exact I|]. split; [reflexivity|exact I].
Defined.

Lemma session_authentication_witness :
  match AuthenticateBrowserSession t0 demoSecret demoSession.2 with
  | (Ok ses, s') => ses_TokenID ses = demoTokenID /\ t0 < ses_ExpiresAt ses
  | (Err e, s') => False
  end.
Proof.
  pose proof (session_authentication t0 demoSecret demoSession.2 session_reachable t0_year) as H.
  assert (Hs : absSessions (db demoSession.2) !! sha256 demoSecret = Some (demoTokenID, t0 + GoTime.Hour))
    by (vm_compute; reflexivity).
  assert (Hok : isOk (AuthenticateBrowserSession t0 demoSecret demoSession.2).1 = true)
    by (vm_compute; reflexivity).
  destruct (AuthenticateBrowserSession t0 demoSecret demoSession.2) as [[ses|e] s']; [|discriminate Hok].
  destruct H as (H1 & H2 & _). split; [|exact H2]. rewrite Hs in H1.
  apply Some_inj, (f_equal fst) in H1. symmetry. exact H1.
Defined.

Lemma session_created_witness : absSessions (db demoSession.2) =
  <[sha256 demoSecret := (demoTokenID, t0 + GoTime.Hour)]>
    (filter (λ ks, t0 < ks.2.2) (absSessions (db demoTokenRun.2))).
Proof.
  exact (proj2 (session_created t0 (t0 + GoTime.Hour) demoTokenID demoSecret demoTokenRun.2 demoSession.2
    tokened_reachable t0_year demoExpiry_year demoSession_run)).
Defined.

Lemma api_token_lasts_witness : exists token,
  (AuthenticateAPIToken t0 demoToken demoTokenRun.2).1 = Ok token /\
  (AuthenticateAPIToken t0 demoSecret demoTokenRun.2).1 <> Ok token.
Proof.
  destruct demoTokenRun as [[token|e] s1] eqn:E.
  - exists token. split.
    + apply (api_token_lasts t0 t0 _ _ demoToken _ _ s1 s1 E (rtc_refl _ _)). reflexivity.
    + intros Hok. apply (api_token_lasts t0 t0 _ _ demoSecret _ _ s1 s1 E (rtc_refl _ _)) in Hok.
      vm_compute in Hok. discriminate Hok.
  - exfalso. assert (Hok : isOk demoTokenRun.1 = true) by (vm_compute; reflexivity).
    rewrite E in Hok. discriminate Hok.
Defined.
