(* ===== verification/HealthProperties.v ===== *)
(** * Health policies and webhook deliveries: the properties

    The tables of firings and deliveries stay well formed under every call, a
    policy fires once per key, and a delivery is retried on a schedule until it
    is delivered or dead. *)

From S2P Require Import Prelude FloatOrder Times GoLib Ids Domain Validate Database Jobs Health Events.
From S2P Require Import Lifecycle Auth Scheduler Sync Control Scenario History AuthProperties.

(** ** Well-formed hooks *)

Record deliveryOk (row : DeliveryRow) : Prop := {
  do_count : 0 <= wd_attempt_count row <= maxWebhookAttempts;
  do_pending : wd_state row = DeliveryPending -> wd_attempt_count row < maxWebhookAttempts;
  do_dead : wd_state row = DeliveryDead -> wd_attempt_count row = maxWebhookAttempts;
  do_delivered : wd_state row = DeliveryDelivered <-> is_Some (wd_delivered_at row);
  do_code : wd_state row = DeliveryDelivered -> wd_last_error row = "" /\
    exists code, wd_response_code row = Some code /\ 200 <= code < 300;
  do_error : len (wd_last_error row) <= 2000;
}.

Record hooksOk (d : DB) : Prop := {
  ho_deliveries : map_Forall (λ _ row, deliveryOk row /\ is_Some (health_firings d !! wd_firing_id row) /\
    is_Some (webhook_targets d !! wd_target_id row)) (webhook_deliveries d);
  ho_firings : forall i j f g, health_firings d !! i = Some f -> health_firings d !! j = Some g ->
    sameFiring f g -> i = j;
  ho_once : forall i j v w, webhook_deliveries d !! i = Some v -> webhook_deliveries d !! j = Some w ->
    wd_firing_id v = wd_firing_id w -> wd_target_id v = wd_target_id w -> i = j;
}.

(** A firing of the policy with the key is recorded. *)
Definition firedAlready (d : DB) (jobID attemptID : string) (policyIndex : Z) (firingKey : string) : Prop :=
  exists id f, health_firings d !! id = Some f /\ hf_job_id f = jobID /\ hf_attempt_id f = attemptID /\
    hf_policy_index f = policyIndex /\ hf_firing_key f = firingKey.

(** The wait before the retry that follows [n] failed attempts. *)
Definition retryWait (n : Z) : Z := Z.min GoTime.Hour (5 * GoTime.Second * 2 ^ (n - 1)).

(** The samples of a metric observed at or after the cutoff, in insertion order. *)
Definition windowSamples (d : DB) (attemptID metric : string) (cutoff : time) : list observedValue :=
  omap (λ r, t ← parseTime (mr_observed_at r);
    if t <? cutoff then None else Some {| ob_value := mr_value r; ob_at := t |})
  (filter (λ r, mr_attempt_id r = attemptID /\ mr_name r = metric) (metric_samples d)).

(** [best] is no worse than [v] in the direction of the mode, and by how much
    [best] is better than [first]. *)
Definition noWorse (mode : string) (best v : float64) : bool :=
  if (mode =? HealthModeMax)%string then f64_leb v best else f64_leb best v.
Definition improvement (mode : string) (first best : float64) : float64 :=
  if (mode =? HealthModeMax)%string then f64_sub best first else f64_sub first best.

Module HealthTheory.

Lemma sameFiring_sym f g : sameFiring f g -> sameFiring g f.
Proof. unfold sameFiring. intuition congruence. Qed.

(** *** One delivery attempt *)

Lemma backoff_retryWait n : 1 <= n <= 10 -> backoffAfter n = retryWait n.
Proof.
  intros Hn. assert (Hall : Forall (λ n, backoffAfter n = retryWait n) (seqZ 1 10)).
  { apply (bool_decide_unpack _). vm_compute. exact I. }
  rewrite Forall_forall in Hall. apply Hall, elem_of_seqZ. lia.
Qed.

Lemma truncate_length s n : (String.length (truncateString s n) <= n)%nat.
Proof.
  unfold truncateString. destruct (Nat.leb_spec (String.length s) n); [done|].
  assert (Hl : forall k t, (String.length (String.substring 0 k t) <= k)%nat).
  { clear. induction k as [|k IH]; intros [|c t]; simpl; try lia. specialize (IH t). lia. }
  apply Hl.
Qed.

Lemma deliveryResult_ok now code err row : deliveryOk row -> wd_state row = DeliveryPending ->
  deliveryOk (deliveryResult now code err row).
Proof.
  intros [Hc Hp _ Hd _ _] Hs. specialize (Hp Hs). unfold deliveryResult, maxWebhookAttempts in *.
  assert (Hn : ~ is_Some (wd_delivered_at row)) by (intros Hx; apply Hd in Hx; congruence).
  rewrite u32_small by lia.
  destruct ((200 <=? code) && (code <? 300) && (err =? "")%string) eqn:E.
  - apply andb_true_iff in E as [E _]. apply andb_true_iff in E as [E1 E2].
    split; simpl; try done; try (unfold maxWebhookAttempts; lia).
    intros _. split; [done|]. exists code. split; [done|]. lia.
  - pose proof (truncate_length err 2000).
    destruct (Z.leb_spec 10 (wd_attempt_count row + 1)); split; simpl; unfold len, maxWebhookAttempts;
      first [done|lia|by split].
Qed.

Lemma newDelivery_ok f t text : deliveryOk {| wd_firing_id := f; wd_target_id := t;
  wd_state := DeliveryPending; wd_attempt_count := 0; wd_next_attempt_at := text;
  wd_response_code := None; wd_last_error := ""; wd_created_at := text; wd_updated_at := text;
  wd_delivered_at := None |}.
Proof. split; simpl; unfold maxWebhookAttempts, len; simpl; try done; try lia. Qed.

Section health.
Context `{Env}.

(** *** The statements keep the hooks well formed *)

Lemma hooks_targets id row d : hooksOk d -> webhook_targets d !! id = None ->
  hooksOk (with_webhook_targets (<[id := row]> (webhook_targets d)) d).
Proof.
  intros [Hd Hf Ho] Hn. split; [|exact Hf|exact Ho]. intros i v Hv.
  destruct (Hd _ _ Hv) as (H1 & H2 & H3). split_and!; [done|done|].
  apply lookup_insert_is_Some'. by right.
Qed.

Lemma hooks_firing id row d : hooksOk d ->
  ~ (is_Some (health_firings d !! id) \/ map_Exists (λ _ f, sameFiring f row) (health_firings d)) ->
  hooksOk (with_health_firings (<[id := row]> (health_firings d)) d).
Proof.
  intros [Hd Hf Ho] Hn.
  assert (Hu : forall j g, health_firings d !! j = Some g -> sameFiring g row -> False).
  { intros j g Hg Hs. apply Hn. right. exists j, g. done. }
  split; [| |exact Ho].
  - intros i v Hv. destruct (Hd _ _ Hv) as (H1 & H2 & H3). split_and!; [done| |done].
    apply lookup_insert_is_Some'. by right.
  - intros i j f g Hi Hj Hs. simpl in Hi, Hj.
    apply lookup_insert_Some in Hi as [[<- <-]|[Hi1 Hi]], Hj as [[<- <-]|[Hj1 Hj]]; [done| | |by eapply Hf].
    + exfalso. by eapply Hu, sameFiring_sym.
    + exfalso. by eapply Hu.
Qed.

Lemma hooks_delivery id row d : hooksOk d -> deliveryOk row -> webhook_deliveries d !! id = None ->
  map_Forall (λ _ w, ~ (wd_firing_id w = wd_firing_id row /\ wd_target_id w = wd_target_id row))
    (webhook_deliveries d) ->
  is_Some (health_firings d !! wd_firing_id row) -> is_Some (webhook_targets d !! wd_target_id row) ->
  hooksOk (with_webhook_deliveries (<[id := row]> (webhook_deliveries d)) d).
Proof.
  intros [Hd Hf Ho] Hok Hn Hu H1 H2. split; [|exact Hf|].
  - intros i v Hv. simpl in Hv. apply lookup_insert_Some in Hv as [[_ <-]|[_ Hv]]; [done|by eapply Hd].
  - intros i j v w Hi Hj E1 E2. simpl in Hi, Hj.
    apply lookup_insert_Some in Hi as [[<- <-]|[Hi1 Hi]], Hj as [[<- <-]|[Hj1 Hj]];
      [done| | |by eapply Ho].
    + exfalso. by apply (Hu _ _ Hj).
    + exfalso. by apply (Hu _ _ Hi).
Qed.

(** Replacing a delivery by one of the same firing and target. *)
Lemma hooks_update id row row' d : hooksOk d -> webhook_deliveries d !! id = Some row -> deliveryOk row' ->
  wd_firing_id row' = wd_firing_id row -> wd_target_id row' = wd_target_id row ->
  hooksOk (with_webhook_deliveries (<[id := row']> (webhook_deliveries d)) d).
Proof.
  intros [Hd Hf Ho] Hrow Hok E1 E2. destruct (Hd _ _ Hrow) as (_ & H1 & H2). split; [|exact Hf|].
  - intros i v Hv. simpl in Hv. apply lookup_insert_Some in Hv as [[_ <-]|[_ Hv]]; [|by eapply Hd].
    rewrite E1, E2. done.
  - assert (Hold : forall i v, <[id := row']> (webhook_deliveries d) !! i = Some v -> exists v',
      webhook_deliveries d !! i = Some v' /\ wd_firing_id v = wd_firing_id v' /\
      wd_target_id v = wd_target_id v').
    { intros i v Hv. apply lookup_insert_Some in Hv as [[<- <-]|[_ Hv]]; eauto. }
    intros i j v w (v' & Hi & F1 & T1)%Hold (w' & Hj & F2 & T2)%Hold F T.
    apply (Ho i j v' w'); congruence.
Qed.

Lemma hooks_same d d' : webhook_deliveries d' = webhook_deliveries d -> health_firings d' = health_firings d ->
  webhook_targets d' = webhook_targets d -> hooksOk d -> hooksOk d'.
Proof. intros E1 E2 E3 []. split; by rewrite ?E1, ?E2, ?E3. Qed.

Ltac hooks :=
  let Hh := fresh "Hh" in intros Hh;
  repeat match goal with
  | H : bool_decide _ = true |- _ => apply bool_decide_eq_true in H
  | H : bool_decide _ = false |- _ => apply bool_decide_eq_false in H
  end; destruct_and?;
  first [ by eapply hooks_same; [..|exact Hh] | by apply hooks_targets | by apply hooks_firing
        | apply hooks_delivery; [exact Hh|apply newDelivery_ok|done..] ].

Lemma recordResult_hooks now id code err : obeys (preserves hooksOk) (RecordWebhookResult now id code err).
Proof.
  unfold RecordWebhookResult. apply obeys_tx; [apply _|]. intros s Hh. rewrite query_run.
  destruct (webhook_deliveries (db s) !! id) as [row|] eqn:Erow; [|exact Hh].
  rewrite (bind_run _ _ _ row s) by reflexivity.
  destruct (decide (wd_state row = DeliveryPending)) as [Hs|Hs];
    [rewrite bool_decide_eq_false_2 by (intros Hne; by apply Hne)|by rewrite bool_decide_eq_true_2].
  destruct (ho_deliveries _ Hh _ _ Erow) as (Hok & _).
  eapply hooks_update; [exact Hh|exact Erow|by apply deliveryResult_ok| |];
    unfold deliveryResult; by destruct (_ && _ && _).
Qed.

Lemma perform_hooks now c : obeys (preserves hooksOk) (perform now c).
Proof.
  destruct c; first
    [ simpl; unfold ignore; apply obeys_bind; [apply _|apply recordResult_hooks|intros; by obey idtac]
    | solve [obey hooks] ].
Qed.

Lemma reachable_hooks s : reachable s -> hooksOk (db s).
Proof.
  intros Hr. apply (ControlSafety.calls_ind (λ s, hooksOk (db s)) initial); [|exact Hr|].
  - intros s1 now c _ _. apply perform_hooks.
  - split; [apply map_Forall_empty|done|done].
Qed.
(** *** Finished deliveries stay as they are *)

Definition keepsFinished (d d' : DB) : Prop := forall id row, webhook_deliveries d !! id = Some row ->
  wd_state row <> DeliveryPending -> webhook_deliveries d' !! id = Some row.

#[global] Instance keepsFinished_preorder : PreOrder keepsFinished.
Proof. split; unfold keepsFinished; [naive_solver|]. intros d1 d2 d3 H1 H2 id row Hr Hs. eauto. Qed.

Lemma recordResult_finished now id code err : obeys keepsFinished (RecordWebhookResult now id code err).
Proof.
  unfold RecordWebhookResult. apply obeys_tx; [apply _|]. intros s. rewrite query_run.
  destruct (webhook_deliveries (db s) !! id) as [row|] eqn:Erow; [|reflexivity].
  rewrite (bind_run _ _ _ row s) by reflexivity. case_bool_decide as Hs; [reflexivity|].
  intros id' row' Hrow' Hs'. simpl. rewrite lookup_insert_ne; [done|]. intros <-. congruence.
Qed.

Lemma perform_finished now c : obeys keepsFinished (perform now c).
Proof.
  destruct c; first
    [ simpl; unfold ignore; apply obeys_bind; [apply _|apply recordResult_finished|intros; by obey idtac]
    | solve [obey ltac:(repeat match goal with
        | H : bool_decide _ = true |- _ => apply bool_decide_eq_true in H end; destruct_and?;
        intros ? ? ? ?; first [done | simpl; rewrite lookup_insert_ne; [done|congruence]])] ].
Qed.

(** *** Firing a policy *)

Lemma newID_run p s : (forall l, exists i, New p l = Ok i) -> exists i,
  newID p s = (Ok i, {| db := db s; draws := S (draws s) |}).
Proof. intros Hp. unfold newID. destruct (Hp (entropy (draws s))) as [i ->]. by exists i. Qed.

Lemma activeTarget_grows d d' name : webhook_targets d ⊆ webhook_targets d' ->
  is_Some (activeTarget d name) -> is_Some (activeTarget d' name).
Proof.
  intros Hsub. unfold activeTarget. destruct (rowsWhere _ (webhook_targets d)) as [|[id t] l] eqn:E; [by intros []|].
  intros _. assert (Hin : (id, t) ∈ rowsWhere (λ kt, tg_name kt.2 = name /\ tg_revoked_at kt.2 = None)
    (webhook_targets d)) by (rewrite E; apply list_elem_of_here).
  apply elem_of_rowsWhere in Hin as [HP Hrow].
  assert (Hin : (id, t) ∈ rowsWhere (λ kt, tg_name kt.2 = name /\ tg_revoked_at kt.2 = None)
    (webhook_targets d')) by (apply elem_of_rowsWhere; split; [done|by eapply lookup_weaken]).
  destruct (rowsWhere _ (webhook_targets d')) as [|[id' t'] l']; [by apply elem_of_nil in Hin|by eexists].
Qed.

(** A successful firing, and one that was recorded before. *)
Lemma fire_ok candidate i p key r extra now s b s' :
  fireHealthPolicyTx candidate i p key r extra now s = (Ok b, s') ->
  (b = false /\ db s' = db s) \/
  (b = true /\ is_Some (activeTarget (db s) (hp_Target p)) /\ exists firingID deliveryID f w,
    health_firings (db s) !! firingID = None /\ webhook_deliveries (db s) !! deliveryID = None /\
    health_firings (db s') = <[firingID := f]> (health_firings (db s)) /\
    webhook_deliveries (db s') = <[deliveryID := w]> (webhook_deliveries (db s)) /\
    hf_job_id f = hc_JobID candidate /\ hf_attempt_id f = hc_AttemptID candidate /\
    hf_policy_index f = i /\ hf_firing_key f = key /\ hf_target_name f = hp_Target p /\
    wd_firing_id w = firingID /\ wd_state w = DeliveryPending /\ wd_attempt_count w = 0 /\
    wd_next_attempt_at w = formatTime now /\
    activeTarget (db s) (hp_Target p) = Some (wd_target_id w)).
Proof.
  unfold fireHealthPolicyTx. intros Hr.
  apply bind_ok in Hr as (firingID & s1 & H1 & Hr). apply newID_ok in H1 as [_ ->].
  apply bind_ok in Hr as (deliveryID & s1 & H1 & Hr). apply newID_ok in H1 as [_ ->].
  apply bind_ok in Hr as (target & s1 & H1 & Hr). apply query_ok in H1 as [-> ->].
  apply bind_ok in Hr as (targetID & s1 & H1 & Hr). apply found_ok in H1 as [Ht ->]. simpl in Ht.
  apply bind_ok in Hr as (n & s1 & H1 & Hr). unfold insertFiring in H1.
  apply insertOrIgnore_ok in H1 as [(-> & _ & ->)|(-> & Hig & _ & ->)]; simpl in Hr.
  - apply ret_ok in Hr as [-> ->]. by left.
  - right. apply bool_decide_eq_false in Hig.
    unfold insertDelivery, appendControlEvent, insertEvent in Hr. runs. subst b. destruct_and?.
    split; [done|]. split; [by eexists|]. exists firingID, deliveryID. eexists _, _.
    split_and!; try reflexivity; try done.
    apply eq_None_not_Some. naive_solver.
Qed.

Lemma fire_again candidate i p key r now s : is_Some (activeTarget (db s) (hp_Target p)) ->
  firedAlready (db s) (hc_JobID candidate) (hc_AttemptID candidate) i key ->
  exists s', fireHealthPolicy candidate i p key r now s = (Ok false, s') /\ db s' = db s.
Proof.
  intros [t Ht] (id & f & Hf & H1 & H2 & H3 & H4). unfold fireHealthPolicy, fireHealthPolicyTx, tx.
  destruct (newID_run "hlf" s) as [i1 E1]; [by eexists|].
  destruct (newID_run "dlv" {| db := db s; draws := S (draws s) |}) as [i2 E2]; [by eexists|].
  rewrite (bind_run _ _ _ _ _ E1), (bind_run _ _ _ _ _ E2), query_run.
  rewrite (bind_run _ _ _ t {| db := db s; draws := S (S (draws s)) |}) by (simpl; by rewrite Ht).
  rewrite (bind_run _ _ _ 0%nat {| db := db s; draws := S (S (draws s)) |}).
  - simpl. eexists. split; [reflexivity|done].
  - unfold insertFiring, insertOrIgnore. rewrite bool_decide_eq_true_2; [done|].
    right. exists id, f. split; [exact Hf|]. unfold sameFiring. simpl. auto.
Qed.

(** *** Due deliveries *)

Lemma formatTime_due t now : GoTime.fourDigitYear t -> GoTime.fourDigitYear now ->
  Text.leb (formatTime t) (formatTime now) = true -> GoTime.seconds t <= GoTime.seconds now.
Proof.
  intros Ht Hn Hle. destruct (decide (GoTime.seconds now < GoTime.seconds t)); [|lia].
  exfalso. unfold Text.leb in Hle. rewrite Text.cmp_antisym in Hle.
  by rewrite TimesTheory.cmp_formatTime_seconds in Hle.
Qed.

Lemma formatTime_not_due t now : GoTime.fourDigitYear t -> GoTime.fourDigitYear now ->
  GoTime.seconds t < GoTime.seconds now -> Text.leb (formatTime t) (formatTime now) = true.
Proof. intros Ht Hn Hlt. unfold Text.leb. by rewrite TimesTheory.cmp_formatTime_seconds. Qed.

Lemma elem_dueDeliveries d now w : w ∈ dueDeliveries d now <->
  exists id row, webhook_deliveries d !! id = Some row /\ wd_state row = DeliveryPending /\
    Text.leb (wd_next_attempt_at row) (formatTime now) = true /\ dueRow d (id, row) = Some w.
Proof.
  unfold dueDeliveries. rewrite list_elem_of_omap. split.
  - intros ([id row] & Hin & Hw). rewrite orderBy_Permutation, elem_of_rowsWhere in Hin. simpl in Hin.
    exists id, row. tauto.
  - intros (id & row & Hrow & Hs & Hle & Hw). exists (id, row). split; [|done].
    rewrite orderBy_Permutation, elem_of_rowsWhere. simpl. tauto.
Qed.

(** *** The stalled verdict *)

Lemma bestValue_max first rest : isNaN first = false -> Forall (λ o, isNaN (ob_value o) = false) rest ->
  let best := bestValue HealthModeMax first rest in
  isNaN best = false /\ (best = first \/ best ∈ ob_value <$> rest) /\ f64_leb first best = true /\
  Forall (λ o, f64_leb (ob_value o) best = true) rest.
Proof.
  unfold bestValue. simpl. revert first. induction rest as [|o rest IH]; intros first Hf Hr; simpl.
  { split_and!; [done|by left|by apply FloatOrder.f64_leb_refl|done]. }
  apply Forall_cons in Hr as [Ho Hr].
  set (next := if f64_ltb first (ob_value o) then ob_value o else first).
  assert (Hn : isNaN next = false) by (unfold next; by destruct (f64_ltb _ _)).
  assert (H1 : f64_leb first next = true /\ f64_leb (ob_value o) next = true).
  { unfold next. destruct (f64_ltb first (ob_value o)) eqn:E.
    - split; [by apply FloatOrder.f64_ltb_leb|by apply FloatOrder.f64_leb_refl].
    - split; [by apply FloatOrder.f64_leb_refl|]. rewrite FloatOrder.ltb_negb_leb in E by done.
      by apply negb_false_iff. }
  destruct (IH next Hn Hr) as (B1 & B2 & B3 & B4), H1 as [? ?]. clear IH.
  split_and!; [exact B1| |by eapply (FloatOrder.f64_leb_trans _ next)|].
  - destruct B2 as [->|B2]; [|right; by apply elem_of_cons; right].
    unfold next. destruct (f64_ltb _ _); [right; apply list_elem_of_here|by left].
  - constructor; [by eapply (FloatOrder.f64_leb_trans _ next)|done].
Qed.

Lemma bestValue_min first rest : isNaN first = false -> Forall (λ o, isNaN (ob_value o) = false) rest ->
  let best := bestValue HealthModeMin first rest in
  isNaN best = false /\ (best = first \/ best ∈ ob_value <$> rest) /\ f64_leb best first = true /\
  Forall (λ o, f64_leb best (ob_value o) = true) rest.
Proof.
  unfold bestValue. simpl. revert first. induction rest as [|o rest IH]; intros first Hf Hr; simpl.
  { split_and!; [done|by left|by apply FloatOrder.f64_leb_refl|done]. }
  apply Forall_cons in Hr as [Ho Hr].
  set (next := if f64_ltb (ob_value o) first then ob_value o else first).
  assert (Hn : isNaN next = false) by (unfold next; by destruct (f64_ltb _ _)).
  assert (H1 : f64_leb next first = true /\ f64_leb next (ob_value o) = true).
  { unfold next. destruct (f64_ltb (ob_value o) first) eqn:E.
    - split; [by apply FloatOrder.f64_ltb_leb|by apply FloatOrder.f64_leb_refl].
    - split; [by apply FloatOrder.f64_leb_refl|]. rewrite FloatOrder.ltb_negb_leb in E by done.
      by apply negb_false_iff. }
  destruct (IH next Hn Hr) as (B1 & B2 & B3 & B4), H1 as [? ?]. clear IH.
  split_and!; [exact B1| |by eapply (FloatOrder.f64_leb_trans _ next)|].
  - destruct B2 as [->|B2]; [|right; by apply elem_of_cons; right].
    unfold next. destruct (f64_ltb _ _); [right; apply list_elem_of_here|by left].
  - constructor; [by eapply (FloatOrder.f64_leb_trans _ next)|done].
Qed.

Lemma bestValue_spec mode first rest : mode = HealthModeMax \/ mode = HealthModeMin ->
  isNaN first = false -> Forall (λ o, isNaN (ob_value o) = false) rest ->
  let best := bestValue mode first rest in
  (best = first \/ best ∈ ob_value <$> rest) /\ noWorse mode best first = true /\
  Forall (λ o, noWorse mode best (ob_value o) = true) rest.
Proof.
  intros [-> | ->] Hf Hr; [destruct (bestValue_max first rest Hf Hr) as (_ & ?)
                          |destruct (bestValue_min first rest Hf Hr) as (_ & ?)]; done.
Qed.

#[local] Instance observedBefore_trans : Transitive (isLe observedBefore).
Proof. intros x y z. unfold isLe, observedBefore. lia. Qed.
#[local] Instance observedBefore_total : Total (isLe observedBefore).
Proof. intros x y. unfold isLe, observedBefore. destruct (Z.le_ge_cases (ob_at x) (ob_at y)); [left|right]; lia. Qed.

Lemma metricStalled_ok attemptID p cutoff s v s' : metricStalled attemptID p cutoff s = (Ok v, s') ->
  s' = s /\ v = stalledVerdict p (orderBy observedBefore (windowSamples (db s) attemptID (hp_Metric p) cutoff)).
Proof.
  unfold metricStalled. intros Hr. apply bind_ok in Hr as (rows & s1 & H1 & Hr).
  apply query_ok in H1 as [-> ->]. apply bind_ok in Hr as (obs & s1 & H1 & Hr).
  apply ret_ok in Hr as [-> ->]. unfold windowSamples.
  set (rows := filter _ _) in *. set (f := λ r : MetricRow, _ : option observedValue).
  enough (s1 = s /\ obs = omap f rows) as [-> ->] by done.
  apply (mfold_ok_ind (λ done acc s1, s1 = s /\ acc = omap f done)) in H1; [done|done|].
  intros pre r acc s2 acc' s3 _ [-> ->] Hr. unfold parsed in Hr.
  apply bind_ok in Hr as (t & s4 & H2 & Hr). apply found_ok in H2 as [Ht ->].
  rewrite omap_app. unfold f at 2. simpl. rewrite Ht. simpl.
  destruct (t <? cutoff); apply ret_ok in Hr as [-> ->]; [by rewrite app_nil_r|done].
Qed.

Lemma orderBy_sorted obs : Sorted (isLe observedBefore) (orderBy observedBefore obs).
Proof. apply Sorted_merge_sort. apply _. Qed.

(** *** Periodic policies *)

Lemma policyFires_periodic now c p window s : hp_Kind p = HealthKindPeriodic ->
  ParseDuration (hp_Window p) = Some window -> 0 < window ->
  policyFires now c p s =
    (Ok (if Z.quot (timeSub now (hc_StartedAt c)) window <? 1 then None
         else Some ("periodic:" +:+ pretty (Z.quot (timeSub now (hc_StartedAt c)) window),
           ReasonRunning (durationRound (timeSub now (hc_StartedAt c)) GoTime.Second))), s).
Proof.
  intros Hk Hw Hp. unfold policyFires. rewrite Hw, Hk. destruct (Z.leb_spec window 0); [lia|]. simpl.
  by destruct (Z.quot _ _ <? 1).
Qed.

End health.
End HealthTheory.

Section properties.
Context `{Env}.

(** In every reachable state each delivery belongs to a stored firing and a
    stored target and has a state that fits its count of attempts, response and
    delivery time; no two firings have the same job, attempt, policy and key; and
    no firing is delivered twice to one target. *)
Theorem hooks_wellformed (s : St) : reachable s -> hooksOk (db s).
Proof. apply HealthTheory.reachable_hooks. Qed.

(** A policy fires once per key: when it fires, a delivery to its target is
    pending and due at once; from then on, after any calls, firing it again with
    that key returns false and changes no table. *)
Theorem policy_fires_once (c : healthCandidate) (i : Z) (p : HealthPolicy) (key : string)
    (r r' : Reason) (now now' : time) (s s1 s2 : St) :
  fireHealthPolicy c i p key r now s = (Ok true, s1) -> rtc callStep s1 s2 ->
  (exists id w t, webhook_deliveries (db s) !! id = None /\ webhook_deliveries (db s1) !! id = Some w /\
    wd_state w = DeliveryPending /\ wd_next_attempt_at w = formatTime now /\
    activeTarget (db s) (hp_Target p) = Some t /\ wd_target_id w = t) /\
  exists s3, fireHealthPolicy c i p key r' now' s2 = (Ok false, s3) /\ db s3 = db s2.
Proof.
  intros Hf%tx_ok Hcalls.
  assert (Hg : grows (db s) (db s1)).
  { assert (Ho : obeys grows (fireHealthPolicyTx c i p key r [] now)) by obey grown.
    specialize (Ho s). by rewrite Hf in Ho. }
  assert (Hg2 : grows (db s1) (db s2)).
  { apply (ControlSafety.calls_ind (λ x, grows (db s1) (db x)) s1); [|exact Hcalls|reflexivity].
    intros x t call _ _ Hx. etrans; [exact Hx|apply perform_grows]. }
  apply HealthTheory.fire_ok in Hf as [[? _]|(_ & Ht & id & did & f & w & _ & Hn & HF & HD & H1 & H2 & H3 & H4 &
    _ & _ & H5 & _ & H6 & H7)]; [done|]. split.
  - exists did, w, (wd_target_id w). split_and!; try done. rewrite HD. apply lookup_insert_eq.
  - apply HealthTheory.fire_again.
    + eapply HealthTheory.activeTarget_grows; [|exact Ht]. etrans; [apply Hg|apply Hg2].
    + exists id, f. split; [|done]. eapply lookup_weaken; [|apply Hg2]. rewrite HF. apply lookup_insert_eq.
Qed.

(** A periodic policy fires only when a full window has passed since the
    attempt started, and two evaluations fire under the same key exactly when
    they fall into the same window, so that it fires at most once per window. *)
Theorem periodic_windows (now1 now2 : time) (c : healthCandidate) (p : HealthPolicy) (window : Z)
    (key1 key2 : string) (r1 r2 : Reason) (s1 s2 : St) :
  hp_Kind p = HealthKindPeriodic -> ParseDuration (hp_Window p) = Some window -> 0 < window ->
  policyFires now1 c p s1 = (Ok (Some (key1, r1)), s1) ->
  policyFires now2 c p s2 = (Ok (Some (key2, r2)), s2) ->
  window <= timeSub now1 (hc_StartedAt c) /\
  (key1 = key2 <-> timeSub now1 (hc_StartedAt c) / window = timeSub now2 (hc_StartedAt c) / window).
Proof.
  intros Hk Hw Hp H1 H2. rewrite (HealthTheory.policyFires_periodic _ _ _ _ _ Hk Hw Hp) in H1.
  rewrite (HealthTheory.policyFires_periodic _ _ _ _ _ Hk Hw Hp) in H2.
  destruct (Z.ltb_spec (Z.quot (timeSub now1 (hc_StartedAt c)) window) 1) as [|Hq1]; [done|].
  destruct (Z.ltb_spec (Z.quot (timeSub now2 (hc_StartedAt c)) window) 1) as [|Hq2]; [done|].
  assert (Hle : forall a, 1 <= Z.quot a window -> window <= a).
  { intros a Ha. destruct (decide (a < window)); [|lia]. exfalso.
    destruct (decide (0 <= a)); [rewrite Z.quot_small in Ha by lia; lia|].
    pose proof (Z.quot_opp_l (- a) window ltac:(lia)) as E. rewrite Z.opp_involutive in E.
    pose proof (Z.quot_pos (- a) window). lia. }
  pose proof (Hle _ Hq1). pose proof (Hle _ Hq2).
  rewrite (Z.quot_div_nonneg _ window) in H1 by lia.
  rewrite (Z.quot_div_nonneg _ window) in H2 by lia.
  injection H1 as <- _. injection H2 as <- _. split; [done|]. split; [|by intros ->].
  intros He. apply (inj (String.append "periodic:")), (inj pretty) in He. exact He.
Qed.

(** The stalled test sorts the samples of the window by time and compares
    the first with the best of all of them: the policy is stalled exactly when
    there are at least two and the best improves on the first by less than the
    minimum. *)
Theorem stalled_verdict (attemptID : string) (p : HealthPolicy) (cutoff : time) (s s' : St)
    (stalled : bool) (delta : float64) (samples : nat) :
  hp_Mode p = HealthModeMax \/ hp_Mode p = HealthModeMin ->
  Forall (λ r, isNaN (mr_value r) = false) (metric_samples (db s)) ->
  metricStalled attemptID p cutoff s = (Ok (stalled, delta, samples), s') ->
  s' = s /\ exists obs, obs ≡ₚ windowSamples (db s) attemptID (hp_Metric p) cutoff /\
    Sorted (isLe observedBefore) obs /\ samples = length obs /\
    match obs with
    | first :: _ :: _ => exists best, best ∈ ob_value <$> obs /\
        Forall (λ o, noWorse (hp_Mode p) best (ob_value o) = true) obs /\
        delta = improvement (hp_Mode p) (ob_value first) best /\
        stalled = f64_ltb delta (hp_MinimumDelta p)
    | _ => stalled = false
    end.
Proof.
  intros Hm Hn Hr. apply HealthTheory.metricStalled_ok in Hr as [-> Hv]. split; [done|].
  set (samples' := windowSamples _ _ _ _) in *.
  assert (HN : Forall (λ o, isNaN (ob_value o) = false) samples').
  { apply Forall_forall. intros o Ho. apply list_elem_of_omap in Ho as (r & Hin & Ho).
    apply list_elem_of_filter in Hin as [_ Hin]. rewrite Forall_forall in Hn. specialize (Hn _ Hin).
    destruct (parseTime _); [|done]. simpl in Ho. destruct (_ <? _); [done|]. by injection Ho as <-. }
  exists (orderBy observedBefore samples'). pose proof (HealthTheory.orderBy_sorted samples') as Hs.
  pose proof (orderBy_Permutation observedBefore samples') as Hperm. rewrite <- Hperm in HN.
  destruct (orderBy observedBefore samples') as [|first [|second rest]]; simpl in Hv;
    injection Hv as -> -> ->; split_and!; try done.
  apply Forall_cons in HN as [Hf HN].
  destruct (HealthTheory.bestValue_spec (hp_Mode p) (ob_value first) (second :: rest) Hm Hf HN) as (B1 & B2 & B3).
  eexists. split_and!; [|by constructor| |reflexivity].
  - destruct B1 as [E|B1]; [rewrite E; apply list_elem_of_here|by apply elem_of_cons; right].
  - unfold improvement. destruct Hm as [-> | ->]; reflexivity.
Qed.

(** The result of a delivery attempt: a success delivers the webhook, a
    failure postpones it by min(1h, 5s * 2^(n-1)) after the n-th, the tenth
    failure kills it, a result for a delivery that is not pending changes
    nothing, and one for an unknown delivery is an error. *)
Theorem webhook_result_branches (now : time) (id : string) (code : Z) (err : string) (s : St) :
  reachable s ->
  match webhook_deliveries (db s) !! id with
  | None => RecordWebhookResult now id code err s = (Err ErrNotFound, s)
  | Some row =>
      exists s' row', RecordWebhookResult now id code err s = (Ok tt, s') /\
      db s' = with_webhook_deliveries (<[id := row']> (webhook_deliveries (db s))) (db s) /\
      wd_firing_id row' = wd_firing_id row /\ wd_target_id row' = wd_target_id row /\
      match wd_state row with
      | DeliveryPending =>
          wd_attempt_count row' = wd_attempt_count row + 1 /\
          if (200 <=? code) && (code <? 300) && (err =? "")%string
          then wd_state row' = DeliveryDelivered /\ wd_delivered_at row' = Some (formatTime now)
          else wd_state row' = (if wd_attempt_count row' =? 10 then DeliveryDead else DeliveryPending) /\
            wd_next_attempt_at row' = formatTime (now + retryWait (wd_attempt_count row'))
      | _ => row' = row
      end
  end.
Proof.
  intros Hs. apply HealthTheory.reachable_hooks in Hs. unfold RecordWebhookResult, tx. rewrite query_run.
  destruct (webhook_deliveries (db s) !! id) as [row|] eqn:Erow; [|by destruct s].
  destruct (ho_deliveries _ Hs _ _ Erow) as ([Hc Hp _ _ _ _] & _).
  rewrite (bind_run _ _ _ row s) by reflexivity.
  destruct (decide (wd_state row = DeliveryPending)) as [Hst|Hst].
  - rewrite bool_decide_eq_false_2 by (intros Hne; by apply Hne). specialize (Hp Hst). rewrite Hst.
    eexists _, _. split; [reflexivity|]. split; [reflexivity|].
    unfold deliveryResult, maxWebhookAttempts in *. rewrite u32_small by lia.
    destruct (_ && _ && _); simpl; [done|]. split_and!; try done.
    + destruct (Z.leb_spec 10 (wd_attempt_count row + 1)), (Z.eqb_spec (wd_attempt_count row + 1) 10);
        done || lia.
    + by rewrite HealthTheory.backoff_retryWait by lia.
  - rewrite bool_decide_eq_true_2 by done. exists s, row. split; [done|]. split; [|by destruct (wd_state row)].
    rewrite insert_id by done. by destruct (db s).
Qed.

(** No call ever changes a delivery that is delivered or dead. *)
Theorem deliveries_final (id : string) (row : DeliveryRow) (s s' : St) :
  webhook_deliveries (db s) !! id = Some row -> wd_state row <> DeliveryPending -> rtc callStep s s' ->
  webhook_deliveries (db s') !! id = Some row.
Proof.
  intros Hrow Hst Hcalls.
  apply (ControlSafety.calls_ind (λ x, HealthTheory.keepsFinished (db s) (db x)) s) in Hcalls; [|..|reflexivity].
  - by apply Hcalls.
  - intros x now c _ _ Hx. etrans; [exact Hx|apply HealthTheory.perform_finished].
Qed.

(** The due deliveries are pending, their target is not revoked, and their
    next attempt is not in a later second than now; a pending delivery whose
    next attempt lies in an earlier second is among them when the limit allows
    all. (Within one second the texts, not the times, are compared.) *)
Theorem due_deliveries (now : time) (limit : Z) (s s' : St) (due : list WebhookDelivery) :
  GoTime.fourDigitYear now -> DueWebhookDeliveries now limit s = (Ok due, s') ->
  s' = s /\ (length due <= 100)%nat /\
  Forall (λ w, exists row target, webhook_deliveries (db s) !! dl_ID w = Some row /\
    wd_state row = DeliveryPending /\ webhook_targets (db s) !! wd_target_id row = Some target /\
    tg_revoked_at target = None /\ dl_URL w = tg_url target /\ dl_AttemptCount w = wd_attempt_count row /\
    forall t, GoTime.fourDigitYear t -> wd_next_attempt_at row = formatTime t ->
      GoTime.seconds t <= GoTime.seconds now) due /\
  (forall id row w t, webhook_deliveries (db s) !! id = Some row -> wd_state row = DeliveryPending ->
     dueRow (db s) (id, row) = Some w -> GoTime.fourDigitYear t -> wd_next_attempt_at row = formatTime t ->
     GoTime.seconds t < GoTime.seconds now -> Z.of_nat (length (dueDeliveries (db s) now)) <= 20 ->
     limit <= 0 \/ 20 <= limit -> w ∈ due).
Proof.
  unfold DueWebhookDeliveries. intros Hy Hr. apply query_ok in Hr as [-> ->].
  set (n := if (limit <=? 0) || (100 <? limit) then 20 else limit).
  assert (Hlim : 0 <= n <= 100) by (unfold n; destruct (Z.leb_spec limit 0), (Z.ltb_spec 100 limit); simpl; lia).
  split_and!; [done|rewrite length_take; lia| |].
  - apply Forall_forall. intros w Hw. apply list_elem_of_lookup in Hw as [k Hw].
    apply lookup_take_Some in Hw as [Hw _]. apply list_elem_of_lookup_2 in Hw.
    apply HealthTheory.elem_dueDeliveries in Hw as (id & row & Hrow & Hst & Hle & Hdue).
    unfold dueRow in Hdue. simpl in Hdue. destruct (health_firings _ !! _) as [f|]; [|done]. simpl in Hdue.
    destruct (webhook_targets _ !! _) as [t|] eqn:Et; [|done]. simpl in Hdue.
    case_bool_decide as Hrev; [|done]. injection Hdue as <-. exists row, t. split_and!; try done.
    intros x Hx He. rewrite He in Hle. by apply HealthTheory.formatTime_due.
  - intros id row w t Hrow Hst Hw Ht He Hlt Hlen H20. rewrite firstn_all2.
    + apply HealthTheory.elem_dueDeliveries. exists id, row. split_and!; try done.
      rewrite He. by apply HealthTheory.formatTime_not_due.
    + unfold n. destruct (Z.leb_spec limit 0), (Z.ltb_spec 100 limit); simpl; lia.
Qed.

End properties.

(** ** The properties in a concrete run *)

#[local] Existing Instance demoEnv.

Definition demoPolicy : HealthPolicy := {|
  hp_Kind := HealthKindPeriodic; hp_Metric := ""; hp_Mode := ""; hp_MinimumDelta := f64_zero;
  hp_Window := "1m"; hp_Action := HealthActionNotify; hp_Target := "ops" |}.

Definition hookedSpec : JobSpec := {|
  s_Project := "physics"; s_Name := "watched"; s_Priority := 5; s_Source := s_Source demoSpec;
  s_Command := ["run"]; s_Environment := ∅; s_SecretRefs := ∅; s_Resources := demoResources;
  s_Labels := ∅; s_Retry := s_Retry demoSpec; s_Checkpoint := None; s_Artifacts := [];
  s_Metrics := []; s_Health := [demoPolicy] |}.

Definition targeted : St := after enrolled (CallCreateWebhookTarget "ops" "hooks.example" demoToken).
Definition watched : St := after (after targeted (CallCreateJob "key" hookedSpec)) callOffer.
Definition watchedAttempt : string := "att_0g000000000000000000000000".
Definition watchedStart : Call := CallSyncWorker demoWorker (demoSync [
  demoEvent 1 "e1" watchedAttempt WorkerEventAttemptStarted None]).
Definition started : St := after watched watchedStart.
Definition t2 : time := t0 + 2 * GoTime.Minute.
Definition fired : St := (perform t2 CallEvaluateHealthPolicies started).2.
Definition firedDelivery : string := "dlv_14000000000000000000000000".
Definition delivered : St := after fired (CallRecordWebhookResult firedDelivery 204 "").

Lemma t2_year : GoTime.fourDigitYear t2.
Proof. apply (bool_decide_unpack _). vm_compute. exact I. Qed.

Lemma hookedSpec_typed : SpecTyped hookedSpec.
Proof. repeat split; try apply Forall_nil; simpl; lia. Qed.

Lemma started_reachable : reachable started.
Proof.
  apply reachable_after; [|exact I]. apply reachable_after; [|exact I].
  apply reachable_after; [|apply hookedSpec_typed]. apply reachable_after; [|exact I]. apply enrolled_reachable.
Qed.

Lemma fired_reachable : reachable fired.
Proof. eapply rtc_r; [apply started_reachable|]. apply call_step; [apply t2_year|exact I]. Qed.

Lemma hooks_wellformed_witness : hooksOk (db fired) /\ size (webhook_deliveries (db fired)) = 1%nat.
Proof. split; [exact (hooks_wellformed fired fired_reachable)|vm_compute; reflexivity]. Defined.

Definition demoCandidate : healthCandidate := {|
  hc_JobID := "job_08000000000000000000000000"; hc_AttemptID := watchedAttempt; hc_AttemptNumber := 1;
  hc_WorkerID := demoWorker; hc_StartedAt := t0; hc_Spec := hookedSpec |}.
Definition demoFire : result Error bool * St :=
  fireHealthPolicy demoCandidate 0 demoPolicy "periodic:1" (ReasonRunning 0) t0 started.

Lemma demoFire_ok : demoFire.1 = Ok true.
Proof. vm_compute. reflexivity. Qed.

Lemma demoFire_run :
  fireHealthPolicy demoCandidate 0 demoPolicy "periodic:1" (ReasonRunning 0) t0 started = (Ok true, demoFire.2).
Proof. exact (run_pair demoFire true demoFire_ok). Qed.

Lemma policy_fires_once_witness : exists s3,
  fireHealthPolicy demoCandidate 0 demoPolicy "periodic:1" (ReasonRunning 1) t2 demoFire.2 = (Ok false, s3) /\
  db s3 = db demoFire.2.
Proof.
  exact (proj2 (policy_fires_once demoCandidate 0 demoPolicy "periodic:1" (ReasonRunning 0) (ReasonRunning 1)
    t0 t2 started demoFire.2 demoFire.2 demoFire_run (rtc_refl _ _))).
Defined.

Lemma periodic_windows_witness : GoTime.Minute <= timeSub t2 (hc_StartedAt demoCandidate).
Proof.
  refine (proj1 (periodic_windows t2 t2 demoCandidate demoPolicy GoTime.Minute "periodic:2" "periodic:2"
    (ReasonRunning (2 * GoTime.Minute)) (ReasonRunning (2 * GoTime.Minute)) initial initial _ _ _ _ _)).
  - reflexivity.
  - vm_compute. reflexivity.
  - vm_compute. reflexivity.
  - vm_compute. reflexivity.
  - vm_compute. reflexivity.
Defined.

(** Two samples of one metric, ten seconds apart. *)
Definition demoSample (id : string) (value : Z) (at_ : time) : MetricRow := {|
  mr_attempt_id := watchedAttempt; mr_event_id := id; mr_name := "loss"; mr_value := f64_of_Z value;
  mr_step := None; mr_observed_at := formatTime at_; mr_recorded_at := formatTime at_ |}.
Definition sampled : St := {| draws := 0; db := with_metric_samples
  [demoSample "e1" 3 t0; demoSample "e2" 2 (t0 + 10 * GoTime.Second)] emptyDB |}.
Definition lossPolicy : HealthPolicy := {|
  hp_Kind := HealthKindMetricStalled; hp_Metric := "loss"; hp_Mode := HealthModeMin; hp_Window := "1m";
  hp_MinimumDelta := f64_of_Z 2; hp_Action := HealthActionNotify; hp_Target := "ops" |}.

Lemma stalled_verdict_witness : exists obs,
  obs ≡ₚ windowSamples (db sampled) watchedAttempt "loss" t0 /\ 2%nat = length obs.
Proof.
  destruct (metricStalled watchedAttempt lossPolicy t0 sampled) as [[[[stalled delta] n]|e] s'] eqn:E.
  - assert (Hn : n = 2%nat).
    { assert (Hr : match metricStalled watchedAttempt lossPolicy t0 sampled with
                   | (Ok (_, _, k), _) => k = 2%nat | _ => False end) by (vm_compute; reflexivity).
      rewrite E in Hr. exact Hr. }
    destruct (stalled_verdict watchedAttempt lossPolicy t0 sampled s' stalled delta n
      (or_intror eq_refl) ltac:(repeat constructor) E) as (_ & obs & H1 & _ & H3 & _).
    exists obs. split; [exact H1|]. rewrite <- H3. symmetry. exact Hn.
  - exfalso. assert (Hok : isOk (metricStalled watchedAttempt lossPolicy t0 sampled).1 = true)
      by (vm_compute; reflexivity).
    rewrite E in Hok. discriminate Hok.
Defined.

Lemma webhook_result_branches_witness : exists s' row',
  RecordWebhookResult t2 firedDelivery 500 "" fired = (Ok tt, s') /\
  wd_attempt_count row' = 1 /\ webhook_deliveries (db s') !! firedDelivery = Some row'.
Proof.
  pose proof (webhook_result_branches t2 firedDelivery 500 "" fired fired_reachable) as H.
  the_row (webhook_deliveries (db fired) !! firedDelivery) row E.
  destruct H as (s' & row' & H1 & H2 & _ & _ & H3). exists s', row'. split; [exact H1|]. split.
  - assert (Hs : (λ w, (wd_state w, wd_attempt_count w)) <$> webhook_deliveries (db fired) !! firedDelivery =
      Some (DeliveryPending, 0)) by (vm_compute; reflexivity).
    rewrite E in Hs. apply Some_inj in Hs. apply pair_eq in Hs as [Hs Hc]. rewrite Hs, Hc in H3.
    exact (proj1 H3).
  - rewrite H2. apply lookup_insert_eq.
Defined.

Lemma deliveries_final_witness : exists row, wd_state row = DeliveryDelivered /\
  webhook_deliveries (db (after delivered (CallRecordWebhookResult firedDelivery 500 "late"))) !!
    firedDelivery = Some row.
Proof.
  the_row (webhook_deliveries (db delivered) !! firedDelivery) row E.
  assert (Hs : wd_state <$> webhook_deliveries (db delivered) !! firedDelivery = Some DeliveryDelivered)
    by (vm_compute; reflexivity).
  rewrite E in Hs. apply Some_inj in Hs. exists row. split; [exact Hs|].
  refine (deliveries_final firedDelivery row delivered _ E _ (rtc_once _ _ _)).
  - rewrite Hs. discriminate.
  - exact (call_step delivered t0 (CallRecordWebhookResult firedDelivery 500 "late") t0_year I).
Defined.

Lemma due_deliveries_witness : Forall (λ w, exists row,
  webhook_deliveries (db fired) !! dl_ID w = Some row /\ wd_state row = DeliveryPending)
  (dueDeliveries (db fired) t2) /\ length (dueDeliveries (db fired) t2) = 1%nat.
Proof.
  split; [|vm_compute; reflexivity].
  destruct (DueWebhookDeliveries t2 20 fired) as [[due|e] s'] eqn:E.
  - destruct (due_deliveries t2 20 fired s' due t2_year E) as (_ & _ & Hall & _).
    unfold DueWebhookDeliveries in E. apply query_ok in E as [-> _].
    rewrite firstn_all2 in Hall; [|apply (bool_decide_unpack _); vm_compute; exact I].
    eapply Forall_impl; [exact Hall|]. intros w (row & t & H1 & H2 & _). exists row. split; [exact H1|exact H2].
  - discriminate E.
Defined.
