(* ===== verification/Storage.v ===== *)
(** * What the control plane stores about an attempt: the properties

    Stored metric samples are finite values of metrics the job's specification
    or the system defines, and log tails and artifact contents stay within their
    64 KiB. *)

From S2P Require Import Prelude Times GoLib Ids Domain Validate Database Jobs Health Events.
From S2P Require Import Lifecycle Auth Scheduler Sync Control Scenario History AuthProperties.

(** The metric sample fits the specification of its attempt's job. *)
Definition sampleOk (d : DB) (r : MetricRow) : Prop :=
  f64_finite (mr_value r) = true /\
  exists a j, attempts d !! mr_attempt_id r = Some a /\ jobs d !! at_job_id a = Some j /\
    definedMetric (s_Metrics (jr_spec j)) (mr_name r) (mr_value r) = true.

Record storedOk (d : DB) : Prop := {
  so_metrics : Forall (sampleOk d) (metric_samples d);
  so_logs : map_Forall (λ _ a, len (at_log_tail a) <= 65536) (attempts d);
  so_artifacts : map_Forall (λ k f, is_Some (attempts d !! k.1.1) /\
    len (default "" (af_content f)) <= 65536) (artifacts d);
}.

(** What a definition of a metric guarantees of a value. *)
Definition validSample (j : JobRow) (r : MetricRow) : Prop :=
  f64_finite (mr_value r) = true /\
  exists m, (m ∈ s_Metrics (jr_spec j) \/ SystemMetricDefinition (mr_name r) = Some m) /\
    m_Name m = mr_name r /\
    (m_Format m = MetricFormatPercent ->
       f64_leb f64_zero (mr_value r) = true /\ f64_leb (mr_value r) (f64_of_Z 1) = true).

Module StorageTheory.

Lemma find_spec {A} (f : A -> bool) l x : List.find f l = Some x -> x ∈ l /\ f x = true.
Proof. intros Hf. apply find_some in Hf as [Hin Hx]. split; [by apply list_elem_of_In|done]. Qed.

Lemma definedMetric_spec metrics name value : definedMetric metrics name value = true ->
  exists m, (m ∈ metrics \/ SystemMetricDefinition name = Some m) /\ m_Name m = name /\
    metricValueFits m value = true.
Proof.
  unfold definedMetric. destruct (List.find _ metrics) as [m|] eqn:E.
  - apply find_spec in E as [Hin Hn]. apply String.eqb_eq in Hn. intros Hv. exists m. auto.
  - destruct (SystemMetricDefinition name) as [m|] eqn:Es; [|done]. intros Hv. exists m.
    split_and!; [by right| |done]. unfold SystemMetricDefinition in Es.
    apply find_spec in Es as [_ Hn]. by apply String.eqb_eq in Hn.
Qed.

Lemma metricValueFits_percent m value : metricValueFits m value = true -> m_Format m = MetricFormatPercent ->
  f64_leb f64_zero value = true /\ f64_leb value (f64_of_Z 1) = true.
Proof.
  unfold metricValueFits. intros Hv E. rewrite E in Hv. simpl in Hv. by apply andb_true_iff.
Qed.

(** *** The statements *)

Lemma stored_same d d' : metric_samples d' = metric_samples d -> attempts d' = attempts d ->
  jobs d' = jobs d -> artifacts d' = artifacts d -> storedOk d -> storedOk d'.
Proof.
  intros E1 E2 E3 E4 [Hm Hl Ha]. unfold sampleOk in *.
  split; unfold sampleOk; by rewrite ?E1, ?E2, ?E3, ?E4.
Qed.

Lemma sampleOk_jobs d jobs' r : (forall id j, jobs d !! id = Some j -> exists j', jobs' !! id = Some j' /\
  jr_spec j' = jr_spec j) -> sampleOk d r -> sampleOk (with_jobs jobs' d) r.
Proof.
  intros Hj (Hf & a & j & Ha & Hja & Hd). split; [done|]. destruct (Hj _ _ Hja) as (j' & Hj' & Hs).
  exists a, j'. by rewrite Hs.
Qed.

Lemma stored_jobs d jobs' : (forall id j, jobs d !! id = Some j -> exists j', jobs' !! id = Some j' /\
  jr_spec j' = jr_spec j) -> storedOk d -> storedOk (with_jobs jobs' d).
Proof.
  intros Hj [Hm Hl Ha]. split; [|exact Hl|exact Ha]. simpl. eapply Forall_impl; [exact Hm|].
  intros r. by apply sampleOk_jobs.
Qed.

Lemma stored_insert_job id row d : jobs d !! id = None -> storedOk d ->
  storedOk (with_jobs (<[id := row]> (jobs d)) d).
Proof.
  intros Hn. apply stored_jobs. intros i j Hj. exists j. split; [|done].
  rewrite lookup_insert_ne; [done|congruence].
Qed.

Lemma stored_alter_job id f d : (forall j, jr_spec (f j) = jr_spec j) -> storedOk d ->
  storedOk (with_jobs (alter f id (jobs d)) d).
Proof.
  intros Hf. apply stored_jobs. intros i j Hj. destruct (decide (id = i)) as [->|].
  - exists (f j). by rewrite lookup_alter_eq, Hj.
  - exists j. by rewrite lookup_alter_ne.
Qed.

Lemma stored_attempts d attempts' : (forall id a, attempts d !! id = Some a -> exists a',
    attempts' !! id = Some a' /\ at_job_id a' = at_job_id a) ->
  map_Forall (λ _ a, len (at_log_tail a) <= 65536) attempts' -> storedOk d ->
  storedOk (with_attempts attempts' d).
Proof.
  intros Hj Hlog [Hm Hl Ha]. split; [|exact Hlog|].
  - simpl. eapply Forall_impl; [exact Hm|]. intros r (Hf & a & j & Hr & Hja & Hd). split; [done|].
    destruct (Hj _ _ Hr) as (a' & Hr' & He). exists a', j. by rewrite He.
  - intros k f Hk. destruct (Ha _ _ Hk) as [[a Hr] Hc]. split; [|done].
    destruct (Hj _ _ Hr) as (a' & Hr' & _). by exists a'.
Qed.

Lemma stored_insert_attempt id row d : attempts d !! id = None -> len (at_log_tail row) <= 65536 ->
  storedOk d -> storedOk (with_attempts (<[id := row]> (attempts d)) d).
Proof.
  intros Hn Hlen Hs. apply stored_attempts; [| |done].
  - intros i a Ha. exists a. split; [|done]. rewrite lookup_insert_ne; [done|congruence].
  - apply map_Forall_insert_2; [done|apply Hs].
Qed.

Lemma stored_alter_attempt id f d : (forall a, at_job_id (f a) = at_job_id a) ->
  (forall a, len (at_log_tail a) <= 65536 -> len (at_log_tail (f a)) <= 65536) ->
  storedOk d -> storedOk (with_attempts (alter f id (attempts d)) d).
Proof.
  intros Hj Hlen Hs. apply stored_attempts; [| |done].
  - intros i a Ha. destruct (decide (id = i)) as [->|].
    + exists (f a). by rewrite lookup_alter_eq, Ha.
    + exists a. by rewrite lookup_alter_ne.
  - intros i a Ha. apply lookup_alter_Some in Ha as [(<- & a' & Ha & ->)|[_ Ha]].
    + apply Hlen. by apply (so_logs _ Hs _ _ Ha).
    + by apply (so_logs _ Hs _ _ Ha).
Qed.

Lemma stored_artifact k row d : is_Some (attempts d !! k.1.1) -> len (default "" (af_content row)) <= 65536 ->
  storedOk d -> storedOk (with_artifacts (<[k := row]> (artifacts d)) d).
Proof.
  intros Hk Hlen [Hm Hl Ha]. split; [exact Hm|exact Hl|]. simpl.
  by apply (map_Forall_insert_2 (λ k f, is_Some (attempts d !! k.1.1) /\ len (default "" (af_content f)) <= 65536)).
Qed.

Lemma stored_sample row d : sampleOk d row -> storedOk d ->
  storedOk (with_metric_samples (metric_samples d ++ [row]) d).
Proof.
  intros Hr [Hm Hl Ha]. split; [|exact Hl|exact Ha]. simpl. apply Forall_app. split; [done|].
  by apply Forall_singleton.
Qed.

(** Leaf tactic for the statements. *)
Ltac stored :=
  let Hs := fresh "Hs" in intros Hs;
  repeat match goal with
  | H : bool_decide _ = true |- _ => apply bool_decide_eq_true in H
  end; destruct_and?;
  first [ by eapply stored_same; [..|exact Hs]
        | apply stored_insert_job; [done|exact Hs]
        | apply stored_alter_job; [intros ?; try case_match; reflexivity|exact Hs]
        | apply stored_insert_attempt; [done|done|exact Hs]
        | apply stored_alter_attempt; [done|intros ?; simpl; lia|exact Hs]
        | apply stored_artifact; [done|simpl; first [lia|case_match; simpl; unfold len in *; simpl; lia]|exact Hs] ].

Section storage.
Context `{Env}.

Lemma applyMetric_stored w cur event t s : assignedAttempt (db s) (e_AttemptID event) w = Some cur ->
  storedOk (db s) -> storedOk (db (applyMetric cur event t s).2).
Proof.
  intros Hcur Hs. unfold applyMetric. destruct (e_Metric event) as [m|]; [|exact Hs].
  destruct (negb (ms_Name m =? "")%string && f64_finite (ms_Value m)) eqn:E1; [|exact Hs].
  destruct (definedMetric (s_Metrics (as_spec cur)) (ms_Name m) (ms_Value m)) eqn:E2; [|exact Hs].
  rewrite !(bind_run _ _ s tt s) by reflexivity.
  unfold insertMetricSample, execIf. rewrite query_run. destruct (bool_decide _); [|exact Hs]. simpl.
  apply andb_true_iff in E1 as [_ E1]. apply stored_sample; [|done]. split; [done|]. simpl.
  unfold assignedAttempt in Hcur. destruct (attempts (db s) !! _) as [a|] eqn:Ea; [|done]. simpl in Hcur.
  destruct (jobs (db s) !! _) as [j|] eqn:Ej; [|done]. simpl in Hcur.
  case_bool_decide; [|done]. injection Hcur as <-. simpl in E2. by exists a, j.
Qed.

Lemma applyAccepted_stored cur event : obeys (preserves storedOk) (applyAccepted cur event).
Proof. obey stored. Qed.
Lemma applyStarted_stored cur w event t : obeys (preserves storedOk) (applyStarted cur w event t).
Proof. obey stored. Qed.
Lemma recordArtifacts_stored id artifacts t : obeys (preserves storedOk) (recordArtifacts id artifacts t).
Proof. obey stored. Qed.
Lemma fireFinished_stored cur w event st next code t :
  obeys (preserves storedOk) (fireFinished cur w event st next code t).
Proof. obey stored. Qed.
Lemma applyFinished_stored cur w event t : obeys (preserves storedOk) (applyFinished cur w event t).
Proof.
  unfold applyFinished. do 2 (apply obeys_guard_bind; [apply _|intros ?]).
  destruct (finishStates _ _ _ _ _) as [st next].
  do 2 (apply obeys_bind; [apply _|unfold updateAttempt, updateJob; obey stored|intros _]).
  apply obeys_bind; [apply _|apply recordArtifacts_stored|intros _].
  apply obeys_bind; [apply _|apply fireFinished_stored|intros _]. obey stored.
Qed.

Lemma applyWorkerEvent_stored w event t : obeys (preserves storedOk) (applyWorkerEvent w event t).
Proof.
  intros s Hs. unfold applyWorkerEvent. rewrite query_run.
  destruct (assignedAttempt _ _ _) as [cur|] eqn:Hcur; [|exact Hs].
  rewrite (bind_run _ _ _ cur s) by reflexivity.
  destruct (_ =? _)%string; [by apply applyAccepted_stored|].
  destruct (_ =? _)%string; [by apply applyStarted_stored|].
  destruct (_ =? _)%string; [by apply applyFinished_stored|].
  destruct (_ =? _)%string.
  { unfold applyArtifacts. revert s Hcur Hs. enough (Ho : obeys (preserves storedOk) (applyArtifacts event t))
      by (intros s _; apply Ho). apply obeys_guard_bind; [apply _|intros ?; apply recordArtifacts_stored]. }
  destruct (_ =? _)%string; [by eapply applyMetric_stored|exact Hs].
Qed.

Lemma recordWorkerEvent_stored w session event t : obeys (preserves storedOk) (recordWorkerEvent w session event t).
Proof.
  unfold recordWorkerEvent. do 2 (apply obeys_guard_bind; [apply _|intros ?]).
  apply obeys_bind; [apply _|obey stored|intros n]. destruct (n =? 0)%nat; [obey stored|].
  apply applyWorkerEvent_stored.
Qed.

Lemma SyncWorker_stored now w request : obeys (preserves storedOk) (SyncWorker now w request).
Proof.
  unfold SyncWorker. apply obeys_tx; [apply _|].
  do 2 (apply obeys_bind; [apply _|obey stored|intros ?]). apply obeys_guard_bind; [apply _|intros _].
  apply obeys_bind; [apply _|apply obeys_mfor; [apply _|intros ?; apply recordWorkerEvent_stored]|intros _].
  obey stored.
Qed.

Lemma perform_stored now c : obeys (preserves storedOk) (perform now c).
Proof.
  destruct c; first
    [ simpl; unfold ignore; apply obeys_bind; [apply _|apply SyncWorker_stored|intros; by obey idtac]
    | solve [obey stored] ].
Qed.

Lemma reachable_stored s : reachable s -> storedOk (db s).
Proof.
  intros Hr. apply (ControlSafety.calls_ind (λ s, storedOk (db s)) initial); [|exact Hr|].
  - intros s1 now c _ _. apply perform_stored.
  - split; [by apply Forall_nil|apply map_Forall_empty|apply map_Forall_empty].
Qed.
End storage.
End StorageTheory.

Section properties.
Context `{Env}.

(** C37: In every reachable state each stored metric sample is a finite value of
    a metric that the specification of its attempt's job or the system defines,
    a fraction where the metric is a percentage; and no log tail or artifact
    content is longer than 64 KiB. *)
Theorem stored_data_valid (s : St) : reachable s ->
  Forall (λ r, exists a j, attempts (db s) !! mr_attempt_id r = Some a /\
    jobs (db s) !! at_job_id a = Some j /\ validSample j r) (metric_samples (db s)) /\
  map_Forall (λ _ a, len (at_log_tail a) <= 64 * 1024) (attempts (db s)) /\
  map_Forall (λ k f, is_Some (attempts (db s) !! k.1.1) /\
    len (default "" (af_content f)) <= 64 * 1024) (artifacts (db s)).
Proof.
  intros Hr. apply StorageTheory.reachable_stored in Hr as [Hm Hl Ha]. split_and!; [|exact Hl|exact Ha].
  eapply Forall_impl; [exact Hm|]. intros r (Hf & a & j & Hra & Hj & Hd). exists a, j. split_and!; [done..|].
  split; [done|]. apply StorageTheory.definedMetric_spec in Hd as (m & Hin & Hn & Hv). exists m.
  split_and!; [done..|]. by apply StorageTheory.metricValueFits_percent.
Qed.

End properties.

#[local] Existing Instance demoEnv.

(** The attempt of the run reports its GPU use. *)
Definition demoMetric : MetricSample := {|
  ms_Name := SystemMetricPrefix +:+ "gpu_util"; ms_Value := f64_zero; ms_Step := None; ms_ObservedAt := t0 |}.
Definition demoReport : WorkerEvent := {|
  e_Sequence := 3; e_EventID := "e3"; e_AttemptID := demoAttempt1; e_Kind := WorkerEventMetricSample;
  e_OccurredAt := t0; e_ExitCode := None; e_Error := ""; e_LogURI := ""; e_LogTail := ""; e_Git := None;
  e_Metric := Some demoMetric; e_Artifacts := [] |}.
Definition callReport : Call := CallSyncWorker demoWorker (demoSync [demoReport]).
Definition reported : St := after running callReport.

Lemma reported_reachable : reachable reported.
Proof. exact (reachable_after running callReport running_reachable I). Qed.

Lemma stored_data_valid_witness : length (metric_samples (db reported)) = 1%nat /\
  map_Forall (λ _ a, len (at_log_tail a) <= 64 * 1024) (attempts (db reported)).
Proof.
  split; [vm_compute; reflexivity|].
  exact (proj1 (proj2 (stored_data_valid reported reported_reachable))).
Defined.
