(* ===== verification/BasicProperties.v ===== *)
(** * Timestamps, identifiers and specifications: the properties *)

From S2P Require Import Prelude FloatOrder Times GoLib Ids Domain Validate ValidateSpec Database.
From S2P Require Import Jobs Health Events Lifecycle Auth Scheduler Sync Control Scenario.
From Stdlib Require Import Strings.Byte.



(** The text that [formatTime] stores does not order instants within one
    second: half past the second sorts after 520 milliseconds past it. *)
Theorem formatTime_misorders : exists t1 t2 : time, t1 < t2 /\
  GoTime.fourDigitYear t1 /\ GoTime.fourDigitYear t2 /\ Text.leb (formatTime t1) (formatTime t2) = false.
Proof.
  exists 1700000000500000000, 1700000000520000000.
  split_and!; [lia|apply (bool_decide_unpack _); vm_compute; exact I..|vm_compute; reflexivity].
Qed.

(** An identifier determines its kind and its random bytes, so that two
    identifiers collide only where the random source repeats itself. *)
Theorem identifiers_unique (p1 p2 : string) (r1 r2 : list byte) (i : string) :
  length r1 = length r2 -> New p1 r1 = Ok i -> New p2 r2 = Ok i -> p1 = p2 /\ r1 = r2.
Proof. intros Hlen H1 H2. by eapply IdsTheory.New_inj. Qed.

Lemma identifiers_unique_witness : New "job" (replicate 16 x00) = Ok ("job_00000000000000000000000000") /\
  "job" = "job" /\ replicate 16 x00 = replicate 16 x00.
Proof.
  assert (Hi : New "job" (replicate 16 x00) = Ok ("job_00000000000000000000000000")) by reflexivity.
  split; [exact Hi|]. exact (identifiers_unique "job" "job" _ _ _ eq_refl Hi Hi).
Defined.

(** C38: A specification is accepted exactly when it satisfies every rule of the
    job document, and the encoding of an accepted one cannot fail, because all
    its floats are finite. *)
Theorem specification_accepted `{Unicode} (s : JobSpec) :
  (Validate s = [] <-> ValidSpec s) /\ (ValidSpec s -> ValidateTheory.specFinite s).
Proof. split; [apply ValidateTheory.Validate_ok|apply ValidateTheory.valid_finite]. Qed.
