(* ===== verification/JobProperties.v ===== *)
(** * Submitting and canceling jobs: the properties

    The replay of a submission, its conflict, its effect, and every branch of a
    cancellation. *)

From S2P Require Import Prelude Times GoLib Ids Domain Validate ValidateSpec Database Jobs Health.
From S2P Require Import Events Lifecycle Scheduler Sync Control Scenario History.

Module JobTheory.
Section theory.
Context `{Env}.

Lemma calls_grow s s' : rtc callStep s s' -> grows (db s) (db s').
Proof.
  induction 1 as [|s1 s2 s3 [s4 now c _ _] _ IH]; [reflexivity|].
  etrans; [apply perform_grows|exact IH].
Qed.

Lemma calls_inv s s' : rtc callStep s s' -> Inv (coreOf (db s)) -> Inv (coreOf (db s')).
Proof. induction 1 as [|s1 s2 s3 [s4 now c Hy Ht] _ IH]; eauto using ControlSafety.perform_inv. Qed.

Lemma calls_job s s' jid j : rtc callStep s s' -> Inv (coreOf (db s)) -> jobs (db s) !! jid = Some j ->
  exists j', jobs (db s') !! jid = Some j' /\ LifecycleTheory.evolves j j'.
Proof.
  intros Hr. revert j. induction Hr as [|s1 s2 s3 [s4 now c Hy Ht] _ IH]; intros j HI Hj.
  - exists j. split; [done|constructor].
  - pose proof (ControlSafety.perform_refines now c Hy Ht s4) as Hs.
    destruct (LifecycleTheory.steps_job _ _ _ _ _ Hs HI Hj) as (j1 & Hj1 & E1).
    destruct (IH j1) as (j2 & Hj2 & E2); [by apply ControlSafety.perform_inv|done|].
    exists j2. split; [done|]. by eapply LifecycleTheory.evolves_trans.
Qed.

(** A job of a well-formed database reads back. *)
Lemma getJob_run s jid j : Inv (coreOf (db s)) -> jobs (db s) !! jid = Some j ->
  exists job, getJob jid s = (Ok job, s) /\ j_ID job = jid /\ j_State job = jr_state j /\
    j_Revision job = jr_revision j /\ j_Spec job = jr_spec j.
Proof.
  intros HI Hj. destruct (inv_times _ HI jid j Hj) as (c & u & Hc & Hu & Ec & Eu).
  assert (Hp : forall text t, text = formatTime t -> GoTime.fourDigitYear t -> parsed text s = (Ok t, s)).
  { intros text t -> Ht. unfold parsed. by rewrite TimesTheory.parse_formatTime. }
  unfold getJob. rewrite query_run, Hj, (bind_run _ _ _ j s) by done. unfold scanJob.
  rewrite (bind_run _ _ _ _ _ (Hp _ _ Ec Hc)), (bind_run _ _ _ _ _ (Hp _ _ Eu Hu)).
  eexists. split; [reflexivity|]. done.
Qed.

Lemma tx_run {A} (m : Act A) s r s' : m s = (Ok r, s') -> tx m s = (Ok r, s').
Proof. unfold tx. by intros ->. Qed.

Lemma tx_run_err {A} (m : Act A) s e : m s = (Err e, s) -> tx m s = (Err e, s).
Proof. unfold tx. intros ->. by destruct s. Qed.

Lemma guard_run {A} b e (k : Act A) s : b = true -> (mguard b e ;; k) s = k s.
Proof. by intros ->. Qed.

Lemma guard_fail {A} b e (k : Act A) s : b = false -> (mguard b e ;; k) s = (Err e, s).
Proof. by intros ->. Qed.

(** What a successful submission established. *)
Lemma CreateJob_ok now key spec s r s' : CreateJob now key spec s = (Ok r, s') ->
  key <> "" /\ Validate spec = [] /\
  exists row, idempotency_keys (db s') !! key = Some row /\ ik_request_hash row = requestHash spec /\
    ik_resource_id row = j_ID (cr_Job r) /\ is_Some (jobs (db s') !! j_ID (cr_Job r)).
Proof.
  unfold CreateJob. intros Hr. apply bind_ok in Hr as ([] & s1 & H1 & Hr).
  apply guard_ok in H1 as [Hk ->]. apply bind_ok in Hr as ([] & s1 & H1 & Hr).
  apply guard_ok in H1 as [Hv ->]. apply negb_true_iff, String.eqb_neq in Hk.
  apply bool_decide_eq_true in Hv. split; [done|]. split; [done|]. apply tx_ok in Hr.
  apply bind_ok in Hr as (stored & s1 & H1 & Hr). apply query_ok in H1 as [-> ->].
  destruct (idempotency_keys (db s) !! key) as [row|] eqn:Hrow.
  - apply bind_ok in Hr as ([] & s1 & H1 & Hr). apply guard_ok in H1 as [Hh ->].
    apply bind_ok in Hr as (job & s1 & H1 & Hr). apply Refinement.getJob_ok in H1 as (-> & j & Hj & Hid & _).
    apply ret_ok in Hr as [-> ->]. exists row. apply String.eqb_eq in Hh. simpl. rewrite Hid. eauto.
  - apply bind_ok in Hr as (ts & s1 & _ & Hr).
    unfold insertJob, insertEvent, insertIdempotencyKey in Hr. runs. subst r. simpl.
    eexists. rewrite lookup_insert_eq. split; [done|]. split; [done|]. split; [done|].
    rewrite lookup_insert_eq. eauto.
Qed.

Lemma CreateJob_stored now key spec s row : key <> "" -> Validate spec = [] ->
  idempotency_keys (db s) !! key = Some row -> ik_request_hash row = requestHash spec ->
  CreateJob now key spec s =
  tx (job ← getJob (ik_resource_id row); mret {| cr_Job := job; cr_Created := false |}) s.
Proof.
  intros Hk Hv Hrow Hh. unfold CreateJob.
  rewrite guard_run by (by apply negb_true_iff, String.eqb_neq).
  rewrite guard_run by (by apply bool_decide_eq_true).
  unfold tx. rewrite query_run, Hrow. rewrite guard_run; [done|]. by apply String.eqb_eq.
Qed.

(** A control event with an unused identifier is appended. *)
Lemma control_run kind id v now s eventID : New "evt" (entropy (draws s)) = Ok eventID ->
  Forall (λ e, ev_event_id e <> eventID) (events (db s)) ->
  appendControlEvent kind id v now s = (Ok tt,
    {| db := with_events (events (db s) ++ [{| ev_event_id := eventID; ev_kind := kind;
         ev_resource_id := id; ev_payload := v; ev_recorded_at := formatTime now |}]) (db s);
       draws := S (draws s) |}).
Proof.
  intros Hnew Hfresh. unfold appendControlEvent.
  rewrite (bind_run _ _ _ eventID {| db := db s; draws := S (draws s) |}) by (unfold newID; by rewrite Hnew).
  unfold insertEvent, execIf. rewrite query_run, guard_run; [done|]. by apply bool_decide_eq_true.
Qed.

(** The cancellation of a job that no worker is known to have finished. *)
Lemma cancelJobTx_run now jid s j job eventID : jobs (db s) !! jid = Some j ->
  getJob jid s = (Ok job, s) -> j_ID job = jid -> j_State job = jr_state j ->
  j_Revision job = jr_revision j -> jr_state j = JobQueued \/ jr_state j = JobRunning ->
  New "evt" (entropy (draws s)) = Ok eventID ->
  Forall (λ e, ev_event_id e <> eventID) (events (db s)) ->
  let target := if bool_decide (liveAttempts (db s) jid = []) then JobCanceled else JobCanceling in
  exists s', cancelJobTx now jid s = (Ok None, s') /\
    jobs (db s') = <[jid := setJobState target now j]> (jobs (db s)) /\ attempts (db s') = attempts (db s).
Proof.
  intros Hj Hget Hid Hst Hrev Hq Hnew Hfresh target. unfold cancelJobTx, tx.
  rewrite (bind_run _ _ _ _ _ Hget), Hst. rewrite (bool_decide_eq_false_2 (_ ∈ [JobCanceled; _]))
    by (rewrite !elem_of_cons, elem_of_nil; destruct Hq as [-> | ->]; intuition congruence).
  rewrite (bool_decide_eq_false_2 (_ ∈ [JobSucceeded; _]))
    by (rewrite !elem_of_cons, elem_of_nil; destruct Hq as [-> | ->]; intuition congruence).
  rewrite query_run, Hid.
  assert (Hrun : forall kind, exists s', (cancelRow job target now ;;
      appendControlEvent kind jid (PObj [("job_id", PStr jid)]) now ;; mret (M := M St Error) (None (A := Job))) s
      = (Ok None, s') /\ jobs (db s') = <[jid := setJobState target now j]> (jobs (db s)) /\
      attempts (db s') = attempts (db s)).
  { intros kind. unfold cancelRow, execIf. rewrite Hid.
    set (d1 := {| db := with_jobs (alter (setJobState target now) jid (jobs (db s))) (db s); draws := draws s |}).
    rewrite (bind_run _ _ _ tt d1).
    2: { rewrite query_run, Hj, Hrev, bool_decide_eq_true_2 by done. simpl.
         rewrite bool_decide_eq_true_2; [done|]. rewrite !elem_of_cons. tauto. }
    eexists. split; [rewrite (bind_run _ _ _ _ _ (control_run kind jid _ now d1 eventID Hnew Hfresh)); done|].
    simpl. by rewrite (alter_row _ _ _ _ Hj). }
  unfold target in *. destruct (liveAttempts (db s) jid); simpl in *;
    [destruct (Hrun "job_canceled") as (s' & -> & ?)|destruct (Hrun "job_cancel_requested") as (s' & -> & ?)];
    by exists s'.
Qed.

(** The target loop succeeds exactly when every target is configured. *)
Lemma checkTargets_run ps s : Forall (λ p, is_Some (activeTarget (db s) (hp_Target p))) ps ->
  exists ts, checkTargets ps s = (Ok ts, s).
Proof.
  unfold checkTargets. generalize (∅ : gset string). induction ps as [|p ps IH]; intros ts Hall; [by exists ts|].
  apply Forall_cons in Hall as [[id Hid] Hall]. simpl.
  case_bool_decide; [rewrite (bind_run _ _ _ ts s) by done; by apply IH|].
  rewrite (bind_run _ _ _ ({[hp_Target p]} ∪ ts) s); [by apply IH|].
  rewrite query_run, Hid. done.
Qed.

Lemma checkTargets_missing ps s : Exists (λ p, activeTarget (db s) (hp_Target p) = None) ps ->
  exists name, checkTargets ps s = (Err (ErrHealthTarget name), s) /\ activeTarget (db s) name = None.
Proof.
  unfold checkTargets. assert (H0 : set_Forall (λ n, activeTarget (db s) n <> None) (∅ : gset string)) by done.
  revert H0. generalize (∅ : gset string). induction ps as [|p ps IH]; intros ts Hts Hex; [by apply Exists_nil in Hex|].
  simpl. case_bool_decide as Hin.
  - rewrite (bind_run _ _ _ ts s) by done. apply Exists_cons in Hex as [Hp|Hex]; [by destruct (Hts _ Hin)|by apply IH].
  - destruct (activeTarget (db s) (hp_Target p)) as [id|] eqn:Ht.
    + rewrite (bind_run _ _ _ ({[hp_Target p]} ∪ ts) s) by (by rewrite query_run, Ht).
      apply Exists_cons in Hex as [Hp|Hex]; [congruence|]. apply IH; [|done].
      intros n [->%elem_of_singleton|Hn]%elem_of_union; [congruence|by apply Hts].
    + exists (hp_Target p). split; [|done]. apply bind_run_err. by rewrite query_run, Ht.
Qed.

(** A submission that succeeded is found again. *)
Lemma create_again (now now' : time) (key : string) (spec : JobSpec) (s s1 s2 : St) (r : CreateJobResult) :
  reachable s -> GoTime.fourDigitYear now -> SpecTyped spec ->
  CreateJob now key spec s = (Ok r, s1) -> rtc callStep s1 s2 ->
  exists job, CreateJob now' key spec s2 = (Ok {| cr_Job := job; cr_Created := false |}, s2) /\
    j_ID job = j_ID (cr_Job r).
Proof.
  intros Hs Hy Ht Hr Hcalls. destruct (CreateJob_ok _ _ _ _ _ _ Hr) as (Hk & Hv & row & Hrow & Hh & Hid & j & Hj).
  assert (HI1 : Inv (coreOf (db s1))).
  { pose proof (Refinement.CreateJob_refines now key spec Hy Ht s) as Hst. rewrite Hr in Hst.
    eapply LifecycleTheory.steps_inv; [exact Hst|]. by apply ControlSafety.reachable_inv. }
  destruct (calls_job _ _ _ _ Hcalls HI1 Hj) as (j' & Hj' & _).
  pose proof (calls_inv _ _ Hcalls HI1) as HI2.
  destruct (getJob_run s2 _ _ HI2 Hj') as (job & Hget & Hjid & _).
  exists job. split; [|done]. rewrite (CreateJob_stored now' key spec s2 row); [|done..| |done].
  - apply tx_run. rewrite Hid. by rewrite (bind_run _ _ _ _ _ Hget).
  - eapply lookup_weaken; [exact Hrow|]. apply (g_keys _ _ (calls_grow _ _ Hcalls)).
Qed.
End theory.
End JobTheory.

Section properties.
Context `{Env}.

(** Submitting is idempotent: once a submission has succeeded, the same key
    and specification return the same job at any later time, as not created and
    without changing the database. *)
Theorem create_replayed (now now' : time) (key : string) (spec : JobSpec) (s s1 s2 : St) (r : CreateJobResult) :
  reachable s -> GoTime.fourDigitYear now -> SpecTyped spec ->
  CreateJob now key spec s = (Ok r, s1) -> rtc callStep s1 s2 ->
  exists job, CreateJob now' key spec s2 = (Ok {| cr_Job := job; cr_Created := false |}, s2) /\
    j_ID job = j_ID (cr_Job r).
Proof. apply JobTheory.create_again. Qed.

(** A key that was used for a request with another hash is refused, and the
    database stays as it is. *)
Theorem create_conflict (now : time) (key : string) (spec : JobSpec) (s : St) (row : IdempotencyRow) :
  key <> "" -> Validate spec = [] -> idempotency_keys (db s) !! key = Some row ->
  ik_request_hash row <> requestHash spec ->
  CreateJob now key spec s = (Err ErrIdempotencyConflict, s).
Proof.
  intros Hk Hv Hrow Hh. unfold CreateJob.
  rewrite JobTheory.guard_run by (by apply negb_true_iff, String.eqb_neq).
  rewrite JobTheory.guard_run by (by apply bool_decide_eq_true).
  apply JobTheory.tx_run_err. rewrite query_run, Hrow.
  apply JobTheory.guard_fail. by apply String.eqb_neq.
Qed.

(** The effect of a new submission: with an unused key, a valid
    specification and configured targets the call succeeds with a queued job of
    revision 1, and adds exactly the job, its job_submitted event and the key. *)
Theorem create_fresh (now : time) (key : string) (spec : JobSpec) (s : St) (jobID eventID : string) :
  key <> "" -> ValidSpec spec -> idempotency_keys (db s) !! key = None ->
  Forall (λ p, is_Some (activeTarget (db s) (hp_Target p))) (s_Health spec) ->
  New "job" (entropy (draws s)) = Ok jobID -> New "evt" (entropy (S (draws s))) = Ok eventID ->
  jobs (db s) !! jobID = None -> Forall (λ e, ev_event_id e <> eventID) (events (db s)) ->
  let row := {| jr_project := s_Project spec; jr_name := s_Name spec; jr_state := JobQueued;
    jr_priority := s_Priority spec; jr_revision := 1; jr_spec := spec;
    jr_created_at := formatTime now; jr_updated_at := formatTime now |} in
  let event := {| ev_event_id := eventID; ev_kind := "job_submitted"; ev_resource_id := jobID;
    ev_payload := PObj [("job_id", PStr jobID); ("revision", PInt 1)];
    ev_recorded_at := formatTime now |} in
  CreateJob now key spec s =
    (Ok {| cr_Job := {| j_ID := jobID; j_State := JobQueued; j_Revision := 1; j_Spec := spec;
                        j_CreatedAt := now; j_UpdatedAt := now |}; cr_Created := true |},
     {| db := with_idempotency_keys (<[key := {| ik_request_hash := requestHash spec;
                ik_resource_id := jobID; ik_created_at := formatTime now |}]> (idempotency_keys (db s)))
              (with_events (events (db s) ++ [event])
                (with_jobs (<[jobID := row]> (jobs (db s))) (db s)));
        draws := S (S (draws s)) |}).
Proof.
  intros Hk Hv%ValidateTheory.Validate_ok Hkey Htargets Hjob Hevt Hfresh Hev row event.
  unfold CreateJob. rewrite JobTheory.guard_run by (by apply negb_true_iff, String.eqb_neq).
  rewrite JobTheory.guard_run by (by apply bool_decide_eq_true).
  apply JobTheory.tx_run. rewrite query_run, Hkey.
  destruct (JobTheory.checkTargets_run (s_Health spec) s Htargets) as [ts Hts].
  rewrite (bind_run _ _ _ _ _ Hts).
  rewrite (bind_run _ _ _ jobID {| db := db s; draws := S (draws s) |}) by (unfold newID; by rewrite Hjob).
  rewrite (bind_run _ _ _ eventID {| db := db s; draws := S (S (draws s)) |})
    by (unfold newID; cbn [draws db]; by rewrite Hevt).
  unfold insertJob, insertEvent, insertIdempotencyKey, execIf.
  rewrite (bind_run _ _ _ tt {| db := with_jobs (<[jobID := row]> (jobs (db s))) (db s); draws := S (S (draws s)) |}).
  2: { rewrite query_run, JobTheory.guard_run; [done|]. by apply bool_decide_eq_true. }
  rewrite (bind_run _ _ _ tt {| db := with_events (events (db s) ++ [event])
    (with_jobs (<[jobID := row]> (jobs (db s))) (db s)); draws := S (S (draws s)) |}).
  2: { rewrite query_run, JobTheory.guard_run; [done|]. by apply bool_decide_eq_true. }
  match goal with |- _ = (Ok _, ?s') => rewrite (bind_run _ _ _ tt s') end; [reflexivity|].
  rewrite query_run, JobTheory.guard_run; [done|]. by apply bool_decide_eq_true.
Qed.

(** A submission whose health policies name a target that is not configured
    fails, names such a target, and leaves the database as it is. *)
Theorem create_unknown_target (now : time) (key : string) (spec : JobSpec) (s : St) :
  key <> "" -> ValidSpec spec -> idempotency_keys (db s) !! key = None ->
  Exists (λ p, activeTarget (db s) (hp_Target p) = None) (s_Health spec) ->
  exists name, CreateJob now key spec s = (Err (ErrHealthTarget name), s) /\
    activeTarget (db s) name = None.
Proof.
  intros Hk Hv%ValidateTheory.Validate_ok Hkey Hex.
  destruct (JobTheory.checkTargets_missing _ _ Hex) as (name & Hrun & Hname). exists name. split; [|done].
  unfold CreateJob. rewrite JobTheory.guard_run by (by apply negb_true_iff, String.eqb_neq).
  rewrite JobTheory.guard_run by (by apply bool_decide_eq_true).
  apply JobTheory.tx_run_err. rewrite query_run, Hkey. by apply bind_run_err.
Qed.

(** A cancellation of a job of a reachable database: a job already canceled
    or canceling is returned as it is, a succeeded or failed job is an invalid
    transition, and a queued or running one becomes canceling if an attempt of
    it is live and canceled otherwise, with its revision counted up; attempts
    are never touched. *)
Theorem cancel_branches (now : time) (jid : string) (j : JobRow) (s : St) (eventID : string) :
  reachable s -> GoTime.fourDigitYear now -> jobs (db s) !! jid = Some j ->
  New "evt" (entropy (draws s)) = Ok eventID ->
  Forall (λ e, ev_event_id e <> eventID) (events (db s)) ->
  let target := if bool_decide (liveAttempts (db s) jid = []) then JobCanceled else JobCanceling in
  match jr_state j with
  | JobCanceled | JobCanceling => exists job, CancelJob now jid s = (Ok job, s) /\ j_State job = jr_state j
  | JobSucceeded | JobFailed => CancelJob now jid s = (Err (ErrInvalidTransition (Some (jr_state j))), s)
  | JobQueued | JobRunning => exists job s', CancelJob now jid s = (Ok job, s') /\
      j_State job = target /\ j_Revision job = jr_revision j + 1 /\
      jobs (db s') = <[jid := setJobState target now j]> (jobs (db s)) /\
      attempts (db s') = attempts (db s)
  | JobRetryWait => False
  end.
Proof.
  intros Hs Hy Hj Hnew Hfresh target. apply ControlSafety.reachable_inv in Hs as HI.
  destruct (JobTheory.getJob_run s jid j HI Hj) as (job & Hget & Hid & Hst & Hrev & _).
  assert (Hstay : jr_state j = JobCanceled \/ jr_state j = JobCanceling ->
    exists job, CancelJob now jid s = (Ok job, s) /\ j_State job = jr_state j).
  { intros Hc. exists job. split; [|done]. unfold CancelJob.
    rewrite (bind_run _ _ _ (Some job) s); [done|]. unfold cancelJobTx. apply JobTheory.tx_run.
    rewrite (bind_run _ _ _ _ _ Hget), bool_decide_eq_true_2; [done|]. rewrite Hst, !elem_of_cons. tauto. }
  assert (Hend : jr_state j = JobSucceeded \/ jr_state j = JobFailed ->
    CancelJob now jid s = (Err (ErrInvalidTransition (Some (jr_state j))), s)).
  { intros Hc. unfold CancelJob. apply bind_run_err. unfold cancelJobTx. apply JobTheory.tx_run_err.
    rewrite (bind_run _ _ _ _ _ Hget), bool_decide_eq_false_2, bool_decide_eq_true_2, Hst;
      [done|rewrite Hst, !elem_of_cons; tauto|].
    rewrite Hst, !elem_of_cons, elem_of_nil. destruct Hc as [-> | ->]; intuition congruence. }
  assert (Hgo : jr_state j = JobQueued \/ jr_state j = JobRunning -> exists job s',
    CancelJob now jid s = (Ok job, s') /\ j_State job = target /\ j_Revision job = jr_revision j + 1 /\
    jobs (db s') = <[jid := setJobState target now j]> (jobs (db s)) /\ attempts (db s') = attempts (db s)).
  { intros Hq. destruct (JobTheory.cancelJobTx_run now jid s j job eventID) as (s' & Hrun & Hjobs & Hatt); try done.
    pose proof (Refinement.cancelJobTx_refines now jid Hy s) as Hsteps. rewrite Hrun in Hsteps.
    pose proof (LifecycleTheory.steps_inv _ _ _ Hsteps HI) as HI'.
    destruct (JobTheory.getJob_run s' jid (setJobState target now j) HI') as (job' & Hget' & _ & H1 & H2 & _).
    { by rewrite Hjobs, lookup_insert_eq. }
    exists job', s'. unfold CancelJob. rewrite (bind_run _ _ _ _ _ Hrun). unfold GetJob. by rewrite Hget'. }
  pose proof (LifecycleTheory.inv_retry_wait _ _ _ HI Hj) as Hrw.
  destruct (jr_state j); auto.
Qed.
End properties.

(** ** The properties in the concrete run *)

#[local] Existing Instance demoEnv.

Definition otherSpec : JobSpec :=
  {| s_Project := "physics"; s_Name := "other"; s_Priority := 5; s_Source := s_Source demoSpec;
     s_Command := ["python"]; s_Environment := ∅; s_SecretRefs := ∅; s_Resources := demoResources;
     s_Labels := ∅; s_Retry := s_Retry demoSpec; s_Checkpoint := None; s_Artifacts := [];
     s_Metrics := []; s_Health := [] |}.

(** [otherSpec] with a policy that notifies a target. *)
Definition notifySpec : JobSpec :=
  {| s_Project := "physics"; s_Name := "other"; s_Priority := 5; s_Source := s_Source demoSpec;
     s_Command := ["python"]; s_Environment := ∅; s_SecretRefs := ∅; s_Resources := demoResources;
     s_Labels := ∅; s_Retry := s_Retry demoSpec; s_Checkpoint := None; s_Artifacts := [];
     s_Metrics := []; s_Health := [{| hp_Kind := HealthKindFinished; hp_Metric := ""; hp_Mode := "";
       hp_Window := ""; hp_MinimumDelta := f64_zero; hp_Action := HealthActionNotify;
       hp_Target := "ops" |}] |}.

Lemma create_replayed_witness : exists r job,
  (CreateJob t0 "key" demoSpec enrolled).1 = Ok r /\
  CreateJob t0 "key" demoSpec succeeded = (Ok {| cr_Job := job; cr_Created := false |}, succeeded) /\
  j_ID job = j_ID (cr_Job r).
Proof.
  destruct (CreateJob t0 "key" demoSpec enrolled) as [[r|e] s1] eqn:E.
  2: { exfalso. assert (Hok : isOk (CreateJob t0 "key" demoSpec enrolled).1 = true) by (vm_compute; reflexivity).
       rewrite E in Hok. discriminate Hok. }
  assert (Hs1 : s1 = submitted) by (symmetry; exact (after_create _ _ _ _ _ E)).
  destruct (create_replayed t0 t0 "key" demoSpec enrolled s1 succeeded r enrolled_reachable t0_year
    demoSpec_typed E) as (job & Hrun & Hid).
  { subst s1. exact submitted_to_succeeded. }
  exists r, job. split; [reflexivity|]. split; [exact Hrun|exact Hid].
Defined.

Lemma create_conflict_witness :
  CreateJob t0 "key" otherSpec submitted = (Err ErrIdempotencyConflict, submitted).
Proof.
  the_row (idempotency_keys (db submitted) !! "key") row E.
  refine (create_conflict t0 "key" otherSpec submitted row _ _ E _); [discriminate|vm_compute; reflexivity|].
  assert (Hh : option_map ik_request_hash (idempotency_keys (db submitted) !! "key") =
    Some (requestHash demoSpec)) by (vm_compute; reflexivity).
  rewrite E in Hh. injection Hh as ->. vm_compute. discriminate.
Defined.

Lemma create_fresh_witness : isOk (CreateJob t0 "other" otherSpec submitted).1 = true.
Proof.
  rewrite (create_fresh t0 "other" otherSpec submitted "job_0c000000000000000000000000"
    "evt_0g000000000000000000000000"); [reflexivity|..].
  - discriminate.
  - apply ValidateTheory.Validate_ok. vm_compute. reflexivity.
  - vm_compute. reflexivity.
  - apply Forall_nil. exact I.
  - vm_compute. reflexivity.
  - vm_compute. reflexivity.
  - vm_compute. reflexivity.
  - apply (bool_decide_unpack _). vm_compute. exact I.
Defined.

Lemma create_unknown_target_witness : exists name,
  CreateJob t0 "other" notifySpec submitted = (Err (ErrHealthTarget name), submitted).
Proof.
  destruct (create_unknown_target t0 "other" notifySpec submitted) as (name & Hrun & _).
  - discriminate.
  - apply ValidateTheory.Validate_ok. vm_compute. reflexivity.
  - vm_compute. reflexivity.
  - left. vm_compute. reflexivity.
  - exists name. exact Hrun.
Defined.

Lemma cancel_branches_witness : exists job s',
  CancelJob t0 demoJob running = (Ok job, s') /\ j_State job = JobCanceling.
Proof.
  the_row (jobs (db running) !! demoJob) j E.
  assert (Hst : jr_state j = JobRunning) by exact (stateOf_state _ _ _ _ _ E running_state).
  destruct (New "evt" (entropy (draws running))) as [eventID|] eqn:En;
    [|exfalso; vm_compute in En; discriminate En].
  assert (Hf : Forall (λ e, ev_event_id e <> eventID) (events (db running))).
  { vm_compute in En. injection En as <-. apply (bool_decide_unpack _). vm_compute. exact I. }
  pose proof (cancel_branches t0 demoJob j running eventID running_reachable t0_year E En Hf) as Hb.
  cbv zeta in Hb. rewrite Hst in Hb. destruct Hb as (job & s' & Hrun & Hjob & _).
  exists job, s'. split; [exact Hrun|]. rewrite Hjob.
  rewrite bool_decide_eq_false_2; [reflexivity|]. vm_compute. discriminate.
Defined.
