(* ===== verification/SyncProperties.v ===== *)
(** * Worker synchronization: the properties

    What a sync records and acknowledges, the replay of events, and the commands
    it returns. *)

From S2P Require Import Prelude Times GoLib Ids Domain Validate Database Jobs Health Events.
From S2P Require Import Lifecycle Scheduler Sync Control Scenario History.

Module SyncTheory.

(** The first row of a slot stays the first when rows are appended. *)
Lemma recordedEventID_grows d d' w session seq id : grows d d' ->
  recordedEventID d w session seq = Some id -> recordedEventID d' w session seq = Some id.
Proof.
  intros Hg. destruct (g_worker_events _ _ Hg) as [l Hl]. unfold recordedEventID. rewrite Hl, filter_app.
  by destruct (filter _ (worker_events d)).
Qed.

Lemma recordedEventID_collides d row id :
  recordedEventID d (we_worker_id row) (we_session_id row) (we_sequence row) = Some id ->
  workerEventCollides d row.
Proof.
  unfold recordedEventID, workerEventCollides. intros Hr.
  destruct (filter _ (worker_events d)) as [|r l] eqn:E; [done|].
  assert (Hin : r ∈ filter (sameSlot (we_worker_id row) (we_session_id row) (we_sequence row)) (worker_events d))
    by (rewrite E; left).
  apply list_elem_of_filter in Hin as [Hs Hin]. apply Exists_exists. eauto.
Qed.

Lemma recordedEventID_snoc d w session event t : ~ workerEventCollides d
    {| we_worker_id := w; we_session_id := session; we_sequence := e_Sequence event;
       we_event := event; we_recorded_at := t |} ->
  recordedEventID (with_worker_events (worker_events d ++ [{| we_worker_id := w; we_session_id := session;
    we_sequence := e_Sequence event; we_event := event; we_recorded_at := t |}]) d) w session (e_Sequence event)
  = Some (e_EventID event).
Proof.
  intros Hn. unfold recordedEventID, with_worker_events; simpl. rewrite filter_app.
  destruct (filter _ (worker_events d)) as [|r l] eqn:E.
  - rewrite filter_cons_True by (by repeat split). done.
  - destruct Hn. apply recordedEventID_collides with (id := e_EventID (we_event r)). simpl.
    unfold recordedEventID. by rewrite E.
Qed.

Section sync.
Context `{Env}.

Lemma recordWorkerEvent_grows w session event t : obeys grows (recordWorkerEvent w session event t).
Proof. obey grown. Qed.

(** A recorded event is there to be found, and was well-formed. *)
Lemma recordWorkerEvent_recorded w session event t s u s' :
  recordWorkerEvent w session event t s = (Ok u, s') ->
  recordedEventID (db s') w session (e_Sequence event) = Some (e_EventID event) /\
  e_Sequence event <> 0 /\ e_EventID event <> "" /\ e_AttemptID event <> "" /\ eventEncodes event = true /\
  e_Sequence event < 2 ^ 63.
Proof.
  unfold recordWorkerEvent, insertWorkerEvent. intros Hr.
  apply bind_ok in Hr as ([] & s1 & H1 & Hr). apply guard_ok in H1 as [Hf ->].
  apply negb_true_iff, orb_false_iff in Hf as [Hf Hatt]. apply orb_false_iff in Hf as [Hseq Hev].
  apply Z.eqb_neq in Hseq. apply String.eqb_neq in Hev, Hatt.
  apply bind_ok in Hr as ([] & s1 & H1 & Hr). apply guard_ok in H1 as [Henc ->].
  apply bind_ok in Hr as (n & s1 & H1 & Hr).
  apply bind_ok in H1 as ([] & s2 & H2 & H1). apply guard_ok in H2 as [Hlt ->].
  simpl in Hlt. apply Z.ltb_lt in Hlt. split_and!; try done.
  apply insertOrIgnore_ok in H1 as [(-> & _ & ->)|(-> & Hn & _ & ->)]; simpl in Hr.
  - apply bind_ok in Hr as (o & s1 & H1 & Hr). apply query_ok in H1 as [-> ->].
    apply bind_ok in Hr as (existing & s1 & H1 & Hr). apply found_ok in H1 as [Hex ->].
    apply guard_ok in Hr as [He ->]. apply String.eqb_eq in He. by rewrite Hex, He.
  - assert (Hg : obeys grows (applyWorkerEvent w event t)) by obey grown.
    specialize (Hg {| db := with_worker_events (worker_events (db s) ++ [{| we_worker_id := w;
      we_session_id := session; we_sequence := e_Sequence event; we_event := event;
      we_recorded_at := formatTime t |}]) (db s); draws := draws s |}).
    rewrite Hr in Hg. eapply recordedEventID_grows; [exact Hg|].
    apply recordedEventID_snoc. by apply bool_decide_eq_false in Hn.
Qed.

Lemma acceptedThrough_ge d w session seq id :
  recordedEventID d w session seq = Some id -> seq <= acceptedThrough d w session.
Proof.
  unfold recordedEventID, acceptedThrough. intros Hr.
  destruct (filter (sameSlot _ _ _) _) as [|r l] eqn:E; [done|].
  assert (Hin : r ∈ filter (sameSlot w session seq) (worker_events d)) by (rewrite E; left).
  apply list_elem_of_filter in Hin as [(Hw & Hs & <-) Hin].
  destruct (max_spec (we_sequence <$> filter (λ r, we_worker_id r = w /\ we_session_id r = session)
    (worker_events d))) as (_ & Hle & _).
  apply Hle, list_elem_of_fmap. exists r. split; [done|]. by apply list_elem_of_filter.
Qed.

Lemma mfor_recorded w session events t s u s' :
  mfor events (λ event, recordWorkerEvent w session event t) s = (Ok u, s') ->
  Forall (λ event, recordedEventID (db s') w session (e_Sequence event) = Some (e_EventID event)) events.
Proof.
  intros Hr. eapply (mfor_ok_ind (λ done s1, Forall (λ event,
    recordedEventID (db s1) w session (e_Sequence event) = Some (e_EventID event)) done)) in Hr; [done|done|].
  intros pre x s1 s2 _ Hall Hx. apply Forall_app. split.
  - eapply Forall_impl; [exact Hall|]. intros e. apply recordedEventID_grows.
    pose proof (recordWorkerEvent_grows w session x t s1) as Hg. by rewrite Hx in Hg.
  - apply Forall_singleton. by apply recordWorkerEvent_recorded in Hx as [? _].
Qed.

(** The stages of a committed sync. *)
Lemma SyncWorker_ok now w request s resp s' : SyncWorker now w request s = (Ok resp, s') ->
  exists s1 s2 s3 commands,
    is_Some (workers (db s) !! w) /\
    s1 = {| db := with_workers (alter (setSeen request now) w (workers (db s))) (db s); draws := draws s |} /\
    mfor (q_Events request) (λ event, recordWorkerEvent w (q_SessionID request) event now) s1 = (Ok tt, s2) /\
    offerJobs w (q_Capacity request) now s2 = (Ok tt, s3) /\
    offeredCommands w s3 = (Ok commands, s') /\ db s' = db s3 /\
    resp = {| p_ServerTime := now; p_AcceptedThrough := acceptedThrough (db s') w (q_SessionID request);
              p_NextSyncSeconds := 5;
              p_Commands := commands ++ (cancelCommand <$> canceledRows (db s') w) |}.
Proof.
  unfold SyncWorker, cancelCommands. intros Hr%tx_ok.
  apply bind_ok in Hr as (known & s1 & H1 & Hr). apply query_ok in H1 as [-> ->].
  apply bind_ok in Hr as ([] & s1 & H1 & Hr). apply exec_ok in H1 as ->.
  apply bind_ok in Hr as ([] & s1 & H1 & Hr). apply guard_ok in H1 as [Hk ->].
  apply bool_decide_eq_true in Hk.
  apply bind_ok in Hr as ([] & s2 & H2 & Hr). apply bind_ok in Hr as ([] & s3 & H3 & Hr).
  apply bind_ok in Hr as (commands & s4 & H4 & Hr).
  apply bind_ok in Hr as (cancels & s5 & H5 & Hr).
  apply bind_ok in H5 as (rows & s6 & H6 & H5). apply query_ok in H6 as [-> ->].
  apply ret_ok in H5 as [-> ->].
  apply bind_ok in Hr as (through & s6 & H6 & Hr). apply query_ok in H6 as [-> ->].
  apply ret_ok in Hr as [-> ->].
  eexists _, s2, s3, commands. split_and!; try done.
  unfold offeredCommands in H4. apply bind_ok in H4 as (rows & s5 & H5 & H4). apply query_ok in H5 as [_ ->].
  apply (collect_ok runCommand _ (λ _ _, True)) in H4 as [-> _]; [done|].
  intros [[id a] j] sa y sb Hy. unfold runCommand, parsed in Hy. runs.
  apply Refinement.scanJob_ok in R0 as [-> _]. done.
Qed.

(** Everything a committed sync was asked to record is recorded. *)
Lemma SyncWorker_recorded now w request s resp s' : SyncWorker now w request s = (Ok resp, s') ->
  p_AcceptedThrough resp = acceptedThrough (db s') w (q_SessionID request) /\
  Forall (λ e, recordedEventID (db s') w (q_SessionID request) (e_Sequence e) = Some (e_EventID e))
    (q_Events request).
Proof.
  intros Hr. apply SyncWorker_ok in Hr as (s1 & s2 & s3 & commands & _ & _ & Hev & Hoff & _ & Hdb & ->).
  split; [done|]. apply mfor_recorded in Hev. eapply Forall_impl; [exact Hev|]. intros e.
  apply recordedEventID_grows. assert (Ho : obeys grows (offerJobs w (q_Capacity request) now)) by obey grown.
  specialize (Ho s2). rewrite Hoff in Ho. by rewrite Hdb.
Qed.

(** *** The commands *)

Lemma elem_joinJobs d rows ka j : (ka, j) ∈ joinJobs d rows <->
  ka ∈ rows /\ jobs d !! at_job_id ka.2 = Some j.
Proof.
  unfold joinJobs. rewrite list_elem_of_omap. split.
  - intros (x & Hx & He). destruct (jobs d !! at_job_id x.2) eqn:E; [|done].
    injection He as -> ->. done.
  - intros [Hin Hj]. exists ka. by rewrite Hj.
Qed.

Lemma runCommand_ok row s k s' : runCommand row s = (Ok k, s') -> s' = s /\
  k_CommandID k = at_command_id row.1.2 /\ k_AttemptID k = row.1.1 /\
  k_AttemptNumber k = at_number row.1.2 /\ k_Kind k = WorkerCommandRunJob /\
  parseTime (at_lease row.1.2) = Some (k_LeaseExpiresAt k) /\
  exists job, k_Job k = Some job /\ j_ID job = at_job_id row.1.2 /\ j_State job = jr_state row.2 /\
    j_Revision job = jr_revision row.2 /\ j_Spec job = jr_spec row.2.
Proof.
  destruct row as [[id a] j]. unfold runCommand, parsed. intros Hr.
  apply bind_ok in Hr as (lease & s1 & H1 & Hr). apply found_ok in H1 as [Hl ->].
  apply bind_ok in Hr as (job & s1 & H1 & Hr). apply Refinement.scanJob_ok in H1 as (-> & H1).
  apply ret_ok in Hr as [-> ->]. simpl. split_and!; try done. by exists job.
Qed.

End sync.
End SyncTheory.

(** [k] runs the offered attempt [id] of worker [w]. *)
Definition runsOffered (d : DB) (w : string) (k : WorkerCommand) : Prop :=
  exists id a j job, attempts d !! id = Some a /\ at_worker_id a = w /\ at_state a = AttemptOffered /\
    jobs d !! at_job_id a = Some j /\
    k_Kind k = WorkerCommandRunJob /\ k_CommandID k = at_command_id a /\ k_AttemptID k = id /\
    k_AttemptNumber k = at_number a /\ k_Job k = Some job /\ j_ID job = at_job_id a /\
    j_State job = jr_state j /\ j_Revision job = jr_revision j /\ j_Spec job = jr_spec j.

(** [k] stops the live attempt [id] of worker [w], whose job is to be canceled. *)
Definition stopsCanceled (d : DB) (w : string) (k : WorkerCommand) : Prop :=
  exists id a j, attempts d !! id = Some a /\ at_worker_id a = w /\ live (at_state a) = true /\
    jobs d !! at_job_id a = Some j /\ (jr_state j = JobCanceling \/ jr_state j = JobCanceled) /\
    k = cancelCommand (id, a, j).

Module CommandTheory.
Section commands.
Context `{Env}.

Definition offeredRows (d : DB) (w : string) : list (string * AttemptRow * JobRow) :=
  joinJobs d (orderBy offerOrder
    (rowsWhere (λ ka, at_worker_id ka.2 = w /\ at_state ka.2 = AttemptOffered) (attempts d))).

Lemma elem_offeredRows d w id a j : (id, a, j) ∈ offeredRows d w <->
  attempts d !! id = Some a /\ at_worker_id a = w /\ at_state a = AttemptOffered /\
  jobs d !! at_job_id a = Some j.
Proof.
  unfold offeredRows. rewrite SyncTheory.elem_joinJobs, orderBy_Permutation, elem_of_rowsWhere. simpl. tauto.
Qed.

Lemma elem_canceledRows d w id a j : (id, a, j) ∈ canceledRows d w <->
  attempts d !! id = Some a /\ at_worker_id a = w /\ live (at_state a) = true /\
  jobs d !! at_job_id a = Some j /\ (jr_state j = JobCanceling \/ jr_state j = JobCanceled).
Proof.
  unfold canceledRows, heldAttempts.
  rewrite list_elem_of_filter, SyncTheory.elem_joinJobs, orderBy_Permutation, elem_of_rowsWhere. simpl. tauto.
Qed.

Lemma offeredCommands_ok w s commands s' : offeredCommands w s = (Ok commands, s') ->
  s' = s /\ Forall (runsOffered (db s) w) commands /\
  (forall id a, attempts (db s) !! id = Some a -> at_worker_id a = w -> at_state a = AttemptOffered ->
     is_Some (jobs (db s) !! at_job_id a) -> Exists (λ k, k_AttemptID k = id /\ k_Kind k = WorkerCommandRunJob) commands).
Proof.
  unfold offeredCommands. intros Hr. apply bind_ok in Hr as (rows & s1 & H1 & Hr).
  apply query_ok in H1 as [-> ->]. fold (offeredRows (db s) w) in Hr.
  apply (collect_ok runCommand _ (λ row k, k_CommandID k = at_command_id row.1.2 /\
    k_AttemptID k = row.1.1 /\ k_AttemptNumber k = at_number row.1.2 /\ k_Kind k = WorkerCommandRunJob /\
    exists job, k_Job k = Some job /\ j_ID job = at_job_id row.1.2 /\ j_State job = jr_state row.2 /\
      j_Revision job = jr_revision row.2 /\ j_Spec job = jr_spec row.2)) in Hr as [-> Hall].
  2: { intros row sa k sb Hk. apply SyncTheory.runCommand_ok in Hk. tauto. }
  split; [done|]. split.
  - apply Forall_forall. intros k Hk. apply list_elem_of_lookup in Hk as [i Hi].
    destruct (Forall2_lookup_r _ _ _ _ _ Hall Hi) as ([[id a] j] & Hrow & H1 & H2 & H3 & H4 & job & H5).
    apply list_elem_of_lookup_2, elem_offeredRows in Hrow. exists id, a, j, job. simpl in *. tauto.
  - intros id a Ha Hw Hs [j Hj]. assert (Hin : (id, a, j) ∈ offeredRows (db s) w) by by apply elem_offeredRows.
    apply list_elem_of_lookup in Hin as [i Hi].
    destruct (Forall2_lookup_l _ _ _ _ _ Hall Hi) as (k & Hk & _ & H2 & _ & H4 & _).
    apply Exists_exists. exists k. split; [by eapply list_elem_of_lookup_2|]. done.
Qed.
End commands.
End CommandTheory.

Section properties.
Context `{Env}.

(** A committed sync has recorded every event of its request, each with a
    sequence number at most the acknowledged one; a sync that returns an error
    has changed nothing. *)
Theorem sync_acknowledges (now : time) (w : string) (request : WorkerSyncRequest) (s : St) :
  match SyncWorker now w request s with
  | (Ok resp, s') => Forall (λ e,
      recordedEventID (db s') w (q_SessionID request) (e_Sequence e) = Some (e_EventID e) /\
      e_Sequence e <= p_AcceptedThrough resp) (q_Events request)
  | (Err _, s') => db s' = db s
  end.
Proof.
  destruct (SyncWorker now w request s) as [[resp|e] s'] eqn:Hr; [|by apply tx_err in Hr as [? _]].
  apply SyncTheory.SyncWorker_recorded in Hr as [E Hall]. eapply Forall_impl; [exact Hall|].
  intros e He. split; [exact He|]. rewrite E. exact (SyncTheory.acceptedThrough_ge _ _ _ _ _ He).
Qed.

(** C28: Events take effect once: an event that was recorded is accepted again in
    its session at any later time without any effect. *)
Theorem event_replayed (w session : string) (event : WorkerEvent) (t t' : time) (s s1 s2 : St) :
  recordWorkerEvent w session event t s = (Ok tt, s1) -> rtc callStep s1 s2 ->
  recordWorkerEvent w session event t' s2 = (Ok tt, s2).
Proof.
  intros Hr Hcalls. apply SyncTheory.recordWorkerEvent_recorded in Hr as (Hrec & Hseq & Hid & Hatt & Henc & Hlt).
  assert (Hg : grows (db s1) (db s2)).
  { clear -Hcalls. induction Hcalls as [|x y z [q now c _ _] _ IH]; [reflexivity|].
    etrans; [apply perform_grows|exact IH]. }
  apply (SyncTheory.recordedEventID_grows _ _ _ _ _ _ Hg) in Hrec.
  unfold recordWorkerEvent, insertWorkerEvent.
  rewrite (bind_run _ _ _ tt s2), (bind_run _ _ _ tt s2).
  3: { apply Z.eqb_neq in Hseq. apply String.eqb_neq in Hid, Hatt. by rewrite Hseq, Hid, Hatt. }
  2: { by rewrite Henc. }
  rewrite (bind_run _ _ _ 0%nat s2).
  - simpl. rewrite query_run, Hrec. rewrite (bind_run _ _ _ (e_EventID event) s2) by done.
    by rewrite String.eqb_refl.
  - rewrite (bind_run _ _ _ tt s2) by (simpl; apply Z.ltb_lt in Hlt; by rewrite Hlt).
    unfold insertOrIgnore. rewrite bool_decide_eq_true_2; [done|].
    by apply (SyncTheory.recordedEventID_collides _ _ (e_EventID event)).
Qed.

(** An event that was recorded under one session and is sent again under
    another, as an agent restarted with unacknowledged events does, is rejected:
    its identifier is taken, and no row of the new session answers for it. *)
Theorem event_resent_in_new_session (w session : string) (event : WorkerEvent) (t : time) (s : St)
    (row : WorkerEventRow) :
  row ∈ worker_events (db s) -> e_EventID (we_event row) = e_EventID event ->
  e_Sequence event <> 0 -> e_Sequence event < 2 ^ 63 -> e_EventID event <> "" -> e_AttemptID event <> "" ->
  eventEncodes event = true ->
  recordedEventID (db s) w session (e_Sequence event) = None ->
  recordWorkerEvent w session event t s = (Err ErrDuplicateMissing, s).
Proof.
  intros Hrow Hsame Hseq Hlt Hid Hatt Henc Hnone. unfold recordWorkerEvent, insertWorkerEvent.
  rewrite (bind_run _ _ _ tt s), (bind_run _ _ _ tt s).
  3: { apply Z.eqb_neq in Hseq. apply String.eqb_neq in Hid, Hatt. by rewrite Hseq, Hid, Hatt. }
  2: { by rewrite Henc. }
  rewrite (bind_run _ _ _ 0%nat s).
  - simpl. by rewrite query_run, Hnone.
  - rewrite (bind_run _ _ _ tt s) by (simpl; apply Z.ltb_lt in Hlt; by rewrite Hlt).
    unfold insertOrIgnore. rewrite bool_decide_eq_true_2; [done|].
    apply Exists_exists. exists row. simpl. auto.
Qed.

(** The commands of a committed sync are exactly one run command for every
    offered attempt of the worker and one cancel command for every live attempt
    of the worker whose job is canceling or canceled. *)
Theorem sync_commands (now : time) (w : string) (request : WorkerSyncRequest) (s s' : St)
    (resp : WorkerSyncResponse) :
  SyncWorker now w request s = (Ok resp, s') ->
  Forall (λ k, runsOffered (db s') w k \/ stopsCanceled (db s') w k) (p_Commands resp) /\
  (forall id a, attempts (db s') !! id = Some a -> at_worker_id a = w -> at_state a = AttemptOffered ->
     is_Some (jobs (db s') !! at_job_id a) ->
     Exists (λ k, k_AttemptID k = id /\ k_Kind k = WorkerCommandRunJob) (p_Commands resp)) /\
  (forall k, stopsCanceled (db s') w k -> k ∈ p_Commands resp).
Proof.
  intros Hr. apply SyncTheory.SyncWorker_ok in Hr as (s1 & s2 & s3 & commands & _ & _ & _ & _ & Hc & Hdb & ->).
  apply CommandTheory.offeredCommands_ok in Hc as (-> & Hall & Hex). simpl. split_and!.
  - apply Forall_app. split; [eapply Forall_impl; [exact Hall|]; by left|].
    apply Forall_forall. intros k Hk. right. apply list_elem_of_fmap in Hk as ([[id a] j] & -> & Hin).
    apply CommandTheory.elem_canceledRows in Hin as (? & ? & ? & ? & ?). by exists id, a, j.
  - intros id a Ha Hw Hs Hj. apply Exists_app. left. by eapply Hex.
  - intros k (id & a & j & Ha & Hw & Hl & Hj & Hc & ->). apply elem_of_app. right.
    apply list_elem_of_fmap. exists (id, a, j). split; [done|]. by apply CommandTheory.elem_canceledRows.
Qed.

End properties.

(** ** The properties in the concrete run *)

#[local] Existing Instance demoEnv.

Lemma event_replayed_witness :
  recordWorkerEvent demoWorker "session" (demoEvent 1 "e1" demoAttempt1 WorkerEventAttemptAccepted None) t0
    (recordWorkerEvent demoWorker "session" (demoEvent 1 "e1" demoAttempt1 WorkerEventAttemptAccepted None) t0
      offered).2 =
  (Ok tt, (recordWorkerEvent demoWorker "session"
    (demoEvent 1 "e1" demoAttempt1 WorkerEventAttemptAccepted None) t0 offered).2).
Proof.
  destruct (recordWorkerEvent demoWorker "session"
    (demoEvent 1 "e1" demoAttempt1 WorkerEventAttemptAccepted None) t0 offered) as [[[]|e] s1] eqn:E.
  - exact (event_replayed _ _ _ _ t0 _ s1 s1 E (rtc_refl _ _)).
  - exfalso. assert (Hok : isOk (recordWorkerEvent demoWorker "session"
      (demoEvent 1 "e1" demoAttempt1 WorkerEventAttemptAccepted None) t0 offered).1 = true)
      by (vm_compute; reflexivity).
    rewrite E in Hok. discriminate Hok.
Defined.

Lemma event_resent_in_new_session_witness :
  recordWorkerEvent demoWorker "restarted" (demoEvent 2 "e2" demoAttempt1 WorkerEventAttemptStarted None) t0
    running = (Err ErrDuplicateMissing, running).
Proof.
  assert (Hx : Exists (λ r, e_EventID (we_event r) = "e2") (worker_events (db running)))
    by (apply (bool_decide_unpack _); vm_compute; exact I).
  apply Exists_exists in Hx as (row & Hrow & Hid).
  refine (event_resent_in_new_session demoWorker "restarted"
    (demoEvent 2 "e2" demoAttempt1 WorkerEventAttemptStarted None) t0 running row Hrow Hid _ _ _ _ _ _).
  - discriminate.
  - reflexivity.
  - discriminate.
  - discriminate.
  - reflexivity.
  - vm_compute. reflexivity.
Defined.

Lemma sync_commands_witness : exists resp,
  Exists (λ k, k_AttemptID k = demoAttempt1 /\ k_Kind k = WorkerCommandRunJob) (p_Commands resp).
Proof.
  destruct (SyncWorker t0 demoWorker (demoSync []) submitted) as [[resp|e] s'] eqn:E.
  - exists resp. destruct (sync_commands _ _ _ _ _ _ E) as (_ & Hrun & _).
    assert (Hs' : s' = offered) by (symmetry; exact (after_sync _ _ _ _ _ E)).
    subst s'. the_row (attempts (db offered) !! demoAttempt1) a Ha.
    refine (Hrun demoAttempt1 a Ha _ _ _).
    + assert (Hw : option_map at_worker_id (attempts (db offered) !! demoAttempt1) = Some demoWorker)
        by (vm_compute; reflexivity).
      rewrite Ha in Hw. injection Hw as ->. reflexivity.
    + pose proof offered_state as Hst. unfold attemptOf in Hst. rewrite Ha in Hst.
      injection Hst as -> _. reflexivity.
    + destruct (inv_job _ (ControlSafety.reachable_inv _ offered_reachable) demoAttempt1 a Ha) as [j Hj].
      exists j. exact Hj.
  - exfalso. assert (Hok : isOk (SyncWorker t0 demoWorker (demoSync []) submitted).1 = true)
      by (vm_compute; reflexivity).
    rewrite E in Hok. discriminate Hok.
Defined.


