(* ===== verification/SchedulerProperties.v ===== *)
(** * Offering jobs: the properties

    A specification of the scheduler on lists of specifications: the resources a
    set of requests holds, and the choice among the queued jobs. The
    definitions of Scheduler.v are proved to follow it, and the choice to stay
    within the worker's capacity where the sums of uint32 and uint64 values do
    not wrap. *)

From S2P Require Import Prelude Times GoLib Ids Domain Validate ValidateSpec Database Jobs Health.
From S2P Require Import Events Lifecycle Scheduler Sync Control Scenario.

(** ** Totals *)

Definition sumZ (l : list Z) : Z := foldr Z.add 0 l.

Definition exclusiveGPUs (r : ResourceRequest) : Z :=
  sumZ (g_Count <$> filter (λ g, isExclusive g = true) (r_GPUs r)).
Definition sharedGPUs (r : ResourceRequest) : Z :=
  sumZ (g_Count <$> filter (λ g, isExclusive g = false) (r_GPUs r)).
Definition wantsExclusive (r : ResourceRequest) : bool := existsb isExclusive (r_GPUs r).
Definition wantsGPU (r : ResourceRequest) : bool := negb (bool_decide (r_GPUs r = [])).

(** The allocation of a list of requests, in no particular order. *)
Definition totals (rs : list ResourceRequest) : resourceAllocation := {|
  al_CPU := u32 (sumZ (r_CPU <$> rs));
  al_MemoryBytes := u64 (sumZ (r_MemoryBytes <$> rs));
  al_GPUSharedSlots := u32 (sumZ (sharedGPUs <$> rs));
  al_GPUExclusive := existsb wantsExclusive rs;
  al_GPUInUse := existsb wantsGPU rs;
  al_ActiveAttempts := u32 (Z.of_nat (length rs));
|}.

(** The specifications chosen from a queue. *)
Fixpoint plan (capacity : WorkerCapacity) (al : resourceAllocation) (queue : list JobSpec) : list JobSpec :=
  match queue with
  | [] => []
  | spec :: rest =>
      if c_MaxParallel capacity <=? al_ActiveAttempts al then []
      else if jobFits spec capacity al
      then spec :: plan capacity (occupy al (s_Resources spec)) rest
      else plan capacity al rest
  end.

(** The same choice of anything with a specification. *)
Fixpoint planOn {A} (spec : A -> JobSpec) (capacity : WorkerCapacity) (al : resourceAllocation) (queue : list A) : list A :=
  match queue with
  | [] => []
  | x :: rest =>
      if c_MaxParallel capacity <=? al_ActiveAttempts al then []
      else if jobFits (spec x) capacity al
      then x :: planOn spec capacity (occupy al (s_Resources (spec x))) rest
      else planOn spec capacity al rest
  end.

(** The job has been offered to the worker since [d]. *)
Definition newlyOffered (w jobID : string) (d d' : DB) : Prop := exists aid a,
  attempts d !! aid = None /\ attempts d' !! aid = Some a /\ at_job_id a = jobID /\ at_worker_id a = w /\
  at_state a = AttemptOffered.

Module SchedulerTheory.

Lemma planOn_plan {A} (spec : A -> JobSpec) cap al queue : spec <$> planOn spec cap al queue = plan cap al (spec <$> queue).
Proof.
  revert al. induction queue as [|x rest IH]; intros al; [done|]. cbn [planOn]. rewrite fmap_cons. cbn [plan].
  destruct (_ <=? _); [done|]. destruct (jobFits _ _ _); [|apply IH]. by rewrite fmap_cons, IH.
Qed.

(** *** Sums *)

Lemma sumZ_cons x l : sumZ (x :: l) = x + sumZ l.
Proof. done. Qed.

Lemma sumZ_app l k : sumZ (l ++ k) = sumZ l + sumZ k.
Proof. induction l as [|x l IH]; simpl; [done|]. rewrite IH. lia. Qed.

Lemma sumZ_perm l k : l ≡ₚ k -> sumZ l = sumZ k.
Proof. induction 1; simpl; lia. Qed.

Lemma sumZ_nonneg l : Forall (λ x, 0 <= x) l -> 0 <= sumZ l.
Proof. induction 1; simpl; lia. Qed.

Lemma u32_add a b : u32 (u32 a + b) = u32 (a + b).
Proof. unfold u32. by rewrite Zplus_mod_idemp_l. Qed.

Lemma u64_add a b : u64 (u64 a + b) = u64 (a + b).
Proof. unfold u64. by rewrite Zplus_mod_idemp_l. Qed.

Lemma u32_idem a : u32 (u32 a) = u32 a.
Proof. apply u32_small, u32_bound. Qed.

(** *** One request *)

Definition addGPUs (al : resourceAllocation) (gpus : list GPURequest) : resourceAllocation :=
  foldl addGPU al gpus.

Lemma addGPUs_spec al gpus : let al' := addGPUs al gpus in
  al_CPU al' = al_CPU al /\ al_MemoryBytes al' = al_MemoryBytes al /\
  al_ActiveAttempts al' = al_ActiveAttempts al /\
  al_GPUExclusive al' = al_GPUExclusive al || existsb isExclusive gpus /\
  al_GPUInUse al' = al_GPUInUse al || negb (bool_decide (gpus = [])) /\
  u32 (al_GPUSharedSlots al') =
    u32 (al_GPUSharedSlots al + sumZ (g_Count <$> filter (λ g, isExclusive g = false) gpus)) /\
  (0 <= al_GPUSharedSlots al < 2 ^ 32 -> 0 <= al_GPUSharedSlots al' < 2 ^ 32).
Proof.
  unfold addGPUs. revert al. induction gpus as [|g gpus IH]; intros al; simpl.
  - rewrite !orb_false_r, Z.add_0_r. done.
  - destruct (IH (addGPU al g)) as (H1 & H2 & H3 & H4 & H5 & H6 & H7). simpl in *.
    rewrite H1, H2, H3, H4, H5, H6. unfold addGPU in *. destruct (isExclusive g) eqn:E; simpl in *.
    + rewrite filter_cons_False by (rewrite E; done). rewrite !orb_true_r. simpl. split_and!; auto.
    + rewrite filter_cons_True by done. simpl. rewrite !orb_true_r, u32_add, Z.add_assoc. simpl.
      split_and!; auto. intros _. apply H7, u32_bound.
Qed.

Lemma occupy_totals rs r : occupy (totals rs) r = totals (rs ++ [r]).
Proof.
  unfold occupy, incActive, addAllocation.
  match goal with |- context [foldl addGPU ?a _] => set (al0 := a) end.
  destruct (addGPUs_spec al0 (r_GPUs r)) as (H1 & H2 & H3 & H4 & H5 & H6 & H7). unfold addGPUs in *.
  rewrite (u32_small (al_GPUSharedSlots _)) in H6 by (apply H7, u32_bound).
  rewrite H1, H2, H3, H4, H5, H6. subst al0. clear. unfold totals. simpl.
  rewrite !fmap_app, !sumZ_app, !existsb_app, length_app. simpl.
  rewrite !orb_false_r, !Z.add_0_r, !u32_add, u64_add. f_equal. f_equal. lia.
Qed.

(** Folding the requests in any order gives their totals. *)
Lemma fold_occupy rs ks : foldl (λ al r, occupy al r) (totals ks) rs = totals (ks ++ rs).
Proof.
  revert ks. induction rs as [|r rs IH]; intros ks; simpl; [by rewrite app_nil_r|].
  rewrite occupy_totals, IH. by rewrite <- app_assoc.
Qed.

Lemma existsb_perm {A} (f : A -> bool) l k : l ≡ₚ k -> existsb f l = existsb f k.
Proof.
  induction 1 as [| | |? ? ? _ IH1 _ IH2]; simpl; [done|congruence|by destruct (f x), (f y)|congruence].
Qed.

Lemma totals_perm rs ks : rs ≡ₚ ks -> totals rs = totals ks.
Proof.
  intros Hp. unfold totals. f_equal.
  - f_equal. apply sumZ_perm. by rewrite Hp.
  - f_equal. apply sumZ_perm. by rewrite Hp.
  - f_equal. apply sumZ_perm. by rewrite Hp.
  - by apply existsb_perm.
  - by apply existsb_perm.
  - by rewrite Hp.
Qed.

Lemma currentAllocation_totals d w :
  currentAllocation d w = totals (s_Resources <$> heldSpecs d w).
Proof.
  unfold currentAllocation. change noAllocation with (totals []).
  rewrite <- (app_nil_l (s_Resources <$> _)), <- fold_occupy.
  generalize (totals []). induction (heldSpecs d w) as [|sp l IH]; intros al; [done|]. apply IH.
Qed.

(** *** The offers follow the plan *)

Lemma heldSpecs_offer d d' w aid a j : jobs d' = jobs d -> attempts d' = <[aid := a]> (attempts d) ->
  attempts d !! aid = None -> jobs d !! at_job_id a = Some j -> at_worker_id a = w ->
  live (at_state a) = true -> heldSpecs d' w ≡ₚ heldSpecs d w ++ [jr_spec j].
Proof.
  intros HJ HA Hn Hj Hw Hl. unfold heldSpecs, heldAttempts, rowsWhere. rewrite HJ, HA.
  rewrite (map_to_list_insert _ _ _ Hn), filter_cons_True by done. simpl. rewrite Hj. simpl.
  apply Permutation_cons_append.
Qed.

Lemma omap_all_some {A B} (f : A -> option B) g l : Forall (λ x, f x = Some (g x)) l -> omap f l = g <$> l.
Proof. induction 1 as [|x l Hx _ IH]; [done|]. simpl. rewrite Hx. by f_equal. Qed.

Section offers.
Context `{Env}.

Lemma offerLoop_plan w now cap al queue s u s' : Refinement.queueReady (db s) queue ->
  offerLoop w now cap al queue s = (Ok u, s') ->
  heldSpecs (db s') w ≡ₚ heldSpecs (db s) w ++ plan cap al (j_Spec <$> queue).
Proof.
  revert al s. induction queue as [|job rest IH]; intros al s Hq Hr; simpl in Hr |- *.
  { runs. by rewrite app_nil_r. }
  destruct (_ <=? _); [runs; by rewrite app_nil_r|].
  destruct (jobFits _ _ _) eqn:Hfit; simpl in Hr; [|by apply IH; [eapply Refinement.queueReady_tail|]].
  apply bind_ok in Hr as ([] & s1 & H1 & Hr).
  pose proof (Refinement.offer_queueReady _ _ _ _ _ _ _ H1 Hq) as Hq'.
  destruct Hq as [_ Hq]. apply Forall_cons in Hq as [(j & Hj & _ & Hsp & _) _].
  apply Refinement.offerAttempt_ok in H1 as (aid & a & Hc & Hn & Hjob & Hw & Hst & _).
  injection Hc as HJ HA. rewrite (IH _ _ Hq' Hr), (heldSpecs_offer (db s) (db s1) w aid a j); try done.
  - rewrite <- app_assoc. simpl. by rewrite Hsp.
  - by rewrite Hjob.
  - by rewrite Hst.
Qed.

(** Every job of the choice is offered. *)
Lemma newlyOffered_later w jid d1 d2 d3 : attempts d2 ⊆ attempts d3 -> newlyOffered w jid d1 d2 -> newlyOffered w jid d1 d3.
Proof. intros Hsub (aid & a & Hn & Ha & Hrest). exists aid, a. split_and!; try apply Hrest; [done|by eapply lookup_weaken]. Qed.

Lemma newlyOffered_sooner w jid d1 d2 d3 : attempts d1 ⊆ attempts d2 -> newlyOffered w jid d2 d3 -> newlyOffered w jid d1 d3.
Proof.
  intros Hsub (aid & a & Hn & Hrest). exists aid, a. split; [|done]. destruct (attempts d1 !! aid) as [b|] eqn:E; [|done].
  by rewrite (lookup_weaken _ _ _ _ E Hsub) in Hn.
Qed.

Lemma offerLoop_offers w now cap al queue s u s' : offerLoop w now cap al queue s = (Ok u, s') ->
  attempts (db s) ⊆ attempts (db s') /\
  Forall (λ job, newlyOffered w (j_ID job) (db s) (db s')) (planOn j_Spec cap al queue).
Proof.
  revert al s. induction queue as [|job rest IH]; intros al s Hr; simpl in Hr |- *.
  { runs. split; [done|constructor]. }
  destruct (_ <=? _); [runs; split; [done|constructor]|].
  destruct (jobFits _ _ _); simpl in Hr; [|by apply IH].
  apply bind_ok in Hr as ([] & s1 & H1 & Hr). destruct (IH _ _ Hr) as [Hsub Hall].
  apply Refinement.offerAttempt_ok in H1 as (aid & a & Hc & Hn & Hjob & Hw & Hst & _). injection Hc as HJ HA.
  assert (Hsub1 : attempts (db s) ⊆ attempts (db s1)) by (rewrite HA; by apply insert_subseteq).
  split; [by etrans|]. constructor.
  - apply (newlyOffered_later _ _ _ (db s1)); [done|]. exists aid, a. rewrite HA. by split_and!; [|apply lookup_insert_eq|..].
  - eapply Forall_impl; [exact Hall|]. intros x. by apply newlyOffered_sooner.
Qed.

(** The specifications of the queue the scheduler looks at. *)
Definition queueSpecs (d : DB) : list JobSpec := (λ kj, jr_spec kj.2) <$> schedulableJobs d.

Lemma scanJobs_specs rows s queue s' : scanJobs rows s = (Ok queue, s') ->
  j_Spec <$> queue = (λ kj, jr_spec kj.2) <$> rows.
Proof.
  intros Hr. apply Refinement.scanJobs_ok in Hr as [_ Hall].
  induction Hall as [|x y l k (_ & _ & Hs) _ IH]; [done|]. rewrite !fmap_cons. congruence.
Qed.

Lemma plan_full cap al queue : c_MaxParallel cap <= al_ActiveAttempts al -> plan cap al queue = [].
Proof. destruct queue; simpl; [done|]. intros Hf. apply Z.leb_le in Hf. by rewrite Hf. Qed.

Lemma offerJobs_plan w cap now s u s' : offerJobs w cap now s = (Ok u, s') ->
  heldSpecs (db s') w ≡ₚ heldSpecs (db s) w ++
    plan (normalCapacity cap) (totals (s_Resources <$> heldSpecs (db s) w)) (queueSpecs (db s)).
Proof.
  unfold offerJobs. intros Hr. apply bind_ok in Hr as (al & s1 & H1 & Hr). apply query_ok in H1 as [-> ->].
  rewrite currentAllocation_totals in Hr.
  destruct (Z.leb_spec (c_MaxParallel (normalCapacity cap))
    (al_ActiveAttempts (totals (s_Resources <$> heldSpecs (db s) w)))).
  - runs. rewrite plan_full by done. by rewrite app_nil_r.
  - apply bind_ok in Hr as (rows & s1 & H1 & Hr). apply query_ok in H1 as [-> ->].
    apply bind_ok in Hr as (queue & s1 & H1 & Hr). pose proof (scanJobs_specs _ _ _ _ H1) as Hs.
    apply Refinement.scanJobs_ready in H1 as [-> Hq].
    rewrite (offerLoop_plan _ _ _ _ _ _ _ _ Hq Hr). by rewrite Hs.
Qed.
End offers.

(** *** What fits *)

Lemma gpuCounts_spec gpus : gpuCounts gpus =
  (u32 (sumZ (g_Count <$> filter (λ g, isExclusive g = true) gpus)),
   u32 (sumZ (g_Count <$> filter (λ g, isExclusive g = false) gpus))).
Proof.
  unfold gpuCounts. assert (Hgen : forall e s, foldl (λ acc gpu,
    if isExclusive gpu then (u32 (acc.1 + g_Count gpu), acc.2) else (acc.1, u32 (acc.2 + g_Count gpu)))
    (u32 e, u32 s) gpus =
    (u32 (e + sumZ (g_Count <$> filter (λ g, isExclusive g = true) gpus)),
     u32 (s + sumZ (g_Count <$> filter (λ g, isExclusive g = false) gpus)))); [|apply (Hgen 0 0)].
  induction gpus as [|g gpus IH]; intros e s; simpl; [by rewrite !Z.add_0_r|].
  destruct (isExclusive g) eqn:E; simpl; rewrite u32_add, IH.
  - rewrite filter_cons_True, filter_cons_False by (by rewrite E). simpl. by rewrite Z.add_assoc.
  - rewrite filter_cons_False, filter_cons_True by (by rewrite E). simpl. by rewrite Z.add_assoc.
Qed.

Lemma jobFits_spec spec cap rs : jobFits spec cap (totals rs) = true <->
  s_Project spec ∈ c_Projects cap /\ labelsMatch (s_Labels spec) (c_Labels cap) = true /\
  (0 < c_CPU cap -> u32 (sumZ (r_CPU <$> rs) + r_CPU (s_Resources spec)) <= c_CPU cap) /\
  (0 < c_MemoryBytes cap ->
     u64 (sumZ (r_MemoryBytes <$> rs) + r_MemoryBytes (s_Resources spec)) <= c_MemoryBytes cap) /\
  (if 0 <? u32 (exclusiveGPUs (s_Resources spec))
   then existsb wantsGPU rs = false /\ u32 (sharedGPUs (s_Resources spec)) = 0 /\
        u32 (exclusiveGPUs (s_Resources spec)) <= c_GPUCount cap
   else 0 < u32 (sharedGPUs (s_Resources spec)) ->
        existsb wantsExclusive rs = false /\
        u32 (sumZ (sharedGPUs <$> rs) + sharedGPUs (s_Resources spec)) <= c_GPUSharedSlots cap).
Proof.
  unfold jobFits. rewrite gpuCounts_spec. fold (exclusiveGPUs (s_Resources spec)).
  fold (sharedGPUs (s_Resources spec)). simpl. rewrite u32_add, u64_add.
  assert (Hs : forall x y, u32 (u32 x + u32 y) = u32 (x + y)).
  { intros x y. rewrite u32_add, Z.add_comm, u32_add. f_equal. lia. }
  rewrite Hs. clear Hs.
  case_bool_decide as Hp; simpl; [|by intuition].
  destruct (labelsMatch _ _); simpl; [|by intuition].
  destruct (Z.ltb_spec 0 (c_CPU cap)), (Z.ltb_spec (c_CPU cap) (u32 (sumZ (r_CPU <$> rs) + r_CPU (s_Resources spec)))); simpl;
    try (split; [done|]; lia);
  destruct (Z.ltb_spec 0 (c_MemoryBytes cap)), (Z.ltb_spec (c_MemoryBytes cap)
    (u64 (sumZ (r_MemoryBytes <$> rs) + r_MemoryBytes (s_Resources spec)))); simpl;
    try (split; [done|]; lia);
  destruct (Z.ltb_spec 0 (u32 (exclusiveGPUs (s_Resources spec))));
  try (rewrite !andb_true_iff, negb_true_iff, Z.eqb_eq, Z.leb_le; intuition lia);
  destruct (Z.ltb_spec 0 (u32 (sharedGPUs (s_Resources spec))));
  try (rewrite !andb_true_iff, negb_true_iff, Z.leb_le); intuition lia.
Qed.

(** An invariant of the choice. *)
Lemma plan_ind (I : list ResourceRequest -> Prop) cap queue rs :
  (forall rs spec, spec ∈ queue -> I rs -> al_ActiveAttempts (totals rs) < c_MaxParallel cap ->
     jobFits spec cap (totals rs) = true -> I (rs ++ [s_Resources spec])) ->
  I rs -> I (rs ++ (s_Resources <$> plan cap (totals rs) queue)).
Proof.
  intros Hstep. revert rs. induction queue as [|spec rest IH]; intros rs HI; simpl; [by rewrite app_nil_r|].
  destruct (Z.leb_spec (c_MaxParallel cap) (u32 (Z.of_nat (length rs)))); [by rewrite app_nil_r|].
  destruct (jobFits spec cap (totals rs)) eqn:Hfit.
  - rewrite fmap_cons, cons_middle, app_assoc, occupy_totals. apply IH.
    + intros rs' spec' Hin. apply Hstep. by right.
    + apply Hstep; [left|done|done|done].
  - apply IH; [|done]. intros rs' spec' Hin. apply Hstep. by right.
Qed.

End SchedulerTheory.

(** ** Staying within the capacity *)

(** A worker that holds [rs] is not overcommitted. A capacity of 0 means the
    worker does not state that resource. *)
Record within (cap : WorkerCapacity) (rs : list ResourceRequest) : Prop := {
  w_cpu : 0 < c_CPU cap -> sumZ (r_CPU <$> rs) <= c_CPU cap;
  w_memory : 0 < c_MemoryBytes cap -> sumZ (r_MemoryBytes <$> rs) <= c_MemoryBytes cap;
  w_shared : sumZ (sharedGPUs <$> rs) <= c_GPUSharedSlots cap;
  w_exclusive : Forall (λ r, exclusiveGPUs r <= c_GPUCount cap) rs;
  w_alone : existsb wantsExclusive rs = true -> length (filter (λ r, wantsGPU r = true) rs) = 1%nat;
  w_parallel : Z.of_nat (length rs) <= c_MaxParallel cap;
}.

(** A request whose sums with the capacity stay within Go's integer types. *)
Record modest (cap : WorkerCapacity) (r : ResourceRequest) : Prop := {
  mo_cpu : 0 <= r_CPU r /\ c_CPU cap + r_CPU r < 2 ^ 32;
  mo_memory : 0 <= r_MemoryBytes r /\ c_MemoryBytes cap + r_MemoryBytes r < 2 ^ 64;
  mo_counts : Forall (λ g, 1 <= g_Count g) (r_GPUs r);
  mo_exclusive : exclusiveGPUs r < 2 ^ 32;
  mo_shared : c_GPUSharedSlots cap + sharedGPUs r < 2 ^ 32;
}.

Module CapacityTheory.

Definition nonneg (r : ResourceRequest) : Prop := 0 <= r_CPU r /\ 0 <= r_MemoryBytes r /\ 0 <= sharedGPUs r.

Lemma nonneg_sums rs : Forall nonneg rs -> 0 <= sumZ (r_CPU <$> rs) /\
  0 <= sumZ (r_MemoryBytes <$> rs) /\ 0 <= sumZ (sharedGPUs <$> rs).
Proof.
  intros Hnn. split_and!; apply SchedulerTheory.sumZ_nonneg, Forall_fmap;
    (eapply Forall_impl; [exact Hnn|]; unfold nonneg; simpl; tauto).
Qed.


Lemma sum_counts_nonneg f gpus : Forall (λ g, 1 <= g_Count g) gpus ->
  0 <= sumZ (g_Count <$> filter (λ g, isExclusive g = f) gpus).
Proof.
  intros Hg. apply SchedulerTheory.sumZ_nonneg, Forall_fmap, Forall_forall.
  intros g [_ Hin]%list_elem_of_filter. rewrite Forall_forall in Hg. specialize (Hg g Hin). simpl. lia.
Qed.

Lemma sum_counts_zero f gpus : Forall (λ g, 1 <= g_Count g) gpus ->
  sumZ (g_Count <$> filter (λ g, isExclusive g = f) gpus) <= 0 ->
  Forall (λ g, isExclusive g <> f) gpus.
Proof.
  induction 1 as [|g gpus Hg Hall IH]; [done|]. intros Hs.
  pose proof (sum_counts_nonneg f gpus Hall). destruct (decide (isExclusive g = f)).
  - rewrite filter_cons_True, fmap_cons, SchedulerTheory.sumZ_cons in Hs by done. lia.
  - rewrite filter_cons_False in Hs by done. constructor; auto.
Qed.

Lemma wants_exclusive r : Forall (λ g, 1 <= g_Count g) (r_GPUs r) -> exclusiveGPUs r <= 0 ->
  wantsExclusive r = false.
Proof.
  intros Hc Hz. apply (sum_counts_zero true) in Hz; [|done]. unfold wantsExclusive.
  induction Hz as [|g l Hg _ IH]; [done|]. simpl. destruct (isExclusive g); [done|]. apply IH.
  by apply Forall_cons in Hc as [_ ?].
Qed.

Lemma wants_gpu r : Forall (λ g, 1 <= g_Count g) (r_GPUs r) -> exclusiveGPUs r <= 0 -> sharedGPUs r <= 0 ->
  wantsGPU r = false.
Proof.
  intros Hc He Hs. apply (sum_counts_zero true) in He; [|done]. apply (sum_counts_zero false) in Hs; [|done].
  unfold wantsGPU. destruct (r_GPUs r) as [|g l]; [done|].
  apply Forall_cons in He as [He _], Hs as [Hs _]. by destruct (isExclusive g).
Qed.

Lemma filter_none (f : ResourceRequest -> bool) rs :
  existsb f rs = false -> filter (λ r, f r = true) rs = [].
Proof.
  induction rs as [|r rs IH]; [done|]. simpl. intros [H1 H2]%orb_false_iff.
  rewrite filter_cons_False by congruence. auto.
Qed.

Lemma shared_nonneg rs : Forall (λ r, 0 <= sharedGPUs r) rs -> 0 <= sumZ (sharedGPUs <$> rs).
Proof. intros Hs. by apply SchedulerTheory.sumZ_nonneg, Forall_fmap. Qed.

(** One job that fits beside [rs] keeps the worker within its capacity. *)
Lemma within_step cap rs spec : CapacityTyped cap -> within cap rs ->
  Forall nonneg rs -> modest cap (s_Resources spec) ->
  al_ActiveAttempts (totals rs) < c_MaxParallel cap ->
  jobFits spec cap (totals rs) = true -> within cap (rs ++ [s_Resources spec]).
Proof.
  intros Hty [Hcpu Hmem Hsh Hex Hal Hpar] Hnn [Mcpu Mmem Mc Mex Msh] Hact Hfit.
  apply SchedulerTheory.jobFits_spec in Hfit as (_ & _ & Fcpu & Fmem & Fgpu).
  set (r := s_Resources spec) in *.
  destruct (nonneg_sums _ Hnn) as (? & ? & ?).
  pose proof (sum_counts_nonneg true _ Mc) as He0. fold (exclusiveGPUs r) in He0.
  pose proof (sum_counts_nonneg false _ Mc) as Hs0. fold (sharedGPUs r) in Hs0.
  destruct Hty as [[? ?] [? ?] [? ?] [? ?] [? ?]].
  rewrite (u32_small (exclusiveGPUs r)) in Fgpu by lia.
  rewrite (u32_small (sharedGPUs r)) in Fgpu by lia.
  split; rewrite ?fmap_app, ?SchedulerTheory.sumZ_app; simpl; rewrite ?Z.add_0_r.
  - intros Hc. specialize (Fcpu Hc). specialize (Hcpu Hc). rewrite u32_small in Fcpu by lia. lia.
  - intros Hc. specialize (Fmem Hc). specialize (Hmem Hc). rewrite u64_small in Fmem by lia. lia.
  - destruct (Z.ltb_spec 0 (exclusiveGPUs r)); [destruct Fgpu as (_ & -> & _); lia|].
    destruct (decide (0 < sharedGPUs r)) as [Hp|Hp]; [|lia].
    destruct (Fgpu Hp) as [_ F]. rewrite u32_small in F by lia. lia.
  - apply Forall_app. split; [done|]. apply Forall_singleton.
    destruct (Z.ltb_spec 0 (exclusiveGPUs r)); [tauto|lia].
  - rewrite existsb_app, filter_app, length_app. simpl. rewrite orb_false_r.
    destruct (Z.ltb_spec 0 (exclusiveGPUs r)) as [Hp|Hp].
    + destruct Fgpu as (Hno & _). rewrite (filter_none _ _ Hno). simpl. intros _.
      rewrite filter_cons_True; [done|]. destruct (wantsGPU r) eqn:E; [done|].
      unfold wantsGPU in E. apply negb_false_iff, bool_decide_eq_true in E.
      unfold exclusiveGPUs in Hp. rewrite E in Hp. simpl in Hp. lia.
    + rewrite (wants_exclusive r Mc Hp), orb_false_r. intros Hwant. specialize (Hal Hwant).
      destruct (decide (0 < sharedGPUs r)) as [Hq|Hq].
      * destruct (Fgpu Hq) as [Hno _]. congruence.
      * rewrite filter_cons_False; [simpl; lia|]. rewrite (wants_gpu r Mc Hp); [done|lia].
  - rewrite length_app. simpl in *. rewrite u32_small in Hact by lia. lia.
Qed.

(** What fits beside more requests fits beside fewer. *)
Lemma jobFits_antitone cap rs ks spec : CapacityTyped cap -> within cap (rs ++ ks) ->
  Forall nonneg (rs ++ ks) -> modest cap (s_Resources spec) ->
  jobFits spec cap (totals (rs ++ ks)) = true -> jobFits spec cap (totals rs) = true.
Proof.
  intros Hty [Hcpu Hmem Hsh _ _ _] Hnn [Mcpu Mmem Mc Mex Msh].
  rewrite !SchedulerTheory.jobFits_spec. intros (? & ? & Fcpu & Fmem & Fgpu).
  set (r := s_Resources spec) in *.
  apply Forall_app in Hnn as [Hn1 Hn2]. apply nonneg_sums in Hn1 as (? & ? & ?), Hn2 as (? & ? & ?).
  rewrite !fmap_app, !SchedulerTheory.sumZ_app, !existsb_app in *.
  pose proof (sum_counts_nonneg false _ Mc) as Hs0. fold (sharedGPUs r) in Hs0.
  destruct Hty as [[? ?] [? ?] [? ?] [? ?] [? ?]].
  rewrite (u32_small (sharedGPUs r)) in * by lia.
  split_and!; [done|done| | |].
  - intros Hc. specialize (Fcpu Hc). specialize (Hcpu Hc). rewrite u32_small in * by lia. lia.
  - intros Hc. specialize (Fmem Hc). specialize (Hmem Hc). rewrite u64_small in * by lia. lia.
  - destruct (Z.ltb_spec 0 (u32 (exclusiveGPUs r))).
    + destruct Fgpu as ([? ?]%orb_false_iff & ? & ?). done.
    + intros Hp. destruct (Fgpu Hp) as [[? ?]%orb_false_iff F]. split; [done|].
      rewrite u32_small in * by lia. lia.
Qed.

Lemma modest_nonneg cap r : modest cap r -> nonneg r.
Proof. intros [[? _] [? _] Hc _ _]. split_and!; try done. by apply sum_counts_nonneg. Qed.

(** The plan keeps a worker within its capacity. *)
Lemma plan_within cap queue rs : CapacityTyped cap -> within cap rs -> Forall nonneg rs ->
  Forall (λ spec, modest cap (s_Resources spec)) queue ->
  within cap (rs ++ (s_Resources <$> plan cap (totals rs) queue)) /\
  Forall nonneg (rs ++ (s_Resources <$> plan cap (totals rs) queue)).
Proof.
  intros Hty Hin Hnn Hmod.
  apply (SchedulerTheory.plan_ind (λ rs, within cap rs /\ Forall nonneg rs)); [|done].
  intros rs1 sp Hsp [Hw Hn] Hact Hfit. rewrite Forall_forall in Hmod. specialize (Hmod sp Hsp).
  split; [by apply within_step|]. apply Forall_app. split; [done|]. apply Forall_singleton.
  by eapply modest_nonneg.
Qed.

(** The choice leaves out only what no longer fits. *)
Lemma planOn_maximal {A} (spec : A -> JobSpec) cap queue rs x : CapacityTyped cap -> within cap rs -> Forall nonneg rs ->
  Forall (λ spec, modest cap (s_Resources spec)) (spec <$> queue) -> x ∈ queue ->
  let final := rs ++ (s_Resources <$> plan cap (totals rs) (spec <$> queue)) in
  x ∈ planOn spec cap (totals rs) queue \/ c_MaxParallel cap <= al_ActiveAttempts (totals final) \/
  jobFits (spec x) cap (totals final) = false.
Proof.
  intros Hty. revert rs. induction queue as [|y q IH]; intros rs Hin Hnn Hmod Hx; [by apply elem_of_nil in Hx|].
  rewrite fmap_cons in Hmod |- *. apply Forall_cons in Hmod as [Hy Hmod]. cbn [plan planOn].
  destruct (Z.leb_spec (c_MaxParallel cap) (al_ActiveAttempts (totals rs))) as [Hfull|Hact].
  { right. left. by rewrite app_nil_r. }
  destruct (jobFits (spec y) cap (totals rs)) eqn:Hfit.
  - rewrite fmap_cons, cons_middle, app_assoc, SchedulerTheory.occupy_totals.
    apply elem_of_cons in Hx as [->|Hx]; [left; left|].
    destruct (IH (rs ++ [s_Resources (spec y)])) as [?|?]; [by apply within_step| |done|done|left; by right|by right].
    apply Forall_app. split; [done|]. apply Forall_singleton. by eapply modest_nonneg.
  - apply elem_of_cons in Hx as [->|Hx]; [|by apply IH].
    right. right. destruct (plan_within cap (spec <$> q) rs Hty Hin Hnn Hmod) as [Hw Hn].
    destruct (jobFits (spec y) cap (totals (rs ++ _))) eqn:E; [|done].
    apply jobFits_antitone in E; [congruence|done..].
Qed.

End CapacityTheory.

(** A job that asks for almost every CPU a uint32 can count, and a worker that
    runs four attempts side by side. *)
Definition greedySpec : JobSpec := {|
  s_Project := "physics"; s_Name := "greedy"; s_Priority := 0; s_Source := s_Source demoSpec;
  s_Command := ["run"]; s_Environment := ∅; s_SecretRefs := ∅;
  s_Resources := {| r_CPU := 2 ^ 32 - 2; r_MemoryBytes := 0; r_ScratchBytes := 0; r_GPUs := [] |};
  s_Labels := ∅; s_Retry := s_Retry demoSpec; s_Checkpoint := None; s_Artifacts := [];
  s_Metrics := []; s_Health := [] |}.

Definition wideCapacity : WorkerCapacity := {|
  c_CPU := 8; c_MemoryBytes := 4096; c_GPUCount := 0; c_GPUSharedSlots := 0; c_MaxParallel := 4;
  c_Labels := ∅; c_Projects := ["physics"] |}.

Section properties.
Context `{Env}.

(** Whatever order the database returns the worker's live attempts in, the
    allocation computed for them is the sum of their requests, each sum wrapped
    at the width of its Go type. *)
Theorem allocation_is_totals (d : DB) (w : string) (rs : list ResourceRequest) :
  rs ≡ₚ s_Resources <$> heldSpecs d w -> currentAllocation d w = totals rs.
Proof.
  intros Hp. rewrite SchedulerTheory.currentAllocation_totals. symmetry. by apply SchedulerTheory.totals_perm.
Qed.

(** The offers of a successful run are exactly the plan: the specifications
    the worker holds afterwards are those it held before and those the plan
    chooses, in priority order, from the schedulable jobs. *)
Theorem offers_follow_plan (w : string) (cap : WorkerCapacity) (now : time) (s s' : St) :
  offerJobs w cap now s = (Ok tt, s') ->
  heldSpecs (db s') w ≡ₚ heldSpecs (db s) w ++
    plan (normalCapacity cap) (currentAllocation (db s) w) (SchedulerTheory.queueSpecs (db s)).
Proof.
  intros Hr. rewrite SchedulerTheory.currentAllocation_totals. by eapply SchedulerTheory.offerJobs_plan.
Qed.

(** C9: Offering jobs keeps a worker within its capacity - CPU, memory, shared
    GPU slots, exclusive GPUs used by one job alone, and the number of parallel
    attempts - as long as no sum of a schedulable request with the capacity
    leaves the range of its Go type. *)
Theorem offers_within_capacity (w : string) (cap : WorkerCapacity) (now : time) (s s' : St) :
  CapacityTyped (normalCapacity cap) ->
  within (normalCapacity cap) (s_Resources <$> heldSpecs (db s) w) ->
  Forall CapacityTheory.nonneg (s_Resources <$> heldSpecs (db s) w) ->
  Forall (λ spec, modest (normalCapacity cap) (s_Resources spec)) (SchedulerTheory.queueSpecs (db s)) ->
  offerJobs w cap now s = (Ok tt, s') ->
  exists rs, rs ≡ₚ s_Resources <$> heldSpecs (db s') w /\ within (normalCapacity cap) rs.
Proof.
  intros Hty Hin Hnn Hmod Hr. apply SchedulerTheory.offerJobs_plan in Hr.
  eexists. split; [symmetry; rewrite Hr, fmap_app; reflexivity|].
  by apply CapacityTheory.plan_within.
Qed.


(** The sums wrap: a worker with 8 CPUs that holds a job of 2 CPUs accepts a
    valid job of 2^32 - 2 CPUs beside it, because the uint32 sum is 0. *)
Theorem cpu_sum_wraps : ValidSpec greedySpec /\ SpecTyped greedySpec /\
  within wideCapacity [demoResources] /\
  jobFits greedySpec wideCapacity (totals [demoResources]) = true /\
  c_CPU wideCapacity < sumZ (r_CPU <$> [demoResources; s_Resources greedySpec]).
Proof.
  split_and!; [|repeat split; try apply Forall_nil; simpl; lia| |vm_compute; done|vm_compute; done].
  - apply ValidateTheory.Validate_ok. vm_compute. done.
  - split; simpl; try lia; try done. by apply Forall_singleton.
Qed.

End properties.


(** ** The properties in the concrete run *)

#[local] Existing Instance demoEnv.

Lemma allocation_is_totals_witness : currentAllocation (db offered) demoWorker =
  totals (s_Resources <$> heldSpecs (db offered) demoWorker).
Proof. exact (allocation_is_totals (db offered) demoWorker _ (Permutation_refl _)). Defined.

(** Offering to the worker of the submitted job. *)
Definition demoOffer : result Error unit * St := offerJobs demoWorker demoCapacity t0 submitted.

Lemma demoOffer_ok : demoOffer.1 = Ok tt.
Proof. vm_compute. reflexivity. Qed.

Lemma demoOffer_run : offerJobs demoWorker demoCapacity t0 submitted = (Ok tt, demoOffer.2).
Proof.
  pose proof demoOffer_ok as Hok. unfold demoOffer in *.
  destruct (offerJobs demoWorker demoCapacity t0 submitted) as [r s']. simpl in *. by rewrite Hok.
Qed.

Lemma held_submitted : heldSpecs (db submitted) demoWorker = [].
Proof. vm_compute. reflexivity. Qed.
Lemma queue_submitted : SchedulerTheory.queueSpecs (db submitted) = [demoSpec].
Proof. vm_compute. reflexivity. Qed.

Lemma demoCapacity_typed : CapacityTyped (normalCapacity demoCapacity).
Proof. repeat split; simpl; lia. Qed.
Lemma demoHeld_within :
  within (normalCapacity demoCapacity) (s_Resources <$> heldSpecs (db submitted) demoWorker).
Proof. rewrite held_submitted. split; simpl; first [lia|by apply Forall_nil|done]. Qed.
Lemma demoHeld_nonneg :
  Forall CapacityTheory.nonneg (s_Resources <$> heldSpecs (db submitted) demoWorker).
Proof. rewrite held_submitted. by apply Forall_nil. Qed.
Lemma demoQueue_modest : Forall (λ spec, modest (normalCapacity demoCapacity) (s_Resources spec))
  (SchedulerTheory.queueSpecs (db submitted)).
Proof.
  rewrite queue_submitted. apply Forall_singleton.
  split; simpl; unfold exclusiveGPUs, sharedGPUs; simpl; try lia. by apply Forall_nil.
Qed.

Lemma offers_follow_plan_witness :
  heldSpecs (db demoOffer.2) demoWorker ≡ₚ heldSpecs (db submitted) demoWorker ++
    plan (normalCapacity demoCapacity) (currentAllocation (db submitted) demoWorker)
      (SchedulerTheory.queueSpecs (db submitted)) /\
  heldSpecs (db demoOffer.2) demoWorker = [demoSpec].
Proof.
  split; [exact (offers_follow_plan _ _ _ _ _ demoOffer_run)|].
  vm_compute. reflexivity.
Defined.

Lemma offers_within_capacity_witness : exists rs,
  rs ≡ₚ s_Resources <$> heldSpecs (db demoOffer.2) demoWorker /\ within (normalCapacity demoCapacity) rs.
Proof.
  exact (offers_within_capacity _ _ _ _ _ demoCapacity_typed demoHeld_within demoHeld_nonneg
    demoQueue_modest demoOffer_run).
Defined.

(** The submitted job, as the scheduler finds it. *)
Lemma job_submitted : exists row, (demoJob, row) ∈ schedulableJobs (db submitted).
Proof. eexists. vm_compute. left. Qed.

