(* ===== verification/AgentProperties.v ===== *)
(** * The agent and the control plane together: the properties

    No event is lost between the worker's outbox and the control plane, whatever
    requests and responses the network loses and whenever the agent restarts. *)

From S2P Require Import Prelude Utf8 Times GoLib Ids Domain Validate Database Jobs Health Events.
From S2P Require Import Lifecycle Auth Scheduler Sync WorkerStore WorkerLog Control Agent Scenario History.
From S2P Require Import SyncProperties WorkerProperties.
From Stdlib Require Import Strings.Byte.

(** ** Invariants of the two sides *)

Record OutboxInv (d : WorkerDB) : Prop := {
  oi_sorted : StronglySorted Z.lt (ob_sequence <$> outbox d);
  oi_bound : 0 <= last_sequence d /\ Forall (λ r, 0 < ob_sequence r <= last_sequence d) (outbox d);
}.

(** The recorded events of [w] in [session] after a call are those before and
    events of the list. *)
Definition recordsOnly (w session : string) (sequences : list Z) (d d' : DB) : Prop :=
  Forall (λ r, r ∈ worker_events d \/ we_worker_id r <> w \/ we_session_id r <> session \/
    we_sequence r ∈ sequences) (worker_events d').

(** Between a worker's outbox and what the control plane has recorded of its
    session: nothing beyond what was handed out, and nothing skipped. *)
Record SysInv (w : string) (y : Sys) : Prop := {
  si_outbox : OutboxInv (wdb (y_worker y));
  si_through : acceptedThrough (db (y_server y)) w (y_session y) <= last_sequence (wdb (y_worker y));
  si_recorded : Forall (λ r, ob_sequence r <= acceptedThrough (db (y_server y)) w (y_session y) ->
    recordedEventID (db (y_server y)) w (y_session y) (ob_sequence r) = Some (e_EventID (ob_event r)))
    (outbox (wdb (y_worker y)));
}.

(** The control plane has the event. *)
Definition recordedAt (d : DB) (w eventID : string) : Prop :=
  exists r, r ∈ worker_events d /\ we_worker_id r = w /\ e_EventID (we_event r) = eventID.

Module AgentTheory.

(** *** The worker's side *)

Lemma sorted_filter (P : OutboxRow -> Prop) `{forall x, Decision (P x)} rows :
  StronglySorted Z.lt (ob_sequence <$> rows) -> StronglySorted Z.lt (ob_sequence <$> filter P rows).
Proof.
  induction rows as [|r rows IH]; intros Hs; [constructor|]. inversion Hs as [|?? Hs' Hr]; subst.
  rewrite filter_cons. destruct (decide (P r)); [|by apply IH]. simpl. constructor; [by apply IH|].
  rewrite Forall_fmap in *. apply Forall_forall. intros x Hx. apply list_elem_of_filter in Hx as [_ Hx].
  rewrite Forall_forall in Hr. by apply Hr.
Qed.

(** What a call of the agent does to the outbox: rows are dropped or appended
    under higher sequences. *)
Record outboxGrows (d d' : WorkerDB) : Prop := {
  og_inv : OutboxInv d -> OutboxInv d';
  og_last : last_sequence d <= last_sequence d';
  og_rows : forall r, r ∈ outbox d' -> r ∈ outbox d \/ last_sequence d < ob_sequence r;
}.

#[global] Instance outboxGrows_preorder : PreOrder outboxGrows.
Proof.
  split; [intros d; split; auto; lia|]. intros d1 d2 d3 [A1 A2 A3] [B1 B2 B3]. split; [auto|lia|].
  intros r Hr. destruct (B3 r Hr) as [Hr2|?]; [destruct (A3 r Hr2); auto|right; lia].
Qed.

Lemma outbox_same cs d : outboxGrows d (with_commands cs d).
Proof. split; simpl; [intros []; by split|lia|by left]. Qed.

Lemma outbox_append e text d : outboxGrows d (appendOutbox e text d).
Proof.
  split; [|simpl; lia|].
  - intros [Hs [H0 Hb]]. split; unfold appendOutbox; cbn [outbox last_sequence].
    + rewrite fmap_app. simpl. apply sorted_snoc; [done|]. rewrite Forall_fmap.
      eapply Forall_impl; [exact Hb|]. simpl. lia.
    + split; [lia|]. apply Forall_app. split; [eapply Forall_impl; [exact Hb|]; simpl; lia|].
      apply Forall_singleton. simpl. lia.
  - simpl. intros r [Hr|Hr]%elem_of_app; [by left|]. right. apply list_elem_of_singleton in Hr as ->. simpl. lia.
Qed.

Lemma outbox_acknowledge through d :
  outboxGrows d (with_outbox (filter (λ r, through < ob_sequence r) (outbox d)) d).
Proof.
  split; [|simpl; lia|].
  - intros [Hs [H0 Hb]]. split; cbn [outbox last_sequence with_outbox]; [by apply sorted_filter|].
    split; [done|]. apply Forall_forall. intros r Hr. apply list_elem_of_filter in Hr as [_ Hr].
    rewrite Forall_forall in Hb. by apply Hb.
  - simpl. intros r [_ Hr]%list_elem_of_filter. by left.
Qed.

Section worker.
Context `{WorkerEnv}.

Lemma workerPerform_outbox c : wobeys outboxGrows (workerPerform c).
Proof. destruct c; wobey ltac:(first [apply outbox_same | apply outbox_append | apply outbox_acknowledge]). Qed.

(** The sequences of the request are those of the oldest rows. *)
Lemma cycleRequest_ok config session s request : (cycleRequest config session s).1 = Ok request ->
  q_SessionID request = session /\
  q_Events request = (λ r, withSequence (ob_sequence r) (ob_event r)) <$> take 1000 (outbox (wdb s)).
Proof. unfold cycleRequest, WorkerEvents. rewrite wquery_run. simpl. by intros [= <-]. Qed.
End worker.

(** A row that is not later than a row of a sorted prefix is in the prefix. *)
Lemma prefix_sorted n rows r x : StronglySorted Z.lt (ob_sequence <$> rows) -> r ∈ rows ->
  x ∈ take n rows -> ob_sequence r <= ob_sequence x -> r ∈ take n rows.
Proof.
  revert n. induction rows as [|y rows IH]; intros n Hs Hr Hx Hle; [by destruct n|].
  inversion Hs as [|?? Hs' Hy]; subst. destruct n as [|n]; [by apply elem_of_nil in Hx|]. simpl in *.
  apply elem_of_cons in Hr as [->|Hr]; [apply list_elem_of_here|].
  apply elem_of_cons. right. apply elem_of_cons in Hx as [->|Hx]; [|by eapply IH].
  exfalso. rewrite Forall_fmap, Forall_forall in Hy. specialize (Hy r Hr). simpl in Hy. lia.
Qed.

(** *** The control plane's side *)

#[global] Instance recordsOnly_preorder w session seqs : PreOrder (recordsOnly w session seqs).
Proof.
  split; unfold recordsOnly; [intros d; apply Forall_forall; by left|].
  intros d1 d2 d3 H1 H2. rewrite Forall_forall in *. intros r Hr.
  destruct (H2 r Hr) as [Hr2|?]; [by apply H1|by right].
Qed.

Section server.
Context `{Env}.

(** Leaf tactic: the worker events are untouched. *)
Ltac silent := unfold recordsOnly; apply Forall_forall; intros ? ?; by left.

Lemma recordWorkerEvent_records w session seqs w' session' event t :
  w' <> w \/ session' <> session \/ e_Sequence event ∈ seqs ->
  obeys (recordsOnly w session seqs) (recordWorkerEvent w' session' event t).
Proof.
  intros Hw. obey ltac:(first [silent | unfold recordsOnly; simpl; apply Forall_app; split;
    [apply Forall_forall; intros ? ?; by left|apply Forall_singleton; simpl; tauto]]).
Qed.

Lemma SyncWorker_records w session seqs now w' request :
  w' <> w \/ q_SessionID request <> session \/ (forall e, e ∈ q_Events request -> e_Sequence e ∈ seqs) ->
  obeys (recordsOnly w session seqs) (SyncWorker now w' request).
Proof.
  intros Hw. unfold SyncWorker. apply obeys_tx; [apply _|].
  do 2 (apply obeys_bind; [apply _|obey silent|intros ?]). apply obeys_guard_bind; [apply _|intros _].
  apply obeys_bind; [apply _| |intros _; obey silent].
  assert (Hall : forall events, (forall e, e ∈ events -> e ∈ q_Events request) ->
    obeys (recordsOnly w session seqs)
      (mfor events (λ event, recordWorkerEvent w' (q_SessionID request) event now))); [|by apply Hall].
  induction events as [|e events IH]; intros Hin; simpl; [apply obeys_ret; apply _|].
  apply obeys_bind; [apply _| |intros _; apply IH; intros x Hx; apply Hin; by right].
  apply recordWorkerEvent_records. destruct Hw as [?|[?|Hw]]; [by left|by right; left|].
  right. right. apply Hw, Hin, list_elem_of_here.
Qed.

Lemma perform_records w session now c : callWorker c <> Some w ->
  obeys (recordsOnly w session []) (perform now c).
Proof.
  intros Hc. destruct c; first
    [ simpl; unfold ignore; apply obeys_bind; [apply _|apply SyncWorker_records; left; simpl in Hc; congruence
        |intros; by obey idtac]
    | solve [obey silent] ].
Qed.

(** The acknowledged sequence comes from a recorded event. *)
Lemma acceptedThrough_from d w session : acceptedThrough d w session = 0 \/
  exists r, r ∈ worker_events d /\ we_worker_id r = w /\ we_session_id r = session /\
    we_sequence r = acceptedThrough d w session.
Proof.
  unfold acceptedThrough.
  destruct (max_spec (we_sequence <$> filter (λ r, we_worker_id r = w /\ we_session_id r = session)
    (worker_events d))) as (_ & _ & [Hm|Hm]); [by left|]. right.
  apply list_elem_of_fmap in Hm as (r & Hm & Hr). apply list_elem_of_filter in Hr as [[Hw Hs] Hr]. eauto.
Qed.

Lemma acceptedThrough_nonneg d w session : 0 <= acceptedThrough d w session.
Proof. unfold acceptedThrough. match goal with |- 0 <= foldr _ _ ?l => by destruct (max_spec l) end. Qed.

Lemma acceptedThrough_le d w session r : r ∈ worker_events d -> we_worker_id r = w ->
  we_session_id r = session -> we_sequence r <= acceptedThrough d w session.
Proof.
  intros Hr Hw Hs. unfold acceptedThrough.
  destruct (max_spec (we_sequence <$> filter (λ r, we_worker_id r = w /\ we_session_id r = session)
    (worker_events d))) as (_ & Hle & _).
  apply Hle, list_elem_of_fmap. exists r. split; [done|]. by apply list_elem_of_filter.
Qed.

(** Where the acknowledged sequence can move. *)
Lemma acceptedThrough_moves d d' w session seqs : grows d d' -> recordsOnly w session seqs d d' ->
  acceptedThrough d' w session = acceptedThrough d w session \/ acceptedThrough d' w session ∈ seqs.
Proof.
  intros Hg Hr. unfold recordsOnly in Hr. rewrite Forall_forall in Hr.
  assert (Hle : acceptedThrough d w session <= acceptedThrough d' w session).
  { destruct (acceptedThrough_from d w session) as [->|(r & Hin & Hw & Hs & <-)]; [apply acceptedThrough_nonneg|].
    apply acceptedThrough_le; [|done|done]. destruct (g_worker_events _ _ Hg) as [l ->].
    apply elem_of_app. by left. }
  destruct (acceptedThrough_from d' w session) as [E|(r & Hin & Hw & Hs & E)].
  { left. pose proof (acceptedThrough_nonneg d w session). lia. }
  destruct (Hr r Hin) as [Hold|[?|[?|Hnew]]]; [|done|done|right; by rewrite <- E].
  left. pose proof (acceptedThrough_le d w session r Hold Hw Hs). lia.
Qed.

Lemma SyncWorker_grows now w request : obeys grows (SyncWorker now w request).
Proof. obey grown. Qed.
End server.

(** *** The system *)

Section system.
Context `{Env} `{WorkerEnv} (config : AgentConfig).
Let w := cf_WorkerID config.

(** The worker moves on: rows it drops or adds do not matter. *)
Lemma worker_moves y worker : outboxGrows (wdb (y_worker y)) (wdb worker) -> SysInv w y ->
  SysInv w {| y_server := y_server y; y_worker := worker; y_session := y_session y |}.
Proof.
  intros [Hinv Hlast Hrows] [Ho Ht Hr]. split; simpl; [by apply Hinv|lia|].
  apply Forall_forall. intros r Hin Hle. destruct (Hrows r Hin) as [Hold|?]; [|lia].
  rewrite Forall_forall in Hr. by apply Hr.
Qed.

(** The control plane moves on without new events of the session. *)
Lemma server_moves y server : grows (db (y_server y)) (db server) ->
  recordsOnly w (y_session y) [] (db (y_server y)) (db server) -> SysInv w y ->
  SysInv w {| y_server := server; y_worker := y_worker y; y_session := y_session y |}.
Proof.
  intros Hg Hro [Ho Ht Hr].
  destruct (acceptedThrough_moves _ _ _ _ _ Hg Hro) as [E|Hin]; [|by apply elem_of_nil in Hin].
  split; simpl; rewrite ?E; [done|done|]. eapply Forall_impl; [exact Hr|]. intros r Hrec Hle.
  eapply SyncTheory.recordedEventID_grows; [exact Hg|]. by apply Hrec.
Qed.

(** The control plane applies a request of the agent. *)
Lemma sync_moves y now request : (cycleRequest config (y_session y) (y_worker y)).1 = Ok request ->
  SysInv w y ->
  SysInv w {| y_server := (SyncWorker now w request (y_server y)).2; y_worker := y_worker y;
              y_session := y_session y |}.
Proof.
  intros Hreq [Ho Ht Hr]. apply cycleRequest_ok in Hreq as [Hses Hev].
  destruct (SyncWorker now w request (y_server y)) as [[resp|e] s'] eqn:Hsync; cbn [snd].
  2: { apply tx_err in Hsync as [E _]. split; simpl; by rewrite ?E. }
  set (seqs := e_Sequence <$> q_Events request).
  assert (Hg : grows (db (y_server y)) (db s')).
  { pose proof (SyncWorker_grows now w request (y_server y)) as Hg. by rewrite Hsync in Hg. }
  assert (Hro : recordsOnly w (y_session y) seqs (db (y_server y)) (db s')).
  { pose proof (SyncWorker_records w (y_session y) seqs now w request) as Hro.
    specialize (Hro ltac:(right; right; intros e He; by apply list_elem_of_fmap_2) (y_server y)).
    by rewrite Hsync in Hro. }
  apply SyncTheory.SyncWorker_recorded in Hsync as [_ Hrec]. rewrite Hses in Hrec.
  assert (Hseqs : seqs = ob_sequence <$> take 1000 (outbox (wdb (y_worker y)))).
  { unfold seqs. rewrite Hev, <- list_fmap_compose. by apply list_fmap_ext. }
  pose proof (acceptedThrough_moves _ _ _ _ _ Hg Hro) as Hmove.
  destruct Ho as [Hsort [Hl0 Hbound]]. split; simpl; [by split| |].
  - destruct Hmove as [->|Hin]; [done|]. rewrite Hseqs in Hin. apply list_elem_of_fmap in Hin as (x & -> & Hin).
    rewrite Forall_forall in Hbound. apply Hbound. by eapply subseteq_take.
  - apply Forall_forall. intros r Hin Hle. destruct Hmove as [E|Hx].
    + rewrite E in Hle. eapply SyncTheory.recordedEventID_grows; [exact Hg|].
      rewrite Forall_forall in Hr. by apply Hr.
    + rewrite Hseqs in Hx. apply list_elem_of_fmap in Hx as (x & E & Hx). rewrite E in Hle.
      pose proof (prefix_sorted _ _ _ _ Hsort Hin Hx Hle) as Hr1000. rewrite Forall_forall in Hrec.
      apply (Hrec (withSequence (ob_sequence r) (ob_event r))). rewrite Hev.
      by apply (list_elem_of_fmap_2 (λ r, withSequence (ob_sequence r) (ob_event r))).
Qed.

Lemma receive_outbox clock resp : wobeys outboxGrows (receiveResponse clock resp).
Proof.
  unfold receiveResponse. apply wobeys_bind; [apply _|exact (workerPerform_outbox (WCallAccept clock _))|].
  intros _. exact (workerPerform_outbox (WCallAcknowledge _)).
Qed.

Lemma sysStep_inv y y' : sysStep config y y' -> SysInv w y -> SysInv w y'.
Proof.
  intros [y1 now c Hy Ht Hc|y1 c Hc|y1 now request Hy Hreq|y1 now clock request resp Hy Hreq Hresp|
          y1 session Hfresh] Hi.
  - apply server_moves; [apply perform_grows|by apply perform_records|done].
  - apply worker_moves; [apply workerPerform_outbox|done].
  - by apply sync_moves.
  - pose proof (sync_moves y1 now request Hreq Hi) as Hi1.
    pose proof (λ H, worker_moves _ (receiveResponse clock resp (y_worker y1)).2 H Hi1) as Hmove.
    exact (Hmove (receive_outbox clock resp (y_worker y1))).
  - destruct Hi as [Ho Ht Hr].
    assert (E : acceptedThrough (db (y_server y1)) w session = 0).
    { destruct (acceptedThrough_from (db (y_server y1)) w session) as [E|(r & Hin & Hw & Hs & _)]; [done|].
      rewrite Forall_forall in Hfresh. by destruct (Hfresh r Hin Hw). }
    destruct Ho as [Hs [Hl0 Hb]]. split; simpl; rewrite ?E; [by split|lia|].
    eapply Forall_impl; [exact Hb|]. simpl. lia.
Qed.

Lemma sysInitial_inv session : SysInv w (sysInitial session).
Proof. split; simpl; [split; simpl; [constructor|split; [lia|by apply Forall_nil]]|done|by apply Forall_nil]. Qed.

(** *** One event *)

Lemma row_kept row c : (forall t, c <> WCallAcknowledge t) ->
  wobeys (λ d d', row ∈ outbox d -> row ∈ outbox d') (workerPerform c).
Proof.
  intros Hc. assert (PreOrder (λ d d', row ∈ outbox d -> row ∈ outbox d'))
    by (split; unfold Reflexive, Transitive; auto).
  destruct c as [| | | | | |through]; [..|by destruct (Hc through)];
    wobey ltac:(simpl; first [done | intros ?; apply elem_of_app; by left]).
Qed.

Lemma receive_row row clock resp s : row ∈ outbox (wdb s) ->
  row ∈ outbox (wdb (receiveResponse clock resp s).2) \/ ob_sequence row <= p_AcceptedThrough resp.
Proof.
  intros Hrow. destruct (decide (ob_sequence row <= p_AcceptedThrough resp)); [by right|left].
  unfold receiveResponse, mbind, M_bind.
  pose proof (row_kept row (WCallAccept clock (p_Commands resp)) ltac:(done) s Hrow) as Hk. cbn [workerPerform] in Hk.
  destruct (AcceptCommands clock (p_Commands resp) s) as [[[]|e] s1]; [|exact Hk]. cbn [snd] in Hk |- *.
  unfold Acknowledge. destruct (_ =? 0); [exact Hk|]. destruct (_ <? _); [|exact Hk]. simpl.
  apply list_elem_of_filter. split; [lia|exact Hk].
Qed.

Lemma recordedAt_grows d d' id : grows d d' -> recordedAt d w id -> recordedAt d' w id.
Proof.
  intros Hg (r & Hin & Hr). exists r. split; [|done]. destruct (g_worker_events _ _ Hg) as [l ->].
  apply elem_of_app. by left.
Qed.

Lemma recordedEventID_at d session seq id : recordedEventID d w session seq = Some id -> recordedAt d w id.
Proof.
  unfold recordedEventID. destruct (filter _ _) as [|r l] eqn:E; [done|]. intros [= <-]. exists r.
  assert (Hin : r ∈ filter (sameSlot w session seq) (worker_events d)) by (rewrite E; apply list_elem_of_here).
  apply list_elem_of_filter in Hin as [(Hw & _) Hin]. done.
Qed.

(** The event is still in the outbox or has been recorded. *)
Definition safe (row : OutboxRow) (y : Sys) : Prop :=
  row ∈ outbox (wdb (y_worker y)) \/ recordedAt (db (y_server y)) w (e_EventID (ob_event row)).

Lemma sysStep_server y y' : sysStep config y y' -> grows (db (y_server y)) (db (y_server y')).
Proof.
  intros []; simpl; [apply perform_grows|reflexivity|apply SyncWorker_grows|apply SyncWorker_grows|reflexivity].
Qed.

Lemma sysStep_safe row y y' : sysStep config y y' -> SysInv w y -> safe row y -> safe row y'.
Proof.
  intros Hstep Hi [Hrow|Hrec]; [|right; by eapply recordedAt_grows; [eapply sysStep_server|]].
  destruct Hstep as [y1 now c Hy Ht Hc|y1 c Hc|y1 now request Hy Hreq|y1 now clock request resp Hy Hreq Hresp|
          y1 session Hfresh]; try (by left).
  - left. apply row_kept; [|done]. intros t ->. done.
  - destruct (receive_row row clock resp (y_worker y1) Hrow) as [Hk|Hle]; [by left|]. right. simpl.
    pose proof (sync_moves y1 now request Hreq Hi) as [_ _ Hr]. simpl in Hr.
    pose proof (cycleRequest_ok _ _ _ _ Hreq) as [Hses _].
    fold w in Hresp |- *. destruct (SyncWorker now w request (y_server y1)) as [res s'] eqn:Hsync. simpl in *. subst res.
    apply SyncTheory.SyncWorker_recorded in Hsync as [E _]. rewrite E, Hses in Hle.
    rewrite Forall_forall in Hr. eapply recordedEventID_at. by apply (Hr row Hrow).
Qed.
(** Acknowledging through a positive sequence drops every row up to it. *)
Lemma acknowledge_drops through s s' r : Acknowledge through s = (Ok tt, s') ->
  r ∈ outbox (wdb s') -> through <> 0 -> through < ob_sequence r.
Proof.
  unfold Acknowledge. intros Hr Hin Hn. apply Z.eqb_neq in Hn. rewrite Hn in Hr.
  apply bind_ok in Hr as ([] & s1 & [_ ->]%guard_ok & Hr). apply WorkerTheory.wexec_ok in Hr as ->.
  simpl in Hin. by apply list_elem_of_filter in Hin as [? _].
Qed.

(** What the agent sent and saw acknowledged has left its outbox. *)
(** A sync that succeeds has recorded the events of the request. *)
Lemma exchange_records session worker now request resp s server :
  (cycleRequest config session worker).1 = Ok request ->
  SyncWorker now w request s = (Ok resp, server) ->
  Forall (λ r, recordedEventID (db server) w (q_SessionID request) (ob_sequence r) = Some (e_EventID (ob_event r)))
    (take 1000 (outbox (wdb worker))).
Proof.
  intros [Hses Hev]%cycleRequest_ok Hsync. apply SyncTheory.SyncWorker_recorded in Hsync as [_ Hall].
  apply Forall_forall. intros r Hr. rewrite Forall_forall in Hall.
  apply (Hall (withSequence (ob_sequence r) (ob_event r))). rewrite Hev.
  by apply (list_elem_of_fmap_2 (λ r, withSequence (ob_sequence r) (ob_event r))).
Qed.

Lemma exchange_drops y now clock request resp server worker :
  OutboxInv (wdb (y_worker y)) ->
  (cycleRequest config (y_session y) (y_worker y)).1 = Ok request ->
  SyncWorker now w request (y_server y) = (Ok resp, server) ->
  receiveResponse clock resp (y_worker y) = (Ok tt, worker) ->
  Forall (λ r, recordedAt (db server) w (e_EventID (ob_event r)) /\ r ∉ outbox (wdb worker))
    (take 1000 (outbox (wdb (y_worker y)))).
Proof.
  intros [_ [_ Hb]] Hreq Hsync Hrec. pose proof (exchange_records _ _ _ _ _ _ _ Hreq Hsync) as Hall.
  apply SyncTheory.SyncWorker_recorded in Hsync as [E _]. apply Forall_forall. intros r Hr.
  rewrite Forall_forall in Hall. pose proof (Hall r Hr) as Hid.
  split; [by eapply recordedEventID_at|]. intros Hin.
  unfold receiveResponse in Hrec. apply bind_ok in Hrec as ([] & s1 & _ & Hack).
  assert (Hpos : 0 < ob_sequence r).
  { rewrite Forall_forall in Hb. apply (Hb r). by eapply subseteq_take. }
  apply SyncTheory.acceptedThrough_ge in Hid. rewrite <- E in Hid.
  pose proof (acknowledge_drops _ _ _ _ Hack Hin ltac:(lia)). lia.
Qed.

Lemma sysSteps_inv y y' : rtc (sysStep config) y y' -> SysInv w y -> SysInv w y'.
Proof. induction 1 as [|a b c Hs _ IH]; [done|]. intros Ha. by apply IH, (sysStep_inv _ _ Hs). Qed.

Lemma sysReachable_inv session y : rtc (sysStep config) (sysInitial session) y -> SysInv w y.
Proof. intros H1. eapply sysSteps_inv; [exact H1|apply sysInitial_inv]. Qed.
Lemma sysSteps_safe row y1 y2 : SysInv w y1 -> row ∈ outbox (wdb (y_worker y1)) -> rtc (sysStep config) y1 y2 ->
  row ∈ outbox (wdb (y_worker y2)) \/ recordedAt (db (y_server y2)) w (e_EventID (ob_event row)).
Proof.
  intros Hi Hrow H2. assert (Hsafe : safe row y1) by by left. clear Hrow.
  induction H2 as [|a b c Hs _ IH]; [exact Hsafe|]. apply IH; [by eapply sysStep_inv|by eapply sysStep_safe].
Qed.
End system.
End AgentTheory.

Section properties.
Context `{Env} `{WorkerEnv}.

(** No event is lost: whatever the network drops, however often the agent
    restarts under a session of its own and whatever the control plane does for
    others, an event that was ever in the outbox is still there or has been
    recorded by the control plane for this worker. *)
Theorem no_event_lost (config : AgentConfig) (session : string) (row : OutboxRow) (y1 y2 : Sys) :
  rtc (sysStep config) (sysInitial session) y1 -> row ∈ outbox (wdb (y_worker y1)) ->
  rtc (sysStep config) y1 y2 ->
  row ∈ outbox (wdb (y_worker y2)) \/
  recordedAt (db (y_server y2)) (cf_WorkerID config) (e_EventID (ob_event row)).
Proof. intros Hi%AgentTheory.sysReachable_inv. by apply AgentTheory.sysSteps_safe. Qed.

(** What the control plane acknowledges of a session has all been recorded:
    every event of the outbox up to that sequence is in the worker's events. *)
Theorem acknowledged_recorded (config : AgentConfig) (session : string) (y : Sys) :
  rtc (sysStep config) (sysInitial session) y -> SysInv (cf_WorkerID config) y.
Proof. apply AgentTheory.sysReachable_inv. Qed.

(** An exchange that succeeds makes progress: each of the up to one thousand
    oldest events, which the request carries, has been recorded by the control
    plane and has left the outbox. *)
Theorem exchange_delivers (config : AgentConfig) (session : string) (y : Sys) (now : time)
    (clock : nat -> time) (request : WorkerSyncRequest) (response : WorkerSyncResponse) (server : St)
    (worker : WSt) :
  rtc (sysStep config) (sysInitial session) y ->
  (cycleRequest config (y_session y) (y_worker y)).1 = Ok request ->
  SyncWorker now (cf_WorkerID config) request (y_server y) = (Ok response, server) ->
  receiveResponse clock response (y_worker y) = (Ok tt, worker) ->
  Forall (λ r, recordedAt (db server) (cf_WorkerID config) (e_EventID (ob_event r)) /\
               r ∉ outbox (wdb worker)) (take 1000 (outbox (wdb (y_worker y)))).
Proof. intros [Hi _ _]%AgentTheory.sysReachable_inv. by apply AgentTheory.exchange_drops. Qed.
End properties.

(** ** The properties on a concrete run *)

#[local] Existing Instance demoEnv.
#[local] Existing Instance demoWorkerEnv.

Definition demoConfig : AgentConfig := {|
  cf_ServerURL := "https://server"; cf_WorkerID := demoWorker; cf_Token := demoToken; cf_Version := "dev";
  cf_ArtifactRoot := "/artifacts"; cf_Projects := {["physics" := "/srv/physics"]}; cf_Capacity := demoCapacity |}.

Definition demoClock : nat -> time := λ _, t0.

(** The worker is enrolled, a job is submitted, and the first exchange brings
    the command to the agent, which accepts it: one event is in the outbox. *)
Definition sysSubmitted : Sys := {| y_server := submitted; y_worker := workerInitial; y_session := "session" |}.
Definition demoRequest (y : Sys) : WorkerSyncRequest :=
  match (cycleRequest demoConfig (y_session y) (y_worker y)).1 with Ok r => r | Err _ => demoSync [] end.
Definition demoResponse (y : Sys) : WorkerSyncResponse :=
  match (SyncWorker t0 demoWorker (demoRequest y) (y_server y)).1 with
  | Ok r => r
  | Err _ => {| p_AcceptedThrough := 0; p_Commands := []; p_NextSyncSeconds := 0; p_ServerTime := 0 |}
  end.
Definition exchanged (y : Sys) : Sys := {|
  y_server := (SyncWorker t0 demoWorker (demoRequest y) (y_server y)).2;
  y_worker := (receiveResponse demoClock (demoResponse y) (y_worker y)).2; y_session := y_session y |}.
Definition sysAccepted : Sys := exchanged sysSubmitted.
Definition sysDelivered : Sys := exchanged sysAccepted.

Lemma sysSubmitted_reached : rtc (sysStep demoConfig) (sysInitial "session") sysSubmitted.
Proof.
  apply (rtc_l _ _ {| y_server := enrolled; y_worker := workerInitial; y_session := "session" |}).
  - apply (sys_server demoConfig (sysInitial "session") t0 callEnroll t0_year I). done.
  - apply rtc_once. apply (sys_server demoConfig
      {| y_server := enrolled; y_worker := workerInitial; y_session := "session" |} t0 callSubmit t0_year
      demoSpec_typed). done.
Qed.

(** A response has come back. *)
Definition answered (y : Sys) : bool :=
  isOk (cycleRequest demoConfig (y_session y) (y_worker y)).1 &&
  isOk (SyncWorker t0 demoWorker (demoRequest y) (y_server y)).1.

Lemma answered_request y : answered y = true ->
  (cycleRequest demoConfig (y_session y) (y_worker y)).1 = Ok (demoRequest y).
Proof. unfold answered, demoRequest. by destruct (cycleRequest demoConfig (y_session y) (y_worker y)).1. Qed.

Lemma answered_response y : answered y = true ->
  (SyncWorker t0 demoWorker (demoRequest y) (y_server y)).1 = Ok (demoResponse y).
Proof.
  unfold answered, demoResponse. intros H%andb_true_iff%proj2.
  by destruct (SyncWorker t0 demoWorker (demoRequest y) (y_server y)).1.
Qed.

Lemma exchanged_step y : answered y = true -> sysStep demoConfig y (exchanged y).
Proof.
  intros Ha. apply (sys_exchange demoConfig y t0 demoClock (demoRequest y) (demoResponse y) t0_year).
  - by apply answered_request.
  - by apply answered_response.
Qed.

Lemma sysAccepted_reached : rtc (sysStep demoConfig) (sysInitial "session") sysAccepted.
Proof. eapply rtc_r; [apply sysSubmitted_reached|]. apply exchanged_step. vm_compute. reflexivity. Qed.

Example sysAccepted_outbox :
  (λ r, (ob_sequence r, e_Kind (ob_event r))) <$> outbox (wdb (y_worker sysAccepted)) =
  [(1, WorkerEventAttemptAccepted)].
Proof. vm_compute. reflexivity. Qed.

Definition acceptedRow : OutboxRow :=
  default {| ob_sequence := 0; ob_event := plainEvent "" "" 0; ob_created_at := "" |}
    (head (outbox (wdb (y_worker sysAccepted)))).


Lemma acceptedRow_in : acceptedRow ∈ outbox (wdb (y_worker sysAccepted)).
Proof.
  unfold acceptedRow. destruct (outbox (wdb (y_worker sysAccepted))) as [|r l] eqn:E.
  - vm_compute in E. discriminate E.
  - apply list_elem_of_here.
Qed.

Lemma sysDelivered_reached : rtc (sysStep demoConfig) sysAccepted sysDelivered.
Proof. apply rtc_once, exchanged_step. vm_compute. reflexivity. Qed.

Example sysDelivered_outbox :
  (length (outbox (wdb (y_worker sysDelivered))), length (worker_events (db (y_server sysDelivered)))) = (0, 1)%nat.
Proof. vm_compute. reflexivity. Qed.

Lemma no_event_lost_witness :
  acceptedRow ∈ outbox (wdb (y_worker sysDelivered)) \/
  recordedAt (db (y_server sysDelivered)) demoWorker (e_EventID (ob_event acceptedRow)).
Proof.
  exact (no_event_lost demoConfig "session" acceptedRow sysAccepted sysDelivered sysAccepted_reached
    acceptedRow_in sysDelivered_reached).
Defined.

Lemma acknowledged_recorded_witness : SysInv demoWorker sysAccepted.
Proof. exact (acknowledged_recorded demoConfig "session" sysAccepted sysAccepted_reached). Defined.

Definition demoReceived : WSt := y_worker sysDelivered.
Definition demoServer : St := y_server sysDelivered.

Lemma exchange_delivers_witness :
  Forall (λ r, recordedAt (db demoServer) demoWorker (e_EventID (ob_event r)) /\ r ∉ outbox (wdb demoReceived))
    (take 1000 (outbox (wdb (y_worker sysAccepted)))).
Proof.
  assert (Ha : answered sysAccepted = true) by (vm_compute; reflexivity).
  apply (exchange_delivers demoConfig "session" sysAccepted t0 demoClock (demoRequest sysAccepted)
    (demoResponse sysAccepted) demoServer demoReceived sysAccepted_reached (answered_request _ Ha)).
  - apply answered_response in Ha. unfold demoServer, sysDelivered, exchanged, y_server.
    rewrite <- Ha. apply surjective_pairing.
  - assert (E : (receiveResponse demoClock (demoResponse sysAccepted) (y_worker sysAccepted)).1 = Ok tt)
      by (vm_compute; reflexivity).
    unfold demoReceived, sysDelivered, exchanged, y_worker at 2. rewrite <- E. apply surjective_pairing.
Defined.
