(* ===== verification/ExecutorLog.v ===== *)
(** * The executor: rules for its code

    Rules that follow a cycle of the agent down to its calls of the store, and
    the fact that it makes local calls only outside of its exchange. *)

From S2P Require Import Prelude Utf8 Times GoLib Ids Domain Validate Database Jobs Health Events.
From S2P Require Import Lifecycle Auth Scheduler Sync WorkerStore WorkerLog Control Agent.
From S2P Require Import WorkerProperties Paths Source Executor.
Import WorkerTheory.

(** A call the agent makes of its store outside of an exchange. *)
Definition localStep `{WorkerEnv} (s s' : WSt) : Prop :=
  exists c, localCall c /\ s' = (workerPerform c s).2.

Section relations.
Context `{WorkerEnv} `{GitEnv} `{ExecEnv}.

(** A relation between the states before and after code, with any outcome. *)
Definition xobeys {A} (R : relation Exec) (m : XAct A) : Prop := forall x, R x (m x).2.

(** The relations that see the worker's store only. *)
Definition onWSt (R : relation WSt) : relation Exec := λ x x', R (x_store x) (x_store x').
End relations.

Module ExecTheory.

Section rules.
Context `{WorkerEnv} `{GitEnv} `{ExecEnv}.

Section rule.
Context (R : relation Exec) `{!PreOrder R}.

Lemma xobeys_ret {A} (a : A) : xobeys R (mret a).
Proof. intros x. reflexivity. Qed.
Lemma xobeys_fail {A} e : xobeys R (mfail (A := A) e).
Proof. intros x. reflexivity. Qed.
Lemma xobeys_reads {A} (f : Exec -> A) : xobeys R (mreads f).
Proof. intros x. reflexivity. Qed.
Lemma xobeys_modify f : (forall x, R x (f x)) -> xobeys R (mmodify f).
Proof. intros Hf x. apply Hf. Qed.
Lemma xobeys_bind {A B} (m : XAct A) (k : A -> XAct B) :
  xobeys R m -> (forall a, xobeys R (k a)) -> xobeys R (m ≫= k).
Proof.
  intros Hm Hk x. specialize (Hm x). unfold mbind, M_bind.
  destruct (m x) as [[a|e] x1]; [|done]. etrans; [exact Hm|apply Hk].
Qed.
Lemma xobeys_guard b e : xobeys R (mguard b e).
Proof. by destruct b; intros x. Qed.
Lemma xobeys_mfor {A} (xs : list A) (body : A -> XAct unit) :
  (forall a, xobeys R (body a)) -> xobeys R (mfor xs body).
Proof. intros Hb. induction xs as [|a xs IH]; simpl; [apply xobeys_ret|]. by apply xobeys_bind. Qed.
Lemma xobeys_mfold {A B} (xs : list A) (b : B) (body : B -> A -> XAct B) :
  (forall b a, xobeys R (body b a)) -> xobeys R (mfold xs b body).
Proof.
  intros Hb. revert b. induction xs as [|a xs IH]; intros b; simpl; [apply xobeys_ret|]. by apply xobeys_bind.
Qed.
Lemma xobeys_logged (m : XAct unit) : xobeys R m -> xobeys R (logged m).
Proof. intros Hm x. specialize (Hm x). unfold logged. by destruct (m x) as [[[]|e] x1]. Qed.
End rule.

(** The rules for the relations on the store. *)
Section store.
Context (R : relation WSt) `{!PreOrder R}.

#[local] Instance onWSt_preorder : PreOrder (onWSt R).
Proof. split; [intros x; unfold onWSt; reflexivity|]. intros x y z H1' H2'. unfold onWSt in *. by etrans. Qed.

Lemma onStore_obeys {A} (m : WAct A) : (forall s, R s (m s).2) -> xobeys (onWSt R) (onStore m).
Proof. intros Hm x. specialize (Hm (x_store x)). unfold onWSt, onStore. by destruct (m (x_store x)). Qed.
Lemma clock_obeys h : xobeys (onWSt R) (readClock h).
Proof. intros x. unfold onWSt. simpl. reflexivity. Qed.
Lemma timed_obeys {A} h (m : time -> WAct A) : (forall now s, R s (m now s).2) -> xobeys (onWSt R) (timed h m).
Proof.
  intros Hm. apply xobeys_bind; [apply _|apply clock_obeys|]. intros now. by apply onStore_obeys.
Qed.
Lemma onGit_obeys {A} (m : GitAct A) : xobeys (onWSt R) (onGit m).
Proof. intros x. unfold onWSt, onGit. destruct (m (x_repo x)). simpl. reflexivity. Qed.
Lemma modify_obeys f : (forall x, x_store (f x) = x_store x) -> xobeys (onWSt R) (mmodify f).
Proof. intros Hf x. unfold onWSt. simpl. rewrite Hf. reflexivity. Qed.
Lemma sweptRecently_obeys h id : xobeys (onWSt R) (sweptRecently h id).
Proof. intros x. unfold onWSt, sweptRecently. by destruct (x_sweep x !! id). Qed.
Lemma recordLaunch_obeys h k process pid workDir statusPath metricsPath git :
  (forall now s, R s (MarkStarted now (k_CommandID k) pid workDir statusPath metricsPath git s).2) ->
  xobeys (onWSt R) (recordLaunch h k process pid workDir statusPath metricsPath git).
Proof.
  intros Hm x. pose proof (timed_obeys h _ Hm x) as Ht. unfold onWSt, recordLaunch in *.
  by destruct (timed h _ x) as [[[]|e] x1].
Qed.
End store.

(** The queries of the store leave it as it is. *)
Lemma scanStored_state row s : (scanStored row s).2 = s.
Proof.
  unfold scanStored, mbind, M_bind. destruct (_ =? _)%string; [done|]. by destruct (parseTime _).
Qed.
Lemma scanFold_state (rows : list (string * CommandRow)) acc s :
  ((mfold rows acc (λ acc row, c ← scanStored row.2; mret (acc ++ [c])) : WAct (list StoredCommand)) s).2 = s.
Proof.
  revert acc. induction rows as [|row rows IH]; intros acc; [done|]. cbn [mfold].
  pose proof (scanStored_state row.2 s) as E. destruct (scanStored row.2 s) as [[c|e] s1] eqn:Es; simpl in E; subst s1.
  - rewrite (bind_run _ _ _ (acc ++ [c]) s); [apply IH|]. by rewrite (bind_run _ _ _ c s).
  - rewrite (bind_run_err _ _ _ e s); [done|]. by rewrite (bind_run_err _ _ _ e s).
Qed.
Lemma listCommands_state where_ limit s : (listCommands where_ limit s).2 = s.
Proof. unfold listCommands. rewrite wquery_run. apply scanFold_state. Qed.

(** *** A cycle makes only local calls, but for the response *)

Definition localSteps : relation WSt := rtc localStep.

Lemma local_call c s : localCall c -> localSteps s (workerPerform c s).2.
Proof. intros Hc. apply rtc_once. by exists c. Qed.

Lemma started_local now id pid w st m git s : localSteps s (MarkStarted now id pid w st m git s).2.
Proof. exact (local_call (WCallStarted now id pid w st m git) s I). Qed.
Lemma finished_local now id code e uri tail arts s : localSteps s (MarkFinished now id code e uri tail arts s).2.
Proof. exact (local_call (WCallFinished now id code e uri tail arts) s I). Qed.
Lemma announced_local now id arts s : localSteps s (AnnounceArtifacts now id arts s).2.
Proof. exact (local_call (WCallAnnounce now id arts) s I). Qed.
Lemma skipped_local now id offset s : localSteps s (SkipMetric now id offset s).2.
Proof. exact (local_call (WCallSkip now id offset) s I). Qed.
Lemma enqueued_local now id attempt sample offset s : localSteps s (EnqueueMetric now id attempt sample offset s).2.
Proof. exact (local_call (WCallEnqueue now id attempt sample offset) s I). Qed.
Lemma listed_local where_ limit s : localSteps s (listCommands where_ limit s).2.
Proof. rewrite listCommands_state. reflexivity. Qed.
End rules.

Create HintDb local_calls.
#[export] Hint Resolve started_local finished_local announced_local skipped_local enqueued_local
  listed_local : local_calls.

(** Follows code of the executor down to its calls, which the leaf tactic
    closes. *)
Ltac xfollow leaf :=
  repeat match goal with
  | |- forall _, _ => intro
  | |- PreOrder _ => apply _
  | |- xobeys _ (mret _) => apply xobeys_ret
  | |- xobeys _ (mfail _) => apply xobeys_fail
  | |- xobeys _ (mguard _ _) => apply xobeys_guard
  | |- xobeys _ (mreads _) => apply xobeys_reads
  | |- xobeys _ (logged _) => apply xobeys_logged
  | |- xobeys _ (mfor _ _) => apply xobeys_mfor
  | |- xobeys _ (mfold _ _ _) => apply xobeys_mfold
  | |- xobeys _ (_ ≫= _) => apply xobeys_bind
  | |- xobeys _ (match ?x with _ => _ end) => destruct x
  | |- _ => leaf
  end.

(** The leaves of a relation between the stores. *)
Ltac store_leaf := idtac;
  match goal with
  | |- xobeys _ (mmodify _) => apply modify_obeys
  | |- xobeys _ (timed _ _) => apply timed_obeys
  | |- xobeys _ (onStore _) => apply onStore_obeys
  | |- xobeys _ (onGit _) => apply onGit_obeys
  | |- xobeys _ (readClock _) => apply clock_obeys
  | |- xobeys _ (sweptRecently _ _) => apply sweptRecently_obeys
  | |- xobeys _ (recordLaunch _ _ _ _ _ _ _ _) => apply recordLaunch_obeys
  | |- _ = _ => reflexivity
  | |- _ => solve [auto with local_calls]
  end.
Ltac xobey := xfollow store_leaf.

#[export] Instance onWSt_pre `{WorkerEnv} `{GitEnv} `{ExecEnv} R `{!PreOrder R} : PreOrder (onWSt R).
Proof. apply onWSt_preorder, _. Qed.

(** Storing a response is a run of the rules of the store. *)
Lemma receive_moves `{WorkerEnv} clock response s :
  Forall (λ k, utf8Valid (k_AttemptID k) = true) (p_Commands response) ->
  rtc wmove (wdb s) (wdb (receiveResponse clock response s).2).
Proof.
  intros Ht. unfold receiveResponse, mbind, M_bind.
  pose proof (WorkerLifecycle.workerPerform_moves (WCallAccept clock (p_Commands response)) s Ht) as H1'.
  cbn [workerPerform] in H1'. destruct (AcceptCommands clock (p_Commands response) s) as [[[]|e] w]; [|exact H1'].
  etrans; [exact H1'|]. exact (WorkerLifecycle.workerPerform_moves (WCallAcknowledge (p_AcceptedThrough response)) w I).
Qed.

Section local.
Context `{WorkerEnv} `{GitEnv} `{ExecEnv}.

Lemma ingestMetrics_local h command : xobeys (onWSt localSteps) (ingestMetrics h command).
Proof. unfold ingestMetrics, ingestLine. xobey. Qed.
Lemma announceProgress_local h config command : xobeys (onWSt localSteps) (announceProgress h config command).
Proof. unfold announceProgress. xobey. Qed.
Lemma finishAttempt_local h config command status : xobeys (onWSt localSteps) (finishAttempt h config command status).
Proof. unfold finishAttempt, stopSampler. xobey. Qed.
Lemma reconcileCommand_local h config command : xobeys (onWSt localSteps) (reconcileCommand h config command).
Proof.
  unfold reconcileCommand, readRunStatus, signalCancel, ensureSampler.
  xobey; first [apply ingestMetrics_local | apply finishAttempt_local | apply announceProgress_local | idtac].
  by destruct (_ || _).
Qed.
Lemma reconcileRunning_local h config : xobeys (onWSt localSteps) (reconcileRunning h config).
Proof. unfold reconcileRunning, finishCanceled, PendingCanceledCommands, RunningCommands. xobey. apply reconcileCommand_local. Qed.
Lemma launch_local h config command : xobeys (onWSt localSteps) (launch h config command).
Proof. unfold launch, failBeforeLaunch. xobey. Qed.
Lemma launchPending_local h config : xobeys (onWSt localSteps) (launchPending h config).
Proof. unfold launchPending, PendingCommands. xobey. apply launch_local. Qed.
End local.
End ExecTheory.

Section cycle.
Context `{Env} `{WorkerEnv} `{GitEnv} `{ExecEnv} (config : AgentConfig).

Lemma local_sys server session s s' : rtc localStep s s' ->
  rtc (sysStep config) {| y_server := server; y_worker := s; y_session := session |}
    {| y_server := server; y_worker := s'; y_session := session |}.
Proof.
  induction 1 as [|s s1 s2 (c & Hc & ->) _ IH]; [reflexivity|]. eapply rtc_l; [|exact IH].
  exact (sys_local config {| y_server := server; y_worker := s; y_session := session |} c Hc).
Qed.

(** The first half of a cycle ends with the request made from the store. *)
Lemma prepareSync_request h session x :
  ExecTheory.localSteps (x_store x) (x_store (prepareSync h config session x).2) /\
  (forall request, (prepareSync h config session x).1 = Ok request ->
     (cycleRequest config session (x_store (prepareSync h config session x).2)).1 = Ok request).
Proof.
  pose proof (ExecTheory.reconcileRunning_local h config x) as Hl. unfold prepareSync, mbind, M_bind.
  destruct (reconcileRunning h config x) as [[[]|e] x1]; [|done]. unfold onStore.
  assert (E : (cycleRequest config session (x_store x1)).2 = x_store x1) by done.
  destruct (cycleRequest config session (x_store x1)) as [r w] eqn:Er. simpl in E. subst w.
  cbn [fst snd x_store set_store]. split; [exact Hl|]. intros request. rewrite Er. by destruct r; intros [= ->].
Qed.

Lemma finishSync_run h response x : exists clock,
  ExecTheory.localSteps (receiveResponse clock response (x_store x)).2 (x_store (finishSync h config response x).2).
Proof.
  exists (λ n, h_clock h (x_ticks x + n)%nat). unfold finishSync, mbind, M_bind, acceptResponse, onStore.
  cbn [x_store]. destruct (receiveResponse _ response (x_store x)) as [[[]|e] w]; [|simpl; reflexivity].
  pose proof (ExecTheory.launchPending_local h config
    (set_store w {| x_store := x_store x; x_ticks := (x_ticks x + length (p_Commands response))%nat; x_repo := x_repo x;
       x_samplers := x_samplers x; x_sweep := x_sweep x; x_hash := x_hash x; x_launches := x_launches x;
       x_signals := x_signals x |})) as Hl.
  unfold onWSt in Hl. cbn [x_store set_store] in Hl. by destruct (launchPending h config _) as [[[]|e] x2].
Qed.
End cycle.
