(* ===== verification/Ingest.v ===== *)
(** * Taking up the metrics of an attempt

    The metrics file is read from the offset the store holds. What one reading
    takes up, and that a later reading of the grown file goes on behind it. *)

From S2P Require Import Prelude Utf8 Times GoLib Ids Domain Validate Database Jobs Health Events.
From S2P Require Import Lifecycle Auth Scheduler Sync WorkerStore WorkerLog Control Agent.
From S2P Require Import WorkerProperties Paths Source Executor ExecutorLog.
Import WorkerTheory ExecTheory.

(** ** Metrics *)

Section metrics.
Context `{WorkerEnv} `{GitEnv} `{ExecEnv}.

(** The sample a line of the metrics file stands for, if it stands for one. *)
Definition sampleOf (line : string) : option MetricSample :=
  s ← decodeSample (TrimSpace line);
  if isNaN (ms_Value s) || isInf (ms_Value s) then None else Some s.

(** The event reports the sample, at its own time or, if it has none, at the
    time it was read. *)
Definition reports (attemptID : string) (s : MetricSample) (row : OutboxRow) : Prop :=
  let e := ob_event row in
  e_Kind e = WorkerEventMetricSample /\ e_AttemptID e = jsonText attemptID /\
  exists now, e_Metric e = Some (jsonMetric (if GoTime.IsZero (ms_ObservedAt s) then withObserved now s else s)).

Definition totalLen (lines : list string) : Z := foldr Z.add 0 (len <$> lines).

(** The offset the store holds for a command. *)
Definition atOffset (id : string) (offset : Z) (d : WorkerDB) : Prop :=
  exists row, commands d !! id = Some row /\ cm_metric_offset row = offset.

(** What taking up some lines does to the store. *)
Definition tookUp (command : StoredCommand) (offset : Z) (lines : list string) (d d' : WorkerDB) : Prop :=
  let id := k_CommandID (sc_Command command) in
  exists rows, outbox d' = outbox d ++ rows /\
    Forall2 (reports (k_AttemptID (sc_Command command))) (omap sampleOf lines) rows /\
    (atOffset id offset d -> atOffset id (offset + totalLen lines) d').
End metrics.

Module MetricTheory.

(** *** Lines *)

Lemma len_string c s : len (String c s) = 1 + len s.
Proof. unfold len. simpl. lia. Qed.
Lemma len_app a b : len (a +:+ b) = len a + len b.
Proof.
  induction a as [|c a IH]; [done|]. rewrite string_app_cons, !len_string, IH. lia.
Qed.
Lemma len_nonneg s : 0 <= len s.
Proof. unfold len. lia. Qed.

Definition isLine (line : string) : Prop :=
  exists s, line = s +:+ String newline "" /\ ~ In newline (chars s).

Lemma completeLines_line line rest : isLine line -> completeLines (line +:+ rest) = line :: completeLines rest.
Proof.
  intros (s & -> & Hs). induction s as [|c s IH]; autorewrite with str.
  - cbn [completeLines]. by rewrite decide_True.
  - autorewrite with str in IH. cbn [completeLines]. cbn [chars In] in Hs. rewrite decide_False by (intros ->; tauto).
    by rewrite IH by tauto.
Qed.

Lemma completeLines_isLine data : Forall isLine (completeLines data).
Proof.
  induction data as [|c data IH]; simpl; [constructor|]. destruct (decide (c = newline)) as [->|Hc].
  - constructor; [|done]. exists "". split; [done|]. simpl. tauto.
  - destruct (completeLines data) as [|l ls]; [constructor|]. apply Forall_cons in IH as [(s & -> & Hs) IH].
    constructor; [|done]. exists (String c s). split; [done|]. simpl. intros [->|?]; done.
Qed.

Definition concatLines (lines : list string) : string := foldr String.append "" lines.

Lemma completeLines_split data : exists rest, data = concatLines (completeLines data) +:+ rest.
Proof.
  induction data as [|c data [rest IH]]; simpl; [by exists ""|]. destruct (decide (c = newline)).
  - exists rest. simpl. by rewrite string_app_cons, string_app_nil_l, string_app_cons, <- IH.
  - destruct (completeLines data) as [|l ls]; [by exists (String c data)|]. exists rest.
    simpl in IH |- *. by rewrite !string_app_cons, <- IH.
Qed.

Lemma completeLines_concat lines rest : Forall isLine lines ->
  completeLines (concatLines lines +:+ rest) = lines ++ completeLines rest.
Proof.
  induction 1 as [|l ls Hl _ IH]; [done|]. simpl. by rewrite string_app_assoc, completeLines_line, IH.
Qed.

Lemma totalLen_cons l ls : totalLen (l :: ls) = len l + totalLen ls.
Proof. done. Qed.
Lemma totalLen_one l : totalLen [l] = len l.
Proof. rewrite totalLen_cons. apply Z.add_0_r. Qed.

Lemma len_concat lines : len (concatLines lines) = totalLen lines.
Proof. induction lines as [|l ls IH]; [done|]. simpl. by rewrite len_app, IH. Qed.

Lemma totalLen_app a b : totalLen (a ++ b) = totalLen a + totalLen b.
Proof.
  induction a as [|l a IH]; [done|]. rewrite <- app_comm_cons, !totalLen_cons, IH. lia.
Qed.

Lemma totalLen_nonneg lines : 0 <= totalLen lines.
Proof. rewrite <- len_concat. apply len_nonneg. Qed.

(** *** Offsets *)

Lemma length_chars s : Z.of_nat (length (chars s)) = len s.
Proof. unfold len. by rewrite Utf8Theory.chars_length. Qed.

Lemma seek_app offset a b : 0 <= offset <= len a -> seek offset (a +:+ b) = seek offset a +:+ b.
Proof.
  intros Ho. unfold seek. rewrite chars_app, drop_app_le, unchars_app, Utf8Theory.unchars_chars; [done|].
  rewrite <- length_chars in Ho. lia.
Qed.

Lemma seek_seek a b data : 0 <= a -> 0 <= b -> seek (a + b) data = seek b (seek a data).
Proof.
  intros Ha Hb. unfold seek. rewrite Utf8Theory.chars_unchars, drop_drop. do 2 f_equal. lia.
Qed.

Lemma seek_behind a b : seek (len a) (a +:+ b) = b.
Proof.
  unfold seek. rewrite chars_app, drop_app_ge, Utf8Theory.chars_length by (rewrite Utf8Theory.chars_length; unfold len; lia).
  replace (Z.to_nat (len a) - String.length a)%nat with 0%nat by (unfold len; lia). apply Utf8Theory.unchars_chars.
Qed.

Lemma seek_past offset data : len data <= offset -> seek offset data = "".
Proof.
  intros Ho. unfold seek. rewrite drop_ge; [done|]. rewrite <- length_chars in Ho. lia.
Qed.

(** A file that grew: the lines behind an offset are those taken up and those
    behind them. *)
Lemma lines_resume offset data more taken rest : 0 <= offset ->
  completeLines (seek offset data) = taken ++ rest ->
  completeLines (seek offset (data +:+ more)) =
    taken ++ completeLines (seek (offset + totalLen taken) (data +:+ more)).
Proof.
  intros Ho Hl. destruct (decide (offset <= len data)) as [Hle|Hgt].
  - rewrite seek_seek, seek_app by (try lia; apply totalLen_nonneg).
    destruct (completeLines_split (seek offset data)) as [tail Ht]. rewrite Ht, Hl.
    assert (Hall : Forall isLine (taken ++ rest)) by (rewrite <- Hl; apply completeLines_isLine).
    apply Forall_app in Hall as [Htaken _].
    assert (E : concatLines (taken ++ rest) = concatLines taken +:+ concatLines rest).
    { clear. induction taken as [|l ls IH]; [done|]. simpl. by rewrite IH, string_app_assoc. }
    rewrite E, !string_app_assoc, completeLines_concat by done. f_equal. f_equal. symmetry.
    rewrite <- len_concat. apply seek_behind.
  - rewrite seek_past in Hl by lia. simpl in Hl. symmetry in Hl. apply app_nil in Hl as [-> ->].
    simpl. unfold totalLen. simpl. by rewrite Z.add_0_r.
Qed.

(** *** The store *)

Section store.
Context `{WorkerEnv} `{GitEnv} `{ExecEnv}.

Lemma tookUp_nil command o d : tookUp command o [] d d.
Proof.
  exists []. rewrite app_nil_r. split_and!; [done|constructor|]. unfold totalLen. simpl.
  by rewrite Z.add_0_r.
Qed.

Lemma tookUp_trans command o l1 l2 d1 d2 d3 :
  tookUp command o l1 d1 d2 -> tookUp command (o + totalLen l1) l2 d2 d3 -> tookUp command o (l1 ++ l2) d1 d3.
Proof.
  intros (r1 & E1 & F1 & O1) (r2 & E2 & F2 & O2). exists (r1 ++ r2). split_and!.
  - by rewrite E2, E1, app_assoc.
  - rewrite omap_app. by apply Forall2_app.
  - intros Ho. rewrite totalLen_app, Z.add_assoc. by apply O2, O1.
Qed.

Lemma atOffset_alter id offset o now d : atOffset id o d ->
  atOffset id offset (with_commands (alter (setOffset offset now) id (commands d)) d).
Proof. intros (row & Hr & _). eexists. simpl. rewrite lookup_alter_eq, Hr. done. Qed.

(** A store call with the time of its clock reading. *)
Lemma timed_run {A} h (m : time -> WAct A) x : exists now x1, x_store x1 = x_store x /\
  timed h m x = onStore (m now) x1.
Proof. unfold timed. by do 2 eexists; split; [|reflexivity]. Qed.

Lemma onStore_run {A} (m : WAct A) x r w : m (x_store x) = (r, w) ->
  onStore m x = (match r with Ok a => Ok a | Err e => Err (XStore e) end, set_store w x).
Proof. unfold onStore. by intros ->. Qed.

Lemma skip_run h command offset x : exists x', timed h
    (λ now, SkipMetric now (k_CommandID (sc_Command command)) offset) x = (Ok tt, x') /\
  outbox (wdb (x_store x')) = outbox (wdb (x_store x)) /\
  forall o, atOffset (k_CommandID (sc_Command command)) o (wdb (x_store x)) ->
    atOffset (k_CommandID (sc_Command command)) offset (wdb (x_store x')).
Proof.
  destruct (timed_run h (λ now, SkipMetric now (k_CommandID (sc_Command command)) offset) x) as (now & x1 & E & ->).
  erewrite onStore_run by reflexivity. eexists. split; [done|]. cbn [x_store set_store wdb]. rewrite E.
  split; [done|]. intros o. apply atOffset_alter.
Qed.

(** The sample is enqueued together with the new offset, or nothing changes. *)
Lemma enqueue_run h command attemptID sample offset x : exists x',
  (timed h (λ now, EnqueueMetric now (k_CommandID (sc_Command command)) attemptID sample offset) x).2 = x' /\
  match (timed h (λ now, EnqueueMetric now (k_CommandID (sc_Command command)) attemptID sample offset) x).1 with
  | Err _ => wdb (x_store x') = wdb (x_store x)
  | Ok _ => exists row, outbox (wdb (x_store x')) = outbox (wdb (x_store x)) ++ [row] /\
      e_Kind (ob_event row) = WorkerEventMetricSample /\ e_AttemptID (ob_event row) = jsonText attemptID /\
      e_Metric (ob_event row) = Some (jsonMetric sample) /\
      forall o, atOffset (k_CommandID (sc_Command command)) o (wdb (x_store x)) ->
        atOffset (k_CommandID (sc_Command command)) offset (wdb (x_store x'))
  end.
Proof.
  eexists. split; [reflexivity|].
  destruct (timed_run h (λ now, EnqueueMetric now (k_CommandID (sc_Command command)) attemptID sample offset) x)
    as (now & x1 & E & ->).
  destruct (EnqueueMetric now (k_CommandID (sc_Command command)) attemptID sample offset (x_store x1)) as [r w] eqn:Er.
  rewrite (onStore_run _ _ _ _ Er). cbn [fst snd x_store set_store]. rewrite E in Er. destruct r as [[]|e].
  - apply wtx_ok in Er. apply bind_ok in Er as ([] & s1 & H1' & Hr).
    apply enqueueEvent_ok in H1' as (id & _ & _ & _ & _ & Ew). apply wexec_ok in Hr as ->. cbn [wdb]. rewrite Ew.
    eexists. split_and!; [reflexivity|reflexivity|reflexivity|reflexivity|].
    intros o Ho. apply (atOffset_alter _ _ o). destruct Ho as (row & Hr & Ho). by exists row.
  - by apply wtx_err in Er.
Qed.

(** One line: it is taken up, or the store is as it was. *)
Lemma ingestLine_run h command offset line x :
  let '(r, x') := ingestLine h command offset line x in
  match r with
  | Ok o => o = offset + len line /\ tookUp command offset [line] (wdb (x_store x)) (wdb (x_store x'))
  | Err _ => wdb (x_store x') = wdb (x_store x)
  end.
Proof.
  unfold ingestLine. destruct (len line <=? 2 ^ 20); [|done].
  pose proof (totalLen_one line) as Ht.
  assert (Hskip : sampleOf line = None ->
    let '(r, x') := (timed h (λ now, SkipMetric now (k_CommandID (sc_Command command)) (offset + len line)) ;;
                     mret (offset + len line) : XAct Z) x in
    match r with
    | Ok o => o = offset + len line /\ tookUp command offset [line] (wdb (x_store x)) (wdb (x_store x'))
    | Err _ => wdb (x_store x') = wdb (x_store x)
    end).
  { intros Hn. destruct (skip_run h command (offset + len line) x) as (x1 & E & Eo & Ha).
    rewrite (bind_run _ _ _ tt x1 E). split; [done|]. exists []. rewrite app_nil_r.
    split_and!; [done|by simpl; rewrite Hn|]. rewrite Ht. apply Ha. }
  cbn [mguard]. rewrite (bind_run _ _ _ tt x) by done. cbv zeta.
  destruct (decodeSample (TrimSpace line)) as [s|] eqn:Ed; [|apply Hskip; unfold sampleOf; by rewrite Ed].
  destruct (isNaN (ms_Value s) || isInf (ms_Value s)) eqn:Ef; [apply Hskip; unfold sampleOf; rewrite Ed; simpl; by rewrite Ef|].
  assert (Esample : sampleOf line = Some s) by (unfold sampleOf; rewrite Ed; simpl; by rewrite Ef). clear Hskip.
  assert (Hobs : exists now x1, x_store x1 = x_store x /\
    (if GoTime.IsZero (ms_ObservedAt s) then now ← readClock h; mret (withObserved now s) else mret s : XAct _) x =
      (Ok (if GoTime.IsZero (ms_ObservedAt s) then withObserved now s else s), x1)).
  { destruct (GoTime.IsZero (ms_ObservedAt s)); [by exists (h_clock h (x_ticks x)), (readClock h x).2|by exists 0, x]. }
  destruct Hobs as (now & x1 & E1 & Hobs). rewrite (bind_run _ _ _ _ _ Hobs).
  destruct (enqueue_run h command (k_AttemptID (sc_Command command))
    (if GoTime.IsZero (ms_ObservedAt s) then withObserved now s else s) (offset + len line) x1) as (x2 & E2 & Hr).
  unfold mbind, M_bind. destruct (timed h _ x1) as [[[]|e] x3]; cbn [fst snd] in E2, Hr; subst x3.
  - rewrite E1 in Hr. destruct Hr as (row & Eo & Hk & Ha & Hm & Hoff). split; [done|]. exists [row].
    split_and!; [done| |rewrite Ht; apply Hoff]. simpl. rewrite Esample. constructor; [|constructor].
    split_and!; [done|done|]. by exists now.
  - by rewrite E1 in Hr.
Qed.

(** The lines up to where the loop stopped have been taken up; all of them if
    it did not fail. *)
Lemma ingestLines_run h command offset lines x :
  let '(r, x') := mfold lines offset (ingestLine h command) x in
  exists taken rest, lines = taken ++ rest /\ tookUp command offset taken (wdb (x_store x)) (wdb (x_store x')) /\
    (isOk r = true -> rest = []).
Proof.
  revert offset x. induction lines as [|line lines IH]; intros offset x.
  { exists [], []. split_and!; [done|apply tookUp_nil|done]. }
  cbn [mfold]. pose proof (ingestLine_run h command offset line x) as Hl. unfold mbind, M_bind.
  destruct (ingestLine h command offset line x) as [[o|e] x1].
  - destruct Hl as [-> Ht]. specialize (IH (offset + len line) x1).
    destruct (mfold lines (offset + len line) (ingestLine h command) x1) as [r x2].
    destruct IH as (taken & rest & -> & Ht2 & Hok). exists (line :: taken), rest. split_and!; [done| |done].
    apply (tookUp_trans _ _ [line] taken _ (wdb (x_store x1))); [done|].
    by rewrite totalLen_one.
  - exists [], (line :: lines). rewrite Hl. split_and!; [done|apply tookUp_nil|done].
Qed.

Lemma ingestMetrics_run h command data broken x : h_file h (sc_MetricsPath command) = Contents data broken ->
  let '(r, x') := ingestMetrics h command x in
  exists taken rest, completeLines (seek (sc_MetricOffset command) data) = taken ++ rest /\
    tookUp command (sc_MetricOffset command) taken (wdb (x_store x)) (wdb (x_store x')) /\
    (isOk r = true -> rest = []).
Proof.
  intros Hf. unfold ingestMetrics. rewrite Hf.
  pose proof (ingestLines_run h command (sc_MetricOffset command) (completeLines (seek (sc_MetricOffset command) data)) x) as Hl.
  unfold mbind, M_bind. destruct (mfold _ _ _ x) as [[o|e] x1]; [|done].
  destruct Hl as (taken & rest & E & Ht & Hok). rewrite (Hok eq_refl), app_nil_r in E.
  destruct broken; exists taken, []; by rewrite app_nil_r.
Qed.
End store.
End MetricTheory.
