(* ===== verification/Attempts.v ===== *)
(** * The attempts of a worker: what reconciling does

    Each running command is handled by itself: only its row, its event and its
    process are touched. From this follow what a reconciliation reports and whom
    it signals. *)

From S2P Require Import Prelude Utf8 Times GoLib Ids Domain Validate Database Jobs Health Events.
From S2P Require Import Lifecycle Auth Scheduler Sync WorkerStore WorkerLog Control Agent.
From S2P Require Import WorkerProperties Paths Source Executor ExecutorLog.
Import WorkerTheory ExecTheory.

(** The identifier of a listed command. *)
Abbreviation idOf := (λ c : StoredCommand, k_CommandID (sc_Command c)).

(** The command a local call is about. *)
Definition callTarget (c : WorkerCall) : option string :=
  match c with
  | WCallStarted _ id _ _ _ _ _ => Some id
  | WCallFinished _ id _ _ _ _ _ => Some id
  | WCallAnnounce _ id _ => Some id
  | WCallSkip _ id _ => Some id
  | WCallEnqueue _ id _ _ _ => Some id
  | WCallAccept _ _ | WCallAcknowledge _ => None
  end.

(** Calls about one command. *)
Definition ownSteps `{WorkerEnv} (id : string) : relation WSt :=
  rtc (λ s s', exists c, callTarget c = Some id /\ s' = (workerPerform c s).2).

(** The attempt's command is finished, and its report is in the outbox. *)
Definition reported (id : string) (report : Z * string * string * list ArtifactAnnouncement) (uri : string)
    (d : WorkerDB) : Prop :=
  let '(code, err, logTail, artifacts) := report in
  exists row ob now eventID, commands d !! id = Some row /\ cm_state row = CommandFinished /\ ob ∈ outbox d /\
    ob_event ob = jsonEvent (withEventID eventID
      (finishedEvent (cm_attempt_id row) now code err uri logTail artifacts)).

(** The exit status on the machine: recorded by the supervisor, missing while
    the process runs, or missing for good. *)
Inductive Fate := Ended (status : RunStatus) | StillRunning | Vanished.
Definition fateOf `{ExecEnv} (h : Host) (command : StoredCommand) : option Fate :=
  match h_file h (sc_StatusPath command) with
  | Contents data _ => Ended <$> decodeStatus data
  | Absent => Some (if (0 <? sc_PID command) && h_alive h (sc_PID command) then StillRunning else Vanished)
  | Unreadable _ => None
  end.

Definition vanishedStatus (now : time) : RunStatus :=
  {| rs_ExitCode := -1; rs_Error := "worker supervisor disappeared before recording an exit status";
     rs_FinishedAt := now |}.

(** The signal sent in a cycle: to the group of a running command whose cancel
    was requested, and a kill only after the grace period. *)
Definition signalOk (h : Host) (d : WorkerDB) (sent : Z * Signal) : Prop :=
  exists id row requested n, commands d !! id = Some row /\ cm_state row = CommandRunning /\
    cm_pid row = sent.1 /\ 0 < sent.1 /\ h_alive h sent.1 = true /\
    parseTime (cm_cancel_requested_at row) = Some requested /\
    (sent.2 = SIGKILL <-> cancelGrace < h_clock h n - requested).

Module AttemptTheory.
Section own.
Context `{WorkerEnv} `{GitEnv} `{ExecEnv}.

Lemma own_call c id s : callTarget c = Some id -> ownSteps id s (workerPerform c s).2.
Proof. intros Hc. apply rtc_once. by exists c. Qed.

Lemma own_local id s s' : ownSteps id s s' -> localSteps s s'.
Proof.
  induction 1 as [|x y z (c & Hc & ->) _ IH]; [reflexivity|]. eapply rtc_l; [|exact IH].
  exists c. by destruct c.
Qed.

Lemma started_own now id pid w st m git s : ownSteps id s (MarkStarted now id pid w st m git s).2.
Proof. exact (own_call (WCallStarted now id pid w st m git) id s eq_refl). Qed.
Lemma finished_own now id code e uri tail arts s : ownSteps id s (MarkFinished now id code e uri tail arts s).2.
Proof. exact (own_call (WCallFinished now id code e uri tail arts) id s eq_refl). Qed.
Lemma announced_own now id arts s : ownSteps id s (AnnounceArtifacts now id arts s).2.
Proof. exact (own_call (WCallAnnounce now id arts) id s eq_refl). Qed.
Lemma skipped_own now id offset s : ownSteps id s (SkipMetric now id offset s).2.
Proof. exact (own_call (WCallSkip now id offset) id s eq_refl). Qed.
Lemma enqueued_own now id attempt sample offset s : ownSteps id s (EnqueueMetric now id attempt sample offset s).2.
Proof. exact (own_call (WCallEnqueue now id attempt sample offset) id s eq_refl). Qed.
End own.

#[export] Hint Resolve started_own finished_own announced_own skipped_own enqueued_own : local_calls.

Section attempts.
Context `{WorkerEnv} `{GitEnv} `{ExecEnv}.

Lemma ingestMetrics_own h command :
  xobeys (onWSt (ownSteps (k_CommandID (sc_Command command)))) (ingestMetrics h command).
Proof. unfold ingestMetrics, ingestLine. xobey. Qed.
Lemma announceProgress_own h config command :
  xobeys (onWSt (ownSteps (k_CommandID (sc_Command command)))) (announceProgress h config command).
Proof. unfold announceProgress. xobey. Qed.
Lemma finishAttempt_own h config command status :
  xobeys (onWSt (ownSteps (k_CommandID (sc_Command command)))) (finishAttempt h config command status).
Proof. unfold finishAttempt, stopSampler. xobey. Qed.
Lemma reconcileCommand_own h config command :
  xobeys (onWSt (ownSteps (k_CommandID (sc_Command command)))) (reconcileCommand h config command).
Proof.
  unfold reconcileCommand, readRunStatus, signalCancel, ensureSampler.
  xobey; first [apply ingestMetrics_own | apply finishAttempt_own | apply announceProgress_own | idtac].
  by destruct (_ || _).
Qed.
Lemma launch_own h config command : xobeys (onWSt (ownSteps (k_CommandID command))) (launch h config command).
Proof. unfold launch, failBeforeLaunch. xobey. Qed.

(** *** What calls about one command leave alone *)

Lemma own_steps_wobeys (R : relation WorkerDB) `{!PreOrder R} id s s' :
  (forall c, callTarget c = Some id -> wobeys R (workerPerform c)) -> ownSteps id s s' -> R (wdb s) (wdb s').
Proof.
  intros Hc. induction 1 as [|x y z (c & Ht & ->) _ IH]; [reflexivity|]. etrans; [exact (Hc c Ht x)|exact IH].
Qed.

Definition sameRow (id : string) : relation WorkerDB := λ d d', commands d' !! id = commands d !! id.
#[local] Instance sameRow_pre id : PreOrder (sameRow id).
Proof. split; unfold sameRow; [by intros d|]. intros x y z H1' H2'. congruence. Qed.

Definition outboxKept : relation WorkerDB := λ d d', outbox d `prefix_of` outbox d'.
#[local] Instance outboxKept_pre : PreOrder outboxKept.
Proof. split; unfold outboxKept; [by intros d|]. intros x y z H1' H2'. by etrans. Qed.

Lemma own_other id j s s' : ownSteps id s s' -> j <> id -> commands (wdb s') !! j = commands (wdb s) !! j.
Proof.
  intros Hs Hne. refine (own_steps_wobeys (sameRow j) id s s' _ Hs). intros c Hc.
  destruct c; simpl in Hc; try done; injection Hc as ->;
    wobey ltac:(unfold sameRow; simpl; first [done | by rewrite lookup_alter_ne]).
Qed.

Lemma own_outbox id s s' : ownSteps id s s' -> outbox (wdb s) `prefix_of` outbox (wdb s').
Proof.
  intros Hs. refine (own_steps_wobeys outboxKept id s s' _ Hs). intros c Hc.
  destruct c; try done; wobey ltac:(unfold outboxKept; simpl; first [done | by eexists]).
Qed.

(** *** The rows a query reads *)

Definition storedOf (kr : string * CommandRow) (c : StoredCommand) : Prop :=
  sc_Command c = cm_command kr.2 /\ sc_PID c = cm_pid kr.2 /\ sc_WorkDir c = cm_work_dir kr.2 /\
  sc_StatusPath c = cm_status_path kr.2 /\ sc_MetricsPath c = cm_metrics_path kr.2 /\
  sc_MetricOffset c = cm_metric_offset kr.2 /\
  (if (cm_cancel_requested_at kr.2 =? "")%string then sc_CancelRequestedAt c = GoTime.zero
   else parseTime (cm_cancel_requested_at kr.2) = Some (sc_CancelRequestedAt c)).

Lemma listCommands_ok where_ limit s cs s' : listCommands where_ limit s = (Ok cs, s') ->
  s' = s /\ Forall2 storedOf
    (take (Z.to_nat (if limit <=? 0 then 100 else limit)) (selectCommands where_ (wdb s))) cs.
Proof.
  unfold listCommands. rewrite wquery_run. apply (collect_ok (λ row : string * CommandRow, scanStored row.2) _ storedOf).
  intros kr s1 c s2 Hr. unfold scanStored in Hr. apply bind_ok in Hr as (t & s3 & H1' & [= <- <-]).
  destruct (cm_cancel_requested_at kr.2 =? "")%string eqn:E.
  - apply wret_ok in H1' as [-> ->]. split; [done|]. unfold storedOf. rewrite E. done.
  - destruct (parseTime (cm_cancel_requested_at kr.2)) as [u|] eqn:Ep; [|done].
    apply wret_ok in H1' as [-> ->]. split; [done|]. unfold storedOf. rewrite E. done.
Qed.

Lemma elem_of_selectCommands where_ d id r : (id, r) ∈ selectCommands where_ d <->
  commands d !! id = Some r /\ where_ r = true.
Proof.
  unfold selectCommands. rewrite merge_sort_Permutation, list_elem_of_filter, elem_of_map_to_list. simpl. tauto.
Qed.

Lemma NoDup_selectCommands where_ d : NoDup (selectCommands where_ d).*1.
Proof.
  unfold selectCommands. rewrite merge_sort_Permutation.
  apply (sublist_NoDup _ (map_to_list (commands d)).*1); [apply NoDup_fst_map_to_list|].
  apply fmap_sublist, sublist_filter.
Qed.

(** The listed commands: their rows, and that no two share an identifier. *)
Lemma listed_rows where_ limit s cs s' : WorkerInv (wdb s) -> listCommands where_ limit s = (Ok cs, s') ->
  s' = s /\ NoDup ((λ c, k_CommandID (sc_Command c)) <$> cs) /\
  (length cs <= Z.to_nat (if (limit <=? 0)%Z then 100%Z else limit))%nat /\
  Forall (λ c, exists row, commands (wdb s) !! k_CommandID (sc_Command c) = Some row /\ where_ row = true /\
    storedOf (k_CommandID (sc_Command c), row) c) cs.
Proof.
  intros Hinv [-> Hall]%listCommands_ok. split; [done|].
  set (rows := take _ _) in Hall.
  assert (Hrows : forall kr, kr ∈ rows -> commands (wdb s) !! kr.1 = Some kr.2 /\ where_ kr.2 = true).
  { intros [id r] Hin. apply elem_of_selectCommands. by eapply subseteq_take. }
  assert (Hids : (λ c, k_CommandID (sc_Command c)) <$> cs = rows.*1).
  { assert (Hin : forall kr, kr ∈ rows -> commands (wdb s) !! kr.1 = Some kr.2) by (intros; by apply Hrows).
    clear -Hall Hin Hinv. clearbody rows. induction Hall as [|kr c rs cs Hc _ IH]; [done|]. rewrite !fmap_cons, IH.
    - f_equal. destruct Hc as [-> _]. destruct (wi_rows _ Hinv kr.1 kr.2) as [<- _]; [|done].
      apply Hin, list_elem_of_here.
    - intros kr' Hin'. apply Hin. by right. }
  split_and!.
  - rewrite Hids. subst rows. apply (sublist_NoDup _ (selectCommands where_ (wdb s)).*1); [apply NoDup_selectCommands|].
    apply fmap_sublist. apply sublist_take.
  - apply Forall2_length in Hall. rewrite <- Hall. subst rows. rewrite length_take. lia.
  - apply Forall_forall. intros c Hc. apply list_elem_of_lookup in Hc as [i Hi].
    destruct (Forall2_lookup_r _ _ _ _ _ Hall Hi) as (kr & Hkr & Hst).
    destruct (Hrows kr) as [Hrow Hw]; [by eapply list_elem_of_lookup_2|].
    assert (E : k_CommandID (sc_Command c) = kr.1).
    { destruct Hst as [-> _]. by destruct (wi_rows _ Hinv _ _ Hrow) as [<- _]. }
    rewrite E. exists kr.2. by destruct kr.
Qed.

(** The rows a query selects depend on nothing but the rows it is about. *)
#[local] Instance commandOrder_trans : Transitive (λ x y : string * CommandRow, commandOrder x y = true).
Proof.
  intros x y z. unfold commandOrder.
  destruct (Text.cmp (cm_created_at x.2) (cm_created_at y.2)) eqn:E1; [|intros _|done].
  - apply Text.cmp_eq in E1 as ->. destruct (Text.cmp _ _); [apply Text.leb_trans|done|done].
  - destruct (Text.cmp (cm_created_at y.2) (cm_created_at z.2)) eqn:E2; [|intros _|done].
    + apply Text.cmp_eq in E2 as <-. by rewrite E1.
    + by rewrite (Text.cmp_lt_trans _ _ _ E1 E2).
Qed.
#[local] Instance commandOrder_total : Total (λ x y : string * CommandRow, commandOrder x y = true).
Proof.
  intros x y. unfold commandOrder. rewrite (Text.cmp_antisym (cm_created_at x.2)).
  destruct (Text.cmp (cm_created_at x.2) (cm_created_at y.2)); cbn [CompOpp]; [apply Text.leb_total|by left|by right].
Qed.

Lemma selectCommands_same where_ d d' : (forall id row, where_ row = true ->
    commands d !! id = Some row <-> commands d' !! id = Some row) ->
  selectCommands where_ d = selectCommands where_ d'.
Proof.
  intros Hsame. apply (Sorted_unique_strong (λ x y, commandOrder x y = true)); [|apply Sorted_merge_sort, _..|].
  - intros [id1 row1] [id2 row2] [H1' Hw]%elem_of_selectCommands [H2' _]%elem_of_selectCommands.
    unfold commandOrder. cbn [fst snd]. rewrite (Text.cmp_antisym (cm_created_at row1)).
    destruct (Text.cmp _ _); [|done..]. cbn [CompOpp]. intros Ha Hb.
    pose proof (Text.leb_antisym _ _ Ha Hb) as ->. apply Hsame in H1'; [|done]. congruence.
  - apply NoDup_Permutation; [eapply NoDup_fmap_1, NoDup_selectCommands..|]. intros [id row].
    rewrite !elem_of_selectCommands. split; intros [H1' Hw]; (split; [by apply Hsame|done]).
Qed.

(** The rows that are listed: the first ones. *)
Lemma listed_first where_ limit s cs s' : listCommands where_ limit s = (Ok cs, s') ->
  forall id row, (id, row) ∈ take (Z.to_nat (if (limit <=? 0)%Z then 100%Z else limit)) (selectCommands where_ (wdb s)) ->
  exists c, c ∈ cs /\ storedOf (id, row) c.
Proof.
  intros [-> Hall]%listCommands_ok id row Hin.
  apply list_elem_of_lookup in Hin as [i Hi]. destruct (Forall2_lookup_l _ _ _ _ _ Hall Hi) as (c & Hc & Hst).
  exists c. split; [by eapply list_elem_of_lookup_2|done].
Qed.

(** Every selected row is listed, if there is room for all. *)
Lemma listed_all where_ limit s cs s' : listCommands where_ limit s = (Ok cs, s') ->
  (length (selectCommands where_ (wdb s)) <= Z.to_nat (if (limit <=? 0)%Z then 100%Z else limit))%nat ->
  forall id row, commands (wdb s) !! id = Some row -> where_ row = true ->
  exists c, c ∈ cs /\ storedOf (id, row) c.
Proof.
  intros [-> Hall]%listCommands_ok Hlen id row Hrow Hw. rewrite take_ge in Hall by done.
  assert (Hin : (id, row) ∈ selectCommands where_ (wdb s)) by by apply elem_of_selectCommands.
  apply list_elem_of_lookup in Hin as [i Hi]. destruct (Forall2_lookup_l _ _ _ _ _ Hall Hi) as (c & Hc & Hst).
  exists c. split; [by eapply list_elem_of_lookup_2|done].
Qed.

(** *** Finishing *)

Lemma MarkFinished_ok now id code err uri logTail artifacts s s' :
  MarkFinished now id code err uri logTail artifacts s = (Ok tt, s') ->
  reported id (code, err, logTail, artifacts) uri (wdb s').
Proof.
  intros Hr%wtx_ok. rewrite wquery_run in Hr. destruct (commands (wdb s) !! id) as [row|] eqn:Erow; [|done].
  apply bind_ok in Hr as ([] & s1 & Hg & Hr). apply guard_ok in Hg as [_ ->].
  destruct (WorkerLifecycle.moved_event _ _ _ _ _ _ _ _ _ Erow eq_refl Hr) as (eid & _ & ->).
  exists (setCommandFinished now row). do 3 eexists. split_and!; [apply lookup_insert_eq|done| |].
  - cbn [outbox enqueued appendOutbox withRow with_commands]. apply elem_of_app. right. apply list_elem_of_here.
  - reflexivity.
Qed.

Lemma reported_own id j report uri s s' : reported id report uri (wdb s) -> ownSteps j s s' -> j <> id ->
  reported id report uri (wdb s').
Proof.
  destruct report as [[[code err] logTail] artifacts]. intros (row & ob & now & eid & Hr & Hs & Ho & He) Hown Hne.
  exists row, ob, now, eid. rewrite (own_other _ _ _ _ Hown) by done. split_and!; try done.
  destruct (own_outbox _ _ _ Hown) as [l ->]. apply elem_of_app. by left.
Qed.

Lemma timed_ok {A} h (m : time -> WAct A) x a x' : timed h m x = (Ok a, x') ->
  exists now, m now (x_store x) = (Ok a, x_store x').
Proof.
  unfold timed, mbind, M_bind, readClock, onStore. cbn [x_store].
  destruct (m (h_clock h (x_ticks x)) (x_store x)) as [[b|e] w] eqn:E; intros [= <- <-]. eexists. exact E.
Qed.

Lemma finishAttempt_ok h config command status x x' : finishAttempt h config command status x = (Ok tt, x') ->
  reported (k_CommandID (sc_Command command)) (finalReport h config command status)
    (workerURI (cf_WorkerID config) (sc_Command command) "run.log") (wdb (x_store x')).
Proof.
  unfold finishAttempt. intros Hr. apply bind_ok in Hr as ([] & x1 & _ & Hr).
  destruct (finalReport h config command status) as [[[code err] logTail] artifacts].
  apply timed_ok in Hr as [now Hr]. by apply MarkFinished_ok in Hr.
Qed.

(** The report does not depend on when the supervisor was missed. *)
Lemma finalReport_vanished h config command now now' :
  finalReport h config command (vanishedStatus now) = finalReport h config command (vanishedStatus now').
Proof. reflexivity. Qed.

(** *** Loops over commands *)

Section loop.
Context (body : StoredCommand -> XAct unit)
  (Hown : forall c, xobeys (onWSt (ownSteps (idOf c))) (body c)).

(** The rows of other commands stay as they are. *)
Lemma own_loop_other cs id x : id ∉ idOf <$> cs ->
  commands (wdb (x_store (mfor cs body x).2)) !! id = commands (wdb (x_store x)) !! id.
Proof using Hown.
  revert x. induction cs as [|c cs IH]; intros x Hni; [done|]. rewrite fmap_cons in Hni.
  apply not_elem_of_cons in Hni as [Hne Hni]. simpl. unfold mbind, M_bind.
  pose proof (Hown c x) as Hc. destruct (body c x) as [[[]|e] x1]; cbn [snd] in Hc |- *.
  - rewrite (IH x1 Hni). by apply (own_other _ _ _ _ Hc).
  - by apply (own_other _ _ _ _ Hc).
Qed.

End loop.

(** What the body achieves for its command outlasts the handling of the others:
    [S] is what handling a command does, and [I] holds all along. *)
Lemma loop_ok (S : string -> relation Exec) (I : Exec -> Prop) (Done : StoredCommand -> Exec -> Prop)
    (body : StoredCommand -> XAct unit) cs x x' :
  (forall c, xobeys (S (idOf c)) (body c)) ->
  (forall c y y', I y -> body c y = (Ok tt, y') -> Done c y') ->
  (forall j y y', I y -> S j y y' -> I y') ->
  (forall c j y y', Done c y -> S j y y' -> j <> idOf c -> Done c y') ->
  NoDup (idOf <$> cs) -> I x -> mfor cs body x = (Ok tt, x') -> Forall (λ c, Done c x') cs.
Proof.
  intros Hown Hdone HI Hkeep.
  assert (Hrest : forall c cs x x', idOf c ∉ idOf <$> cs -> Done c x -> mfor cs body x = (Ok tt, x') -> Done c x').
  { clear cs x x'. intros c cs. induction cs as [|c1 cs IH]; intros x x' Hni Hd Hr; simpl in Hr; [by injection Hr as <-|].
    rewrite fmap_cons in Hni. apply not_elem_of_cons in Hni as [Hne Hni].
    apply bind_ok in Hr as ([] & x1 & H1' & Hr). refine (IH x1 x' Hni _ Hr).
    pose proof (Hown c1 x) as Hc. rewrite H1' in Hc. apply (Hkeep _ _ _ _ Hd Hc). congruence. }
  revert x. induction cs as [|c cs IH]; intros x Hnd Hi Hr; [constructor|]. rewrite fmap_cons in Hnd.
  apply NoDup_cons in Hnd as [Hni Hnd]. simpl in Hr. apply bind_ok in Hr as ([] & x1 & H1' & Hr).
  constructor; [eapply Hrest; [exact Hni|by eapply Hdone|exact Hr]|].
  pose proof (Hown c x) as Hc. rewrite H1' in Hc. by eapply IH; [|eapply HI|].
Qed.

(** The same for what the store says. *)
Lemma own_loop_ok (body : StoredCommand -> XAct unit) (Hown : forall c, xobeys (onWSt (ownSteps (idOf c))) (body c)) (Done : StoredCommand -> WorkerDB -> Prop) cs x x' :
  (forall c x x', body c x = (Ok tt, x') -> Done c (wdb (x_store x'))) ->
  (forall c j s s', Done c (wdb s) -> ownSteps j s s' -> j <> idOf c -> Done c (wdb s')) ->
  NoDup (idOf <$> cs) -> mfor cs body x = (Ok tt, x') ->
  Forall (λ c, Done c (wdb (x_store x'))) cs.
Proof.
  intros Hdone Hkeep Hnd. apply (loop_ok (λ j, onWSt (ownSteps j)) (λ _, True) (λ c y, Done c (wdb (x_store y)))); try done.
  - intros c y y' _. apply Hdone.
  - intros c j y y'. apply Hkeep.
Qed.

Lemma finishCanceled_own h c : xobeys (onWSt (ownSteps (idOf c))) (finishCanceled h c).
Proof. unfold finishCanceled. xobey. Qed.

Definition canceledReport : Z * string * string * list ArtifactAnnouncement := (-1, "canceled before start", "", []).

Lemma finishCanceled_ok h c x x' : finishCanceled h c x = (Ok tt, x') ->
  reported (idOf c) canceledReport "" (wdb (x_store x')).
Proof. intros [now Hr]%timed_ok. by apply MarkFinished_ok in Hr. Qed.

(** *** Signals *)

(** Code that leaves the samplers and the signals alone. *)
Definition still : relation Exec := λ x x', x_samplers x' = x_samplers x /\ x_signals x' = x_signals x.
#[global] Instance still_pre : PreOrder still.
Proof. split; unfold still; [by intros x|]. intros x y z [A1 A2] [B1 B2]. split; congruence. Qed.

(** Handling a command: it may change its own sampler, and send signals. *)
Definition others (id : string) : relation Exec := λ x x',
  (forall j, j <> id -> x_samplers x' !! j = x_samplers x !! j) /\ x_signals x `prefix_of` x_signals x'.
#[global] Instance others_pre id : PreOrder (others id).
Proof.
  split; unfold others; [by intros x|]. intros x y z [A1 A2] [B1 B2]. split; [|by etrans].
  intros j Hj. by rewrite B1, A1.
Qed.
Lemma still_others {A} id (m : XAct A) : xobeys still m -> xobeys (others id) m.
Proof. intros Hm x. destruct (Hm x) as [E1 E2]. split; [by intros j _; rewrite E1|by rewrite E2]. Qed.

(** Code that neither signals nor launches. *)
Definition silent : relation Exec := λ x x', x_signals x' = x_signals x /\ x_launches x' = x_launches x.
#[global] Instance silent_pre : PreOrder silent.
Proof. split; unfold silent; [by intros x|]. intros x y z [A1 A2] [B1 B2]. split; congruence. Qed.

Lemma onStore_silent {A} (m : WAct A) : xobeys silent (onStore m).
Proof. intros x. unfold silent, onStore. by destruct (m (x_store x)). Qed.
Lemma timed_silent {A} h (m : time -> WAct A) : xobeys silent (timed h m).
Proof. apply xobeys_bind; [apply _|by intros x|]. intros now. apply onStore_silent. Qed.
Lemma onGit_silent {A} (m : GitAct A) : xobeys silent (onGit m).
Proof. intros x. unfold silent, onGit. by destruct (m (x_repo x)). Qed.
Lemma swept_silent h id : xobeys silent (sweptRecently h id).
Proof. intros x. unfold silent, sweptRecently. by destruct (x_sweep x !! id). Qed.

Lemma onStore_still {A} (m : WAct A) : xobeys still (onStore m).
Proof. intros x. unfold still, onStore. by destruct (m (x_store x)). Qed.
Lemma timed_still {A} h (m : time -> WAct A) : xobeys still (timed h m).
Proof. apply xobeys_bind; [apply _|by intros x|]. intros now. apply onStore_still. Qed.
Lemma swept_still h id : xobeys still (sweptRecently h id).
Proof. intros x. unfold still, sweptRecently. by destruct (x_sweep x !! id). Qed.

End attempts.

Ltac still_leaf := idtac;
  match goal with
  | |- xobeys _ (timed _ _) => apply timed_still
  | |- xobeys _ (onStore _) => apply onStore_still
  | |- xobeys _ (sweptRecently _ _) => apply swept_still
  | |- xobeys _ (readClock _) => by intros ?
  | |- xobeys _ (mmodify _) => by intros ?
  end.

Ltac silent_leaf := idtac;
  match goal with
  | |- xobeys _ (timed _ _) => apply timed_silent
  | |- xobeys _ (onStore _) => apply onStore_silent
  | |- xobeys _ (onGit _) => apply onGit_silent
  | |- xobeys _ (sweptRecently _ _) => apply swept_silent
  | |- xobeys _ (readClock _) => by intros ?
  | |- xobeys _ (mmodify _) => by intros ?
  end.

Section signaling.
Context `{WorkerEnv} `{GitEnv} `{ExecEnv}.

Lemma ingestMetrics_silent h command : xobeys silent (ingestMetrics h command).
Proof. unfold ingestMetrics, ingestLine. xfollow silent_leaf. Qed.
Lemma announceProgress_silent h config command : xobeys silent (announceProgress h config command).
Proof. unfold announceProgress. xfollow silent_leaf. Qed.
Lemma finishAttempt_silent h config command status : xobeys silent (finishAttempt h config command status).
Proof. unfold finishAttempt, stopSampler. xfollow silent_leaf. Qed.
Lemma ensureSampler_silent command : xobeys silent (ensureSampler command).
Proof. intros x. unfold silent, ensureSampler, mmodify. simpl. by destruct (_ || _). Qed.

(** What a reconciliation adds to the signals sent. *)
Definition signals (P : Z * Signal -> Prop) : relation Exec := λ x x',
  x_launches x' = x_launches x /\ exists sent, x_signals x' = x_signals x ++ sent /\ Forall P sent.
#[local] Instance signals_pre P : PreOrder (signals P).
Proof.
  split; unfold signals; [intros x; split; [done|]; exists []; by rewrite app_nil_r|].
  intros x y z [L1 (s1 & E1 & F1)] [L2 (s2 & E2 & F2)]. split; [congruence|]. exists (s1 ++ s2).
  split; [by rewrite E2, E1, app_assoc|by apply Forall_app].
Qed.

Lemma silent_signals {A} P (m : XAct A) : xobeys silent m -> xobeys (signals P) m.
Proof. intros Hm x. destruct (Hm x) as [E1 E2]. split; [done|]. exists []. by rewrite app_nil_r. Qed.

Lemma reconcileCommand_signals (P : Z * Signal -> Prop) h config command :
  (forall n, GoTime.IsZero (sc_CancelRequestedAt command) = false -> 0 < sc_PID command ->
    h_alive h (sc_PID command) = true ->
    P (sc_PID command, if cancelGrace <? h_clock h n - sc_CancelRequestedAt command then SIGKILL else SIGTERM)) ->
  xobeys (signals P) (reconcileCommand h config command).
Proof.
  intros HP. unfold reconcileCommand, readRunStatus.
  apply xobeys_bind; [apply _|apply silent_signals, ingestMetrics_silent|intros _].
  apply xobeys_bind; [apply _|destruct (h_file h _) as [| |data ?]; [..|destruct (decodeStatus data)]; intros x; reflexivity|].
  intros [status|]; [apply silent_signals, finishAttempt_silent|].
  destruct (0 <? sc_PID command) eqn:Ep, (h_alive h (sc_PID command)) eqn:Ea; simpl;
    try (apply xobeys_bind; [apply _|by apply silent_signals; intros ?|intros now; apply silent_signals, finishAttempt_silent]).
  destruct (GoTime.IsZero (sc_CancelRequestedAt command)) eqn:Ec; simpl.
  - apply silent_signals, xobeys_bind; [apply _|apply ensureSampler_silent|intros _; apply announceProgress_silent].
  - intros x. split; [done|]. eexists. split; [reflexivity|]. apply Forall_singleton. apply HP; [done|lia|done].
Qed.


(** *** A reconciliation *)

Lemma onStore_query {A} (m : WAct A) x : (m (x_store x)).2 = x_store x -> exists r, onStore m x = (r, x) /\
  (forall a, r = Ok a -> m (x_store x) = (Ok a, x_store x)).
Proof.
  intros E. unfold onStore. destruct (m (x_store x)) as [r w] eqn:Er. simpl in E. subst w. eexists. split.
  - f_equal. by destruct x.
  - destruct r; intros a0 [= ->]. done.
Qed.

Lemma local_inv s s' : localSteps s s' -> WorkerInv (wdb s) -> WorkerInv (wdb s').
Proof.
  induction 1 as [|x y z (c & Hc & ->) _ IH]; [done|]. intros Hi. apply IH.
  eapply WorkerLifecycle.wmoves_inv; [|exact Hi]. apply WorkerLifecycle.workerPerform_moves. by destruct c.
Qed.

Lemma canceledLoop_local h cs : xobeys (onWSt localSteps) (mfor cs (finishCanceled h)).
Proof. unfold finishCanceled. xobey. Qed.

(** The running commands a cycle takes: the first thousand, in the order they
    were accepted. *)
Definition takenRunning (d : WorkerDB) : list (string * CommandRow) :=
  take 1000 (selectCommands (λ r, bool_decide (cm_state r = CommandRunning)) d).

(** The running commands of a reconciliation, and the state it reaches them in. *)
Lemma reconcileRunning_phases h config x : WorkerInv (wdb (x_store x)) ->
  exists x1 running,
    (forall P, signals P x x1) /\
    ((isOk (reconcileRunning h config x).1 = false /\ (reconcileRunning h config x).2 = x1) \/
     ((forall id row, (id, row) ∈ takenRunning (wdb (x_store x)) -> exists c, c ∈ running /\ storedOf (id, row) c) /\
      reconcileRunning h config x = mfor running (reconcileCommand h config) x1)) /\
    NoDup (idOf <$> running) /\
    Forall (λ c, exists row, commands (wdb (x_store x)) !! idOf c = Some row /\ cm_state row = CommandRunning /\
      storedOf (idOf c, row) c) running.
Proof.
  intros Hinv. unfold reconcileRunning.
  destruct (onStore_query PendingCanceledCommands x (listCommands_state _ _ _)) as (r & E & Hq).
  destruct r as [canceled|e]; [|exists x, []; rewrite (bind_run_err _ _ _ _ _ E); split_and!;
    [intros P; reflexivity|by left|constructor|constructor]].
  rewrite (bind_run _ _ _ _ _ E). specialize (Hq _ eq_refl).
  apply (listed_rows _ _ _ _ _ Hinv) in Hq as (_ & Hnd & _ & Hrows).
  assert (Hsilent : xobeys silent (mfor canceled (finishCanceled h))) by (unfold finishCanceled; xfollow silent_leaf).
  pose proof (λ P, silent_signals P _ Hsilent x) as Hsig.
  pose proof (canceledLoop_local h canceled x) as Hloc.
  pose proof (own_loop_other _ (finishCanceled_own h) canceled) as Hother.
  pose proof (own_loop_ok _ (finishCanceled_own h) (λ c, reported (idOf c) canceledReport "") canceled x) as Hok.
  specialize (Hother) with (x := x).
  destruct (mfor canceled (finishCanceled h) x) as [[[]|e] x1] eqn:El; cbn [snd] in *;
    [|exists x1, []; rewrite (bind_run_err _ _ _ _ _ El); split_and!; [exact Hsig|by left|constructor|constructor]].
  rewrite (bind_run _ _ _ _ _ El).
  specialize (Hok x1 (λ c x x', finishCanceled_ok h c x x') (λ c j s s' H1 H2 H3, reported_own _ _ _ _ _ _ H1 H2 H3) Hnd eq_refl).
  assert (Hinv1 : WorkerInv (wdb (x_store x1))) by by eapply local_inv.
  destruct (onStore_query RunningCommands x1 (listCommands_state _ _ _)) as (r & E1 & Hq1).
  destruct r as [running|e]; [|exists x1, []; rewrite (bind_run_err _ _ _ _ _ E1); split_and!;
    [exact Hsig|by left|constructor|constructor]].
  rewrite (bind_run _ _ _ _ _ E1). specialize (Hq1 _ eq_refl). pose proof Hq1 as Hq1'.
  apply (listed_rows _ _ _ _ _ Hinv1) in Hq1 as (_ & Hnd1 & _ & Hrows1).
  assert (Hsame : forall id row, commands (wdb (x_store x1)) !! id = Some row -> cm_state row = CommandRunning ->
    commands (wdb (x_store x)) !! id = Some row).
  { intros id row Hrow Hrun. rewrite <- Hrow. symmetry. apply Hother. intros Hin.
    apply list_elem_of_fmap in Hin as (c1 & -> & Hin). rewrite Forall_forall in Hok.
    destruct (Hok c1 Hin) as (row1 & _ & _ & _ & Hr1 & Hf & _). rewrite Hrow in Hr1. injection Hr1 as <-. congruence. }
  exists x1, running. split_and!; [exact Hsig| |done|].
  - right. split; [|done]. intros id row Hin.
    unfold RunningCommands in Hq1'. refine (listed_first _ _ _ _ _ Hq1' id row _). unfold takenRunning in Hin.
    rewrite (selectCommands_same _ (wdb (x_store x1)) (wdb (x_store x))); [exact Hin|].
    intros id1 row1 Hrun%bool_decide_eq_true. split; [intros Hrow1; by apply Hsame|]. intros Hrow.
    rewrite <- Hrow. apply Hother. intros Hc. apply list_elem_of_fmap in Hc as (c1 & -> & Hc).
    rewrite Forall_forall in Hrows. destruct (Hrows c1 Hc) as (row2 & Hr2 & Hp%andb_true_iff & _).
    destruct Hp as [Hp%bool_decide_eq_true _]. rewrite Hrow in Hr2. injection Hr2 as <-. congruence.
  - eapply Forall_impl; [exact Hrows1|]. intros c (row & Hrow & Hrun%bool_decide_eq_true & Hst). exists row.
    by split_and!; [apply Hsame|..].
Qed.

Lemma stored_signal h d c row n : commands d !! idOf c = Some row -> cm_state row = CommandRunning ->
  storedOf (idOf c, row) c -> GoTime.IsZero (sc_CancelRequestedAt c) = false -> 0 < sc_PID c ->
  h_alive h (sc_PID c) = true ->
  signalOk h d (sc_PID c, if cancelGrace <? h_clock h n - sc_CancelRequestedAt c then SIGKILL else SIGTERM).
Proof.
  intros Hrow Hrun (_ & Hpid & _ & _ & _ & _ & Hc) Hz Hp Ha. exists (idOf c), row, (sc_CancelRequestedAt c), n.
  cbn [fst snd] in *. split_and!; try done.
  - destruct (_ =? _)%string; [|done]. rewrite Hc in Hz. done.
  - destruct (Z.ltb_spec cancelGrace (h_clock h n - sc_CancelRequestedAt c)); split; intros; try done; lia.
Qed.

Lemma reconcileRunning_signals h config x : WorkerInv (wdb (x_store x)) ->
  signals (signalOk h (wdb (x_store x))) x (reconcileRunning h config x).2.
Proof.
  intros Hinv. destruct (reconcileRunning_phases h config x Hinv) as (x1 & running & Hsig & [[_ ->]|[_ ->]] & _ & Hrows);
    [apply Hsig|]. etrans; [apply Hsig|]. clear Hsig. revert x1. induction running as [|c cs IH]; intros x1;
    [simpl; reflexivity|]. apply Forall_cons in Hrows as [(row & Hrow & Hrun & Hst) Hrows].
  pose proof (reconcileCommand_signals (signalOk h (wdb (x_store x))) h config c
    (λ n, stored_signal h _ c row n Hrow Hrun Hst) x1) as Hc.
  simpl. unfold mbind, M_bind. destruct (reconcileCommand h config c x1) as [[[]|e] x2]; cbn [snd] in Hc |- *; [|exact Hc].
  etrans; [exact Hc|]. by apply IH.
Qed.

(** *** What a successful reconciliation has done for a running command *)

(** The signal of a cancellation: a kill after the grace period. *)
Definition cancelSignal (h : Host) (c : StoredCommand) (n : nat) : Signal :=
  if cancelGrace <? h_clock h n - sc_CancelRequestedAt c then SIGKILL else SIGTERM.

(** From [x], the reconciliation has come to [x']. *)
Definition attended (h : Host) (config : AgentConfig) (c : StoredCommand) (x x' : Exec) : Prop :=
  exists fate, fateOf h c = Some fate /\
  match fate with
  | Ended status => reported (idOf c) (finalReport h config c status)
      (workerURI (cf_WorkerID config) (sc_Command c) "run.log") (wdb (x_store x'))
  | Vanished => reported (idOf c) (finalReport h config c (vanishedStatus 0))
      (workerURI (cf_WorkerID config) (sc_Command c) "run.log") (wdb (x_store x'))
  | StillRunning =>
      if GoTime.IsZero (sc_CancelRequestedAt c) then is_Some (x_samplers x' !! idOf c)
      else exists n, (sc_PID c, cancelSignal h c n) ∈ drop (length (x_signals x)) (x_signals x')
  end.

Lemma drop_prefix {A} n (l l' : list A) a : l `prefix_of` l' -> a ∈ drop n l -> a ∈ drop n l'.
Proof. intros [k ->] Hin. rewrite drop_app. apply elem_of_app. by left. Qed.

(** What handling one command does. *)
Definition handling (id : string) : relation Exec := λ y y', onWSt (ownSteps id) y y' /\ others id y y'.

Lemma attended_other h config c j x y y' : attended h config c x y -> handling j y y' -> j <> idOf c ->
  attended h config c x y'.
Proof.
  intros (fate & Hf & Hr) [Hown [Hsam Hsig]] Hne. exists fate. split; [done|]. destruct fate; [by eapply reported_own| |by eapply reported_own].
  destruct (GoTime.IsZero _); [by rewrite Hsam by congruence|]. destruct Hr as [n Hn]. exists n. by eapply drop_prefix.
Qed.

Lemma ingestMetrics_still h command : xobeys still (ingestMetrics h command).
Proof. unfold ingestMetrics, ingestLine. xfollow still_leaf. Qed.
Lemma announceProgress_still h config command : xobeys still (announceProgress h config command).
Proof. unfold announceProgress. xfollow still_leaf. Qed.

Lemma samplers_others id (m : XAct unit) (f : gmap string Sampler -> gmap string Sampler) :
  (forall x, m x = (Ok tt, set_samplers (f (x_samplers x)) x)) -> (forall g j, j <> id -> f g !! j = g !! j) ->
  xobeys (others id) m.
Proof. intros Hm Hf x. rewrite Hm. split; [intros j Hj; by apply Hf|done]. Qed.

Lemma ensureSampler_others command : xobeys (others (idOf command)) (ensureSampler command).
Proof.
  intros x. unfold ensureSampler, mmodify. cbn [snd]. destruct (_ || _); [reflexivity|]. split; [|done].
  intros j Hj. cbn. by rewrite lookup_insert_ne.
Qed.
Lemma finishAttempt_others h config command status :
  xobeys (others (idOf command)) (finishAttempt h config command status).
Proof.
  unfold finishAttempt. apply xobeys_bind; [apply _| |].
  - intros x. split; [|done]. intros j Hj. cbn. by rewrite lookup_delete_ne.
  - intros _. destruct (finalReport h config command status) as [[[code err] logTail] artifacts].
    apply still_others, timed_still.
Qed.
Lemma reconcileCommand_others h config command : xobeys (others (idOf command)) (reconcileCommand h config command).
Proof.
  unfold reconcileCommand, readRunStatus.
  apply xobeys_bind; [apply _|apply still_others, ingestMetrics_still|intros _].
  apply xobeys_bind; [apply _|destruct (h_file h _) as [| |data ?]; [..|destruct (decodeStatus data)]; intros x; reflexivity|].
  intros [status|]; [apply finishAttempt_others|]. destruct (_ && _); [destruct (negb _)|].
  - unfold signalCancel. apply xobeys_bind; [apply _|by intros x|]. intros now x. split; [done|]. cbn. by eexists.
  - apply xobeys_bind; [apply _|apply ensureSampler_others|]. intros _. apply still_others, announceProgress_still.
  - apply xobeys_bind; [apply _|by intros x|]. intros now. apply finishAttempt_others.
Qed.

(** One running command, by what the machine shows of it. *)
Lemma reconcileCommand_ok h config c x y y' : x_signals x `prefix_of` x_signals y ->
  reconcileCommand h config c y = (Ok tt, y') -> attended h config c x y'.
Proof.
  unfold reconcileCommand, readRunStatus, attended, fateOf. intros Hx Hr. apply bind_ok in Hr as ([] & x1 & Hi & Hr).
  pose proof (ingestMetrics_still h c y) as [_ Hs1]. rewrite Hi in Hs1. cbn [snd] in Hs1. rewrite <- Hs1 in Hx.
  apply bind_ok in Hr as (o & x2 & Hst & Hr). destruct (h_file h (sc_StatusPath c)) as [|reason|data broken]; [|done|].
  - injection Hst as <- <-. eexists. split; [reflexivity|]. destruct (_ && _) eqn:Ea.
    + destruct (GoTime.IsZero (sc_CancelRequestedAt c)) eqn:Ec; cbn [negb] in Hr.
      * apply bind_ok in Hr as ([] & x2 & He & Hr). pose proof (announceProgress_still h config c x2) as [Hsam _].
        rewrite Hr in Hsam. cbn [snd] in Hsam. rewrite Hsam. injection He as <-. apply andb_true_iff in Ea as [Ea _].
        destruct (Z.leb_spec (sc_PID c) 0); [lia|]. rewrite orb_false_r.
        case_bool_decide; [done|]. cbn. by rewrite lookup_insert_eq.
      * unfold signalCancel in Hr. apply bind_ok in Hr as (now & x2 & [= <- <-] & Hr). injection Hr as <-.
        exists (x_ticks x1). cbn [x_signals add_signal]. destruct Hx as [k Hk]. rewrite Hk, <- app_assoc, drop_app_length.
        apply elem_of_app. right. apply list_elem_of_here.
    + apply bind_ok in Hr as (now & x3 & _ & Hr). by apply finishAttempt_ok in Hr.
  - destruct (decodeStatus data) as [st|]; [|done]. injection Hst as <- <-.
    eexists. split; [reflexivity|]. by apply finishAttempt_ok in Hr.
Qed.

(** A successful reconciliation has attended to the running commands. *)
Lemma reconcileRunning_ok h config x x' : WorkerInv (wdb (x_store x)) -> reconcileRunning h config x = (Ok tt, x') ->
  forall id row, (id, row) ∈ takenRunning (wdb (x_store x)) ->
  exists c, idOf c = id /\ storedOf (id, row) c /\ attended h config c x x'.
Proof.
  intros Hinv Hr id row Hrow.
  destruct (reconcileRunning_phases h config x Hinv) as (x1 & running & Hsig & Hor & Hnd & Hrows).
  rewrite Hr in Hor. destruct Hor as [[? _]|[Hall Hloop]]; [done|].
  destruct (Hall id row Hrow) as (c & Hin & Hst).
  assert (Hid : idOf c = id).
  { apply subseteq_take, elem_of_selectCommands in Hrow as [Hrow _].
    destruct (wi_rows _ Hinv _ _ Hrow) as [Eid _]. pose proof Hst as [Ec _]. simpl in Ec. by rewrite Ec. }
  symmetry in Hloop. apply (loop_ok handling (λ y, x_signals x `prefix_of` x_signals y) (λ c, attended h config c x)) in Hloop.
  - rewrite Forall_forall in Hloop. exists c. by split_and!; [|done|apply Hloop].
  - intros c1 y. split; [apply reconcileCommand_own|apply reconcileCommand_others].
  - intros c1 y y'. apply reconcileCommand_ok.
  - intros j y y' Hy [_ [_ Hsig']]. by etrans.
  - intros c1 j y y'. apply attended_other.
  - done.
  - destruct (Hsig (λ _, True)) as [_ (sent & -> & _)]. by eexists.
Qed.
End signaling.
End AttemptTheory.
