(* ===== verification/Launches.v ===== *)
(** * The attempts of a worker: what launching starts

    The processes a round of launches starts, and that no command is launched
    twice over the cycles of an agent. *)

From S2P Require Import Prelude Utf8 Times GoLib Ids Domain Validate Database Jobs Health Events.
From S2P Require Import Lifecycle Auth Scheduler Sync WorkerStore WorkerLog Control Agent.
From S2P Require Import WorkerProperties Paths Source Executor ExecutorLog Attempts.
Import WorkerTheory ExecTheory AttemptTheory.

(** A process started for a command: in the directory of its project, the
    supervisor with the job's command. *)
Definition spawned `{ExecEnv} (h : Host) (config : AgentConfig) (command : WorkerCommand) (l : Launch) : Prop :=
  ln_CommandID l = k_CommandID command /\
  exists workDir statusPath metricsPath executable, cf_Projects config !! s_Project (specOf command) = Some workDir /\
    ln_Process l = buildProcess h executable command workDir statusPath metricsPath (artifactDirOf config command).

(** No command's process was started and recorded twice. *)
Record LaunchInv `{GitEnv} (x : Exec) : Prop := {
  li_once : NoDup (ln_CommandID <$> filter (λ l, ln_Recorded l = true) (x_launches x));
  li_started : Forall (λ l, ln_Recorded l = true -> exists row,
    commands (wdb (x_store x)) !! ln_CommandID l = Some row /\ cm_state row <> CommandPending) (x_launches x);
}.

(** A process started from a source with a pinned commit: what was prepared, and
    what the event of its start says of it. *)
Definition startedWith `{GitEnv} (x x' : Exec) (source : Source) (l : Launch) : Prop := exists state,
  prepared (pr_Dir (ln_Process l)) source (x_repo x) state (x_repo x') /\
  (ln_Recorded l = true -> exists row ob eid now, commands (wdb (x_store x)) !! ln_CommandID l = Some row /\
     outbox (wdb (x_store x')) = outbox (wdb (x_store x)) ++ [ob] /\
     ob_event ob = jsonEvent (withEventID eid (startedEvent (cm_attempt_id row) now state))).

Module LaunchTheory.
Section launches.
Context `{WorkerEnv} `{GitEnv} `{ExecEnv}.

(** *** Launches *)

Lemma failBeforeLaunch_silent h config k w a git e : xobeys silent (failBeforeLaunch h config k w a git e).
Proof. unfold failBeforeLaunch. xfollow silent_leaf. Qed.

(** A launch ends in an error that is reported, or in a process. *)
Lemma launch_cases h config k x :
  silent x (launch h config k x).2 \/
  exists x1 workDir executable statusPath metricsPath git pid,
    x_store x1 = x_store x /\ silent x x1 /\ cf_Projects config !! s_Project (specOf k) = Some workDir /\
    launch h config k x = recordLaunch h k
      (buildProcess h executable k workDir statusPath metricsPath (artifactDirOf config k)) pid workDir statusPath
      metricsPath git x1 /\
    prepareSource workDir (s_Source (specOf k)) (x_repo x) = (git, None, x_repo x1).
Proof.
  unfold launch. destruct (cf_Projects config !! _) as [workDir|]; [|left; apply failBeforeLaunch_silent].
  destruct (h_mkdir h _); [left; apply failBeforeLaunch_silent|].
  assert (Hgit : exists prepared x1, onGit (prepareSource workDir (s_Source (specOf k))) x = (Ok prepared, x1) /\
    x_store x1 = x_store x /\ silent x x1 /\ prepareSource workDir (s_Source (specOf k)) (x_repo x) = (prepared, x_repo x1)).
  { unfold onGit. destruct (prepareSource _ _ (x_repo x)) as [prepared r]. by do 2 eexists. }
  destruct Hgit as (prepared & x1 & Hgit & E1 & Hsil & Hprep). rewrite (bind_run _ _ _ _ _ Hgit). cbv zeta.
  assert (Hfail : forall e, silent x (failBeforeLaunch h config k workDir (artifactDirOf config k) prepared.1 e x1).2)
    by (intros e; etrans; [exact Hsil|apply failBeforeLaunch_silent]).
  destruct prepared as [git [e|]]; cbn [fst snd] in *; [left; apply Hfail|]. destruct (negb _); [left; apply Hfail|].
  destruct (h_openLog h _); [left; apply Hfail|]. destruct (h_executable h) as [executable|]; [|left; apply Hfail].
  destruct (h_start h _) as [pid|]; [|left; apply Hfail]. right. by do 7 eexists.
Qed.

Lemma MarkStarted_ok now id pid w st m git s s' : MarkStarted now id pid w st m git s = (Ok tt, s') ->
  exists row row', commands (wdb s) !! id = Some row /\ cm_state row = CommandPending /\
    commands (wdb s') !! id = Some row' /\ cm_state row' = CommandRunning.
Proof.
  intros Hr%wtx_ok. rewrite wquery_run in Hr. destruct (commands (wdb s) !! id) as [row|] eqn:Erow; [|done].
  apply bind_ok in Hr as ([] & s1 & Hg & Hr). apply guard_ok in Hg as [Hp%bool_decide_eq_true ->].
  destruct (WorkerLifecycle.moved_event _ _ _ _ _ _ _ _ _ Erow eq_refl Hr) as (eid & _ & ->).
  exists row, (setStarted pid w st m now row). split_and!; [done|done|apply lookup_insert_eq|done].
Qed.

(** The event of a start carries the state of the repository. *)
Lemma MarkStarted_event now id pid w st m git s s' : MarkStarted now id pid w st m git s = (Ok tt, s') ->
  exists row ob eid, commands (wdb s) !! id = Some row /\ outbox (wdb s') = outbox (wdb s) ++ [ob] /\
    ob_event ob = jsonEvent (withEventID eid (startedEvent (cm_attempt_id row) now git)).
Proof.
  intros Hr%wtx_ok. rewrite wquery_run in Hr. destruct (commands (wdb s) !! id) as [row|] eqn:Erow; [|done].
  apply bind_ok in Hr as ([] & s1 & Hg & Hr). apply guard_ok in Hg as [_ ->].
  destruct (WorkerLifecycle.moved_event _ _ _ _ _ _ _ _ _ Erow eq_refl Hr) as (eid & _ & ->).
  exists row. do 2 eexists. split_and!; reflexivity.
Qed.

Lemma timed_repo {A} h (m : time -> WAct A) x : x_repo (timed h m x).2 = x_repo x.
Proof.
  unfold timed, mbind, M_bind, readClock, onStore. cbn [x_store]. by destruct (m (h_clock h (x_ticks x)) (x_store x)).
Qed.

Lemma launch_pinned h config k x l : src_Commit (s_Source (specOf k)) <> "" ->
  x_launches (launch h config k x).2 = x_launches x ++ [l] ->
  startedWith x (launch h config k x).2 (s_Source (specOf k)) l.
Proof.
  intros Hc El. destruct (launch_cases h config k x) as [[_ E]|(x1 & w & ex & st & m & git & pid & Ex1 & [_ El1] & _ & E & Hp)].
  { rewrite E in El. apply (f_equal length) in El. rewrite length_app in El. cbn in El. lia. }
  apply prepareSource_ok in Hp; [|done]. rewrite E in El |- *. unfold recordLaunch in *.
  pose proof (timed_silent h (λ now, MarkStarted now (k_CommandID k) pid w st m git) x1) as [_ Ex].
  pose proof (timed_repo h (λ now, MarkStarted now (k_CommandID k) pid w st m git) x1) as Er.
  destruct (timed h _ x1) as [[[]|e] x2] eqn:Et; cbn [snd] in *; cbn [x_launches x_store x_repo add_launch add_signal] in El |- *;
    rewrite Ex, El1 in El; apply (inj (app (x_launches x))) in El; injection El as <-; exists git;
    cbn [ln_Process pr_Dir buildProcess ln_Recorded x_repo add_launch add_signal]; rewrite Er; (split; [exact Hp|]); [|done].
  intros _. apply timed_ok in Et as [now Et]. apply MarkStarted_event in Et as (row & ob & eid & Hrow & Hout & Hob).
  rewrite Ex1 in *. by exists row, ob, eid, now.
Qed.

(** A directory with uncommitted changes is refused and left as it is. *)
Lemma launch_dirty h config k x workDir st r : src_Commit (s_Source (specOf k)) <> "" -> src_OCIImage (s_Source (specOf k)) = "" ->
  cf_Projects config !! s_Project (specOf k) = Some workDir ->
  observeGitState workDir (x_repo x) = (Some st, r) -> gs_Dirty st = true ->
  x_launches (launch h config k x).2 = x_launches x /\
  (x_repo (launch h config k x).2 = x_repo x \/ x_repo (launch h config k x).2 = r).
Proof.
  intros Hc Ho Hw Hst Hd. unfold launch. rewrite Hw.
  assert (Hfail : forall git e y, x_launches (failBeforeLaunch h config k workDir (artifactDirOf config k) git e y).2 = x_launches y /\
    x_repo (failBeforeLaunch h config k workDir (artifactDirOf config k) git e y).2 = x_repo y).
  { intros git e y. split; [apply failBeforeLaunch_silent|]. unfold failBeforeLaunch, mbind at 1, M_bind at 1.
    pose proof (timed_repo h (λ now, MarkStarted now (k_CommandID k) 0 workDir (Filepath.Join [artifactDirOf config k; "run-status.json"])
      (Filepath.Join [artifactDirOf config k; "metrics.jsonl"]) git) y) as E.
    destruct (timed h _ y) as [[[]|e1] y1]; cbn [snd] in E |- *; [|done]. by rewrite timed_repo. }
  destruct (h_mkdir h _); [destruct (Hfail None ("create artifact directory: " +:+ s) x) as [E1 E2]; rewrite E2; by split; [|left]|].
  destruct (prepareSource_dirty workDir (s_Source (specOf k)) _ _ _ Ho Hc Hst Hd) as [e Hp].
  unfold onGit, mbind, M_bind. rewrite Hp. cbn [fst snd]. destruct (Hfail (Some st) e (set_repo r x)) as [E1 E2].
  rewrite E1, E2. by split; [|right].
Qed.

(** What a process that was started leaves behind. *)
Lemma recordLaunch_run h k process pid w st m git x :
  let x' := (recordLaunch h k process pid w st m git x).2 in
  exists l, x_launches x' = x_launches x ++ [l] /\ ln_CommandID l = k_CommandID k /\ ln_Process l = process /\
    (ln_Recorded l = true -> exists row row', commands (wdb (x_store x)) !! k_CommandID k = Some row /\
       cm_state row = CommandPending /\ commands (wdb (x_store x')) !! k_CommandID k = Some row' /\
       cm_state row' = CommandRunning).
Proof.
  unfold recordLaunch. pose proof (timed_silent h (λ now, MarkStarted now (k_CommandID k) pid w st m git) x) as [_ El].
  destruct (timed h _ x) as [[[]|e] x1] eqn:Et; cbn [snd] in El |- *; cbn [x_launches x_store add_launch add_signal].
  - rewrite El. eexists. split_and!; [done..|]. intros _. apply timed_ok in Et as [now Et]. by apply MarkStarted_ok in Et.
  - rewrite El. eexists. by split_and!.
Qed.

Lemma launchLoop_run h config cs x : exists ls,
  x_launches (mfor cs (λ stored, launch h config (sc_Command stored)) x).2 = x_launches x ++ ls /\
  (ln_CommandID <$> ls) `sublist_of` (idOf <$> cs) /\
  Forall (λ l, exists c, c ∈ cs /\ spawned h config (sc_Command c) l) ls.
Proof.
  revert x. induction cs as [|c cs IH]; intros x.
  { exists []. rewrite app_nil_r. split_and!; [done|apply sublist_nil|constructor]. }
  assert (Hone : exists ls, x_launches (launch h config (sc_Command c) x).2 = x_launches x ++ ls /\
    (ln_CommandID <$> ls) `sublist_of` [idOf c] /\ Forall (λ l, exists c', c' ∈ c :: cs /\ spawned h config (sc_Command c') l) ls).
  { destruct (launch_cases h config (sc_Command c) x) as [[_ El]|(x1 & w & ex & st & m & git & pid & _ & [_ El] & Hp & -> & _)].
    - exists []. rewrite app_nil_r. split_and!; [done|apply sublist_nil_l|constructor].
    - destruct (recordLaunch_run h (sc_Command c) (buildProcess h ex (sc_Command c) w st m (artifactDirOf config (sc_Command c)))
        pid w st m git x1) as (l & E & Hid & Hpr & _). exists [l]. rewrite E, El. split_and!; [done|simpl; by rewrite Hid|].
      apply Forall_singleton. exists c. split; [apply list_elem_of_here|]. split; [done|]. by exists w, st, m, ex. }
  destruct Hone as (l1 & E1 & S1 & F1). cbn [mfor]. rewrite fmap_cons. unfold mbind at 1, M_bind at 1.
  destruct (launch h config (sc_Command c) x) as [[[]|e] x1]; cbn [snd] in E1 |- *.
  - destruct (IH x1) as (l2 & E2 & S2 & F2). exists (l1 ++ l2). rewrite E2, E1, app_assoc. split_and!; [done| |].
    + rewrite fmap_app. by apply (sublist_app _ [idOf c] _ (idOf <$> cs)).
    + apply Forall_app. split; [done|]. eapply Forall_impl; [exact F2|]. intros l (c' & Hin & Hs). exists c'.
      split; [by right|done].
  - exists l1. split_and!; [done| |done]. etrans; [exact S1|]. apply sublist_skip, sublist_nil_l.
Qed.

(** What a round of launches starts. *)
Lemma launchPending_run h config x : WorkerInv (wdb (x_store x)) -> exists ls,
  x_launches (launchPending h config x).2 = x_launches x ++ ls /\
  NoDup (ln_CommandID <$> ls) /\
  (length ls <= Z.to_nat (if (c_MaxParallel (cf_Capacity config) <=? 0)%Z then 100%Z
                          else c_MaxParallel (cf_Capacity config)))%nat /\
  Forall (λ l, exists row, commands (wdb (x_store x)) !! ln_CommandID l = Some row /\
    cm_state row = CommandPending /\ cm_cancel_requested_at row = "" /\ spawned h config (cm_command row) l) ls.
Proof.
  intros Hinv. unfold launchPending.
  destruct (onStore_query (PendingCommands (c_MaxParallel (cf_Capacity config))) x (listCommands_state _ _ _)) as (r & E & Hq).
  destruct r as [cs|e].
  2: { rewrite (bind_run_err _ _ _ _ _ E). exists []. rewrite app_nil_r. split_and!; [done|constructor|simpl; lia|constructor]. }
  rewrite (bind_run _ _ _ _ _ E). specialize (Hq _ eq_refl). unfold PendingCommands in Hq.
  apply (listed_rows _ _ _ _ _ Hinv) in Hq as (_ & Hnd & Hlen & Hrows).
  destruct (launchLoop_run h config cs x) as (ls & El & Hsub & Hall). exists ls. split_and!; [done| | |].
  - by eapply sublist_NoDup.
  - apply sublist_length in Hsub. rewrite !length_fmap in Hsub. lia.
  - eapply Forall_impl; [exact Hall|]. intros l (c & Hin & Hs). rewrite Forall_forall in Hrows.
    destruct (Hrows c Hin) as (row & Hrow & Hw & Hst). apply andb_true_iff in Hw as [Hp%bool_decide_eq_true Hc%String.eqb_eq].
    exists row. pose proof Hs as [Hid _]. rewrite Hid. split_and!; [done|done|done|]. destruct Hst as [Ek _]. simpl in Ek.
    by rewrite <- Ek.
Qed.

(** *** Once *)

(** Code that starts nothing and only moves commands on keeps the invariant. *)
Lemma keeps_once x x' : x_launches x' = x_launches x ->
  commandsEvolve (wdb (x_store x)) (wdb (x_store x')) -> LaunchInv x -> LaunchInv x'.
Proof.
  intros El Hev [Hn Hs]. split; rewrite El; [done|]. eapply Forall_impl; [exact Hs|]. intros l Hl Hrec.
  destruct (Hl Hrec) as (row & Hrow & Hp). destruct (Hev _ _ Hrow) as (row' & Hrow' & Hr). exists row'.
  split; [done|]. pose proof (re_state _ _ Hr) as Hle. destruct (cm_state row), (cm_state row'); simpl in Hle; try done; lia.
Qed.

Lemma local_evolves s s' : localSteps s s' -> commandsEvolve (wdb s) (wdb s').
Proof.
  induction 1 as [|x y z (c & Hc & ->) _ IH]; [reflexivity|]. etrans; [|exact IH].
  apply WorkerLifecycle.wmoves_evolve, WorkerLifecycle.workerPerform_moves. by destruct c.
Qed.

Lemma launch_once h config k x : LaunchInv x -> LaunchInv (launch h config k x).2.
Proof.
  intros Hi. destruct (launch_cases h config k x) as [[_ El]|(x1 & w & ex & st & m & git & pid & E1 & [_ El1] & _ & E & _)].
  { apply (keeps_once x); [done| |done]. apply local_evolves. exact (launch_local h config k x). }
  assert (Hev : commandsEvolve (wdb (x_store x)) (wdb (x_store (launch h config k x).2)))
    by (apply local_evolves; exact (launch_local h config k x)).
  rewrite E in Hev |- *. clear E.
  destruct (recordLaunch_run h k (buildProcess h ex k w st m (artifactDirOf config k)) pid w st m git x1)
    as (l & El & Hid & _ & Hrec). rewrite El1 in El. rewrite E1 in Hrec.
  set (x' := (recordLaunch h k _ pid w st m git x1).2) in *. clearbody x'.
  assert (Hold : Forall (λ l, ln_Recorded l = true -> exists row,
    commands (wdb (x_store x')) !! ln_CommandID l = Some row /\ cm_state row <> CommandPending) (x_launches x)).
  { pose proof (keeps_once x (set_store (x_store x') x) eq_refl Hev Hi) as [_ Hs]. exact Hs. }
  destruct Hi as [Hn Hs]. split; rewrite El.
  - rewrite filter_app. destruct (ln_Recorded l) eqn:Er.
    + rewrite filter_cons_True by done. rewrite fmap_app. simpl. apply NoDup_app. split_and!; [done| |apply NoDup_singleton].
      intros id Hin Hl. apply list_elem_of_singleton in Hl as ->.
      apply list_elem_of_fmap in Hin as (l0 & E0 & [Hr0 Hin]%list_elem_of_filter).
      destruct (Hrec eq_refl) as (row & _ & Hrow & Hp & _). rewrite Forall_forall in Hs.
      destruct (Hs l0 Hin Hr0) as (row0 & Hrow0 & Hp0). congruence.
    + rewrite filter_cons_False by congruence. by rewrite app_nil_r.
  - apply Forall_app. split; [done|]. apply Forall_singleton. intros Hl.
    destruct (Hrec Hl) as (_ & row' & _ & _ & Hrow' & Hr'). exists row'. rewrite Hid, Hr'. done.
Qed.

Lemma launchPending_once h config x : LaunchInv x -> LaunchInv (launchPending h config x).2.
Proof.
  intros Hi. unfold launchPending.
  destruct (onStore_query (PendingCommands (c_MaxParallel (cf_Capacity config))) x (listCommands_state _ _ _)) as (r & E & _).
  destruct r as [cs|e]; [rewrite (bind_run _ _ _ _ _ E)|by rewrite (bind_run_err _ _ _ _ _ E)]. clear E.
  revert x Hi. induction cs as [|c cs IH]; intros x Hi; [done|]. cbn [mfor]. unfold mbind at 1, M_bind at 1.
  pose proof (launch_once h config (sc_Command c) x Hi) as Hl.
  destruct (launch h config (sc_Command c) x) as [[[]|e] x1]; [by apply IH|done].
Qed.

Lemma acceptResponse_evolves h response x :
  Forall (λ k, utf8Valid (k_AttemptID k) = true) (p_Commands response) ->
  x_launches (acceptResponse h response x).2 = x_launches x /\
  commandsEvolve (wdb (x_store x)) (wdb (x_store (acceptResponse h response x).2)).
Proof.
  intros Ht. unfold acceptResponse, onStore. cbn [x_store].
  pose proof (receive_moves (λ n, h_clock h (x_ticks x + n)%nat) response (x_store x) Ht) as Hm.
  apply WorkerLifecycle.wmoves_evolve in Hm. by destruct (receiveResponse _ response (x_store x)) as [r w].
Qed.

Lemma cycle_once h config session send x :
  (forall request response, send request = Some response ->
     Forall (λ k, utf8Valid (k_AttemptID k) = true) (p_Commands response)) ->
  WorkerInv (wdb (x_store x)) ->
  LaunchInv x -> LaunchInv (cycle h config session send x).2.
Proof.
  intros Ht Hinv Hi. unfold cycle, prepareSync.
  assert (H1' : LaunchInv (reconcileRunning h config x).2).
  { destruct (reconcileRunning_signals h config x Hinv) as [El _].
    apply (keeps_once x); [done| |done]. apply local_evolves, reconcileRunning_local. }
  unfold mbind, M_bind. destruct (reconcileRunning h config x) as [[[]|e] x1]; [|done]. cbn [snd] in H1'.
  destruct (onStore_query (cycleRequest config session) x1 eq_refl) as (r & E & _). rewrite E.
  destruct r as [request|e]; [|done]. destruct (send request) as [response|] eqn:Es; [|done].
  unfold finishSync. unfold mbind, M_bind.
  destruct (acceptResponse_evolves h response x1 (Ht _ _ Es)) as [El Hev].
  assert (H2' : LaunchInv (acceptResponse h response x1).2) by by apply (keeps_once x1).
  destruct (acceptResponse h response x1) as [[[]|e] x2]; [|done].
  pose proof (launchPending_once h config x2 H2') as H3'. by destruct (launchPending h config x2) as [[[]|e] x3].
Qed.
End launches.
End LaunchTheory.
