(* ===== verification/ExecutorScenario.v ===== *)
(** * A concrete machine

    A git program, a machine and the states of an agent over a few cycles: a
    command arrives and is launched, its metrics grow, it is canceled, or its
    supervisor writes an exit status. The witnesses of the executor's properties
    use them. *)

From S2P Require Import Prelude Utf8 Times GoLib Ids Domain Validate Database Jobs Health Events.
From S2P Require Import Lifecycle Auth Scheduler Sync WorkerStore WorkerLog Control Agent Scenario.
From S2P Require Import WorkerProperties AgentProperties Paths Source Executor ExecutorLog Ingest.
Import ExecTheory.

#[local] Existing Instance demoEnv.
#[local] Existing Instance demoWorkerEnv.

(** ** Git *)

Definition demoHead : string := "0123456789abcdef0123456789abcdef01234567".
Definition demoPinned : string := "89ABCDEF0123456789abcdef0123456789abcdef".

Definition gitPrints (text : string) : GitRun :=
  {| gr_error := None; gr_output := text +:+ String newline ""; gr_combined := text |}.
Definition gitFails (text : string) : GitRun :=
  {| gr_error := Some "exit status 1"; gr_output := ""; gr_combined := text |}.

(** A repository is its HEAD and whether it has uncommitted changes; it has the
    two commits above, and prints their names in lower case. *)
#[local] Instance demoGit : GitEnv := {
  Repo := string * bool;
  git dir arguments r :=
    match arguments with
    | command :: rest =>
        if (command =? "checkout")%string then
          if (nth 1 rest "" =? demoHead)%string then (gitPrints "", (demoHead, r.2))
          else if (nth 1 rest "" =? demoPinned)%string then (gitPrints "", (ToLower demoPinned, r.2))
          else (gitFails "unknown revision", r)
        else if (command =? "status")%string then (gitPrints (if (r.2 : bool) then " M train.py" else ""), r)
        else if (command =? "symbolic-ref")%string then (gitPrints "main", r)
        else (gitPrints r.1, r)
    | [] => (gitFails "usage", r)
    end;
}.

(** A repository as such a pair. *)
Definition repoAt (head : string) (dirty : bool) : Repo := (head, dirty).

(** ** The machine *)

Definition demoSample : MetricSample :=
  {| ms_Name := "loss"; ms_Value := f64_of_Z 1; ms_Step := Some 7; ms_ObservedAt := 0 |}.

#[local] Instance demoExec : ExecEnv := {
  decodeSample line := if (line =? "loss")%string then Some demoSample else None;
  decodeStatus data :=
    if (data =? "exit 0")%string
    then Some {| rs_ExitCode := 0; rs_Error := ""; rs_FinishedAt := t0 |} else None;
  Quote s := "'" +:+ s +:+ "'";
}.

(** A machine at some time with some files, on which everything works. *)
Definition demoHost (now : time) (files : string -> FileRead) : Host := {|
  h_clock := λ _, now; h_file := files; h_alive := λ _, true; h_glob := λ _, Ok []; h_regular := λ _, false;
  h_copy := λ _ _, Ok (0, ""); h_mkdir := λ _, None; h_openLog := λ _, None; h_executable := Ok "/usr/bin/lcjs";
  h_start := λ _, Ok 4711; h_environ := ["PATH=/usr/bin"] |}.

Definition noFiles : string -> FileRead := λ _, Absent.
Definition withFile (path data : string) : string -> FileRead :=
  λ p, if (p =? path)%string then Contents data None else Absent.
Definition bareHost : Host := demoHost t0 noFiles.

(** ** The agent over its cycles *)

Definition agentOf (w : WSt) : Exec := {|
  x_store := w; x_ticks := 0; x_repo := repoAt demoHead false; x_samplers := ∅; x_sweep := ∅; x_hash := ∅;
  x_launches := []; x_signals := [] |}.

Definition agentStarted : Exec := agentOf workerInitial.
(** The command of the first exchange is stored, and not launched. *)
Definition agentAccepted : Exec := agentOf (y_worker sysAccepted).

Definition answering (response : WorkerSyncResponse) (x : Exec) : Exec :=
  (cycle bareHost demoConfig "session" (λ _, Some response) x).2.

(** It was launched in the cycle that brought it. *)
Definition agentLaunched : Exec := answering (demoResponse sysSubmitted) agentStarted.

Definition demoCommandID : string := default "" (head (k_CommandID <$> p_Commands (demoResponse sysSubmitted))).
Definition demoCommandRow : CommandRow :=
  default (pendingRow demoCommand 0) (commands (wdb (x_store agentLaunched)) !! demoCommandID).

(** The control plane asks to cancel the attempt. *)
Definition cancelResponse : WorkerSyncResponse := {|
  p_ServerTime := t0; p_AcceptedThrough := 0; p_NextSyncSeconds := 10;
  p_Commands := [{| k_CommandID := demoCommandID +:+ "-cancel"; k_AttemptID := cm_attempt_id demoCommandRow;
    k_AttemptNumber := 1; k_Kind := WorkerCommandCancelAttempt; k_Job := None; k_LeaseExpiresAt := 0 |}] |}.
Definition agentCanceling : Exec := answering cancelResponse agentLaunched.

Definition launchedCommand : StoredCommand :=
  match (RunningCommands (x_store agentLaunched)).1 with
  | Ok (c :: _) => c
  | _ => {| sc_Command := demoCommand; sc_State := CommandPending; sc_PID := 0; sc_WorkDir := ""; sc_StatusPath := "";
            sc_MetricsPath := ""; sc_MetricOffset := 0; sc_CancelRequestedAt := 0 |}
  end.

Example agentLaunched_launches : (ln_PID <$> x_launches agentLaunched, pr_Arguments ∘ ln_Process <$> x_launches agentLaunched) =
  ([4711], [["supervise"; "--status"; "/artifacts/physics/job_04000000000000000000000000/1/run-status.json"; "--";
             "python"; "train.py"]]).
Proof. vm_compute. reflexivity. Qed.
Example agentLaunched_row : (cm_state demoCommandRow, cm_pid demoCommandRow, cm_work_dir demoCommandRow) =
  (CommandRunning, 4711, "/srv/physics").
Proof. vm_compute. reflexivity. Qed.

(** The metrics file, first with two lines and part of a third, then with all. *)
Definition metricsRead : string := "loss" +:+ String newline ("note" +:+ String newline "lo").
Definition metricsMore : string := "ss" +:+ String newline "".
Definition metricsHost (data : string) : Host := demoHost t0 (withFile (sc_MetricsPath launchedCommand) data).
