(* ===== verification/ExecutorProperties.v ===== *)
(** * The executor: the properties

    A cycle of the agent is a run of the system of the agent and the control
    plane; metrics are taken up exactly once; a command is launched once, and
    not after it was canceled; what is reported of an attempt is what the
    machine shows. *)

From S2P Require Import Prelude Utf8 Times GoLib Ids Domain Validate ValidateSpec Database Jobs Health Events.
From S2P Require Import Lifecycle Auth Scheduler Sync WorkerStore WorkerLog Control Agent.
From S2P Require Import WorkerProperties Paths Source Executor ExecutorLog Ingest Attempts Launches.
From S2P Require Import Scenario AgentProperties ExecutorScenario.
Import WorkerTheory ExecTheory AttemptTheory Filepath PathTheory.

(** ** The agent over its cycles *)

(** One cycle on any machine and network; the identifiers that came through
    JSON are valid text. *)
Inductive agentStep `{WorkerEnv} `{GitEnv} `{ExecEnv} (config : AgentConfig) : relation Exec :=
  | agent_step h session send x :
      (forall request response, send request = Some response ->
         Forall (λ k, utf8Valid (k_AttemptID k) = true) (p_Commands response)) ->
      agentStep config x (cycle h config session send x).2.

Module ExecInvariants.
Section invariants.
Context `{WorkerEnv} `{GitEnv} `{ExecEnv}.

(** A cycle keeps the invariant of the worker's store. *)
Lemma cycle_inv h config session send x :
  (forall request response, send request = Some response ->
     Forall (λ k, utf8Valid (k_AttemptID k) = true) (p_Commands response)) ->
  WorkerInv (wdb (x_store x)) -> WorkerInv (wdb (x_store (cycle h config session send x).2)).
Proof.
  intros Ht Hi. unfold cycle. destruct (prepareSync_request config h session x) as [Hl _].
  apply local_inv in Hl; [|done]. unfold mbind, M_bind.
  destruct (prepareSync h config session x) as [[request|e] x1]; [|done]. cbn [snd] in Hl.
  destruct (send request) as [response|] eqn:Es; [|done]. specialize (Ht _ _ Es).
  destruct (finishSync_run config h response x1) as [clock Hf].
  assert (Hr : WorkerInv (wdb (receiveResponse clock response (x_store x1)).2)).
  { eapply WorkerLifecycle.wmoves_inv; [|exact Hl]. by apply receive_moves. }
  apply (local_inv _ _ Hf) in Hr. by destruct (finishSync h config response x1) as [[delay|e] x2].
Qed.

Lemma agentSteps_inv config x x' : rtc (agentStep config) x x' ->
  WorkerInv (wdb (x_store x)) /\ LaunchInv x -> WorkerInv (wdb (x_store x')) /\ LaunchInv x'.
Proof.
  induction 1 as [|x y z [h session send x1 Ht] _ IH]; [done|]. intros [Hi Hl]. apply IH.
  split; [by apply cycle_inv|by apply LaunchTheory.cycle_once].
Qed.

(** Slugs are plain names. *)
Lemma slug_plain s : slugPattern s = true -> plain s.
Proof.
  unfold slugPattern. destruct s as [|c s]; [done|]. simpl. intros [[Hc Hs]%andb_true_iff _]%andb_true_iff.
  apply PlainNames.plain_first; [by intros ->|]. simpl. intros [->|Hin]; [done|].
  rewrite forallb_forall in Hs. by specialize (Hs _ Hin).
Qed.

Lemma rules_plain `{Unicode} spec rule : ValidSpec spec -> rule ∈ artifactRules spec -> plain (ar_Name rule).
Proof.
  intros Hv Hin. unfold artifactRules in Hin. apply elem_of_app in Hin as [Hin|Hin].
  - pose proof (v_artifacts _ Hv) as Ha. rewrite Forall_forall in Ha. apply slug_plain. by apply Ha.
  - destruct (s_Checkpoint spec); [|by apply elem_of_nil in Hin]. apply list_elem_of_singleton in Hin as ->.
    by apply (bool_decide_unpack _).
Qed.

(** *** Checksums *)

Lemma changedArtifacts_other artifacts seen name : name ∉ aa_Name <$> artifacts ->
  (changedArtifacts seen artifacts).2 !! name = seen !! name.
Proof.
  revert seen. induction artifacts as [|a artifacts IH]; intros seen Hn; [done|]. rewrite fmap_cons in Hn.
  apply not_elem_of_cons in Hn as [Hne Hn]. simpl. destruct (_ =? _)%string; [by apply IH|].
  specialize (IH (<[aa_Name a := aa_SHA256 a]> seen) Hn). destruct (changedArtifacts _ artifacts). simpl in *.
  rewrite IH. by apply lookup_insert_ne.
Qed.

(** Afterwards each name has the checksum of its file. *)
Lemma changedArtifacts_seen artifacts seen : NoDup (aa_Name <$> artifacts) ->
  Forall (λ a, default "" ((changedArtifacts seen artifacts).2 !! aa_Name a) = aa_SHA256 a) artifacts.
Proof.
  revert seen. induction artifacts as [|a artifacts IH]; intros seen Hn; [constructor|]. rewrite fmap_cons in Hn.
  apply NoDup_cons in Hn as [Hni Hn]. simpl. destruct (String.eqb_spec (default "" (seen !! aa_Name a)) (aa_SHA256 a)) as [E|E].
  - constructor; [|by apply IH]. by rewrite changedArtifacts_other.
  - specialize (IH (<[aa_Name a := aa_SHA256 a]> seen) Hn).
    pose proof (changedArtifacts_other artifacts (<[aa_Name a := aa_SHA256 a]> seen) _ Hni) as Ho.
    destruct (changedArtifacts _ artifacts) as [changed seen']. simpl in *. constructor; [|done].
    by rewrite Ho, lookup_insert_eq.
Qed.

Lemma changedArtifacts_none artifacts seen :
  Forall (λ a, default "" (seen !! aa_Name a) = aa_SHA256 a) artifacts -> (changedArtifacts seen artifacts).1 = [].
Proof. induction 1 as [|a artifacts Ha _ IH]; [done|]. simpl. apply String.eqb_eq in Ha. by rewrite Ha. Qed.

Lemma unchanged_quiet artifacts seen : NoDup (aa_Name <$> artifacts) ->
  (changedArtifacts (changedArtifacts seen artifacts).2 artifacts).1 = [].
Proof. intros Hn. by apply changedArtifacts_none, changedArtifacts_seen. Qed.

Lemma shared_name_repeats a b seen : aa_Name a = aa_Name b -> aa_SHA256 a <> aa_SHA256 b ->
  (changedArtifacts (changedArtifacts (changedArtifacts seen [a; b]).2 [a; b]).2 [a; b]).1 = [a; b].
Proof.
  intros Hn Hs. assert (Hlast : forall seen, default "" (seen !! aa_Name a) = aa_SHA256 b ->
    (changedArtifacts seen [a; b]).1 = [a; b] /\
    default "" ((changedArtifacts seen [a; b]).2 !! aa_Name a) = aa_SHA256 b).
  { intros sn E. simpl. rewrite E. destruct (String.eqb_spec (aa_SHA256 b) (aa_SHA256 a)); [congruence|].
    rewrite <- Hn, lookup_insert_eq. simpl. destruct (String.eqb_spec (aa_SHA256 a) (aa_SHA256 b)); [done|].
    simpl. split; [done|]. by rewrite lookup_insert_eq. }
  assert (Hfirst : default "" ((changedArtifacts seen [a; b]).2 !! aa_Name a) = aa_SHA256 b).
  { simpl. destruct (String.eqb_spec (default "" (seen !! aa_Name a)) (aa_SHA256 a)) as [E|E].
    - rewrite <- Hn, E. destruct (String.eqb_spec (aa_SHA256 a) (aa_SHA256 b)); [done|]. simpl. by rewrite lookup_insert_eq.
    - rewrite <- Hn, lookup_insert_eq. simpl. destruct (String.eqb_spec (aa_SHA256 a) (aa_SHA256 b)); [done|].
      simpl. by rewrite lookup_insert_eq. }
  destruct (Hlast _ Hfirst) as [_ H2']. by apply Hlast.
Qed.
End invariants.
End ExecInvariants.

(** ** Where artifacts are copied *)

(** A copy from below the work directory to below the attempt's directory. *)
Definition contained (artifactRoot : string) (command : StoredCommand) (source destination : string) : Prop :=
  let k := sc_Command command in
  exists rule rest, rule ∈ artifactRules (specOf k) /\ Forall plain rest /\
    rooted source = true /\ elements source = elements (sc_WorkDir command) ++ rest /\
    destination = pathOf (rooted artifactRoot) (elements artifactRoot ++ [s_Project (specOf k); jobIDOf k;
      attemptNumberText k; ar_Name rule] ++ rest).

(** Two machines whose files agree, and on which some copies go alike. *)
Record sameButCopies (allowed : string -> string -> Prop) (h h' : Host) : Prop := {
  sb_glob pattern : h_glob h pattern = h_glob h' pattern;
  sb_regular path : h_regular h path = h_regular h' path;
  sb_file path : h_file h path = h_file h' path;
  sb_copy source destination : allowed source destination -> h_copy h source destination = h_copy h' source destination;
}.

Module ContainedTheory.

Lemma collectAll_same {A B} (f g : A -> result string (list B)) xs : Forall (λ x, f x = g x) xs ->
  collectAll f xs = collectAll g xs.
Proof. induction 1 as [|x xs E _ IH]; [done|]. cbn. by rewrite E, IH. Qed.

Section contained.
Context `{Unicode} `{ExecEnv} (artifactRoot : string) (command : StoredCommand).
Context (Hvalid : ValidSpec (specOf (sc_Command command))) (Hjob : plain (jobIDOf (sc_Command command))).
Context (Hnumber : 0 <= k_AttemptNumber (sc_Command command)) (Hroot : artifactRoot <> "").
Context (Hwork : rooted (sc_WorkDir command) = true).

(** The destination of a file that passes the check on its relative path. *)
Lemma destination_contained rule source relative : rule ∈ artifactRules (specOf (sc_Command command)) ->
  Rel (sc_WorkDir command) source = Some relative -> HasPrefix relative ".." = false ->
  contained artifactRoot command source (artifactDestination artifactRoot (sc_Command command) rule relative).
Proof using Hvalid Hjob Hnumber Hroot Hwork.
  intros Hrule Hrel Hpre. set (k := sc_Command command) in *.
  destruct (Rel_below _ _ _ Hwork Hrel Hpre) as (rest & Hrest & Hsrc & Helems & Hor).
  assert (Hnames : Forall plain [jobIDOf k; attemptNumberText k; ar_Name rule]).
  { apply Forall_cons. split; [done|]. apply Forall_cons. split; [by apply PlainNames.number_plain|].
    apply Forall_singleton. by eapply ExecInvariants.rules_plain. }
  assert (Hlast : undotted (Split relative slash) = rest /\ Forall (λ s, s <> "" /\ s <> "..") (Split relative slash)).
  { destruct Hor as [[-> ->]|[Hne ->]]; [split; [done|by repeat constructor]|].
    rewrite Split_join; [|done|eapply Forall_impl; [exact Hrest|]; by intros s (_ & _ & _ & ?)].
    split; [by apply undotted_plain|]. eapply Forall_impl; [exact Hrest|]. by intros s (? & _ & ? & _). }
  destruct Hlast as [Hlast Hok]. exists rule, rest. split_and!; [done..|]. unfold artifactDestination. fold k.
  assert (Hsplit : [jobIDOf k; attemptNumberText k; ar_Name rule; relative] ≫= (λ n, Split n slash) =
    [jobIDOf k; attemptNumberText k; ar_Name rule] ++ Split relative slash).
  { change ([jobIDOf k; attemptNumberText k; ar_Name rule; relative]) with
      ([jobIDOf k; attemptNumberText k; ar_Name rule] ++ [relative]).
    rewrite bind_app, Split_plains by done. f_equal. rewrite bind_cons. apply app_nil_r. }
  rewrite Join_below; [|done|apply ExecInvariants.slug_plain, (v_project _ Hvalid)|].
  - rewrite Hsplit. unfold undotted. rewrite filter_app. fold (undotted (Split relative slash)). rewrite Hlast.
    fold (undotted [jobIDOf k; attemptNumberText k; ar_Name rule]). by rewrite undotted_plain.
  - rewrite Hsplit. apply Forall_app. split; [|done]. eapply Forall_impl; [exact Hnames|]. by intros s (? & _ & ? & _).
Qed.

Lemma collectMatch_same h h' workerID rule source : sameButCopies (contained artifactRoot command) h h' ->
  rule ∈ artifactRules (specOf (sc_Command command)) ->
  collectMatch h workerID artifactRoot command rule source = collectMatch h' workerID artifactRoot command rule source.
Proof using Hvalid Hjob Hnumber Hroot Hwork.
  intros [_ Hreg Hfile Hcopy] Hrule. unfold collectMatch. rewrite Hreg. destruct (negb _); [done|].
  destruct (Rel _ source) as [relative|] eqn:Er; [|done]. destruct (HasPrefix relative "..") eqn:Ep; [done|].
  rewrite (Hcopy _ _ (destination_contained rule source relative Hrule Er Ep)).
  destruct (h_copy h' _ _) as [[size checksum]|e]; [|done]. do 3 f_equal. unfold inlineArtifactContent. by rewrite Hfile.
Qed.
End contained.
End ContainedTheory.
Import ContainedTheory.

Section properties.
Context `{Env} `{WorkerEnv} `{GitEnv} `{ExecEnv}.

(** C16: Metrics are taken up exactly once: whatever happens to a first reading
    of a metrics file, when a later cycle, going on from the offset the store
    holds, reads the file after it has grown and succeeds, then the events of
    the two readings report, in order, each sample of the grown file's complete
    lines behind the original offset. *)
Theorem metrics_taken_once (h1 h2 : Host) (c1 c2 : StoredCommand) (data more : string)
    (broken1 broken2 : option string) (x x1 x2 x3 : Exec) (r1 : result ExecError unit) :
  sc_Command c2 = sc_Command c1 -> 0 <= sc_MetricOffset c1 ->
  atOffset (k_CommandID (sc_Command c1)) (sc_MetricOffset c1) (wdb (x_store x)) ->
  h_file h1 (sc_MetricsPath c1) = Contents data broken1 -> ingestMetrics h1 c1 x = (r1, x1) ->
  atOffset (k_CommandID (sc_Command c1)) (sc_MetricOffset c2) (wdb (x_store x1)) ->
  h_file h2 (sc_MetricsPath c2) = Contents (data +:+ more) broken2 -> ingestMetrics h2 c2 x2 = (Ok tt, x3) ->
  exists rows1 rows2, outbox (wdb (x_store x1)) = outbox (wdb (x_store x)) ++ rows1 /\
    outbox (wdb (x_store x3)) = outbox (wdb (x_store x2)) ++ rows2 /\
    Forall2 (reports (k_AttemptID (sc_Command c1)))
      (omap sampleOf (completeLines (seek (sc_MetricOffset c1) (data +:+ more)))) (rows1 ++ rows2).
Proof.
  intros Hk Ho Hat Hf1 Hr1 Hat2 Hf2 Hr2.
  pose proof (MetricTheory.ingestMetrics_run h1 c1 data broken1 x Hf1) as H1'. rewrite Hr1 in H1'.
  destruct H1' as (taken1 & rest1 & El & (rows1 & E1 & F1 & Hoff1) & _).
  pose proof (MetricTheory.ingestMetrics_run h2 c2 (data +:+ more) broken2 x2 Hf2) as H2'. rewrite Hr2 in H2'.
  destruct H2' as (taken2 & rest2 & El2 & (rows2 & E2 & F2 & _) & Hok).
  rewrite (Hok eq_refl), app_nil_r in El2. specialize (Hoff1 Hat).
  destruct Hat2 as (row & Hrow & Hc2), Hoff1 as (row' & Hrow' & Hc1). rewrite Hrow in Hrow'. injection Hrow' as <-.
  rewrite Hc1 in Hc2. exists rows1, rows2. split_and!; [done|done|].
  rewrite (MetricTheory.lines_resume _ _ more _ _ Ho El), omap_app. apply Forall2_app; [done|].
  by rewrite Hc2, El2, <- Hk.
Qed.

(** No attempt is started twice: over any number of cycles on any machine,
    the processes that were started and recorded belong to distinct commands,
    each of which has left the pending state. *)
Theorem launched_once (config : AgentConfig) (x x' : Exec) :
  WorkerInv (wdb (x_store x)) -> x_launches x = [] -> rtc (agentStep config) x x' ->
  NoDup (ln_CommandID <$> filter (λ l, ln_Recorded l = true) (x_launches x')) /\
  Forall (λ l, ln_Recorded l = true -> exists row, commands (wdb (x_store x')) !! ln_CommandID l = Some row /\
    cm_state row <> CommandPending) (x_launches x').
Proof.
  intros Hi Hl Hs. assert (H0' : LaunchInv x) by (split; rewrite Hl; constructor).
  destruct (ExecInvariants.agentSteps_inv _ _ _ Hs (conj Hi H0')) as [_ [? ?]]. done.
Qed.

(** A round of launches starts at most max_parallel processes, for distinct
    commands that are pending and whose cancellation was not requested, each
    the supervisor with the job's command in the directory of its project. *)
Theorem launches_waiting (h : Host) (config : AgentConfig) (x : Exec) : WorkerInv (wdb (x_store x)) ->
  exists ls, x_launches (launchPending h config x).2 = x_launches x ++ ls /\
    NoDup (ln_CommandID <$> ls) /\
    (length ls <= Z.to_nat (if (c_MaxParallel (cf_Capacity config) <=? 0)%Z then 100%Z
                            else c_MaxParallel (cf_Capacity config)))%nat /\
    Forall (λ l, exists row, commands (wdb (x_store x)) !! ln_CommandID l = Some row /\
      cm_state row = CommandPending /\ cm_cancel_requested_at row = "" /\ spawned h config (cm_command row) l) ls.
Proof. apply LaunchTheory.launchPending_run. Qed.

(** A reconciliation signals only the process groups of running commands
    whose cancellation was requested, and kills only after the grace period of
    thirty seconds; it starts nothing. *)
Theorem cancel_signals (h : Host) (config : AgentConfig) (x : Exec) : WorkerInv (wdb (x_store x)) ->
  signals (signalOk h (wdb (x_store x))) x (reconcileRunning h config x).2.
Proof. apply reconcileRunning_signals. Qed.


(** C33: Artifacts stay where they belong: collecting the artifacts of a valid
    specification copies only files below the work directory, and only to places
    below the attempt's own directory of the artifact root. Two machines that
    answer alike, but for copies of other files or to other places, give the
    same announcements and the same errors. *)
Theorem artifacts_contained (h h' : Host) (workerID artifactRoot : string) (command : StoredCommand) :
  ValidSpec (specOf (sc_Command command)) -> plain (jobIDOf (sc_Command command)) ->
  0 <= k_AttemptNumber (sc_Command command) -> artifactRoot <> "" -> rooted (sc_WorkDir command) = true ->
  sameButCopies (contained artifactRoot command) h h' ->
  collectArtifacts h workerID artifactRoot command = collectArtifacts h' workerID artifactRoot command.
Proof.
  intros Hv Hjob Hn Hroot Hw Hsame. unfold collectArtifacts. apply collectAll_same. apply Forall_forall. intros rule Hrule.
  unfold collectRule. destruct (_ || _); [done|]. rewrite (sb_glob _ _ _ Hsame). destruct (h_glob h' _) as [matches|e]; [|done].
  apply collectAll_same, Forall_true. intros source. by rewrite (collectMatch_same artifactRoot command Hv Hjob Hn Hroot Hw h h' workerID rule source Hsame Hrule).
Qed.


(** When the announced files have names of their own, a sweep that finds
    them as they were announces nothing. *)
Theorem unchanged_not_announced (artifacts : list ArtifactAnnouncement) (seen : gmap string string) :
  NoDup (aa_Name <$> artifacts) ->
  (changedArtifacts (changedArtifacts seen artifacts).2 artifacts).1 = [].
Proof. apply ExecInvariants.unchanged_quiet. Qed.

(** Two files of one rule share its name, and with it the checksum they are
    compared to: a sweep that finds both as they were announces both again. *)
Theorem unchanged_reannounced (a b : ArtifactAnnouncement) (seen : gmap string string) :
  aa_Name a = aa_Name b -> aa_SHA256 a <> aa_SHA256 b ->
  let seen1 := (changedArtifacts (changedArtifacts seen [a; b]).2 [a; b]).2 in
  (changedArtifacts seen1 [a; b]).1 = [a; b].
Proof. apply ExecInvariants.shared_name_repeats. Qed.

(** A line of more than one MiB stops the reading of the metrics, and with it
    the cycle, each time it is met: nothing behind it is taken up. *)
Theorem overlong_line_stalls (h : Host) (command : StoredCommand) (data line : string) (broken : option string)
    (rest : list string) (x : Exec) :
  h_file h (sc_MetricsPath command) = Contents data broken ->
  completeLines (seek (sc_MetricOffset command) data) = line :: rest -> 2 ^ 20 < len line ->
  ingestMetrics h command x = (Err XMetricLine, x).
Proof.
  intros Hf Hl Hlen. unfold ingestMetrics. rewrite Hf, Hl. apply bind_run_err. cbn [mfold].
  apply bind_run_err. unfold ingestLine. apply bind_run_err. apply Z.leb_gt in Hlen. by rewrite Hlen.
Qed.
End properties.

(** ** The properties on a concrete machine *)

#[local] Existing Instance demoEnv.
#[local] Existing Instance demoWorkerEnv.
#[local] Existing Instance demoGit.
#[local] Existing Instance demoExec.

Lemma demoResponse_typed :
  Forall (λ k, utf8Valid (k_AttemptID k) = true) (p_Commands (demoResponse sysSubmitted)).
Proof. vm_compute. repeat constructor. Qed.
Lemma cancelResponse_typed : Forall (λ k, utf8Valid (k_AttemptID k) = true) (p_Commands cancelResponse).
Proof. vm_compute. repeat constructor. Qed.

Lemma answering_step response x : Forall (λ k, utf8Valid (k_AttemptID k) = true) (p_Commands response) ->
  agentStep demoConfig x (answering response x).
Proof. intros Ht. apply agent_step. by intros request response' [= <-]. Qed.

Lemma agentStarted_inv : WorkerInv (wdb (x_store agentStarted)).
Proof. exact WorkerLifecycle.winv_empty. Qed.
Lemma answering_inv response x : Forall (λ k, utf8Valid (k_AttemptID k) = true) (p_Commands response) ->
  WorkerInv (wdb (x_store x)) -> WorkerInv (wdb (x_store (answering response x))).
Proof. intros Ht. apply ExecInvariants.cycle_inv. by intros request response' [= <-]. Qed.
Lemma agentLaunched_inv : WorkerInv (wdb (x_store agentLaunched)).
Proof. exact (answering_inv _ agentStarted demoResponse_typed agentStarted_inv). Qed.
Lemma agentCanceling_inv : WorkerInv (wdb (x_store agentCanceling)).
Proof. exact (answering_inv _ agentLaunched cancelResponse_typed agentLaunched_inv). Qed.
Lemma agentAccepted_inv : WorkerInv (wdb (x_store agentAccepted)).
Proof.
  eapply WorkerLifecycle.wmoves_inv; [|exact WorkerLifecycle.winv_empty].
  exact (receive_moves demoClock (demoResponse sysSubmitted) workerInitial demoResponse_typed).
Qed.

Definition metricsOnce : Exec := (ingestMetrics (metricsHost metricsRead) launchedCommand agentLaunched).2.
(** The command as the next cycle reads it. *)
Definition laterCommand : StoredCommand :=
  match (RunningCommands (x_store metricsOnce)).1 with Ok (c :: _) => c | _ => launchedCommand end.
Definition metricsTwice : Exec :=
  (ingestMetrics (metricsHost (metricsRead +:+ metricsMore)) laterCommand metricsOnce).2.

Example metricsTwice_events :
  (λ r, e_Kind (ob_event r)) <$> drop 2 (outbox (wdb (x_store metricsTwice))) =
  [WorkerEventMetricSample; WorkerEventMetricSample].
Proof. vm_compute. reflexivity. Qed.

Lemma metrics_taken_once_witness : exists rows1 rows2,
  outbox (wdb (x_store metricsOnce)) = outbox (wdb (x_store agentLaunched)) ++ rows1 /\
  outbox (wdb (x_store metricsTwice)) = outbox (wdb (x_store metricsOnce)) ++ rows2 /\
  Forall2 (reports (k_AttemptID (sc_Command launchedCommand)))
    (omap sampleOf (completeLines (seek (sc_MetricOffset launchedCommand) (metricsRead +:+ metricsMore))))
    (rows1 ++ rows2).
Proof.
  eapply (metrics_taken_once (metricsHost metricsRead) (metricsHost (metricsRead +:+ metricsMore)) launchedCommand
    laterCommand metricsRead metricsMore None None agentLaunched metricsOnce metricsOnce metricsTwice).
  - reflexivity.
  - vm_compute. discriminate.
  - eexists. split; vm_compute; reflexivity.
  - vm_compute. reflexivity.
  - apply surjective_pairing.
  - eexists. split; vm_compute; reflexivity.
  - vm_compute. reflexivity.
  - vm_compute. reflexivity.
Defined.

Lemma launched_once_witness : length (x_launches agentCanceling) = 1%nat /\
  (NoDup (ln_CommandID <$> filter (λ l, ln_Recorded l = true) (x_launches agentCanceling)) /\
   Forall (λ l, ln_Recorded l = true -> exists row,
     commands (wdb (x_store agentCanceling)) !! ln_CommandID l = Some row /\ cm_state row <> CommandPending)
     (x_launches agentCanceling)).
Proof.
  split; [vm_compute; reflexivity|].
  apply (launched_once demoConfig agentStarted agentCanceling agentStarted_inv eq_refl).
  apply (rtc_l _ _ agentLaunched); [exact (answering_step _ agentStarted demoResponse_typed)|].
  apply rtc_once. exact (answering_step _ agentLaunched cancelResponse_typed).
Defined.

Lemma launches_waiting_witness :
  length (x_launches (launchPending bareHost demoConfig agentAccepted).2) = 1%nat /\
  exists ls, x_launches (launchPending bareHost demoConfig agentAccepted).2 = [] ++ ls /\
    NoDup (ln_CommandID <$> ls) /\ (length ls <= 1)%nat /\
    Forall (λ l, exists row, commands (wdb (x_store agentAccepted)) !! ln_CommandID l = Some row /\
      cm_state row = CommandPending /\ cm_cancel_requested_at row = "" /\
      spawned bareHost demoConfig (cm_command row) l) ls.
Proof.
  split; [vm_compute; reflexivity|].
  exact (launches_waiting bareHost demoConfig agentAccepted agentAccepted_inv).
Defined.

(** Half a minute later the process group is killed. *)
Definition lateHost : Host := demoHost (t0 + 31 * GoTime.Second) noFiles.

Lemma cancel_signals_witness :
  x_signals (reconcileRunning lateHost demoConfig agentCanceling).2 = [(4711, SIGKILL)] /\
  signals (signalOk lateHost (wdb (x_store agentCanceling))) agentCanceling
    (reconcileRunning lateHost demoConfig agentCanceling).2.
Proof.
  split; [vm_compute; reflexivity|].
  exact (cancel_signals lateHost demoConfig agentCanceling agentCanceling_inv).
Defined.

(** The supervisor has written its status. *)
Definition endedHost : Host := demoHost t0 (withFile (sc_StatusPath launchedCommand) "exit 0").
Definition agentEnded : Exec := (reconcileRunning endedHost demoConfig agentLaunched).2.

Definition demoCancelingRow : CommandRow :=
  default demoCommandRow (commands (wdb (x_store agentCanceling)) !! demoCommandID).


(** A job that keeps its checkpoints. *)
Definition keepingSpec : JobSpec := {|
  s_Project := "physics"; s_Name := "train"; s_Priority := 0;
  s_Source := {| src_GitURL := ""; src_Commit := demoPinned; src_OCIImage := "" |}; s_Command := ["true"];
  s_Environment := ∅; s_SecretRefs := ∅; s_Resources := demoResources; s_Labels := ∅;
  s_Retry := {| rp_MaxAttempts := 1; rp_LostWorker := LostWorkerManual |}; s_Checkpoint := None;
  s_Artifacts := [{| ar_Name := "weights"; ar_Glob := "out/*.pt" |}]; s_Metrics := []; s_Health := [] |}.
Definition keepingCommand : WorkerCommand := {|
  k_CommandID := "cmd_1"; k_AttemptID := "att_1"; k_AttemptNumber := 2; k_Kind := WorkerCommandRunJob;
  k_Job := Some {| j_ID := "job_1"; j_Spec := keepingSpec; j_State := JobRunning; j_Revision := 1; j_CreatedAt := t0;
                   j_UpdatedAt := t0 |};
  k_LeaseExpiresAt := 0 |}.
Definition weightsRule : ArtifactRule := {| ar_Name := "weights"; ar_Glob := "out/*.pt" |}.

Definition keepingStored : StoredCommand := {|
  sc_Command := keepingCommand; sc_State := CommandRunning; sc_PID := 4711; sc_WorkDir := "/srv/physics";
  sc_StatusPath := "/artifacts/physics/job_1/2/run-status.json"; sc_MetricsPath := ""; sc_MetricOffset := 0;
  sc_CancelRequestedAt := GoTime.zero |}.

(** A machine with a file to keep, which copies anything that [copies] lets it. *)
Definition copyingHost (copies : string -> bool) : Host :=
  let host := demoHost t0 noFiles in
  {| h_clock := h_clock host; h_file := h_file host; h_alive := h_alive host;
     h_glob := λ _, Ok ["/srv/physics/out/a.pt"]; h_regular := λ _, true;
     h_copy := λ _ destination, if copies destination then Ok (3, "sum") else Err "no copy";
     h_mkdir := h_mkdir host; h_openLog := h_openLog host; h_executable := h_executable host;
     h_start := h_start host; h_environ := h_environ host |}.

Lemma artifacts_contained_witness :
  let elsewhere := copyingHost (λ _, true) in
  let below := copyingHost (λ destination, HasPrefix destination "/artifacts/physics/job_1/2/weights") in
  collectArtifacts elsewhere "wrk_1" "/artifacts" keepingStored = collectArtifacts below "wrk_1" "/artifacts" keepingStored /\
  isOk (collectArtifacts below "wrk_1" "/artifacts" keepingStored) = true.
Proof.
  cbv zeta. split; [|vm_compute; reflexivity]. apply artifacts_contained.
  - apply ValidateTheory.Validate_ok. vm_compute. reflexivity.
  - apply (bool_decide_unpack _). vm_compute. reflexivity.
  - vm_compute. discriminate.
  - discriminate.
  - reflexivity.
  - split; [done..|]. intros source destination (rule & rest & Hrule & _ & _ & _ & ->).
    apply list_elem_of_singleton in Hrule as ->. by destruct rest.
Defined.

(** The job that keeps its checkpoints waits to be launched, on another commit. *)
Definition keepingWaits (dirty : bool) : Exec :=
  set_repo (repoAt demoHead dirty)
    (set_store {| wdb := with_commands {[ "cmd_1" := pendingRow keepingCommand t0 ]} (wdb (x_store agentStarted));
                  wdraws := wdraws (x_store agentStarted) |} agentStarted).
Definition keepingLaunch : Launch := List.last (x_launches (launch bareHost demoConfig keepingCommand (keepingWaits false)).2)
  {| ln_CommandID := ""; ln_Process := {| pr_Executable := ""; pr_Arguments := []; pr_Dir := ""; pr_Environment := [] |};
     ln_PID := 0; ln_Recorded := false |}.


Definition demoAnnouncement (name sum : string) : ArtifactAnnouncement :=
  {| aa_Name := name; aa_URI := ""; aa_SizeBytes := 1; aa_SHA256 := sum; aa_Content := "" |}.

Lemma unchanged_not_announced_witness :
  (changedArtifacts (changedArtifacts ∅ [demoAnnouncement "a" "1"; demoAnnouncement "b" "2"]).2
    [demoAnnouncement "a" "1"; demoAnnouncement "b" "2"]).1 = [].
Proof.
  apply (unchanged_not_announced [demoAnnouncement "a" "1"; demoAnnouncement "b" "2"] ∅).
  apply (bool_decide_unpack _). vm_compute. reflexivity.
Defined.
