(* ===== verification/Encoding.v ===== *)
(** * Numbers and bytes as text

    strconv.ParseInt and ParseUint in base ten, base64.RawURLEncoding and
    hex.EncodeToString, as executable functions. *)

From S2P Require Import Prelude Times.
From Stdlib Require Import Strings.Byte.

(** ** Decimal integers *)

(** The value of some decimal digits, if they are nothing else. *)
Fixpoint decimal (acc : Z) (s : string) : option Z :=
  match s with
  | EmptyString => Some acc
  | String c rest => v ← digitVal c; decimal (10 * acc + v) rest
  end.

(** strconv.ParseUint(s, 10, 64) *)
Definition ParseUint (s : string) : option Z :=
  match s with
  | EmptyString => None
  | _ => n ← decimal 0 s; if n <? 2 ^ 64 then Some n else None
  end.

(** strconv.ParseInt(s, 10, 64) and Atoi on 64-bit machines: an optional sign. *)
Definition ParseInt (s : string) : option Z :=
  let '(negative, digits) := match s with
    | String "-" rest => (true, rest)
    | String "+" rest => (false, rest)
    | _ => (false, s)
    end in
  n ← ParseUint digits;
  let n := if (negative : bool) then - n else n in
  if (- 2 ^ 63 <=? n) && (n <? 2 ^ 63) then Some n else None.
Abbreviation Atoi := ParseInt.

Example ParseInt_examples : (ParseInt "42", ParseInt "-7", ParseInt "+1", ParseInt "", ParseInt "1_0",
    ParseInt "9223372036854775808") = (Some 42, Some (-7), Some 1, None, None, None).
Proof. vm_compute. reflexivity. Qed.

(** ** Bytes as text *)

Definition byteZ (b : byte) : Z := Z.of_N (Byte.to_N b).

Definition urlAlphabet : list ascii :=
  chars "ABCDEFGHIJKLMNOPQRSTUVWXYZabcdefghijklmnopqrstuvwxyz0123456789-_".
Definition sextet (z : Z) : ascii := nth (Z.to_nat (Z.land z 63)) urlAlphabet "A"%char.

(** base64.RawURLEncoding: four characters per three bytes, no padding. *)
Fixpoint RawURL (data : list byte) : list ascii :=
  match data with
  | a :: b :: c :: rest =>
      let z := Z.lor (Z.shiftl (byteZ a) 16) (Z.lor (Z.shiftl (byteZ b) 8) (byteZ c)) in
      [sextet (Z.shiftr z 18); sextet (Z.shiftr z 12); sextet (Z.shiftr z 6); sextet z] ++ RawURL rest
  | [a; b] =>
      let z := Z.lor (Z.shiftl (byteZ a) 16) (Z.shiftl (byteZ b) 8) in
      [sextet (Z.shiftr z 18); sextet (Z.shiftr z 12); sextet (Z.shiftr z 6)]
  | [a] =>
      let z := Z.shiftl (byteZ a) 16 in
      [sextet (Z.shiftr z 18); sextet (Z.shiftr z 12)]
  | [] => []
  end.

Example RawURL_example : unchars (RawURL [x00; x10; x83; xff]) = "ABCD_w".
Proof. vm_compute. reflexivity. Qed.

Definition hexDigit (n : N) : ascii := nth (N.to_nat n) (chars "0123456789abcdef") "0"%char.

(** hex.EncodeToString *)
Definition hexText (data : string) : string :=
  unchars (chars data ≫= λ c, [hexDigit (N_of_ascii c / 16); hexDigit (N_of_ascii c mod 16)]).

Example hexText_example : hexText "lcjs" = "6c636a73".
Proof. vm_compute. reflexivity. Qed.

Module EncodingTheory.

(** Three bytes at a time. *)
Lemma threes_ind (P : list byte -> Prop) : P [] -> (forall a, P [a]) -> (forall a b, P [a; b]) ->
  (forall a b c rest, P rest -> P (a :: b :: c :: rest)) -> forall data, P data.
Proof.
  intros H0 H1 H2 H3. fix IH 1. intros [|a [|b [|c rest]]]; [exact H0|apply H1|apply H2|]. apply H3, IH.
Qed.

(** The length of an encoding: eight bits in sextets, rounded up. *)
Lemma RawURL_length data : length (RawURL data) = ((length data * 4 + 2) / 3)%nat.
Proof.
  induction data as [|a|a b|a b c rest IH] using threes_ind; [reflexivity..|].
  change (length (RawURL (a :: b :: c :: rest))) with (4 + length (RawURL rest))%nat. rewrite IH. cbn [length].
  replace ((S (S (S (length rest))) * 4 + 2)%nat) with (4 * 3 + (length rest * 4 + 2))%nat by lia.
  rewrite Nat.div_add_l by lia. lia.
Qed.
End EncodingTheory.
