(* ===== verification/FloatText.v ===== *)
(** * Floating-point numbers as text (strconv.FormatFloat, strconv.ParseFloat)

    The formats 'f' and 'g' with a fixed number of digits, rounded to nearest
    even from the exact value, and the parser of decimal and hexadecimal
    numbers, rounded to the nearest double. *)

From S2P Require Import Prelude Times GoLib.

(** ** Formatting *)

(** The magnitude of a finite number as a quotient. *)
Definition magnitude (f : float64) : Z * Z :=
  match f with
  | S754_finite _ m e => if 0 <=? e then (Zpos m * 2 ^ e, 1) else (Zpos m, 2 ^ (- e))
  | _ => (0, 1)
  end.
Definition f64_neg (f : float64) : bool :=
  match f with S754_zero b | S754_infinity b | S754_finite b _ _ => b | S754_nan => false end.

(** The integer nearest to a quotient, the even one of two. *)
Definition roundHalfEven (n d : Z) : Z :=
  let q := n / d in
  match 2 * (n mod d) ?= d with
  | Lt => q
  | Gt => q + 1
  | Eq => if Z.even q then q else q + 1
  end.

Definition subText (first count : nat) (s : string) : string := unchars (take count (drop first (chars s))).
Definition zeroText (n : nat) : string := unchars (replicate n "0"%char).
(** The decimal digits of a natural number, at least [width] of them. *)
Definition digitText (width : nat) (n : Z) : string :=
  let s := pretty n in zeroText (width - String.length s) +:+ s.

(** 'f' *)
Definition formatF (prec : nat) (f : float64) : string :=
  let '(n, d) := magnitude f in
  let s := digitText (S prec) (roundHalfEven (n * 10 ^ Z.of_nat prec) d) in
  let whole := (String.length s - prec)%nat in
  subText 0 whole s +:+ (if (prec =? 0)%nat then "" else "." +:+ subText whole prec s).

Fixpoint trimZerosLeft (s : list ascii) : list ascii :=
  match s with c :: rest => if Ascii.eqb c "0" then trimZerosLeft rest else s | [] => [] end.
Definition trimZerosRight (s : string) : string := unchars (reverse (trimZerosLeft (reverse (chars s)))).

(** The [prec] most significant digits of a positive number, without trailing
    zeros, and the position of the decimal point in front of or behind them. *)
Definition significant (prec : Z) (n d : Z) : string * Z :=
  let len z := Z.of_nat (String.length (pretty z)) in
  let k0 := len n - len d in
  let scaled k := if 0 <=? k then (n, d * 10 ^ k) else (n * 10 ^ (- k), d) in
  let k := if (scaled k0).1 <? (scaled k0).2 then k0 else k0 + 1 in
  let '(a, b) := scaled (k - prec) in
  let r := roundHalfEven a b in
  let '(r, k) := if r =? 10 ^ prec then (10 ^ (prec - 1), k + 1) else (r, k) in
  (trimZerosRight (pretty r), k).

(** The digits of a number laid out by 'g': with an exponent where it is below -4
    or at least [eprec]. *)
Definition layoutG (digits : string) (dp eprec : Z) : string :=
  let nd := Z.of_nat (String.length digits) in
  let exp := dp - 1 in
  if (exp <? -4) || (eprec <=? exp) then
    subText 0 1 digits +:+ (if 1 <? nd then "." +:+ subText 1 (Z.to_nat (nd - 1)) digits else "") +:+ "e" +:+
    (if exp <? 0 then "-" else "+") +:+ digitText 2 (Z.abs exp)
  else if dp <=? 0 then "0." +:+ zeroText (Z.to_nat (- dp)) +:+ digits
  else if nd <=? dp then digits +:+ zeroText (Z.to_nat (dp - nd))
  else subText 0 (Z.to_nat dp) digits +:+ "." +:+ subText (Z.to_nat dp) (Z.to_nat (nd - dp)) digits.

(** 'g' *)
Definition formatG (prec : nat) (f : float64) : string :=
  match f with
  | S754_finite _ _ _ =>
      let '(n, d) := magnitude f in
      let '(digits, dp) := significant (Z.of_nat prec) n d in
      let nd := Z.of_nat (String.length digits) in
      layoutG digits dp (if (nd <? Z.of_nat prec) && (dp <=? nd) then nd else Z.of_nat prec)
  | _ => "0"
  end.

(** strconv.FormatFloat(f, format, prec, 64) for the formats the program uses. *)
Definition FormatFloat (f : float64) (format : string) (prec : Z) : string :=
  match f with
  | S754_nan => "NaN"
  | S754_infinity b => if b then "-Inf" else "+Inf"
  | _ => (if f64_neg f then "-" else "") +:+
         (if (format =? "f")%string then formatF (Z.to_nat prec) f else formatG (Z.to_nat prec) f)
  end.

(** ** Parsing *)

Definition lowerAscii (c : ascii) : ascii :=
  let n := N_of_ascii c in if ((65 <=? n) && (n <=? 90))%N then ascii_of_N (n + 32) else c.

(** The value of a digit in a base of at most sixteen. *)
Definition digitIn (base : Z) (c : ascii) : option Z :=
  let n := Z.of_N (N_of_ascii (lowerAscii c)) in
  let v := if (48 <=? n) && (n <=? 57) then Some (n - 48)
           else if (97 <=? n) && (n <=? 102) then Some (n - 87) else None in
  v ← v; if v <? base then Some v else None.

(** A mantissa: its value without the point, the number of its digits behind
    the point (none if there is no point), whether there was a digit, and the
    rest.  Underscores are skipped here. *)
Fixpoint mantissa (base acc : Z) (point : option Z) (some : bool) (s : list ascii) : Z * option Z * bool * list ascii :=
  match s with
  | [] => (acc, point, some, [])
  | c :: rest =>
      if Ascii.eqb c "_" then mantissa base acc point some rest
      else if Ascii.eqb c "." then
        match point with
        | Some _ => (acc, point, some, s)
        | None => mantissa base acc (Some 0) some rest
        end
      else
        match digitIn base c with
        | Some v => mantissa base (base * acc + v) (Z.succ <$> point) true rest
        | None => (acc, point, some, s)
        end
  end.

(** An exponent behind its letter: an optional sign and at least one digit. *)
Fixpoint exponentDigits (acc : Z) (some : bool) (s : list ascii) : option Z :=
  match s with
  | [] => if some then Some acc else None
  | c :: rest =>
      if Ascii.eqb c "_" then exponentDigits acc some rest
      else v ← digitIn 10 c; exponentDigits (10 * acc + v) true rest
  end.
Definition exponent (s : list ascii) : option Z :=
  let '(negative, s) := match s with
    | c :: rest => if Ascii.eqb c "-" then (true, rest) else if Ascii.eqb c "+" then (false, rest) else (false, s)
    | [] => (false, s)
    end in
  match s with
  | c :: _ => if Ascii.eqb c "_" then None else v ← exponentDigits 0 false s; Some (if negative : bool then - v else v)
  | [] => None
  end.

(** Every underscore is between digits, or between a base prefix and a digit. *)
Fixpoint underscoreFrom (hex : bool) (saw : ascii) (s : list ascii) : bool :=
  match s with
  | [] => negb (Ascii.eqb saw "_")
  | c :: rest =>
      if bool_decide (is_Some (digitIn (if hex then 16 else 10) c)) then underscoreFrom hex "0" rest
      else if Ascii.eqb c "_" then Ascii.eqb saw "0" && underscoreFrom hex "_" rest
      else if Ascii.eqb saw "_" then false
      else underscoreFrom hex "!" rest
  end.
Definition underscoreOK (s : list ascii) : bool :=
  match s with
  | z :: x :: rest =>
      if Ascii.eqb z "0" && existsb (Ascii.eqb (lowerAscii x)) ["b"; "o"; "x"]%char
      then underscoreFrom (Ascii.eqb (lowerAscii x) "x") "0" rest
      else underscoreFrom false "^" s
  | _ => underscoreFrom false "^" s
  end.

(** The double nearest to n / d. *)
Definition nearest (negative : bool) (n d : Z) : float64 :=
  if n =? 0 then S754_zero negative
  else
    (* the quotient with at least 66 significant bits, the last one sticky *)
    let shift := Z.max 0 (Z.log2 d + 67 - Z.log2 n) in
    let q := Z.shiftl n shift / d in
    let sticky := if Z.shiftl n shift mod d =? 0 then 0 else 1 in
    let f := binary_normalize 53 1024 (2 * q + sticky) (- shift - 1) false in
    if negative then SFopp f else f.

(** inf, infinity and nan *)
Definition specialNumber (negative signed : bool) (s : string) : option float64 :=
  let s := unchars (lowerAscii <$> chars s) in
  if (s =? "inf")%string || (s =? "infinity")%string then Some (S754_infinity negative)
  else if (s =? "nan")%string && negb signed then Some S754_nan else None.

Definition decimalNumber (negative : bool) (s : list ascii) : option float64 :=
  let '(m, point, some, rest) := mantissa 10 0 None false s in
  if negb some then None
  else
    e ← (match rest with
         | [] => Some 0
         | c :: rest => if Ascii.eqb (lowerAscii c) "e" then exponent rest else None
         end);
    let e := Z.max (-100000) (Z.min 100000 e) - default 0 point in
    Some (if 0 <=? e then nearest negative (m * 10 ^ e) 1 else nearest negative m (10 ^ (- e))).

Definition hexNumber (negative : bool) (s : list ascii) : option float64 :=
  let '(m, point, some, rest) := mantissa 16 0 None false s in
  match rest with
  | c :: rest =>
      if some && Ascii.eqb (lowerAscii c) "p" then
        e ← exponent rest;
        let e := Z.max (-100000) (Z.min 100000 e) - 4 * default 0 point in
        Some (if 0 <=? e then nearest negative (m * 2 ^ e) 1 else nearest negative m (2 ^ (- e)))
      else None
  | [] => None
  end.

(** strconv.ParseFloat(s, 64): none for a syntax error and for a value that
    overflows. *)
Definition ParseFloat (s : string) : option float64 :=
  let '(negative, signed, body) := match s with
    | String "-" rest => (true, true, rest)
    | String "+" rest => (false, true, rest)
    | _ => (false, false, s)
    end in
  match specialNumber negative signed body with
  | Some f => Some f
  | None =>
      let cs := chars body in
      f ← (match cs with
           | z :: x :: rest =>
               if Ascii.eqb z "0" && Ascii.eqb (lowerAscii x) "x" then hexNumber negative rest
               else decimalNumber negative cs
           | _ => decimalNumber negative cs
           end);
      if existsb (Ascii.eqb "_") cs && negb (underscoreOK cs) then None
      else if isInf f then None else Some f
  end.

(** ** The shortest text *)

(** One of the two decimals of [prec] digits around a quotient: the one that is
    read back as the same number, and the nearer where both are. *)
Definition shortDigits (prec n d : Z) : option (string * Z) :=
  let len z := Z.of_nat (String.length (pretty z)) in
  let k0 := len n - len d in
  let scaled k := if 0 <=? k then (n, d * 10 ^ k) else (n * 10 ^ (- k), d) in
  let k := if (scaled k0).1 <? (scaled k0).2 then k0 else k0 + 1 in
  let '(a, b) := scaled (k - prec) in
  let reads r := bool_decide ((if 0 <=? k - prec then nearest false (r * 10 ^ (k - prec)) 1
                               else nearest false r (10 ^ (prec - k))) = nearest false n d) in
  let low := a / b in
  let r := if reads low && reads (low + 1) then Some (roundHalfEven a b)
           else if reads low then Some low else if reads (low + 1) then Some (low + 1) else None in
  (λ r, if r =? 10 ^ prec then ("1", k + 1) else (trimZerosRight (pretty r), k)) <$> r.

(** The fewest digits, at most seventeen. *)
Fixpoint shortestFrom (fuel : nat) (prec n d : Z) : string * Z :=
  match fuel with
  | O => significant 17 n d
  | S fuel => match shortDigits prec n d with Some r => r | None => shortestFrom fuel (prec + 1) n d end
  end.

(** %v and %g of fmt *)
Definition printFloat (f : float64) : string :=
  match f with
  | S754_nan => "NaN"
  | S754_infinity b => if b then "-Inf" else "+Inf"
  | S754_zero b => if b then "-0" else "0"
  | S754_finite b _ _ =>
      let '(n, d) := magnitude f in
      let '(digits, dp) := shortestFrom 16 1 n d in
      (if b then "-" else "") +:+ layoutG digits dp 6
  end.

Definition f64_ratio (a b : Z) : float64 := f64_div (f64_of_Z a) (f64_of_Z b).

Example FormatFloat_examples : (FormatFloat (f64_ratio 314159 100000) "f" 4, FormatFloat (f64_ratio (-1) 8) "f" 2,
    FormatFloat (f64_of_Z 42) "f" 0, FormatFloat (f64_ratio 12345675 10) "g" 4, FormatFloat (f64_ratio 1 100000) "g" 4,
    FormatFloat (S754_zero true) "f" 0, FormatFloat (f64_of_Z 99999999) "g" 4) =
  ("3.1416", "-0.12", "42", "1.235e+06", "1e-05", "-0", "1e+08").
Proof. vm_compute. reflexivity. Qed.

Example ParseFloat_examples : (ParseFloat "35", ParseFloat " 35", ParseFloat "0.1", ParseFloat "[N/A]",
    ParseFloat "-1.5e3", ParseFloat "0x1p-2", ParseFloat "1_0", ParseFloat "1e400", ParseFloat ".") =
  (Some (f64_of_Z 35), None, Some (f64_ratio 1 10), None, Some (f64_of_Z (-1500)), Some (f64_ratio 1 4),
   Some (f64_of_Z 10), None, None).
Proof. vm_compute. reflexivity. Qed.

Example printFloat_examples : (printFloat (f64_ratio 1 10), printFloat (f64_of_Z 1000000), printFloat (f64_ratio 1 3),
    printFloat (f64_ratio (-5) 2), printFloat (f64_of_Z 123456789), printFloat (f64_of_Z (2 ^ 60)), printFloat (f64_ratio 1 (10 ^ 7)),
    printFloat (f64_of_Z 100000)) =
  ("0.1", "1e+06", "0.3333333333333333", "-2.5", "1.23456789e+08", "1.152921504606847e+18", "1e-07", "100000").
Proof. vm_compute. reflexivity. Qed.
