(* ===== verification/Details.v ===== *)
(** * Reading a job (internal/store/sqlite/job_detail.go and metrics.go)

    What the console and the API show of a job: its attempts, the samples and
    artifacts of the attempts, the health policies that fired; and the samples
    recorded behind a cursor, with which a page polls a running job. *)

From S2P Require Import Prelude Times GoLib Ids Domain Validate Database Jobs Health.

(** ** What is read (internal/domain/worker.go) *)

Record Attempt := {
  a_ID : string; a_JobID : string; a_AttemptNumber : Z; a_WorkerID : string; a_State : AttemptState;
  a_Revision : Z; a_OfferedAt : time; a_LeaseExpiresAt : time; a_AcceptedAt : option time;
  a_StartedAt : option time; a_FinishedAt : option time; a_ExitCode : option Z; a_Error : string;
  a_LogURI : string; a_LogTail : string; a_Git : option GitState;
}.

Record RecordedMetric := {
  rm_AttemptID : string; rm_EventID : string; rm_Name : string; rm_Value : float64; rm_Step : option Z;
  rm_ObservedAt : time;
}.

Record Artifact := {
  f_AttemptID : string; f_Name : string; f_URI : string; f_SizeBytes : Z; f_SHA256 : string;
  f_Content : string; f_CreatedAt : time;
}.

Record WebhookDeliveryStatus := {
  ds_ID : string; ds_State : DeliveryState; ds_AttemptCount : Z; ds_ResponseCode : option Z;
  ds_LastError : string; ds_DeliveredAt : option time;
}.

(** The reason is the printed sentence; none where the payload holds none. *)
Record HealthFiring := {
  h_ID : string; h_AttemptID : string; h_PolicyIndex : Z; h_Kind : string; h_Target : string;
  h_Reason : option Reason; h_CreatedAt : time; h_Delivery : WebhookDeliveryStatus;
}.

Record JobDetail := {
  jd_Job : Job; jd_Attempts : list Attempt; jd_Metrics : list RecordedMetric; jd_Artifacts : list Artifact;
  jd_Health : list HealthFiring;
}.

Record JobMetricPoint := {
  mp_Name : string; mp_Attempt : Z; mp_Step : option Z; mp_Value : float64; mp_ObservedAt : time;
}.

(** ** The rows *)

(** FROM attempts WHERE job_id = ? ORDER BY attempt_number, id *)
Definition attemptOrder (x y : string * AttemptRow) : bool :=
  notGt (lexc (at_number x.2 ?= at_number y.2) (Text.cmp x.1 y.1)).
Definition attemptRows (d : DB) (jobID : string) : list (string * AttemptRow) :=
  orderBy attemptOrder (rowsWhere (λ ka, at_job_id ka.2 = jobID) (attempts d)).

(** JOIN attempts AS a ON a.id = attempt_id WHERE a.job_id = ? *)
Definition ofJob (d : DB) (jobID attemptID : string) : bool :=
  bool_decide (at_job_id <$> attempts d !! attemptID = Some jobID).

(** ORDER BY m.observed_at, m.event_id *)
Definition metricOrder (x y : MetricRow) : bool :=
  notGt (lexc (Text.cmp (mr_observed_at x) (mr_observed_at y)) (Text.cmp (mr_event_id x) (mr_event_id y))).
Definition metricRows (d : DB) (jobID : string) : list MetricRow :=
  orderBy metricOrder (filter (λ m, ofJob d jobID (mr_attempt_id m) = true) (metric_samples d)).

(** ORDER BY f.created_at, f.name, f.uri *)
Definition artifactOrder (x y : string * string * string * ArtifactRow) : bool :=
  notGt (lexc (Text.cmp (af_created_at x.2) (af_created_at y.2))
        (lexc (Text.cmp x.1.1.2 y.1.1.2) (Text.cmp x.1.2 y.1.2))).
Definition artifactRows (d : DB) (jobID : string) : list (string * string * string * ArtifactRow) :=
  orderBy artifactOrder (rowsWhere (λ kf, ofJob d jobID kf.1.1.1 = true) (artifacts d)).

(** FROM health_firings AS f JOIN webhook_deliveries AS d ON d.firing_id = f.id
    WHERE f.job_id = ? ORDER BY f.created_at, f.id *)
Definition firingOrder (x y : string * FiringRow * (string * DeliveryRow)) : bool :=
  notGt (lexc (Text.cmp (hf_created_at x.1.2) (hf_created_at y.1.2)) (Text.cmp x.1.1 y.1.1)).
Definition healthRows (d : DB) (jobID : string) : list (string * FiringRow * (string * DeliveryRow)) :=
  orderBy firingOrder
    (rowsWhere (λ kf, hf_job_id kf.2 = jobID) (health_firings d) ≫= λ kf,
       (λ kw, (kf, kw)) <$> rowsWhere (λ kw, wd_firing_id kw.2 = kf.1) (webhook_deliveries d)).

(** json.Unmarshal of a payload into its reason. *)
Definition reasonOf (payload : Payload) : option (option Reason) :=
  match payload with
  | PObj fields =>
      match head (filter (λ f, f.1 = "reason") fields) with
      | None => Some None
      | Some (_, PReason r) => Some (Some r)
      | Some _ => None
      end
  | _ => None
  end.

Section details.
Context `{Env}.

Definition parseOptionalTime (value : option string) : Act (option time) :=
  match value with
  | None => mret None
  | Some text => t ← parsed text; mret (Some t)
  end.

Definition scanAttempt (row : string * AttemptRow) : Act Attempt :=
  let '(id, a) := row in
  offeredAt ← parsed (at_offered_at a);
  leaseExpiresAt ← parsed (at_lease a);
  acceptedAt ← parseOptionalTime (at_accepted_at a);
  startedAt ← parseOptionalTime (at_started_at a);
  finishedAt ← parseOptionalTime (at_finished_at a);
  mret {| a_ID := id; a_JobID := at_job_id a; a_AttemptNumber := at_number a; a_WorkerID := at_worker_id a;
          a_State := at_state a; a_Revision := at_revision a; a_OfferedAt := offeredAt;
          a_LeaseExpiresAt := leaseExpiresAt; a_AcceptedAt := acceptedAt; a_StartedAt := startedAt;
          a_FinishedAt := finishedAt; a_ExitCode := at_exit_code a; a_Error := at_error a;
          a_LogURI := at_log_uri a; a_LogTail := at_log_tail a; a_Git := at_git a |}.

Definition scanMetric (m : MetricRow) : Act RecordedMetric :=
  observedAt ← parsed (mr_observed_at m);
  mret {| rm_AttemptID := mr_attempt_id m; rm_EventID := mr_event_id m; rm_Name := mr_name m;
          rm_Value := mr_value m; rm_Step := mr_step m; rm_ObservedAt := observedAt |}.

Definition scanArtifact (row : string * string * string * ArtifactRow) : Act Artifact :=
  let '(attemptID, name, uri, f) := row in
  createdAt ← parsed (af_created_at f);
  mret {| f_AttemptID := attemptID; f_Name := name; f_URI := uri; f_SizeBytes := af_size_bytes f;
          f_SHA256 := af_sha256 f; f_Content := default "" (af_content f); f_CreatedAt := createdAt |}.

Definition scanFiring (row : string * FiringRow * (string * DeliveryRow)) : Act HealthFiring :=
  let '(id, f, (deliveryID, w)) := row in
  reason ← found (reasonOf (hf_payload f)) ErrDecode;
  createdAt ← parsed (hf_created_at f);
  deliveredAt ← parseOptionalTime (wd_delivered_at w);
  mret {| h_ID := id; h_AttemptID := hf_attempt_id f; h_PolicyIndex := hf_policy_index f; h_Kind := hf_kind f;
          h_Target := hf_target_name f; h_Reason := reason; h_CreatedAt := createdAt;
          h_Delivery := {| ds_ID := deliveryID; ds_State := wd_state w; ds_AttemptCount := wd_attempt_count w;
            ds_ResponseCode := wd_response_code w; ds_LastError := wd_last_error w;
            ds_DeliveredAt := deliveredAt |} |}.

(** The rows of a query, scanned one by one. *)
Definition scanAll {A B} (rows : DB -> list A) (scan : A -> Act B) : Act (list B) :=
  rows ← query rows;
  mfold rows [] (λ acc row, item ← scan row; mret (acc ++ [item])).

Definition GetJobDetail (jobID : string) : Act JobDetail :=
  job ← GetJob jobID;
  attempts ← scanAll (λ d, attemptRows d jobID) scanAttempt;
  metrics ← scanAll (λ d, metricRows d jobID) scanMetric;
  artifacts ← scanAll (λ d, artifactRows d jobID) scanArtifact;
  health ← scanAll (λ d, healthRows d jobID) scanFiring;
  mret {| jd_Job := job; jd_Attempts := attempts; jd_Metrics := metrics; jd_Artifacts := artifacts;
          jd_Health := health |}.

(** ** Samples behind a cursor *)

(** The samples with their row ids, which count up from one. *)
Definition numbered (d : DB) : list (Z * MetricRow) :=
  imap (λ i m, (Z.of_nat i + 1, m)) (metric_samples d).

(** m.rowid > ? ORDER BY m.rowid, with the number of the attempt *)
Definition pointRow (d : DB) (jobID : string) (after : Z) (row : Z * MetricRow) : option (Z * Z * MetricRow) :=
  a ← attempts d !! mr_attempt_id row.2;
  if bool_decide (at_job_id a = jobID /\ after < row.1) then Some (row.1, at_number a, row.2) else None.
Definition pointRows (d : DB) (jobID : string) (after : Z) : list (Z * Z * MetricRow) :=
  omap (pointRow d jobID after) (numbered d).

Definition scanPoint (row : Z * Z * MetricRow) : Act JobMetricPoint :=
  let '(_, number, m) := row in
  observedAt ← parsed (mr_observed_at m);
  mret {| mp_Name := mr_name m; mp_Attempt := number; mp_Step := mr_step m; mp_Value := mr_value m;
          mp_ObservedAt := observedAt |}.

Definition ListJobMetricPoints (jobID : string) (after : Z) : Act (list JobMetricPoint * Z) :=
  rows ← query (λ d, pointRows d jobID after);
  mfold rows ([], after) (λ acc row,
    point ← scanPoint row;
    mret (acc.1 ++ [point], row.1.1)).
End details.
