(* ===== verification/Report.v ===== *)
(** * The text report of a job (internal/httpapi/report.go)

    What a poller reads of a run: its attempts, a row per metric series with the
    series' aggregates and its distance to the declared reference lines, the
    resources it used, its artifacts and the end of its log. *)

From S2P Require Import Prelude Utf8 Times GoLib FloatText Ids Domain Database Health Details.

(** ** fmt *)

(** The characters of a text, as utf8.RuneCountInString counts them: a byte that
    starts no character counts as one. *)
Fixpoint runeCount (fuel : nat) (s : list ascii) : nat :=
  match fuel, s with
  | S fuel, _ :: rest =>
      S (runeCount fuel (match Utf8.runeSize s with Some n => drop n s | None => rest end))
  | _, _ => 0
  end.
Definition RuneCount (s : string) : nat := runeCount (String.length s) (chars s).

Definition padding (width : nat) (s : string) : string := unchars (replicate (width - RuneCount s) " "%char).
(** The verbs %ws and %-ws. *)
Definition padLeft (width : nat) (s : string) : string := padding width s +:+ s.
Definition padRight (width : nat) (s : string) : string := s +:+ padding width s.
Definition decimalText (n : Z) : string := pretty n.

Definition nl : string := String (ascii_of_N 10) "".

(** strings.ToUpper of ASCII text *)
Definition upperAscii (c : ascii) : ascii :=
  let n := N_of_ascii c in if ((97 <=? n) && (n <=? 122))%N then ascii_of_N (n - 32) else c.
Definition ToUpper (s : string) : string := unchars (upperAscii <$> chars s).

(** strings.Join *)
Fixpoint joinWith (sep : string) (parts : list string) : string :=
  match parts with
  | [] => ""
  | [part] => part
  | part :: rest => part +:+ sep +:+ joinWith sep rest
  end.

(** s[:n] and s[n:] *)
Definition sliceTo (n : Z) (s : string) : string := unchars (take (Z.to_nat n) (chars s)).
Definition sliceFrom (n : Z) (s : string) : string := unchars (drop (Z.to_nat n) (chars s)).

(** ** Numbers *)

Definition f64_abs : float64 -> float64 := SFabs.
(** int(f) *)
Definition f64_int (f : float64) : Z :=
  match f with
  | S754_finite b m e =>
      let n := if 0 <=? e then Zpos m * 2 ^ e else Zpos m / 2 ^ (- e) in if b then - n else n
  | _ => 0
  end.
(** v == math.Trunc(v) *)
Definition f64_integral (f : float64) : bool :=
  match f with
  | S754_nan => false
  | S754_finite _ m e => (0 <=? e) || (Zpos m mod 2 ^ (- e) =? 0)
  | _ => true
  end.

(** math.Min and math.Max *)
Definition f64_min (x y : float64) : float64 :=
  if bool_decide (x = S754_infinity true \/ y = S754_infinity true) then S754_infinity true
  else if isNaN x || isNaN y then S754_nan
  else if f64_eqb x f64_zero && f64_eqb x y then (if f64_neg x then x else y)
  else if f64_ltb x y then x else y.
Definition f64_max (x y : float64) : float64 :=
  if bool_decide (x = S754_infinity false \/ y = S754_infinity false) then S754_infinity false
  else if isNaN x || isNaN y then S754_nan
  else if f64_eqb x f64_zero && f64_eqb x y then (if f64_neg x then y else x)
  else if f64_ltb y x then x else y.

(** sort.SliceStable *)
Fixpoint insertStable {A} (le : A -> A -> bool) (x : A) (l : list A) : list A :=
  match l with
  | [] => [x]
  | y :: l => if le x y then x :: y :: l else y :: insertStable le x l
  end.
Definition stableSort {A} (le : A -> A -> bool) (l : list A) : list A := foldr (insertStable le) [] l.

(** sort.Float64s: ascending, NaN first *)
Definition floatOrder (x y : float64) : bool := negb (f64_ltb y x || isNaN y && negb (isNaN x)).
Definition sortFloats (xs : list float64) : list float64 := orderBy floatOrder xs.

(** ** Constants *)

Definition reportRecentWindow : nat := 10.
Definition reportInlineBytes : Z := 8000.
Definition reportLogTailBytes : Z := 2000.

(** ** Aggregates *)

Definition mean (v : list float64) : float64 :=
  match v with
  | [] => f64_zero
  | _ => f64_div (foldl f64_add f64_zero v) (f64_of_Z (Z.of_nat (length v)))
  end.

Record seriesSummary := {
  ss_def : MetricDefinition; ss_points : list RecordedMetric; ss_first : float64; ss_last : float64;
  ss_min : float64; ss_max : float64; ss_mean : float64; ss_recentAvg : float64; ss_priorAvg : float64;
}.

Definition observedOrder (x y : RecordedMetric) : bool := rm_ObservedAt x <=? rm_ObservedAt y.

(** The program calls it for series with a point; there is no first value else. *)
Definition summarise (def : MetricDefinition) (points : list RecordedMetric) : option seriesSummary :=
  let points := stableSort observedOrder points in
  let values := rm_Value <$> points in
  match values with
  | [] => None
  | first :: _ =>
      let cut := (length values - reportRecentWindow)%nat in
      let recentAvg := mean (drop cut values) in
      Some {| ss_def := def; ss_points := points; ss_first := first; ss_last := List.last values first;
              ss_min := foldl f64_min first values; ss_max := foldl f64_max first values;
              ss_mean := mean values; ss_recentAvg := recentAvg;
              ss_priorAvg := if (0 <? cut)%nat then mean (take cut values) else recentAvg |}
  end.

Definition maximizes (def : MetricDefinition) : bool := (m_Objective def =? MetricObjectiveMaximize)%string.

Definition best (s : seriesSummary) : float64 := if maximizes (ss_def s) then ss_max s else ss_min s.

Definition beats (s : seriesSummary) (line : float64) : bool :=
  if maximizes (ss_def s) then f64_leb line (ss_last s) else f64_leb (ss_last s) line.

Definition trend (s : seriesSummary) : string :=
  let delta := f64_sub (ss_recentAvg s) (ss_priorAvg s) in
  let rises := f64_ltb f64_zero delta in
  if f64_ltb (f64_abs delta) (f64_ratio 1 (10 ^ 12)) then "flat"
  else if ((m_Objective (ss_def s) =? "") || (m_Objective (ss_def s) =? MetricObjectiveNone))%string
  then (if rises then "rising" else "falling")
  else if (if maximizes (ss_def s) then rises else f64_ltb delta f64_zero) then "improving" else "worsening".

Definition truncateLabel (s : string) (n : Z) : string :=
  if len s <=? n then s else sliceTo (n - 1) s +:+ "…".

Definition shortID (id : string) : string := if len id <=? 12 then id else sliceTo 12 id.

(** time.Duration.Seconds, Minutes and Hours, as int *)
Definition inUnits (unit_ d : Z) : Z :=
  f64_int (f64_add (f64_of_Z (Z.quot d unit_)) (f64_div (f64_of_Z (Z.rem d unit_)) (f64_of_Z unit_))).

Definition humanDuration (d : Z) : string :=
  let d := if d <? 0 then i64 (- d) else d in
  if d <? GoTime.Minute then decimalText (inUnits GoTime.Second d) +:+ "s"
  else if d <? GoTime.Hour then decimalText (inUnits GoTime.Minute d) +:+ "m"
  else decimalText (inUnits GoTime.Hour d) +:+ "h" +:+ pad 2 (Z.rem (inUnits GoTime.Minute d) 60) +:+ "m".

(** value.Format(time.RFC3339) of a time in UTC *)
Definition RFC3339 (t : time) : string := GoTime.dateTimeText t +:+ "Z".

(** *** The series of some samples *)

Definition systemSample (m : RecordedMetric) : bool := HasPrefix (rm_Name m) "lcjs/".
Definition sortedNames (recorded : list RecordedMetric) : list string :=
  orderBy Text.leb (elements (list_to_set (rm_Name <$> recorded) : gset string)).
Definition seriesNamed (name : string) (recorded : list RecordedMetric) : list RecordedMetric :=
  filter (λ m, rm_Name m = name) recorded.

(** defByName[name]: the last definition of the name, or none. *)
Definition definitionNamed (name : string) (defs : list MetricDefinition) : option MetricDefinition :=
  List.find (λ d, (m_Name d =? name)%string) (reverse defs).
Definition zeroDefinition : MetricDefinition :=
  {| m_Name := ""; m_DisplayName := ""; m_Format := ""; m_Unit := ""; m_Precision := None; m_Objective := "";
     m_ReferenceLines := [] |}.

(** The rows of the table of metrics: a summary per series. *)
Definition metricTable (defs : list MetricDefinition) (recorded : list RecordedMetric) : list (string * seriesSummary) :=
  let recorded := filter (λ m, systemSample m = false) recorded in
  omap (λ name, s ← summarise (default zeroDefinition (definitionNamed name defs)) (seriesNamed name recorded);
                Some (name, s)) (sortedNames recorded).

Definition num (v : float64) : string :=
  if f64_integral v && f64_ltb (f64_abs v) (f64_of_Z (10 ^ 15)) then FormatFloat v "f" 0
  else if f64_leb (f64_of_Z (10 ^ 6)) (f64_abs v) ||
          f64_ltb (f64_abs v) (f64_ratio 1 (10 ^ 4)) && negb (f64_eqb v f64_zero)
  then FormatFloat v "g" 4
  else FormatFloat v "f" 4.

Definition attemptLine (now : time) (a : Attempt) : string :=
  let elapsed := match a_StartedAt a with
    | Some started => humanDuration (timeSub (default now (a_FinishedAt a)) started)
    | None => "—"
    end in
  let exit := match a_ExitCode a with Some code => decimalText code | None => "—" end in
  "#" +:+ decimalText (a_AttemptNumber a) +:+ " " +:+ padRight 10 (AttemptState_text (a_State a)) +:+ " worker=" +:+
  shortID (a_WorkerID a) +:+ " elapsed=" +:+ padRight 8 elapsed +:+ " exit=" +:+ exit +:+ " " +:+ a_Error a +:+ nl.

Definition writeAttempts (attempts : list Attempt) (now : time) : string :=
  match attempts with
  | [] => "No attempt has started yet. If this persists while the GPU is idle, " +:+
          "check that the spec's resource request fits the worker's advertised capacity." +:+ nl +:+ nl
  | _ => "## Attempts" +:+ nl +:+ nl +:+ "```" +:+ nl +:+ foldr String.append "" (attemptLine now <$> attempts) +:+
         "```" +:+ nl +:+ nl
  end.

Definition metricLine (row : string * seriesSummary) : string :=
  let '(name, s) := row in
  padRight 38 (truncateLabel name 38) +:+ " " +:+ padLeft 5 (decimalText (Z.of_nat (length (ss_points s)))) +:+ " " +:+
  padLeft 10 (num (ss_first s)) +:+ " " +:+ padLeft 10 (num (ss_last s)) +:+ " " +:+ padLeft 10 (num (best s)) +:+ " " +:+
  padLeft 10 (num (ss_recentAvg s)) +:+ " " +:+ padLeft 9 (trend s) +:+ nl.

(** How far the last value is from a line, on which side, and whether it is the
    good one. *)
Definition referenceLine (s : seriesSummary) (line : MetricReferenceLine) : string :=
  let gap := f64_sub (ss_last s) (rl_Value line) in
  let below := f64_ltb gap f64_zero in
  padRight 52 (truncateLabel (rl_Label line) 52) +:+ " " +:+ padLeft 10 (num (rl_Value line)) +:+ "  " +:+
  (if below then "below" else "above") +:+ " by " +:+ padRight 10 (num (if below then SFopp gap else gap)) +:+ " " +:+
  (if beats s (rl_Value line) then "PASSED" else "still behind") +:+ nl.

Definition referenceTable (row : string * seriesSummary) : string :=
  let '(name, s) := row in
  match m_ReferenceLines (ss_def s) with
  | [] => ""
  | lines =>
      let label := if (m_DisplayName (ss_def s) =? "")%string then name else m_DisplayName (ss_def s) in
      "**" +:+ label +:+ "** is at " +:+ num (ss_last s) +:+ ". Against the lines the spec declared:" +:+ nl +:+ nl +:+
      "```" +:+ nl +:+ foldr String.append "" (referenceLine s <$> lines) +:+ "```" +:+ nl +:+ nl
  end.

Definition writeMetrics (defs : list MetricDefinition) (recorded : list RecordedMetric) : string :=
  match metricTable defs recorded with
  | [] => "## Metrics" +:+ nl +:+ nl +:+ "Nothing reported yet." +:+ nl +:+ nl
  | rows =>
      "## Metrics" +:+ nl +:+ nl +:+ "Each row is the whole run, then the last " +:+
      decimalText (Z.of_nat reportRecentWindow) +:+ " samples, then the trend between them." +:+ nl +:+ nl +:+ "```" +:+ nl +:+
      padRight 38 "metric" +:+ " " +:+ padLeft 5 "n" +:+ " " +:+ padLeft 10 "first" +:+ " " +:+ padLeft 10 "last" +:+ " " +:+
      padLeft 10 "best" +:+ " " +:+ padLeft 10 "recent" +:+ " " +:+ padLeft 9 "trend" +:+ nl +:+
      foldr String.append "" (metricLine <$> rows) +:+ "```" +:+ nl +:+ nl +:+
      foldr String.append "" (referenceTable <$> rows)
  end.

Definition p90 (sorted : list float64) : float64 :=
  nth (if (length sorted =? 1)%nat then 0 else length sorted * 9 / 10)%nat sorted f64_zero.

Definition resourceLine (recorded : list RecordedMetric) (name : string) : string :=
  let v := rm_Value <$> seriesNamed name recorded in
  let sorted := sortFloats v in
  padRight 24 (TrimPrefix name "lcjs/") +:+ " n=" +:+ padRight 5 (decimalText (Z.of_nat (length v))) +:+ " mean=" +:+
  padRight 12 (num (mean v)) +:+ " p90=" +:+ padRight 12 (num (p90 sorted)) +:+ " max=" +:+
  num (List.last sorted f64_zero) +:+ nl.

Definition writeResources (recorded : list RecordedMetric) : string :=
  match filter (λ m, systemSample m = true) recorded with
  | [] => ""
  | system => "## Resources" +:+ nl +:+ nl +:+ "```" +:+ nl +:+
              foldr String.append "" (resourceLine system <$> sortedNames system) +:+ "```" +:+ nl +:+ nl
  end.

Definition artifactLine (a : Artifact) : string :=
  padRight 22 (f_Name a) +:+ " " +:+ padLeft 9 (decimalText (f_SizeBytes a)) +:+ " bytes  " +:+
  RFC3339 (f_CreatedAt a) +:+ nl.

(** The contents of an artifact, cut to its first bytes. *)
Definition artifactBody (content : string) : string :=
  if reportInlineBytes <? len content
  then sliceTo reportInlineBytes content +:+ nl +:+ "... truncated at " +:+ decimalText reportInlineBytes +:+ " of " +:+
       decimalText (len content) +:+ " bytes" +:+ nl
  else content.

Definition artifactContent (a : Artifact) : string :=
  if (f_Content a =? "")%string then ""
  else "### " +:+ f_Name a +:+ nl +:+ nl +:+ "```" +:+ nl +:+ artifactBody (f_Content a) +:+ nl +:+ "```" +:+ nl +:+ nl.

Definition writeArtifacts (artifacts : list Artifact) (inline : bool) : string :=
  match artifacts with
  | [] => "## Artifacts" +:+ nl +:+ nl +:+ "None recorded yet." +:+ nl +:+ nl
  | _ => "## Artifacts" +:+ nl +:+ nl +:+ "```" +:+ nl +:+ foldr String.append "" (artifactLine <$> artifacts) +:+
         "```" +:+ nl +:+ nl +:+
         (if inline then foldr String.append "" (artifactContent <$> artifacts) else "")
  end.

(** The last attempt with a log tail. *)
Definition tailAttempt (attempts : list Attempt) : option Attempt :=
  List.find (λ a, negb (a_LogTail a =? "")%string) (reverse attempts).

Definition writeLogTail (attempts : list Attempt) : string :=
  match tailAttempt attempts with
  | Some a =>
      let tail := a_LogTail a in
      let tail := if reportLogTailBytes <? len tail then sliceFrom (len tail - reportLogTailBytes) tail else tail in
      "## Log tail (attempt " +:+ decimalText (a_AttemptNumber a) +:+ ")" +:+ nl +:+ nl +:+ "```" +:+ nl +:+ tail +:+ nl +:+
      "```" +:+ nl +:+ nl
  | None => "## Log tail" +:+ nl +:+ nl +:+ "Not available while the attempt is still running; " +:+
            "the worker reports it when the attempt ends." +:+ nl +:+ nl
  end.

Definition renderJobReport (detail : JobDetail) (now : time) (withArtifacts : bool) : string :=
  let job := jd_Job detail in
  let spec := j_Spec job in
  "# " +:+ s_Name spec +:+ " — " +:+ ToUpper (JobState_text (j_State job)) +:+ nl +:+ nl +:+
  "`" +:+ j_ID job +:+ "` in project `" +:+ s_Project spec +:+ "`, created " +:+
  humanDuration (timeSub now (j_CreatedAt job)) +:+ " ago, updated " +:+
  humanDuration (timeSub now (j_UpdatedAt job)) +:+ " ago." +:+ nl +:+ nl +:+
  "Command: `" +:+ joinWith " " (s_Command spec) +:+ "`" +:+ nl +:+ nl +:+
  writeAttempts (jd_Attempts detail) now +:+ writeMetrics (s_Metrics spec) (jd_Metrics detail) +:+
  writeResources (jd_Metrics detail) +:+ writeArtifacts (jd_Artifacts detail) withArtifacts +:+
  writeLogTail (jd_Attempts detail).

(** *** The report of a project *)

(** The jobs of a project among the newest, up to a limit. *)
Definition pickJobs (project : string) (limit : Z) (jobs : list Job) : list Job :=
  take (Z.to_nat limit) (filter (λ job, project = "" \/ s_Project (j_Spec job) = project) jobs).

Definition jobLine (now : time) (job : Job) : string :=
  "- `" +:+ s_Name (j_Spec job) +:+ "` **" +:+ JobState_text (j_State job) +:+ "** (" +:+ j_ID job +:+ ", updated " +:+
  humanDuration (timeSub now (j_UpdatedAt job)) +:+ " ago)".

Definition activeJob (job : Job) : bool := bool_decide (j_State job = JobRunning \/ j_State job = JobQueued).

Definition jobSection (title : string) (lines : list string) : string :=
  match lines with
  | [] => ""
  | _ => "## " +:+ title +:+ nl +:+ nl +:+ joinWith nl lines +:+ nl +:+ nl
  end.

(** The report of picked jobs, with the details that could be read of the
    running ones. *)
Definition renderProjectReport (project : string) (picked : list Job) (now : time) (details : list JobDetail) : string :=
  "# " +:+ (if (project =? "")%string then "all projects" else project) +:+ ": " +:+
  decimalText (Z.of_nat (length picked)) +:+ " job(s), " +:+ RFC3339 now +:+ nl +:+ nl +:+
  jobSection "Active" (jobLine now <$> filter (λ j, activeJob j = true) picked) +:+
  jobSection "Recently finished" (jobLine now <$> filter (λ j, activeJob j = false) picked) +:+
  foldr String.append "" ((λ detail, nl +:+ "---" +:+ nl +:+ nl +:+ renderJobReport detail now true) <$> details).
