(* ===== verification/Console.v ===== *)
(** * The texts on the console's pages (internal/httpapi/ui.go pageFunctions)

    The functions the templates call on jobs, workers, metrics and artifacts.
    The templates themselves are in Pages.v; the style sheet and the scripts are
    constant text for the browser and have no counterpart. *)

From S2P Require Import Prelude Times GoLib Encoding FloatText Ids Domain Validate Database Jobs Health Events.
From S2P Require Import Lifecycle Auth Scheduler Sync Details Report.

Definition dash : string := "—".
Definition dot : string := " · ".

(** "2006-01-02 15:04 UTC", RFC 3339, and with seconds. *)
Definition jobTime (t : time) : string :=
  let text := GoTime.dateTimeText t in
  sliceTo (len text - 9) text +:+ " " +:+ sliceTo 5 (sliceFrom (len text - 8) text) +:+ " UTC".
Definition isoTime (t : time) : string := RFC3339 t.
Definition optionalTime (t : option time) : string :=
  match t with
  | None => dash
  | Some t =>
      let text := GoTime.dateTimeText t in
      sliceTo (len text - 9) text +:+ " " +:+ sliceFrom (len text - 8) text +:+ " UTC"
  end.

Definition commandText (parts : list string) : string :=
  match parts with [] => dash | _ => joinWith " " parts end.
Definition shortCommit (commit : string) : string := if 12 <? len commit then sliceTo 12 commit else commit.

Definition formatCount (count : Z) (unit_ : string) : string :=
  if count =? 1 then "1 " +:+ unit_ else decimalText count +:+ " " +:+ unit_.

(** The sum of the GPUs is a uint32. *)
Definition resourcesText (request : ResourceRequest) : string :=
  let gpus := foldl (λ n g, u32 (n + g_Count g)) 0 (r_GPUs request) in
  let parts := (if 0 <? r_CPU request then [formatCount (r_CPU request) "CPU"] else []) ++
               (if 0 <? gpus then [formatCount gpus "GPU"] else []) in
  match parts with [] => dash | _ => joinWith dot parts end.

Definition workerResources (capacity : WorkerCapacity) : string :=
  joinWith dot
    ([formatCount (c_CPU capacity) "CPU"] ++
     (if 0 <? c_MemoryBytes capacity then [decimalText (c_MemoryBytes capacity / 2 ^ 30) +:+ " GiB RAM"] else []) ++
     (if 0 <? c_GPUCount capacity then [formatCount (c_GPUCount capacity) "GPU"] else []) ++
     [decimalText (c_MaxParallel capacity) +:+ " slots"]).

Definition metricName (metric : MetricDefinition) : string :=
  if (m_DisplayName metric =? "")%string then m_Name metric else m_DisplayName metric.
Definition metricObjective (objective : string) : string :=
  if (objective =? MetricObjectiveMaximize)%string then "↑ maximize"
  else if (objective =? MetricObjectiveMinimize)%string then "↓ minimize" else "".
Definition exitCodeText (code : option Z) : string := match code with None => dash | Some n => decimalText n end.

(** [entries] are the labels in the order in which the map is ranged over. *)
Definition labelsText (entries : list (string * string)) : string :=
  match orderBy Text.leb ((λ nv, nv.1 +:+ "=" +:+ nv.2) <$> entries) with
  | [] => dash
  | parts => joinWith dot parts
  end.

(** The units of bytes and the loop over them. *)
Definition byteUnits : list string := ["B"; "KiB"; "MiB"; "GiB"; "TiB"].
Definition kibi : float64 := f64_of_Z 1024.
Fixpoint byteScale (units : list string) (unit_ : string) (value : float64) : string * float64 :=
  match units with
  | [] => (unit_, value)
  | u :: rest =>
      if f64_ltb value kibi || (u =? "TiB")%string then (u, value) else byteScale rest u (f64_div value kibi)
  end.

Definition formatMetricValue (metric : MetricDefinition) (value : float64) : string :=
  let percent := (m_Format metric =? MetricFormatPercent)%string in
  let '(unit_, precision, value) :=
    if percent then (m_Unit metric, 1, f64_mul value (f64_of_Z 100))
    else if (m_Format metric =? MetricFormatBytes)%string then
      let '(u, v) := byteScale byteUnits (m_Unit metric) value in
      (u, if (u =? "B")%string then 0 else 1, v)
    else (m_Unit metric, 3, value) in
  let formatted := FormatFloat value "f" (default precision (m_Precision metric)) in
  if percent then formatted +:+ "%"
  else if (unit_ =? "")%string then formatted else formatted +:+ " " +:+ unit_.

(** The indented text of a JSON document, if it is one. *)
Class IndentText := indented : string -> option string.

Definition HasSuffix (s suffix : string) : bool :=
  (len suffix <=? len s) && (sliceFrom (len s - len suffix) s =? suffix)%string.
Definition artifactPreview `{IndentText} (artifact : Artifact) : string :=
  if negb (HasSuffix (f_Name artifact) ".json") && negb (HasSuffix (f_URI artifact) ".json") then f_Content artifact
  else default (f_Content artifact) (indented (f_Content artifact)).

Example console_examples :
  (jobTime (1700000000 * GoTime.Second), optionalTime (Some (1700000000 * GoTime.Second)),
   formatMetricValue {| m_Name := "rss"; m_DisplayName := ""; m_Format := "bytes"; m_Unit := ""; m_Precision := None;
     m_Objective := ""; m_ReferenceLines := [] |} (f64_of_Z (3 * 2 ^ 29)),
   formatMetricValue {| m_Name := "util"; m_DisplayName := ""; m_Format := "percent"; m_Unit := "u"; m_Precision := Some 2;
     m_Objective := ""; m_ReferenceLines := [] |} (f64_div (f64_of_Z 1) (f64_of_Z 8)),
   labelsText [("zone", "b"); ("gpu", "a100")]) =
  ("2023-11-14 22:13 UTC", "2023-11-14 22:13:20 UTC", "1.5 GiB", "12.50%", "gpu=a100 · zone=b").
Proof. vm_compute. reflexivity. Qed.

(** ** What the texts say *)

Module ConsoleTheory.

#[export] Instance leb_transitive : Transitive (isLe Text.leb).
Proof. intros s t u. apply Text.leb_trans. Qed.
#[export] Instance leb_totally : Total (isLe Text.leb).
Proof. intros s t. apply Text.leb_total. Qed.
#[export] Instance leb_antisymmetric : AntiSymm (=) (isLe Text.leb).
Proof. intros s t. apply Text.leb_antisym. Qed.

(** The sorted texts do not depend on the order they come in. *)
Lemma sorted_texts (l1 l2 : list string) : l1 ≡ₚ l2 -> orderBy Text.leb l1 = orderBy Text.leb l2.
Proof.
  intros Hp. apply (Sorted_unique (isLe Text.leb)); [apply Sorted_merge_sort; apply _..|].
  by rewrite !orderBy_Permutation.
Qed.

(** [k] divisions by 1024. *)
Fixpoint divided (k : nat) (value : float64) : float64 :=
  match k with O => value | S k => divided k (f64_div value kibi) end.

Lemma byteScale_spec units unit_ value : (exists i, units !! i = Some "TiB") ->
  exists k, (k < length units)%nat /\ units !! k = Some (byteScale units unit_ value).1 /\
    (byteScale units unit_ value).2 = divided k value /\
    (forall j, (j < k)%nat -> f64_ltb (divided j value) kibi = false) /\
    (f64_ltb (byteScale units unit_ value).2 kibi = true \/ (byteScale units unit_ value).1 = "TiB").
Proof.
  revert unit_ value. induction units as [|u units IH]; intros unit_ value [i Hi]; [done|]. cbn [byteScale].
  destruct (f64_ltb value kibi) eqn:Hlt; cbn [orb].
  { exists 0%nat. split_and!; [cbn; lia|done|done|lia|by left]. }
  destruct (String.eqb_spec u "TiB") as [->|Hne].
  { exists 0%nat. split_and!; [cbn; lia|done|done|lia|by right]. }
  destruct i as [|i]; [cbn in Hi; congruence|].
  destruct (IH u (f64_div value kibi)) as (k & Hk & Hu & Hv & Hj & Hend); [by exists i|].
  exists (S k). split_and!; [cbn; lia|done|done| |done].
  intros [|j] Hjk; [done|]. apply Hj. lia.
Qed.
End ConsoleTheory.

(** a number of bytes is shown in the first unit in which it is below 1024,
    divided by 1024 as many times as units were passed, or in TiB; and labels
    are shown in the same order however the map is ranged over. *)
Theorem console_values (value : float64) (entries entries' : list (string * string)) :
  entries ≡ₚ entries' ->
  labelsText entries = labelsText entries' /\
  exists k, byteUnits !! k = Some (byteScale byteUnits "" value).1 /\
    (byteScale byteUnits "" value).2 = ConsoleTheory.divided k value /\
    (forall j, (j < k)%nat -> f64_ltb (ConsoleTheory.divided j value) kibi = false) /\
    ((k < 4)%nat -> f64_ltb (byteScale byteUnits "" value).2 kibi = true).
Proof.
  intros Hp. split.
  - unfold labelsText. by rewrite (ConsoleTheory.sorted_texts _ (((λ nv, nv.1 +:+ "=" +:+ nv.2) <$> entries'))) by by rewrite Hp.
  - destruct (ConsoleTheory.byteScale_spec byteUnits "" value) as (k & Hk & Hu & Hv & Hj & Hend); [by exists 4%nat|].
    exists k. split_and!; [done..|]. intros Hk4. destruct Hend as [|E]; [done|]. rewrite E in Hu.
    do 4 (destruct k as [|k]; [discriminate Hu|]). lia.
Qed.

Lemma console_values_witness :
  labelsText [("a", "1"); ("b", "2")] = labelsText [("b", "2"); ("a", "1")] /\
  exists k, byteUnits !! k = Some (byteScale byteUnits "" kibi).1 /\
    (byteScale byteUnits "" kibi).2 = ConsoleTheory.divided k kibi /\
    (forall j, (j < k)%nat -> f64_ltb (ConsoleTheory.divided j kibi) kibi = false) /\
    ((k < 4)%nat -> f64_ltb (byteScale byteUnits "" kibi).2 kibi = true).
Proof. apply (console_values kibi [("a", "1"); ("b", "2")] [("b", "2"); ("a", "1")]). constructor. Defined.
