(* ===== verification/Http.v ===== *)
(** * The HTTP server of the control plane (internal/httpapi/server.go, metrics.go)

    The routes, their authentication and their handlers, on the operations of
    the store, behind the multiplexer of net/http, which redirects the paths it
    would clean before it looks for a route. A response is its status, the
    headers that matter and the value that is encoded; decoding a request body
    and the texts of errors are parameters. *)

From S2P Require Import Prelude Times GoLib Encoding Ids Domain Validate ValidateSpec Database Jobs Health Events.
From S2P Require Import Lifecycle Auth Scheduler Sync Control Paths FloatText Details Report.
From Stdlib Require Import Strings.Byte.

(** ** Requests and responses *)

(** ** Paths in URLs *)

(** The escapes of net/url: every byte but those kept becomes three. *)
Definition upperHex (n : N) : ascii := nth (N.to_nat n) (chars "0123456789ABCDEF") "0"%char.
Definition unreserved (c : ascii) : bool :=
  let n := N_of_ascii c in
  ((48 <=? n) && (n <=? 57))%N || ((65 <=? n) && (n <=? 90))%N || ((97 <=? n) && (n <=? 122))%N ||
  existsb (Ascii.eqb c) (chars "-_.~$&+:=@").
Definition escapeByte (kept : ascii -> bool) (c : ascii) : list ascii :=
  if kept c then [c] else ["%"%char; upperHex (N_of_ascii c / 16); upperHex (N_of_ascii c mod 16)].
Definition escape (kept : ascii -> bool) (s : string) : string := unchars (chars s ≫= escapeByte kept).

(** url.PathEscape, and the path of URL.String *)
Definition PathEscape : string -> string := escape unreserved.
Definition escapePath : string -> string := escape (λ c, unreserved c || existsb (Ascii.eqb c) (chars "/,;")).

(** url.PathUnescape; net/http keeps a segment that it does not take. *)
Fixpoint unescape (s : list ascii) : option (list ascii) :=
  match s with
  | "%"%char :: a :: b :: rest =>
      x ← digitIn 16 a; y ← digitIn 16 b;
      cons (ascii_of_N (Z.to_N (16 * x + y))) <$> unescape rest
  | c :: rest => if Ascii.eqb c "%" then None else cons c <$> unescape rest
  | [] => Some []
  end.
Definition pathUnescape (s : string) : string := from_option unchars s (unescape (chars s)).

Example path_escapes : PathEscape "job_1/a b" = "job_1%2Fa%20b" /\ pathUnescape "job_1%2fa%20b" = "job_1/a b" /\
  pathUnescape "50%" = "50%" /\ escapePath "/a/%2e b?" = "/a/%252e%20b%3F".
Proof. repeat split; vm_compute; reflexivity. Qed.

(** What firstSegment of net/http finds, again and again: the slash at the end of
    a path is a segment of its own. *)
Fixpoint segmentsOf (parts : list string) : list string :=
  match parts with
  | [] => []
  | part :: rest =>
      match rest with
      | [] => [if (part =? "")%string then "/" else pathUnescape part]
      | _ => pathUnescape part :: segmentsOf rest
      end
  end.
Definition pathSegments (path : string) : list string :=
  match Split path slash with
  | "" :: rest => segmentsOf rest
  | _ => []
  end.

(** cleanPath of net/http, on path.Clean *)
Definition endsInSlash (p : string) : bool := bool_decide (last (chars p) = Some slash).
Definition cleanPath (p : string) : string :=
  if (p =? "")%string then "/"
  else
    let p := if HasPrefix p "/" then p else "/" +:+ p in
    let np := Filepath.Clean p in
    if endsInSlash p && negb (np =? "/")%string then np +:+ "/" else np.

Example paths : pathSegments "/" = ["/"] /\ pathSegments "/api/v1/jobs/a%2Fb" = ["api"; "v1"; "jobs"; "a/b"] /\
  pathSegments "/login/" = ["login"; "/"] /\ cleanPath "/api//v1/./jobs/" = "/api/v1/jobs/" /\
  cleanPath "/../login" = "/login" /\ cleanPath "/%2e%2e/login" = "/%2e%2e/login" /\ cleanPath "" = "/".
Proof. repeat split; vm_compute; reflexivity. Qed.

(** A request: the path as URL.EscapedPath returns it, the query as it is and by
    its names, the cookie of the session, the form field key of a body of at
    most some bytes (none where parsing the form fails), and the random bytes
    and the identifier drawn for it. *)
Record Request := {
  rq_Method : string; rq_EscapedPath : string; rq_RawQuery : string; rq_Authorization : string; rq_IdempotencyKey : string;
  rq_Cookie : option string; rq_Query : string -> string; rq_FormKey : Z -> option string;
  rq_Body : string; rq_ID : string; rq_Random : list byte;
}.

(** The segments the routes are matched against. *)
Definition rq_Path (request : Request) : list string := pathSegments (rq_EscapedPath request).

Record dashboardView := {
  dv_TokenName : string; dv_Jobs : list Job; dv_Workers : list Worker;
  dv_Queued : Z; dv_Active : Z; dv_Failed : Z; dv_Succeeded : Z;
}.

Record metricPointPayload := {
  pp_Attempt : Z; pp_Step : option Z; pp_Value : float64; pp_ObservedAt : time;
}.
Record metricSeriesPayload := { sp_Definition : MetricDefinition; sp_Points : list metricPointPayload }.
Record jobMetricsPayload := {
  mp_JobState : JobState; mp_Cursor : Z; mp_Metrics : list metricSeriesPayload;
}.

(** What is written: JSON values, pages, or text. *)
Inductive Body :=
  | ErrorBody (code message : string)
  | HealthBody
  | JobBody (job : Job) | JobsBody (jobs : list Job) | DetailBody (detail : JobDetail)
  | WorkersBody (workers : list Worker) | MetricsBody (payload : jobMetricsPayload)
  | SyncBody (response : WorkerSyncResponse)
  | LoginPage (error : string) | DashboardPage (view : dashboardView) | JobPage (tokenName : string) (detail : JobDetail)
  | PlainText (text : string) | Markdown (text : string) | StaticFile (name : string)
  | NoBody.

(** A session cookie: its value and expiry, or its removal. *)
Inductive CookieChange := KeepCookie | SetCookie (value : string) (expires : time) | ClearCookie.

Record Response := {
  rp_Status : Z; rp_Body : Body; rp_Location : string; rp_Cookie : CookieChange; rp_RequestID : string;
}.

Definition respond (status : Z) (body : Body) : Response :=
  {| rp_Status := status; rp_Body := body; rp_Location := ""; rp_Cookie := KeepCookie; rp_RequestID := "" |}.
Definition writeJSON := respond.
Definition writeError (status : Z) (code message : string) : Response := respond status (ErrorBody code message).
(** http.Error *)
Definition httpError (message : string) (status : Z) : Response := respond status (PlainText message).
Definition renderPage (page : Body) : Response := respond 200 page.
Definition renderPageStatus (page : Body) (status : Z) : Response := respond status page.

Definition withLocation (location : string) (r : Response) : Response :=
  {| rp_Status := rp_Status r; rp_Body := rp_Body r; rp_Location := location; rp_Cookie := rp_Cookie r;
     rp_RequestID := rp_RequestID r |}.
Definition withCookie (c : CookieChange) (r : Response) : Response :=
  {| rp_Status := rp_Status r; rp_Body := rp_Body r; rp_Location := rp_Location r; rp_Cookie := c;
     rp_RequestID := rp_RequestID r |}.
Definition withRequestID (requestID : string) (r : Response) : Response :=
  {| rp_Status := rp_Status r; rp_Body := rp_Body r; rp_Location := rp_Location r; rp_Cookie := rp_Cookie r;
     rp_RequestID := requestID |}.
(** http.Redirect(..., http.StatusSeeOther) *)
Definition redirect (location : string) : Response := withLocation location (respond 303 NoBody).

(** Decoding the first JSON value of some bytes, without unknown fields, with
    the bytes behind it; and err.Error(). *)
Class HttpEnv := {
  decodeSpec : string -> option (JobSpec * string);
  decodeSync : string -> option (WorkerSyncRequest * string);
  errorText : Error -> string;
}.

(** ** Constants *)

Definition maxRequestBody : Z := 2 ^ 20.
Definition maxSyncBody : Z := 4 * 2 ^ 20.
Definition maxFormBody : Z := 16 * 2 ^ 10.
Definition sessionLife : Z := 90 * 24 * GoTime.Hour.
Definition bearer : string := "Bearer ".

(** ** The server *)

Record Server := { sv_tokenHash : string }.

(** Only JSON white space is left of a body. *)
Definition blank (s : string) : bool :=
  forallb (λ c, existsb (Ascii.eqb c) (ascii_of_N <$> [9; 10; 13; 32]%N)) (chars s).

Inductive Decoded (A : Type) := DecodedOne (a : A) | NotDecoded | MoreBehind.
Arguments DecodedOne {_} _.
Arguments NotDecoded {_}.
Arguments MoreBehind {_}.

(** One JSON value, and nothing behind it, of a body of at most [limit] bytes. *)
Definition decodeOne {A} (limit : Z) (decode : string -> option (A * string)) (body : string) : Decoded A :=
  match decode (String.substring 0 (Z.to_nat limit) body) with
  | None => NotDecoded
  | Some (a, rest) => if blank rest && (len body <=? limit) then DecodedOne a else MoreBehind
  end.

Section server.
Context `{Env} `{HttpEnv}.

(** A handler answers and changes the store. *)
Definition Handler : Type := St -> Response * St.
Definition answer (r : Response) : Handler := λ s, (r, s).
(** A call of the store, and what is done with its result. *)
Definition call {A} (m : Act A) (k : result Error A -> Handler) : Handler := λ s,
  let '(r, s') := m s in k r s'.

(** [clock n] is the n-th reading of the clock while a request is served. *)
Definition Clock : Type := nat -> time.

(** hash of the token behind "Bearer " *)
Definition bearerToken (request : Request) : option string :=
  if HasPrefix (rq_Authorization request) bearer
  then Some (TrimPrefix (rq_Authorization request) bearer) else None.

Definition authenticateAPI (server : Server) (clock : Clock) (request : Request) (next : Handler) : Handler :=
  match bearerToken request with
  | None => answer (writeError 401 "unauthorized" "a bearer token is required")
  | Some rawToken =>
      if (sha256 rawToken =? sv_tokenHash server)%string then next
      else call (AuthenticateAPIToken (clock 0%nat) rawToken) (λ r,
        match r with
        | Err ErrNotFound => answer (writeError 401 "unauthorized" "the bearer token is invalid")
        | Err _ => answer (writeError 500 "internal" "authentication is temporarily unavailable")
        | Ok _ => next
        end)
  end.

(** *** The JSON API *)

Definition createJob (clock : Clock) (request : Request) : Handler :=
  let key := TrimSpace (rq_IdempotencyKey request) in
  if (key =? "")%string || (200 <? len key) then
    answer (writeError 400 "invalid_idempotency_key" "Idempotency-Key is required and must be at most 200 characters")
  else
    match decodeOne maxRequestBody decodeSpec (rq_Body request) with
    | NotDecoded => answer (writeError 400 "invalid_json" "request body must be one JSON job specification")
    | MoreBehind => answer (writeError 400 "invalid_json" "request body must contain exactly one JSON value")
    | DecodedOne spec =>
        call (CreateJob (clock 1%nat) key spec) (λ r,
          match r with
          | Err ErrIdempotencyConflict =>
              answer (writeError 409 "idempotency_conflict" (errorText ErrIdempotencyConflict))
          (* the errors whose text begins with "validate job:" *)
          | Err (ErrValidate _ as e) | Err (ErrHealthTarget _ as e) =>
              answer (writeError 422 "invalid_job" (TrimPrefix (errorText e) "validate job: "))
          | Err _ => answer (writeError 500 "internal" "the job could not be stored")
          | Ok result =>
              answer (if cr_Created result
                      then withLocation ("/api/v1/jobs/" +:+ j_ID (cr_Job result)) (writeJSON 201 (JobBody (cr_Job result)))
                      else writeJSON 200 (JobBody (cr_Job result)))
          end)
    end.

Definition getJobDetail (jobID : string) : Handler :=
  call (GetJobDetail jobID) (λ r,
    match r with
    | Err ErrNotFound => answer (writeError 404 "not_found" "job not found")
    | Err _ => answer (writeError 500 "internal" "the job could not be read")
    | Ok detail => answer (writeJSON 200 (DetailBody detail))
    end).

Definition cancelJob (clock : Clock) (jobID : string) : Handler :=
  call (CancelJob (clock 1%nat) jobID) (λ r,
    match r with
    | Err ErrNotFound => answer (writeError 404 "not_found" "job not found")
    | Err (ErrInvalidTransition _ as e) => answer (writeError 409 "invalid_state" (errorText e))
    | Err _ => answer (writeError 500 "internal" "the job could not be canceled")
    | Ok job => answer (writeJSON 200 (JobBody job))
    end).

Definition listJobs (request : Request) : Handler :=
  let raw := rq_Query request "limit" in
  let limit := if (raw =? "")%string then Some 100
               else n ← Atoi raw; if (n <? 1) || (1000 <? n) then None else Some n in
  match limit with
  | None => answer (writeError 400 "invalid_limit" "limit must be between 1 and 1000")
  | Some limit =>
      call (ListJobs limit) (λ r,
        match r with
        | Err _ => answer (writeError 500 "internal" "jobs could not be listed")
        | Ok jobs => answer (writeJSON 200 (JobsBody jobs))
        end)
  end.

Definition listWorkers (clock : Clock) : Handler :=
  call (ListWorkers (clock 1%nat) (30 * GoTime.Second)) (λ r,
    match r with
    | Err _ => answer (writeError 500 "internal" "workers could not be listed")
    | Ok workers => answer (writeJSON 200 (WorkersBody workers))
    end).

Definition workerSync (clock : Clock) (request : Request) : Handler :=
  match bearerToken request with
  | None => answer (writeError 401 "unauthorized" "a worker bearer token is required")
  | Some rawToken =>
      call (AuthenticateWorkerToken (clock 0%nat) rawToken) (λ r,
        match r with
        | Err ErrNotFound => answer (writeError 401 "unauthorized" "the worker bearer token is invalid")
        | Err _ => answer (writeError 500 "internal" "worker authentication is temporarily unavailable")
        | Ok credential =>
            match decodeOne maxSyncBody decodeSync (rq_Body request) with
            | NotDecoded => answer (writeError 400 "invalid_json" "request body must be one worker sync request")
            | MoreBehind => answer (writeError 400 "invalid_json" "request body must contain exactly one JSON value")
            | DecodedOne syncRequest =>
                if negb (q_WorkerID syncRequest =? wc_WorkerID credential)%string then
                  answer (writeError 403 "worker_identity_mismatch" "the token is not bound to this worker")
                else if (q_SessionID syncRequest =? "")%string || (1000 <? length (q_Events syncRequest))%nat then
                  answer (writeError 400 "invalid_sync" "session_id is required and events are limited to 1000 per sync")
                else
                  call (SyncWorker (clock 1%nat) (wc_WorkerID credential) syncRequest) (λ r,
                    match r with
                    | Err _ => answer (writeError 500 "internal" "worker sync could not be applied")
                    | Ok response => answer (writeJSON 200 (SyncBody response))
                    end)
            end
        end)
  end.

(** *** Metrics (metrics.go) *)

(** The declared series, and the automatic ones that have reported samples. *)
Definition shownDefinitions (metrics : list MetricDefinition) (points : list JobMetricPoint) : list MetricDefinition :=
  metrics ++ filter (λ d, existsb (λ p, (mp_Name p =? m_Name d)%string) points = true) SystemMetricDefinitions.

Definition pointPayload (p : JobMetricPoint) : metricPointPayload :=
  {| pp_Attempt := mp_Attempt p; pp_Step := mp_Step p; pp_Value := mp_Value p; pp_ObservedAt := mp_ObservedAt p |}.

Definition seriesOf (points : list JobMetricPoint) (d : MetricDefinition) : metricSeriesPayload :=
  {| sp_Definition := d; sp_Points := pointPayload <$> filter (λ p, mp_Name p = m_Name d) points |}.

Definition metricsPayload (job : Job) (points : list JobMetricPoint) (cursor : Z) : jobMetricsPayload :=
  {| mp_JobState := j_State job; mp_Cursor := cursor;
     mp_Metrics := seriesOf points <$> shownDefinitions (s_Metrics (j_Spec job)) points |}.

Definition writeJobMetrics (request : Request) (jobID : string) : Handler :=
  let raw := rq_Query request "after" in
  let after := if (raw =? "")%string then Some 0 else n ← ParseInt raw; if n <? 0 then None else Some n in
  match after with
  | None => answer (writeError 400 "invalid_after" "after must be a cursor from a previous response")
  | Some after =>
      call (GetJob jobID) (λ r,
        match r with
        | Err ErrNotFound => answer (writeError 404 "not_found" "job not found")
        | Err _ => answer (writeError 500 "internal" "the job could not be read")
        | Ok job =>
            call (ListJobMetricPoints (j_ID job) after) (λ r,
              match r with
              | Err _ => answer (writeError 500 "internal" "job metrics could not be read")
              | Ok (points, cursor) => answer (writeJSON 200 (MetricsBody (metricsPayload job points cursor)))
              end)
        end)
  end.

(** *** Reports (report.go) *)

Definition jobReport (clock : Clock) (request : Request) (jobID : string) : Handler :=
  call (GetJobDetail jobID) (λ r,
    match r with
    | Err ErrNotFound => answer (writeError 404 "not_found" "job not found")
    | Err _ => answer (writeError 500 "internal" "the job could not be read")
    | Ok detail =>
        let full := negb (rq_Query request "artifacts" =? "none")%string in
        answer (respond 200 (Markdown (renderJobReport detail (clock 1%nat) full)))
    end).

(** The details of jobs that can be read. *)
Fixpoint readDetails (picked : list Job) (details : list JobDetail) (k : list JobDetail -> Handler) : Handler :=
  match picked with
  | [] => k details
  | job :: rest =>
      call (GetJobDetail (j_ID job)) (λ r,
        readDetails rest (match r with Ok detail => details ++ [detail] | Err _ => details end) k)
  end.

Definition reportLimit (raw : string) : Z :=
  match Atoi raw with Some n => if (0 <? n) && (n <=? 50) then n else 6 | None => 6 end.

Definition projectReport (clock : Clock) (request : Request) : Handler :=
  let project := rq_Query request "project" in
  let limit := reportLimit (rq_Query request "limit") in
  call (ListJobs 200) (λ r,
    match r with
    | Err _ => answer (writeError 500 "internal" "jobs could not be listed")
    | Ok jobs =>
        let picked := pickJobs project limit jobs in
        readDetails (filter (λ job, j_State job = JobRunning) picked) [] (λ details,
          answer (respond 200 (Markdown (renderProjectReport project picked (clock 1%nat) details))))
    end).

(** *** The console *)

Definition browserSession (clock : Clock) (request : Request) (k : result Error BrowserSession -> Handler) : Handler :=
  match rq_Cookie request with
  | None => k (Err ErrNotFound)
  | Some value =>
      if (value =? "")%string then k (Err ErrNotFound)
      else call (AuthenticateBrowserSession (clock 0%nat) value) k
  end.

Definition countJobs (states : list JobState) (jobs : list Job) : Z :=
  Z.of_nat (length (filter (λ job, j_State job ∈ states) jobs)).

Definition consoleUnavailable : Response := httpError "the console is temporarily unavailable" 500.

Definition home (clock : Clock) (request : Request) : Handler :=
  browserSession clock request (λ r,
    match r with
    | Err ErrNotFound => answer (redirect "/login")
    | Err _ => answer consoleUnavailable
    | Ok session =>
        call (ListJobs 1000) (λ r,
          match r with
          | Err _ => answer consoleUnavailable
          | Ok jobs =>
              call (ListWorkers (clock 1%nat) (30 * GoTime.Second)) (λ r,
                match r with
                | Err _ => answer consoleUnavailable
                | Ok workers =>
                    answer (renderPage (DashboardPage {|
                      dv_TokenName := ses_TokenName session; dv_Jobs := jobs; dv_Workers := workers;
                      dv_Queued := countJobs [JobQueued; JobRetryWait] jobs;
                      dv_Active := countJobs [JobRunning; JobCanceling] jobs;
                      dv_Failed := countJobs [JobFailed] jobs;
                      dv_Succeeded := countJobs [JobSucceeded] jobs |}))
                end)
          end)
    end).

Definition jobPage (clock : Clock) (request : Request) (jobID : string) : Handler :=
  browserSession clock request (λ r,
    match r with
    | Err ErrNotFound => answer (redirect "/login")
    | Err _ => answer consoleUnavailable
    | Ok session =>
        call (GetJobDetail jobID) (λ r,
          match r with
          | Err ErrNotFound => answer (httpError "404 page not found" 404)
          | Err _ => answer (httpError "the job could not be read" 500)
          | Ok detail => answer (renderPage (JobPage (ses_TokenName session) detail))
          end)
    end).

Definition consoleJobMetrics (clock : Clock) (request : Request) (jobID : string) : Handler :=
  browserSession clock request (λ r,
    match r with
    | Err ErrNotFound => answer (writeError 401 "unauthorized" "a signed-in browser session is required")
    | Err _ => answer (writeError 500 "internal" "the console is temporarily unavailable")
    | Ok _ => writeJobMetrics request jobID
    end).

Definition loginUnavailable : Response := httpError "login is temporarily unavailable" 500.

Definition loginPage (clock : Clock) (request : Request) : Handler :=
  browserSession clock request (λ r,
    match r with
    | Ok _ => answer (redirect "/")
    | Err ErrNotFound => answer (renderPage (LoginPage ""))
    | Err _ => answer loginUnavailable
    end).

Definition randomSecret (prefix : string) (random : list byte) : string := prefix +:+ unchars (RawURL random).

Definition login (clock : Clock) (request : Request) : Handler :=
  match rq_FormKey request maxFormBody with
  | None => answer (renderPageStatus (LoginPage "That key could not be used.") 400)
  | Some key =>
      let rawToken := TrimSpace key in
      call (AuthenticateAPIToken (clock 0%nat) rawToken) (λ r,
        match r with
        | Err ErrNotFound => answer (renderPageStatus (LoginPage "That key is not valid.") 401)
        | Err _ => answer loginUnavailable
        | Ok token =>
            let rawSession := randomSecret "lcss_" (rq_Random request) in
            let expiresAt := clock 1%nat + sessionLife in
            call (CreateBrowserSession (clock 2%nat) (tok_ID token) rawSession expiresAt) (λ r,
              match r with
              | Err _ => answer loginUnavailable
              | Ok _ => answer (withCookie (SetCookie rawSession expiresAt) (redirect "/"))
              end)
        end)
  end.

Definition logout (request : Request) : Handler :=
  let done := answer (withCookie ClearCookie (redirect "/login")) in
  match rq_Cookie request with
  | None => done
  | Some value => call (DeleteBrowserSession value) (λ _, done)
  end.

Definition health : Handler := answer (writeJSON 200 HealthBody).

(** ** The routes *)

Inductive Segment := Lit (text : string) | Wild.

(** The wildcard stands for one segment, but not for the slash at the end. *)
Fixpoint matchPath (pattern : list Segment) (path : list string) : option (list string) :=
  match pattern, path with
  | [], [] => Some []
  | Lit text :: pattern, segment :: path =>
      if (text =? segment)%string then matchPath pattern path else None
  | Wild :: pattern, segment :: path =>
      if (segment =? "/")%string then None else rest ← matchPath pattern path; Some (segment :: rest)
  | _, _ => None
  end.

Definition Route : Type := string * list Segment * (Server -> Clock -> Request -> string -> Handler).

(** A route of the API for operators. *)
Definition api (method : string) (path : list Segment)
    (handler : Server -> Clock -> Request -> string -> Handler) : Route :=
  (method, path, λ server clock request id, authenticateAPI server clock request (handler server clock request id)).

Definition static (file name : string) : Route :=
  ("GET", [Lit "static"; Lit name], λ _ _ _ _, answer (respond 200 (StaticFile file))).

Definition routes : list Route := [
  ("GET", [Lit "/"], λ _ clock request _, home clock request);
  ("GET", [Lit "jobs"; Wild], λ _ clock request id, jobPage clock request id);
  ("GET", [Lit "jobs"; Wild; Lit "metrics.json"], λ _ clock request id, consoleJobMetrics clock request id);
  ("GET", [Lit "login"], λ _ clock request _, loginPage clock request);
  ("POST", [Lit "login"], λ _ clock request _, login clock request);
  ("POST", [Lit "logout"], λ _ _ request _, logout request);
  static "app.css" "app.css"; static "theme.js" "theme.js"; static "charts.js" "charts.js";
  static "uplot.iife.min.js" "uplot.js"; static "uplot.min.css" "uplot.css";
  ("GET", [Lit "healthz"], λ _ _ _ _, health);
  api "POST" [Lit "api"; Lit "v1"; Lit "jobs"] (λ _ clock request _, createJob clock request);
  api "GET" [Lit "api"; Lit "v1"; Lit "jobs"] (λ _ _ request _, listJobs request);
  api "GET" [Lit "api"; Lit "v1"; Lit "jobs"; Wild] (λ _ _ _ id, getJobDetail id);
  api "GET" [Lit "api"; Lit "v1"; Lit "jobs"; Wild; Lit "metrics"] (λ _ _ request id, writeJobMetrics request id);
  api "POST" [Lit "api"; Lit "v1"; Lit "jobs"; Wild; Lit "cancel"] (λ _ clock _ id, cancelJob clock id);
  api "GET" [Lit "api"; Lit "v1"; Lit "jobs"; Wild; Lit "report"]
    (λ _ clock request id, jobReport clock request id);
  api "GET" [Lit "api"; Lit "v1"; Lit "report"] (λ _ clock request _, projectReport clock request);
  api "GET" [Lit "api"; Lit "v1"; Lit "workers"] (λ _ clock _ _, listWorkers clock);
  ("POST", [Lit "api"; Lit "v1"; Lit "worker"; Lit "sync"], λ _ clock request _, workerSync clock request)].

(** A GET route serves HEAD requests too. *)
Definition methodMatches (pattern method : string) : bool :=
  (pattern =? method)%string || (pattern =? "GET")%string && (method =? "HEAD")%string.

(** The routes of a path, and the first that serves the method; no two patterns
    match the same path with the same method. *)
Definition routed (server : Server) (clock : Clock) (request : Request) : Handler :=
  match List.find (λ r : Route, bool_decide (is_Some (matchPath r.1.2 (rq_Path request))) &&
                               methodMatches r.1.1 (rq_Method request)) routes with
  | Some (_, pattern, handler) =>
      handler server clock request
        (match matchPath pattern (rq_Path request) with Some (id :: _) => id | _ => "" end)
  | None =>
      if existsb (λ r : Route, bool_decide (is_Some (matchPath r.1.2 (rq_Path request)))) routes
      then answer (httpError "Method Not Allowed" 405) else answer (httpError "404 page not found" 404)
  end.

(** http.RedirectHandler(..., http.StatusTemporaryRedirect) for the cleaned path,
    which is already escaped and is escaped again (go.mod asks for Go 1.27; before
    1.26 the status was 301). *)
Definition muxRedirect (request : Request) (path : string) : Response :=
  withLocation (escapePath path +:+ (if (rq_RawQuery request =? "")%string then "" else "?" +:+ rq_RawQuery request))
    (respond 307 NoBody).

(** http.ServeMux: no pattern but the root's ends in a slash, so a path is only
    redirected to be cleaned, and never that of CONNECT. *)
Definition dispatch (server : Server) (clock : Clock) (request : Request) : Handler :=
  let path := rq_EscapedPath request in
  if (path =? "*")%string then answer (respond 400 NoBody)
  else if negb (rq_Method request =? "CONNECT")%string && negb (cleanPath path =? path)%string
  then answer (muxRedirect request (cleanPath path))
  else routed server clock request.

Definition ServeHTTP (server : Server) (clock : Clock) (request : Request) : Handler := λ s,
  let '(response, s') := dispatch server clock request s in
  (withRequestID (rq_ID request) response, s').

(** New: a bootstrap token of at least 32 characters. *)
Definition newServer (bootstrapToken : string) : option Server :=
  if len bootstrapToken <? 32 then None else Some {| sv_tokenHash := sha256 bootstrapToken |}.
End server.
