(* ===== verification/HttpLog.v ===== *)
(** * What serving a request does to the store

    Every handler is a sequence of calls of the store: serving keeps what the
    calls keep, and only submitting, canceling and syncing touch the jobs. *)

From S2P Require Import Prelude Times GoLib Encoding Ids Domain Validate ValidateSpec Database Jobs Health Events.
From S2P Require Import Lifecycle Auth Scheduler Sync Control Details Report Http.

(** The integers a decoder puts in a specification are in the range of their Go
    types. *)
Class HttpLaws `{HttpEnv} := {
  decoded_typed body spec rest : decodeSpec body = Some (spec, rest) -> SpecTyped spec;
}.

(** A clock in the years 0 to 9999, at whose readings a session can be made. *)
Definition clockOk (clock : nat -> time) : Prop :=
  forall n, GoTime.fourDigitYear (clock n) /\ GoTime.fourDigitYear (clock n + sessionLife).

(** A call that does not change the store. *)
Definition reads `{Env} {A} (m : Act A) : Prop := forall s, (m s).2 = s.

Section log.
Context `{Env} `{HttpEnv}.

(** A relation between the stores before and after a handler. *)
Definition hobeys (R : relation St) (h : Handler) : Prop := forall s, R s (h s).2.

Lemma hobeys_answer R `{!Reflexive R} r : hobeys R (answer r).
Proof. intros s. simpl. reflexivity. Qed.

Lemma hobeys_call R `{!Transitive R} {A} (m : Act A) (k : result Error A -> Handler) :
  (forall s, R s (m s).2) -> (forall r, hobeys R (k r)) -> hobeys R (call m k).
Proof.
  intros Hm Hk s. unfold call. specialize (Hm s). destruct (m s) as [r s1]. etrans; [exact Hm|apply Hk].
Qed.

(** A call that reads: what follows starts from the same store. *)
Lemma call_reads {A} (m : Act A) (k : result Error A -> Handler) s : reads m -> call m k s = k (m s).1 s.
Proof. intros Hm. unfold call. specialize (Hm s). destruct (m s) as [r s1]. simpl in *. by subst. Qed.

Lemma call_run {A} (m : Act A) (k : result Error A -> Handler) s : call m k s = k (m s).1 (m s).2.
Proof. unfold call. by destruct (m s). Qed.

(** *** Reads *)

Lemma reads_ret {A} (a : A) : reads (mret a).
Proof. done. Qed.
Lemma reads_query {A} (f : DB -> A) : reads (query f).
Proof. done. Qed.
Lemma reads_found {A} (o : option A) e : reads (found o e).
Proof. by destruct o. Qed.
Lemma reads_bind {A B} (m : Act A) (k : A -> Act B) : reads m -> (forall a, reads (k a)) -> reads (m ≫= k).
Proof.
  intros Hm Hk s. unfold mbind, M_bind. specialize (Hm s). destruct (m s) as [[a|e] s1]; simpl in *; subst; [apply Hk|done].
Qed.
Lemma reads_mfold {A B} (xs : list A) (b : B) (body : B -> A -> Act B) :
  (forall b x, reads (body b x)) -> reads (mfold xs b body).
Proof.
  intros Hb. revert b. induction xs as [|x xs IH]; intros b; [by apply reads_ret|]. apply reads_bind; [apply Hb|done].
Qed.
End log.

(** Proves that a call does not change the store. *)
Ltac read_only :=
  repeat match goal with
  | |- forall _, _ => intros ?
  | |- reads (mret _) => apply reads_ret
  | |- reads (query _) => apply reads_query
  | |- reads (found _ _) => apply reads_found
  | |- reads (parsed _) => apply reads_found
  | |- reads (_ ≫= _) => apply reads_bind
  | |- reads (mfold _ _ _) => apply reads_mfold
  | |- reads (match ?x with _ => _ end) => destruct x
  | |- reads (let _ := _ in _) => intros ?
  end.

Section readers.
Context `{Env} `{HttpEnv}.

Lemma GetJob_reads jobID : reads (GetJob jobID).
Proof. unfold GetJob, getJob, scanJob. read_only. Qed.
Lemma ListJobs_reads limit : reads (ListJobs limit).
Proof. unfold ListJobs, scanJob. read_only. Qed.
Lemma ListWorkers_reads now t : reads (ListWorkers now t).
Proof. unfold ListWorkers, scanWorker. read_only. Qed.
Lemma GetJobDetail_reads jobID : reads (GetJobDetail jobID).
Proof.
  unfold GetJobDetail, scanAll, scanAttempt, scanMetric, scanArtifact, scanFiring, parseOptionalTime.
  apply reads_bind; [apply GetJob_reads|]. read_only.
Qed.
Lemma ListJobMetricPoints_reads jobID after : reads (ListJobMetricPoints jobID after).
Proof. unfold ListJobMetricPoints, scanPoint. read_only. Qed.
End readers.

Create HintDb readers.
#[export] Hint Resolve GetJob_reads ListJobs_reads ListWorkers_reads GetJobDetail_reads ListJobMetricPoints_reads : readers.

(** Follows a handler; [leaf] proves what it says of each call of the store. *)
Ltac hfollow leaf :=
  repeat (idtac; match goal with
  | |- forall _, _ => intros ?
  | |- hobeys ?R (answer _) => apply (hobeys_answer R)
  | |- hobeys ?R (call _ _) => apply (hobeys_call R)
  | |- hobeys _ (browserSession _ _ _) => unfold browserSession
  | |- hobeys _ (match ?x with _ => _ end) => destruct x
  | |- hobeys _ (let _ := _ in _) => intros ?
  | |- _ ?s (_ ?s).2 => leaf
  end).

Section handlers.
Context `{Env} `{HttpEnv} (R : relation St) `{!PreOrder R}.

(** What holds of every answer and of the handler of every route. *)
Lemma dispatch_cases (P : Handler -> Prop) server clock request : (forall r, P (answer r)) ->
  Forall (λ r : Route, forall id, P (r.2 server clock request id)) routes -> P (dispatch server clock request).
Proof.
  intros Ha Hr. unfold dispatch. destruct (_ =? "*")%string; [apply Ha|]. destruct (_ && _); [apply Ha|].
  unfold routed. destruct (List.find _ routes) as [[[method pattern] handler]|] eqn:Ef.
  - apply find_some in Ef as [Hin%list_elem_of_In _]. rewrite Forall_forall in Hr. apply (Hr _ Hin).
  - destruct (existsb _ routes); apply Ha.
Qed.

Lemma hobeys_readDetails picked : forall details k, (forall x, hobeys R (k x)) -> hobeys R (readDetails picked details k).
Proof.
  induction picked as [|job picked IH]; intros details k Hk; [apply Hk|]. simpl.
  apply hobeys_call; [apply _| |].
  - intros s. by rewrite (GetJobDetail_reads (j_ID job) s).
  - intros r. by apply IH.
Qed.
End handlers.
