(* ===== verification/HttpProperties.v ===== *)
(** * The HTTP server: the properties

    Serving a request is a run of calls of the store; the jobs change only by
    authorized requests; requests without a valid token change nothing; what a
    poll of a job's metrics returns. *)

From S2P Require Import Prelude Times GoLib Encoding Ids Domain Validate ValidateSpec Database Jobs Health Events.
From S2P Require Import Lifecycle Auth Scheduler Sync Control Paths Scenario JobProperties AuthProperties.
From S2P Require Import Details Report Http HttpLog.
From Stdlib Require Import Strings.Byte.

(** The operator's token of a request is the bootstrap token or a stored one. *)
Definition operatorAuthorized `{Env} (server : Server) (request : Request) (d : DB) : Prop :=
  exists rawToken, bearerToken request = Some rawToken /\
    (sha256 rawToken = sv_tokenHash server \/ tokenRows d (sha256 rawToken) <> []).

(** The worker a request's token is bound to. *)
Definition requestWorker `{Env} (request : Request) (d : DB) : option WorkerCredential :=
  rawToken ← bearerToken request; tokenWorker d (sha256 rawToken).

Definition submitPath : list string := ["api"; "v1"; "jobs"].
Definition cancelPath (jobID : string) : list string := ["api"; "v1"; "jobs"; jobID; "cancel"].
Definition syncPath : list string := ["api"; "v1"; "worker"; "sync"].

Module HttpTheory.
Section clean.
Context `{Env} `{HttpEnv}.

(** *** Clean paths *)

Lemma Join_Split s : JoinStrings "/" (Split s slash) = s.
Proof.
  induction s as [|c s IH]; [done|]. simpl. destruct (decide (c = slash)) as [->|Hc].
  - pose proof (PathTheory.Split_nonempty s slash). destruct (Split s slash); [done|]. rewrite <- IH. reflexivity.
  - pose proof (PathTheory.Split_nonempty s slash). destruct (Split s slash) as [|p [|q ps]]; [done|..];
      rewrite <- IH; reflexivity.
Qed.

(** A segment that path.Clean keeps where it is. *)
Definition kept (s : string) : Prop := s ∉ [""; "."; ".."; "/"].
#[global] Instance kept_dec s : Decision (kept s).
Proof. unfold kept. apply _. Defined.

Lemma unescape_kept part : kept (pathUnescape part) -> part <> "" /\ part <> "." /\ part <> "..".
Proof. intros Hk. split_and!; intros ->; apply Hk; vm_compute; set_solver. Qed.

Lemma segments_kept parts : Forall kept (segmentsOf parts) -> Forall (λ p, p <> "" /\ p <> "." /\ p <> "..") parts.
Proof.
  induction parts as [|part rest IH]; [constructor|]. destruct rest as [|part2 rest].
  - unfold segmentsOf. destruct (String.eqb_spec part "") as [->|Hne]; intros [Hk _]%Forall_cons.
    + exfalso. apply Hk. set_solver.
    + constructor; [by apply unescape_kept|constructor].
  - intros [Hk Hr]%Forall_cons. constructor; [by apply unescape_kept|by apply IH].
Qed.

Lemma clean_plain parts : parts <> [] -> Forall PathTheory.plain parts ->
  cleanPath ("/" +:+ JoinStrings "/" parts) = "/" +:+ JoinStrings "/" parts.
Proof.
  intros Hne Hparts. set (path := "/" +:+ JoinStrings "/" parts).
  assert (Hsplit : Split path slash = "" :: parts).
  { unfold path. change (Split ("" +:+ String slash (JoinStrings "/" parts)) slash = "" :: parts).
    rewrite PathTheory.Split_app, PathTheory.Split_join; [reflexivity|done|]. eapply Forall_impl; [exact Hparts|]. by intros p (_ & _ & _ & Hp). }
  assert (Hclean : Filepath.Clean path = path).
  { unfold Filepath.Clean, Filepath.elements. rewrite Hsplit. change (Filepath.rooted path) with true.
    cbn [foldl Filepath.cleanStep String.eqb orb]. rewrite PathTheory.foldl_plain, app_nil_r, reverse_involutive, PathTheory.undotted_plain; [done..|].
    eapply Forall_impl; [exact Hparts|]. by intros p (? & _ & ? & _). }
  unfold cleanPath. change (path =? "")%string with false. change (HasPrefix path "/") with true. cbv iota zeta.
  rewrite Hclean. unfold endsInSlash. case_bool_decide as Hl; [|done]. exfalso.
  apply last_Some in Hl as [l Hl].
  assert (E : path = unchars l +:+ String slash "").
  { apply (f_equal unchars) in Hl. rewrite unchars_app, String.string_of_list_ascii_of_string in Hl. exact Hl. }
  rewrite E, PathTheory.Split_app in Hsplit.
  assert (Hin : "" ∈ parts).
  { destruct parts as [|p ps]; [done|]. pose proof (f_equal last Hsplit) as Hlast. change (Split "" slash) with [""] in Hlast. rewrite last_snoc in Hlast.
    rewrite last_cons_cons in Hlast. symmetry in Hlast. by apply last_Some_elem_of in Hlast. }
  rewrite Forall_forall in Hparts. by destruct (Hparts _ Hin).
Qed.

(** A path whose segments are kept is clean. *)
Lemma clean_segments path : pathSegments path <> [] -> Forall kept (pathSegments path) -> cleanPath path = path.
Proof.
  unfold pathSegments. pose proof (Join_Split path) as Hj. pose proof (PathTheory.Split_parts path slash) as Hp.
  destruct (Split path slash) as [|[|] rest]; [done| |done]. intros Hne Hk%segments_kept.
  destruct rest as [|part rest]; [done|]. apply Forall_cons in Hp as [_ Hp]. rewrite <- Hj.
  apply (clean_plain (part :: rest)); [done|]. apply Forall_forall. intros p Hin. rewrite Forall_forall in Hk, Hp.
  destruct (Hk _ Hin) as (? & ? & ?). by split_and!; [..|apply Hp].
Qed.

(** Where the path is clean, the routes decide. *)
Lemma dispatch_plain clock server request segments : rq_Path request = segments ->
  bool_decide (segments <> [] /\ Forall kept segments) = true ->
  dispatch server clock request = routed server clock request.
Proof.
  intros Hp [Hne Hk]%bool_decide_eq_true. unfold rq_Path in Hp. subst segments. unfold dispatch.
  destruct (String.eqb_spec (rq_EscapedPath request) "*") as [E|_]; [by rewrite E in Hne|].
  rewrite (clean_segments _ Hne Hk), String.eqb_refl. by rewrite andb_false_r.
Qed.

End clean.

Section theory.
Context `{Env} `{HttpEnv}.

(** *** Serving is a run of calls *)

Lemma ignore_state {A} (m : Act A) s : (ignore m s).2 = (m s).2.
Proof. unfold ignore, mbind, M_bind. by destruct (m s) as [[a|e] s1]. Qed.

Lemma decodeOne_ok {A} limit (decode : string -> option (A * string)) body a :
  decodeOne limit decode body = DecodedOne a -> exists text rest, decode text = Some (a, rest) /\ len body <= limit.
Proof.
  unfold decodeOne. destruct (decode _) as [[a' rest]|] eqn:E; [|done].
  destruct (blank rest); simpl; [|done]. destruct (Z.leb_spec (len body) limit); [|done]. intros [= <-]. eauto.
Qed.

(** A body that is one JSON value, read up to a limit. *)
Lemma substring_all n s : (String.length s <= n)%nat -> String.substring 0 n s = s.
Proof.
  revert n. induction s as [|c s IH]; intros n Hl; [by destruct n|]. cbn [String.length] in Hl.
  destruct n as [|n]; [lia|]. cbn. by rewrite IH by lia.
Qed.

Lemma decodeOne_fits {A} limit (decode : string -> option (A * string)) body a :
  decode body = Some (a, "") -> len body <= limit -> decodeOne limit decode body = DecodedOne a.
Proof.
  intros Hd Hl. unfold decodeOne. rewrite substring_all by (unfold len in Hl; lia). rewrite Hd. simpl.
  destruct (Z.leb_spec (len body) limit); [done|lia].
Qed.

Lemma decodeOne_whole {A} limit (decode : string -> option (A * string)) body a b :
  decode body = Some (a, "") -> decodeOne limit decode body = DecodedOne b -> b = a.
Proof.
  intros Hd Hb. assert (Hl : len body <= limit) by by apply decodeOne_ok in Hb as (_ & _ & _ & Hl).
  rewrite (decodeOne_fits _ _ _ _ Hd Hl) in Hb. by injection Hb.
Qed.

Lemma bearerToken_of request raw : rq_Authorization request = "Bearer " +:+ raw -> bearerToken request = Some raw.
Proof.
  intros E. unfold bearerToken. unfold HasPrefix. rewrite E, bool_decide_eq_true_2 by by eexists.
  exact (f_equal Some (String.string_of_list_ascii_of_string raw)).
Qed.

Context `{!HttpLaws} (clock : Clock) (Hclock : clockOk clock).

Lemma clock_year n : GoTime.fourDigitYear (clock n).
Proof. apply (Hclock n). Qed.

Section allowed.
Context (allowed : Call -> Prop) (Hplain : forall c, plainCall c -> allowed c).
Context (Hdecoded : forall key text spec rest, decodeSpec text = Some (spec, rest) -> allowed (CallCreateJob key spec)).

Lemma step_allowed now c s s' : GoTime.fourDigitYear now -> callTyped c -> allowed c -> (perform now c s).2 = s' ->
  rtc (allowedStep allowed) s s'.
Proof. intros Hy Ht Ha <-. apply rtc_once. by apply allowed_step. Qed.

Lemma step_reads {A} (m : Act A) s : reads m -> rtc (allowedStep allowed) s (m s).2.
Proof. intros Hm. rewrite (Hm s). reflexivity. Qed.

(** Proves that a call of the store with a plain name is allowed. *)
Tactic Notation "plain_leaf" uconstr(now) uconstr(c) :=
  refine (step_allowed now c _ _ (clock_year _) I (Hplain c I) _); apply ignore_state.
Ltac call_leaf :=
  first
    [ apply step_reads; solve [auto with readers]
    | plain_leaf (clock 0%nat) (CallAuthenticateAPIToken _)
    | plain_leaf (clock 0%nat) (CallAuthenticateWorkerToken _)
    | plain_leaf (clock 0%nat) (CallAuthenticateBrowserSession _)
    | plain_leaf (clock 0%nat) (CallDeleteBrowserSession _)
    | plain_leaf (clock 1%nat) (CallCancelJob _)
    | refine (step_allowed (clock 2%nat) (CallCreateBrowserSession _ _ _) _ _ (clock_year _) (proj2 (Hclock _))
        (Hplain (CallCreateBrowserSession _ _ _) I) _); apply ignore_state
    | idtac ].

Lemma createJob_calls request : hobeys (rtc (allowedStep allowed)) (createJob clock request).
Proof.
  unfold createJob. destruct (_ || _); [hfollow idtac|].
  destruct (decodeOne maxRequestBody decodeSpec (rq_Body request)) as [spec| |] eqn:E; [|hfollow idtac..].
  apply decodeOne_ok in E as (text & rest & Hd & _). pose proof (decoded_typed _ _ _ Hd) as Ht.
  hfollow idtac. refine (step_allowed (clock 1%nat) (CallCreateJob _ _) _ _ (clock_year _) Ht (Hdecoded _ _ _ _ Hd) _).
  apply ignore_state.
Qed.

Lemma authenticate_calls server request next : hobeys (rtc (allowedStep allowed)) next ->
  hobeys (rtc (allowedStep allowed)) (authenticateAPI server clock request next).
Proof. intros Hn. unfold authenticateAPI. hfollow call_leaf; done. Qed.

Lemma writeJobMetrics_calls request id : hobeys (rtc (allowedStep allowed)) (writeJobMetrics request id).
Proof. unfold writeJobMetrics. hfollow call_leaf. Qed.

Lemma projectReport_calls request : hobeys (rtc (allowedStep allowed)) (projectReport clock request).
Proof. unfold projectReport. hfollow call_leaf. apply hobeys_readDetails; [apply _|]. hfollow idtac. Qed.

(** A sync is one of the worker that the request's token is bound to. *)
Lemma workerSync_calls request s :
  (forall credential sync, requestWorker request (db s) = Some credential ->
     allowed (CallSyncWorker (wc_WorkerID credential) sync)) ->
  rtc (allowedStep allowed) s (workerSync clock request s).2.
Proof.
  intros Hs. unfold workerSync. destruct (bearerToken request) as [rawToken|] eqn:Eb; [|reflexivity]. rewrite call_run.
  unfold requestWorker in Hs. rewrite Eb in Hs. cbn [mbind option_bind] in Hs.
  assert (Hc : forall c, (AuthenticateWorkerToken (clock 0%nat) rawToken s).1 = Ok c -> tokenWorker (db s) (sha256 rawToken) = Some c).
  { intros c. unfold AuthenticateWorkerToken. rewrite query_run. by destruct (tokenWorker _ _); [intros [= <-]|]. }
  assert (Ha : rtc (allowedStep allowed) s (AuthenticateWorkerToken (clock 0%nat) rawToken s).2)
    by (plain_leaf (clock 0%nat) (CallAuthenticateWorkerToken rawToken)).
  destruct (AuthenticateWorkerToken (clock 0%nat) rawToken s) as [[c|e] s1]; cbn [fst snd] in *; [|by destruct e].
  specialize (Hc c eq_refl). etrans; [exact Ha|].
  destruct (decodeOne maxSyncBody decodeSync (rq_Body request)) as [sync| |]; [|reflexivity..].
  destruct (negb _); [reflexivity|]. destruct (_ || _); [reflexivity|]. rewrite call_run.
  assert (Hr : rtc (allowedStep allowed) s1 (SyncWorker (clock 1%nat) (wc_WorkerID c) sync s1).2).
  { refine (step_allowed (clock 1%nat) (CallSyncWorker _ _) _ _ (clock_year _) I (Hs _ sync Hc) _). apply ignore_state. }
  by destruct (SyncWorker (clock 1%nat) (wc_WorkerID c) sync s1) as [[response|e] s2].
Qed.

Lemma serve_state server request s :
  (ServeHTTP server clock request s).2 = (dispatch server clock request s).2.
Proof. unfold ServeHTTP. by destruct (dispatch server clock request s). Qed.

Lemma serve_allowed server request s :
  (forall credential sync, requestWorker request (db s) = Some credential ->
     allowed (CallSyncWorker (wc_WorkerID credential) sync)) ->
  rtc (allowedStep allowed) s (ServeHTTP server clock request s).2.
Proof.
  intros Hs. rewrite serve_state.
  apply (dispatch_cases (λ h, rtc (allowedStep allowed) s (h s).2)); [reflexivity|].
  repeat (apply Forall_cons; split; [intros id; cbn [snd api static]|]); [..|by apply workerSync_calls|apply Forall_nil; done];
    match goal with |- rtc _ _ (?h s).2 => assert (Hh : hobeys (rtc (allowedStep allowed)) h); [|apply Hh] end;
    try (apply authenticate_calls);
    [ unfold home | unfold jobPage | unfold consoleJobMetrics | unfold loginPage | unfold login | unfold logout
    | | | | | | unfold health | apply createJob_calls | unfold listJobs | unfold getJobDetail
    | apply writeJobMetrics_calls | unfold cancelJob | unfold jobReport | apply projectReport_calls
    | unfold listWorkers ]; hfollow call_leaf; try apply writeJobMetrics_calls.
Qed.
End allowed.

Lemma serve_calls server request s : rtc callStep s (ServeHTTP server clock request s).2.
Proof.
  by apply (allowed_calls (λ _, True)), serve_allowed.
Qed.

(** *** What authentication does *)

Lemma found_head {A} (rows : list A) e s : rows <> [] -> exists x, found (head rows) e s = (Ok x, s).
Proof. destruct rows as [|x rows]; [done|]. intros _. by exists x. Qed.

Lemma authenticateToken_unknown now rawToken s : tokenRows (db s) (sha256 rawToken) = [] ->
  AuthenticateAPIToken now rawToken s = (Err ErrNotFound, s).
Proof. intros E. unfold AuthenticateAPIToken. rewrite query_run, E. done. Qed.

Lemma authenticateWorker_unknown now rawToken s : tokenWorker (db s) (sha256 rawToken) = None ->
  AuthenticateWorkerToken now rawToken s = (Err ErrNotFound, s).
Proof. intros E. unfold AuthenticateWorkerToken. rewrite query_run, E. done. Qed.

(** A request without an operator's token is refused, and changes nothing. *)
Lemma authenticate_refuses server request next s : ~ operatorAuthorized server request (db s) ->
  exists message, authenticateAPI server clock request next s = (writeError 401 "unauthorized" message, s).
Proof.
  intros Hn. unfold authenticateAPI. destruct (bearerToken request) as [rawToken|] eqn:Eb; [|by eexists].
  destruct (String.eqb_spec (sha256 rawToken) (sv_tokenHash server)) as [E|_].
  { exfalso. apply Hn. exists rawToken. auto. }
  destruct (decide (tokenRows (db s) (sha256 rawToken) = [])) as [E|E].
  - rewrite call_run, authenticateToken_unknown by done. by eexists.
  - exfalso. apply Hn. exists rawToken. auto.
Qed.

Definition coreSame : relation St := λ s s', coreOf (db s') = coreOf (db s).
#[global] Instance coreSame_preorder : PreOrder coreSame.
Proof. split; [done|]. intros s1 s2 s3 E1 E2. unfold coreSame in *. congruence. Qed.

Lemma frames_same {A} (m : Act A) s : frames m -> coreSame s (m s).2.
Proof. intros Hm. unfold coreSame. destruct (m s) as [r s1] eqn:E. by apply (frames_run _ _ _ _ Hm E). Qed.
Lemma reads_same {A} (m : Act A) s : reads m -> coreSame s (m s).2.
Proof. intros Hm. by rewrite (Hm s). Qed.

Lemma authenticate_core server request next s :
  coreSame s (authenticateAPI server clock request next s).2 \/
  (operatorAuthorized server request (db s) /\
   exists s1, coreSame s s1 /\ authenticateAPI server clock request next s = next s1).
Proof.
  unfold authenticateAPI. destruct (bearerToken request) as [rawToken|] eqn:Eb; [|by left].
  destruct (String.eqb_spec (sha256 rawToken) (sv_tokenHash server)) as [E|_].
  { right. split; [exists rawToken; auto|]. by exists s. }
  rewrite call_run. assert (Hs : coreSame s (AuthenticateAPIToken (clock 0%nat) rawToken s).2).
  { apply frames_same. unfold AuthenticateAPIToken. frame. }
  destruct (decide (tokenRows (db s) (sha256 rawToken) = [])) as [E|E].
  - left. by rewrite authenticateToken_unknown by done.
  - destruct (AuthenticateAPIToken (clock 0%nat) rawToken s) as [[token|e] s1]; cbn [fst snd] in *.
    + right. split; [exists rawToken; auto|]. by exists s1.
    + left. by destruct e.
Qed.

Ltac core_leaf :=
  first
    [ apply reads_same; solve [auto with readers]
    | apply frames_same; first
        [ apply frames_AuthenticateWorkerToken
        | unfold AuthenticateAPIToken; solve [frame]
        | unfold AuthenticateBrowserSession, parsed; solve [frame]
        | unfold CreateBrowserSession, insertSession; solve [frame]
        | unfold DeleteBrowserSession; solve [frame] ]
    | idtac ].

Lemma writeJobMetrics_core request id : hobeys coreSame (writeJobMetrics request id).
Proof. unfold writeJobMetrics. hfollow core_leaf. Qed.
Lemma projectReport_core request : hobeys coreSame (projectReport clock request).
Proof. unfold projectReport. hfollow core_leaf. apply hobeys_readDetails; [apply _|]. hfollow idtac. Qed.

Lemma authenticate_same server request next : hobeys coreSame next ->
  hobeys coreSame (authenticateAPI server clock request next).
Proof. intros Hn. unfold authenticateAPI. hfollow core_leaf; done. Qed.

(** How a route may change jobs and attempts. *)
Definition writeOk (server : Server) (request : Request) (s s' : St) : Prop :=
  coreSame s s' \/
  (rq_Method request = "POST" /\
   ((operatorAuthorized server request (db s) /\
     (rq_Path request = submitPath \/ exists jobID, rq_Path request = cancelPath jobID) /\
     rtc (step None) (coreOf (db s)) (coreOf (db s'))) \/
    (rq_Path request = syncPath /\ exists credential, requestWorker request (db s) = Some credential /\
     rtc (step (Some (wc_WorkerID credential))) (coreOf (db s)) (coreOf (db s'))))).

Definition obeysWrites (server : Server) (request : Request) (h : Handler) : Prop :=
  forall s, writeOk server request s (h s).2.

Lemma writes_same server request h : hobeys coreSame h -> obeysWrites server request h.
Proof. intros Hh s. left. apply Hh. Qed.

Lemma writes_authenticated server request next : rq_Method request = "POST" ->
  (rq_Path request = submitPath \/ exists jobID, rq_Path request = cancelPath jobID) ->
  (forall s, rtc (step None) (coreOf (db s)) (coreOf (db (next s).2))) ->
  obeysWrites server request (authenticateAPI server clock request next).
Proof.
  intros Hm Hp Hn s. destruct (authenticate_core server request next s) as [?|(Ha & s1 & Hs & ->)]; [by left|].
  right. split; [done|]. left. split_and!; [done|done|]. rewrite <- Hs. apply Hn.
Qed.

Lemma createJob_steps request s : rtc (step None) (coreOf (db s)) (coreOf (db (createJob clock request s).2)).
Proof.
  assert (Hh : hobeys (λ s s', rtc (step None) (coreOf (db s)) (coreOf (db s'))) (createJob clock request)); [|apply Hh].
  assert (PreOrder (λ s s', rtc (step None) (coreOf (db s)) (coreOf (db s')))).
  { split; [intros x; reflexivity|]. intros x y z. apply transitivity. }
  unfold createJob. destruct (_ || _); [hfollow idtac|].
  destruct (decodeOne maxRequestBody decodeSpec (rq_Body request)) as [spec| |] eqn:E; [|hfollow idtac..].
  apply decodeOne_ok in E as (text & rest & Hd & _). apply decoded_typed in Hd.
  hfollow idtac. apply (Refinement.CreateJob_refines _ _ _ (clock_year 1%nat) Hd).
Qed.

Lemma cancelJob_steps jobID s : rtc (step None) (coreOf (db s)) (coreOf (db (cancelJob clock jobID s).2)).
Proof.
  unfold cancelJob. rewrite call_run. pose proof (Refinement.CancelJob_refines _ jobID (clock_year 1%nat) s) as Hc.
  by destruct (CancelJob (clock 1%nat) jobID s) as [[job|[]] s1].
Qed.

Lemma workerSync_writes server request : rq_Method request = "POST" -> rq_Path request = syncPath ->
  obeysWrites server request (workerSync clock request).
Proof.
  intros Hm Hp s. unfold workerSync. destruct (bearerToken request) as [rawToken|] eqn:Eb; [|by left]. rewrite call_run.
  destruct (tokenWorker (db s) (sha256 rawToken)) as [credential|] eqn:Et;
    [|left; by rewrite (authenticateWorker_unknown _ _ _ Et)].
  pose proof (frames_same _ s (frames_AuthenticateWorkerToken (clock 0%nat) rawToken)) as Hs.
  assert (Hc : forall c, (AuthenticateWorkerToken (clock 0%nat) rawToken s).1 = Ok c -> c = credential).
  { intros c. unfold AuthenticateWorkerToken. rewrite query_run, Et. by intros [= <-]. }
  destruct (AuthenticateWorkerToken (clock 0%nat) rawToken s) as [[c|e] s1]; cbn [fst snd] in *; [|left; by destruct e].
  rewrite (Hc c eq_refl). clear Hc. destruct (decodeOne maxSyncBody decodeSync (rq_Body request)) as [sync| |]; [|by left..].
  destruct (negb _); [by left|]. destruct (_ || _); [by left|]. rewrite call_run. right. split; [done|]. right.
  split; [done|]. exists credential. split; [unfold requestWorker; by rewrite Eb|]. rewrite <- Hs.
  pose proof (Refinement.SyncWorker_refines _ (wc_WorkerID credential) sync (clock_year 1%nat) s1) as Hr.
  by destruct (SyncWorker (clock 1%nat) (wc_WorkerID credential) sync s1) as [[response|e] s2].
Qed.

(** *** The routes *)

Lemma post_method method : methodMatches "POST" method = true -> method = "POST".
Proof. unfold methodMatches. by destruct (String.eqb_spec "POST" method). Qed.

Lemma matchPath_lits lits path : forall r, matchPath (Lit <$> lits) path = Some r -> path = lits.
Proof.
  revert path. induction lits as [|l lits IH]; intros [|x path] r; simpl; try done.
  destruct (String.eqb_spec l x) as [->|]; [|done]. intros Hp. by rewrite (IH _ _ Hp).
Qed.

Lemma matchPath_cancel path r :
  matchPath [Lit "api"; Lit "v1"; Lit "jobs"; Wild; Lit "cancel"] path = Some r -> exists id, path = cancelPath id.
Proof.
  destruct path as [|a [|b [|c [|d [|e [|f path]]]]]]; cbn [matchPath];
    repeat match goal with |- context [(?x =? ?y)%string] => destruct (String.eqb_spec x y); subst end; try done.
  intros _. by exists d.
Qed.

Lemma serve_writes server request : obeysWrites server request (ServeHTTP server clock request).
Proof.
  intros s. unfold writeOk. rewrite serve_state. fold (writeOk server request s (dispatch server clock request s).2).
  unfold dispatch. destruct (_ =? "*")%string; [by left|]. destruct (_ && _); [by left|].
  unfold routed. destruct (List.find _ routes) as [[[method pattern] handler]|] eqn:Ef.
  2: { left. by destruct (existsb _ routes). }
  apply find_some in Ef as [Hin [Hpath%bool_decide_eq_true Hmethod]%andb_true_iff].
  cbn [fst snd] in Hpath, Hmethod. destruct Hpath as [parameters Hpath]. rewrite Hpath.
  set (id := match parameters with id :: _ => id | [] => "" end). clearbody id. revert s.
  change (obeysWrites server request (handler server clock request id)).
  unfold routes in Hin. repeat (destruct Hin as [[= <- <- <-]|Hin]); [..|done];
    try (apply writes_same; try apply authenticate_same; cbn beta;
         unfold home, jobPage, consoleJobMetrics, loginPage, login, logout, health, listJobs, getJobDetail, jobReport,
           listWorkers;
         hfollow core_leaf; first [apply writeJobMetrics_core|apply projectReport_core]; fail).
  - apply post_method in Hmethod. apply (matchPath_lits submitPath) in Hpath.
    apply writes_authenticated; [done|by left|]. intros s. apply createJob_steps.
  - apply post_method in Hmethod. apply matchPath_cancel in Hpath.
    apply writes_authenticated; [done|by right|]. intros s. apply cancelJob_steps.
  - apply post_method in Hmethod. apply (matchPath_lits syncPath) in Hpath. by apply workerSync_writes.
Qed.

Lemma refused server request next s : ~ operatorAuthorized server request (db s) ->
  (authenticateAPI server clock request next s).2 = s /\
  rp_Status (authenticateAPI server clock request next s).1 ∈ [401; 404; 405].
Proof. intros Hn. destruct (authenticate_refuses server request next s Hn) as [m ->]. split; [done|apply list_elem_of_here]. Qed.

(** Without a token, a request to the API is refused. *)
Lemma routed_refuses server request s rest : rq_Path request = "api" :: rest \/ rq_Method request = "CONNECT" ->
  ~ operatorAuthorized server request (db s) -> requestWorker request (db s) = None ->
  (routed server clock request s).2 = s /\ rp_Status (routed server clock request s).1 ∈ [401; 404; 405].
Proof.
  intros Hp Hop Hw. unfold routed. destruct (List.find _ routes) as [[[method pattern] handler]|] eqn:Ef.
  2: { destruct (existsb _ routes); (split; [reflexivity|]); apply (bool_decide_unpack _); reflexivity. }
  apply find_some in Ef as [Hin [Hpath%bool_decide_eq_true Hmethod]%andb_true_iff].
  cbn [fst snd] in Hpath, Hmethod. destruct Hpath as [parameters Hpath]. rewrite Hpath.
  set (id := match parameters with id :: _ => id | [] => "" end). clearbody id.
  destruct Hp as [Hp|Hp]; [rewrite Hp in Hpath|
    by rewrite Hp in Hmethod; unfold routes in Hin; repeat (destruct Hin as [[= <- <- <-]|Hin])].
  unfold routes in Hin. repeat (destruct Hin as [[= <- <- <-]|Hin]); [..|done]; try discriminate Hpath;
    try (by apply refused).
  unfold workerSync. destruct (bearerToken request) as [rawToken|] eqn:Eb; [|split; [reflexivity|apply list_elem_of_here]].
  unfold requestWorker in Hw. rewrite Eb in Hw. rewrite call_run, (authenticateWorker_unknown _ _ _ Hw).
  split; [done|apply list_elem_of_here].
Qed.

Lemma serve_refuses server request s rest : pathSegments (cleanPath (rq_EscapedPath request)) = "api" :: rest ->
  ~ operatorAuthorized server request (db s) -> requestWorker request (db s) = None ->
  (ServeHTTP server clock request s).2 = s /\
  (rp_Status (ServeHTTP server clock request s).1 ∈ [401; 404; 405] \/
   (cleanPath (rq_EscapedPath request) <> rq_EscapedPath request /\
    rp_Status (ServeHTTP server clock request s).1 = 307)).
Proof.
  intros Hp Hop Hw. assert (Hd : (dispatch server clock request s).2 = s /\
    (rp_Status (dispatch server clock request s).1 ∈ [401; 404; 405] \/
     (cleanPath (rq_EscapedPath request) <> rq_EscapedPath request /\ rp_Status (dispatch server clock request s).1 = 307))).
  2: { unfold ServeHTTP. by destruct (dispatch server clock request s). }
  unfold dispatch. destruct (String.eqb_spec (rq_EscapedPath request) "*") as [E|_]; [by rewrite E in Hp|].
  destruct (String.eqb_spec (rq_Method request) "CONNECT") as [Em|_]; cbn [negb andb].
  { destruct (routed_refuses server request s rest (or_intror Em) Hop Hw) as [Hs Hst]. by split; [|left]. }
  destruct (String.eqb_spec (cleanPath (rq_EscapedPath request)) (rq_EscapedPath request)) as [Ec|Hc]; cbn [negb].
  - rewrite Ec in Hp. destruct (routed_refuses server request s rest (or_introl Hp) Hop Hw) as [Hs Hst]. by split; [|left].
  - split; [done|]. by right.
Qed.

(** *** Single routes *)

Lemma dispatch_submit server request : rq_Method request = "POST" -> rq_Path request = submitPath ->
  dispatch server clock request = authenticateAPI server clock request (createJob clock request).
Proof. intros Hm Hp. rewrite (dispatch_plain clock server request _ Hp eq_refl). unfold routed. by rewrite Hm, Hp. Qed.

Lemma dispatch_login server request : rq_Method request = "POST" -> rq_Path request = ["login"] ->
  dispatch server clock request = login clock request.
Proof. intros Hm Hp. rewrite (dispatch_plain clock server request _ Hp eq_refl). unfold routed. by rewrite Hm, Hp. Qed.

Lemma dispatch_loginPage server request : rq_Method request = "GET" -> rq_Path request = ["login"] ->
  dispatch server clock request = loginPage clock request.
Proof. intros Hm Hp. rewrite (dispatch_plain clock server request _ Hp eq_refl). unfold routed. by rewrite Hm, Hp. Qed.

Lemma authorized_cases server request d : operatorAuthorized server request d \/ ~ operatorAuthorized server request d.
Proof.
  unfold operatorAuthorized. destruct (bearerToken request) as [rawToken|]; [|right; by intros (? & ? & _)].
  destruct (decide (sha256 rawToken = sv_tokenHash server \/ tokenRows d (sha256 rawToken) <> [])) as [Ha|Ha].
  - left. by exists rawToken.
  - right. by intros (? & [= <-] & ?).
Qed.

(** An authorized request reaches its handler, in a state some calls later. *)
Lemma authenticate_passes server request next s : operatorAuthorized server request (db s) ->
  exists s1, rtc callStep s s1 /\ authenticateAPI server clock request next s = next s1.
Proof.
  intros (rawToken & Eb & Ha). unfold authenticateAPI. rewrite Eb.
  destruct (String.eqb_spec (sha256 rawToken) (sv_tokenHash server)) as [_|Hne]; [by exists s|].
  destruct Ha as [?|Hrows]; [done|]. rewrite call_run.
  assert (Hok : exists token, (AuthenticateAPIToken (clock 0%nat) rawToken s).1 = Ok token).
  { unfold AuthenticateAPIToken. rewrite query_run. destruct (found_head _ ErrNotFound s Hrows) as [x E].
    rewrite (bind_run _ _ _ _ _ E). by eexists. }
  destruct Hok as [token E]. rewrite E. eexists. split; [|reflexivity].
  rewrite <- ignore_state. apply rtc_once. exact (call_step s (clock 0%nat) (CallAuthenticateAPIToken rawToken) (clock_year _) I).
Qed.

(** What a submission answered. *)
Lemma createJob_created request s job : rp_Status (createJob clock request s).1 = 201 ->
  rp_Body (createJob clock request s).1 = JobBody job ->
  exists spec s1, decodeOne maxRequestBody decodeSpec (rq_Body request) = DecodedOne spec /\
    TrimSpace (rq_IdempotencyKey request) <> "" /\ len (TrimSpace (rq_IdempotencyKey request)) <= 200 /\
    CreateJob (clock 1%nat) (TrimSpace (rq_IdempotencyKey request)) spec s =
      (Ok {| cr_Job := job; cr_Created := true |}, s1) /\ (createJob clock request s).2 = s1.
Proof.
  unfold createJob. destruct (String.eqb_spec (TrimSpace (rq_IdempotencyKey request)) ""); [done|].
  destruct (Z.ltb_spec 200 (len (TrimSpace (rq_IdempotencyKey request)))); [done|]. cbn [orb].
  destruct (decodeOne maxRequestBody decodeSpec (rq_Body request)) as [spec| |]; [|done..]. rewrite call_run.
  destruct (CreateJob (clock 1%nat) _ spec s) as [[[job1 created]|e] s1] eqn:Er; [|by destruct e]. cbn [fst snd].
  destruct created; [|by intros [=]]. intros _ [= <-]. exists spec, s1. by split_and!.
Qed.

Lemma createJob_replays request spec job s : decodeOne maxRequestBody decodeSpec (rq_Body request) = DecodedOne spec ->
  TrimSpace (rq_IdempotencyKey request) <> "" -> len (TrimSpace (rq_IdempotencyKey request)) <= 200 ->
  CreateJob (clock 1%nat) (TrimSpace (rq_IdempotencyKey request)) spec s =
    (Ok {| cr_Job := job; cr_Created := false |}, s) ->
  (createJob clock request s).1 = respond 200 (JobBody job).
Proof.
  intros Hd Hk Hl Hr. unfold createJob. apply String.eqb_neq in Hk. rewrite Hk.
  destruct (Z.ltb_spec 200 (len (TrimSpace (rq_IdempotencyKey request)))); [lia|]. cbn [orb].
  by rewrite Hd, call_run, Hr.
Qed.

(** A login that set a cookie has made a session of an active token. *)
Lemma login_session request s value expires : rp_Cookie (login clock request s).1 = SetCookie value expires ->
  expires = clock 1%nat + sessionLife /\ value <> "" /\
  exists tokenID, sessionHeld (sha256 value) tokenID expires (db (login clock request s).2).
Proof.
  unfold login. destruct (rq_FormKey request maxFormBody) as [key|]; [|done]. rewrite call_run.
  destruct (AuthenticateAPIToken (clock 0%nat) (TrimSpace key) s) as [[token|e] s1] eqn:Ea; cbn [fst snd]; [|by destruct e].
  rewrite call_run.
  destruct (CreateBrowserSession (clock 2%nat) _ _ _ s1) as [[[]|e] s2] eqn:Ec; cbn [fst snd]; [|done].
  intros [= <- <-]. split; [done|]. split; [done|]. exists (tok_ID token). unfold answer. cbn [snd].
  apply AuthTheory.CreateBrowserSession_ok in Ec as (_ & [t Ht] & ->). split.
  - eexists. cbn [browser_sessions with_browser_sessions]. rewrite lookup_insert_eq. by split_and!.
  - exists t. split; [exact Ht|]. unfold AuthenticateAPIToken in Ea. rewrite query_run in Ea.
    apply bind_ok in Ea as (row & s3 & [Hrow ->]%found_ok & Ea). apply bind_ok in Ea as ([] & s4 & Hx & Ea).
    apply exec_ok in Hx as ->. apply ret_ok in Ea as [-> ->]. cbn [db tok_ID api_tokens with_api_tokens] in Ht.
    assert (Hin : row ∈ tokenRows (db s) (sha256 (TrimSpace key))).
    { destruct (tokenRows _ _); [done|]. injection Hrow as ->. apply list_elem_of_here. }
    destruct row as [id row]. apply elem_of_rowsWhere in Hin as [[_ Hr] Hl]. cbn [fst snd] in *.
    rewrite lookup_alter_eq, Hl in Ht. by injection Ht as <-.
Qed.

Lemma loginPage_signedIn request value tokenID expires s : rq_Cookie request = Some value -> value <> "" ->
  GoTime.fourDigitYear expires -> clock 0%nat < expires -> sessionHeld (sha256 value) tokenID expires (db s) ->
  (loginPage clock request s).1 = redirect "/".
Proof.
  intros Hc Hv Hy Hlt Hh. unfold loginPage, browserSession. rewrite Hc. apply String.eqb_neq in Hv. rewrite Hv, call_run.
  destruct (AuthTheory.held_authenticates (clock 0%nat) value tokenID expires s (clock_year 0%nat) Hy Hlt Hh) as [name E].
  by rewrite E.
Qed.
End theory.
End HttpTheory.

Section properties.
Context `{Env} `{HttpEnv} `{!HttpLaws}.

(** Serving any request is a sequence of calls of the store, so whatever
    holds after all calls holds of a control plane that serves requests. *)
Theorem serving_is_calls (server : Server) (clock : Clock) (request : Request) (s : St) :
  clockOk clock -> rtc callStep s (ServeHTTP server clock request s).2.
Proof. intros Hc. by apply HttpTheory.serve_calls. Qed.

(** C11: Jobs and attempts change only by POST requests: a submission or a
    cancellation with an operator's token, or a sync with the token of a worker,
    which only uses the rules for that worker's own attempts. *)
Theorem writes_authorized (server : Server) (clock : Clock) (request : Request) (s : St) :
  clockOk clock ->
  let s' := (ServeHTTP server clock request s).2 in
  coreOf (db s') = coreOf (db s) \/
  (rq_Method request = "POST" /\
   ((operatorAuthorized server request (db s) /\
     (rq_Path request = submitPath \/ exists jobID, rq_Path request = cancelPath jobID) /\
     rtc (step None) (coreOf (db s)) (coreOf (db s'))) \/
    (rq_Path request = syncPath /\ exists credential, requestWorker request (db s) = Some credential /\
     rtc (step (Some (wc_WorkerID credential))) (coreOf (db s)) (coreOf (db s'))))).
Proof. intros Hc. by apply HttpTheory.serve_writes. Qed.

(** C39: A request to the API with neither an operator's nor a worker's token
    changes nothing, and is answered with 401 (or 404 or 405 where there is no
    such route), or, where its path is not clean, with the redirect (307) to the
    clean path, which net/http answers before any handler. *)
Theorem unauthenticated_refused (server : Server) (clock : Clock) (request : Request) (s : St) (rest : list string) :
  pathSegments (cleanPath (rq_EscapedPath request)) = "api" :: rest ->
  ~ operatorAuthorized server request (db s) -> requestWorker request (db s) = None ->
  (ServeHTTP server clock request s).2 = s /\
  (rp_Status (ServeHTTP server clock request s).1 ∈ [401; 404; 405] \/
   (cleanPath (rq_EscapedPath request) <> rq_EscapedPath request /\
    rp_Status (ServeHTTP server clock request s).1 = 307)).
Proof. apply HttpTheory.serve_refuses. Qed.

(** C32: Submitting over HTTP is idempotent: when a submission was answered with
    201 and a job, the same request, authorized, is at any later time answered
    with 200 and that job. *)
Theorem submission_repeated (server : Server) (clock clock' : Clock) (request : Request) (s s2 : St) (job : Job) :
  reachable s -> clockOk clock -> clockOk clock' -> rq_Method request = "POST" -> rq_Path request = submitPath ->
  let r := ServeHTTP server clock request s in
  rp_Status r.1 = 201 -> rp_Body r.1 = JobBody job ->
  rtc callStep r.2 s2 -> operatorAuthorized server request (db s2) ->
  exists job', rp_Status (ServeHTTP server clock' request s2).1 = 200 /\
    rp_Body (ServeHTTP server clock' request s2).1 = JobBody job' /\ j_ID job' = j_ID job.
Proof.
  intros Hs Hc Hc' Hm Hp r Hst Hb Hcalls Ha. unfold r, ServeHTTP in Hst, Hb, Hcalls.
  rewrite HttpTheory.dispatch_submit in Hst, Hb, Hcalls by done.
  assert (Hop : operatorAuthorized server request (db s)).
  { destruct (HttpTheory.authorized_cases server request (db s)) as [?|Hn]; [done|].
    destruct (HttpTheory.authenticate_refuses clock server request (createJob clock request) s Hn) as [m E].
    rewrite E in Hst. discriminate Hst. }
  destruct (HttpTheory.authenticate_passes clock Hc server request (createJob clock request) s Hop) as (s1 & Hs1 & E).
  rewrite E in Hst, Hb, Hcalls. rewrite (surjective_pairing (createJob clock request s1)) in Hst, Hb, Hcalls.
  cbn [fst snd withRequestID rp_Status rp_Body] in Hst, Hb, Hcalls.
  destruct (HttpTheory.createJob_created _ _ _ _ Hst Hb) as (spec & s3 & Hd & Hk & Hl & Hr & E3). rewrite E3 in Hcalls.
  destruct (HttpTheory.authenticate_passes clock' Hc' server request (createJob clock' request) s2 Ha) as (s4 & Hs4 & E4).
  assert (Ht : SpecTyped spec) by (apply HttpTheory.decodeOne_ok in Hd as (? & ? & Hd & _); by apply decoded_typed in Hd).
  assert (Hreach : reachable s1) by (unfold reachable in *; by etrans).
  assert (Hlater : rtc callStep s3 s4) by by etrans.
  destruct (JobTheory.create_again (clock 1%nat) (clock' 1%nat) _ spec s1 s3 s4 _ Hreach (proj1 (Hc 1%nat)) Ht Hr
    Hlater) as (job' & Hr' & Hid).
  pose proof (HttpTheory.createJob_replays clock' request spec job' s4 Hd Hk Hl Hr') as Hresp.
  exists job'. unfold ServeHTTP. rewrite HttpTheory.dispatch_submit by done. rewrite E4.
  rewrite (surjective_pairing (createJob clock' request s4)), Hresp. by split_and!.
Qed.

(** A login lasts 90 days: after a login that set a cookie, any calls that do
    not delete the session, at any time before the cookie expires, a browser that
    sends the cookie is signed in. *)
Theorem login_lasts (server : Server) (clock clock' : Clock) (request later : Request) (s s2 : St)
    (value : string) (expires : time) :
  clockOk clock -> clockOk clock' ->
  rq_Method request = "POST" -> rq_Path request = ["login"] ->
  rq_Method later = "GET" -> rq_Path later = ["login"] -> rq_Cookie later = Some value ->
  let r := ServeHTTP server clock request s in
  rp_Cookie r.1 = SetCookie value expires ->
  rtc (λ x y, exists t c, AuthTheory.quiet (sha256 value) expires t c /\ y = (perform t c x).2) r.2 s2 ->
  clock' 0%nat < expires ->
  expires = clock 1%nat + sessionLife /\ rp_Location (ServeHTTP server clock' later s2).1 = "/".
Proof.
  intros Hc Hc' Hm Hp Hm' Hp' Hcookie r Hset Hcalls Hlt. unfold r, ServeHTTP in Hset, Hcalls.
  rewrite HttpTheory.dispatch_login in Hset, Hcalls by done.
  rewrite (surjective_pairing (login clock request s)) in Hset, Hcalls. cbn [fst snd withRequestID rp_Cookie] in Hset, Hcalls.
  destruct (HttpTheory.login_session _ _ _ _ _ Hset) as (E & Hv & tokenID & Hh). split; [done|].
  assert (Hy : GoTime.fourDigitYear expires) by (rewrite E; apply (Hc 1%nat)).
  assert (Hh2 : sessionHeld (sha256 value) tokenID expires (db s2)).
  { clear Hlt Hset. revert Hh. induction Hcalls as [|x y z (t & c & Hq & ->) _ IH]; [done|]. intros Hh. apply IH.
    by apply (AuthTheory.perform_session_held _ tokenID expires t c Hy Hq x). }
  unfold ServeHTTP. rewrite HttpTheory.dispatch_loginPage by done.
  rewrite (surjective_pairing (loginPage clock' later s2)).
  by rewrite (HttpTheory.loginPage_signedIn clock' Hc' later value tokenID expires s2 Hcookie Hv Hy Hlt Hh2).
Qed.
End properties.

(** ** The properties on a concrete server *)

#[local] Existing Instance demoEnv.

#[local] Instance demoHttp : HttpEnv := {
  decodeSpec text := if (text =? "job")%string then Some (demoSpec, "") else None;
  decodeSync text := None;
  errorText e := "error";
}.
#[local] Instance demoHttpLaws : HttpLaws.
Proof.
  split. intros body spec rest. simpl. destruct (_ =? _)%string; [|done]. intros [= <- _]. exact demoSpec_typed.
Qed.

Definition noon : Clock := λ _, t0.
Lemma noon_ok : clockOk noon.
Proof. intros n. split; [exact t0_year|]. apply (bool_decide_unpack _). reflexivity. Qed.

Definition bootstrap : string := unchars (replicate 32 "b"%char).
Definition demoHttpServer : Server := {| sv_tokenHash := sha256 bootstrap |}.

Definition demoRequestTo (method path authorization : string) (cookie : option string)
    (body : string) : Request := {|
  rq_Method := method; rq_EscapedPath := path; rq_RawQuery := ""; rq_Authorization := authorization; rq_IdempotencyKey := "key";
  rq_Cookie := cookie; rq_Query := λ _, ""; rq_FormKey := λ _, Some demoToken; rq_Body := body; rq_ID := "req_1";
  rq_Random := replicate 32 x00 |}.

Definition submission : Request := demoRequestTo "POST" "/api/v1/jobs" ("Bearer " +:+ bootstrap) None "job".
Definition served : Response * St := ServeHTTP demoHttpServer noon submission enrolled.

Lemma serving_is_calls_witness : rp_Status served.1 = 201 /\ rtc callStep enrolled served.2.
Proof. split; [vm_compute; reflexivity|]. exact (serving_is_calls demoHttpServer noon submission enrolled noon_ok). Defined.

Lemma submission_authorized d : operatorAuthorized demoHttpServer submission d.
Proof. exists bootstrap. split; [vm_compute; reflexivity|by left]. Qed.

Lemma writes_authorized_witness :
  coreOf (db served.2) = coreOf (db enrolled) \/
  (rq_Method submission = "POST" /\
   ((operatorAuthorized demoHttpServer submission (db enrolled) /\
     (rq_Path submission = submitPath \/ exists jobID, rq_Path submission = cancelPath jobID) /\
     rtc (step None) (coreOf (db enrolled)) (coreOf (db served.2))) \/
    (rq_Path submission = syncPath /\ exists credential, requestWorker submission (db enrolled) = Some credential /\
     rtc (step (Some (wc_WorkerID credential))) (coreOf (db enrolled)) (coreOf (db served.2))))).
Proof. exact (writes_authorized demoHttpServer noon submission enrolled noon_ok). Defined.

(** The same without a token, and with a path that is not clean. *)
Definition anonymous : Request := demoRequestTo "POST" "/api/v1/jobs" "" None "job".
Definition unclean : Request := demoRequestTo "POST" "/api//v1/jobs" "" None "job".

Lemma unauthenticated_refused_witness :
  (ServeHTTP demoHttpServer noon anonymous enrolled).2 = enrolled /\
  rp_Status (ServeHTTP demoHttpServer noon anonymous enrolled).1 = 401 /\
  (ServeHTTP demoHttpServer noon unclean enrolled).2 = enrolled /\
  rp_Status (ServeHTTP demoHttpServer noon unclean enrolled).1 = 307 /\
  rp_Location (ServeHTTP demoHttpServer noon unclean enrolled).1 = "/api/v1/jobs".
Proof.
  assert (Hn : forall request, rq_Authorization request = "" -> ~ operatorAuthorized demoHttpServer request (db enrolled)).
  { intros request Ha (rawToken & E & _). unfold bearerToken in E. rewrite Ha in E. discriminate E. }
  split; [|split; [vm_compute; reflexivity|split; [|split; vm_compute; reflexivity]]];
    [apply (unauthenticated_refused demoHttpServer noon anonymous enrolled ["v1"; "jobs"])
    |apply (unauthenticated_refused demoHttpServer noon unclean enrolled ["v1"; "jobs"])];
    first [by apply Hn|vm_compute; reflexivity].
Defined.

Definition servedJob : Job :=
  match rp_Body served.1 with
  | JobBody job => job
  | _ => {| j_ID := ""; j_State := JobQueued; j_Revision := 0; j_Spec := demoSpec; j_CreatedAt := 0; j_UpdatedAt := 0 |}
  end.

Lemma submission_repeated_witness : exists job',
  rp_Status (ServeHTTP demoHttpServer noon submission served.2).1 = 200 /\
  rp_Body (ServeHTTP demoHttpServer noon submission served.2).1 = JobBody job' /\ j_ID job' = j_ID servedJob.
Proof.
  apply (submission_repeated demoHttpServer noon noon submission enrolled served.2 servedJob); try exact noon_ok.
  - exact enrolled_reachable.
  - reflexivity.
  - reflexivity.
  - vm_compute. reflexivity.
  - vm_compute. reflexivity.
  - apply rtc_refl.
  - apply submission_authorized.
Defined.

Definition signingIn : Request := demoRequestTo "POST" "/login" "" None "".
Definition loggedIn : Response * St := ServeHTTP demoHttpServer noon signingIn demoTokenRun.2.
Definition demoCookie : string := match rp_Cookie loggedIn.1 with SetCookie value _ => value | _ => "" end.
Definition returning : Request := demoRequestTo "GET" "/login" "" (Some demoCookie) "".

Lemma login_lasts_witness : t0 + sessionLife = noon 1%nat + sessionLife /\
  rp_Location (ServeHTTP demoHttpServer noon returning loggedIn.2).1 = "/".
Proof.
  apply (login_lasts demoHttpServer noon noon signingIn returning demoTokenRun.2 loggedIn.2 demoCookie (t0 + sessionLife));
    [exact noon_ok|exact noon_ok|reflexivity|reflexivity|reflexivity|reflexivity|reflexivity| |apply rtc_refl|reflexivity].
  vm_compute. reflexivity.
Defined.
