(* ===== verification/DetailsProperties.v ===== *)
(** * Reading a job: the properties

    A job's detail is complete and its attempts are in order; a page that polls
    the metrics of a running job sees every sample once; and the response to a
    poll shows each sample in one series. *)

From S2P Require Import Prelude Times GoLib Encoding Ids Domain Validate ValidateSpec Database Jobs Health Events.
From S2P Require Import Lifecycle Auth Scheduler Sync Control Scenario Guarantees History Storage JobProperties.
From S2P Require Import Details Report Http HttpLog.

Module DetailsTheory.

(** *** Scanned rows *)

Section scans.
Context `{Env}.

Lemma parsed_ok text s t s' : parsed text s = (Ok t, s') -> s' = s.
Proof. unfold parsed. by intros [_ ->]%found_ok. Qed.

Lemma optional_ok value s t s' : parseOptionalTime value s = (Ok t, s') -> s' = s.
Proof.
  destruct value as [text|]; simpl; [|by intros [= _ <-]]. intros Hr. run_inv Hr. apply parsed_ok in R as ->.
  by apply ret_ok in Hr as [_ ->].
Qed.

(** Closes the times of a scanned row. *)
Ltac scanned Hr :=
  run_inv Hr;
  repeat match goal with
  | R : parsed _ _ = (Ok _, _) |- _ => apply parsed_ok in R as ->
  | R : parseOptionalTime _ _ = (Ok _, _) |- _ => apply optional_ok in R as ->
  | R : found _ _ _ = (Ok _, _) |- _ => apply found_ok in R as [_ ->]
  end;
  apply ret_ok in Hr as [-> ->].

Lemma scanAttempt_ok row s a s' : scanAttempt row s = (Ok a, s') ->
  s' = s /\ a_ID a = row.1 /\ a_AttemptNumber a = at_number row.2.
Proof. destruct row as [id row]. intros Hr. unfold scanAttempt in Hr. scanned Hr. done. Qed.

Lemma scanMetric_ok m s x s' : scanMetric m s = (Ok x, s') ->
  s' = s /\ rm_EventID x = mr_event_id m /\ rm_Name x = mr_name m /\ rm_Value x = mr_value m.
Proof. intros Hr. unfold scanMetric in Hr. scanned Hr. done. Qed.

Lemma scanArtifact_ok row s x s' : scanArtifact row s = (Ok x, s') ->
  s' = s /\ (f_AttemptID x, f_Name x, f_URI x) = row.1.
Proof. destruct row as [[[attemptID name] uri] f]. intros Hr. unfold scanArtifact in Hr. scanned Hr. done. Qed.

Lemma scanFiring_ok row s x s' : scanFiring row s = (Ok x, s') -> s' = s /\ h_ID x = row.1.1.
Proof. destruct row as [[id f] [deliveryID w]]. intros Hr. unfold scanFiring in Hr. scanned Hr. done. Qed.

Lemma scanAll_ok {A B K} (rows : DB -> list A) (scan : A -> Act B) (f : A -> K) (g : B -> K) s ys s' :
  (forall x s1 y s2, scan x s1 = (Ok y, s2) -> s2 = s1 /\ g y = f x) ->
  scanAll rows scan s = (Ok ys, s') -> s' = s /\ g <$> ys = f <$> rows (db s).
Proof.
  intros Hscan. unfold scanAll. rewrite query_run. intros Hr.
  apply (collect_ok scan _ (λ x y, g y = f x)) in Hr as [-> Hf]; [|done]. split; [done|].
  induction Hf as [|x y xs ys' Hxy _ IH]; [done|]. rewrite !fmap_cons, IH. by f_equal.
Qed.

Lemma seqZ_sorted m n : StronglySorted Z.le (seqZ m (Z.of_nat n)).
Proof.
  revert m. induction n as [|n IH]; intros m; [constructor|]. rewrite seqZ_cons by lia.
  replace (Z.pred (Z.of_nat (S n))) with (Z.of_nat n) by lia. constructor; [apply IH|].
  apply Forall_forall. intros x Hx%elem_of_seqZ. lia.
Qed.

(** A sorted list of numbers that is a range up to order is the range. *)
Lemma sorted_range (l : list Z) n : StronglySorted Z.le l -> l ≡ₚ seqZ 1 (Z.of_nat n) -> l = seqZ 1 (Z.of_nat n).
Proof. intros Hs Hp. apply (StronglySorted_unique Z.le); [done|apply seqZ_sorted|done]. Qed.

Lemma attemptRows_sorted d jobID : StronglySorted Z.le (at_number ∘ snd <$> attemptRows d jobID).
Proof.
  assert (Ht : Total (isLe attemptOrder)).
  { intros x y. unfold isLe, attemptOrder, notGt, lexc. rewrite (Z.compare_antisym (at_number x.2)).
    destruct (at_number x.2 ?= at_number y.2); simpl; [|by left|by right].
    rewrite (Text.cmp_antisym x.1 y.1). destruct (Text.cmp x.1 y.1); simpl; auto. }
  assert (Hs : Sorted (isLe attemptOrder) (attemptRows d jobID)) by apply Sorted_merge_sort, Ht.
  apply Sorted_StronglySorted; [intros a b c; lia|]. induction Hs as [|x l _ IH Hx]; [constructor|].
  rewrite fmap_cons. constructor; [done|]. destruct Hx as [|y l Hxy]; [constructor|]. rewrite fmap_cons. constructor.
  unfold isLe, attemptOrder, notGt, lexc in Hxy. simpl. destruct (Z.compare_spec (at_number x.2) (at_number y.2)); try lia.
Qed.

Lemma GetJobDetail_ok jobID s detail s' : GetJobDetail jobID s = (Ok detail, s') ->
  s' = s /\ getJob jobID s = (Ok (jd_Job detail), s) /\
  a_ID <$> jd_Attempts detail = fst <$> attemptRows (db s) jobID /\
  a_AttemptNumber <$> jd_Attempts detail = at_number ∘ snd <$> attemptRows (db s) jobID /\
  rm_EventID <$> jd_Metrics detail = mr_event_id <$> metricRows (db s) jobID /\
  (λ f, (f_AttemptID f, f_Name f, f_URI f)) <$> jd_Artifacts detail = fst <$> artifactRows (db s) jobID /\
  h_ID <$> jd_Health detail = (λ row, row.1.1) <$> healthRows (db s) jobID.
Proof.
  intros Hr. assert (E : s' = s) by (pose proof (GetJobDetail_reads jobID s) as E; by rewrite Hr in E). subst s'.
  unfold GetJobDetail in Hr. run_inv Hr. apply ret_ok in Hr as [-> _]. cbn [jd_Job jd_Attempts jd_Metrics jd_Artifacts jd_Health].
  pose proof (GetJob_reads jobID s) as E. unfold GetJob in R, E. rewrite R in E. simpl in E. subst s0.
  pose proof (scanAll_ok _ _ fst a_ID _ _ _ (λ x s1 y s2 Hx, let '(conj a (conj b _)) := scanAttempt_ok x s1 y s2 Hx in conj a b) R0) as [-> H1'].
  pose proof (scanAll_ok _ _ (at_number ∘ snd) a_AttemptNumber _ _ _ (λ x s1 y s2 Hx, let '(conj a (conj _ b)) := scanAttempt_ok x s1 y s2 Hx in conj a b) R0) as [_ H2'].
  pose proof (scanAll_ok _ _ mr_event_id rm_EventID _ _ _ (λ x s1 y s2 Hx, let '(conj a (conj b _)) := scanMetric_ok x s1 y s2 Hx in conj a b) R1) as [-> H3'].
  pose proof (scanAll_ok _ _ fst (λ f, (f_AttemptID f, f_Name f, f_URI f)) _ _ _ scanArtifact_ok R2) as [-> H4'].
  pose proof (scanAll_ok _ _ (λ row, row.1.1) h_ID _ _ _ scanFiring_ok R3) as [-> H5'].
  by split_and!.
Qed.

(** *** Points behind a cursor *)

Definition rowID : Z * Z * MetricRow -> Z := λ row, row.1.1.

(** What a row of the query becomes; none where its time does not parse. *)
Definition pointOf (row : Z * Z * MetricRow) : option JobMetricPoint :=
  t ← parseTime (mr_observed_at row.2);
  Some {| mp_Name := mr_name row.2; mp_Attempt := row.1.2; mp_Step := mr_step row.2; mp_Value := mr_value row.2;
          mp_ObservedAt := t |}.

Lemma scanPoint_run row s : (exists e, pointOf row = None /\ scanPoint row s = (Err e, s)) \/
  (exists p, pointOf row = Some p /\ scanPoint row s = (Ok p, s)).
Proof.
  destruct row as [[i n] m]. unfold pointOf, scanPoint, parsed, found, mbind, M_bind. cbn [fst snd].
  destruct (parseTime (mr_observed_at m)); [right|left]; by eexists.
Qed.

Lemma points_run rows s : forall points cursor,
  (exists e, mapM pointOf rows = None /\
     mfold rows (points, cursor) (λ acc row, point ← scanPoint row; mret (acc.1 ++ [point], row.1.1)) s = (Err e, s)) \/
  (exists ps, mapM pointOf rows = Some ps /\
     mfold rows (points, cursor) (λ acc row, point ← scanPoint row; mret (acc.1 ++ [point], row.1.1)) s =
     (Ok (points ++ ps, default cursor (last (rowID <$> rows))), s)).
Proof.
  induction rows as [|row rows IH]; intros points cursor.
  - right. exists []. by rewrite app_nil_r.
  - cbn [mfold mapM]. destruct (scanPoint_run row s) as [(e & E1 & E2)|(p & E1 & E2)].
    + left. exists e. rewrite E1. split; [done|]. apply bind_run_err. by apply bind_run_err.
    + rewrite E1. rewrite (bind_run _ _ s (points ++ [p], row.1.1) s) by (by rewrite (bind_run _ _ _ _ _ E2)).
      destruct (IH (points ++ [p]) row.1.1) as [(e & E3 & E4)|(ps & E3 & E4)]; [left; exists e|right; exists (p :: ps)].
      * by rewrite E3, E4.
      * rewrite E3, E4, <- app_assoc. split; [done|]. rewrite fmap_cons, last_cons. by destruct (last (rowID <$> rows)).
Qed.

Lemma ListJobMetricPoints_ok jobID after s ps c s' : ListJobMetricPoints jobID after s = (Ok (ps, c), s') <->
  s' = s /\ mapM pointOf (pointRows (db s) jobID after) = Some ps /\
  c = default after (last (rowID <$> pointRows (db s) jobID after)).
Proof.
  unfold ListJobMetricPoints. rewrite query_run.
  destruct (points_run (pointRows (db s) jobID after) s [] after) as [(e & -> & E)|(ps1 & -> & E)].
  - split; [|by intros (_ & ? & _)]. intros Hr. exfalso. cbv zeta in E. rewrite E in Hr. done.
  - split; [|intros (-> & [= ->] & ->); exact E]. intros Hr. cbv zeta in E. rewrite E in Hr.
    injection Hr as <- <- <-. by split_and!.
Qed.

(** The identifiers count up. *)
Lemma numbered_ids d : fst <$> numbered d = seqZ 1 (Z.of_nat (length (metric_samples d))).
Proof.
  apply list_eq. intros i. unfold numbered. rewrite list_lookup_fmap, list_lookup_imap.
  destruct (metric_samples d !! i) as [m|] eqn:E; simpl.
  - apply lookup_lt_Some in E. symmetry. apply lookup_seqZ. lia.
  - apply lookup_ge_None in E. symmetry. apply lookup_seqZ_ge. lia.
Qed.

Lemma pointRow_some d jobID after row x : pointRow d jobID after row = Some x ->
  rowID x = row.1 /\ after < row.1 /\ at_job_id <$> attempts d !! mr_attempt_id row.2 = Some jobID.
Proof.
  unfold pointRow. destruct (attempts d !! _) as [a|]; [|done]. simpl. case_bool_decide as Hb; [|done].
  destruct Hb as [-> Hb]. by intros [= <-].
Qed.

(** Of rows with increasing identifiers, the last one found bounds the others. *)
Lemma last_bound (f : Z * MetricRow -> option (Z * Z * MetricRow)) rows x :
  StronglySorted Z.lt (fst <$> rows) -> (forall r y, f r = Some y -> rowID y = r.1) -> x ∈ omap f rows ->
  exists m, last (rowID <$> omap f rows) = Some m /\ rowID x <= m.
Proof.
  intros Hs Hf. induction rows as [|r rows IH]; [by intros ?%elem_of_nil|]. rewrite fmap_cons in Hs.
  inversion Hs as [|?? Hs' Hr]; subst.
  change (omap f (r :: rows)) with (match f r with Some y => y :: omap f rows | None => omap f rows end).
  destruct (f r) as [y|] eqn:Ey; [|by apply IH]. rewrite fmap_cons, last_cons. intros [->|Hin]%elem_of_cons.
  - destruct (last (rowID <$> omap f rows)) as [m|] eqn:El; [|by eexists].
    exists m. split; [done|]. apply last_Some_elem_of, list_elem_of_fmap in El as (z & -> & Hz).
    apply list_elem_of_omap in Hz as (r' & Hr' & Hz). rewrite (Hf _ _ Ey), (Hf _ _ Hz).
    rewrite Forall_fmap, Forall_forall in Hr. specialize (Hr _ Hr'). simpl in Hr. lia.
  - destruct (IH Hs' Hin) as (m & -> & Hm). by exists m.
Qed.

Definition cursorOf (d : DB) (jobID : string) (after : Z) : Z :=
  default after (last (rowID <$> pointRows d jobID after)).

(** Behind the cursor there is no row of the job. *)
Lemma cursor_done d jobID after row : row ∈ numbered d -> pointRow d jobID (cursorOf d jobID after) row = None.
Proof.
  intros Hin. destruct (pointRow d jobID (cursorOf d jobID after) row) as [x|] eqn:Ex; [|done]. exfalso.
  apply pointRow_some in Ex as (_ & Hc & Hj). unfold cursorOf in Hc.
  assert (Hb : StronglySorted Z.lt (fst <$> numbered d)).
  { rewrite numbered_ids. generalize 1 as k. induction (length (metric_samples d)) as [|n IH]; intros k; [constructor|].
    rewrite seqZ_cons by lia. replace (Z.pred (Z.of_nat (S n))) with (Z.of_nat n) by lia. constructor; [apply IH|].
    apply Forall_forall. intros y Hy%elem_of_seqZ. lia. }
  destruct (decide (after < row.1)) as [Ha|Ha].
  - apply fmap_Some in Hj as (a & Hrow & ->).
    assert (Ex : pointRow d (at_job_id a) after row = Some (row.1, at_number a, row.2))
      by (unfold pointRow; rewrite Hrow; simpl; by rewrite bool_decide_eq_true_2).
    destruct (last_bound (pointRow d (at_job_id a) after) (numbered d) (row.1, at_number a, row.2)) as (m & Hm & Hle);
      [done|by intros r y (? & _)%pointRow_some|apply list_elem_of_omap; eauto|].
    unfold pointRows in Hc. rewrite Hm in Hc. unfold rowID in Hle. simpl in *. lia.
  - destruct (last (rowID <$> pointRows d jobID after)) as [m|] eqn:El; [|simpl in Hc; lia].
    apply last_Some_elem_of, list_elem_of_fmap in El as (z & -> & Hz). apply list_elem_of_omap in Hz as (r & _ & Hz).
    apply pointRow_some in Hz as (E & Hlt & _). simpl in Hc. lia.
Qed.

Lemma cursor_range d jobID after : let c := cursorOf d jobID after in
  c = after \/ (after < c /\ c <= Z.of_nat (length (metric_samples d))).
Proof.
  unfold cursorOf. destruct (last _) as [m|] eqn:El; [right|by left].
  apply last_Some_elem_of, list_elem_of_fmap in El as (z & -> & Hz). apply list_elem_of_omap in Hz as (r & Hin & Hz).
  apply pointRow_some in Hz as (E & Hlt & _). simpl. rewrite E. split; [done|].
  assert (Hr : r.1 ∈ fst <$> numbered d) by by apply list_elem_of_fmap_2.
  rewrite numbered_ids in Hr. apply elem_of_seqZ in Hr. lia.
Qed.

Lemma omap_same {A B} (f g : A -> option B) (xs : list A) : (forall x, x ∈ xs -> f x = g x) -> omap f xs = omap g xs.
Proof.
  induction xs as [|x xs IH]; intros E; [done|]. cbn. rewrite (E x) by apply list_elem_of_here.
  assert (IH' : omap f xs = omap g xs) by (apply IH; intros y Hy; apply E; by apply list_elem_of_further).
  cbn in IH'. by rewrite IH'.
Qed.

Lemma omap_none {A B} (f : A -> option B) (xs : list A) : (forall x, x ∈ xs -> f x = None) -> omap f xs = [].
Proof. intros E. rewrite (omap_same f (λ _, None) xs E). clear E. induction xs as [|x xs IH]; [done|exact IH]. Qed.

(** What a later database returns from the start is what was returned before
    and what it returns behind the cursor. *)
Lemma pointRows_resume d d' jobID after : metric_samples d `prefix_of` metric_samples d' ->
  (forall m, m ∈ metric_samples d -> (λ a, (at_job_id a, at_number a)) <$> attempts d' !! mr_attempt_id m =
                                     (λ a, (at_job_id a, at_number a)) <$> attempts d !! mr_attempt_id m) ->
  pointRows d' jobID after = pointRows d jobID after ++ pointRows d' jobID (cursorOf d jobID after).
Proof.
  intros [more E] Hsame. set (c := cursorOf d jobID after).
  assert (En : exists tail, numbered d' = numbered d ++ tail /\ Forall (λ r, Z.of_nat (length (metric_samples d)) < r.1) tail).
  { unfold numbered. rewrite E, imap_app. eexists. split; [reflexivity|]. apply Forall_lookup. intros i x.
    rewrite list_lookup_imap. destruct (more !! i); [|done]. intros [= <-]. simpl. lia. }
  destruct En as (tail & En & Htail).
  assert (Hold : forall row cur, row ∈ numbered d -> pointRow d' jobID cur row = pointRow d jobID cur row).
  { intros row cur Hin. unfold numbered in Hin. apply elem_of_lookup_imap in Hin as (i & m & -> & Hm).
    apply list_elem_of_lookup_2 in Hm. specialize (Hsame _ Hm). unfold pointRow. simpl.
    destruct (attempts d !! mr_attempt_id m), (attempts d' !! mr_attempt_id m); simpl in *; try done.
    injection Hsame as -> ->. done. }
  unfold pointRows. rewrite En, !omap_app. f_equal; [by apply omap_same; intros; apply Hold|].
  rewrite (omap_none _ (numbered d)) by (intros row Hin; rewrite Hold by done; by apply cursor_done). simpl.
  apply omap_same. intros row Hin. rewrite Forall_forall in Htail. specialize (Htail _ Hin).
  destruct (cursor_range d jobID after) as [Hc|[Hc1 Hc2]]; [fold c in Hc; by rewrite Hc|fold c in Hc1, Hc2].
  unfold pointRow. destruct (attempts d' !! _); [|done]. simpl.
  do 2 case_bool_decide; try done; exfalso; intuition lia.
Qed.

End scans.

(** *** What the calls keep *)

Section kept.
Context `{Env}.

Lemma calls_attempt s s' aid a : rtc callStep s s' -> attempts (db s) !! aid = Some a ->
  exists a', attempts (db s') !! aid = Some a' /\ at_job_id a' = at_job_id a /\ at_number a' = at_number a.
Proof.
  intros Hs. revert a. induction Hs as [|s1 s2 s3 [s1' now c Hy Ht] _ IH]; intros a Ha; [eauto|].
  destruct (LifecycleTheory.steps_attempt _ _ _ _ _ (ControlSafety.perform_refines now c Hy Ht s1') Ha) as (a1 & Ha1 & Hp & _).
  destruct (IH _ Ha1) as (a2 & Ha2 & Ej & En). exists a2. split; [done|].
  destruct Hp as [->|[(?&?&?&?) _]]; [done|]. split; congruence.
Qed.

Lemma getJob_row s jobID job s' : GetJob jobID s = (Ok job, s') ->
  exists row, jobs (db s) !! jobID = Some row /\ j_Spec job = jr_spec row.
Proof.
  unfold GetJob, getJob. rewrite query_run. intros Hr. apply bind_ok in Hr as (row & s1 & [Hrow ->]%found_ok & Hr).
  unfold scanJob in Hr. run_inv Hr. apply ret_ok in Hr as [-> _]. by exists row.
Qed.

(** Every point that is read is of a metric the job declares, or of an automatic one. *)
Lemma points_defined s jobID after cursor row points : reachable s -> jobs (db s) !! jobID = Some row ->
  ListJobMetricPoints jobID after s = (Ok (points, cursor), s) ->
  Forall (λ p, exists m, (m ∈ s_Metrics (jr_spec row) \/ SystemMetricDefinition (mp_Name p) = Some m) /\
    m_Name m = mp_Name p) points.
Proof.
  intros Hr Hrow [_ [Hp _]]%ListJobMetricPoints_ok. apply mapM_Some in Hp. apply Forall_forall. intros p Hin.
  apply list_elem_of_lookup in Hin as [i Hi]. destruct (Forall2_lookup_r _ _ _ _ _ Hp Hi) as (x & Hx & E).
  apply list_elem_of_lookup_2, list_elem_of_omap in Hx as (r & Hin & Hx).
  assert (Hm : r.2 ∈ metric_samples (db s)).
  { unfold numbered in Hin. apply elem_of_lookup_imap in Hin as (k & m & -> & Hm). by apply list_elem_of_lookup_2 in Hm. }
  pose proof (so_metrics _ (StorageTheory.reachable_stored s Hr)) as Hall. rewrite Forall_forall in Hall.
  destruct (Hall _ Hm) as (_ & a & j & Ha & Hj & Hd).
  assert (E1 : x.2 = r.2 /\ at_job_id a = jobID).
  { unfold pointRow in Hx. rewrite Ha in Hx. simpl in Hx. case_bool_decide as Hb; [|done]. destruct Hb as [Hb _].
    by injection Hx as <-. }
  destruct E1 as [E1 <-]. rewrite Hrow in Hj. injection Hj as <-.
  unfold pointOf in E. destruct (parseTime _); [|done]. injection E as <-. cbn [mp_Name]. rewrite E1.
  apply StorageTheory.definedMetric_spec in Hd as (m & Hor & Hn & _). by exists m.
Qed.
End kept.

(** *** The series of a response *)

Lemma split_names (n : string) (ns : list string) (points : list JobMetricPoint) : n ∉ ns ->
  filter (λ p, mp_Name p ∈ n :: ns) points ≡ₚ filter (λ p, mp_Name p = n) points ++ filter (λ p, mp_Name p ∈ ns) points.
Proof.
  intros Hn. induction points as [|p points IH]; [done|]. rewrite !filter_cons.
  destruct (decide (mp_Name p = n)) as [E|E], (decide (mp_Name p ∈ ns)) as [Hin|Hin], (decide (mp_Name p ∈ n :: ns)) as [Hc|Hc];
    try (exfalso; rewrite elem_of_cons in Hc; subst; tauto); simpl; rewrite IH; by rewrite ?Permutation_middle.
Qed.

Lemma series_split (definitions : list MetricDefinition) (points : list JobMetricPoint) : NoDup (m_Name <$> definitions) ->
  concat (sp_Points <$> (seriesOf points <$> definitions)) ≡ₚ
  pointPayload <$> filter (λ p, mp_Name p ∈ m_Name <$> definitions) points.
Proof.
  induction definitions as [|d definitions IH]; intros Hn.
  - simpl. replace (filter _ points) with (@nil JobMetricPoint); [done|]. induction points as [|p points IH]; [done|].
    rewrite filter_cons. case_decide as Hp; [by apply elem_of_nil in Hp|done].
  - rewrite !fmap_cons in *. apply NoDup_cons in Hn as [Hni Hn]. cbn [concat]. rewrite IH by done.
    rewrite split_names by done. by rewrite fmap_app.
Qed.

Lemma system_names : NoDup (m_Name <$> SystemMetricDefinitions).
Proof. apply (bool_decide_unpack _). vm_compute. reflexivity. Qed.

Lemma shown_names `{Unicode} spec points : ValidSpec spec -> NoDup (m_Name <$> shownDefinitions (s_Metrics spec) points).
Proof.
  intros Hv. unfold shownDefinitions. rewrite fmap_app. apply NoDup_app. split_and!; [apply (v_metric_names _ Hv)| |].
  - intros name (d & -> & Hd)%list_elem_of_fmap (d' & E & [_ Hd']%list_elem_of_filter)%list_elem_of_fmap.
    pose proof (v_metrics _ Hv) as Hm. rewrite Forall_forall in Hm. specialize (vm_reserved _ (Hm _ Hd)). rewrite E.
    unfold SystemMetricDefinitions in Hd'. repeat (apply elem_of_cons in Hd' as [->|Hd']); [discriminate..|].
    by apply elem_of_nil in Hd'.
  - apply (sublist_NoDup _ (m_Name <$> SystemMetricDefinitions)); [apply system_names|apply fmap_sublist, sublist_filter].
Qed.

Lemma filter_all {A} (P : A -> Prop) `{forall x, Decision (P x)} xs : Forall P xs -> filter P xs = xs.
Proof. induction 1 as [|x xs Hx _ IH]; [done|]. by rewrite filter_cons_True, IH. Qed.

Lemma shown_all metrics (points : list JobMetricPoint) :
  Forall (λ p, exists m, (m ∈ metrics \/ SystemMetricDefinition (mp_Name p) = Some m) /\ m_Name m = mp_Name p) points ->
  filter (λ p, mp_Name p ∈ m_Name <$> shownDefinitions metrics points) points = points.
Proof.
  intros Hp. apply filter_all. rewrite Forall_forall in Hp |- *. intros p Hin.
  destruct (Hp _ Hin) as (m & Hm & E). rewrite <- E. apply list_elem_of_fmap_2. unfold shownDefinitions. apply elem_of_app.
  destruct Hm as [Hm|Hm]; [by left|]. right. apply list_elem_of_filter. apply find_some in Hm as [Hm _].
  split; [|by apply list_elem_of_In]. apply existsb_exists. exists p. split; [by apply list_elem_of_In|].
  rewrite E. apply String.eqb_refl.
Qed.
End DetailsTheory.

Section properties.
Context `{Env}.

(** The detail of a job is complete: its attempts, which are those numbered
    1, 2, ..., n in that order, and the samples and artifacts of its attempts and
    the policies that fired for it, each once; reading it changes nothing. *)
Theorem detail_complete (s s' : St) (jobID : string) (detail : JobDetail) :
  reachable s -> GetJobDetail jobID s = (Ok detail, s') ->
  s' = s /\
  a_AttemptNumber <$> jd_Attempts detail = seqZ 1 (Z.of_nat (length (jd_Attempts detail))) /\
  a_ID <$> jd_Attempts detail ≡ₚ fst <$> jobAttempts (db s) jobID /\
  rm_EventID <$> jd_Metrics detail ≡ₚ
    mr_event_id <$> filter (λ m, ofJob (db s) jobID (mr_attempt_id m) = true) (metric_samples (db s)) /\
  (λ f, (f_AttemptID f, f_Name f, f_URI f)) <$> jd_Artifacts detail ≡ₚ
    fst <$> rowsWhere (λ kf, ofJob (db s) jobID kf.1.1.1 = true) (artifacts (db s)).
Proof.
  intros Hr%ControlSafety.reachable_inv Hd.
  apply DetailsTheory.GetJobDetail_ok in Hd as (-> & _ & E1 & E2 & E3 & E4 & _). split_and!; [done|..].
  - rewrite E2. rewrite <- (length_fmap a_AttemptNumber), E2.
    apply DetailsTheory.sorted_range; [apply DetailsTheory.attemptRows_sorted|].
    pose proof (GuaranteesTheory.inv_numbers (db s) jobID Hr) as Hp. unfold attemptRows.
    rewrite length_fmap, !(orderBy_Permutation attemptOrder). exact Hp.
  - rewrite E1. unfold attemptRows. by rewrite orderBy_Permutation.
  - rewrite E3. unfold metricRows. by rewrite orderBy_Permutation.
  - rewrite E4. unfold artifactRows. by rewrite orderBy_Permutation.
Qed.

(** C27: Polling loses and repeats nothing: what is read of a job's metrics at
    some time and then, after any calls, from the returned cursor, is together
    what is read then from the start. *)
Theorem metrics_polled_once (s1 s2 : St) (jobID : string) (after c1 c2 : Z) (ps1 ps2 : list JobMetricPoint) :
  reachable s1 -> rtc callStep s1 s2 ->
  ListJobMetricPoints jobID after s1 = (Ok (ps1, c1), s1) ->
  ListJobMetricPoints jobID c1 s2 = (Ok (ps2, c2), s2) ->
  ListJobMetricPoints jobID after s2 = (Ok (ps1 ++ ps2, c2), s2).
Proof.
  intros Hr Hcalls [_ [H1' Hc1]]%DetailsTheory.ListJobMetricPoints_ok [_ [H2' Hc2]]%DetailsTheory.ListJobMetricPoints_ok.
  fold (DetailsTheory.cursorOf (db s1) jobID after) in Hc1.
  assert (E : pointRows (db s2) jobID after = pointRows (db s1) jobID after ++ pointRows (db s2) jobID c1).
  { rewrite Hc1. apply DetailsTheory.pointRows_resume; [apply (g_metric_samples _ _ (JobTheory.calls_grow _ _ Hcalls))|].
    intros m Hm. pose proof (so_metrics _ (StorageTheory.reachable_stored s1 Hr)) as Hall. rewrite Forall_forall in Hall.
    destruct (Hall _ Hm) as (_ & a & j & Ha & _). destruct (DetailsTheory.calls_attempt _ _ _ _ Hcalls Ha) as (a' & Ha' & Hj & Hn).
    by rewrite Ha, Ha'; simpl; rewrite Hj, Hn. }
  apply DetailsTheory.ListJobMetricPoints_ok. split_and!; [done| |].
  - rewrite E. apply mapM_Some. apply mapM_Some in H1', H2'. by apply Forall2_app.
  - rewrite E, fmap_app, last_app, Hc2. destruct (last (_ <$> pointRows (db s2) jobID c1)); [done|]. simpl. by rewrite Hc1.
Qed.

(** The response to a poll shows every sample, in exactly one series: the
    series have different names, and together hold the points that were read. *)
Theorem metrics_payload_complete (s : St) (jobID : string) (after cursor : Z) (job : Job) (points : list JobMetricPoint) :
  reachable s -> GetJob jobID s = (Ok job, s) -> ListJobMetricPoints jobID after s = (Ok (points, cursor), s) ->
  NoDup (m_Name ∘ sp_Definition <$> mp_Metrics (metricsPayload job points cursor)) /\
  concat (sp_Points <$> mp_Metrics (metricsPayload job points cursor)) ≡ₚ pointPayload <$> points.
Proof.
  intros Hr Hj Hp. destruct (DetailsTheory.getJob_row _ _ _ _ Hj) as (row & Hrow & Espec).
  destruct (inv_spec _ (ControlSafety.reachable_inv s Hr) _ _ Hrow) as [Hv%ValidateTheory.Validate_ok _].
  unfold metricsPayload. cbn [mp_Metrics]. rewrite Espec. split.
  - rewrite <- list_fmap_compose. by apply DetailsTheory.shown_names.
  - rewrite DetailsTheory.series_split by by apply DetailsTheory.shown_names. rewrite DetailsTheory.shown_all; [done|].
    by eapply DetailsTheory.points_defined.
Qed.
End properties.

(** ** The properties on the concrete run *)

#[local] Existing Instance demoEnv.

Definition demoDetail (s : St) : JobDetail :=
  match (GetJobDetail demoJob s).1 with
  | Ok detail => detail
  | Err _ => {| jd_Job := {| j_ID := ""; j_State := JobQueued; j_Revision := 0; j_Spec := demoSpec; j_CreatedAt := 0;
                             j_UpdatedAt := 0 |};
                jd_Attempts := []; jd_Metrics := []; jd_Artifacts := []; jd_Health := [] |}
  end.

Lemma demoDetail_run s : isOk (GetJobDetail demoJob s).1 = true -> GetJobDetail demoJob s = (Ok (demoDetail s), s).
Proof.
  intros Hok. pose proof (GetJobDetail_reads demoJob s) as E. unfold demoDetail.
  destruct (GetJobDetail demoJob s) as [[d|e] s1]; [|done]. simpl in *. by subst.
Qed.

Lemma detail_complete_witness :
  a_State <$> jd_Attempts (demoDetail succeeded) = [AttemptFailed; AttemptSucceeded] /\
  a_AttemptNumber <$> jd_Attempts (demoDetail succeeded) =
    seqZ 1 (Z.of_nat (length (jd_Attempts (demoDetail succeeded)))).
Proof.
  split; [vm_compute; reflexivity|].
  exact (proj1 (proj2 (detail_complete succeeded succeeded demoJob (demoDetail succeeded) succeeded_reachable
    (demoDetail_run succeeded eq_refl)))).
Defined.

(** A second sample is reported. *)
Definition callReportAgain : Call := CallSyncWorker demoWorker (demoSync [
  {| e_Sequence := 4; e_EventID := "e4"; e_AttemptID := demoAttempt1; e_Kind := WorkerEventMetricSample;
     e_OccurredAt := t0; e_ExitCode := None; e_Error := ""; e_LogURI := ""; e_LogTail := ""; e_Git := None;
     e_Metric := Some demoMetric; e_Artifacts := [] |}]).
Definition reportedAgain : St := after reported callReportAgain.

Definition polled (s : St) (after : Z) : list JobMetricPoint * Z :=
  match (ListJobMetricPoints demoJob after s).1 with Ok r => r | Err _ => ([], 0) end.

Lemma polled_run s after : isOk (ListJobMetricPoints demoJob after s).1 = true ->
  ListJobMetricPoints demoJob after s = (Ok ((polled s after).1, (polled s after).2), s).
Proof.
  intros Hok. pose proof (ListJobMetricPoints_reads demoJob after s) as E. unfold polled.
  destruct (ListJobMetricPoints demoJob after s) as [[[ps c]|e] s1]; [|done]. simpl in *. by subst.
Qed.

Lemma metrics_polled_once_witness :
  (length (polled reported 0).1, (polled reported 0).2, length (polled reportedAgain 1).1) = (1%nat, 1, 1%nat) /\
  ListJobMetricPoints demoJob 0 reportedAgain =
    (Ok ((polled reported 0).1 ++ (polled reportedAgain (polled reported 0).2).1,
         (polled reportedAgain (polled reported 0).2).2), reportedAgain).
Proof.
  split; [vm_compute; reflexivity|].
  apply (metrics_polled_once reported reportedAgain demoJob 0 (polled reported 0).2).
  - exact reported_reachable.
  - exact (rtc_once _ _ (call_step reported t0 callReportAgain t0_year I)).
  - apply polled_run. vm_compute. reflexivity.
  - apply polled_run. vm_compute. reflexivity.
Defined.

Definition demoGot : Job :=
  match (GetJob demoJob reported).1 with Ok job => job | Err _ => jd_Job (demoDetail initial) end.

Lemma demoGot_run : GetJob demoJob reported = (Ok demoGot, reported).
Proof.
  pose proof (GetJob_reads demoJob reported) as E.
  assert (Hok : isOk (GetJob demoJob reported).1 = true) by (vm_compute; reflexivity). unfold demoGot.
  destruct (GetJob demoJob reported) as [[job|e] s1]; [|discriminate Hok]. simpl in *. by subst.
Qed.

Lemma metrics_payload_complete_witness :
  length (mp_Metrics (metricsPayload demoGot (polled reported 0).1 (polled reported 0).2)) = 1%nat /\
  NoDup (m_Name ∘ sp_Definition <$> mp_Metrics (metricsPayload demoGot (polled reported 0).1 (polled reported 0).2)) /\
  concat (sp_Points <$> mp_Metrics (metricsPayload demoGot (polled reported 0).1 (polled reported 0).2)) ≡ₚ
    pointPayload <$> (polled reported 0).1.
Proof.
  split; [vm_compute; reflexivity|].
  apply (metrics_payload_complete reported demoJob 0 (polled reported 0).2 demoGot (polled reported 0).1
    reported_reachable demoGot_run). apply polled_run. vm_compute. reflexivity.
Defined.
