(* ===== verification/Automation.v ===== *)
(** * The automation runner (internal/automation/runner.go)

    A cycle evaluates the health policies, takes the due webhook deliveries, and
    sends each of them, signed, before it records the result.  The client that
    sends a request and the clock are arguments; crypto/hmac is written out on
    the digest of the environment. *)

From S2P Require Import Prelude Times GoLib Encoding Ids Domain Validate Database Jobs Health.

(** ** The signed request *)

(** The JSON text of a stored payload. *)
Class PayloadText := payloadText : Payload -> string.

Record HookRequest := {
  hq_URL : string; hq_ContentType : string; hq_UserAgent : string; hq_DeliveryID : string;
  hq_EventID : string; hq_Signature : string; hq_Body : string;
}.

(** What http.Client.Do gives: an error, or the status code and the status line. *)
Inductive Reply :=
  | Unsent (err : string)
  | Replied (code : Z) (status : string).

(** http.NewRequestWithContext, which refuses some addresses, and the client. *)
Record Client := {
  cl_refuses : string -> option string;
  cl_Do : HookRequest -> Reply;
}.

(** The [n]-th reading of the clock, and the client as the [n]-th request finds it. *)
Abbreviation Readings := (nat -> time).
Abbreviation Clients := (nat -> Client).

Definition xorByte (mask : N) (c : ascii) : ascii := ascii_of_N (N.lxor mask (N_of_ascii c)).

Section runner.
Context `{Env} `{PayloadText}.

(** hmac.New(sha256.New, key), its block of 64 bytes. *)
Definition hmac (key message : string) : string :=
  let key := if 64 <? len key then sha256 key else key in
  let block := chars key ++ replicate (64 - String.length key) "000"%char in
  sha256 (unchars (xorByte 92 <$> block) +:+ sha256 (unchars (xorByte 54 <$> block) +:+ message)).

Definition hookRequest (delivery : WebhookDelivery) : HookRequest := {|
  hq_URL := dl_URL delivery; hq_ContentType := "application/json"; hq_UserAgent := "lcjs-webhook/1";
  hq_DeliveryID := dl_ID delivery; hq_EventID := dl_FiringID delivery;
  hq_Signature := "sha256=" +:+ hexText (hmac (dl_Secret delivery) (payloadText (dl_Payload delivery)));
  hq_Body := payloadText (dl_Payload delivery) |}.

(** The response code and the error, if there is one. *)
Definition deliver (client : Client) (delivery : WebhookDelivery) : Z * option string :=
  match cl_refuses client (dl_URL delivery) with
  | Some err => (0, Some err)
  | None =>
      match cl_Do client (hookRequest delivery) with
      | Unsent err => (0, Some err)
      | Replied code status =>
          (code, if (code <? 200) || (300 <=? code) then Some ("webhook returned " +:+ status) else None)
      end
  end.

Fixpoint deliverAll (clock : Readings) (client : Clients) (i : nat) (deliveries : list WebhookDelivery)
    : Act unit :=
  match deliveries with
  | [] => mret tt
  | delivery :: rest =>
      let '(responseCode, deliveryError) := deliver (client i) delivery in
      RecordWebhookResult (clock i) (dl_ID delivery) responseCode (default "" deliveryError) ;;
      deliverAll clock client (S i) rest
  end.

Definition Cycle (clock : Readings) (client : Clients) : Act unit :=
  EvaluateHealthPolicies (clock 0%nat) ;;
  deliveries ← DueWebhookDeliveries (clock 1%nat) 20;
  deliverAll clock client 2 deliveries.
End runner.
