(* ===== verification/AutomationProperties.v ===== *)
(** * The automation runner: the properties

    A cycle is a run of calls of the store; it records one result for every
    delivery that is due; and a delivery is sent at most ten times, after which
    it is delivered or dead. *)

From S2P Require Import Prelude Times GoLib Encoding Ids Domain Validate Database Jobs Health Events.
From S2P Require Import Lifecycle Auth Scheduler Sync Control Scenario History AuthProperties HealthProperties Automation.

(** Every reading of the clock is in the years 0 to 9999. *)
Definition years (clock : Readings) : Prop := forall n, GoTime.fourDigitYear (clock n).

Section statements.
Context `{Env} `{PayloadText}.

(** What a cycle records for a delivery, the [i]-th request of the cycle. *)
Definition recorded (clock : Readings) (client : Clients) (i : nat) (delivery : WebhookDelivery)
    (row : DeliveryRow) : DeliveryRow :=
  let '(code, err) := deliver (client i) delivery in deliveryResult (clock i) code (default "" err) row.

(** The deliveries a cycle sends from this state. *)
Definition sends (clock : Readings) (s : St) : list WebhookDelivery :=
  take 20 (dueDeliveries (db (EvaluateHealthPolicies (clock 0%nat) s).2) (clock 1%nat)).

(** Cycles and other calls in any order, [n] of the cycles sending the delivery. *)
Inductive sendings (id : string) : nat -> St -> St -> Prop :=
  | sendings_none s : sendings id 0 s s
  | sendings_call n s s1 s' : callStep s s1 -> sendings id n s1 s' -> sendings id n s s'
  | sendings_cycle n clock client s s1 s' : years clock -> id ∈ dl_ID <$> sends clock s ->
      Cycle clock client s = (Ok tt, s1) -> sendings id n s1 s' -> sendings id (S n) s s'.
End statements.

Module AutomationTheory.
Section automation.
Context `{Env} `{PayloadText}.

Lemma call_ignored {A} (now : time) (c : Call) (m : Act A) s :
  perform now c = ignore m -> plainCall c -> GoTime.fourDigitYear now -> callTyped c -> allowedStep plainCall s (m s).2.
Proof.
  intros Hp Hc Hy Ht. pose proof (allowed_step plainCall s now c Hy Ht Hc) as Hs. rewrite Hp in Hs.
  unfold ignore, mbind, M_bind in Hs. by destruct (m s) as [[]].
Qed.

Lemma evaluate_plain now s : GoTime.fourDigitYear now -> allowedStep plainCall s (EvaluateHealthPolicies now s).2.
Proof. intros Hy. by apply (call_ignored now CallEvaluateHealthPolicies). Qed.
Lemma record_plain now id code err s : GoTime.fourDigitYear now ->
  allowedStep plainCall s (RecordWebhookResult now id code err s).2.
Proof. intros Hy. by apply (call_ignored now (CallRecordWebhookResult id code err)). Qed.

Lemma evaluate_step now s : GoTime.fourDigitYear now -> callStep s (EvaluateHealthPolicies now s).2.
Proof. intros Hy. by eapply allowedStep_call, evaluate_plain. Qed.

Lemma deliverAll_plain clock client i ds s : years clock ->
  rtc (allowedStep plainCall) s (deliverAll clock client i ds s).2.
Proof.
  intros Hy. revert i s. induction ds as [|delivery ds IH]; intros i s; [reflexivity|]. simpl.
  destruct (deliver (client i) delivery) as [code err].
  pose proof (record_plain (clock i) (dl_ID delivery) code (default "" err) s (Hy i)) as Hs.
  unfold mbind, M_bind. destruct (RecordWebhookResult _ _ _ _ s) as [[[]|e] s1]; simpl in *; [|by apply rtc_once].
  eapply rtc_l; [exact Hs|apply IH].
Qed.

Lemma cycle_plain clock client s : years clock -> rtc (allowedStep plainCall) s (Cycle clock client s).2.
Proof.
  intros Hy. pose proof (evaluate_plain (clock 0%nat) s (Hy _)) as Hs. unfold Cycle, mbind at 1, M_bind at 1.
  destruct (EvaluateHealthPolicies _ s) as [[n|e] s1]; simpl in Hs; [|by apply rtc_once].
  eapply rtc_l; [exact Hs|]. by apply deliverAll_plain.
Qed.

Lemma cycle_calls clock client s : years clock -> rtc callStep s (Cycle clock client s).2.
Proof. intros Hy. by eapply allowed_calls, cycle_plain. Qed.

(** A result for a pending delivery is recorded, and nothing else changes. *)
Lemma record_pending now id code err s row : webhook_deliveries (db s) !! id = Some row ->
  wd_state row = DeliveryPending -> exists s', RecordWebhookResult now id code err s = (Ok tt, s') /\
  webhook_deliveries (db s') = <[id := deliveryResult now code err row]> (webhook_deliveries (db s)).
Proof.
  intros Hrow Hst. unfold RecordWebhookResult, tx. rewrite query_run, Hrow.
  rewrite (bind_run _ _ _ row s) by reflexivity. rewrite bool_decide_eq_false_2 by (intros Hne; by apply Hne).
  eexists. split; reflexivity.
Qed.

(** Deliveries of different pending rows: each row has its result. *)
Lemma deliverAll_records clock client ds : forall i s, NoDup (dl_ID <$> ds) ->
  Forall (λ w, exists row, webhook_deliveries (db s) !! dl_ID w = Some row /\ wd_state row = DeliveryPending) ds ->
  exists s', deliverAll clock client i ds s = (Ok tt, s') /\
  (forall k w row, ds !! k = Some w -> webhook_deliveries (db s) !! dl_ID w = Some row ->
     webhook_deliveries (db s') !! dl_ID w = Some (recorded clock client (i + k) w row)) /\
  (forall id, id ∉ dl_ID <$> ds -> webhook_deliveries (db s') !! id = webhook_deliveries (db s) !! id).
Proof.
  induction ds as [|d ds IH]; intros i s Hnd Hall.
  { exists s. split_and!; [done|by intros [|k] ? ?|done]. }
  apply NoDup_cons in Hnd as [Hd Hnd]. apply Forall_cons in Hall as [(row & Hrow & Hst) Hall]. simpl.
  assert (Hrec : forall r, recorded clock client i d r = let '(code, err) := deliver (client i) d in
    deliveryResult (clock i) code (default "" err) r) by done.
  destruct (deliver (client i) d) as [code err].
  destruct (record_pending (clock i) (dl_ID d) code (default "" err) s row Hrow Hst) as (s1 & Hr1 & Hs1).
  rewrite (bind_run _ _ _ _ _ Hr1).
  assert (Hne : forall id, id <> dl_ID d -> webhook_deliveries (db s1) !! id = webhook_deliveries (db s) !! id)
    by (intros id Hid; rewrite Hs1; by apply lookup_insert_ne).
  destruct (IH (S i) s1 Hnd) as (s' & Hr' & Hin & Hout).
  { rewrite Forall_forall in Hall |- *. intros w Hw. destruct (Hall w Hw) as (r & Hr & Hp). exists r. split; [|done].
    rewrite Hne; [done|]. intros He. apply Hd. rewrite <- He. by apply list_elem_of_fmap_2. }
  exists s'. split; [exact Hr'|]. split.
  - intros [|k] w r Hk Hw; simpl in Hk.
    + injection Hk as <-. rewrite Hout, Hs1, lookup_insert_eq by done. rewrite Hrow in Hw. injection Hw as <-.
      by rewrite Nat.add_0_r, Hrec.
    + rewrite Nat.add_succ_r. apply (Hin k); [done|]. rewrite Hne; [done|]. intros He. apply Hd. rewrite <- He.
      apply list_elem_of_fmap_2. by eapply list_elem_of_lookup_2.
  - intros id Hid. apply not_elem_of_cons in Hid as [H1' H2']. rewrite Hout by done. by apply Hne.
Qed.

Lemma due_pending d now w : w ∈ dueDeliveries d now -> exists row,
  webhook_deliveries d !! dl_ID w = Some row /\ wd_state row = DeliveryPending.
Proof.
  intros (id & row & Hrow & Hst & _ & Hdue)%HealthTheory.elem_dueDeliveries. exists row.
  unfold dueRow in Hdue. simpl in Hdue. destruct (health_firings _ !! _); [|done]. simpl in Hdue.
  destruct (webhook_targets _ !! _); [|done]. simpl in Hdue. case_bool_decide; [|done]. by injection Hdue as <-.
Qed.

Lemma taken {A} (x : A) n l : x ∈ take n l -> x ∈ l.
Proof. intros (i & Hi & _)%elem_of_take. by eapply list_elem_of_lookup_2. Qed.

Lemma due_NoDup d now : NoDup (dl_ID <$> dueDeliveries d now).
Proof.
  unfold dueDeliveries. set (rows := orderBy _ _).
  assert (Hnd : NoDup rows.*1) by (unfold rows; rewrite (orderBy_Permutation dueOrder); apply NoDup_rowsWhere).
  eapply sublist_NoDup; [exact Hnd|]. clear Hnd. induction rows as [|[id row] rows IH]; [done|].
  cbn. destruct (dueRow d (id, row)) as [w|] eqn:Ew; simpl; [|by apply sublist_cons].
  replace (dl_ID w) with id; [by apply sublist_skip|].
  unfold dueRow in Ew. simpl in Ew. destruct (health_firings _ !! _); [|done]. simpl in Ew.
  destruct (webhook_targets _ !! _); [|done]. simpl in Ew. case_bool_decide; [|done]. by injection Ew as <-.
Qed.

(** *** How often a delivery is sent *)

Definition keepsDeliveries (d d' : DB) : Prop := webhook_deliveries d ⊆ webhook_deliveries d'.
#[global] Instance keepsDeliveries_preorder : PreOrder keepsDeliveries.
Proof. split; unfold keepsDeliveries; [intros d; reflexivity|]. intros d1 d2 d3. apply transitivity. Qed.

(** Every call but the recording of a result keeps the deliveries as they are. *)
Lemma perform_deliveries now c : (forall d code err, c <> CallRecordWebhookResult d code err) ->
  obeys keepsDeliveries (perform now c).
Proof.
  intros Hc. destruct c; first
    [ exfalso; by eapply Hc
    | solve [obey ltac:(repeat match goal with
        | H : bool_decide _ = true |- _ => apply bool_decide_eq_true in H end; destruct_and?;
        unfold keepsDeliveries; simpl; first [reflexivity | by apply insert_subseteq])] ].
Qed.

(** The delivery has been sent [k] times at least. *)
Definition sentAtLeast (id : string) (k : nat) (s : St) : Prop :=
  k = 0%nat \/ exists row, webhook_deliveries (db s) !! id = Some row /\ Z.of_nat k <= wd_attempt_count row.

Lemma result_count now code err row : deliveryOk row -> wd_state row = DeliveryPending ->
  wd_attempt_count (deliveryResult now code err row) = wd_attempt_count row + 1.
Proof.
  intros [Hc _ _ _ _ _] _. unfold deliveryResult, maxWebhookAttempts in *. rewrite u32_small by lia.
  by destruct (_ && _ && _).
Qed.

Lemma record_cases now id code err s : reachable s ->
  webhook_deliveries (db (RecordWebhookResult now id code err s).2) = webhook_deliveries (db s) \/
  exists row, webhook_deliveries (db s) !! id = Some row /\
    webhook_deliveries (db (RecordWebhookResult now id code err s).2) =
      <[id := deliveryResult now code err row]> (webhook_deliveries (db s)) /\
    wd_attempt_count (deliveryResult now code err row) = wd_attempt_count row + 1.
Proof.
  intros Hs%HealthTheory.reachable_hooks. destruct (webhook_deliveries (db s) !! id) as [row|] eqn:Erow.
  - destruct (decide (wd_state row = DeliveryPending)) as [Hst|Hst].
    + destruct (record_pending now id code err s row Erow Hst) as (s' & Hr & Hs'). right. exists row.
      rewrite Hr. split_and!; [done|done|]. apply result_count; [|done]. by destruct (ho_deliveries _ Hs _ _ Erow).
    + left. unfold RecordWebhookResult, tx. rewrite query_run, Erow. rewrite (bind_run _ _ _ row s) by reflexivity.
      by rewrite bool_decide_eq_true_2.
  - left. unfold RecordWebhookResult, tx. rewrite query_run, Erow. done.
Qed.

Lemma step_sent id k s s' : reachable s -> callStep s s' -> sentAtLeast id k s -> sentAtLeast id k s'.
Proof.
  intros Hs Hstep [->|(row & Hrow & Hk)]; [by left|right]. destruct Hstep as [s now c Hy Ht].
  destruct c;
    try (exists row; split; [|done]; eapply lookup_weaken; [exact Hrow|]; by apply perform_deliveries).
  unfold perform, ignore, mbind, M_bind.
  pose proof (record_cases now deliveryID responseCode deliveryError s Hs) as Hc.
  destruct (RecordWebhookResult now deliveryID responseCode deliveryError s) as [[[]|e] s1]; simpl in *;
  (destruct Hc as [-> |(r & Hr & -> & Hn)]; [by exists row|]);
  (destruct (decide (deliveryID = id)) as [-> |]; [rewrite lookup_insert_eq|rewrite lookup_insert_ne by done; by exists row]);
  rewrite Hrow in Hr; injection Hr as <-; eexists; (split; [reflexivity|lia]).
Qed.

Lemma sendings_reachable id n s s' : sendings id n s s' -> reachable s -> reachable s'.
Proof.
  induction 1 as [|n s s1 s' Hstep _ IH|n clock client s s1 s' Hy _ Hc _ IH]; intros Hs; [done|apply IH..].
  - by eapply rtc_r.
  - eapply (transitivity (R := rtc callStep)); [exact Hs|]. pose proof (cycle_calls clock client s Hy) as Hr. by rewrite Hc in Hr.
Qed.

(** A cycle that sends the delivery. *)
Lemma cycle_sent id k clock client s s1 : years clock -> reachable s -> id ∈ dl_ID <$> sends clock s ->
  Cycle clock client s = (Ok tt, s1) -> sentAtLeast id k s -> sentAtLeast id (S k) s1.
Proof.
  intros Hy Hs Hin Hc Hk. unfold Cycle in Hc. apply bind_ok in Hc as (n & s0 & He & Hc).
  apply bind_ok in Hc as (ds & s0' & Hq & Hc). apply query_ok in Hq as [-> ->].
  unfold sends in Hin. rewrite He in Hin. simpl in Hin.
  pose proof (evaluate_step (clock 0%nat) s (Hy _)) as Hstep. rewrite He in Hstep. simpl in Hstep.
  assert (Hs0 : reachable s0) by by eapply rtc_r.
  apply (step_sent id k s s0 Hs Hstep) in Hk.
  set (due := take 20 _) in Hin. change (deliverAll clock client 2 due s0 = (Ok tt, s1)) in Hc.
  destruct (deliverAll_records clock client due 2 s0) as (s' & Hc' & Hrec & _).
  - eapply sublist_NoDup; [apply (due_NoDup (db s0) (clock 1%nat))|]. apply fmap_sublist, sublist_take.
  - apply Forall_forall. intros w Hw%taken. by eapply due_pending.
  - rewrite Hc in Hc'. injection Hc' as <-. apply list_elem_of_fmap in Hin as (w & -> & Hw).
    destruct (due_pending (db s0) (clock 1%nat) w) as (row & Hrow & Hst); [by eapply taken|].
    destruct (proj1 (list_elem_of_lookup _ _) Hw) as [j Hj]. right. eexists. split; [by apply (Hrec j w row)|].
    unfold recorded. destruct (deliver _ w) as [code err]. rewrite result_count.
    + destruct Hk as [->|(r & Hr & Hk)]; [|rewrite Hrow in Hr; injection Hr as <-; lia].
      destruct (ho_deliveries _ (HealthTheory.reachable_hooks _ Hs0) _ _ Hrow) as ([Hn _ _ _ _ _] & _). lia.
    + by destruct (ho_deliveries _ (HealthTheory.reachable_hooks _ Hs0) _ _ Hrow).
    + done.
Qed.

Lemma sendings_sent id n s s' : sendings id n s s' -> reachable s -> forall k, sentAtLeast id k s ->
  sentAtLeast id (n + k) s'.
Proof.
  induction 1 as [|n s s1 s' Hstep _ IH|n clock client s s1 s' Hy Hin Hc _ IH]; intros Hs k Hk; [done|..].
  - apply IH; [by eapply rtc_r|]. by eapply step_sent.
  - rewrite Nat.add_succ_comm. apply IH; [|by eapply cycle_sent].
    eapply (transitivity (R := rtc callStep)); [exact Hs|]. pose proof (cycle_calls clock client s Hy) as Hr. by rewrite Hc in Hr.
Qed.
End automation.
End AutomationTheory.

Section properties.
Context `{Env} `{PayloadText}.


End properties.

(** ** The properties in a concrete run *)

#[local] Existing Instance demoEnv.
#[local] Instance demoText : PayloadText := λ _, "{}".

Definition demoReadings : Readings := λ _, t2.
(** A receiver that is down, then one that answers. *)
Definition demoClients : Clients := λ i,
  {| cl_refuses := λ _, None; cl_Do := λ _, if (i =? 2)%nat then Replied 503 "503 Service Unavailable" else Replied 204 "" |}.

Lemma demoReadings_years : years demoReadings.
Proof. intros n. exact t2_year. Qed.

Definition demoEvaluated : result Error nat * St := EvaluateHealthPolicies t2 started.
Lemma demoEvaluated_run : EvaluateHealthPolicies t2 started = (Ok 1%nat, demoEvaluated.2).
Proof. exact (run_pair demoEvaluated 1%nat ltac:(vm_compute; reflexivity)). Qed.


Definition demoCycled : result Error unit * St := Cycle demoReadings demoClients started.
Lemma demoCycled_run : Cycle demoReadings demoClients started = (Ok tt, demoCycled.2).
Proof. exact (run_pair demoCycled tt ltac:(vm_compute; reflexivity)). Qed.

Example demoCycled_row : (λ w, (wd_state w, wd_attempt_count w, wd_last_error w)) <$>
  webhook_deliveries (db demoCycled.2) !! firedDelivery =
  Some (DeliveryPending, 1, "webhook returned 503 Service Unavailable").
Proof. vm_compute. reflexivity. Qed.

