(* ===== verification/ReportProperties.v ===== *)
(** * The text report: the properties

    The table of metrics has one row for every series that reported a sample,
    over all samples of the series in the order they were observed, and its
    "best" is the greatest of them where the objective is to maximize the
    metric, and the least where it is to minimize it. *)

From S2P Require Import Prelude FloatOrder Times GoLib FloatText Ids Domain Validate Database Jobs Health Details Report.
From Stdlib Require Import Sorting.Sorted.

(** The one definition of the metric of this name. *)
Definition declared (defs : list MetricDefinition) (name : string) (d : MetricDefinition) : Prop :=
  d ∈ defs /\ m_Name d = name /\ forall d', d' ∈ defs -> m_Name d' = name -> d' = d.

(** A summary covers these samples. What is best is said for the two objectives
    that have a direction, by the words of a job specification. *)
Record summarizes (s : seriesSummary) (samples : list RecordedMetric) : Prop := {
  su_points : ss_points s ≡ₚ samples;
  su_stable t : filter (λ m, rm_ObservedAt m = t) (ss_points s) = filter (λ m, rm_ObservedAt m = t) samples;
  su_ordered : Sorted (λ x y, rm_ObservedAt x <= rm_ObservedAt y) (ss_points s);
  su_first : head (rm_Value <$> ss_points s) = Some (ss_first s);
  su_last : last (rm_Value <$> ss_points s) = Some (ss_last s);
  su_greatest : m_Objective (ss_def s) = "maximize" -> Forall (λ m, isNaN (rm_Value m) = false) samples ->
    best s ∈ rm_Value <$> samples /\ Forall (λ m, f64_leb (rm_Value m) (best s) = true) samples;
  su_least : m_Objective (ss_def s) = "minimize" -> Forall (λ m, isNaN (rm_Value m) = false) samples ->
    best s ∈ rm_Value <$> samples /\ Forall (λ m, f64_leb (best s) (rm_Value m) = true) samples;
}.

Module ReportTheory.

(** *** The least and the greatest value *)

Section extremes.
Context (pick : float64 -> float64 -> float64) (below : float64 -> float64 -> bool).
Context (below_refl : forall f, isNaN f = false -> below f f = true).
Context (below_trans : forall f g h, isNaN f = false -> isNaN g = false -> isNaN h = false ->
  below f g = true -> below g h = true -> below f h = true).
Context (picked : forall x y, isNaN x = false -> isNaN y = false ->
  (pick x y = x \/ pick x y = y) /\ below (pick x y) x = true /\ below (pick x y) y = true).

Lemma fold_extreme values : forall first, isNaN first = false -> Forall (λ v, isNaN v = false) values ->
  let e := foldl pick first values in
  isNaN e = false /\ e ∈ first :: values /\ Forall (λ v, below e v = true) (first :: values).
Proof.
  induction values as [|v values IH]; intros first Hf Hv.
  { simpl. split_and!; [done|apply list_elem_of_here|]. apply Forall_singleton. by apply below_refl. }
  apply Forall_cons in Hv as [Hv Hvs]. destruct (picked first v Hf Hv) as (Hp & H1' & H2').
  assert (Hn : isNaN (pick first v) = false) by (destruct Hp as [-> | ->]; done).
  destruct (IH (pick first v) Hn Hvs) as (I1 & I2 & I3). cbn [foldl]. apply Forall_cons in I3 as [I3 I4].
  split_and!; [exact I1| |].
  - apply elem_of_cons in I2 as [I2|I2].
    + rewrite I2. destruct Hp as [-> | ->]; [apply list_elem_of_here|by apply elem_of_cons; right; apply list_elem_of_here].
    + by do 2 (apply elem_of_cons; right).
  - do 2 (constructor; [by eapply (below_trans _ (pick first v))|]). done.
Qed.

(** The extreme of the values of a series, however the series is ordered. *)
Lemma fold_values points samples first rest : points ≡ₚ samples -> rm_Value <$> points = first :: rest ->
  Forall (λ m, isNaN (rm_Value m) = false) samples ->
  foldl pick first (first :: rest) ∈ rm_Value <$> samples /\
  Forall (λ m, below (foldl pick first (first :: rest)) (rm_Value m) = true) samples.
Proof using below_refl below_trans picked.
  intros Hp Hv Hn. rewrite <- Hp in Hn |- *. apply (Forall_fmap rm_Value (λ v, isNaN v = false)) in Hn. rewrite Hv in *.
  pose proof Hn as Hf. apply Forall_cons in Hf as [Hf _].
  destruct (fold_extreme _ first Hf Hn) as (_ & He & [_ Hall]%Forall_cons). set (e := foldl _ _ _) in *. rewrite <- Hv in Hall. apply Forall_fmap in Hall.
  split; [|done]. apply elem_of_cons in He as [He|He]; [rewrite He; apply list_elem_of_here|done].
Qed.
End extremes.

Lemma f64_eqb_leb x y : f64_eqb x y = true -> f64_leb x y = true /\ f64_leb y x = true.
Proof.
  unfold f64_eqb, f64_leb, SFeqb, SFleb. intros Heq.
  assert (Hs : SFcompare x y = Some Eq) by (destruct (SFcompare x y) as [[]|]; done).
  rewrite Hs. split; [done|]. destruct (isNaN x) eqn:Hx, (isNaN y) eqn:Hy; try (destruct x, y; done).
  rewrite FloatOrder.compare_rank in * by done. injection Hs as Hs.
  unfold FloatOrder.compareRank in *. rewrite (Z.compare_antisym (FloatOrder.rank x).1.1),
    (Z.compare_antisym (FloatOrder.rank x).1.2), (Z.compare_antisym (FloatOrder.rank x).2).
  by destruct (_ ?= _), (_ ?= _), (_ ?= _).
Qed.

Lemma leb_infinity x : isNaN x = false -> f64_leb (S754_infinity true) x = true /\ f64_leb x (S754_infinity false) = true.
Proof. by destruct x as [[]|[]| |[]]. Qed.

Lemma f64_min_spec x y : isNaN x = false -> isNaN y = false ->
  (f64_min x y = x \/ f64_min x y = y) /\ f64_leb (f64_min x y) x = true /\ f64_leb (f64_min x y) y = true.
Proof.
  intros Hx Hy. unfold f64_min. case_bool_decide as Hinf.
  { split; [destruct Hinf; auto|]. by split; apply leb_infinity. }
  rewrite Hx, Hy. simpl. destruct (f64_eqb x f64_zero && f64_eqb x y) eqn:Ez.
  - apply andb_true_iff in Ez as [_ Ez]. apply f64_eqb_leb in Ez as [? ?].
    pose proof (FloatOrder.f64_leb_refl x Hx). pose proof (FloatOrder.f64_leb_refl y Hy). destruct (f64_neg x); auto.
  - pose proof (FloatOrder.f64_leb_refl x Hx). pose proof (FloatOrder.f64_leb_refl y Hy).
    destruct (f64_ltb x y) eqn:El; [apply FloatOrder.f64_ltb_leb in El; auto|].
    rewrite FloatOrder.ltb_negb_leb in El by done. apply negb_false_iff in El. auto.
Qed.

Lemma f64_max_spec x y : isNaN x = false -> isNaN y = false ->
  (f64_max x y = x \/ f64_max x y = y) /\ f64_leb x (f64_max x y) = true /\ f64_leb y (f64_max x y) = true.
Proof.
  intros Hx Hy. unfold f64_max. case_bool_decide as Hinf.
  { split; [destruct Hinf; auto|]. by split; apply leb_infinity. }
  rewrite Hx, Hy. simpl. pose proof (FloatOrder.f64_leb_refl x Hx). pose proof (FloatOrder.f64_leb_refl y Hy).
  destruct (f64_eqb x f64_zero && f64_eqb x y) eqn:Ez.
  - apply andb_true_iff in Ez as [_ Ez]. apply f64_eqb_leb in Ez as [? ?]. destruct (f64_neg x); auto.
  - destruct (f64_ltb y x) eqn:El; [apply FloatOrder.f64_ltb_leb in El; auto|].
    rewrite FloatOrder.ltb_negb_leb in El by done. apply negb_false_iff in El. auto.
Qed.

(** *** A stable sort *)

Section stable.
Context {A} (le : A -> A -> bool) (le_total : forall x y, le x y = false -> le y x = true).

Lemma insertStable_perm x l : insertStable le x l ≡ₚ x :: l.
Proof. induction l as [|y l IH]; simpl; [done|]. destruct (le x y); [done|]. rewrite IH. by constructor. Qed.
Lemma stableSort_perm l : stableSort le l ≡ₚ l.
Proof. induction l as [|x l IH]; [done|]. simpl. rewrite insertStable_perm. by constructor. Qed.

Lemma insertStable_sorted x l : Sorted (isLe le) l -> Sorted (isLe le) (insertStable le x l).
Proof.
  induction 1 as [|y l Hs IH Hd]; simpl; [by repeat constructor|]. destruct (le x y) eqn:E.
  - constructor; [by constructor|by constructor].
  - constructor; [exact IH|]. destruct l as [|z l]; simpl; [constructor; by apply le_total|].
    destruct (le x z); constructor; [by apply le_total|]. by inversion Hd.
Qed.
Lemma stableSort_sorted l : Sorted (isLe le) (stableSort le l).
Proof. induction l as [|x l IH]; [constructor|]. by apply insertStable_sorted. Qed.

(** Elements that are equal in the order stay in their order. *)
Lemma insertStable_filter (P : A -> Prop) `{!forall x, Decision (P x)} x l :
  (forall y z, P y -> P z -> le y z = true) -> filter P (insertStable le x l) = filter P (x :: l).
Proof.
  intros HP. induction l as [|y l IH]; [done|]. simpl. destruct (le x y) eqn:E; [done|].
  rewrite !filter_cons in *. rewrite IH. repeat case_decide; try done. by rewrite HP in E.
Qed.
Lemma stableSort_filter (P : A -> Prop) `{!forall x, Decision (P x)} l :
  (forall y z, P y -> P z -> le y z = true) -> filter P (stableSort le l) = filter P l.
Proof.
  intros HP. induction l as [|x l IH]; [done|]. simpl. rewrite insertStable_filter by done.
  rewrite !filter_cons, IH. done.
Qed.
End stable.

(** *** One series *)

Lemma sorted_impl {A} (R S : relation A) l : (forall x y, R x y -> S x y) -> Sorted R l -> Sorted S l.
Proof.
  intros HRS. induction 1 as [|x l _ IH Hd]; constructor; [done|]. destruct Hd; constructor; auto.
Qed.

Lemma list_last_default {A} (l : list A) x d d' : List.last (x :: l) d = List.last (x :: l) d'.
Proof. revert x. induction l as [|y l IH]; intros x; [done|]. exact (IH y). Qed.
Lemma list_last_last {A} (l : list A) : forall d, last (d :: l) = Some (List.last (d :: l) d).
Proof.
  induction l as [|x l IH]; intros d; [done|]. rewrite last_cons_cons, IH. f_equal. exact (list_last_default l x x d).
Qed.

Lemma summarise_spec def samples : samples <> [] -> exists s, summarise def samples = Some s /\
  ss_def s = def /\ summarizes s samples.
Proof.
  intros Hne. unfold summarise. set (points := stableSort observedOrder samples).
  assert (Hp : points ≡ₚ samples) by apply stableSort_perm.
  assert (Hv : exists first rest, rm_Value <$> points = first :: rest).
  { destruct points as [|m rest]; [by apply Permutation_nil_l in Hp|]. by eexists _, _. }
  destruct Hv as (first & rest & Hv). rewrite Hv.
  eexists. split; [reflexivity|]. split; [reflexivity|]. split; cbn [ss_points ss_first ss_last ss_def].
  - exact Hp.
  - intros t. apply stableSort_filter. unfold observedOrder. intros y z -> ->. apply Z.leb_refl.
  - eapply sorted_impl; [|apply stableSort_sorted; unfold observedOrder; lia].
    unfold isLe, observedOrder. lia.
  - by rewrite Hv.
  - rewrite Hv. apply list_last_last.
  - intros Ho Hn. unfold best, maximizes. cbn [ss_def ss_max ss_min]. rewrite Ho. cbn [String.eqb].
    by apply (fold_values f64_max (λ e v, f64_leb v e) FloatOrder.f64_leb_refl
      (λ f g h Hf Hg Hh Hfg Hgh, FloatOrder.f64_leb_trans h g f Hh Hg Hf Hgh Hfg) f64_max_spec points).
  - intros Ho Hn. unfold best, maximizes. cbn [ss_def ss_max ss_min]. rewrite Ho. cbn [String.eqb].
    by apply (fold_values f64_min f64_leb FloatOrder.f64_leb_refl FloatOrder.f64_leb_trans f64_min_spec points).
Qed.

(** *** The table *)

Lemma definitionNamed_declared defs name d : declared defs name d -> definitionNamed name defs = Some d.
Proof.
  intros (Hd & Hn & Hone). unfold definitionNamed. destruct (List.find _ _) as [d'|] eqn:E.
  - apply find_some in E as [Hin Heq%String.eqb_eq]. f_equal. apply Hone; [|done].
    by rewrite <- list_elem_of_In, elem_of_reverse in Hin.
  - apply (find_none _ _) with (x := d) in E; [by rewrite Hn, String.eqb_refl in E|].
    by rewrite <- list_elem_of_In, elem_of_reverse.
Qed.

Lemma sortedNames_elem name recorded : name ∈ sortedNames recorded <-> exists m, m ∈ recorded /\ rm_Name m = name.
Proof.
  unfold sortedNames. rewrite orderBy_Permutation, elem_of_elements, elem_of_list_to_set, list_elem_of_fmap.
  naive_solver.
Qed.

#[local] Instance leb_transitive : Transitive (isLe Text.leb).
Proof. intros x y z. apply Text.leb_trans. Qed.
#[local] Instance leb_total_order : Total (isLe Text.leb).
Proof. intros x y. apply Text.leb_total. Qed.

Lemma sortedNames_sorted recorded : StronglySorted (λ a b, Text.ltb a b = true) (sortedNames recorded).
Proof.
  unfold sortedNames. set (names := elements _).
  assert (Hnd : NoDup (orderBy Text.leb names)) by (rewrite orderBy_Permutation; apply NoDup_elements).
  assert (Hs : StronglySorted (isLe Text.leb) (orderBy Text.leb names)) by (apply StronglySorted_merge_sort; apply _).
  induction Hs as [|x l Hs IH Hall]; [constructor|]. apply NoDup_cons in Hnd as [Hx Hnd]. constructor; [by apply IH|].
  rewrite Forall_forall in Hall |- *. intros y Hy. rewrite Text.ltb_leb. apply negb_true_iff, not_true_iff_false.
  intros Hyx. rewrite (Text.leb_antisym x y (Hall y Hy) Hyx) in Hx. done.
Qed.

Lemma metricTable_rows defs recorded : let reported := filter (λ m, systemSample m = false) recorded in
  Forall2 (λ name row, row.1 = name /\
      summarise (default zeroDefinition (definitionNamed name defs)) (seriesNamed name reported) = Some row.2)
    (sortedNames reported) (metricTable defs recorded).
Proof.
  intros reported. unfold metricTable. fold reported.
  assert (Hall : Forall (λ name, name ∈ sortedNames reported) (sortedNames reported)) by by apply Forall_forall.
  induction Hall as [|name names Hn _ IH]; [constructor|]. cbn.
  apply sortedNames_elem in Hn as (m & Hm & <-).
  destruct (summarise_spec (default zeroDefinition (definitionNamed (rm_Name m) defs))
    (seriesNamed (rm_Name m) reported)) as (s & Hs & _).
  { intros Hnil. apply (not_elem_of_nil m). rewrite <- Hnil. by apply list_elem_of_filter. }
  rewrite Hs. constructor; [by rewrite Hs|exact IH].
Qed.
End ReportTheory.

(** C36: The table of metrics of a report has exactly one row for every series, other
    than the automatic ones, that reported a sample, in the order of the names;
    a row is over exactly the samples of its series, in the order they were
    observed and otherwise as they were read; first and last are the values at
    the ends. When no sample of the series is NaN, best is one of its values: of a
    metric declared (once) to be maximized the greatest, of one declared to be
    minimized the least. Of a metric with another objective, or none, nothing is
    said of best. *)
Theorem metric_table_complete (defs : list MetricDefinition) (recorded : list RecordedMetric) :
  let rows := metricTable defs recorded in
  (forall name, name ∈ rows.*1 <->
     exists m, m ∈ recorded /\ rm_Name m = name /\ HasPrefix name SystemMetricPrefix = false) /\
  StronglySorted (λ a b, Text.ltb a b = true) rows.*1 /\
  Forall (λ row, ss_def row.2 = default zeroDefinition (definitionNamed row.1 defs) /\
    (forall d, declared defs row.1 d -> ss_def row.2 = d) /\
    summarizes row.2 (seriesNamed row.1 recorded)) rows.
Proof.
  pose proof (ReportTheory.metricTable_rows defs recorded) as Hrows. cbv zeta in *.
  set (reported := filter _ recorded) in *.
  assert (Hnames : (metricTable defs recorded).*1 = sortedNames reported).
  { clear -Hrows. induction Hrows as [|name row names rows [Hn _] _ IH]; [done|]. by rewrite fmap_cons, Hn, IH. }
  rewrite Hnames. split_and!; [|apply ReportTheory.sortedNames_sorted|].
  - intros name. rewrite ReportTheory.sortedNames_elem. unfold reported. setoid_rewrite list_elem_of_filter.
    unfold systemSample. change "lcjs/" with SystemMetricPrefix. split; naive_solver.
  - apply Forall_forall. intros [name s] Hrow. apply list_elem_of_lookup in Hrow as [i Hi].
    destruct (Forall2_lookup_r _ _ _ _ _ Hrows Hi) as (n & Hn & <- & Hs). simpl in *.
    apply list_elem_of_lookup_2, ReportTheory.sortedNames_elem in Hn as (m & Hm & Hmn).
    apply list_elem_of_filter in Hm as [Hsys Hm].
    assert (Heq : seriesNamed name reported = seriesNamed name recorded).
    { unfold seriesNamed, reported. rewrite list_filter_filter. apply list_filter_iff. intros x. unfold systemSample in *.
      split; [tauto|]. intros ->. by rewrite <- Hmn. }
    rewrite Heq in Hs.
    destruct (ReportTheory.summarise_spec (default zeroDefinition (definitionNamed name defs))
      (seriesNamed name recorded)) as (s' & Hs' & Hdef & ?).
    { intros Hnil. apply (not_elem_of_nil m). rewrite <- Hnil. by apply list_elem_of_filter. }
    rewrite Hs in Hs'. injection Hs' as <-. split_and!; [done| |done]. intros d Hd.
    by rewrite Hdef, (ReportTheory.definitionNamed_declared _ _ _ Hd).
Qed.
