(* ===== verification/Migrations.v ===== *)
(** * Opening the control plane's database (store.go Open, initialize, applyMigration)

    The migrations of migrations/*.sql as statements on tables of rows, and the
    loop that applies those a database has not seen. A table is its columns, its
    foreign keys and its rows; types and CHECK and UNIQUE clauses are left to
    Database.v, which models the statements of the running program. *)

From S2P Require Import Prelude Times GoLib Paths.

(** ** Tables *)

Inductive Value := VNull | VText (s : string) | VInt (z : Z) | VReal (f : float64) | VBlob (s : string).
#[export] Instance Value_eq_dec : EqDecision Value.
Proof. solve_decision. Defined.

Abbreviation Row := (gmap string Value).
(** A foreign key: a column, and the table and the column it refers to. *)
Abbreviation Reference := (string * string * string)%type.

Record Table := { tb_columns : list string; tb_references : list Reference; tb_rows : list Row }.

(** The tables, and the table of every index. *)
Record Schema := { sc_tables : gmap string Table; sc_indexes : gmap string string }.

(** ** Statements of the migrations *)

Inductive SelectItem := Column (name : string) | Constant (v : Value).

Inductive Statement :=
  | CreateTable (name : string) (columns : list string) (references : list Reference)
  | CreateIndex (name table : string) (columns : list string)
  | AddColumn (table column : string) (default : Value)
  | InsertSelect (into : string) (values_ : list (string * SelectItem)) (from : string)
  | DropTable (name : string)
  | RenameTable (name to : string).

Definition sourceValue (row : Row) (s : SelectItem) : Value :=
  match s with Column c => default VNull (row !! c) | Constant v => v end.
Definition selectRow (values_ : list (string * SelectItem)) (row : Row) : Row :=
  list_to_map ((λ cs, (cs.1, sourceValue row cs.2)) <$> values_).

(** A row's reference holds: it is NULL, or the row it names exists. *)
Definition refHolds (tables : gmap string Table) (row : Row) (reference : Reference) : bool :=
  let '(column, parent, key) := reference in
  match row !! column with
  | None | Some VNull => true
  | Some v =>
      match tables !! parent with
      | None => false
      | Some p => existsb (λ r : Row, bool_decide (r !! key = Some v)) (tb_rows p)
      end
  end.
Definition tableOk (tables : gmap string Table) (t : Table) : bool :=
  forallb (λ row, forallb (refHolds tables row) (tb_references t)) (tb_rows t).

(** PRAGMA foreign_key_check: the tables with a reference that does not hold. *)
Definition violations (tables : gmap string Table) : list string :=
  (filter (λ kt, tableOk tables kt.2 = false) (map_to_list tables)).*1.

Definition addRows (rows : list Row) (t : Table) : Table :=
  {| tb_columns := tb_columns t; tb_references := tb_references t; tb_rows := tb_rows t ++ rows |}.

(** One statement, or none where SQLite rejects it. Where foreign keys are
    enforced, dropping a table first deletes its rows. *)
Definition execStatement (foreignKeys : bool) (st : Statement) (d : Schema) : option Schema :=
  let tables := sc_tables d in
  match st with
  | CreateTable name columns references =>
      match tables !! name with
      | Some _ => None
      | None => Some {| sc_indexes := sc_indexes d; sc_tables :=
          <[name := {| tb_columns := columns; tb_references := references; tb_rows := [] |}]> tables |}
      end
  | CreateIndex name table columns =>
      t ← tables !! table;
      if bool_decide (is_Some (sc_indexes d !! name)) || negb (forallb (λ c, bool_decide (c ∈ tb_columns t)) columns)
      then None else Some {| sc_tables := tables; sc_indexes := <[name := table]> (sc_indexes d) |}
  | AddColumn table column v =>
      t ← tables !! table;
      if bool_decide (column ∈ tb_columns t) then None
      else Some {| sc_indexes := sc_indexes d; sc_tables :=
        <[table := {| tb_columns := tb_columns t ++ [column]; tb_references := tb_references t;
                      tb_rows := <[column := v]> <$> tb_rows t |}]> tables |}
  | InsertSelect into values_ from =>
      t ← tables !! into;
      source ← tables !! from;
      (* the one statement of this kind names every column *)
      if bool_decide (values_.*1 = tb_columns t)
      then Some {| sc_indexes := sc_indexes d; sc_tables :=
        <[into := addRows (selectRow values_ <$> tb_rows source) t]> tables |}
      else None
  | DropTable name =>
      t ← tables !! name;
      let rest := delete name tables in
      if foreignKeys && negb (bool_decide (violations rest = [])) then None
      else Some {| sc_tables := rest; sc_indexes := filter (λ it, it.2 <> name) (sc_indexes d) |}
  | RenameTable name to =>
      t ← tables !! name;
      match tables !! to with
      | Some _ => None
      | None => Some {| sc_tables := <[to := t]> (delete name tables);
                        sc_indexes := (λ table, if (table =? name)%string then to else table) <$> sc_indexes d |}
      end
  end.

Fixpoint execScript (foreignKeys : bool) (script : list Statement) (d : Schema) : option Schema :=
  match script with
  | [] => Some d
  | st :: rest => d1 ← execStatement foreignKeys st d; execScript foreignKeys rest d1
  end.

(** ** The migrations *)

Definition migration1 : list Statement := [
  CreateTable "jobs" ["id"; "project"; "name"; "state"; "priority"; "revision"; "spec_json"; "created_at";
    "updated_at"] [];
  CreateIndex "jobs_queue_order" "jobs" ["state"; "priority"; "created_at"; "id"];
  CreateTable "events" ["sequence"; "event_id"; "kind"; "resource_id"; "payload_json"; "occurred_at";
    "recorded_at"] [];
  CreateIndex "events_resource_sequence" "events" ["resource_id"; "sequence"];
  CreateTable "idempotency_keys" ["operation"; "key"; "request_hash"; "resource_id"; "created_at"] []].

Definition migration2 : list Statement := [
  CreateTable "api_tokens" ["id"; "name"; "token_hash"; "scope"; "created_at"; "last_used_at"; "revoked_at"] [];
  CreateTable "browser_sessions" ["session_hash"; "api_token_id"; "created_at"; "expires_at"; "last_used_at"]
    [("api_token_id", "api_tokens", "id")];
  CreateIndex "browser_sessions_expiry" "browser_sessions" ["expires_at"]].

Definition eventColumns : list string :=
  ["sequence"; "event_id"; "attempt_id"; "kind"; "payload_json"; "occurred_at"; "recorded_at"].
Definition eventReferences : list Reference :=
  [("worker_id", "workers", "id"); ("attempt_id", "attempts", "id")].

Definition migration3 : list Statement := [
  CreateTable "workers" ["id"; "name"; "status"; "agent_version"; "session_id"; "capacity_json"; "last_seen_at";
    "created_at"; "updated_at"] [];
  CreateTable "worker_tokens" ["token_hash"; "worker_id"; "created_at"; "last_used_at"; "revoked_at"]
    [("worker_id", "workers", "id")];
  CreateTable "attempts" ["id"; "job_id"; "attempt_number"; "worker_id"; "command_id"; "state"; "revision";
    "offered_at"; "lease_expires_at"; "accepted_at"; "started_at"; "finished_at"; "exit_code"; "error"; "log_uri"]
    [("job_id", "jobs", "id"); ("worker_id", "workers", "id")];
  CreateIndex "attempts_worker_state" "attempts" ["worker_id"; "state"; "offered_at"];
  CreateIndex "attempts_job" "attempts" ["job_id"; "attempt_number"];
  CreateTable "worker_events" ("worker_id" :: eventColumns) eventReferences;
  CreateTable "metric_samples" ["attempt_id"; "event_id"; "name"; "value"; "step"; "observed_at"; "recorded_at"]
    [("attempt_id", "attempts", "id"); ("event_id", "worker_events", "event_id")];
  CreateIndex "metric_samples_attempt_name" "metric_samples" ["attempt_id"; "name"; "observed_at"];
  CreateTable "artifacts" ["attempt_id"; "name"; "uri"; "size_bytes"; "sha256"; "created_at"]
    [("attempt_id", "attempts", "id")]].

Definition migration4 : list Statement := [AddColumn "attempts" "log_tail" (VText "")].

Definition migration5 : list Statement := [
  CreateTable "webhook_targets" ["id"; "name"; "url"; "secret"; "created_at"; "revoked_at"] [];
  CreateTable "health_firings" ["id"; "job_id"; "attempt_id"; "policy_index"; "firing_key"; "kind"; "target_name";
    "payload_json"; "created_at"] [("job_id", "jobs", "id"); ("attempt_id", "attempts", "id")];
  CreateTable "webhook_deliveries" ["id"; "firing_id"; "target_id"; "state"; "attempt_count"; "next_attempt_at";
    "response_code"; "last_error"; "created_at"; "updated_at"; "delivered_at"]
    [("firing_id", "health_firings", "id"); ("target_id", "webhook_targets", "id")];
  CreateIndex "webhook_deliveries_due" "webhook_deliveries" ["state"; "next_attempt_at"; "created_at"]].

Definition migration6 : list Statement := [AddColumn "attempts" "git_state_json" VNull].

(** The table of worker events with the session in its key. *)
Definition migration7 : list Statement := [
  CreateTable "worker_events_new" ("worker_id" :: "session_id" :: eventColumns) eventReferences;
  InsertSelect "worker_events_new"
    (("worker_id", Column "worker_id") :: ("session_id", Constant (VText "")) ::
     ((λ c, (c, Column c)) <$> eventColumns)) "worker_events";
  DropTable "worker_events";
  RenameTable "worker_events_new" "worker_events"].

Definition migration8 : list Statement := [AddColumn "artifacts" "content" VNull].

(** The embedded files, in the order of their names. *)
Definition migrations : list (string * list Statement) := [
  ("0001_initial.sql", migration1); ("0002_auth.sql", migration2); ("0003_workers.sql", migration3);
  ("0004_attempt_log_tail.sql", migration4); ("0005_health_hooks.sql", migration5);
  ("0006_attempt_git_state.sql", migration6); ("0007_session_scoped_event_sequences.sql", migration7);
  ("0008_artifact_content.sql", migration8)].

(** ** Opening *)

(** A database file: its schema, the migrations recorded in schema_migrations
    with the times of their application, if the table exists; and whether the
    connection enforces foreign keys. *)
Record File := { fl_schema : Schema; fl_applied : option (gmap string string); fl_foreignKeys : bool }.

Inductive OpenError :=
  | PathRequired
  | DirectoryError (reason : string)
  | SQLiteError (reason : string)
  | PermissionsError (reason : string)
  | MigrationError (name : string)
  | ForeignKeyCheck.

Definition withSchema (schema : Schema) (f : File) : File :=
  {| fl_schema := schema; fl_applied := fl_applied f; fl_foreignKeys := fl_foreignKeys f |}.
Definition withForeignKeys (on : bool) (f : File) : File :=
  {| fl_schema := fl_schema f; fl_applied := fl_applied f; fl_foreignKeys := on |}.
Definition withApplied (applied : option (gmap string string)) (f : File) : File :=
  {| fl_schema := fl_schema f; fl_applied := applied; fl_foreignKeys := fl_foreignKeys f |}.

Abbreviation FAct := (M File OpenError).

(** What the file system and the driver answer; an error is its reason. *)
Record Disk := {
  dk_mkdir : string -> option string; dk_open : string -> option string; dk_chmod : string -> option string;
}.

(** SELECT 1 FROM schema_migrations WHERE name = ?; then the script and its
    record in one transaction. *)
Definition applyMigration (now : time) (migration : string * list Statement) : FAct unit := λ f,
  let '(name, script) := migration in
  match fl_applied f with
  | None => (Err (MigrationError name), f)
  | Some applied =>
      if bool_decide (is_Some (applied !! name)) then (Ok tt, f)
      else
        match execScript (fl_foreignKeys f) script (fl_schema f) with
        | None => (Err (MigrationError name), f)
        | Some schema => (Ok tt, withApplied (Some (<[name := formatTime now]> applied)) (withSchema schema f))
        end
  end.

(** [clock name] is the time at which a migration is recorded. A row of
    PRAGMA foreign_key_check has four columns, and Scan has one destination for
    them: a violation is the error of Scan, with the words "verify foreign keys
    after migrations". *)
Definition initialize (clock : string -> time) : FAct unit :=
  mmodify (withForeignKeys true) ;;
  mmodify (λ f, withApplied (Some (default ∅ (fl_applied f))) f) ;;
  mmodify (withForeignKeys false) ;;
  mfor migrations (λ m, applyMigration (clock m.1) m) ;;
  violating ← mreads (λ f, violations (sc_tables (fl_schema f)));
  match violating with
  | [] => mmodify (withForeignKeys true)
  | _ :: _ => mfail ForeignKeyCheck
  end.

(** An operation of the disk. *)
Definition io {A} (answer : option string) (err : string -> OpenError) (k : FAct A) : FAct A :=
  match answer with Some reason => mfail (err reason) | None => k end.

Definition Open (disk : Disk) (clock : string -> time) (path : string) : FAct unit :=
  let onDisk := negb (path =? ":memory:")%string in
  if (path =? "")%string then mfail PathRequired
  else
    io (if onDisk then dk_mkdir disk path else None) DirectoryError
    (io (dk_open disk path) SQLiteError
    (initialize clock ;;
     io (if onDisk then dk_chmod disk path else None) PermissionsError (mret tt))).

Definition emptySchema : Schema := {| sc_tables := ∅; sc_indexes := ∅ |}.
(** A file that does not exist yet. *)
Definition newFile : File := {| fl_schema := emptySchema; fl_applied := None; fl_foreignKeys := false |}.
