(* ===== verification/MigrationsProperties.v ===== *)
(** * Opening the control plane's database: the properties

    A database that any earlier version of the program left, whole or
    interrupted between two migrations, is brought to the current schema with
    every row it held; opening it again changes nothing. *)

From S2P Require Import Prelude Times GoLib Paths Migrations.

(** The tables without their rows. *)
Definition bareTable (t : Table) : Table :=
  {| tb_columns := tb_columns t; tb_references := tb_references t; tb_rows := [] |}.
Definition bare (d : Schema) : Schema :=
  {| sc_tables := bareTable <$> sc_tables d; sc_indexes := sc_indexes d |}.

(** The schema the first [k] migrations make. *)
Fixpoint runScripts (foreignKeys : bool) (ms : list (string * list Statement)) (d : Schema) : option Schema :=
  match ms with
  | [] => Some d
  | m :: ms => d1 ← execScript foreignKeys m.2 d; runScripts foreignKeys ms d1
  end.
Definition schemaAt (k : nat) : option Schema := runScripts false (take k migrations) emptySchema.

(** Every row has exactly the columns of its table. *)
Definition rowsTyped (d : Schema) : Prop :=
  map_Forall (λ _ t, Forall (λ row : Row, dom row = list_to_set (C := gset string) (tb_columns t)) (tb_rows t))
    (sc_tables d).

(** A file as the version of the program with the first [k] migrations leaves it. *)
Record version (k : nat) (f : File) : Prop := {
  ve_schema : schemaAt k = Some (bare (fl_schema f));
  ve_applied : dom (default ∅ (fl_applied f)) = list_to_set (C := gset string) (take k migrations).*1;
  ve_rows : rowsTyped (fl_schema f);
  ve_integrity : violations (sc_tables (fl_schema f)) = [];
}.

(** Every table and every row with its columns is kept, in order; only columns
    and empty tables are added. *)
Definition keepsRows (d d' : Schema) : Prop :=
  (forall name t, sc_tables d !! name = Some t -> exists t', sc_tables d' !! name = Some t' /\
     tb_references t' = tb_references t /\ Forall2 (λ r r' : Row, r ⊆ r') (tb_rows t) (tb_rows t')) /\
  (forall name t', sc_tables d' !! name = Some t' -> sc_tables d !! name = None -> tb_rows t' = []).

Module MigrationTheory.

#[global] Instance keepsRows_preorder : PreOrder keepsRows.
Proof.
  split.
  - intros d. split; [|by intros name t -> [=]]. intros name t Ht. exists t. split_and!; [done..|].
    induction (tb_rows t); by constructor.
  - intros d1 d2 d3 [H1' H2'] [H3' H4']. split.
    + intros name t Ht. destruct (H1' name t Ht) as (t2 & Ht2 & Hr2 & Hrows2).
      destruct (H3' name t2 Ht2) as (t3 & Ht3 & Hr3 & Hrows3). exists t3. split_and!; [done|congruence|].
      clear -Hrows2 Hrows3. revert Hrows3. generalize (tb_rows t3). induction Hrows2 as [|r r2 l l2 Hr _ IH];
        intros l3 Hl; inversion Hl; subst; constructor; [by etrans|by apply IH].
    + intros name t3 Ht3 Hn. destruct (sc_tables d2 !! name) as [t2|] eqn:Ht2; [|by eapply H4'].
      pose proof (H2' name t2 Ht2 Hn) as Hnil. destruct (H3' name t2 Ht2) as (t & Ht & _ & Hrows).
      rewrite Ht3 in Ht. injection Ht as <-. rewrite Hnil in Hrows. by inversion Hrows.
Qed.

(** *** A statement needs only the tables' columns to run *)

Lemma bareTable_addRows rows t : bareTable (addRows rows t) = bareTable t.
Proof. done. Qed.

Lemma execStatement_bare st d : bare <$> execStatement false st d = execStatement false st (bare d).
Proof.
  unfold bare. destruct st; cbn [execStatement sc_tables sc_indexes]; rewrite ?lookup_fmap.
  - destruct (sc_tables d !! name) eqn:E; [done|]. cbn. by rewrite fmap_insert.
  - destruct (sc_tables d !! table) as [t|] eqn:E; [|done]. cbn. by destruct (_ || _).
  - destruct (sc_tables d !! table) as [t|] eqn:E; [|done]. cbn. case_bool_decide; [done|]. cbn.
    by rewrite fmap_insert.
  - destruct (sc_tables d !! into) as [t|] eqn:E, (sc_tables d !! from) as [s|] eqn:E'; try done; cbn.
    case_bool_decide; [|done]. cbn. by rewrite fmap_insert.
  - destruct (sc_tables d !! name) as [t|] eqn:E; [|done]. cbn. by rewrite fmap_delete.
  - destruct (sc_tables d !! name) as [t|] eqn:E; [|done]. cbn.
    destruct (sc_tables d !! to) eqn:E'; [done|]. cbn. by rewrite fmap_insert, fmap_delete.
Qed.

Lemma execScript_bare script : forall d, bare <$> execScript false script d = execScript false script (bare d).
Proof.
  induction script as [|st script IH]; intros d; [done|]. cbn [execScript]. rewrite <- execStatement_bare.
  destruct (execStatement false st d) as [d1|]; [|done]. cbn. apply IH.
Qed.

(** *** Statements that only add *)

Definition additive (st : Statement) : bool :=
  match st with CreateTable _ _ _ | CreateIndex _ _ _ | AddColumn _ _ _ => true | _ => false end.

Lemma keeps_same d d' : sc_tables d' = sc_tables d -> keepsRows d d'.
Proof. intros He. destruct (reflexivity (R := keepsRows) d) as [H1' H2']. split; rewrite He; [exact H1'|exact H2']. Qed.

Lemma keeps_insert name t t' d indexes : sc_tables d !! name = Some t -> tb_references t' = tb_references t ->
  Forall2 (λ r r' : Row, r ⊆ r') (tb_rows t) (tb_rows t') ->
  keepsRows d {| sc_tables := <[name := t']> (sc_tables d); sc_indexes := indexes |}.
Proof.
  intros Ht Hr Hrows. split; cbn [sc_tables].
  - intros n u Hu. destruct (decide (n = name)) as [-> |Hn].
    + exists t'. rewrite lookup_insert_eq. assert (u = t) as -> by congruence. done.
    + exists u. rewrite lookup_insert_ne by done. split_and!; [done..|]. induction (tb_rows u); by constructor.
  - intros n u Hu Hn. rewrite lookup_insert_ne in Hu by congruence. congruence.
Qed.

Lemma execStatement_adds st d d' : additive st = true -> rowsTyped d -> execStatement false st d = Some d' ->
  rowsTyped d' /\ keepsRows d d'.
Proof.
  intros Ha Hty Hx. destruct st; try done; cbn [execStatement] in Hx.
  - destruct (sc_tables d !! name) eqn:E; [done|]. injection Hx as <-. split.
    + apply map_Forall_insert_2; [by constructor|done].
    + split; cbn [sc_tables]; intros n t Ht.
      * exists t. rewrite lookup_insert_ne by congruence. split_and!; [done..|]. induction (tb_rows t); by constructor.
      * intros Hn. destruct (decide (n = name)) as [-> |]; [rewrite lookup_insert_eq in Ht; by injection Ht as <-|].
        rewrite lookup_insert_ne in Ht by done. congruence.
  - destruct (sc_tables d !! table) eqn:E; [|done]. cbn in Hx. destruct (_ || _); [done|]. injection Hx as <-.
    split; [exact Hty|by apply keeps_same].
  - destruct (sc_tables d !! table) as [t|] eqn:E; [|done]. cbn in Hx. case_bool_decide as Hc; [done|].
    injection Hx as <-. pose proof (Hty _ _ E) as Ht. split.
    + apply map_Forall_insert_2; [|done]. apply Forall_fmap. eapply Forall_impl; [exact Ht|]. intros r Hr.
      unfold compose. cbn. rewrite dom_insert_L, Hr. rewrite list_to_set_app_L. cbn. set_solver.
    + apply (keeps_insert table t); [done|done|]. cbn. apply Forall2_fmap_r.
      clear -Ht Hc. induction Ht as [|r l Hr _ IH]; constructor; [|exact IH].
      apply insert_subseteq, not_elem_of_dom. rewrite Hr. by rewrite elem_of_list_to_set.
Qed.

Lemma execScript_adds script : forall d d', forallb additive script = true -> rowsTyped d ->
  execScript false script d = Some d' -> rowsTyped d' /\ keepsRows d d'.
Proof.
  induction script as [|st script IH]; intros d d' Ha Hty Hx; cbn [execScript] in Hx.
  - injection Hx as <-. by split.
  - apply andb_true_iff in Ha as [Hst Ha]. destruct (execStatement false st d) as [d1|] eqn:E; [|done].
    destruct (execStatement_adds st d d1 Hst Hty E) as [Hty1 Hk1]. destruct (IH d1 d' Ha Hty1 Hx) as [Hty' Hk'].
    split; [done|by etrans].
Qed.

(** *** The rebuilt table of worker events *)

Lemma selectRow_map values_ row : selectRow values_ row = sourceValue row <$> (list_to_map values_ : gmap string SelectItem).
Proof.
  unfold selectRow. induction values_ as [|[c source] values_ IH]; [done|]. cbn. by rewrite IH, fmap_insert.
Qed.

Lemma selectRow_keeps (row : Row) (columns : list string) values_ :
  dom row = list_to_set (C := gset string) columns ->
  Forall (λ c, (list_to_map values_ : gmap string SelectItem) !! c = Some (Column c)) columns ->
  row ⊆ selectRow values_ row.
Proof.
  intros Hdom Hall. apply map_subseteq_spec. intros c v Hc. rewrite selectRow_map, lookup_fmap.
  rewrite Forall_forall in Hall. rewrite Hall; [cbn; by rewrite Hc|].
  apply (elem_of_list_to_set (C := gset string)). rewrite <- Hdom. by eapply elem_of_dom_2.
Qed.

Lemma migration7_exec d t : sc_tables d !! "worker_events" = Some t ->
  sc_tables d !! "worker_events_new" = None -> exists indexes,
  execScript false migration7 d = Some {| sc_indexes := indexes; sc_tables :=
    <["worker_events" := {| tb_columns := "worker_id" :: "session_id" :: eventColumns;
       tb_references := eventReferences;
       tb_rows := selectRow (("worker_id", Column "worker_id") :: ("session_id", Constant (VText "")) ::
                             ((λ c, (c, Column c)) <$> eventColumns)) <$> tb_rows t |}]> (sc_tables d) |}.
Proof.
  intros Ht Hn. unfold migration7. cbn [execScript]. cbn [execStatement]. rewrite Hn. cbn [mbind option_bind].
  cbn [execStatement sc_tables]. rewrite lookup_insert_eq, lookup_insert_ne, Ht by done. cbn [mbind option_bind].
  rewrite bool_decide_eq_true_2 by reflexivity. cbn [mbind option_bind execStatement sc_tables].
  rewrite insert_insert_eq, lookup_insert_ne, Ht by done. cbn [mbind option_bind execStatement sc_tables andb].
  rewrite delete_insert_ne by done. rewrite lookup_insert_eq. cbn [mbind option_bind].
  rewrite delete_insert_id by (by rewrite lookup_delete_ne). rewrite lookup_insert_ne, lookup_delete_eq by done.
  eexists. do 3 f_equal. by rewrite insert_delete_eq.
Qed.

(** *** References *)

Lemma violations_nil tables : violations tables = [] <-> map_Forall (λ _ t, tableOk tables t = true) tables.
Proof.
  unfold violations. split.
  - intros Hv name t Ht. destruct (tableOk tables t) eqn:E; [done|]. exfalso. apply fmap_nil_inv in Hv.
    apply (not_elem_of_nil (name, t)). rewrite <- Hv. apply list_elem_of_filter. split; [exact E|].
    by apply elem_of_map_to_list.
  - intros Hall. destruct (filter _ _) as [|[name t] l] eqn:E; [done|]. exfalso.
    assert (Hin : (name, t) ∈ filter (λ kt, tableOk tables kt.2 = false) (map_to_list tables))
      by (rewrite E; apply list_elem_of_here).
    apply list_elem_of_filter in Hin as [Hno Hin%elem_of_map_to_list]. specialize (Hall _ _ Hin). simpl in *. congruence.
Qed.

(** The columns of every foreign key are columns of its table. *)
Definition referencesKnown (d : Schema) : bool :=
  forallb (λ kt, forallb (λ r : Reference, bool_decide (r.1.1 ∈ tb_columns kt.2)) (tb_references kt.2))
    (map_to_list (sc_tables d)).

Lemma forallb_spec {A} (f : A -> bool) l : forallb f l = true <-> Forall (λ x, f x = true) l.
Proof. by rewrite List.forallb_forall, Forall_forall; setoid_rewrite list_elem_of_In. Qed.

Lemma keeps_integrity d d' : keepsRows d d' -> rowsTyped d -> referencesKnown (bare d) = true ->
  violations (sc_tables d) = [] -> violations (sc_tables d') = [].
Proof.
  rewrite !violations_nil. intros [Hold Hnew] Hty Hknown Hok name t' Ht'.
  destruct (sc_tables d !! name) as [t|] eqn:Ht.
  2:{ unfold tableOk. by rewrite (Hnew _ _ Ht' Ht). }
  destruct (Hold _ _ Ht) as (t2 & Ht2 & Hrefs & Hrows). assert (t2 = t') as -> by congruence.
  specialize (Hok _ _ Ht). specialize (Hty _ _ Ht). simpl in *.
  assert (Hkn : Forall (λ r : Reference, r.1.1 ∈ tb_columns t) (tb_references t)).
  { unfold referencesKnown in Hknown. rewrite forallb_spec, Forall_forall in Hknown.
    specialize (Hknown (name, bareTable t)). rewrite elem_of_map_to_list in Hknown. unfold bare in Hknown.
    cbn [sc_tables] in Hknown. rewrite lookup_fmap, Ht in Hknown. specialize (Hknown eq_refl). cbn in Hknown.
    apply forallb_spec in Hknown. eapply Forall_impl; [exact Hknown|]. intros r. by rewrite bool_decide_eq_true. }
  unfold tableOk in *. rewrite forallb_spec in *. rewrite Hrefs.
  revert Hok Hty. induction Hrows as [|r r' l l' Hr _ IH]; intros Hok Hty; [constructor|].
  apply Forall_cons in Hok as [Hr1 Hok]. apply Forall_cons in Hty as [Hd Hty]. constructor; [|by apply IH].
  rewrite forallb_spec in *. rewrite Forall_forall in *. intros [[column parent] key] Hin.
  specialize (Hr1 _ Hin). specialize (Hkn _ Hin). cbn in *.
  assert (Hc : is_Some (r !! column)) by (apply elem_of_dom; rewrite Hd; by apply elem_of_list_to_set).
  destruct Hc as [v Hv]. rewrite Hv in Hr1. rewrite (lookup_weaken _ _ _ _ Hv Hr). destruct v; try done;
    (destruct (sc_tables d !! parent) as [pt|] eqn:Hp; [|done]); destruct (Hold _ _ Hp) as (pt' & -> & _ & Hprows);
    apply List.existsb_exists in Hr1 as (x & Hx & Hxk%bool_decide_eq_true); apply list_elem_of_In in Hx;
    apply list_elem_of_lookup in Hx as [j Hj]; destruct (Forall2_lookup_l _ _ _ _ _ Hprows Hj) as (x' & Hj' & Hsub);
    apply List.existsb_exists; exists x'; (split; [apply list_elem_of_In; by eapply list_elem_of_lookup_2|]);
    apply bool_decide_eq_true; by eapply lookup_weaken.
Qed.

(** *** One migration *)

Lemma schemaAt_known k : (k <= 8)%nat -> exists d, schemaAt k = Some d /\ referencesKnown d = true.
Proof.
  intros Hk. assert (Hall : forallb (λ k, match schemaAt k with Some d => referencesKnown d | None => false end)
    (seq 0 9) = true) by (vm_compute; reflexivity).
  rewrite forallb_spec, Forall_forall in Hall. specialize (Hall k). cbv beta in Hall.
  destruct (schemaAt k) as [d|]; [exists d; split; [done|]|exfalso; discriminate Hall + idtac];
    first [apply Hall | specialize (Hall ltac:(apply elem_of_seq; lia)); discriminate Hall]; apply elem_of_seq; lia.
Qed.

Lemma runScripts_snoc ms m d : runScripts false (ms ++ [m]) d = runScripts false ms d ≫= execScript false m.2.
Proof.
  revert d. induction ms as [|m' ms IH]; intros d.
  - cbn. by destruct (execScript false m.2 d).
  - cbn [app runScripts]. destruct (execScript false m'.2 d); [apply IH|done].
Qed.

Lemma schemaAt_S k m : migrations !! k = Some m -> schemaAt (S k) = schemaAt k ≫= execScript false m.2.
Proof. intros Hm. unfold schemaAt. by rewrite (take_S_r _ _ _ Hm), runScripts_snoc. Qed.

Lemma migration7_keeps d : schemaAt 6 = Some (bare d) -> rowsTyped d -> forall d',
  execScript false migration7 d = Some d' -> rowsTyped d' /\ keepsRows d d'.
Proof.
  intros Hs Hty d' Hx.
  assert (Hwe : (schemaAt 6 ≫= λ x, sc_tables x !! "worker_events") =
    Some {| tb_columns := "worker_id" :: eventColumns; tb_references := eventReferences; tb_rows := [] |})
    by (vm_compute; reflexivity).
  assert (Hwn : (schemaAt 6 ≫= λ x, sc_tables x !! "worker_events_new") = None) by (vm_compute; reflexivity).
  rewrite Hs in Hwe, Hwn. cbn in Hwe, Hwn. rewrite lookup_fmap in Hwe, Hwn.
  destruct (sc_tables d !! "worker_events") as [t|] eqn:Ht; [|done].
  destruct (sc_tables d !! "worker_events_new") eqn:Hn; [done|].
  destruct (migration7_exec d t Ht Hn) as [indexes Hx']. rewrite Hx in Hx'. injection Hx' as ->.
  injection Hwe as Hcols Hrefs. pose proof (Hty _ _ Ht) as Hrt. simpl in Hrt. rewrite Hcols in Hrt. split.
  - apply map_Forall_insert_2; [|done]. apply Forall_fmap, Forall_forall. intros r _. unfold compose.
    by rewrite selectRow_map, dom_fmap_L, dom_list_to_map_L.
  - apply (keeps_insert "worker_events" t); [done|done|]. apply Forall2_fmap_r. cbn [tb_rows].
    apply Forall_Forall2_diag. eapply Forall_impl; [exact Hrt|]. intros r Hr. unfold compose.
    eapply selectRow_keeps; [exact Hr|]. repeat (constructor; [reflexivity|]). constructor.
Qed.

Lemma additive_migration k m : migrations !! k = Some m -> k <> 6%nat -> forallb additive m.2 = true.
Proof.
  intros Hm Hk.
  assert (Hall : Forall (λ im : nat * (string * list Statement), im.1 = 6%nat \/ forallb additive im.2.2 = true)
    (imap pair migrations)) by (repeat (constructor; [first [right; reflexivity|left; reflexivity]|]); constructor).
  rewrite Forall_lookup in Hall. specialize (Hall k (k, m)). rewrite list_lookup_imap, Hm in Hall.
  destruct (Hall eq_refl) as [He|Ha]; [by destruct (Hk He)|exact Ha].
Qed.

Lemma migration_step k m d : migrations !! k = Some m -> rowsTyped d -> schemaAt k = Some (bare d) ->
  exists d', execScript false m.2 d = Some d' /\ schemaAt (S k) = Some (bare d') /\ rowsTyped d' /\ keepsRows d d'.
Proof.
  intros Hm Hty Hs. pose proof (lookup_lt_Some _ _ _ Hm) as Hlt. change (length migrations) with 8%nat in Hlt.
  destruct (schemaAt_known (S k) ltac:(lia)) as (e & He & _). pose proof He as He'.
  rewrite (schemaAt_S k m Hm), Hs in He'. cbn [mbind option_bind] in He'. rewrite <- execScript_bare in He'.
  destruct (execScript false m.2 d) as [d'|] eqn:Hx; [|done]. injection He' as <-. exists d'.
  split; [done|]. split; [done|]. destruct (decide (k = 6%nat)) as [-> |Hk].
  - injection Hm as <-. by apply migration7_keeps.
  - apply (execScript_adds m.2); [|done|done].
    by eapply additive_migration.
Qed.

(** *** The loop over the migrations *)

Lemma migrations_NoDup : NoDup migrations.*1.
Proof. apply (bool_decide_unpack _). vm_compute. exact I. Qed.

Lemma applied_iff k i m : migrations !! i = Some m ->
  m.1 ∈ (list_to_set (take k migrations).*1 : gset string) <-> (i < k)%nat.
Proof.
  intros Hm. rewrite elem_of_list_to_set. split.
  - intros Hin. apply list_elem_of_fmap in Hin as (m' & He & Hin). apply list_elem_of_lookup in Hin as [j Hj].
    apply lookup_take_Some in Hj as [Hj Hlt]. replace i with j; [done|].
    apply (NoDup_lookup migrations.*1 j i m.1 migrations_NoDup); rewrite list_lookup_fmap; [by rewrite Hj, He|by rewrite Hm].
  - intros Hlt. apply list_elem_of_fmap_2. apply list_elem_of_lookup. exists i. by apply lookup_take_Some.
Qed.

(** Where the loop stands: the version, the rows and the recorded times are kept. *)
Definition upgraded (n : nat) (f f' : File) : Prop :=
  version n f' /\ keepsRows (fl_schema f) (fl_schema f') /\ fl_foreignKeys f' = false /\
  exists applied applied', fl_applied f = Some applied /\ fl_applied f' = Some applied' /\ applied ⊆ applied'.

Lemma applyMigration_next k m f now : (k < 8)%nat -> migrations !! k = Some m -> version k f ->
  fl_foreignKeys f = false -> is_Some (fl_applied f) ->
  exists f', applyMigration now m f = (Ok tt, f') /\ upgraded (S k) f f'.
Proof.
  intros Hk Hm [Hs Ha Hr Hi] Hfk [applied Hap]. destruct m as [name script].
  destruct (migration_step k (name, script) (fl_schema f) Hm Hr Hs) as (d' & Hx & Hs' & Hr' & Hkeep).
  unfold applyMigration. rewrite Hap in Ha |- *. change (default ∅ (Some applied)) with applied in Ha.
  assert (Hnew : applied !! name = None).
  { apply not_elem_of_dom. rewrite Ha, (applied_iff k k (name, script) Hm). lia. }
  rewrite bool_decide_eq_false_2 by (rewrite Hnew; by intros [? [=]]). rewrite Hfk. cbn [snd] in Hx. rewrite Hx.
  eexists. split; [reflexivity|]. split_and!; [|exact Hkeep|exact Hfk|].
  - split; cbn [withApplied withSchema fl_applied fl_schema]; [exact Hs'| |exact Hr'|].
    + change (default ∅ (Some (<[name := formatTime now]> applied))) with (<[name := formatTime now]> applied).
      rewrite dom_insert_L, Ha, (take_S_r _ _ _ Hm), fmap_app, list_to_set_app_L. cbn. set_solver.
    + destruct (schemaAt_known k ltac:(lia)) as (d0 & Hd0 & Hkn). rewrite Hs in Hd0. injection Hd0 as <-.
      by eapply keeps_integrity.
  - exists applied. eexists. split; [done|]. split; [reflexivity|]. by apply insert_subseteq.
Qed.

Lemma applyMigration_skip k i m f now : (i < k)%nat -> migrations !! i = Some m -> version k f ->
  is_Some (fl_applied f) -> applyMigration now m f = (Ok tt, f).
Proof.
  intros Hi Hm [_ Ha _ _] [applied Hap]. destruct m as [name script]. unfold applyMigration.
  rewrite Hap in Ha |- *. change (default ∅ (Some applied)) with applied in Ha. rewrite bool_decide_eq_true_2; [done|].
  apply elem_of_dom. rewrite Ha. by apply (applied_iff k i (name, script)).
Qed.

Lemma upgraded_refl k f : version k f -> fl_foreignKeys f = false -> is_Some (fl_applied f) -> upgraded k f f.
Proof. intros Hv Hfk [applied Ha]. split_and!; [done|reflexivity|done|]. by exists applied, applied. Qed.

Lemma upgraded_trans n1 n2 f1 f2 f3 : upgraded n1 f1 f2 -> upgraded n2 f2 f3 -> upgraded n2 f1 f3.
Proof.
  intros (_ & Hk1 & _ & a1 & a2 & E1 & E2 & H12) (Hv & Hk2 & Hfk & a2' & a3 & E2' & E3 & H23).
  split_and!; [done|by etrans|done|]. exists a1, a3. split_and!; [done..|]. assert (a2' = a2) as -> by congruence. by etrans.
Qed.

(** After [n] of the migrations, [k] of which were applied before. *)
Lemma apply_some clock k f : (k <= 8)%nat -> version k f -> fl_foreignKeys f = false -> is_Some (fl_applied f) ->
  forall n, (n <= 8)%nat -> exists f',
    mfor (take n migrations) (λ m, applyMigration (clock m.1) m) f = (Ok tt, f') /\
    upgraded (Nat.max k n) f f' /\ ((n <= k)%nat -> f' = f).
Proof.
  intros Hk Hv Hfk Hap. induction n as [|n IH]; intros Hn.
  { exists f. rewrite Nat.max_0_r. split_and!; [done|by apply upgraded_refl|done]. }
  destruct (IH ltac:(lia)) as (f1 & Hrun & Hup & Hsame).
  destruct (lookup_lt_is_Some_2 migrations n) as [m Hm]; [change (length migrations) with 8%nat; lia|].
  assert (Hsnoc : forall f2, applyMigration (clock m.1) m f1 = (Ok tt, f2) ->
    mfor (take (S n) migrations) (λ m, applyMigration (clock m.1) m) f = (Ok tt, f2)).
  { intros f2 Hstep. rewrite (take_S_r _ _ _ Hm), mfor_app. rewrite (bind_run _ _ _ _ _ Hrun). cbn.
    by rewrite (bind_run _ _ _ _ _ Hstep). }
  destruct Hup as (Hv1 & Hk1 & Hfk1 & a & a1 & Ha & Ha1 & Hsub). destruct (decide (n < k)%nat) as [Hlt|Hge].
  - rewrite (Hsame ltac:(lia)) in *. exists f. rewrite Nat.max_l by lia. split_and!; [|by apply upgraded_refl|done].
    apply Hsnoc. by apply (applyMigration_skip k n).
  - rewrite Nat.max_r in * by lia.
    destruct (applyMigration_next n m f1 (clock m.1) ltac:(lia) Hm Hv1 Hfk1 ltac:(by eexists)) as (f2 & Hstep & Hup2).
    exists f2. split_and!; [by apply Hsnoc| |lia]. eapply (upgraded_trans n); [|exact Hup2].
    split_and!; [done..|]. by exists a, a1.
Qed.
End MigrationTheory.

(** C10: A database of any earlier version of the program, or a new one, is opened:
    all migrations it has not seen are applied, in order, every row it held is
    kept with its columns, no reference is left open, the times of earlier
    migrations are kept, and foreign keys are enforced from then on.  A file
    that was left after any number of migrations is again of a version, so an
    interrupted upgrade is completed by the next start; and opening a current
    database changes nothing in it. *)
Theorem database_upgraded (clock : string -> time) (k : nat) (f : File) : (k <= 8)%nat -> version k f ->
  (exists f', initialize clock f = (Ok tt, f') /\ version 8 f' /\ keepsRows (fl_schema f) (fl_schema f') /\
     fl_foreignKeys f' = true /\ default ∅ (fl_applied f) ⊆ default ∅ (fl_applied f') /\
     (k = 8%nat -> fl_schema f' = fl_schema f /\ default ∅ (fl_applied f') = default ∅ (fl_applied f))) /\
  (forall n, (n <= 8)%nat -> exists f',
     mfor (take n migrations) (λ m, applyMigration (clock m.1) m)
       (withForeignKeys false (withApplied (Some (default ∅ (fl_applied f))) f)) = (Ok tt, f') /\
     version (Nat.max k n) f' /\ keepsRows (fl_schema f) (fl_schema f')).
Proof.
  intros Hk [Hs Ha Hr Hi]. set (f0 := withForeignKeys false (withApplied (Some (default ∅ (fl_applied f))) f)).
  assert (Hv0 : version k f0) by by split.
  pose proof (MigrationTheory.apply_some clock k f0 Hk Hv0 eq_refl ltac:(by eexists)) as Hloop. split.
  - destruct (Hloop 8%nat ltac:(lia)) as (f1 & Hrun & (Hv1 & Hk1 & _ & a & a1 & Ha0 & Ha1 & Hsub) & Hsame).
    rewrite Nat.max_r in Hv1 by lia. change (take 8 migrations) with migrations in Hrun.
    exists (withForeignKeys true f1). injection Ha0 as <-.
    split; [|split; [|split; [|split; [|split]]]].
    + unfold initialize. do 3 (rewrite (bind_run _ _ _ tt _) by reflexivity). cbv beta.
      change (withForeignKeys false _) with f0. rewrite (bind_run _ _ _ _ _ Hrun).
      rewrite (bind_run _ _ _ (violations (sc_tables (fl_schema f1))) f1) by reflexivity.
      by rewrite (ve_integrity _ _ Hv1).
    + destruct Hv1. by split.
    + exact Hk1.
    + done.
    + cbn. by rewrite Ha1.
    + intros ->. rewrite (Hsame ltac:(lia)). split; reflexivity.
  - intros n Hn. destruct (Hloop n Hn) as (f1 & Hrun & (Hv1 & Hk1 & _) & _). by exists f1.
Qed.

(** ** A concrete upgrade *)

Definition demoApplied : gmap string string := list_to_map ((λ m, (m.1, "2024")) <$> take 6 migrations).
(** A database of the version before session-scoped sequences, with a job, an
    attempt and an event of its worker. *)
Definition oldTables : gmap string Table :=
  match schemaAt 6 with
  | Some d =>
      let put (name : string) (row : Row) (tables : gmap string Table) := alter (addRows [row]) name tables in
      let row (columns : list string) : Row := list_to_map ((λ c, (c, VText "1")) <$> columns) in
      let columns (name : string) := match sc_tables d !! name with Some t => tb_columns t | None => [] end in
      foldr (λ name tables, put name (row (columns name)) tables) (sc_tables d)
        ["jobs"; "workers"; "attempts"; "worker_events"]
  | None => ∅
  end.
Definition oldFile : File := {| fl_schema := {| sc_tables := oldTables; sc_indexes :=
  match schemaAt 6 with Some d => sc_indexes d | None => ∅ end |};
  fl_applied := Some demoApplied; fl_foreignKeys := false |}.

#[local] Instance Table_eq_dec : EqDecision Table.
Proof. solve_decision. Defined.
#[local] Instance Schema_eq_dec : EqDecision Schema.
Proof. solve_decision. Defined.

Lemma newFile_version : version 0 newFile.
Proof. split; [reflexivity|reflexivity|apply map_Forall_empty|reflexivity]. Qed.

Lemma oldFile_version : version 6 oldFile.
Proof.
  split.
  - apply (bool_decide_unpack _). vm_compute. exact I.
  - apply (bool_decide_unpack _). vm_compute. exact I.
  - apply (bool_decide_unpack _). vm_compute. exact I.
  - vm_compute. reflexivity.
Qed.

Lemma database_upgraded_witness : exists f', initialize (λ _, 0) oldFile = (Ok tt, f') /\
  keepsRows (fl_schema oldFile) (fl_schema f') /\
  (tb_columns <$> sc_tables (fl_schema oldFile) !! "worker_events") = Some ("worker_id" :: eventColumns) /\
  (length ∘ tb_rows <$> sc_tables (fl_schema oldFile) !! "worker_events") = Some 1%nat.
Proof.
  destruct (database_upgraded (λ _, 0) 6 oldFile ltac:(lia) oldFile_version) as ((f' & H1 & _ & H2 & _) & _).
  exists f'. split; [exact H1|]. split; [exact H2|]. split; vm_compute; reflexivity.
Defined.

(** The tables of the running program (Database.v) are those of a new database. *)
Example current_tables : (λ r, isOk r.1) (initialize (λ _, 0) newFile) = true /\
  (match schemaAt 8 with Some d => elements (dom (sc_tables d)) | None => [] end) ≡ₚ
  ["jobs"; "attempts"; "workers"; "worker_tokens"; "events"; "worker_events"; "metric_samples"; "artifacts";
   "idempotency_keys"; "webhook_targets"; "health_firings"; "webhook_deliveries"; "api_tokens"; "browser_sessions"].
Proof. split; [vm_compute; reflexivity|]. apply (bool_decide_unpack _). vm_compute. exact I. Qed.
