(* ===== verification/WorkerOpen.v ===== *)
(** * Opening the agent's database (internal/worker/store.go OpenStore, initialize)

    The tables are created where they are missing; the column that records when
    a cancellation was requested is added, and the error of the statement is
    ignored when the column is there already. Statements are those of
    Migrations.v. *)

From S2P Require Import Prelude Times GoLib Paths Migrations MigrationsProperties.

Definition commandsColumns : list string :=
  ["command_id"; "attempt_id"; "command_json"; "state"; "pid"; "work_dir"; "status_path"; "metrics_path";
   "metric_offset"; "created_at"; "updated_at"].
Definition outboxColumns : list string := ["sequence"; "event_id"; "event_json"; "created_at"].
Definition cancelColumn : string := "cancel_requested_at".

Inductive OpenStoreError :=
  | StorePathRequired
  | StoreDirectory (reason : string)
  | StoreSQLite (reason : string)
  | StorePermissions (reason : string)
  | CannotInitialize.

(** CREATE TABLE IF NOT EXISTS *)
Definition createIfMissing (name : string) (columns : list string) (d : Schema) : Schema :=
  default d (execStatement true (CreateTable name columns []) d).

(** ALTER TABLE ... ADD COLUMN: the new schema, or whether the column's name is taken. *)
Definition addColumn (table column : string) (v : Value) (d : Schema) : Schema + bool :=
  match execStatement true (AddColumn table column v) d with
  | Some d' => inl d'
  | None => inr (match sc_tables d !! table with Some t => bool_decide (column ∈ tb_columns t) | None => false end)
  end.

Definition initializeWorker (d : Schema) : result OpenStoreError Schema :=
  let d := createIfMissing "outbox" outboxColumns (createIfMissing "commands" commandsColumns d) in
  match addColumn "commands" cancelColumn (VText "") d with
  | inl d' => Ok d'
  | inr duplicate => if duplicate then Ok d else Err CannotInitialize
  end.

Definition OpenStore (disk : Disk) (path : string) (d : Schema) : result OpenStoreError Schema :=
  if (path =? "")%string then Err StorePathRequired
  else match dk_mkdir disk (Filepath.Dir path) with
  | Some reason => Err (StoreDirectory reason)
  | None =>
      match dk_open disk path with
      | Some reason => Err (StoreSQLite reason)
      | None =>
          match initializeWorker d with
          | Err e => Err e
          | Ok d' => match dk_chmod disk path with Some reason => Err (StorePermissions reason) | None => Ok d' end
          end
      end
  end.

(** ** The property *)

(** A database of some version of the agent: new, or with the tables, the one of
    commands with or without the column of cancellations. *)
Record workerSchema (d : Schema) : Prop := {
  wo_typed : rowsTyped d;
  wo_commands t : sc_tables d !! "commands" = Some t -> tb_columns t = commandsColumns \/
    tb_columns t = commandsColumns ++ [cancelColumn];
  wo_outbox t : sc_tables d !! "outbox" = Some t -> tb_columns t = outboxColumns;
}.

Module WorkerOpenTheory.
Import MigrationTheory.

Lemma createIfMissing_some name columns d t : sc_tables d !! name = Some t -> createIfMissing name columns d = d.
Proof. intros E. unfold createIfMissing. cbn. by rewrite E. Qed.

Lemma createIfMissing_none name columns d : sc_tables d !! name = None ->
  execStatement false (CreateTable name columns []) d = Some (createIfMissing name columns d) /\
  sc_tables (createIfMissing name columns d) =
    <[name := {| tb_columns := columns; tb_references := []; tb_rows := [] |}]> (sc_tables d).
Proof. intros E. unfold createIfMissing. cbn. by rewrite E. Qed.

Lemma createIfMissing_spec name columns d : rowsTyped d ->
  rowsTyped (createIfMissing name columns d) /\ keepsRows d (createIfMissing name columns d) /\
  (forall other, other <> name -> sc_tables (createIfMissing name columns d) !! other = sc_tables d !! other) /\
  exists t, sc_tables (createIfMissing name columns d) !! name = Some t /\
    (sc_tables d !! name = Some t \/ sc_tables d !! name = None /\ tb_columns t = columns).
Proof.
  intros Hty. destruct (sc_tables d !! name) as [t|] eqn:E.
  - rewrite (createIfMissing_some _ _ _ _ E). split_and!; [done|reflexivity|done|]. exists t. split; [done|by left].
  - destruct (createIfMissing_none name columns d E) as [Hx Hs]. destruct (execStatement_adds (CreateTable name columns []) _ _ eq_refl Hty Hx) as [Hty' Hk].
    split_and!; [done|done| |].
    + intros other Hne. by rewrite Hs, lookup_insert_ne.
    + eexists. split; [by rewrite Hs, lookup_insert_eq|]. by right.
Qed.

(** Nothing is left to do. *)
Lemma initialize_current d t o : sc_tables d !! "commands" = Some t -> tb_columns t = commandsColumns ++ [cancelColumn] ->
  sc_tables d !! "outbox" = Some o -> initializeWorker d = Ok d.
Proof.
  intros Ht Hc Ho. unfold initializeWorker. rewrite (createIfMissing_some _ _ _ _ Ht), (createIfMissing_some _ _ _ _ Ho).
  unfold addColumn. cbn -[commandsColumns cancelColumn]. rewrite Ht. cbn -[commandsColumns cancelColumn].
  rewrite Hc. by rewrite bool_decide_eq_true_2 by (apply elem_of_app; right; by apply list_elem_of_singleton).
Qed.
(** The tables once they are created. *)
Lemma created d : workerSchema d ->
  let d2 := createIfMissing "outbox" outboxColumns (createIfMissing "commands" commandsColumns d) in
  rowsTyped d2 /\ keepsRows d d2 /\ exists t o, sc_tables d2 !! "commands" = Some t /\ sc_tables d2 !! "outbox" = Some o /\
    tb_columns o = outboxColumns /\ (tb_columns t = commandsColumns \/ tb_columns t = commandsColumns ++ [cancelColumn]) /\
    (forall t0, sc_tables d !! "commands" = Some t0 -> t = t0).
Proof.
  intros [Hty Hc Ho] d2.
  destruct (createIfMissing_spec "commands" commandsColumns d Hty) as (Hty1 & Hk1 & Hother1 & t & Ht1 & Hfrom1).
  destruct (createIfMissing_spec "outbox" outboxColumns _ Hty1) as (Hty2 & Hk2 & Hother2 & o & Ho2 & Hfrom2).
  split; [exact Hty2|]. split; [etrans; [exact Hk1|exact Hk2]|]. exists t, o. split_and!.
  - unfold d2. by rewrite Hother2.
  - exact Ho2.
  - rewrite Hother1 in Hfrom2 by done. destruct Hfrom2 as [E|[_ E]]; [by apply Ho|done].
  - destruct Hfrom1 as [E|[_ E]]; [by apply Hc|by left].
  - intros t0 Ht0. destruct Hfrom1 as [E|[E _]]; congruence.
Qed.

Definition withCancel (t : Table) : Table :=
  {| tb_columns := tb_columns t ++ [cancelColumn]; tb_references := tb_references t;
     tb_rows := <[cancelColumn := VText ""]> <$> tb_rows t |}.

Lemma addCancel d t : rowsTyped d -> sc_tables d !! "commands" = Some t -> tb_columns t = commandsColumns ->
  exists d', addColumn "commands" cancelColumn (VText "") d = inl d' /\ rowsTyped d' /\ keepsRows d d' /\
    sc_tables d' = <["commands" := withCancel t]> (sc_tables d).
Proof.
  intros Hty Ht Hc. unfold addColumn. set (st := AddColumn "commands" cancelColumn (VText "")).
  assert (Hn : bool_decide (cancelColumn ∈ tb_columns t) = false).
  { rewrite Hc. apply bool_decide_eq_false_2. apply (bool_decide_unpack _). vm_compute. exact I. }
  assert (Hx : execStatement false st d =
    Some {| sc_indexes := sc_indexes d; sc_tables := <["commands" := withCancel t]> (sc_tables d) |}).
  { unfold st, execStatement. rewrite Ht. cbn [mbind option_bind]. by rewrite Hn. }
  change (execStatement true st d) with (execStatement false st d). rewrite Hx.
  destruct (execStatement_adds st d _ eq_refl Hty Hx) as [Hty' Hk']. eexists. by split_and!.
Qed.
End WorkerOpenTheory.

(** C31: The agent opens every database an earlier version of it left, and a new
    one: afterwards both tables are there, with the column of cancellations,
    every row is kept with its columns, a command that was stored before the
    column existed has the empty text in it, and opening again changes nothing. *)
Theorem worker_database_opened (d : Schema) : workerSchema d -> exists d' t o,
  initializeWorker d = Ok d' /\ keepsRows d d' /\ workerSchema d' /\ initializeWorker d' = Ok d' /\
  sc_tables d' !! "commands" = Some t /\ tb_columns t = commandsColumns ++ [cancelColumn] /\
  sc_tables d' !! "outbox" = Some o /\ tb_columns o = outboxColumns /\
  (forall t0, sc_tables d !! "commands" = Some t0 -> tb_columns t0 = commandsColumns ->
     tb_rows t = <[cancelColumn := VText ""]> <$> tb_rows t0).
Proof.
  intros Hd. destruct (WorkerOpenTheory.created d Hd) as (Hty & Hk & t & o & Ht & Ho & Hoc & Htc & Hold).
  unfold initializeWorker at 1. set (d2 := createIfMissing _ _ (createIfMissing _ _ d)) in *.
  destruct Htc as [Hbase|Hcur].
  - destruct (WorkerOpenTheory.addCancel d2 t Hty Ht Hbase) as (d' & Ha & Hty' & Hk' & Htables).
    exists d', (WorkerOpenTheory.withCancel t), o.
    assert (Hcmd : sc_tables d' !! "commands" = Some (WorkerOpenTheory.withCancel t)) by (rewrite Htables; apply lookup_insert_eq).
    assert (Hout : sc_tables d' !! "outbox" = Some o) by (rewrite Htables; by rewrite lookup_insert_ne).
    assert (Hcols : tb_columns (WorkerOpenTheory.withCancel t) = commandsColumns ++ [cancelColumn]) by (cbn; by rewrite Hbase).
    rewrite Ha. split_and!; try done.
    + by etrans.
    + split; [done| |]; intros u Hu; [right|]; congruence.
    + by eapply WorkerOpenTheory.initialize_current.
    + intros t0 Ht0 _. by rewrite <- (Hold t0 Ht0).
  - exists d2, t, o.
    assert (Hsame : initializeWorker d2 = Ok d2) by by eapply WorkerOpenTheory.initialize_current.
    split_and!; try done.
    + unfold addColumn. unfold execStatement. rewrite Ht. cbn [mbind option_bind].
      rewrite Hcur. by rewrite bool_decide_eq_true_2 by (apply elem_of_app; right; by apply list_elem_of_singleton).
    + split; [done| |]; intros u Hu; [right|]; congruence.
    + intros t0 Ht0 Hbase. rewrite (Hold t0 Ht0) in Hcur. rewrite Hcur in Hbase. discriminate Hbase.
Qed.

(** ** A database from before cancellation *)

Definition oldCommand : Row := list_to_map ((λ c, (c, VText c)) <$> commandsColumns).
Definition oldWorker : Schema := {| sc_indexes := ∅; sc_tables := {[
  "commands" := {| tb_columns := commandsColumns; tb_references := []; tb_rows := [oldCommand] |};
  "outbox" := {| tb_columns := outboxColumns; tb_references := []; tb_rows := [] |} ]} |}.

Lemma oldWorker_schema : workerSchema oldWorker.
Proof.
  split.
  - apply map_Forall_insert_2; [|apply map_Forall_insert_2; [constructor|apply map_Forall_empty]].
    constructor; [|constructor]. apply (bool_decide_unpack _). vm_compute. exact I.
  - intros t [= <-]. by left.
  - by intros t [= <-].
Qed.

Lemma worker_database_opened_witness : exists d' t o,
  initializeWorker oldWorker = Ok d' /\ keepsRows oldWorker d' /\ workerSchema d' /\ initializeWorker d' = Ok d' /\
  sc_tables d' !! "commands" = Some t /\ tb_columns t = commandsColumns ++ [cancelColumn] /\
  sc_tables d' !! "outbox" = Some o /\ tb_columns o = outboxColumns /\
  (forall t0, sc_tables oldWorker !! "commands" = Some t0 -> tb_columns t0 = commandsColumns ->
     tb_rows t = <[cancelColumn := VText ""]> <$> tb_rows t0).
Proof. exact (worker_database_opened oldWorker oldWorker_schema). Defined.
