(* ===== verification/Sampler.v ===== *)
(** * The resource sampler (internal/worker/sampler.go)

    What a sampler appends to the metrics file of its attempt at each tick: the
    memory of the attempt's process group, and the use of the GPUs until asking
    for it fails once. What /proc and nvidia-smi answer is an argument; the JSON
    text of a sample is a parameter. *)

From S2P Require Import Prelude Times GoLib Encoding FloatText Ids Domain.

(** ** strings *)

(** strings.Cut around a separator. *)
Fixpoint cutText (sep s : list ascii) : option (list ascii * list ascii) :=
  match dropPrefix sep s with
  | Some rest => Some ([], rest)
  | None => match s with [] => None | c :: s => '(a, b) ← cutText sep s; Some (c :: a, b) end
  end.
Definition CutText (s sep : string) : string * string * bool :=
  match cutText (chars sep) (chars s) with
  | Some (a, b) => (unchars a, unchars b, true)
  | None => (s, "", false)
  end.

(** strings.Fields: the parts between white space. *)
Fixpoint fieldsFrom (fuel : nat) (current s : list ascii) : list (list ascii) :=
  let close rest := match current with [] => rest | _ => current :: rest end in
  match fuel, s with
  | S fuel, c :: rest =>
      match stripOne spaces s with
      | Some rest => close (fieldsFrom fuel [] rest)
      | None => fieldsFrom fuel (current ++ [c]) rest
      end
  | _, _ => close []
  end.
Definition Fields (s : string) : list string := unchars <$> fieldsFrom (String.length s) [] (chars s).

(** strings.Split(s, "\n") *)
Fixpoint splitLines (s : list ascii) : list (list ascii) :=
  match s with
  | [] => [[]]
  | c :: s =>
      if Ascii.eqb c "010" then [] :: splitLines s
      else match splitLines s with line :: lines => (c :: line) :: lines | [] => [[c]] end
  end.
Definition SplitLines (s : string) : list string := unchars <$> splitLines (chars s).

Example strings_examples :
  (CutText "1 (sh) S 0" ") ", Fields " a  b	c ", SplitLines (unchars ["a"; "010"; "b"; "010"]%char)) =
  (("1 (sh", "S 0", true), ["a"; "b"; "c"], ["a"; "b"; ""]).
Proof. vm_compute. reflexivity. Qed.

(** ** Probes *)

Definition resourceSampleInterval : Z := 15 * GoTime.Second.

(** An entry of /proc and the contents of its stat file, if they can be read. *)
Record ProcEntry := { pe_Name : string; pe_Stat : option string }.

(** The resident bytes of a process of the group. *)
Definition groupMember (group : string) (pageSize : Z) (entry : ProcEntry) : option Z :=
  _ ← Atoi (pe_Name entry);
  data ← pe_Stat entry;
  let '(_, after, isFound) := CutText data ") " in
  let fields := Fields after in
  if negb isFound || (length fields <? 22)%nat || negb (bool_decide (fields !! 2%nat = Some group)) then None
  else pages ← (text ← fields !! 21%nat; ParseUint text); Some (u64 (pages * pageSize)).

Definition processGroupRSS (entries : option (list ProcEntry)) (pageSize processGroup : Z) : option Z :=
  entries ← entries;
  Some (foldl (λ total bytes, u64 (total + bytes)) 0 (omap (groupMember (pretty processGroup) pageSize) entries)).

Inductive GPUError := NvidiaSmi (reason : string) | UnexpectedOutput (line : string) | NoGPUs.

(** One line per GPU: utilization in percent, memory in MiB. *)
Fixpoint gpuLines (lines : list string) (utilizationSum memoryBytes : float64) (gpus : Z)
    : result GPUError (float64 * float64 * Z) :=
  match lines with
  | [] => Ok (utilizationSum, memoryBytes, gpus)
  | line :: rest =>
      let '(utilizationText, memoryText, isFound) := Cut line "," in
      match ParseFloat (TrimSpace utilizationText), ParseFloat (TrimSpace memoryText), (isFound : bool) with
      | Some utilization, Some memoryMiB, true =>
          gpuLines rest (f64_add utilizationSum (f64_div utilization (f64_of_Z 100)))
            (f64_add memoryBytes (f64_mul memoryMiB (f64_of_Z (2 ^ 20)))) (gpus + 1)
      | _, _, _ => Err (UnexpectedOutput (TrimSpace line))
      end
  end.

Definition parseGPUQuery (output : string) : result GPUError (float64 * float64) :=
  match gpuLines (SplitLines (TrimSpace output)) f64_zero f64_zero 0 with
  | Err e => Err e
  | Ok (utilizationSum, memoryBytes, gpus) =>
      if gpus =? 0 then Err NoGPUs else Ok (f64_div utilizationSum (f64_of_Z gpus), memoryBytes)
  end.

Definition queryGPU (output : result string string) : result GPUError (float64 * float64) :=
  match output with Err reason => Err (NvidiaSmi reason) | Ok output => parseGPUQuery output end.

(** ** One tick *)

(** What the machine answers at a tick, and whether the metrics file opens. *)
Record Probe := {
  pb_now : time; pb_proc : option (list ProcEntry); pb_nvidia : result string string; pb_fileError : option string;
}.

Definition systemSampleOf (name : string) (value : float64) (now : time) : MetricSample :=
  {| ms_Name := SystemMetricPrefix +:+ name; ms_Value := value; ms_Step := None; ms_ObservedAt := now |}.

(** The samples of a tick, and whether the GPUs are still asked. *)
Definition sampleTick (pageSize processGroup : Z) (wantGPU : bool) (p : Probe) : list MetricSample * bool :=
  let now := pb_now p in
  let memory := match processGroupRSS (pb_proc p) pageSize processGroup with
    | Some rss => [systemSampleOf "rss_bytes" (f64_of_Z rss) now]
    | None => []
    end in
  if wantGPU then
    match queryGPU (pb_nvidia p) with
    | Err _ => (memory, false)
    | Ok (utilization, memoryBytes) =>
        (memory ++ [systemSampleOf "gpu_util" utilization now; systemSampleOf "gpu_mem_bytes" memoryBytes now], true)
    end
  else (memory, false).

(** The JSON text of a sample; none where encoding/json refuses its value. *)
Class SampleText := encodeSample : MetricSample -> option string.

Definition lineEnd : string := String "010" "".


Section sampler.
Context `{SampleText}.

(** The metrics file with the samples that can be encoded, a line each. *)
Definition appendSamples (fileError : option string) (contents : string) (samples : list MetricSample) : string :=
  match fileError with
  | Some _ => contents
  | None => foldl (λ contents sample, match encodeSample sample with
              | Some text => contents +:+ text +:+ lineEnd
              | None => contents
              end) contents samples
  end.

(** sampleResources over some ticks, until the attempt ends. *)
Fixpoint sampleResources (pageSize processGroup : Z) (wantGPU : bool) (ticks : list Probe) (contents : string) : string :=
  match ticks with
  | [] => contents
  | p :: ticks =>
      let '(samples, wantGPU) := sampleTick pageSize processGroup wantGPU p in
      sampleResources pageSize processGroup wantGPU ticks (appendSamples (pb_fileError p) contents samples)
  end.
End sampler.

Example parseGPUQuery_example : parseGPUQuery (unchars (chars "50, 1024" ++ ["010"%char] ++ chars "100, 1024" ++ ["010"%char])) =
  Ok (f64_ratio 3 4, f64_of_Z (2 ^ 31)).
Proof. vm_compute. reflexivity. Qed.
