(* ===== verification/SamplerProperties.v ===== *)
(** * The resource sampler: the properties

    What the sampler appends to the metrics file is what the executor reads back
    from it, line by line, and what the control plane accepts. *)

From S2P Require Import Prelude Times GoLib Encoding FloatText Ids Domain Validate ValidateSpec Database Jobs Health.
From S2P Require Import Events WorkerStore WorkerLog Agent WorkerProperties Paths Source Executor ExecutorLog Ingest Sampler.
Import WorkerTheory ExecTheory MetricTheory.

Definition systemNames : list string := ["rss_bytes"; "gpu_util"; "gpu_mem_bytes"].

(** encoding/json writes a finite sample of the sampler as one line, which it
    reads back as the sample, and refuses one that is not finite. *)
Class SampleCodec `{SampleText} `{ExecEnv} := {
  sample_text name value now : name ∈ systemNames -> GoTime.fourDigitYear now ->
    if f64_finite value
    then exists text, encodeSample (systemSampleOf name value now) = Some text /\ ~ In newline (chars text) /\
      decodeSample (TrimSpace (text +:+ lineEnd)) = Some (systemSampleOf name value now)
    else encodeSample (systemSampleOf name value now) = None;
}.

(** The samples a run of ticks leaves in the file. *)
Fixpoint sampledBy (pageSize processGroup : Z) (wantGPU : bool) (ticks : list Probe) : list MetricSample :=
  match ticks with
  | [] => []
  | p :: ticks =>
      let '(samples, wantGPU) := sampleTick pageSize processGroup wantGPU p in
      (match pb_fileError p with Some _ => [] | None => filter (λ s, f64_finite (ms_Value s) = true) samples end) ++
      sampledBy pageSize processGroup wantGPU ticks
  end.

Module SamplerTheory.
Lemma Forall_kept {A} (P Q : A -> Prop) `{!forall x, Decision (Q x)} l : Forall P l -> Forall P (filter Q l).
Proof. rewrite !Forall_forall. intros Hl x Hx. apply list_elem_of_filter in Hx as [_ Hx]. by apply Hl. Qed.

Section sampler.
Context `{SampleText} `{ExecEnv} `{!SampleCodec} `{Unicode}.

(** A sample of the sampler at some time. *)
Definition systemOne (now : time) (s : MetricSample) : Prop :=
  exists name value, name ∈ systemNames /\ s = systemSampleOf name value now.

Lemma sampleTick_system pageSize group wantGPU p samples wantGPU' :
  sampleTick pageSize group wantGPU p = (samples, wantGPU') -> Forall (systemOne (pb_now p)) samples.
Proof.
  unfold sampleTick. intros Ht.
  assert (Hone : forall name value, name ∈ systemNames -> systemOne (pb_now p) (systemSampleOf name value (pb_now p)))
    by (intros name value Hn; by exists name, value).
  assert (Hmem : Forall (systemOne (pb_now p)) (match processGroupRSS (pb_proc p) pageSize group with
    | Some rss => [systemSampleOf "rss_bytes" (f64_of_Z rss) (pb_now p)] | None => [] end)).
  { destruct (processGroupRSS _ _ _); [|constructor]. constructor; [|constructor]. apply Hone. set_solver. }
  destruct wantGPU; [destruct (queryGPU (pb_nvidia p)) as [[u m]|e]|]; injection Ht as <- _; try exact Hmem.
  apply Forall_app. split; [exact Hmem|]. repeat (constructor; [apply Hone; set_solver|]). constructor.
Qed.

Definition finiteOne (s : MetricSample) : Prop := f64_finite (ms_Value s) = true.

(** The lines appended for some samples. *)
Lemma appendSamples_lines now samples : forall contents, GoTime.fourDigitYear now -> Forall (systemOne now) samples ->
  exists lines, appendSamples None contents samples = contents +:+ concatLines lines /\
    Forall isLine lines /\ 
    omap sampleOf lines = filter finiteOne samples.
Proof.
  intros contents Hy Hs. revert contents. induction Hs as [|s samples (name & value & Hn & ->) _ IH]; intros contents.
  { exists []. split_and!; [by rewrite string_app_nil_r|constructor|done]. }
  cbn [appendSamples foldl]. pose proof (sample_text name value now Hn Hy) as Ht.
  rewrite filter_cons. case_decide as Hf; unfold finiteOne in Hf; cbn [ms_Value systemSampleOf] in Hf;
    [rewrite Hf in Ht|apply not_true_is_false in Hf; rewrite Hf in Ht].
  - destruct Ht as (text & Ht & Hnl & Hdec). rewrite Ht.
    destruct (IH (contents +:+ text +:+ lineEnd)) as (lines & Hl & H1' & H3').
    exists ((text +:+ lineEnd) :: lines). split_and!.
    + cbn [appendSamples] in Hl. rewrite Hl. unfold concatLines. cbn [foldr]. by rewrite !string_app_assoc.
    + constructor; [by exists text|done].
    + cbn [omap list_omap]. unfold sampleOf at 1. rewrite Hdec. cbn.
      unfold f64_finite in Hf. apply negb_true_iff in Hf. rewrite Hf. by rewrite H3'.
  - rewrite Ht. apply IH.
Qed.

Lemma concatLines_app l1 l2 : concatLines (l1 ++ l2) = concatLines l1 +:+ concatLines l2.
Proof. induction l1 as [|x l1 IH]; [done|]. cbn [app concatLines foldr]. unfold concatLines in IH. by rewrite IH, string_app_assoc. Qed.

Lemma sampleResources_lines pageSize group ticks : forall wantGPU contents,
  Forall (λ p, GoTime.fourDigitYear (pb_now p)) ticks ->
  exists lines, sampleResources pageSize group wantGPU ticks contents = contents +:+ concatLines lines /\
    Forall isLine lines /\ 
    omap sampleOf lines = sampledBy pageSize group wantGPU ticks.
Proof.
  induction ticks as [|p ticks IH]; intros wantGPU contents Hy.
  { exists []. split_and!; [by rewrite string_app_nil_r|constructor|done]. }
  apply Forall_cons in Hy as [Hp Hy]. cbn [sampleResources sampledBy].
  destruct (sampleTick pageSize group wantGPU p) as [samples want'] eqn:Et.
  pose proof (sampleTick_system _ _ _ _ _ _ Et) as Hs.
  destruct (pb_fileError p) as [reason|]; [apply IH, Hy|].
  destruct (appendSamples_lines (pb_now p) samples contents Hp Hs) as (l1 & E1 & A1 & C1).
  destruct (IH want' (appendSamples None contents samples) Hy) as (l2 & E2 & A2 & C2).
  exists (l1 ++ l2). split_and!.
  - by rewrite E2, E1, concatLines_app, string_app_assoc.
  - by apply Forall_app.
  - by rewrite omap_app, C1, C2.
Qed.

(** A system metric is defined for every valid specification, which cannot
    declare its name; only the GPU utilization has to be a fraction. *)
Definition fraction (value : float64) : Prop := f64_leb f64_zero value = true /\ f64_leb value (f64_of_Z 1) = true.

Lemma system_accepted spec name value : ValidSpec spec -> name ∈ systemNames ->
  definedMetric (s_Metrics spec) (SystemMetricPrefix +:+ name) value = true <-> (name = "gpu_util" -> fraction value).
Proof.
  intros Hv Hn. unfold definedMetric. destruct (List.find _ (s_Metrics spec)) as [m|] eqn:Em.
  - exfalso. apply List.find_some in Em as [Hin Heq%String.eqb_eq]. apply list_elem_of_In in Hin.
    pose proof (v_metrics _ Hv) as Hm. rewrite Forall_forall in Hm. destruct (Hm m Hin) as [_ Hres _ _ _ _ _ _ _ _ _].
    rewrite Heq in Hres. unfold systemNames in Hn. repeat (apply elem_of_cons in Hn as [-> |Hn]; [discriminate Hres|]).
    by apply elem_of_nil in Hn.
  - unfold systemNames in Hn. repeat (apply elem_of_cons in Hn as [-> |Hn]); [..|by apply elem_of_nil in Hn].
    + split; [intros _ E; discriminate E|done].
    + match goal with |- ?x = true <-> _ => change x with (f64_leb f64_zero value && f64_leb value (f64_of_Z 1)) end.
      rewrite andb_true_iff. unfold fraction. tauto.
    + split; [intros _ E; discriminate E|done].
Qed.

Lemma sampledBy_system pageSize group ticks : forall wantGPU,
  Forall (λ s, exists now, systemOne now s) (sampledBy pageSize group wantGPU ticks).
Proof.
  induction ticks as [|p ticks IH]; intros wantGPU; [constructor|]. cbn [sampledBy].
  destruct (sampleTick pageSize group wantGPU p) as [samples want'] eqn:Et. apply Forall_app. split; [|apply IH].
  destruct (pb_fileError p); [constructor|]. apply Forall_kept.
  eapply Forall_impl; [by eapply sampleTick_system|]. intros s Hs. by exists (pb_now p).
Qed.
End sampler.
End SamplerTheory.

Section properties.
Context `{SampleText} `{ExecEnv} `{!SampleCodec} `{Unicode}.

(** C17: Whatever the machine answers, the sampler leaves the metrics file as it was
    and appends whole lines, and reading the file behind its
    former end gives exactly the finite samples the ticks took, in order; and the
    control plane accepts every one of them, for every valid specification,
    except, exactly, a GPU utilization outside of 0 to 1. *)
Theorem sampled_metrics_ingested (pageSize group : Z) (wantGPU : bool) (ticks : list Probe) (contents : string) :
  Forall (λ p, GoTime.fourDigitYear (pb_now p)) ticks ->
  let file := sampleResources pageSize group wantGPU ticks contents in
  exists added, file = contents +:+ added /\
  seek (len contents) file = concatLines (completeLines added) /\
  omap sampleOf (completeLines (seek (len contents) file)) = sampledBy pageSize group wantGPU ticks /\
  forall spec, ValidSpec spec -> Forall (λ s,
    definedMetric (s_Metrics spec) (ms_Name s) (ms_Value s) = true <->
    (ms_Name s = SystemMetricPrefix +:+ "gpu_util" ->
     f64_leb f64_zero (ms_Value s) = true /\ f64_leb (ms_Value s) (f64_of_Z 1) = true))
    (sampledBy pageSize group wantGPU ticks).
Proof.
  intros Hy file. destruct (SamplerTheory.sampleResources_lines pageSize group ticks wantGPU contents Hy)
    as (lines & Hl & Hlines & Hs).
  assert (Hc : completeLines (concatLines lines) = lines).
  { pose proof (completeLines_concat lines "" Hlines) as E. rewrite string_app_nil_r in E. cbn in E.
    by rewrite app_nil_r in E. }
  exists (concatLines lines). unfold file. rewrite Hl, Hc, seek_behind, Hc. split_and!; [done..|].
  intros spec Hv. eapply Forall_impl; [apply SamplerTheory.sampledBy_system|].
  intros s (now & name & value & Hn & ->). cbn [ms_Name ms_Value systemSampleOf].
  rewrite (SamplerTheory.system_accepted spec name value Hv Hn). split; intros Hg E; apply Hg; [|by rewrite E].
  by apply (inj (String.app SystemMetricPrefix)) in E.
Qed.

(** After asking for the GPUs has failed once, no later tick reports them. *)
Theorem gpu_probe_stops (pageSize group : Z) (wantGPU : bool) (p : Probe) (ticks : list Probe) :
  isOk (queryGPU (pb_nvidia p)) = false ->
  Forall (λ s, ms_Name s = SystemMetricPrefix +:+ "rss_bytes") (sampledBy pageSize group wantGPU (p :: ticks)).
Proof.
  intros Hf. assert (Hoff : forall q, exists samples, sampleTick pageSize group false q = (samples, false) /\
    Forall (λ s, ms_Name s = SystemMetricPrefix +:+ "rss_bytes") samples).
  { intros q. eexists. split; [reflexivity|]. destruct (processGroupRSS _ _ _); by repeat constructor. }
  assert (Hrest : Forall (λ s, ms_Name s = SystemMetricPrefix +:+ "rss_bytes") (sampledBy pageSize group false ticks)).
  { induction ticks as [|q ticks IH]; [constructor|]. cbn [sampledBy]. destruct (Hoff q) as (samples & -> & Hs).
    apply Forall_app. split; [|exact IH]. destruct (pb_fileError q); [constructor|]. by apply SamplerTheory.Forall_kept. }
  assert (Htick : exists samples, sampleTick pageSize group wantGPU p = (samples, false) /\
    Forall (λ s, ms_Name s = SystemMetricPrefix +:+ "rss_bytes") samples).
  { destruct wantGPU; [|apply Hoff]. unfold sampleTick. destruct (queryGPU (pb_nvidia p)) as [|e]; [done|].
    eexists. split; [reflexivity|]. destruct (processGroupRSS _ _ _); by repeat constructor. }
  cbn [sampledBy]. destruct Htick as (samples & -> & Hs). apply Forall_app. split; [|exact Hrest].
  destruct (pb_fileError p); [constructor|]. by apply SamplerTheory.Forall_kept.
Qed.
End properties.

(** ** A concrete machine *)

(** A process whose name holds a parenthesis and a space is not counted. *)
Definition demoStat (name : string) : string :=
  "42 (" +:+ name +:+ ") S 1 42 42 0 -1 4194304 0 0 0 0 0 0 0 0 20 0 1 0 100 1000 250 0".

Lemma parenthesized_name_skipped :
  groupMember "42" 4096 {| pe_Name := "42"; pe_Stat := Some (demoStat "train") |} = Some 1024000 /\
  groupMember "42" 4096 {| pe_Name := "42"; pe_Stat := Some (demoStat "train (a) b") |} = None.
Proof. split; vm_compute; reflexivity. Qed.

(** A codec: the sample as a number, in binary. *)
Abbreviation SampleKey := (string * bool * option (positive * Z) * Z)%type.
Definition sampleKey (s : MetricSample) : SampleKey :=
  (ms_Name s, f64_neg (ms_Value s),
   match ms_Value s with S754_finite _ m e => Some (m, e) | _ => None end, ms_ObservedAt s).
Definition keySample (k : SampleKey) : MetricSample :=
  let '(name, negative, finite, now) := k in
  {| ms_Name := name; ms_Step := None; ms_ObservedAt := now;
     ms_Value := match finite with Some (m, e) => S754_finite negative m e | None => S754_zero negative end |}.

Fixpoint bits (p : positive) : list ascii :=
  match p with xH => ["1"%char] | xO p => "0"%char :: bits p | xI p => "1"%char :: bits p end.
Fixpoint unbits (s : list ascii) : option positive :=
  match s with
  | [] => None
  | c :: [] => if Ascii.eqb c "1" then Some xH else None
  | c :: s => p ← unbits s; Some (if Ascii.eqb c "1" then xI p else xO p)
  end.

#[local] Instance demoSampleText : SampleText := λ s,
  if f64_finite (ms_Value s) then Some (unchars (bits (encode (sampleKey s)))) else None.
#[local] Instance demoSampleExec : ExecEnv := {|
  decodeSample := λ text, p ← unbits (chars text); k ← decode p; Some (keySample k);
  decodeStatus := λ _, None; Quote := λ s, s |}.

Definition isBit (c : ascii) : Prop := c = "0"%char \/ c = "1"%char.
Lemma bits_spec p : Forall isBit (bits p) /\ bits p <> [] /\ unbits (bits p) = Some p.
Proof.
  induction p as [p (H1' & H2' & H3')|p (H1' & H2' & H3')|]; simpl.
  - split_and!; [constructor; [by right|done]|done|]. destruct (bits p); [done|]. by rewrite H3'.
  - split_and!; [constructor; [by left|done]|done|]. destruct (bits p); [done|]. by rewrite H3'.
  - split_and!; [constructor; [by right|constructor]|done|done].
Qed.

Lemma strip_bit pats c s : isBit c -> stripOne pats (c :: s) = None -> stripAll pats (c :: s) = c :: s.
Proof. intros _ Hs. unfold stripAll. cbn [length strip]. by rewrite Hs. Qed.

Lemma TrimSpace_bits s : Forall isBit s -> s <> [] -> TrimSpace (unchars s +:+ lineEnd) = unchars s.
Proof.
  intros Hb Hne. unfold TrimSpace. rewrite chars_app, String.list_ascii_of_string_of_list_ascii. change (chars lineEnd) with ["010"%char].
  destruct s as [|c s]; [done|]. pose proof Hb as Hc. apply Forall_cons in Hc as [Hc _].
  rewrite <- app_comm_cons, strip_bit; [|done|by destruct Hc as [-> | ->]].
  rewrite app_comm_cons, reverse_app. change (reverse ["010"%char]) with ["010"%char]. cbn [app].
  assert (Hr : Forall isBit (reverse (c :: s))) by by rewrite reverse_Permutation.
  destruct (reverse (c :: s)) as [|b r] eqn:Er; [by apply (f_equal length) in Er; rewrite length_reverse in Er|].
  apply Forall_cons in Hr as [Hr _].
  assert (E : stripAll (reverse <$> spaces) ("010"%char :: b :: r) = b :: r).
  { unfold stripAll. cbn [length strip]. change (stripOne (reverse <$> spaces) ("010"%char :: b :: r)) with (Some (b :: r)).
    cbn [strip]. by destruct Hr as [-> | ->]. }
  rewrite E, <- Er, reverse_involutive. done.
Qed.

#[local] Instance demoSampleCodec : SampleCodec.
Proof.
  split. intros name value now _ _. unfold encodeSample, demoSampleText. cbn [ms_Value systemSampleOf].
  destruct (f64_finite value) eqn:Hf; [|done].
  set (key := sampleKey (systemSampleOf name value now)). destruct (bits_spec (encode key)) as (H1' & H2' & H3').
  eexists. split; [reflexivity|]. rewrite String.list_ascii_of_string_of_list_ascii. split.
  - intros Hin. rewrite Forall_forall in H1'. apply list_elem_of_In, H1' in Hin as [Hin|Hin]; discriminate Hin.
  - cbn [decodeSample demoSampleExec]. rewrite TrimSpace_bits, String.list_ascii_of_string_of_list_ascii, H3' by done. cbn.
    rewrite decode_encode. unfold key, systemSampleOf. cbn. by destruct value.
Qed.
#[local] Instance demoLower : Unicode := λ s, s.

Definition demoProbe (gpu : string) : Probe := {|
  pb_now := 1700000000 * GoTime.Second; pb_fileError := None; pb_nvidia := Ok gpu;
  pb_proc := Some [{| pe_Name := "self"; pe_Stat := None |}; {| pe_Name := "42"; pe_Stat := Some (demoStat "train") |}] |}.

Lemma sampled_metrics_ingested_witness : exists added,
  sampleResources 4096 42 true [demoProbe "50, 1024"; demoProbe "[N/A]"] "" = "" +:+ added /\
  length (sampledBy 4096 42 true [demoProbe "50, 1024"; demoProbe "[N/A]"]) = 4%nat.
Proof.
  destruct (sampled_metrics_ingested 4096 42 true [demoProbe "50, 1024"; demoProbe "[N/A]"] "") as (added & H1' & _).
  - repeat constructor; apply (bool_decide_unpack _); vm_compute; exact I.
  - exists added. split; [exact H1'|]. vm_compute. reflexivity.
Defined.
