(* ===== verification/Cli.v ===== *)
(** * The command line (cmd/lcjs/main.go, operator.go)

    Flags, the commands that create credentials on the control plane's
    database, the operator's commands with the requests they send, and the
    sample a job reports. What the shell and the network answer is a record of
    functions; what a command does is the list of its actions. *)

From S2P Require Import Prelude Times GoLib Encoding FloatText Ids Domain Validate Database Jobs Health Events.
From S2P Require Import Lifecycle Auth Scheduler Sync Agent Details Report Http Sampler.
From Stdlib Require Import Strings.Byte.

(** ** flag.FlagSet, for flags that take a value *)

Inductive FlagError :=
  | FlagSyntax (argument : string)
  | FlagHelp
  | FlagNotDefined (name : string)
  | FlagNeedsArgument (name : string)
  | FlagInvalid (name value : string).

Inductive Argument := NotFlag | Terminator | Malformed | Flag (name : string) (value : option string).

Definition classify (s : string) : Argument :=
  match chars s with
  | a :: b :: rest =>
      if negb (Ascii.eqb a "-") then NotFlag
      else if Ascii.eqb b "-" && bool_decide (rest = []) then Terminator
      else
        let name := if Ascii.eqb b "-" then rest else b :: rest in
        match name with
        | [] => Malformed
        | c :: _ =>
            if Ascii.eqb c "-" || Ascii.eqb c "=" then Malformed
            else let '(n, v, isFound) := Cut (unchars name) "=" in Flag n (if (isFound : bool) then Some v else None)
        end
  | _ => NotFlag
  end.

(** The flags of a command: their names, and which values they take. *)
Abbreviation FlagTypes := (list (string * (string -> bool))).
Definition flagType (types : FlagTypes) (name : string) : option (string -> bool) :=
  snd <$> List.find (λ nt, (nt.1 =? name)%string) types.

(** FlagSet.Parse: the values given, in order, and the arguments behind the flags. *)
Fixpoint parseFlags (types : FlagTypes) (arguments : list string) (given : list (string * string))
    : result FlagError (list (string * string) * list string) :=
  match arguments with
  | [] => Ok (given, [])
  | s :: rest =>
      match classify s with
      | NotFlag => Ok (given, s :: rest)
      | Terminator => Ok (given, rest)
      | Malformed => Err (FlagSyntax s)
      | Flag name value =>
          match flagType types name with
          | None => Err (if (name =? "help")%string || (name =? "h")%string then FlagHelp else FlagNotDefined name)
          | Some valid =>
              match value with
              | Some v => if valid v then parseFlags types rest (given ++ [(name, v)]) else Err (FlagInvalid name v)
              | None =>
                  match rest with
                  | [] => Err (FlagNeedsArgument name)
                  | v :: rest => if valid v then parseFlags types rest (given ++ [(name, v)]) else Err (FlagInvalid name v)
                  end
              end
          end
      end
  end.

(** The values given for a flag, and the last of them or a default. *)
Definition flagValues (name : string) (given : list (string * string)) : list string :=
  omap (λ nv, if (nv.1 =? name)%string then Some nv.2 else None) given.
Definition flagValue (name fallback : string) (given : list (string * string)) : string :=
  List.last (flagValues name given) fallback.

Definition anyText (_ : string) : bool := true.

(** strconv.ParseUint(s, 0, 64) and ParseInt(s, 0, 64). *)
Fixpoint digitsIn (base acc : Z) (s : list ascii) : option Z :=
  match s with
  | [] => Some acc
  | c :: rest =>
      if Ascii.eqb c "_" then digitsIn base acc rest
      else v ← digitIn base c; digitsIn base (base * acc + v) rest
  end.
Definition parseUint0 (s : string) : option Z :=
  let cs := chars s in
  let '(base, digits) := match cs with
    | z :: x :: d :: rest =>
        if negb (Ascii.eqb z "0") then (10, cs)
        else if Ascii.eqb (lowerAscii x) "b" then (2, d :: rest)
        else if Ascii.eqb (lowerAscii x) "o" then (8, d :: rest)
        else if Ascii.eqb (lowerAscii x) "x" then (16, d :: rest)
        else (8, x :: d :: rest)
    | z :: rest => if Ascii.eqb z "0" then (8, rest) else (10, cs)
    | [] => (10, [])
    end in
  n ← (match cs with [] => None | _ => digitsIn base 0 digits end);
  if existsb (Ascii.eqb "_") cs && negb (underscoreOK cs) then None
  else if n <? 2 ^ 64 then Some n else None.
Definition parseInt0 (s : string) : option Z :=
  let '(negative, digits) := match s with
    | String "-" rest => (true, rest)
    | String "+" rest => (false, rest)
    | _ => (false, s)
    end in
  n ← parseUint0 digits;
  let n := if (negative : bool) then - n else n in
  if (- 2 ^ 63 <=? n) && (n <? 2 ^ 63) then Some n else None.

Definition isUint (s : string) : bool := bool_decide (is_Some (parseUint0 s)).
Definition isInt (s : string) : bool := bool_decide (is_Some (parseInt0 s)).
Definition isFloat (s : string) : bool := match ParseFloat s with Some _ => true | None => false end.
Definition isDuration (s : string) : bool := bool_decide (is_Some (ParseDuration s)).

(** labelFlags.Set and projectFlags.Set *)
Definition labelPair (raw : string) : option (string * string) :=
  let '(name, value, isFound) := Cut raw "=" in
  if negb isFound || (TrimSpace name =? "")%string || (TrimSpace value =? "")%string then None
  else Some (TrimSpace name, TrimSpace value).
Definition projectPair (raw : string) : option (string * string) :=
  let '(name, directory, isFound) := Cut raw "=" in
  let name := TrimSpace name in
  let directory := TrimSpace directory in
  if negb isFound || (name =? "")%string || negb (isAbs directory) then None else Some (name, directory).

Definition setPairs (pair : string -> option (string * string)) (raws : list string) : gmap string string :=
  foldl (λ m raw, match pair raw with Some (name, value) => <[name := value]> m | None => m end) ∅ raws.
Definition labelFlags : list string -> gmap string string := setPairs labelPair.
Definition projectFlags : list string -> gmap string string := setPairs projectPair.
Definition isLabel (raw : string) : bool := bool_decide (is_Some (labelPair raw)).
Definition isProject (raw : string) : bool := bool_decide (is_Some (projectPair raw)).

Example flags_examples : parseFlags [("db", anyText); ("label", isLabel)]
    ["-db"; "x"; "--label=gpu = a100"; "--"; "-rest"] [] =
    Ok ([("db", "x"); ("label", "gpu = a100")], ["-rest"]) /\
  parseFlags [("label", isLabel)] ["-label"; "gpu"] [] = Err (FlagInvalid "label" "gpu") /\
  (parseUint0 "0x10", parseUint0 "010", parseUint0 "1_0", parseUint0 "08", parseUint0 "0") =
  (Some 16, Some 8, Some 10, None, Some 0).
Proof. repeat split; vm_compute; reflexivity. Qed.

(** ** Errors and secrets *)

Inductive CliError :=
  | Usage (text : string)
  | UnknownCommand (command : string)
  | FlagsError (e : FlagError)
  | SpecTooLong
  | SpecDecode
  | SpecInvalid (errs : list ValidationError)
  | FileError (reason : string)
  | ServerURL
  | OperatorToken
  | BootstrapToken
  | MetricsFile
  | MetricEncoding
  | RequestError (reason : string)
  | ControlPlane (status body : string)
  | DetailDecode
  | StoreError (e : Error)
  | AgentConfigError (e : AgentError).

Definition generateSecret (prefix : string) (random : list byte) : string := prefix +:+ unchars (RawURL random).

(** Flags without arguments behind them. *)
Definition commandFlags (types : FlagTypes) (usage : string) (arguments : list string)
    : result CliError (list (string * string)) :=
  match parseFlags types arguments [] with
  | Err e => Err (FlagsError e)
  | Ok (given, []) => Ok given
  | Ok (_, _) => Err (Usage usage)
  end.

(** ** Commands on the database of the control plane *)

Section database.
Context `{Env}.

(** A command: what it prints, or its error, and the database. *)
Abbreviation DbCommand := (St -> result CliError (list (string * string)) * St).

Definition refuse (e : CliError) : DbCommand := λ s, (Err e, s).
Definition store_ {A} (m : Act A) (k : A -> list (string * string)) : DbCommand := λ s,
  let '(r, s') := m s in
  (match r with Ok a => Ok (k a) | Err e => Err (StoreError e) end, s').

Definition hookUsage : string := "usage: lcjs hook create --db PATH --name NAME --url HTTPS_URL".
Definition runHook (now : time) (random : list byte) (arguments : list string) : DbCommand :=
  match arguments with
  | "create" :: rest =>
      match commandFlags [("db", anyText); ("name", anyText); ("url", anyText)] hookUsage rest with
      | Err e => refuse e
      | Ok given =>
          let name := flagValue "name" "" given in
          let url := flagValue "url" "" given in
          if (name =? "")%string || (url =? "")%string then refuse (Usage hookUsage)
          else
            let secret := generateSecret "lcjh_" random in
            store_ (CreateWebhookTarget now name url secret)
              (λ _, [("LCJS_WEBHOOK_TARGET", name); ("LCJS_WEBHOOK_SECRET", secret)])
      end
  | _ => refuse (Usage hookUsage)
  end.

Definition workerUsage : string := "usage: lcjs worker create --db PATH --name NAME [--label name=value]".
Definition runWorkerCreate (now : time) (random : list byte) (arguments : list string) : DbCommand :=
  match commandFlags [("db", anyText); ("name", anyText); ("label", isLabel)] workerUsage arguments with
  | Err e => refuse e
  | Ok given =>
      let name := flagValue "name" "" given in
      if (TrimSpace name =? "")%string then refuse (Usage workerUsage)
      else
        let rawToken := generateSecret "lcjw_" random in
        store_ (CreateWorker now name rawToken (labelFlags (flagValues "label" given)))
          (λ credential, [("LCJS_WORKER_ID", wc_WorkerID credential); ("LCJS_WORKER_TOKEN", rawToken)])
  end.

Definition tokenUsage : string := "usage: lcjs token [create --db PATH --name NAME]".
Definition runToken (now : time) (random : list byte) (arguments : list string) : DbCommand :=
  match arguments with
  | [] => λ s, (Ok [("", generateSecret "" random)], s)
  | "create" :: rest =>
      match commandFlags [("db", anyText); ("name", anyText)] "usage: lcjs token create [--db PATH] [--name NAME]" rest with
      | Err e => refuse e
      | Ok given =>
          let rawToken := generateSecret "lcjs_" random in
          store_ (CreateAPIToken now (flagValue "name" "browser" given) rawToken) (λ _, [("", rawToken)])
      end
  | _ => refuse (Usage tokenUsage)
  end.

(** The server as runServer starts it, with the listen address. *)
Definition runServer (env : string -> string) (arguments : list string) : result CliError (string * Server) :=
  match parseFlags [("listen", anyText); ("db", anyText)] arguments [] with
  | Err e => Err (FlagsError e)
  | Ok (given, _) =>
      let token := env "LCJS_BOOTSTRAP_TOKEN" in
      if len token <? 32 then Err BootstrapToken
      else match newServer token with
           | Some server => Ok (flagValue "listen" "127.0.0.1:8080" given, server)
           | None => Err BootstrapToken
           end
  end.
End database.

(** ** The agent's command *)

Section agent.
Context `{Env} (parseURL : string -> option URL) (isDirectory : string -> bool).

Definition runUsage : string :=
  "usage: lcjs worker run --server URL --project name=/absolute/path [--db PATH] [--artifact-root PATH]".

(** The configuration runWorkerAgent gives to the agent: uint32(...) of the flags. *)
Definition runWorkerAgent (env : string -> string) (version : string) (cpus : Z) (arguments : list string)
    : result CliError AgentConfig :=
  match commandFlags [("server", anyText); ("db", anyText); ("artifact-root", anyText); ("project", isProject);
      ("cpu", isUint); ("memory-bytes", isUint); ("gpus", isUint); ("gpu-shared-slots", isUint);
      ("max-parallel", isUint); ("label", isLabel)] runUsage arguments with
  | Err e => Err e
  | Ok given =>
      let server := flagValue "server" "" given in
      let number name fallback := default fallback (parseUint0 (flagValue name "" given)) in
      if (server =? "")%string then Err (Usage runUsage)
      else
        match checkConfig parseURL isDirectory {|
          cf_ServerURL := server; cf_WorkerID := env "LCJS_WORKER_ID"; cf_Token := env "LCJS_WORKER_TOKEN";
          cf_Version := version; cf_ArtifactRoot := flagValue "artifact-root" "data/artifacts" given;
          cf_Projects := projectFlags (flagValues "project" given);
          cf_Capacity := {| c_CPU := u32 (number "cpu" cpus); c_MemoryBytes := number "memory-bytes" 0;
            c_GPUCount := u32 (number "gpus" 0); c_GPUSharedSlots := u32 (number "gpu-shared-slots" 0);
            c_MaxParallel := u32 (number "max-parallel" 1); c_Labels := labelFlags (flagValues "label" given);
            c_Projects := [] |} |} with
        | Err e => Err (AgentConfigError e)
        | Ok config => Ok config
        end
  end.
End agent.

(** ** The metric a job reports *)

Definition runMetric `{SampleText} (now : time) (env : string -> string) (fileError : option string)
    (arguments : list string) (contents : string -> string) : result CliError (string * string) :=
  let usage := "usage: lcjs metric --name NAME --value NUMBER [--step NUMBER]" in
  match commandFlags [("name", anyText); ("value", isFloat); ("step", isInt)] usage arguments with
  | Err e => Err e
  | Ok given =>
      let name := flagValue "name" "" given in
      let step := default (-1) (parseInt0 (flagValue "step" "-1" given)) in
      let path := env "LCJS_METRICS_FILE" in
      if (name =? "")%string then Err (Usage usage)
      else if (path =? "")%string then Err MetricsFile
      else
        let sample := {| ms_Name := name; ms_Value := default f64_zero (ParseFloat (flagValue "value" "0" given));
                         ms_Step := if 0 <=? step then Some step else None; ms_ObservedAt := now |} in
        match fileError, encodeSample sample with
        | Some reason, _ => Err (FileError reason)
        | None, None => Err MetricEncoding
        | None, Some text => Ok (path, contents path +:+ text +:+ lineEnd)
        end
  end.

(** ** The operator's commands *)

Record OperatorRequest := {
  or_Method : string; or_URL : string; or_Authorization : string; or_ContentType : option string;
  or_IdempotencyKey : option string; or_Body : string;
}.

Inductive OperatorReply :=
  | NoReply (reason : string)
  | Answered (code : Z) (status location body : string).

(** What the shell and the network answer: the environment, a file or standard
    input, the error of a URL that does not parse, the URL a Location stands for
    behind another (net/url), and the reply to the n-th request, with its
    Location. An Authorization that is empty is not sent. *)
Record Shell := {
  sh_env : string -> string; sh_read : string -> result string string;
  sh_urlError : string -> string; sh_resolve : string -> string -> option URL;
  sh_do : nat -> OperatorRequest -> OperatorReply;
}.

Inductive Action := Sent (r : OperatorRequest) | Slept (d : Z) | Printed (text : string).

(** The state of the job in the JSON of a detail. *)
Class DetailText := detailState : string -> option string.

(** *** The redirects http.Client follows *)

(** The method and whether the body is sent again; none where the response is
    the last. *)
Definition redirectBehavior (method : string) (code : Z) : option (string * bool) :=
  if bool_decide (code ∈ [301; 302; 303]) then
    Some (if (method =? "GET")%string || (method =? "HEAD")%string then method else "GET", false)
  else if bool_decide (code ∈ [307; 308]) then Some (method, true) else None.

(** shouldCopyHeaderOnRedirect, for host names in ASCII *)
Definition HasSuffix (s suffix : string) : bool :=
  bool_decide (is_Some (dropPrefix (reverse (chars suffix)) (reverse (chars s)))).
Definition isDomainOrSubdomain (sub parent : string) : bool :=
  (sub =? parent)%string ||
  negb (existsb (λ c, Ascii.eqb c ":" || Ascii.eqb c "%") (chars sub)) && HasSuffix sub ("." +:+ parent).
Definition keepsCredentials (origin target : URL) : bool :=
  (u_Host origin =? u_Host target)%string || isDomainOrSubdomain (u_Hostname target) (u_Hostname origin).

Example subdomains : isDomainOrSubdomain "a.lcjs.org" "lcjs.org" = true /\
  isDomainOrSubdomain "evil-lcjs.org" "lcjs.org" = false /\ isDomainOrSubdomain "lcjs.org" "lcjs.org" = true.
Proof. repeat split; vm_compute; reflexivity. Qed.

Section operator.
Context `{Env} `{HttpEnv} `{DetailText} (sh : Shell).

Abbreviation CAct := (M (list Action) CliError).
Definition act (a : Action) : CAct unit := mmodify (λ log, log ++ [a]).
Definition requestsOf (log : list Action) : list OperatorRequest :=
  omap (λ a, match a with Sent r => Some r | _ => None end) log.

(** The operator may talk to this address: HTTPS, or the machine itself. *)
Definition protected (parsed : URL) : bool :=
  negb (u_Host parsed =? "")%string &&
  ((u_Scheme parsed =? "https")%string || (u_Hostname parsed =? "127.0.0.1")%string ||
   (u_Hostname parsed =? "localhost")%string).

Definition replyBody (reply : OperatorReply) : result CliError string :=
  match reply with
  | NoReply reason => Err (RequestError reason)
  | Answered code status _ body =>
      let body := sliceTo (4 * 2 ^ 20) body in
      if (code <? 200) || (300 <=? code) then Err (ControlPlane status (TrimSpace body)) else Ok body
  end.

(** client.Do: after the first request, at most [hops] more. The headers are those
    of the first request, without the token once a request has left its domain,
    and without the body's once the body was dropped; Referer is left out. *)
Fixpoint follow (hops : nat) (first : OperatorRequest) (origin : URL) (stripped bodyless : bool)
    (request : OperatorRequest) : CAct OperatorReply :=
  n ← mreads (λ log, length (requestsOf log));
  act (Sent request) ;;
  match sh_do sh n request with
  | NoReply reason => mret (NoReply reason)
  | Answered code status location body =>
      match redirectBehavior (or_Method request) code with
      | None => mret (Answered code status location body)
      | Some (method, includeBody) =>
          if (location =? "")%string then mret (Answered code status location body)
          else match sh_resolve sh (or_URL request) location with
          | None => mret (NoReply "failed to parse Location header")
          | Some target =>
              match hops with
              | O => mret (NoReply "stopped after 10 redirects")
              | S hops =>
                  let bodyless := bodyless || negb includeBody in
                  let stripped := stripped || negb (keepsCredentials origin target) in
                  follow hops first origin stripped bodyless {|
                    or_Method := method; or_URL := u_String target;
                    or_Authorization := if stripped then "" else or_Authorization first;
                    or_ContentType := if bodyless then None else or_ContentType first;
                    or_IdempotencyKey := or_IdempotencyKey first;
                    or_Body := if bodyless then "" else or_Body first |}
              end
          end
      end
  end.
Definition clientDo (request : OperatorRequest) (url : URL) : CAct OperatorReply :=
  follow 9 request url false false request.

Definition operatorResponse (method server path : string) (body idempotencyKey : option string) : CAct string :=
  let base := TrimRightChar "/" server in
  mguard (match urlParse base with Some parsed => protected parsed | None => false end) ServerURL ;;
  let token := sh_env sh "LCJS_TOKEN" in
  mguard (32 <=? len token) OperatorToken ;;
  match urlParse (base +:+ path) with
  | None => mfail (RequestError (sh_urlError sh (base +:+ path)))
  | Some url =>
      reply ← clientDo {| or_Method := method; or_URL := base +:+ path; or_Authorization := "Bearer " +:+ token;
        or_ContentType := (λ _, "application/json") <$> body; or_IdempotencyKey := idempotencyKey;
        or_Body := default "" body |} url;
      match replyBody reply with Err e => mfail e | Ok text => mret text end
  end.

Definition operatorRequest (method server path : string) (body idempotencyKey : option string) : CAct unit :=
  text ← operatorResponse method server path body idempotencyKey;
  act (Printed (text +:+ lineEnd)).

Definition liftR {A} (r : result CliError A) : CAct A := match r with Err e => mfail e | Ok a => mret a end.

Definition submitUsage : string := "usage: lcjs job submit --server URL --file JOB.json --idempotency-key KEY".
Definition runJobSubmit (arguments : list string) : CAct unit :=
  given ← liftR (commandFlags [("server", anyText); ("file", anyText); ("idempotency-key", anyText)] submitUsage arguments);
  let server := flagValue "server" "" given in
  let file := flagValue "file" "" given in
  let key := flagValue "idempotency-key" "" given in
  mguard (negb ((server =? "") || (file =? "") || (key =? ""))%string) (Usage submitUsage) ;;
  data ← liftR (match sh_read sh file with Err reason => Err (FileError reason) | Ok data => Ok data end);
  mguard (len data <=? 2 ^ 20) SpecTooLong ;;
  spec ← liftR (match decodeSpec data with Some (spec, _) => Ok spec | None => Err SpecDecode end);
  mguard (bool_decide (Validate spec = [])) (SpecInvalid (Validate spec)) ;;
  operatorRequest "POST" server "/api/v1/jobs" (Some (specJSON spec)) (Some key).

Definition listUsage : string := "usage: lcjs job list --server URL [--limit 100]".
Definition runJobList (arguments : list string) : CAct unit :=
  given ← liftR (match parseFlags [("server", anyText); ("limit", isInt)] arguments [] with
                 | Err e => Err (FlagsError e)
                 | Ok (given, rest) => if bool_decide (rest = []) then Ok given else Err (Usage listUsage)
                 end);
  let server := flagValue "server" "" given in
  let limit := default 100 (parseInt0 (flagValue "limit" "100" given)) in
  mguard (negb ((server =? "")%string || (limit <? 1) || (1000 <? limit))) (Usage listUsage) ;;
  operatorRequest "GET" server ("/api/v1/jobs?limit=" +:+ pretty limit) None None.

Definition cancelUsage : string := "usage: lcjs job cancel --server URL --id JOB_ID".
Definition runJobCancel (arguments : list string) : CAct unit :=
  given ← liftR (commandFlags [("server", anyText); ("id", anyText)] cancelUsage arguments);
  let server := flagValue "server" "" given in
  let jobID := flagValue "id" "" given in
  mguard (negb ((server =? "") || (jobID =? ""))%string) (Usage cancelUsage) ;;
  operatorRequest "POST" server ("/api/v1/jobs/" +:+ PathEscape jobID +:+ "/cancel") None None.

Definition finalState (text : string) : bool :=
  existsb (λ s, (text =? JobState_text s)%string) [JobSucceeded; JobFailed; JobCanceled].

(** The loop of job wait, [fuel] polls of it; false where it goes on. *)
Fixpoint pollJob (fuel : nat) (server jobID : string) (interval : Z) : CAct bool :=
  match fuel with
  | O => mret false
  | S fuel =>
      body ← operatorResponse "GET" server ("/api/v1/jobs/" +:+ PathEscape jobID) None None;
      match detailState body with
      | None => mfail DetailDecode
      | Some state =>
          if finalState state then act (Printed (body +:+ lineEnd)) ;; mret true
          else act (Slept interval) ;; pollJob fuel server jobID interval
      end
  end.

Definition runJobGet (fuel : nat) (wait : bool) (arguments : list string) : CAct bool :=
  let usage := "usage: lcjs " +:+ (if wait then "job wait" else "job get") +:+ " --server URL --id JOB_ID" in
  given ← liftR (commandFlags [("server", anyText); ("id", anyText); ("interval", isDuration)] usage arguments);
  let server := flagValue "server" "" given in
  let jobID := flagValue "id" "" given in
  let interval := default (5 * GoTime.Second) (ParseDuration (flagValue "interval" "5s" given)) in
  mguard (negb ((server =? "")%string || (jobID =? "")%string || wait && (interval <? GoTime.Second))) (Usage usage) ;;
  if wait then pollJob fuel server jobID interval
  else operatorRequest "GET" server ("/api/v1/jobs/" +:+ PathEscape jobID) None None ;; mret true.

Definition jobUsage : string := "usage: lcjs job <submit|get|list|cancel|wait>".
Definition runJob (fuel : nat) (arguments : list string) : CAct bool :=
  match arguments with
  | "submit" :: rest => runJobSubmit rest ;; mret true
  | "get" :: rest => runJobGet fuel false rest
  | "list" :: rest => runJobList rest ;; mret true
  | "cancel" :: rest => runJobCancel rest ;; mret true
  | "wait" :: rest => runJobGet fuel true rest
  | _ => mfail (Usage jobUsage)
  end.
End operator.

(** ** The command of the program *)

Inductive Command :=
  | ServerCommand | TokenCommand | WorkerCreateCommand | WorkerRunCommand | SuperviseCommand
  | MetricCommand | JobCommand | HookCommand | VersionCommand.

Definition run (arguments : list string) : result CliError (Command * list string) :=
  match arguments with
  | [] => Err (Usage "usage: lcjs <server|token|worker|job|metric|hook|version>")
  | "server" :: rest => Ok (ServerCommand, rest)
  | "token" :: rest => Ok (TokenCommand, rest)
  | "worker" :: "create" :: rest => Ok (WorkerCreateCommand, rest)
  | "worker" :: "run" :: rest => Ok (WorkerRunCommand, rest)
  | "worker" :: _ => Err (Usage "usage: lcjs worker <create|run>")
  | "supervise" :: rest => Ok (SuperviseCommand, rest)
  | "metric" :: rest => Ok (MetricCommand, rest)
  | "job" :: rest => Ok (JobCommand, rest)
  | "hook" :: rest => Ok (HookCommand, rest)
  | "version" :: rest => Ok (VersionCommand, rest)
  | command :: _ => Err (UnknownCommand command)
  end.
