(* ===== verification/CliProperties.v ===== *)
(** * The command line: the properties

    What the operator's commands send, and where redirects take it; waiting ends
    with the first poll that finds the job over at the control plane; the
    credentials a command prints are accepted by the server. *)

From S2P Require Import Prelude Utf8 Times GoLib Encoding FloatText Ids Domain Validate Database Jobs Health Events.
From S2P Require Import Lifecycle Auth Scheduler Sync Control Paths Agent Scenario History AuthProperties Details Report Http HttpLog.
From S2P Require Import DetailsProperties HttpProperties Sampler Cli.
From Stdlib Require Import Strings.Byte.

(** Text that starts no new segment, query or fragment ("." and ".." are such
    texts: PathEscape leaves them as they are). *)
Definition unseparated (s : string) : Prop := Forall (λ c, c ∉ ["/"; "?"; "#"]%char) (chars s).

(** The secret [raw] belongs to the worker, which is enrolled and not revoked. *)
Definition workerHeld `{Env} (raw workerID : string) (d : DB) : Prop :=
  (exists t, worker_tokens d !! sha256 raw = Some t /\ wt_worker_id t = workerID /\ wt_revoked_at t = None) /\
  is_Some (workers d !! workerID).

Section statements.
Context `{Env} `{HttpEnv} `{DetailText} (sh : Shell).

(** A request of the operator: where it goes behind the address of the server,
    and what it carries. *)
Inductive operation : OperatorRequest -> string -> Prop :=
  | submits spec key auth base : Validate spec = [] -> key <> "" ->
      operation {| or_Method := "POST"; or_URL := base +:+ "/api/v1/jobs"; or_Authorization := auth;
        or_ContentType := Some "application/json"; or_IdempotencyKey := Some key; or_Body := specJSON spec |} base
  | reads_job id auth base : unseparated id ->
      operation {| or_Method := "GET"; or_URL := base +:+ "/api/v1/jobs/" +:+ id; or_Authorization := auth;
        or_ContentType := None; or_IdempotencyKey := None; or_Body := "" |} base
  | lists limit auth base : 1 <= limit <= 1000 ->
      operation {| or_Method := "GET"; or_URL := base +:+ "/api/v1/jobs?limit=" +:+ pretty limit; or_Authorization := auth;
        or_ContentType := None; or_IdempotencyKey := None; or_Body := "" |} base
  | cancels id auth base : unseparated id ->
      operation {| or_Method := "POST"; or_URL := base +:+ "/api/v1/jobs/" +:+ id +:+ "/cancel"; or_Authorization := auth;
        or_ContentType := None; or_IdempotencyKey := None; or_Body := "" |} base.

Definition serverBase (server : string) : string := TrimRightChar "/" server.

(** A request as it is sent. *)
Definition requestTo (method server path : string) (body key : option string) : OperatorRequest := {|
  or_Method := method; or_URL := serverBase server +:+ path; or_Authorization := "Bearer " +:+ sh_env sh "LCJS_TOKEN";
  or_ContentType := (λ _, "application/json") <$> body; or_IdempotencyKey := key; or_Body := default "" body |}.

(** Nothing is in the way of requests to the server. *)
Definition serverUsable (server path : string) : Prop := exists parsed,
  urlParse (serverBase server) = Some parsed /\ protected parsed = true /\
  32 <= len (sh_env sh "LCJS_TOKEN") /\ is_Some (urlParse (serverBase server +:+ path)).

(** It is sent with the operator's token, over HTTPS or to the machine itself. *)
Definition guarded (r : OperatorRequest) : Prop :=
  exists base parsed token, operation r base /\ urlParse base = Some parsed /\ u_Host parsed <> "" /\
    (u_Scheme parsed = "https" \/ u_Hostname parsed = "127.0.0.1" \/ u_Hostname parsed = "localhost") /\
    token = sh_env sh "LCJS_TOKEN" /\ 32 <= len token /\ or_Authorization r = "Bearer " +:+ token.

(** The target's host is that of the origin, or below it. *)
Definition hostBelow (origin target : URL) : Prop :=
  u_Host target = u_Host origin \/ u_Hostname target = u_Hostname origin \/
  exists prefix, u_Hostname target = prefix +:+ "." +:+ u_Hostname origin.

(** A request that a redirect of [first] asked for: it carries nothing but what
    [first] carried, and the token only to its host or below. *)
Definition followed (first r : OperatorRequest) : Prop := exists origin target,
  urlParse (or_URL first) = Some origin /\ or_URL r = u_String target /\
  (or_Authorization r = "" \/ or_Authorization r = or_Authorization first /\ hostBelow origin target) /\
  (or_Method r = or_Method first \/ or_Method r = "GET") /\ or_IdempotencyKey r = or_IdempotencyKey first /\
  (or_Body r = "" \/ or_Body r = or_Body first).

(** A request that was sent: one the command made, or a redirect of such a one. *)
Definition accounted (log : list Action) (r : OperatorRequest) : Prop :=
  guarded r \/ exists first, first ∈ requestsOf log /\ guarded first /\ followed first r.
End statements.

(** ** The control plane behind the network *)

(** The text of a body, of which the state of a job's detail is read back, and
    the status line of a response. *)
Class DetailLaws `{DetailText} := {
  detailBody : Body -> string;
  statusLine : Z -> string;
  detail_state detail : detailState (detailBody (DetailBody detail)) = Some (JobState_text (j_State (jd_Job detail)));
}.

(** What the control plane reads of a request that comes to [path]. *)
Record arrives (path : string) (r : OperatorRequest) (q : Request) : Prop := {
  ar_method : rq_Method q = or_Method r;
  ar_path : rq_EscapedPath q = path;
  ar_authorization : rq_Authorization q = or_Authorization r;
}.

Section polls.
Context `{Env} `{HttpEnv} `{DetailLaws}.

Definition pollPath (jobID : string) : string := "/api/v1/jobs/" +:+ PathEscape jobID.

(** The reply is the control plane's [response] to the request, in the state [s]. *)
Definition answered (path : string) (r : OperatorRequest) (s : St) (response : Response) (reply : OperatorReply) : Prop :=
  exists server clock q, arrives path r q /\ response = (ServeHTTP server clock q s).1 /\
    reply = Answered (rp_Status response) (statusLine (rp_Status response)) (rp_Location response)
              (detailBody (rp_Body response)).

(** A response the operator's command reads to its end. *)
Definition readable (response : Response) : Prop := len (detailBody (rp_Body response)) <= 4 * 2 ^ 20.

(** A poll that finds the job not over at the control plane. *)
Definition findsRunning (jobID : string) (r : OperatorRequest) (reply : OperatorReply) : Prop :=
  exists s response row, answered (pollPath jobID) r s response reply /\ rp_Status response = 200 /\ readable response /\
    jobs (db s) !! jobID = Some row /\ terminal (jr_state row) = false.

(** The last poll, with how the command ends and what it does at the end: the
    job is over, the control plane refuses, or there is no reply. *)
Inductive lastPoll (jobID : string) (r : OperatorRequest) (reply : OperatorReply) : result CliError bool -> list Action -> Prop :=
  | poll_over s response row : answered (pollPath jobID) r s response reply -> rp_Status response = 200 ->
      readable response -> jobs (db s) !! jobID = Some row -> terminal (jr_state row) = true ->
      lastPoll jobID r reply (Ok true) [Printed (detailBody (rp_Body response) +:+ lineEnd)]
  | poll_refused s response : answered (pollPath jobID) r s response reply -> rp_Status response <> 200 ->
      lastPoll jobID r reply
        (Err (ControlPlane (statusLine (rp_Status response))
          (TrimSpace (sliceTo (4 * 2 ^ 20) (detailBody (rp_Body response)))))) []
  | poll_silent reason : reply = NoReply reason -> lastPoll jobID r reply (Err (RequestError reason)) [].
End polls.

Module CliTheory.

Lemma hex_safe n : upperHex n ∉ ["/"; "?"; "#"]%char.
Proof.
  unfold upperHex. set (digits := chars _). destruct (nth_in_or_default (N.to_nat n) digits "0"%char) as [Hin| ->].
  - apply list_elem_of_In in Hin. revert Hin. generalize (nth (N.to_nat n) digits "0"%char). intros c Hc.
    assert (Hall : Forall (λ c, c ∉ ["/"; "?"; "#"]%char) digits) by (apply (bool_decide_unpack _); vm_compute; exact I).
    rewrite Forall_forall in Hall. by apply Hall.
  - set_solver.
Qed.

Lemma unreserved_safe c : unreserved c = true -> c ∉ ["/"; "?"; "#"]%char.
Proof.
  intros Hu Hin. repeat (apply elem_of_cons in Hin as [-> |Hin]; [discriminate Hu|]). by apply elem_of_nil in Hin.
Qed.

Lemma PathEscape_unseparated s : unseparated (PathEscape s).
Proof.
  unfold unseparated, PathEscape, escape. rewrite String.list_ascii_of_string_of_list_ascii. apply Forall_bind.
  apply Forall_forall. intros c _. unfold compose, escapeByte. destruct (unreserved c) eqn:E.
  - constructor; [by apply unreserved_safe|constructor].
  - constructor; [by apply (bool_decide_unpack _)|]. repeat (constructor; [apply hex_safe|]). constructor.
Qed.

(** An escaped text is read back. *)
Lemma unescape_byte c rest : unescape (escapeByte unreserved c ++ rest) = cons c <$> unescape rest.
Proof. destruct c as [[] [] [] [] [] [] [] []]; reflexivity. Qed.

Lemma unescape_escape s : pathUnescape (PathEscape s) = s.
Proof.
  unfold pathUnescape, PathEscape, escape. rewrite String.list_ascii_of_string_of_list_ascii.
  assert (E : unescape (chars s ≫= escapeByte unreserved) = Some (chars s)).
  { induction (chars s) as [|c cs IH]; [done|]. rewrite bind_cons, unescape_byte, IH. done. }
  rewrite E. apply String.string_of_list_ascii_of_string.
Qed.

(** *** Requests *)

Section operator.
Context `{Env} `{HttpEnv} `{DetailText} (sh : Shell).

(** Every request so far is accounted for. *)
Definition allAccounted (log : list Action) : Prop := Forall (accounted sh log) (requestsOf log).

Lemma requestsOf_app l1 l2 : requestsOf (l1 ++ l2) = requestsOf l1 ++ requestsOf l2.
Proof. apply omap_app. Qed.

Lemma accounted_app log more r : accounted sh log r -> accounted sh (log ++ more) r.
Proof.
  intros [Hg|(first & Hin & Hf)]; [by left|]. right. exists first. split; [|done].
  rewrite requestsOf_app. apply elem_of_app. by left.
Qed.

Lemma all_app log a : allAccounted log -> (forall r, a = Sent r -> accounted sh log r) -> allAccounted (log ++ [a]).
Proof.
  intros Hl Ha. unfold allAccounted. rewrite requestsOf_app. apply Forall_app. split.
  - eapply Forall_impl; [exact Hl|]. intros r. apply accounted_app.
  - destruct a; cbn; [|constructor..]. constructor; [|constructor]. by apply accounted_app, Ha.
Qed.

Lemma keeps_quiet a : (forall r, a <> Sent r) -> keeps allAccounted (act a).
Proof. intros Ha log Hlog. cbn. apply all_app; [done|]. intros r Hr. by destruct (Ha r). Qed.

Lemma keeps_lift {A} (r : result CliError A) : keeps allAccounted (liftR r).
Proof. destruct r; [apply keeps_ret|apply keeps_fail]. Qed.

(** *** Redirects *)

Lemma dropPrefix_app p s rest : dropPrefix p s = Some rest -> s = p ++ rest.
Proof.
  revert s. induction p as [|a p IH]; intros s Hd; [by injection Hd as ->|]. destruct s as [|b s]; [done|].
  simpl in Hd. destruct (decide (a = b)) as [->|]; [|done]. by rewrite (IH _ Hd).
Qed.

Lemma HasSuffix_app s suffix : HasSuffix s suffix = true -> exists prefix, s = prefix +:+ suffix.
Proof.
  intros [rest Hd]%bool_decide_eq_true. apply dropPrefix_app in Hd. apply (f_equal reverse) in Hd.
  rewrite reverse_app, !reverse_involutive in Hd. exists (unchars (reverse rest)).
  apply (f_equal unchars) in Hd. by rewrite unchars_app, !String.string_of_list_ascii_of_string in Hd.
Qed.

Lemma keepsCredentials_below origin target : keepsCredentials origin target = true -> hostBelow origin target.
Proof.
  unfold keepsCredentials, isDomainOrSubdomain. rewrite !orb_true_iff, andb_true_iff, !String.eqb_eq.
  intros [?|[?|[_ Hs]]]; [by left|right; by left|]. right. right. by apply HasSuffix_app in Hs.
Qed.

(** The request at hand: the first one, or a redirect of it. *)
Lemma keeps_follow first origin hops : guarded sh first -> urlParse (or_URL first) = Some origin ->
  forall stripped bodyless request log, allAccounted log ->
  request = first \/ first ∈ requestsOf log /\ followed first request ->
  or_Method request = or_Method first \/ or_Method request = "GET" ->
  allAccounted (follow sh hops first origin stripped bodyless request log).2.
Proof.
  intros Hg Hu. induction hops as [|hops IH]; intros stripped bodyless request log Hlog Hreq Hmethod;
    cbn [follow]; unfold mbind, M_bind, mreads, act, mmodify; cbn [fst snd].
  all: assert (Hlog' : allAccounted (log ++ [Sent request])) by
    (apply all_app; [done|]; intros r [= <-]; destruct Hreq as [->|[Hin Hf]]; [by left|right; by exists first]).
  all: destruct (sh_do sh _ request) as [reason|code status location body]; [exact Hlog'|].
  all: destruct (redirectBehavior (or_Method request) code) as [[method includeBody]|] eqn:Eb; [|exact Hlog'].
  all: destruct (location =? "")%string; [exact Hlog'|].
  all: destruct (sh_resolve sh (or_URL request) location) as [target|]; [|exact Hlog'].
  - exact Hlog'.
  - assert (Hm : method = or_Method first \/ method = "GET").
    { unfold redirectBehavior in Eb. destruct (bool_decide _); [|destruct (bool_decide _); [|done]]; injection Eb as <- <-; [|done].
      destruct (_ || _); [done|by right]. }
    apply IH; [exact Hlog'| |exact Hm]. right. split.
    + rewrite requestsOf_app. apply elem_of_app. destruct Hreq as [->|[Hin _]]; [right; apply list_elem_of_here|by left].
    + exists origin, target. cbn. split_and!; [done|done| |done|done|].
      * destruct stripped; [by left|]. destruct (keepsCredentials origin target) eqn:Ek; [|by left].
        right. split; [done|]. by apply keepsCredentials_below.
      * destruct (bodyless || _); [by left|by right].
Qed.

Lemma keeps_response method server path body key :
  (forall auth base, operation {| or_Method := method; or_URL := base +:+ path; or_Authorization := auth;
     or_ContentType := (λ _, "application/json") <$> body; or_IdempotencyKey := key; or_Body := default "" body |} base) ->
  keeps allAccounted (operatorResponse sh method server path body key).
Proof.
  intros Hop. unfold operatorResponse. intros log Hlog.
  destruct (urlParse (TrimRightChar "/" server)) as [parsed|] eqn:Hu; [|exact Hlog].
  unfold mguard at 1, mbind at 1, M_bind at 1. destruct (protected parsed) eqn:Hp; [|exact Hlog].
  cbn [mret M_ret]. unfold mguard, mbind at 1, M_bind at 1.
  destruct (Z.leb_spec 32 (len (sh_env sh "LCJS_TOKEN"))) as [Htok|]; [|exact Hlog]. cbn [mret M_ret].
  destruct (urlParse (_ +:+ path)) as [url|] eqn:Hurl; [|exact Hlog]. unfold mbind, M_bind.
  match goal with |- context [clientDo sh ?r url log] => pose proof (keeps_follow r url 9) as Hf end.
  match type of Hf with guarded sh ?r -> _ => assert (Hg : guarded sh r) end.
  { exists (TrimRightChar "/" server), parsed, (sh_env sh "LCJS_TOKEN").
    unfold protected in Hp. apply andb_true_iff in Hp as [Hh Hs]. apply negb_true_iff, String.eqb_neq in Hh.
    rewrite !orb_true_iff, !String.eqb_eq in Hs. split_and!; [apply Hop|done|done|tauto|done..]. }
  specialize (Hf Hg Hurl false false _ log Hlog (or_introl eq_refl) (or_introl eq_refl)).
  unfold clientDo. destruct (follow _ _ _ _ _ _ _ log) as [[reply|e] log1]; [|exact Hf].
  destruct (replyBody reply); exact Hf.
Qed.

Lemma keeps_request method server path body key :
  (forall auth base, operation {| or_Method := method; or_URL := base +:+ path; or_Authorization := auth;
     or_ContentType := (λ _, "application/json") <$> body; or_IdempotencyKey := key; or_Body := default "" body |} base) ->
  keeps allAccounted (operatorRequest sh method server path body key).
Proof.
  intros Hop. apply keeps_bind; [by apply keeps_response|]. intros text. by apply keeps_quiet.
Qed.

Lemma keeps_guard_bind {A} b e (m : M (list Action) CliError A) : (b = true -> keeps allAccounted m) ->
  keeps allAccounted (mguard b e ;; m).
Proof. intros Hm. destruct b; [by apply Hm|]. apply keeps_fail. Qed.

Lemma keeps_submit arguments : keeps allAccounted (runJobSubmit sh arguments).
Proof.
  unfold runJobSubmit. apply keeps_bind; [apply keeps_lift|]. intros given. cbv zeta.
  apply keeps_guard_bind. intros Hg. apply keeps_bind; [apply keeps_lift|]. intros data.
  apply keeps_guard_bind. intros _. apply keeps_bind; [apply keeps_lift|]. intros spec.
  apply keeps_guard_bind. intros Hv%bool_decide_eq_true. apply keeps_request. intros auth base.
  apply submits; [done|]. apply negb_true_iff in Hg. rewrite !orb_false_iff, !String.eqb_neq in Hg. tauto.
Qed.

Lemma keeps_poll fuel server jobID interval : keeps allAccounted (pollJob sh fuel server jobID interval).
Proof.
  induction fuel as [|fuel IH]; [apply keeps_ret|]. cbn [pollJob]. apply keeps_bind.
  - apply keeps_response. intros auth base. apply reads_job, PathEscape_unseparated.
  - intros body. destruct (detailState body) as [state|]; [|apply keeps_fail].
    destruct (finalState state); (apply keeps_bind; [by apply keeps_quiet|]); intros _; [apply keeps_ret|exact IH].
Qed.

Lemma keeps_list arguments : keeps allAccounted (runJobList sh arguments).
Proof.
  unfold runJobList. apply keeps_bind; [apply keeps_lift|]. intros given. cbv zeta. apply keeps_guard_bind.
  intros Hg. apply keeps_request. intros auth base. apply lists. apply negb_true_iff in Hg.
  rewrite !orb_false_iff in Hg. lia.
Qed.

Lemma keeps_cancel arguments : keeps allAccounted (runJobCancel sh arguments).
Proof.
  unfold runJobCancel. apply keeps_bind; [apply keeps_lift|]. intros given. cbv zeta. apply keeps_guard_bind.
  intros _. apply keeps_request. intros auth base. apply cancels, PathEscape_unseparated.
Qed.

Lemma keeps_job fuel arguments : keeps allAccounted (runJob sh fuel arguments).
Proof.
  assert (Hget : forall wait rest, keeps allAccounted (runJobGet sh fuel wait rest)).
  { intros wait rest. unfold runJobGet. apply keeps_bind; [apply keeps_lift|]. intros given. cbv zeta.
    apply keeps_guard_bind. intros _. destruct wait; [apply keeps_poll|]. apply keeps_bind; [|intros _; apply keeps_ret].
    apply keeps_request. intros auth base. apply reads_job, PathEscape_unseparated. }
  unfold runJob. repeat (match goal with |- keeps _ (match ?x with _ => _ end) => destruct x end);
    first [ apply keeps_fail | apply Hget | (apply keeps_bind; [|intros _; apply keeps_ret]) ];
    first [ apply keeps_submit | apply keeps_list | apply keeps_cancel ].
Qed.

(** *** Waiting *)

(** A reply that http.Client does not follow. *)
Definition lastReply (method : string) (reply : OperatorReply) : Prop :=
  match reply with
  | NoReply _ => True
  | Answered code _ location _ => redirectBehavior method code = None \/ location = ""
  end.

Lemma response_run method server path body key log : serverUsable sh server path ->
  let r := requestTo sh method server path body key in
  let reply := sh_do sh (length (requestsOf log)) r in
  lastReply method reply ->
  operatorResponse sh method server path body key log = (replyBody reply, log ++ [Sent r]).
Proof.
  intros (parsed & Hu & Hp & Htok & [url Hurl]) r reply Hlast. unfold operatorResponse, serverBase in *.
  rewrite Hu, Hp, Hurl. apply Z.leb_le in Htok. rewrite Htok.
  unfold mguard, mbind, M_bind, clientDo. cbn [follow]. unfold mbind, M_bind, mreads, act, mmodify. cbn.
  fold serverBase r. change (sh_do sh (length (requestsOf log)) _) with reply.
  assert (E : forall x, (replyBody x, log ++ [Sent r]) =
    match replyBody x with Ok text => mret text | Err e => mfail e end (log ++ [Sent r])) by (intros x; by destruct (replyBody x)).
  destruct reply as [reason|code status location text]; [done|]. rewrite E. destruct Hlast as [Hn|Hn].
  - by rewrite Hn.
  - rewrite Hn. by destruct (redirectBehavior method code) as [[]|].
Qed.

Lemma requestsOf_sent log r : length (requestsOf (log ++ [Sent r])) = S (length (requestsOf log)).
Proof. rewrite requestsOf_app, length_app. cbn. lia. Qed.

Lemma requestsOf_slept log d : requestsOf (log ++ [Slept d]) = requestsOf log.
Proof. rewrite requestsOf_app. cbn. apply app_nil_r. Qed.

(** A poll that goes on, and one that ends the wait. *)
Definition continues (reply : OperatorReply) : Prop := lastReply "GET" reply /\
  exists body state, replyBody reply = Ok body /\ detailState body = Some state /\ finalState state = false.
Definition stops (reply : OperatorReply) (result : result CliError bool) (acts : list Action) : Prop :=
  lastReply "GET" reply /\
  ((exists e, replyBody reply = Err e /\ result = Err e /\ acts = []) \/
   (exists body state, replyBody reply = Ok body /\ detailState body = Some state /\ finalState state = true /\
      result = Ok true /\ acts = [Printed (body +:+ lineEnd)])).

Lemma pollJob_run k server jobID interval result acts fuel log :
  let r := requestTo sh "GET" server ("/api/v1/jobs/" +:+ PathEscape jobID) None None in
  let n := length (requestsOf log) in
  serverUsable sh server ("/api/v1/jobs/" +:+ PathEscape jobID) ->
  (forall i, (i < k)%nat -> continues (sh_do sh (n + i) r)) ->
  stops (sh_do sh (n + k) r) result acts -> (k < fuel)%nat ->
  pollJob sh fuel server jobID interval log =
  (result, log ++ mjoin (replicate k [Sent r; Slept interval]) ++ Sent r :: acts).
Proof.
  intros r. revert fuel log. induction k as [|k IH]; intros [|fuel] log n Hserver Hgo [Hlast Hend] Hk; try lia; cbn [pollJob].
  - rewrite Nat.add_0_r in Hend, Hlast. unfold mbind, M_bind. rewrite response_run by done. fold r n.
    destruct Hend as [(e & -> & -> & ->)|(body & state & -> & Hs & Hf & -> & ->)]; [done|]. rewrite Hs, Hf. cbn.
    by rewrite <- (assoc_L (++)).
  - destruct (Hgo 0%nat ltac:(lia)) as [Hl (body & state & Hb & Hs & Hf)]. rewrite Nat.add_0_r in Hl, Hb.
    unfold mbind, M_bind. rewrite response_run by done. fold r n. rewrite Hb, Hs, Hf. cbn [act mmodify].
    rewrite (IH fuel); [| exact Hserver | | | lia].
    + cbn. by rewrite <- !(assoc_L (++)).
    + intros i Hi. rewrite requestsOf_slept, requestsOf_sent, Nat.add_succ_comm. apply Hgo. lia.
    + rewrite requestsOf_slept, requestsOf_sent, Nat.add_succ_comm. by split.
Qed.
End operator.
End CliTheory.

(** *** What the control plane answers to a poll *)

Module PollTheory.
Section polls.
Context `{Env} `{HttpEnv} `{DetailLaws}.

(** A request to the API is refused, or its handler answers in a state with the
    same jobs. *)
Lemma authenticate_answers server clock q next s :
  (rp_Status (authenticateAPI server clock q next s).1 ∈ [401; 500] /\
   rp_Location (authenticateAPI server clock q next s).1 = "") \/
  exists s1, jobs (db s1) = jobs (db s) /\ authenticateAPI server clock q next s = next s1.
Proof.
  unfold authenticateAPI. destruct (bearerToken q) as [raw|]; [|left; split; [apply list_elem_of_here|done]].
  destruct (_ =? _)%string; [right; by exists s|]. rewrite call_run.
  assert (Hs : HttpTheory.coreSame s (AuthenticateAPIToken (clock 0%nat) raw s).2).
  { apply HttpTheory.frames_same. unfold AuthenticateAPIToken. frame. }
  destruct (AuthenticateAPIToken (clock 0%nat) raw s) as [[token|e] s1]; cbn [fst snd] in *.
  - right. exists s1. split; [by injection Hs|done].
  - left. destruct e; (split; [cbn; set_solver|done]).
Qed.

Lemma detail_answers jobID s : let response := (getJobDetail jobID s).1 in
  rp_Location response = "" /\
  (rp_Status response ∈ [404; 500] \/ exists detail row, response = writeJSON 200 (DetailBody detail) /\
    jobs (db s) !! jobID = Some row /\ j_State (jd_Job detail) = jr_state row).
Proof.
  unfold getJobDetail. rewrite call_run. destruct (GetJobDetail jobID s) as [[detail|e] s1] eqn:E; cbn [fst snd].
  - split; [done|]. right. apply DetailsTheory.GetJobDetail_ok in E as (_ & Hj & _).
    apply Refinement.getJob_ok in Hj as (_ & row & Hrow & _ & Hst & _). by exists detail, row.
  - destruct e; (split; [done|left; cbn; set_solver]).
Qed.

Lemma pollPath_segments jobID : jobID ∉ [""; "."; ".."; "/"] ->
  pathSegments (pollPath jobID) = ["api"; "v1"; "jobs"; jobID].
Proof.
  intros Hj. assert (Hs : Split (PathEscape jobID) slash = [PathEscape jobID]).
  { apply PathTheory.Split_single. intros Hin. pose proof (CliTheory.PathEscape_unseparated jobID) as Hu.
    unfold unseparated in Hu. rewrite Forall_forall in Hu. apply list_elem_of_In in Hin. apply (Hu _ Hin). set_solver. }
  assert (Hne : PathEscape jobID <> "").
  { intros E. pose proof (CliTheory.unescape_escape jobID) as Eu. rewrite E in Eu. rewrite <- Eu in Hj. apply Hj. set_solver. }
  unfold pathSegments. change (pollPath jobID) with ("/api/v1/jobs" +:+ String slash (PathEscape jobID)).
  rewrite PathTheory.Split_app, Hs. change (Split "/api/v1/jobs" slash) with [""; "api"; "v1"; "jobs"]. cbn [app segmentsOf].
  apply String.eqb_neq in Hne as ->. rewrite CliTheory.unescape_escape. reflexivity.
Qed.

Lemma detail_routed jobID : jobID <> "/" ->
  let path := ["api"; "v1"; "jobs"; jobID] in
  List.find (λ r : Route, bool_decide (is_Some (matchPath r.1.2 path)) && methodMatches r.1.1 "GET") routes =
  Some (api "GET" [Lit "api"; Lit "v1"; Lit "jobs"; Wild] (λ _ _ _ id, getJobDetail id)).
Proof.
  intros Hj%String.eqb_neq path. unfold path, routes, api, static. cbn [List.find fst snd matchPath].
  repeat match goal with |- context [(?x =? ?y)%string] =>
    first [change (x =? y)%string with false | change (x =? y)%string with true | rewrite Hj]; cbv iota end.
  reflexivity.
Qed.

Lemma answered_poll jobID r s response reply : jobID ∉ [""; "."; ".."; "/"] -> or_Method r = "GET" ->
  answered (pollPath jobID) r s response reply ->
  CliTheory.lastReply "GET" reply /\ 
  ((rp_Status response <> 200 /\ (rp_Status response < 200 \/ 300 <= rp_Status response)) \/
   exists detail row, rp_Status response = 200 /\ rp_Body response = DetailBody detail /\
     jobs (db s) !! jobID = Some row /\ j_State (jd_Job detail) = jr_state row).
Proof.
  intros Hj Hm (server & clock & q & [Hqm Hqp _] & Hresp & ->).
  pose proof (pollPath_segments jobID Hj) as Hpath.
  assert (Hd : dispatch server clock q = authenticateAPI server clock q (getJobDetail jobID)).
  { rewrite (HttpTheory.dispatch_plain clock server q ["api"; "v1"; "jobs"; jobID]).
    - unfold routed, rq_Path. rewrite Hqp, Hpath, Hqm, Hm.
      assert (Hne : jobID <> "/") by (intros ->; apply Hj; set_solver). rewrite (detail_routed jobID Hne).
      unfold api. cbn [matchPath]. repeat match goal with |- context [(?x =? ?y)%string] =>
        first [change (x =? y)%string with true | apply String.eqb_neq in Hne; rewrite Hne]; cbv iota end. reflexivity.
    - unfold rq_Path. by rewrite Hqp.
    - apply bool_decide_eq_true. split; [done|].
      repeat (constructor; [unfold HttpTheory.kept; first [exact Hj|set_solver]|]). constructor. }
  assert (E : response = withRequestID (rq_ID q) (authenticateAPI server clock q (getJobDetail jobID) s).1).
  { rewrite Hresp. unfold ServeHTTP. rewrite Hd. by destruct (authenticateAPI _ _ _ _ s). }
  rewrite E. cbn [withRequestID rp_Status rp_Location rp_Body]. clear E Hd.
  assert (Hlast : forall code, code ∈ [401; 404; 500] ->
    redirectBehavior "GET" code = None /\ (code <> 200 /\ (code < 200 \/ 300 <= code))).
  { intros code Hc. repeat (apply elem_of_cons in Hc as [->|Hc]; [split; [reflexivity|lia]|]). by apply elem_of_nil in Hc. }
  destruct (authenticate_answers server clock q (getJobDetail jobID) s) as [[Hst Hloc]|(s1 & Hjobs & ->)].
  - split; [by right|]. left. apply Hlast. set_solver.
  - destruct (detail_answers jobID s1) as [Hloc [Hst|(detail & row & -> & Hrow & Hst)]].
    + split; [by right|]. left. apply Hlast. set_solver.
    + split; [by right|]. right. exists detail, row. rewrite <- Hjobs. by split_and!.
Qed.

Lemma finalState_terminal st : finalState (JobState_text st) = terminal st.
Proof. by destruct st. Qed.

Lemma sliceTo_fits n s : len s <= n -> sliceTo n s = s.
Proof.
  intros Hl. unfold sliceTo. rewrite take_ge; [apply String.string_of_list_ascii_of_string|].
  rewrite Utf8Theory.chars_length. unfold len in Hl. lia.
Qed.

(** A readable detail is what the command reads. *)
Lemma reply_detail response detail : rp_Status response = 200 -> rp_Body response = DetailBody detail -> readable response ->
  replyBody (Answered (rp_Status response) (statusLine (rp_Status response)) (rp_Location response)
    (detailBody (rp_Body response))) = Ok (detailBody (DetailBody detail)).
Proof. intros Hs Hb Hr. unfold readable in Hr. rewrite Hb in *. unfold replyBody. by rewrite Hs, sliceTo_fits. Qed.

Lemma running_continues jobID r reply : jobID ∉ [""; "."; ".."; "/"] -> or_Method r = "GET" ->
  findsRunning jobID r reply -> CliTheory.continues reply.
Proof.
  intros Hj Hm (s & response & row & Ha & Hst & Hr & Hrow & Hterm).
  destruct (answered_poll _ _ _ _ _ Hj Hm Ha) as [Hl [[? _]|(detail & row' & _ & Hb & Hrow' & Hs)]]; [done|].
  split; [exact Hl|]. destruct Ha as (_ & _ & _ & _ & _ & ->). eexists _, _. split_and!.
  - by apply reply_detail.
  - apply detail_state.
  - rewrite finalState_terminal, Hs. by simplify_option_eq.
Qed.

Lemma last_stops jobID r reply result acts : jobID ∉ [""; "."; ".."; "/"] -> or_Method r = "GET" ->
  lastPoll jobID r reply result acts -> CliTheory.stops reply result acts.
Proof.
  intros Hj Hm [s response row Ha Hst Hr Hrow Hterm|s response Ha Hst|reason ->].
  - destruct (answered_poll _ _ _ _ _ Hj Hm Ha) as [Hl [[? _]|(detail & row' & _ & Hb & Hrow' & Hs)]]; [done|].
    split; [exact Hl|]. destruct Ha as (_ & _ & _ & _ & _ & ->). right. eexists _, _. split_and!.
    + by apply reply_detail.
    + apply detail_state.
    + rewrite finalState_terminal, Hs. by simplify_option_eq.
    + done.
    + by rewrite Hb.
  - destruct (answered_poll _ _ _ _ _ Hj Hm Ha) as [Hl [[_ Hout]|(detail & row' & ? & _)]]; [|done].
    split; [exact Hl|]. left. eexists. split_and!; [|done|done]. destruct Ha as (_ & _ & _ & _ & _ & ->).
    unfold replyBody. cbv zeta. destruct (Z.ltb_spec (rp_Status response) 200); [done|].
    destruct (Z.leb_spec 300 (rp_Status response)); [done|lia].
  - split; [done|]. left. by eexists.
Qed.
End polls.
End PollTheory.

(** *** Credentials *)

Module CredentialTheory.
Section credentials.
Context `{Env}.

Ltac untouched := intros Hp; exact Hp.

Lemma setTokenUsed_held raw workerID h now d : workerHeld raw workerID d ->
  workerHeld raw workerID (with_worker_tokens (alter (setTokenUsed now) h (worker_tokens d)) d).
Proof.
  intros [(t & Ht & Hr) Hw]. split; [|exact Hw]. cbn. destruct (decide (h = sha256 raw)) as [->|].
  - rewrite lookup_alter_eq, Ht. by eexists.
  - rewrite lookup_alter_ne by done. by exists t.
Qed.

Lemma perform_worker_held raw workerID now c : obeys (preserves (workerHeld raw workerID)) (perform now c).
Proof.
  assert (Hseen : forall w request t d, workerHeld raw workerID d ->
    workerHeld raw workerID (with_workers (alter (setSeen request t) w (workers d)) d)).
  { intros w request t d [Ht Hw]. split; [exact Ht|]. cbn. by apply lookup_alter_is_Some. }
  destruct c; try solve [obey untouched].
  - obey idtac; intros [(t & Ht & Hr) Hw]; runs; split.
    + by exists t.
    + cbn. apply lookup_insert_is_Some'. by right.
    + exists t. split; [|done]. cbn. rewrite lookup_insert_ne; [done|]. intros E. destruct H2 as [Hn _]. congruence.
    + exact Hw.
  - obey idtac. intros Hh. by apply setTokenUsed_held.
  - obey ltac:(first [untouched|intros Hh; by apply Hseen]).
Qed.

Lemma held_accepted raw workerID d request : workerHeld raw workerID d ->
  bearerToken request = Some raw -> exists credential,
  requestWorker request d = Some credential /\ wc_WorkerID credential = workerID.
Proof.
  intros [(t & Ht & <- & Hr) [w Hw]] Hb. unfold requestWorker, tokenWorker. rewrite Hb. cbn [mbind option_bind].
  rewrite Ht. cbn [mbind option_bind]. rewrite Hw. cbn [mbind option_bind]. rewrite bool_decide_eq_true_2 by done.
  by eexists.
Qed.

Lemma CreateWorker_ok now name raw labels credential s s' :
  CreateWorker now name raw labels s = (Ok credential, s') -> workerHeld raw (wc_WorkerID credential) (db s').
Proof.
  unfold CreateWorker, insertWorker, insertWorkerToken. intros Hr. runs. subst credential. split; cbn.
  - eexists. split; [apply lookup_insert_eq|done].
  - by rewrite lookup_insert_eq.
Qed.

Lemma CreateAPIToken_held now name raw token s s' : CreateAPIToken now name raw s = (Ok token, s') ->
  tokenHeld (sha256 raw) token (db s').
Proof.
  intros (Hn & Hu & ->)%AuthTheory.CreateAPIToken_ok. split.
  - eexists. split; [apply lookup_insert_eq|done].
  - intros id row Hrow Hh. simpl in Hrow. apply lookup_insert_Some in Hrow as [[<- _]|[_ Hrow]]; [done|].
    by destruct (Hu _ _ Hrow).
Qed.

Lemma held_operator raw token server request d : tokenHeld (sha256 raw) token d ->
  bearerToken request = Some raw -> operatorAuthorized server request d.
Proof.
  intros [(row & Hrow & Hh & _ & _ & Hr) _] Hb. exists raw. split; [done|]. right. intros E.
  assert (Hin : (tok_ID token, row) ∈ tokenRows d (sha256 raw)) by by apply elem_of_rowsWhere.
  rewrite E in Hin. by apply elem_of_nil in Hin.
Qed.

(** What the commands print is what the store holds. *)
Lemma runToken_ok now random arguments printed s s' :
  runToken now random ("create" :: arguments) s = (Ok printed, s') ->
  exists raw token, printed = [("", raw)] /\ raw = generateSecret "lcjs_" random /\ tokenHeld (sha256 raw) token (db s').
Proof.
  unfold runToken, store_, refuse. destruct (commandFlags _ _ _) as [given|e]; [|done].
  destruct (CreateAPIToken _ _ _ s) as [[token|e] s1] eqn:E; [|done]. intros [= <- <-].
  exists (generateSecret "lcjs_" random), token. split_and!; [done..|]. by eapply CreateAPIToken_held.
Qed.

Lemma runWorkerCreate_ok now random arguments printed s s' :
  runWorkerCreate now random arguments s = (Ok printed, s') ->
  exists raw id, printed = [("LCJS_WORKER_ID", id); ("LCJS_WORKER_TOKEN", raw)] /\
    raw = generateSecret "lcjw_" random /\ workerHeld raw id (db s').
Proof.
  unfold runWorkerCreate, store_, refuse. destruct (commandFlags _ _ _) as [given|e]; [|done]. cbv zeta.
  destruct (TrimSpace _ =? "")%string; [done|].
  destruct (CreateWorker _ _ _ _ s) as [[credential|e] s1] eqn:E; [|done]. intros [= <- <-].
  exists (generateSecret "lcjw_" random), (wc_WorkerID credential). split_and!; [done..|]. by eapply CreateWorker_ok.
Qed.
End credentials.
End CredentialTheory.

Section properties.
Context `{Env} `{HttpEnv} `{DetailText} (sh : Shell).

(** C14: whatever arguments the operator gives and however the shell and the
    network answer, every request that is sent is one a job command makes or a
    redirect of such a one. What a command makes is one of the operations of the
    API (a submission of a valid specification with its key, a read, a bounded
    listing, a cancellation) whose identifier starts no new path segment, and it
    goes over HTTPS or to the loopback machine, with a token of at least 32
    bytes. A redirect goes where the reply says, over HTTPS or not, with nothing
    but what the request carried, and with the token only to that host or below
    it. *)
Theorem operator_requests_protected (fuel : nat) (arguments : list string) :
  let log := (runJob sh fuel arguments []).2 in Forall (accounted sh log) (requestsOf log).
Proof. apply (CliTheory.keeps_job sh fuel arguments []). constructor. Qed.

(** C18: waiting for a job returns, when it should: when the first k polls find
    the job not over at the control plane, and the next one finds it over (or is
    refused, or gets no reply), then with enough fuel the command has sent
    exactly k + 1 requests, slept the interval between them, and ends with the
    detail of that poll printed (or with its error). A job is over in the states
    no operation of the control plane leaves; a detail is read up to 4 MiB. *)
Theorem wait_returns `{!DetailLaws} (k fuel : nat) (server jobID : string) (interval : Z)
    (outcome : result CliError bool) (acts : list Action) :
  let request := requestTo sh "GET" server (pollPath jobID) None None in
  serverUsable sh server (pollPath jobID) -> jobID ∉ [""; "."; ".."; "/"] ->
  (forall i, (i < k)%nat -> findsRunning jobID request (sh_do sh i request)) ->
  lastPoll jobID request (sh_do sh k request) outcome acts -> (k < fuel)%nat ->
  pollJob sh fuel server jobID interval [] =
  (outcome, mjoin (replicate k [Sent request; Slept interval]) ++ Sent request :: acts).
Proof.
  intros request Hs Hj Hgo Hend Hk. apply (CliTheory.pollJob_run sh k server jobID interval outcome acts fuel [] Hs); [| |done].
  - intros i Hi. by apply (PollTheory.running_continues jobID request), Hgo.
  - by apply (PollTheory.last_stops jobID request).
Qed.

End properties.

(** ** The properties on a concrete command *)

#[local] Existing Instance demoEnv.
#[local] Instance cliHttp : HttpEnv := {
  decodeSpec text := if (text =? "job")%string then Some (demoSpec, "") else None;
  decodeSync text := None;
  errorText e := "error";
}.
#[local] Instance cliDetail : DetailText := λ text, Some text.
#[local] Instance cliLaws : DetailLaws := {
  detailBody body := match body with DetailBody detail => JobState_text (j_State (jd_Job detail)) | _ => "" end;
  statusLine _ := "200 OK";
  detail_state _ := eq_refl;
}.

(** What the control plane of the concrete run reads of a poll, and its replies:
    the first two polls find the job running, the third finds it finished. *)
Definition pollRequest : Request := demoRequestTo "GET" (pollPath demoJob) ("Bearer " +:+ bootstrap) None "".
Definition pollState (n : nat) : St := if (n <? 2)%nat then running else succeeded.
Definition pollResponse (n : nat) : Response := (ServeHTTP demoHttpServer noon pollRequest (pollState n)).1.
Definition demoShell : Shell := {|
  sh_env name := bootstrap; sh_read file := Ok "job"; sh_urlError url := "no URL"; sh_resolve base location := None;
  sh_do n r := Answered (rp_Status (pollResponse n)) (statusLine (rp_Status (pollResponse n)))
                 (rp_Location (pollResponse n)) (detailBody (rp_Body (pollResponse n))) |}.
Definition waitFor : OperatorRequest := requestTo demoShell "GET" "https://lcjs/" (pollPath demoJob) None None.

Lemma demoShell_usable : serverUsable demoShell "https://lcjs/" (pollPath demoJob).
Proof. eexists. split; [reflexivity|]. split; [vm_compute; reflexivity|]. split; [vm_compute; discriminate|by eexists]. Qed.

Lemma demoShell_answers n : answered (pollPath demoJob) waitFor (pollState n) (pollResponse n) (sh_do demoShell n waitFor).
Proof. exists demoHttpServer, noon, pollRequest. by split. Qed.

Lemma demoShell_status n : (n < 3)%nat -> rp_Status (pollResponse n) = 200.
Proof. destruct n as [|[|[|n]]]; intros Hn; [vm_compute; reflexivity..|lia]. Qed.
Lemma demoShell_readable n : (n < 3)%nat -> readable (pollResponse n).
Proof. destruct n as [|[|[|n]]]; intros Hn; [vm_compute; discriminate..|lia]. Qed.
Lemma demoShell_row s b : (λ row, terminal (jr_state row)) <$> jobs (db s) !! demoJob = Some b ->
  exists row, jobs (db s) !! demoJob = Some row /\ terminal (jr_state row) = b.
Proof. intros (row & Hb & Hrow)%fmap_Some. by exists row. Qed.
Lemma demoShell_printed : detailBody (rp_Body (pollResponse 2)) = "succeeded".
Proof. vm_compute. reflexivity. Qed.

Lemma wait_returns_witness :
  pollJob demoShell 10 "https://lcjs/" demoJob (5 * GoTime.Second) [] =
  (Ok true, [Sent waitFor; Slept (5 * GoTime.Second); Sent waitFor; Slept (5 * GoTime.Second); Sent waitFor;
             Printed ("succeeded" +:+ lineEnd)]).
Proof.
  refine (wait_returns demoShell 2 10 "https://lcjs/" demoJob (5 * GoTime.Second) (Ok true)
    [Printed ("succeeded" +:+ lineEnd)] demoShell_usable _ _ _ _).
  - apply (bool_decide_unpack _). vm_compute. exact I.
  - intros i Hi. destruct (demoShell_row (pollState i) false) as (row & Hrow & Ht); [destruct i as [|[|i]]; [vm_compute; reflexivity..|lia]|].
    exists (pollState i), (pollResponse i), row. split_and!; [exact (demoShell_answers i)|apply demoShell_status; lia|
      apply demoShell_readable; lia|exact Hrow|exact Ht].
  - destruct (demoShell_row (pollState 2) true) as (row & Hrow & Ht); [vm_compute; reflexivity|].
    rewrite <- demoShell_printed.
    exact (poll_over _ _ _ (pollState 2) (pollResponse 2) row (demoShell_answers 2) (demoShell_status 2 ltac:(lia))
      (demoShell_readable 2 ltac:(lia)) Hrow Ht).
  - lia.
Defined.

(** A redirect to the same host without TLS takes the token along, in clear. *)
Definition clearURL : URL := {| u_Scheme := "http"; u_Host := "lcjs"; u_Hostname := "lcjs"; u_User := false;
  u_Fragment := ""; u_String := "http://lcjs/api/v1/jobs/job_1" |}.
Definition redirectedEnv : Env := {|
  entropy := entropy; sha256 := sha256; specJSON := specJSON; env_unicode := env_unicode;
  urlParse s := Some {| u_Scheme := "https"; u_Host := "lcjs"; u_Hostname := "lcjs"; u_User := false;
                        u_Fragment := ""; u_String := s |} |}.
Definition redirectingShell : Shell := {|
  sh_env name := bootstrap; sh_read file := Ok "job"; sh_urlError url := "no URL";
  sh_resolve base location := Some clearURL;
  sh_do n r := if (n =? 0)%nat then Answered 302 "302 Found" "http://lcjs/api/v1/jobs/job_1" ""
               else Answered 200 "200 OK" "" "running" |}.

Lemma redirect_in_clear :
  (λ r, (or_URL r, or_Authorization r)) <$>
    requestsOf (runJob (H := redirectedEnv) redirectingShell 1 ["get"; "--server"; "https://lcjs"; "--id"; "job_1"] []).2 =
  [("https://lcjs/api/v1/jobs/job_1", "Bearer " +:+ bootstrap); ("http://lcjs/api/v1/jobs/job_1", "Bearer " +:+ bootstrap)].
Proof. vm_compute. reflexivity. Qed.

(** An identifier of two dots is not escaped. *)
Lemma dots_escape : PathEscape ".." = ".." /\ cleanPath ("/api/v1/jobs/" +:+ PathEscape ".." +:+ "/cancel") = "/api/v1/cancel".
Proof. split; vm_compute; reflexivity. Qed.

Definition demoRandom : list byte := replicate 32 x00.
Definition issued : result CliError (list (string * string)) * St :=
  runWorkerCreate t0 demoRandom ["--name"; "node"; "-label=gpu=a100"] enrolled.
Definition issuedSecret : string := generateSecret "lcjw_" demoRandom.
Definition issuedWorker : string := "wrk_04000000000000000000000000".
Definition workerRequest : Request := {|
  rq_Method := "POST"; rq_EscapedPath := "/api/v1/worker/sync"; rq_RawQuery := ""; rq_Authorization := "Bearer " +:+ issuedSecret; rq_IdempotencyKey := "";
  rq_Cookie := None; rq_Query := λ _, ""; rq_FormKey := λ _, None; rq_Body := ""; rq_ID := "req_1"; rq_Random := [] |}.

