(* ===== verification/Supervise.v ===== *)
(** * The supervisor of an attempt (cmd/lcjs/supervise.go)

    lcjs supervise starts the command of a job, waits for it and leaves its exit
    status in a file. Between any two of its actions, and in the middle of a
    write, the machine can read its files, send it a signal or stop it, so the
    command is a state machine: [supervise] takes one thing that happens. *)

From S2P Require Import Prelude Utf8 Times GoLib Encoding FloatText Ids Domain Validate Database Jobs Health Events.
From S2P Require Import Lifecycle Auth Scheduler Sync WorkerStore Agent Paths Source Executor Details Report Http Sampler Cli.

Definition superviseUsage : string := "usage: lcjs supervise --status PATH -- COMMAND [ARG...]".

(** The path of the status file, and the command with its arguments. *)
Definition superviseArguments (arguments : list string) : result CliError (string * list string) :=
  match parseFlags [("status", anyText)] arguments [] with
  | Err e => Err (FlagsError e)
  | Ok (given, command) =>
      let statusPath := flagValue "status" "" given in
      if (statusPath =? "")%string || bool_decide (command = []) then Err (Usage superviseUsage)
      else Ok (statusPath, command)
  end.

(** What process.Wait returns. *)
Inductive Exit :=
  | Success
  | ExitError (code : Z) (text : string)     (* an exec.ExitError; -1 after a signal *)
  | WaitError (text : string).

(** The status of a process that could not be started, and of one that ended. *)
Definition unstarted (now : time) (text : string) : RunStatus :=
  {| rs_ExitCode := -1; rs_Error := text; rs_FinishedAt := now |}.
Definition exitStatus (now : time) (exit : Exit) : RunStatus :=
  match exit with
  | Success => {| rs_ExitCode := 0; rs_Error := ""; rs_FinishedAt := now |}
  | ExitError code text => {| rs_ExitCode := code; rs_Error := text; rs_FinishedAt := now |}
  | WaitError text => {| rs_ExitCode := -1; rs_Error := text; rs_FinishedAt := now |}
  end.

Inductive SuperviseError :=
  | CreateStatus (reason : string)
  | WriteStatus
  | PublishStatus (reason : string).

(** json.NewEncoder(file).Encode(status), without the newline behind it. *)
Class StatusText := encodeStatus : RunStatus -> option string.

(** Where the command stands. The rest of a text that is being written is None
    when the status does not encode. *)
Inductive Stage :=
  | Starting                                          (* before process.Start *)
  | Started                                           (* before signal.Notify *)
  | Waiting                                           (* in process.Wait *)
  | Stopping (exit : Exit)                            (* before signal.Stop *)
  | Reporting (status : RunStatus)                    (* before the file is created *)
  | Writing (status : RunStatus) (rest : option string)
  | Publishing (status : RunStatus)                   (* before the rename *)
  | Over (r : result SuperviseError unit).

Inductive SupervisorSignal := Terminate | Interrupt | Kill.

#[export] Instance SupervisorSignal_eq_dec : EqDecision SupervisorSignal.
Proof. solve_decision. Defined.

(** The machine: its files, the supervisor, the signals in its channel, and
    those sent on to the job. *)
Record World := {
  w_files : gmap string string; w_stage : Stage; w_alive : bool;
  w_channel : list SupervisorSignal; w_forwarded : list SupervisorSignal;
}.

(** What happens next. *)
Inductive SupervisorEvent :=
  | Start (now : time) (failure : option string)
  | Notify
  | Signaled (s : SupervisorSignal)
  | Forward
  | Wait (exit : Exit)
  | StopSignals (now : time)
  | CreateFile (failure : option string)
  | WriteSome (n : Z)
  | CloseFile (failed : bool)
  | RenameFile (failure : option string).

Definition at_stage (s : Stage) (w : World) : World :=
  {| w_files := w_files w; w_stage := s; w_alive := w_alive w; w_channel := w_channel w; w_forwarded := w_forwarded w |}.
Definition with_files (f : gmap string string) (w : World) : World :=
  {| w_files := f; w_stage := w_stage w; w_alive := w_alive w; w_channel := w_channel w; w_forwarded := w_forwarded w |}.
(** The command has returned. *)
Definition over (r : result SuperviseError unit) (w : World) : World :=
  {| w_files := w_files w; w_stage := Over r; w_alive := false; w_channel := w_channel w; w_forwarded := w_forwarded w |}.

(** signal.Notify(signals, SIGTERM, SIGINT) is in force. *)
Definition handles (s : Stage) : bool := match s with Waiting | Stopping _ => true | _ => false end.

(** The channel keeps four signals; without a handler a signal ends the process. *)
Definition receiveSignal (s : SupervisorSignal) (w : World) : World :=
  if handles (w_stage w) && negb (bool_decide (s = Kill)) then
    {| w_files := w_files w; w_stage := w_stage w; w_alive := w_alive w;
       w_channel := if (length (w_channel w) <? 4)%nat then w_channel w ++ [s] else w_channel w;
       w_forwarded := w_forwarded w |}
  else
    {| w_files := w_files w; w_stage := w_stage w; w_alive := false; w_channel := w_channel w;
       w_forwarded := w_forwarded w |}.

Section supervise.
Context `{StatusText} (statusPath : string) (pid : Z).

Definition temporary : string := statusPath +:+ ".tmp-" +:+ decimalText pid.

(** os.O_EXCL: the file must not exist. *)
Definition writeStatus (e : SupervisorEvent) (w : World) : option World :=
  match e, w_stage w with
  | CreateFile failure, Reporting status =>
      match failure, w_files w !! temporary with
      | Some reason, _ => Some (over (Err (CreateStatus reason)) w)
      | None, Some _ => Some (over (Err (CreateStatus "file exists")) w)
      | None, None =>
          Some (at_stage (Writing status ((λ text, text +:+ lineEnd) <$> encodeStatus status))
                  (with_files (<[temporary := ""]> (w_files w)) w))
      end
  | WriteSome n, Writing status (Some rest) =>
      let written := default "" (w_files w !! temporary) in
      Some (at_stage (Writing status (Some (sliceFrom n rest)))
              (with_files (<[temporary := written +:+ sliceTo n rest]> (w_files w)) w))
  | CloseFile failed, Writing status (Some rest) =>
      if failed then Some (over (Err WriteStatus) w)
      else if (rest =? "")%string then Some (at_stage (Publishing status) w) else None
  | CloseFile _, Writing _ None => Some (over (Err WriteStatus) w)
  | RenameFile (Some reason), Publishing status => Some (over (Err (PublishStatus reason)) w)
  | RenameFile None, Publishing status =>
      data ← w_files w !! temporary;
      Some (over (Ok tt) (with_files (<[statusPath := data]> (delete temporary (w_files w))) w))
  | _, _ => None
  end.

(** One event of a supervisor that runs; None where it cannot happen now. *)
Definition supervise (e : SupervisorEvent) (w : World) : option World :=
  if negb (w_alive w) then None
  else
    match e, w_stage w with
    | Start now (Some text), Starting => Some (at_stage (Reporting (unstarted now text)) w)
    | Start _ None, Starting => Some (at_stage Started w)
    | Notify, Started => Some (at_stage Waiting w)
    | Wait exit, Waiting => Some (at_stage (Stopping exit) w)
    | StopSignals now, Stopping exit => Some (at_stage (Reporting (exitStatus now exit)) w)
    | Signaled s, _ => Some (receiveSignal s w)
    | Forward, _ =>
        match w_channel w with
        | [] => None
        | s :: rest =>
            Some {| w_files := w_files w; w_stage := w_stage w; w_alive := w_alive w; w_channel := rest;
                    w_forwarded := w_forwarded w ++ [s] |}
        end
    | _, _ => writeStatus e w
    end.

Fixpoint superviseAll (events : list SupervisorEvent) (w : World) : option World :=
  match events with
  | [] => Some w
  | e :: rest => w' ← supervise e w; superviseAll rest w'
  end.

(** The command as it begins, on a machine with some files. *)
Definition runSupervise (files : gmap string string) : World :=
  {| w_files := files; w_stage := Starting; w_alive := true; w_channel := []; w_forwarded := [] |}.
End supervise.
