(* ===== verification/SuperviseProperties.v ===== *)
(** * The supervisor: the properties

    Whatever happens to the supervisor, and whenever its machine is looked at,
    the agent concludes from the status file and the process what became of the
    job. *)

From S2P Require Import Prelude Utf8 Times GoLib Encoding FloatText Ids Domain Validate ValidateSpec Database Jobs Health Events.
From S2P Require Import Lifecycle Auth Scheduler Sync WorkerStore WorkerLog Control Agent WorkerProperties Paths Source Executor.
From S2P Require Import ExecutorLog Ingest Attempts Details Report Http Sampler Cli Supervise Scenario ExecutorScenario ExecutorProperties.

(** A status as it is read back: its error went through encoding/json. *)
Definition jsonStatus (s : RunStatus) : RunStatus :=
  {| rs_ExitCode := rs_ExitCode s; rs_Error := jsonText (rs_Error s); rs_FinishedAt := rs_FinishedAt s |}.

(** What encoding/json does with a status. *)
Class StatusCodec `{StatusText} `{ExecEnv} := {
  status_codec status text : encodeStatus status = Some text ->
    decodeStatus (text +:+ lineEnd) = Some (jsonStatus status);
}.

(** What the events say became of the job. *)
Inductive outcome (events : list SupervisorEvent) : RunStatus -> Prop :=
  | outcome_unstarted now text : Start now (Some text) ∈ events -> outcome events (unstarted now text)
  | outcome_exit exit now : Wait exit ∈ events -> StopSignals now ∈ events -> outcome events (exitStatus now exit).

(** The agent looks at the machine twice: it reads the status file in one world
    and, when there is none, asks for the process in another. *)
Record looked (statusPath : string) (pid : Z) (atFile atProcess : World) (h : Host) (command : StoredCommand) : Prop := {
  lo_path : sc_StatusPath command = statusPath;
  lo_pid : sc_PID command = pid /\ 0 < pid;
  lo_file : h_file h statusPath =
    match w_files atFile !! statusPath with None => Absent | Some data => Contents data None end;
  lo_alive : h_alive h pid = w_alive atProcess;
}.

Module SuperviseTheory.
Import MetricTheory.
Section theory.
Context `{StatusText} `{ExecEnv} (statusPath : string) (pid : Z).

Abbreviation tmp := (temporary statusPath pid).

Lemma temporary_ne : tmp <> statusPath.
Proof.
  unfold temporary. intros E. apply (f_equal (λ s, length (chars s))) in E. rewrite !chars_app, !length_app in E. cbn in E. lia.
Qed.

(** What holds in every stage. *)
Definition stageOk (events : list SupervisorEvent) (w : World) : Prop :=
  match w_stage w with
  | Starting | Started | Waiting => True
  | Stopping exit => Wait exit ∈ events
  | Reporting status => outcome events status
  | Writing status None => True
  | Writing status (Some rest) => outcome events status /\ exists text written, encodeStatus status = Some text /\
      w_files w !! tmp = Some written /\ written +:+ rest = text +:+ lineEnd
  | Publishing status => outcome events status /\ exists text, encodeStatus status = Some text /\
      w_files w !! tmp = Some (text +:+ lineEnd)
  | Over (Err _) => True
  | Over (Ok _) => exists status text, outcome events status /\ encodeStatus status = Some text /\
      w_files w !! statusPath = Some (text +:+ lineEnd)
  end.

Definition published (w : World) : Prop := exists u, w_stage w = Over (Ok u).

Record inv (events : list SupervisorEvent) (w : World) : Prop := {
  in_stage : stageOk events w;
  in_file : ~ published w -> w_files w !! statusPath = None;
  in_dead : w_alive w = false -> (exists s, Signaled s ∈ events) \/ exists r, w_stage w = Over r;
}.

Lemma outcome_more events e status : outcome events status -> outcome (events ++ [e]) status.
Proof. intros [now text Hi|exit now Hw Hs]; constructor; apply elem_of_app; by left. Qed.

Lemma last_event (events : list SupervisorEvent) e : e ∈ events ++ [e].
Proof. apply elem_of_app. right. by apply list_elem_of_singleton. Qed.

Lemma stageOk_more events e w : stageOk events w -> stageOk (events ++ [e]) w.
Proof.
  unfold stageOk. destruct (w_stage w) as [| | |exit|st|st [rest|]|st|[u|er]]; try done.
  - intros Hw. apply elem_of_app. by left.
  - apply outcome_more.
  - intros [Ho He]. split; [by apply outcome_more|done].
  - intros [Ho He]. split; [by apply outcome_more|done].
  - intros (st & text & Ho & He). exists st, text. split; [by apply outcome_more|done].
Qed.

Lemma slice_split n s : sliceTo n s +:+ sliceFrom n s = s.
Proof. unfold sliceTo, sliceFrom. by rewrite <- unchars_app, take_drop, Utf8Theory.unchars_chars. Qed.

(** A step within the command: the files stay, or only the temporary changes. *)
Lemma inv_stage events w stage files : w_alive w = true -> (~ published w -> w_files w !! statusPath = None) ->
  ~ published w -> (forall u, stage <> Over (Ok u)) -> (forall p, p <> tmp -> files !! p = w_files w !! p) ->
  stageOk events (at_stage stage (with_files files w)) -> inv events (at_stage stage (with_files files w)).
Proof.
  intros Ha Hf Hp Hno Hfiles Hs. split; [done| |cbn; congruence].
  intros _. cbn. rewrite Hfiles by exact (not_eq_sym temporary_ne). by apply Hf.
Qed.

Lemma inv_over events w e : (~ published w -> w_files w !! statusPath = None) -> ~ published w ->
  inv events (over (Err e) w).
Proof. intros Hf Hp. split; [done|intros _; by apply Hf|]. intros _. right. by eexists. Qed.

Lemma at_same stage w : at_stage stage w = at_stage stage (with_files (w_files w) w).
Proof. done. Qed.

Lemma sliceTo_all s : sliceTo (len s) s = s.
Proof. unfold sliceTo. rewrite take_ge; [apply Utf8Theory.unchars_chars|]. rewrite <- length_chars. lia. Qed.

Lemma sliceFrom_all s : sliceFrom (len s) s = "".
Proof. unfold sliceFrom. rewrite drop_ge; [done|]. rewrite <- length_chars. lia. Qed.

Lemma writeStatus_inv events e w w' : inv events w -> w_alive w = true -> writeStatus statusPath pid e w = Some w' ->
  inv (events ++ [e]) w'.
Proof.
  intros [Hs Hf _] Ha Hw. apply (stageOk_more _ e) in Hs. unfold writeStatus in Hw. unfold stageOk in Hs.
  destruct e as [| | | | | |failure|n|failed|[reason|]], (w_stage w) as [| | |exit'|st|st [rest|]|st|r] eqn:Est; try discriminate Hw;
    assert (Hp : ~ published w) by (intros [u Hu]; congruence).
  - destruct failure as [reason|]; [injection Hw as <-; by apply inv_over|].
    destruct (w_files w !! tmp) as [data|]; injection Hw as <-; [by apply inv_over|].
    apply inv_stage; [done..| |].
    + intros p Hne. by rewrite lookup_insert_ne.
    + unfold stageOk. cbn. destruct (encodeStatus st) as [text|] eqn:Et; [|done]. cbn. split; [done|].
      exists text, "". split_and!; [done|apply lookup_insert_eq|done].
  - injection Hw as <-. destruct Hs as (Ho & text & written & Et & Hw & E). apply inv_stage; [done..| |].
    + intros p Hne. by rewrite lookup_insert_ne.
    + unfold stageOk. cbn. split; [done|]. exists text, (written +:+ sliceTo n rest).
      split_and!; [done|rewrite Hw; apply lookup_insert_eq|]. by rewrite string_app_assoc, slice_split.
  - destruct failed; [injection Hw as <-; by apply inv_over|]. destruct (String.eqb_spec rest "") as [->|]; [|done].
    injection Hw as <-. destruct Hs as (Ho & text & written & Et & Hw & E). rewrite at_same. apply inv_stage; [done..|].
    unfold stageOk. cbn. split; [done|]. exists text. split; [done|]. by rewrite Hw, <- E, string_app_nil_r.
  - injection Hw as <-. by apply inv_over.
  - injection Hw as <-. by apply inv_over.
  - destruct Hs as (Ho & text & Et & Hdata). rewrite Hdata in Hw. injection Hw as <-. split.
    + exists st, text. split_and!; [done..|]. apply lookup_insert_eq.
    + intros Hn. destruct Hn. by exists tt.
    + intros _. right. by eexists.
Qed.

Lemma supervise_inv events e w w' : inv events w -> supervise statusPath pid e w = Some w' -> inv (events ++ [e]) w'.
Proof.
  intros Hi Hw. unfold supervise in Hw. destruct (w_alive w) eqn:Ha; [|discriminate Hw]. cbn [negb] in Hw.
  pose proof (last_event events e) as He. pose proof Hi as [Hs Hf _]. apply (stageOk_more _ e) in Hs.
  destruct e as [now [text|]| |s| |exit|now|failure|n|failed|failure];
    try (eapply writeStatus_inv; [exact Hi|exact Ha|]; destruct (w_stage w); exact Hw).
  4: { injection Hw as <-. unfold receiveSignal. destruct (_ && _); split; cbn; [exact Hs|exact Hf|congruence|exact Hs|exact Hf|].
       intros _. left. by exists s. }
  4: { destruct (w_channel w); [done|]. injection Hw as <-. split; cbn; [exact Hs|exact Hf|congruence]. }
  all: unfold stageOk in Hs; destruct (w_stage w) as [| | |exit'|st|st rest|st|r] eqn:Est; try discriminate Hw;
    assert (Hp : ~ published w) by (intros [u Hu]; congruence); injection Hw as <-; rewrite at_same;
    apply inv_stage; try done.
  - by apply (outcome_unstarted _ now).
  - by apply (outcome_exit _ exit').
Qed.

Lemma superviseAll_inv before events w w' : inv before w -> superviseAll statusPath pid events w = Some w' ->
  inv (before ++ events) w'.
Proof.
  revert before w. induction events as [|e events IH]; intros before w Hi Hw.
  - injection Hw as <-. by rewrite app_nil_r.
  - cbn in Hw. destruct (supervise statusPath pid e w) as [w1|] eqn:E; [|done].
    rewrite cons_middle, (assoc_L (++)). eapply IH; [|exact Hw]. by eapply supervise_inv.
Qed.

Lemma reached_inv events files w : files !! statusPath = None ->
  superviseAll statusPath pid events (runSupervise files) = Some w -> inv events w.
Proof. intros Hn. apply (superviseAll_inv []). by split. Qed.

(** Nothing is at the path of the status until the status is. *)
Lemma file_published events w data : inv events w -> w_files w !! statusPath = Some data -> w_stage w = Over (Ok tt).
Proof.
  intros [_ Hf _] Hd. destruct (w_stage w) as [| | | | | | |[[]|e]] eqn:Est; try done.
  all: rewrite Hf in Hd; [discriminate Hd|]; intros [u Hu]; congruence.
Qed.

(** A live supervisor has not returned, and nothing has killed it. *)
Definition live (events : list SupervisorEvent) (w : World) : Prop :=
  w_alive w = true -> (forall r, w_stage w <> Over r) /\ Signaled Kill ∉ events.

Lemma live_more events e w w' : live events w -> w_alive w = true -> e <> Signaled Kill ->
  (w_alive w' = true -> forall r, w_stage w' <> Over r) -> live (events ++ [e]) w'.
Proof.
  intros Hl Ha He Hs Ha'. split; [by apply Hs|]. destruct (Hl Ha) as [_ Hk].
  intros [Hi|Hi%list_elem_of_singleton]%elem_of_app; [done|congruence].
Qed.

Lemma signal_live events s w : live events w -> w_alive w = true -> live (events ++ [Signaled s]) (receiveSignal s w).
Proof.
  intros Hl Ha. destruct (Hl Ha) as [Hs _]. unfold receiveSignal. destruct (handles (w_stage w)); [|intros [=]].
  destruct (decide (s = Kill)) as [->|Hk]; [intros [=]|]. rewrite bool_decide_eq_false_2 by done.
  apply (live_more _ _ w); [done|done|congruence|done].
Qed.

Lemma writeStatus_live e w w' : w_alive w = true -> (forall r, w_stage w <> Over r) ->
  writeStatus statusPath pid e w = Some w' -> w_alive w' = true -> forall r, w_stage w' <> Over r.
Proof.
  intros Ha Hs Hw Ha' r Hr. unfold writeStatus in Hw.
  destruct e as [| | | | | |failure|n|failed|[reason|]], (w_stage w) as [| | |exit'|st|st [rest|]|st|r'] eqn:Est; try discriminate Hw;
    repeat (case_match; try discriminate Hw); try (injection Hw as <-; discriminate).
  destruct (w_files w !! tmp); [|discriminate Hw]. injection Hw as <-. discriminate.
Qed.

Lemma supervise_live events e w w' : live events w -> supervise statusPath pid e w = Some w' -> live (events ++ [e]) w'.
Proof.
  intros Hl Hw. unfold supervise in Hw. destruct (w_alive w) eqn:Ha; [|discriminate Hw]. cbn [negb] in Hw.
  destruct (Hl Ha) as [Hs _]. pose proof (writeStatus_live e w w' Ha Hs) as Hwrite.
  destruct e as [now [text|]| |s| |exit|now|failure|n|failed|failure]; cycle 3.
  { replace w' with (receiveSignal s w) by (destruct (w_stage w); congruence). by apply signal_live. }
  { apply (live_more _ _ w); [done..|]. destruct (w_channel w); [done|]. injection Hw as <-. by intros _. }
  all: apply (live_more _ _ w); [done..|].
  all: destruct (w_stage w) eqn:Est; solve [injection Hw as <-; discriminate|by apply Hwrite].
Qed.

Lemma superviseAll_live before events w w' : live before w -> superviseAll statusPath pid events w = Some w' ->
  live (before ++ events) w'.
Proof.
  revert before w. induction events as [|e events IH]; intros before w Hl Hw.
  - injection Hw as <-. by rewrite app_nil_r.
  - cbn in Hw. destruct (supervise statusPath pid e w) as [w1|] eqn:E; [|done].
    rewrite cons_middle, (assoc_L (++)). eapply IH; [|exact Hw]. by eapply supervise_live.
Qed.

Lemma superviseAll_app before later w : superviseAll statusPath pid (before ++ later) w =
  superviseAll statusPath pid before w ≫= superviseAll statusPath pid later.
Proof.
  revert w. induction before as [|e before IH]; intros w; [done|]. cbn.
  destruct (supervise statusPath pid e w); [apply IH|done].
Qed.

Lemma reached_live events files w : superviseAll statusPath pid events (runSupervise files) = Some w -> live events w.
Proof. apply (superviseAll_live []). intros _. split; [done|apply not_elem_of_nil]. Qed.
End theory.
End SuperviseTheory.

Section properties.
Context `{StatusCodec}.


(** A supervisor that nothing disturbs. *)
Definition undisturbed (started ended : time) (exit : Exit) (text : string) : list SupervisorEvent :=
  [Start started None; Notify; Wait exit; StopSignals ended; CreateFile None; WriteSome (len (text +:+ lineEnd));
   CloseFile false; RenameFile None].

End properties.

(** ** A concrete supervisor *)

#[local] Existing Instance demoEnv.

Definition demoEnded : RunStatus := exitStatus t0 Success.
Definition demoKilled : RunStatus := exitStatus t0 (ExitError (-1) "signal: terminated").
#[local] Instance demoStatus : StatusText := λ s,
  if decide (rs_ExitCode s = 0 /\ rs_Error s = "" /\ rs_FinishedAt s = t0) then Some "exit 0"
  else if decide (rs_ExitCode s = -1 /\ rs_Error s = "signal: terminated" /\ rs_FinishedAt s = t0) then Some "killed"
  else None.
#[local] Instance demoReader : ExecEnv := {
  decodeSample _ := None;
  decodeStatus data :=
    if (data =? "exit 0" +:+ lineEnd)%string then Some demoEnded
    else if (data =? "killed" +:+ lineEnd)%string then Some demoKilled else None;
  Quote s := s;
}.
#[local] Instance demoCodec : StatusCodec.
Proof.
  split. intros [code text now] out. unfold encodeStatus, demoStatus. cbn [rs_ExitCode rs_Error rs_FinishedAt].
  case_decide as Hd; [destruct Hd as (-> & -> & ->); intros [= <-]; reflexivity|].
  case_decide as Hd2; [destruct Hd2 as (-> & -> & ->); intros [= <-]; reflexivity|done].
Qed.


Definition statusFile : string := sc_StatusPath launchedCommand.
Definition hostOf (w w' : World) : Host :=
  let host := demoHost t0 (λ path, match w_files w !! path with None => Absent | Some data => Contents data None end) in
  {| h_clock := h_clock host; h_file := h_file host; h_alive := λ _, w_alive w'; h_glob := h_glob host;
     h_regular := h_regular host; h_copy := h_copy host; h_mkdir := h_mkdir host; h_openLog := h_openLog host;
     h_executable := h_executable host; h_start := h_start host; h_environ := h_environ host |}.
Definition worldAfter (events : list SupervisorEvent) : World :=
  default (runSupervise ∅) (superviseAll statusFile 4711 events (runSupervise ∅)).

(** A canceled job: the signal is forwarded, the status is being written. *)
Definition canceledRun : list SupervisorEvent :=
  [Start t0 None; Notify; Signaled Terminate; Forward; Wait (ExitError (-1) "signal: terminated"); StopSignals t0;
   CreateFile None; WriteSome 3].
Definition canceledRest : list SupervisorEvent := [WriteSome 4; CloseFile false; RenameFile None].

Lemma hostOf_looked w w' : looked statusFile 4711 w w' (hostOf w w') launchedCommand.
Proof. by split; [|split; [vm_compute|]| |]. Qed.


(** A job whose command looks like flags. *)
Definition dashedCommand : WorkerCommand := {|
  k_CommandID := "cmd_1"; k_AttemptID := "att_1"; k_AttemptNumber := 2; k_Kind := WorkerCommandRunJob;
  k_Job := (λ j, {| j_ID := j_ID j; j_State := j_State j; j_Revision := j_Revision j; j_CreatedAt := j_CreatedAt j;
    j_UpdatedAt := j_UpdatedAt j; j_Spec := {|
      s_Project := "physics"; s_Name := "train"; s_Priority := 0;
      s_Source := s_Source keepingSpec; s_Command := ["--status"; "--"; "-h"];
      s_Environment := ∅; s_SecretRefs := ∅; s_Resources := demoResources; s_Labels := ∅;
      s_Retry := s_Retry keepingSpec; s_Checkpoint := None; s_Artifacts := []; s_Metrics := []; s_Health := [] |} |})
    <$> k_Job keepingCommand;
  k_LeaseExpiresAt := 0 |}.


(** The signals are stopped before the status is on disk: a termination that
    arrives in between, as a canceled attempt gets one every cycle, ends the
    supervisor, and the agent reports it as vanished although the job exited. *)
Lemma termination_loses_status :
  let w := worldAfter [Start t0 None; Notify; Wait Success; StopSignals t0; Signaled Terminate] in
  w_alive w = false /\ fateOf (hostOf w w) launchedCommand = Some Vanished.
Proof. split; vm_compute; reflexivity. Qed.

(** A job that nothing disturbs is reported as vanished when its status is
    published between the two looks. *)
Lemma published_between_looks :
  let before := worldAfter (take 7 (undisturbed t0 t0 Success "exit 0")) in
  let after := worldAfter (undisturbed t0 t0 Success "exit 0") in
  fateOf (hostOf before before) launchedCommand = Some StillRunning /\
  fateOf (hostOf after after) launchedCommand = Some (Ended demoEnded) /\
  fateOf (hostOf before after) launchedCommand = Some Vanished.
Proof. repeat split; vm_compute; reflexivity. Qed.
