(* ===== verification/Texts.v ===== *)
(** * The texts of what the agent and the control plane exchange

    The strings in a request, in a response and in the databases they come
    from. encoding/json carries a string over when it is valid UTF-8, so the
    exchange is exact where all of these are; every string the program stores
    or makes is. *)

From S2P Require Import Prelude Utf8 Times GoLib Ids Domain Validate Database Jobs Health Events.
From S2P Require Import Lifecycle Auth Scheduler Sync WorkerStore WorkerLog Control Agent History AuthProperties SyncProperties.

(** ** The strings of a value *)

Definition mapTexts (m : gmap string string) : list string := map_to_list m ≫= λ nv, [nv.1; nv.2].
Definition sourceTexts (s : Source) : list string := [src_GitURL s; src_Commit s; src_OCIImage s].
Definition metricTexts (m : MetricDefinition) : list string :=
  [m_Name m; m_DisplayName m; m_Format m; m_Unit m; m_Objective m] ++
  (m_ReferenceLines m ≫= λ l, [rl_Label l; rl_Kind l]).
Definition healthTexts (p : HealthPolicy) : list string :=
  [hp_Kind p; hp_Metric p; hp_Mode p; hp_Window p; hp_Action p; hp_Target p].
Definition specTexts (s : JobSpec) : list string :=
  [s_Project s; s_Name s] ++ sourceTexts (s_Source s) ++ s_Command s ++ mapTexts (s_Environment s) ++
  mapTexts (s_SecretRefs s) ++ (g_Sharing <$> r_GPUs (s_Resources s)) ++ mapTexts (s_Labels s) ++
  [rp_LostWorker (s_Retry s)] ++
  match s_Checkpoint s with None => [] | Some c => cp_Glob c :: cp_ResumeCommand c end ++
  (s_Artifacts s ≫= λ a, [ar_Name a; ar_Glob a]) ++ (s_Metrics s ≫= metricTexts) ++ (s_Health s ≫= healthTexts).
Definition jobTexts (j : Job) : list string := j_ID j :: specTexts (j_Spec j).
Definition commandTexts (k : WorkerCommand) : list string :=
  [k_CommandID k; k_AttemptID k; k_Kind k] ++ match k_Job k with None => [] | Some j => jobTexts j end.
Definition responseTexts (p : WorkerSyncResponse) : list string := p_Commands p ≫= commandTexts.

Definition artifactTexts (a : ArtifactAnnouncement) : list string := [aa_Name a; aa_URI a; aa_SHA256 a; aa_Content a].
Definition eventTexts (e : WorkerEvent) : list string :=
  [e_EventID e; e_AttemptID e; e_Kind e; e_Error e; e_LogURI e; e_LogTail e] ++
  match e_Git e with None => [] | Some g => [gs_Commit g; gs_Branch g] end ++
  match e_Metric e with None => [] | Some m => [ms_Name m] end ++ (e_Artifacts e ≫= artifactTexts).
Definition capacityTexts (c : WorkerCapacity) : list string := mapTexts (c_Labels c) ++ c_Projects c.
Definition requestTexts (q : WorkerSyncRequest) : list string :=
  [q_WorkerID q; q_SessionID q; q_AgentVersion q] ++ capacityTexts (q_Capacity q) ++ (q_Events q ≫= eventTexts).

Definition valid (texts : list string) : Prop := Forall (λ s, utf8Valid s = true) texts.

Definition asciiOnly (s : string) : Prop := Forall (λ c, (N_of_ascii c <= 127)%N) (chars s).

(** The databases hold valid texts where a response or a request takes them from. *)
Definition textJob (id : string) (j : JobRow) : Prop := asciiOnly id /\ valid (specTexts (jr_spec j)).
Definition textAttempt (id : string) (a : AttemptRow) : Prop := asciiOnly id /\ asciiOnly (at_command_id a).
Definition textDB (d : DB) : Prop := map_Forall textJob (jobs d) /\ map_Forall textAttempt (attempts d).
Definition textWorker (d : WorkerDB) : Prop := Forall (λ r, valid (eventTexts (ob_event r))) (outbox d).

(** A submission hands over the strings of its specification. *)
Definition callTexts (c : Call) : Prop :=
  match c with CallCreateJob _ spec => valid (specTexts spec) | _ => True end.

Module TextTheory.
Import Utf8.

Lemma valid_app l1 l2 : valid (l1 ++ l2) <-> valid l1 /\ valid l2.
Proof. apply Forall_app. Qed.

Lemma valid_bind {A} (f : A -> list string) l : valid (l ≫= f) <-> Forall (λ x, valid (f x)) l.
Proof. apply Forall_bind. Qed.

(** *** What encoding/json leaves of a string is valid *)

Lemma runeSize_prefix s t n : runeSize s = Some n -> runeSize (take n s ++ t) = Some n.
Proof.
  unfold runeSize. destruct s as [|c0 s]; [done|]. intros Hn. repeat case_in Hn; try done; injection Hn as <-; cbn [take app].
  all: repeat match goal with H : ?b = _ |- context [?b] => rewrite H end; try reflexivity.
Qed.

Lemma coerce_validates fuel s n : (length s <= fuel)%nat -> (length (coerce fuel s) <= n)%nat ->
  validFrom n (coerce fuel s) = true.
Proof.
  revert s n. induction fuel as [|fuel IH]; intros s n Hl Hn; [by destruct s, n|].
  destruct s as [|c s]; [by destruct n|]. cbn [coerce] in *.
  destruct (runeSize (c :: s)) as [k|] eqn:E.
  - pose proof (Utf8Theory.runeSize_bound _ _ E) as Hk. pose proof (runeSize_prefix _ (coerce fuel (drop k (c :: s))) _ E) as Hp.
    assert (Ht : length (take k (c :: s)) = k) by (rewrite length_take; lia).
    rewrite length_app, Ht in Hn. destruct n as [|n]; [lia|]. cbn [validFrom].
    destruct (take k (c :: s) ++ _) eqn:Ea; [by destruct n|]. rewrite Hp, <- Ea.
    rewrite drop_app_length' by done. apply IH; [rewrite length_drop; cbn in *; lia|lia].
  - rewrite length_app in Hn. destruct n as [|n]; [cbn in Hn; lia|]. cbn [validFrom replacement app].
    assert (Er : runeSize (replacement ++ coerce fuel s) = Some 3%nat).
    { change (replacement ++ coerce fuel s) with (take 3 replacement ++ coerce fuel s). by apply runeSize_prefix. }
    unfold replacement in Er. cbn [app] in Er. rewrite Er. cbn [drop]. apply IH; cbn in *; lia.
Qed.

Lemma jsonText_utf8 s : utf8Valid (jsonText s) = true.
Proof.
  unfold utf8Valid, jsonText. rewrite Utf8Theory.chars_unchars. apply coerce_validates; [by rewrite Utf8Theory.chars_length|].
  rewrite <- (Utf8Theory.chars_length (unchars _)), Utf8Theory.chars_unchars. lia.
Qed.

Lemma jsonEvent_valid e : valid (eventTexts (jsonEvent e)).
Proof.
  unfold eventTexts. cbn. repeat (apply Forall_cons; split; [apply jsonText_utf8|]). apply valid_app. split.
  - destruct (e_Git e); cbn; repeat constructor; apply jsonText_utf8.
  - apply valid_app. split; [destruct (e_Metric e); cbn; repeat constructor; apply jsonText_utf8|].
    apply valid_bind, Forall_fmap. apply Forall_forall. intros a _. repeat constructor; apply jsonText_utf8.
Qed.

(** *** Identifiers *)

Lemma ascii_valid s : asciiOnly s -> utf8Valid s = true.
Proof.
  unfold asciiOnly, utf8Valid. rewrite <- Utf8Theory.chars_length. generalize (chars s). clear s. intros l Hl.
  induction Hl as [|c l Hc _ IH]; [done|]. cbn [length validFrom]. unfold runeSize.
  assert (Hr : inRange 0 127 c = true).
  { unfold inRange, code. apply andb_true_intro. split; apply N.leb_le; [apply N.le_0_l|done]. }
  rewrite Hr. exact IH.
Qed.

Lemma asciiOnly_app a b : asciiOnly (a +:+ b) <-> asciiOnly a /\ asciiOnly b.
Proof.
  unfold asciiOnly. assert (E : chars (a +:+ b) = chars a ++ chars b).
  { induction a as [|c a IH]; [done|]. rewrite string_app_cons. cbn. by rewrite IH. }
  by rewrite E, Forall_app.
Qed.

Lemma New_ascii prefix random i : asciiOnly prefix -> New prefix random = Ok i -> asciiOnly i.
Proof.
  intros Hp. unfold New. destruct (_ || _); [done|]. intros [= <-]. rewrite !asciiOnly_app.
  split; [done|]. split; [by repeat constructor|]. rewrite IdsTheory.encode_lower. unfold asciiOnly, Base32.EncodeToString.
  rewrite Utf8Theory.chars_unchars. apply Forall_fmap, Forall_forall. intros n _. unfold compose, Base32.symbol.
  destruct (nth_in_or_default n Base32.alphabet "0"%char) as [Hin| ->]; [|done].
  revert Hin. generalize (nth n Base32.alphabet "0"%char). apply List.Forall_forall.
  apply (bool_decide_unpack _). vm_compute. exact I.
Qed.

(** *** The control plane keeps its texts valid *)

Definition keepsText : relation DB := λ d d', textDB d -> textDB d'.
#[global] Instance keepsText_preorder : PreOrder keepsText.
Proof. unfold keepsText. split; [intros d; done|]. intros d1 d2 d3. auto. Qed.

Lemma text_job id row d : asciiOnly id -> valid (specTexts (jr_spec row)) ->
  keepsText d (with_jobs (<[id := row]> (jobs d)) d).
Proof. intros Hi Hv [Hj Ha]. split; [|exact Ha]. apply map_Forall_insert_2; [by split|exact Hj]. Qed.

Lemma text_attempt id row d : asciiOnly id -> asciiOnly (at_command_id row) ->
  keepsText d (with_attempts (<[id := row]> (attempts d)) d).
Proof. intros Hi Hv [Hj Ha]. split; [exact Hj|]. apply map_Forall_insert_2; [by split|exact Ha]. Qed.

Lemma Forall_alter {A} (P : string -> A -> Prop) f i (m : gmap string A) : (forall x, P i x -> P i (f x)) ->
  map_Forall P m -> map_Forall P (alter f i m).
Proof.
  intros Hf Hm j x. rewrite lookup_alter_Some. intros [(<- & y & Hy & ->)|[_ Hx]]; [by apply Hf, Hm|by apply Hm].
Qed.

Lemma text_alter_job f id d : (forall j, jr_spec (f j) = jr_spec j) -> keepsText d (with_jobs (alter f id (jobs d)) d).
Proof. intros Hf [Hj Ha]. split; [|exact Ha]. apply Forall_alter; [|exact Hj]. intros x. unfold textJob. by rewrite Hf. Qed.

Lemma text_alter_attempt f id d : (forall a, at_command_id (f a) = at_command_id a) ->
  keepsText d (with_attempts (alter f id (attempts d)) d).
Proof. intros Hf [Hj Ha]. split; [exact Hj|]. apply Forall_alter; [|exact Ha]. intros x. unfold textAttempt. by rewrite Hf. Qed.

Section server.
Context `{Env}.

Lemma obeys_newID_bind {A} R `{!PreOrder R} prefix (k : string -> Act A) : asciiOnly prefix ->
  (forall id, asciiOnly id -> obeys R (k id)) -> obeys R (newID prefix ≫= k).
Proof.
  intros Hp Hk s. unfold newID, mbind, M_bind. destruct (New prefix _) as [i|e] eqn:E; [|reflexivity].
  exact (Hk i (New_ascii _ _ _ Hp E) {| db := db s; draws := S (draws s) |}).
Qed.

Ltac text_leaf :=
  first [ by (intros Hd; exact Hd)
        | apply text_job; assumption | apply text_attempt; assumption
        | apply text_alter_job; intros []; by repeat case_match
        | apply text_alter_attempt; by intros [] ].
Ltac text_obey :=
  repeat first
    [ match goal with
      | |- obeys _ (newID _ ≫= _) => apply obeys_newID_bind; [apply _|by repeat constructor|intros ? ?]
      end
    | obey_step text_leaf ].

Lemma perform_text now c : callTexts c -> obeys keepsText (perform now c).
Proof. intros Hc. destruct c; simpl in Hc; text_obey.
Qed.

(** The commands of a response are made from the rows. *)
Lemma command_texts d w k : textDB d -> runsOffered d w k \/ stopsCanceled d w k -> valid (commandTexts k).
Proof.
  intros [Hj Ha] [(id & a & j & job & Hat & _ & _ & Hjob & Ek & Ec & Ei & _ & Eo & Ejob & _ & _ & Es)|(id & a & j & Hat & _ & _ & _ & _ & ->)];
    destruct (Ha _ _ Hat) as [Hi Hc]; unfold commandTexts.
  - destruct (Hj _ _ Hjob) as [Hji Hs]. rewrite Ek, Ec, Ei, Eo. unfold jobTexts. rewrite Ejob, Es. unfold valid. cbn [app].
    repeat first [exact Hs | apply Forall_cons; split; [first [by apply ascii_valid|reflexivity]|]].
  - unfold valid. cbn [app cancelCommand k_CommandID k_AttemptID k_Kind k_Job].
    apply Forall_cons; split; [|repeat (apply Forall_cons; split; [first [by apply ascii_valid|reflexivity]|]); by apply Forall_nil].
    apply ascii_valid, asciiOnly_app. split; [exact Hc|by repeat constructor].
Qed.

Lemma SyncWorker_text now w request : obeys keepsText (SyncWorker now w request).
Proof. text_obey. Qed.

Lemma response_texts now w request s s' response : textDB (db s) ->
  SyncWorker now w request s = (Ok response, s') -> valid (responseTexts response).
Proof.
  intros Ht Hr. pose proof (SyncWorker_text now w request s Ht) as Ht'. rewrite Hr in Ht'.
  destruct (sync_commands _ _ _ _ _ _ Hr) as [Hall _]. apply valid_bind. eapply Forall_impl; [exact Hall|].
  intros k. by apply command_texts.
Qed.
End server.

(** *** The agent keeps its texts valid *)

Section worker.
Context `{WorkerEnv}.

Definition keepsWorkerText : relation WorkerDB := λ d d', textWorker d -> textWorker d'.
#[global] Instance keepsWorkerText_preorder : PreOrder keepsWorkerText.
Proof. unfold keepsWorkerText. split; [intros d; done|]. intros d1 d2 d3. auto. Qed.

Lemma append_text e text d : keepsWorkerText d (appendOutbox (jsonEvent e) text d).
Proof. intros Hd. apply Forall_app. split; [exact Hd|]. apply Forall_singleton, jsonEvent_valid. Qed.

Lemma drop_text through d :
  keepsWorkerText d (with_outbox (filter (λ r, through < ob_sequence r) (outbox d)) d).
Proof.
  intros Hd. apply Forall_forall. intros r [_ Hr]%list_elem_of_filter. unfold textWorker in Hd. rewrite Forall_forall in Hd.
  by apply Hd.
Qed.

Lemma workerPerform_text c : wobeys keepsWorkerText (workerPerform c).
Proof.
  destruct c; wobey ltac:(first [apply append_text | by (intros Hd; exact Hd) | apply drop_text]).
Qed.

(** A request made from the store. *)
Lemma cycleRequest_texts config session s request : textWorker (wdb s) -> utf8Valid session = true ->
  valid ([cf_WorkerID config; cf_Version config] ++ capacityTexts (cf_Capacity config)) ->
  (cycleRequest config session s).1 = Ok request -> valid (requestTexts request).
Proof.
  intros Hw Hs Hc. unfold cycleRequest, WorkerEvents. rewrite wquery_run. intros [= <-].
  apply Forall_cons in Hc as [Hid [Hv Hc]%Forall_cons]. unfold requestTexts. cbn [q_WorkerID q_SessionID q_AgentVersion q_Capacity q_Events syncRequest].
  repeat (apply Forall_cons; split; [done|]). apply Forall_app. split; [exact Hc|]. apply valid_bind, Forall_fmap, Forall_take.
  eapply Forall_impl; [exact Hw|]. done.
Qed.
End worker.
End TextTheory.
