(* ===== verification/Exchange.v ===== *)
(** * The deployed program: the agent and the control plane over HTTP

    (internal/worker/agent.go cycle, internal/httpapi/server.go)

    The agent sends its request as the JSON body of a POST with its token, the
    server authenticates it, decodes it and syncs, and the agent decodes what
    comes back. The deployment is one agent and the control plane with everybody
    else who uses it: operators, browsers, other workers, the automation runner
    and the commands that open the database directly. It is a run of the system
    of Agent.v, so what is proved of every run of that system holds of the
    deployed program. *)

From S2P Require Import Prelude Utf8 Times GoLib Encoding Ids Domain Validate ValidateSpec Database Jobs Health Events.
From S2P Require Import Lifecycle Auth Scheduler Sync WorkerStore WorkerLog Control Agent Scenario History.
From S2P Require Import SyncProperties WorkerProperties AgentProperties Paths Source Executor ExecutorLog.
From S2P Require Import ExecutorScenario Details Report Http HttpLog HttpProperties Automation AutomationProperties Texts.
From Stdlib Require Import Strings.Byte.
Import ExecTheory.

(** ** The texts of bodies *)

(** json.Marshal of a request, which fails on a float or a time it cannot write;
    the bytes the server writes for a body; and decoding the first JSON value of
    a response. *)
Class SyncText := {
  encodeSync : WorkerSyncRequest -> option string;
  bodyText : Body -> string;
  decodeResponse : string -> option WorkerSyncResponse;
}.

(** What encoding/json promises: a value whose strings are valid UTF-8 is read
    back from the text it was written as; and a decoder, whatever it is given,
    makes strings that are valid UTF-8. *)
Class SyncTextLaws `{HttpEnv} `{SyncText} := {
  request_read q text : encodeSync q = Some text -> valid (requestTexts q) -> decodeSync text = Some (q, "");
  response_read p n p' : decodeResponse (String.substring 0 n (bodyText (SyncBody p))) = Some p' ->
    valid (responseTexts p) -> p' = p;
  spec_texts body spec rest : decodeSpec body = Some (spec, rest) -> valid (specTexts spec);
}.

(** ** One exchange *)

(** What becomes of a request: it is lost, its response is lost, or both arrive. *)
Inductive Network := RequestLost | ResponseLost | Delivered.

(** What the server reads of the agent's request; the identifier and the random
    bytes are the server's. *)
Definition syncHTTP (config : AgentConfig) (body requestID : string) (random : list byte) : Request := {|
  rq_Method := "POST"; rq_EscapedPath := "/api/v1/worker/sync"; rq_RawQuery := ""; rq_Authorization := bearer +:+ cf_Token config;
  rq_IdempotencyKey := ""; rq_Cookie := None; rq_Query := λ _, ""; rq_FormKey := λ _, None;
  rq_Body := body; rq_ID := requestID; rq_Random := random |}.

(** io.LimitReader(response.Body, 4<<20) *)
Definition maxResponseBody : Z := 4 * 2 ^ 20.
Definition limited (limit : Z) (text : string) : string := String.substring 0 (Z.to_nat limit) text.

Section exchange.
Context `{Env} `{HttpEnv} `{SyncText} (server : Server) (config : AgentConfig).

(** What the agent makes of a response. *)
Definition readResponse (response : Response) : option WorkerSyncResponse :=
  if rp_Status response =? 200 then decodeResponse (limited maxResponseBody (bodyText (rp_Body response))) else None.

Definition exchange (net : Network) (clock : Clock) (requestID : string) (random : list byte)
    (s : St) (request : WorkerSyncRequest) : option WorkerSyncResponse * St :=
  match encodeSync request with
  | None => (None, s)
  | Some body =>
      let '(response, s') := ServeHTTP server clock (syncHTTP config body requestID random) s in
      match net with
      | RequestLost => (None, s)
      | ResponseLost => (None, s')
      | Delivered => (readResponse response, s')
      end
  end.
End exchange.

(** ** The deployment *)

Section deployment.
Context `{Env} `{WorkerEnv} `{GitEnv} `{ExecEnv} `{HttpEnv} `{SyncText} `{PayloadText}.
Context (server : Server) (config : AgentConfig).

Record Machine := { mc_server : St; mc_agent : Exec; mc_session : string }.

Definition sysOf (m : Machine) : Sys :=
  {| y_server := mc_server m; y_worker := x_store (mc_agent m); y_session := mc_session m |}.

(** A cycle of the agent over some exchange. *)
Definition cycleOver (send : St -> WorkerSyncRequest -> option WorkerSyncResponse * St) (h : Host) (m : Machine)
    : Machine :=
  {| mc_server := match (prepareSync h config (mc_session m) (mc_agent m)).1 with
                  | Ok request => (send (mc_server m) request).2
                  | Err _ => mc_server m
                  end;
     mc_agent := (cycle h config (mc_session m) (λ request, (send (mc_server m) request).1) (mc_agent m)).2;
     mc_session := mc_session m |}.

Definition withServer (s : St) (m : Machine) : Machine :=
  {| mc_server := s; mc_agent := mc_agent m; mc_session := mc_session m |}.

(** A new process of the agent: what it kept in memory is gone. *)
Definition restarted (session : string) (m : Machine) : Machine :=
  {| mc_server := mc_server m; mc_session := session;
     mc_agent := {| x_store := x_store (mc_agent m); x_ticks := x_ticks (mc_agent m); x_repo := x_repo (mc_agent m);
                    x_samplers := ∅; x_sweep := ∅; x_hash := ∅; x_launches := x_launches (mc_agent m);
                    x_signals := x_signals (mc_agent m) |} |}.

(** The calls of the commands that open the database of the control plane. *)
Definition commandCall (c : Call) : Prop :=
  match c with CallCreateWorker _ _ _ | CallCreateWebhookTarget _ _ _ | CallCreateAPIToken _ _ => True | _ => False end.

(** The session of a process: one the control plane has not seen of this worker. *)
Definition freshSession (session : string) (m : Machine) : Prop :=
  (exists random, New "ses" random = Ok session) /\
  Forall (λ r, we_worker_id r = cf_WorkerID config -> we_session_id r <> session) (worker_events (db (mc_server m))).

(** Anyone but the agent sends a request, with any token that is not one of its
    worker; the agent does a cycle; the automation runner does one; a command is
    run on the database; the agent is started again. *)
Inductive deployStep : Machine -> Machine -> Prop :=
  | dp_request m clock request : clockOk clock ->
      (forall credential, requestWorker request (db (mc_server m)) = Some credential ->
         wc_WorkerID credential <> cf_WorkerID config) ->
      deployStep m (withServer (ServeHTTP server clock request (mc_server m)).2 m)
  | dp_cycle m net clock requestID random h : clockOk clock ->
      deployStep m (cycleOver (exchange server config net clock requestID random) h m)
  | dp_automation m clock client : years clock ->
      deployStep m (withServer (Cycle clock client (mc_server m)).2 m)
  | dp_command m now c : GoTime.fourDigitYear now -> commandCall c ->
      deployStep m (withServer (perform now c (mc_server m)).2 m)
  | dp_restart m session : freshSession session m -> deployStep m (restarted session m).

(** A new installation: both databases are empty, and the agent is started; no
    process was started yet. *)
Definition installed (m : Machine) : Prop :=
  mc_server m = initial /\ x_store (mc_agent m) = workerInitial /\ x_launches (mc_agent m) = [] /\
  exists random, New "ses" random = Ok (mc_session m).

(** The strings of the configuration that go into a request. *)
Definition configTexts : list string :=
  [cf_WorkerID config; cf_Version config] ++ capacityTexts (cf_Capacity config).
End deployment.
