(* ===== verification/ExchangeProperties.v ===== *)
(** * The deployed program: the properties

    Every run of the deployment is a run of the system of one agent and the
    control plane; so no event is lost and no attempt is started twice; and an
    exchange that can get through does. *)

From S2P Require Import Prelude Utf8 Times GoLib Encoding Ids Domain Validate ValidateSpec Database Jobs Health Events.
From S2P Require Import Lifecycle Auth Scheduler Sync WorkerStore WorkerLog Control Agent Scenario History.
From S2P Require Import SyncProperties WorkerProperties AgentProperties Paths Source Executor ExecutorLog.
From S2P Require Import Launches ExecutorProperties ExecutorScenario Details Report Http HttpLog HttpProperties.
From S2P Require Import Automation AutomationProperties Texts Exchange.
From Stdlib Require Import Strings.Byte.
Import ExecTheory.

Module ExchangeTheory.
Section theory.
Context `{Env} `{WorkerEnv} `{GitEnv} `{ExecEnv} `{HttpEnv} `{SyncText} `{PayloadText}.
Context `{!HttpLaws} `{!SyncTextLaws} (server : Server) (config : AgentConfig).

Abbreviation w := (cf_WorkerID config).

(** *** Calls for others *)

Definition othersCall (c : Call) : Prop := callWorker c <> Some w /\ callTexts c.
Definition others : relation St := rtc (allowedStep othersCall).

Lemma plain_others c : plainCall c -> othersCall c.
Proof. by destruct c. Qed.

Lemma decoded_others key text spec rest : decodeSpec text = Some (spec, rest) -> othersCall (CallCreateJob key spec).
Proof. intros Hd. split; [done|]. exact (spec_texts _ _ _ Hd). Qed.

Lemma others_text s s' : others s s' -> textDB (db s) -> textDB (db s').
Proof.
  induction 1 as [|s1 s2 s3 Hs _ IH]; [done|]. intros Ht. apply IH. destruct Hs as [s now c _ _ [_ Hc]].
  by apply TextTheory.perform_text.
Qed.

Lemma others_sys session worker s s' : others s s' ->
  rtc (sysStep config) {| y_server := s; y_worker := worker; y_session := session |}
    {| y_server := s'; y_worker := worker; y_session := session |}.
Proof.
  induction 1 as [|s1 s2 s3 Hs _ IH]; [reflexivity|]. eapply rtc_l; [|exact IH]. destruct Hs as [s now c Hy Ht [Hc _]].
  by apply (sys_server config {| y_server := s; y_worker := worker; y_session := session |} now c).
Qed.

(** *** The exchange over HTTP *)

(** An exchange is a sync, or none, behind calls for others; and what the agent
    learns is what the sync answered. *)
Definition syncs (now : time) (request : WorkerSyncRequest) (s : St) (r : option WorkerSyncResponse * St) : Prop :=
  exists s1, others s s1 /\
  (r = (None, s1) \/
   (r.2 = (SyncWorker now w request s1).2 /\ forall p, r.1 = Some p -> (SyncWorker now w request s1).1 = Ok p)).

Lemma dispatch_sync clock request : rq_Method request = "POST" -> rq_Path request = syncPath ->
  dispatch server clock request = workerSync clock request.
Proof. intros Hm Hp. rewrite (HttpTheory.dispatch_plain clock server request _ Hp eq_refl). unfold routed. by rewrite Hm, Hp. Qed.

Lemma workerSync_syncs clock body requestID random request s : clockOk clock -> textDB (db s) ->
  q_WorkerID request = w -> decodeSync body = Some (request, "") ->
  let r := workerSync clock (syncHTTP config body requestID random) s in
  syncs (clock 1%nat) request s (readResponse r.1, r.2).
Proof.
  intros Hc Ht Hw Hd. unfold workerSync.
  rewrite (HttpTheory.bearerToken_of (syncHTTP config body requestID random) (cf_Token config) eq_refl), call_run.
  set (s1 := (AuthenticateWorkerToken (clock 0%nat) (cf_Token config) s).2).
  assert (Hs1 : others s s1).
  { unfold others, s1. rewrite <- HttpTheory.ignore_state. apply rtc_once.
    by apply (allowed_step othersCall s (clock 0%nat) (CallAuthenticateWorkerToken (cf_Token config)) (proj1 (Hc 0%nat)) I). }
  destruct (AuthenticateWorkerToken (clock 0%nat) (cf_Token config) s).1 as [credential|e]; cbn zeta.
  2: { exists s1. split; [exact Hs1|]. left. by destruct e. }
  assert (Hnone : forall status code message, status <> 200 ->
    syncs (clock 1%nat) request s (readResponse (answer (writeError status code message) s1).1, (answer (writeError status code message) s1).2)).
  { intros status code message Hne. exists s1. split; [exact Hs1|]. left. unfold readResponse. simpl.
    by destruct (Z.eqb_spec status 200). }
  destruct (decodeOne maxSyncBody decodeSync _) as [q| |] eqn:Eq; [|by apply Hnone..].
  rewrite (HttpTheory.decodeOne_whole _ _ _ _ _ Hd Eq). destruct (String.eqb_spec (q_WorkerID request) (wc_WorkerID credential))
    as [Ew|_]; [|by apply Hnone]. cbn [negb]. destruct (_ || _); [by apply Hnone|].
  rewrite call_run, <- Ew, Hw. exists s1. split; [exact Hs1|]. right.
  destruct (SyncWorker (clock 1%nat) w request s1) as [[p|e] s2] eqn:Es; (split; [done|]); [|done].
  intros p' Hp. unfold readResponse, limited in Hp. cbn [fst snd answer writeJSON respond rp_Status rp_Body Z.eqb Pos.eqb] in Hp.
  assert (p' = p) as ->; [|done]. eapply response_read; [exact Hp|]. eapply TextTheory.response_texts; [|exact Es].
  by eapply others_text.
Qed.

Lemma exchange_syncs net clock requestID random request s : clockOk clock -> textDB (db s) ->
  q_WorkerID request = w -> valid (requestTexts request) ->
  syncs (clock 1%nat) request s (exchange server config net clock requestID random s request).
Proof.
  intros Hc Ht Hw Hv. unfold exchange. destruct (encodeSync request) as [body|] eqn:Ee.
  2: { exists s. split; [apply rtc_refl|by left]. }
  pose proof (workerSync_syncs clock body requestID random request s Hc Ht Hw (request_read _ _ Ee Hv)) as Hs.
  unfold ServeHTTP. rewrite dispatch_sync by done. cbv zeta in Hs.
  destruct (workerSync clock (syncHTTP config body requestID random) s) as [r s'].
  destruct net; [exists s; split; [apply rtc_refl|by left]| |exact Hs].
  destruct Hs as (s1 & Hs1 & [[= _ ->]|[E _]]); exists s1; (split; [exact Hs1|]); [by left|]. right. by split.
Qed.

Lemma syncs_text now request s r : syncs now request s r -> textDB (db s) -> textDB (db r.2).
Proof.
  intros (s1 & Hs1 & Hr) Ht%(others_text _ _ Hs1). destruct Hr as [->|[-> _]]; [done|]. by apply TextTheory.SyncWorker_text.
Qed.

(** *** A cycle, and the deployment *)

(** A cycle over an exchange that syncs is a run of the system. *)
Lemma cycleOver_run now send h m : GoTime.fourDigitYear now ->
  (forall request, (cycleRequest config (mc_session m) (x_store (prepareSync h config (mc_session m) (mc_agent m)).2)).1 = Ok request ->
     syncs now request (mc_server m) (send (mc_server m) request)) ->
  rtc (sysStep config) (sysOf m) (sysOf (cycleOver config send h m)).
Proof.
  intros Hnow Hsend. unfold cycleOver, sysOf. cbn [mc_server mc_agent mc_session].
  destruct (prepareSync_request config h (mc_session m) (mc_agent m)) as [Hl Hreq].
  etrans; [apply (local_sys config (mc_server m) (mc_session m) _ _ Hl)|]. unfold cycle, mbind, M_bind.
  destruct (prepareSync h config (mc_session m) (mc_agent m)) as [[request|e] x1]; [|reflexivity].
  cbn [fst snd] in *. specialize (Hreq request eq_refl). destruct (Hsend request Hreq) as (s1 & Hs1 & Hr). clear Hsend.
  etrans; [apply (others_sys (mc_session m) (x_store x1) _ _ Hs1)|].
  set (y := {| y_server := s1; y_worker := x_store x1; y_session := mc_session m |}).
  destruct (send (mc_server m) request) as [o s']. cbn [fst snd] in *.
  destruct Hr as [[= -> ->]|[-> Ho]]; [reflexivity|]. destruct o as [response|].
  - destruct (finishSync_run config h response x1) as [clock Hf]. specialize (Ho response eq_refl).
    eapply rtc_l; [exact (sys_exchange config y now clock request response Hnow Hreq Ho)|].
    pose proof (local_sys config (SyncWorker now w request s1).2 (mc_session m) _ _ Hf) as Hr.
    by destruct (finishSync h config response x1) as [[delay|e] x2].
  - apply rtc_once. exact (sys_response_lost config y now request Hnow Hreq).
Qed.

Lemma sysStep_text y y' : sysStep config y y' -> textWorker (wdb (y_worker y)) -> textWorker (wdb (y_worker y')).
Proof.
  intros Hs Ht. destruct Hs as [| y c _ | | y now clock request response | ]; try exact Ht; cbn [y_worker].
  - by apply TextTheory.workerPerform_text.
  - pose proof (TextTheory.workerPerform_text (WCallAccept clock (p_Commands response)) _ Ht) as H1'.
    unfold receiveResponse. cbn [workerPerform] in H1'. unfold mbind, M_bind.
    destruct (AcceptCommands clock (p_Commands response) (y_worker y)) as [[[]|e] s1]; [|exact H1'].
    exact (TextTheory.workerPerform_text (WCallAcknowledge (p_AcceptedThrough response)) s1 H1').
Qed.

(** Valid texts everywhere. *)
Record textMachine (m : Machine) : Prop := {
  tm_server : textDB (db (mc_server m));
  tm_worker : textWorker (wdb (x_store (mc_agent m)));
  tm_session : utf8Valid (mc_session m) = true /\ mc_session m <> "";
}.

Lemma New_session random session : New "ses" random = Ok session -> utf8Valid session = true /\ session <> "".
Proof.
  intros En. split; [|intros ->; discriminate En].
  apply TextTheory.ascii_valid. eapply TextTheory.New_ascii; [|exact En]. by repeat constructor.
Qed.

Lemma installed_text m : installed m -> textMachine m.
Proof.
  intros (Es & Ew & _ & random & En). split; [|by rewrite Ew; constructor|by eapply New_session].
  rewrite Es. split; intros i x Hx; discriminate Hx.
Qed.

Context (Hconfig : valid (configTexts config)).

Lemma cycle_sends net clock requestID random h m request : clockOk clock -> textMachine m ->
  (cycleRequest config (mc_session m) (x_store (prepareSync h config (mc_session m) (mc_agent m)).2)).1 = Ok request ->
  syncs (clock 1%nat) request (mc_server m) (exchange server config net clock requestID random (mc_server m) request).
Proof.
  intros Hc [Hd Hw [Hs _]] Hr. destruct (prepareSync_request config h (mc_session m) (mc_agent m)) as [Hl _].
  set (x := (prepareSync h config (mc_session m) (mc_agent m)).2) in *.
  assert (Hw' : textWorker (wdb (x_store x))).
  { clear - Hl Hw. induction Hl as [|s1 s2 s3 (c & _ & ->) _ IH]; [done|]. apply IH. by apply TextTheory.workerPerform_text. }
  apply exchange_syncs; [done|done| |by eapply TextTheory.cycleRequest_texts].
  unfold cycleRequest, WorkerEvents in Hr. rewrite wquery_run in Hr. by injection Hr as <-.
Qed.

(** What is done for others leaves the agent as it is. *)
Lemma withServer_run s m : others (mc_server m) s -> textMachine m ->
  rtc (sysStep config) (sysOf m) (sysOf (withServer s m)) /\ textMachine (withServer s m).
Proof.
  intros Ho [Hd Hw Hs]. split; [by apply others_sys|]. split; [|done..]. by eapply others_text.
Qed.

Lemma deployStep_run m m' : deployStep server config m m' -> textMachine m ->
  rtc (sysStep config) (sysOf m) (sysOf m') /\ textMachine m'.
Proof.
  intros Hs Ht. destruct Hs as [m clock request Hc Ho|m net clock requestID random h Hc|m clock client Hc|m now c Hy Hcmd|m session [[random En] Hf]].
  - apply withServer_run; [|done]. apply HttpTheory.serve_allowed; [done|apply plain_others|apply decoded_others|].
    intros credential sync Hcr. split; [|done]. simpl. intros [= E]. by eapply Ho.
  - pose proof (cycle_sends net clock requestID random h m) as Hsend.
    pose proof (cycleOver_run (clock 1%nat) (exchange server config net clock requestID random) h m (proj1 (Hc 1%nat))
      (λ request, Hsend request Hc Ht)) as Hrun.
    split; [exact Hrun|]. destruct Ht as [Hd Hw Hs]. split; [| |done].
    + cbn [cycleOver mc_server]. destruct (prepareSync_request config h (mc_session m) (mc_agent m)) as [_ Hreq].
      destruct (prepareSync h config (mc_session m) (mc_agent m)).1 as [request|e] eqn:Ep; [|done].
      eapply syncs_text; [apply Hsend; [done|by split|by apply Hreq]|done].
    + clear Hsend. assert (Hw' : textWorker (wdb (y_worker (sysOf m)))) by exact Hw. revert Hw'.
      change (x_store (mc_agent (cycleOver config (exchange server config net clock requestID random) h m)))
        with (y_worker (sysOf (cycleOver config (exchange server config net clock requestID random) h m))).
      induction Hrun as [|y1 y2 y3 Hs1 _ IH]; [done|]. intros H1'. by eapply IH, sysStep_text.
  - apply withServer_run; [|done]. eapply allowed_weaken; [apply plain_others|]. by apply AutomationTheory.cycle_plain.
  - apply withServer_run; [|done]. apply rtc_once. apply allowed_step; [done|by destruct c|]. by destruct c.
  - split; [apply rtc_once; by apply (sys_restart config (sysOf m) session)|]. destruct Ht as [Hd Hw _].
    split; [done..|by eapply New_session].
Qed.

Lemma deploySteps_run m m' : rtc (deployStep server config) m m' -> textMachine m ->
  rtc (sysStep config) (sysOf m) (sysOf m') /\ textMachine m'.
Proof.
  induction 1 as [|m1 m2 m3 Hs _ IH]; intros Ht; [by split|]. destruct (deployStep_run _ _ Hs Ht) as [Hr Ht2].
  destruct (IH Ht2) as [Hr' Ht3]. split; [by etrans|done].
Qed.

(** *** What the agent stores and starts *)

(** Whatever the body of a request, the commands of an answer are valid texts. *)
Lemma answer_texts clock body requestID random s p : textDB (db s) -> clockOk clock ->
  readResponse (workerSync clock (syncHTTP config body requestID random) s).1 = Some p -> valid (responseTexts p).
Proof.
  intros Ht Hc. unfold workerSync.
  rewrite (HttpTheory.bearerToken_of (syncHTTP config body requestID random) (cf_Token config) eq_refl), call_run.
  assert (Ht1 : textDB (db (AuthenticateWorkerToken (clock 0%nat) (cf_Token config) s).2)).
  { rewrite <- HttpTheory.ignore_state.
    exact (TextTheory.perform_text (clock 0%nat) (CallAuthenticateWorkerToken (cf_Token config)) I s Ht). }
  destruct (AuthenticateWorkerToken (clock 0%nat) (cf_Token config) s) as [[credential|e] s1]; cbn [fst snd] in *.
  2: { unfold readResponse. by destruct e. }
  destruct (decodeOne maxSyncBody decodeSync _) as [q| |]; [|done..]. destruct (negb _); [done|]. destruct (_ || _); [done|].
  rewrite call_run. destruct (SyncWorker _ _ q s1) as [[p0|e] s2] eqn:Es; [|done]. unfold readResponse, limited. simpl. intros Hp.
  pose proof (TextTheory.response_texts _ _ _ _ _ _ Ht1 Es) as Hv. by rewrite (response_read _ _ _ Hp Hv).
Qed.

Lemma exchange_texts net clock requestID random s request p : textDB (db s) -> clockOk clock ->
  (exchange server config net clock requestID random s request).1 = Some p -> valid (responseTexts p).
Proof.
  intros Ht Hc. unfold exchange. destruct (encodeSync request) as [body|]; [|done].
  pose proof (answer_texts clock body requestID random s) as Ha. unfold ServeHTTP. rewrite dispatch_sync by done.
  destruct (workerSync clock (syncHTTP config body requestID random) s) as [r s']. destruct net; [done|done|].
  by apply Ha.
Qed.

Lemma response_attempts p : valid (responseTexts p) -> Forall (λ k, utf8Valid (k_AttemptID k) = true) (p_Commands p).
Proof.
  intros Hv%TextTheory.valid_bind. eapply Forall_impl; [exact Hv|]. intros k Hk. unfold commandTexts, valid in Hk.
  apply Forall_app in Hk as [Hk _]. apply Forall_cons in Hk as [_ Hk]. by apply Forall_cons in Hk as [Hk _].
Qed.

Definition agentOk (m : Machine) : Prop := WorkerInv (wdb (x_store (mc_agent m))) /\ LaunchInv (mc_agent m).

Lemma deployStep_agent m m' : deployStep server config m m' -> textMachine m -> agentOk m -> agentOk m'.
Proof.
  intros Hs Ht Ha. destruct Hs as [m clock request Hc Ho|m net clock requestID random h Hc|m clock client Hc|m now c Hy Hcmd|m session Hf];
    try exact Ha; [|destruct Ha as [Hw [Hl Hl']]; by split].
  eapply ExecInvariants.agentSteps_inv; [|exact Ha]. apply rtc_once. apply agent_step. intros request response Hr.
  apply response_attempts. eapply exchange_texts; [apply (tm_server m Ht)|exact Hc|exact Hr].
Qed.

Lemma deploySteps_agent m m' : rtc (deployStep server config) m m' -> textMachine m -> agentOk m -> agentOk m'.
Proof.
  induction 1 as [|m1 m2 m3 Hs _ IH]; intros Ht Ha; [done|].
  apply IH; [by apply (deployStep_run _ _ Hs)|by apply (deployStep_agent _ _ Hs)].
Qed.

Lemma installed_agent m : installed m -> agentOk m.
Proof.
  intros (_ & Ew & El & _). split; [rewrite Ew; apply WorkerLifecycle.winv_empty|]. split; rewrite El; constructor.
Qed.

(** *** An exchange that gets through *)

Lemma exchange_through clock requestID random request body credential p s s' : 
  encodeSync request = Some body -> valid (requestTexts request) -> len body <= maxSyncBody ->
  q_WorkerID request = w -> q_SessionID request <> "" -> (length (q_Events request) <= 1000)%nat ->
  tokenWorker (db s) (sha256 (cf_Token config)) = Some credential -> wc_WorkerID credential = w ->
  SyncWorker (clock 1%nat) w request (AuthenticateWorkerToken (clock 0%nat) (cf_Token config) s).2 = (Ok p, s') ->
  exchange server config Delivered clock requestID random s request =
    (decodeResponse (limited maxResponseBody (bodyText (SyncBody p))), s').
Proof.
  intros He Hv Hl Hw Hses Hn Htok Hcr Hs. unfold exchange. rewrite He. unfold ServeHTTP. rewrite dispatch_sync by done.
  unfold workerSync. rewrite (HttpTheory.bearerToken_of (syncHTTP config body requestID random) (cf_Token config) eq_refl), call_run.
  assert (Hok : (AuthenticateWorkerToken (clock 0%nat) (cf_Token config) s).1 = Ok credential)
    by (unfold AuthenticateWorkerToken; by rewrite query_run, Htok).
  rewrite Hok. cbn [rq_Body syncHTTP]. rewrite (HttpTheory.decodeOne_fits _ _ _ _ (request_read _ _ He Hv) Hl), Hw, Hcr, String.eqb_refl.
  cbn [negb]. apply String.eqb_neq in Hses. rewrite Hses. destruct (Nat.ltb_spec 1000 (length (q_Events request))); [lia|].
  cbn [orb]. rewrite call_run, Hs. reflexivity.
Qed.
End theory.
End ExchangeTheory.

(** ** The properties *)

Section properties.
Context `{Env} `{WorkerEnv} `{GitEnv} `{ExecEnv} `{HttpEnv} `{SyncText} `{PayloadText}.
Context `{!HttpLaws} `{!SyncTextLaws} (server : Server) (config : AgentConfig).

(** C6: The deployed program - HTTP requests of anyone, cycles of the agent over
    HTTP on any network, the automation runner, commands on the database and
    restarts - is a run of the system of one agent and the control plane: what
    holds of every run of the system holds of the program. *)
Theorem deployment_refines (m m' : Machine) :
  valid (configTexts config) -> installed m -> rtc (deployStep server config) m m' ->
  rtc (sysStep config) (sysInitial (mc_session m)) (sysOf m').
Proof.
  intros Hc Hi Hs. pose proof (ExchangeTheory.installed_text m Hi) as Ht.
  destruct (ExchangeTheory.deploySteps_run server config Hc m m' Hs Ht) as [Hr _]. destruct Hi as (Es & Ew & _).
  unfold sysOf at 1 in Hr. by rewrite Es, Ew in Hr.
Qed.

(** C2: No event is lost: in the deployed program, whatever the network drops,
    however often the agent is started again and whatever others ask of the
    control plane, an event that was ever in the outbox is still there or has
    been recorded by the control plane for this worker. *)
Theorem deployment_loses_no_event (m m1 m2 : Machine) (row : OutboxRow) :
  valid (configTexts config) -> installed m ->
  rtc (deployStep server config) m m1 -> row ∈ outbox (wdb (x_store (mc_agent m1))) ->
  rtc (deployStep server config) m1 m2 ->
  row ∈ outbox (wdb (x_store (mc_agent m2))) \/
  recordedAt (db (mc_server m2)) (cf_WorkerID config) (e_EventID (ob_event row)).
Proof.
  intros Hc Hi Hs1 Hrow Hs2. pose proof (ExchangeTheory.installed_text m Hi) as Ht.
  destruct (ExchangeTheory.deploySteps_run server config Hc m m1 Hs1 Ht) as [Hr1 Ht1].
  destruct (ExchangeTheory.deploySteps_run server config Hc m1 m2 Hs2 Ht1) as [Hr2 _]. destruct Hi as (Es & Ew & _).
  unfold sysOf at 1 in Hr1. rewrite Es, Ew in Hr1. apply AgentTheory.sysReachable_inv in Hr1.
  exact (AgentTheory.sysSteps_safe config row _ _ Hr1 Hrow Hr2).
Qed.

(** C4: No attempt is started twice: in the deployed program the processes that
    were started and recorded belong to distinct commands, each of which has left
    the pending state. *)
Theorem deployment_launches_once (m m' : Machine) :
  valid (configTexts config) -> installed m -> rtc (deployStep server config) m m' ->
  NoDup (ln_CommandID <$> filter (λ l, ln_Recorded l = true) (x_launches (mc_agent m'))) /\
  Forall (λ l, ln_Recorded l = true -> exists row,
    commands (wdb (x_store (mc_agent m'))) !! ln_CommandID l = Some row /\ cm_state row <> CommandPending)
    (x_launches (mc_agent m')).
Proof.
  intros Hc Hi Hs. destruct (ExchangeTheory.deploySteps_agent server config Hc m m' Hs) as [_ [? ?]];
    [by apply ExchangeTheory.installed_text|by apply ExchangeTheory.installed_agent|done].
Qed.

(** C23: An exchange gets through: when the request fits the limit of the server,
    the token is that of the agent's worker and the sync succeeds, then the
    server is where the sync left it, the up to one thousand oldest events of the
    outbox are recorded there, and what the agent reads is the answer of the sync
    or nothing at all. *)
Theorem exchange_gets_through (m m' : Machine) (clock : Clock) (requestID : string) (random : list byte)
    (request : WorkerSyncRequest) (body : string) (credential : WorkerCredential) (p : WorkerSyncResponse) (s' : St) :
  valid (configTexts config) -> installed m -> rtc (deployStep server config) m m' ->
  (cycleRequest config (mc_session m') (x_store (mc_agent m'))).1 = Ok request ->
  encodeSync request = Some body -> len body <= maxSyncBody ->
  tokenWorker (db (mc_server m')) (sha256 (cf_Token config)) = Some credential ->
  wc_WorkerID credential = cf_WorkerID config ->
  SyncWorker (clock 1%nat) (cf_WorkerID config) request
    (AuthenticateWorkerToken (clock 0%nat) (cf_Token config) (mc_server m')).2 = (Ok p, s') ->
  exists o, exchange server config Delivered clock requestID random (mc_server m') request = (o, s') /\
    (o = Some p \/ o = None) /\
    o = decodeResponse (limited maxResponseBody (bodyText (SyncBody p))) /\
    Forall (λ r, recordedAt (db s') (cf_WorkerID config) (e_EventID (ob_event r)))
      (take 1000 (outbox (wdb (x_store (mc_agent m'))))).
Proof.
  intros Hc Hi Hs Hreq He Hl Htok Hcr Hsync. pose proof (ExchangeTheory.installed_text m Hi) as Ht.
  destruct (ExchangeTheory.deploySteps_run server config Hc m m' Hs Ht) as [_ [Hd Hw [Hv Hses]]].
  pose proof (TextTheory.cycleRequest_texts _ _ _ _ Hw Hv Hc Hreq) as Hq.
  assert (Hn : q_WorkerID request = cf_WorkerID config /\ q_SessionID request = mc_session m' /\
    (length (q_Events request) <= 1000)%nat).
  { unfold cycleRequest, WorkerEvents in Hreq. rewrite wquery_run in Hreq. injection Hreq as <-. split_and!; [done..|].
    cbn. rewrite length_fmap, length_take. lia. }
  destruct Hn as (Hwid & Hsid & Hn).
  eexists. split; [eapply (ExchangeTheory.exchange_through server config clock _ _ request body credential p); try done; by rewrite ?Hsid|]. split; [|split; [done|]].
  - destruct (decodeResponse _) as [p'|] eqn:Er; [left|by right]. unfold limited in Er.
    f_equal. eapply response_read; [exact Er|]. eapply TextTheory.response_texts; [|exact Hsync].
    rewrite <- HttpTheory.ignore_state.
    exact (TextTheory.perform_text (clock 0%nat) (CallAuthenticateWorkerToken (cf_Token config)) I _ Hd).
  - eapply Forall_impl; [exact (AgentTheory.exchange_records config _ _ _ _ _ _ _ Hreq Hsync)|].
    intros r Hr. eapply AgentTheory.recordedEventID_at. exact Hr.
Qed.
End properties.

(** ** The properties on a concrete deployment *)

#[local] Existing Instance demoEnv.
#[local] Existing Instance demoWorkerEnv.
#[local] Existing Instance demoGit.
#[local] Existing Instance demoExec.

#[local] Instance GitState_eq_dec : EqDecision GitState.
Proof. solve_decision. Defined.
#[local] Instance MetricSample_eq_dec : EqDecision MetricSample.
Proof. solve_decision. Defined.
#[local] Instance Announcement_eq_dec : EqDecision ArtifactAnnouncement.
Proof. solve_decision. Defined.
#[local] Instance WorkerEvent_eq_dec : EqDecision WorkerEvent.
Proof. solve_decision. Defined.
#[local] Instance WorkerCapacity_eq_dec : EqDecision WorkerCapacity.
Proof. solve_decision. Defined.
#[local] Instance SyncRequest_eq_dec : EqDecision WorkerSyncRequest.
Proof. solve_decision. Defined.
#[local] Instance SyncResponse_eq_dec : EqDecision WorkerSyncResponse.
Proof. solve_decision. Defined.

Definition deployedSession : string := "ses_00000000000000000000000000".

(** The first two requests and responses, from the stores alone. *)
Definition requestOf (x : Exec) : WorkerSyncRequest :=
  match (prepareSync bareHost demoConfig deployedSession x).1 with Ok q => q | Err _ => demoSync [] end.
Definition syncOf (s : St) (q : WorkerSyncRequest) : WorkerSyncResponse * St :=
  match SyncWorker t0 demoWorker q s with (Ok p, s') => (p, s') | (Err _, s') => (cancelResponse, s') end.
Definition request1 : WorkerSyncRequest := requestOf agentStarted.
Definition response1 : WorkerSyncResponse := (syncOf submitted request1).1.
Definition agentAfter1 : Exec := (cycle bareHost demoConfig deployedSession (λ _, Some response1) agentStarted).2.
Definition request2 : WorkerSyncRequest := requestOf agentAfter1.
Definition response2 : WorkerSyncResponse := (syncOf (syncOf submitted request1).2 request2).1.

(** A format that can write two requests and two responses. *)
Definition formatHttp (q1 q2 : WorkerSyncRequest) : HttpEnv := {|
  decodeSpec text := if (text =? "job")%string then Some (demoSpec, "") else None;
  decodeSync text := if (text =? "1")%string then Some (q1, "")
                     else if (text =? "2")%string then Some (q2, "") else None;
  errorText e := "error" |}.
Definition formatText (q1 q2 : WorkerSyncRequest) (p1 p2 : WorkerSyncResponse) : SyncText := {|
  encodeSync q := if decide (q = q1) then Some "1" else if decide (q = q2) then Some "2" else None;
  bodyText b := match b with
                | SyncBody p => if decide (p = p1) then "1" else if decide (p = p2) then "2" else ""
                | _ => ""
                end;
  decodeResponse text := if (text =? "1")%string then Some p1
                         else if (text =? "2")%string then Some p2 else None |}.

Lemma formatHttp_laws q1 q2 : @HttpLaws (formatHttp q1 q2).
Proof. split. intros body spec rest. simpl. destruct (_ =? _)%string; [|done]. intros [= <- _]. exact demoSpec_typed. Qed.

Lemma demoSpec_texts : valid (specTexts demoSpec).
Proof. apply (bool_decide_unpack _). vm_compute. exact I. Qed.

Lemma formatText_laws q1 q2 p1 p2 : @SyncTextLaws (formatHttp q1 q2) (formatText q1 q2 p1 p2).
Proof.
  split; cbn [encodeSync bodyText decodeResponse formatText decodeSync decodeSpec formatHttp].
  - intros q text. destruct (decide (q = q1)) as [->|_]; [by intros [= <-]|].
    destruct (decide (q = q2)) as [->|_]; [|done]. by intros [= <-].
  - intros p n p'. destruct (decide (p = p1)) as [->|_]; [destruct n as [|[|n]]; by intros [= <-]|].
    destruct (decide (p = p2)) as [->|_]; destruct n as [|[|n]]; by intros [= <-].
  - intros body spec rest. destruct (_ =? _)%string; [|done]. intros [= <- _]. exact demoSpec_texts.
Qed.

#[local] Instance deployHttp : HttpEnv := formatHttp request1 request2.
#[local] Instance deployHttpLaws : HttpLaws := formatHttp_laws _ _.
#[local] Instance deployText : SyncText := formatText request1 request2 response1 response2.
#[local] Instance deployTextLaws : SyncTextLaws := formatText_laws _ _ _ _.
#[local] Instance deployPayload : PayloadText := λ _, "payload".

Definition machine0 : Machine := {| mc_server := initial; mc_agent := agentStarted; mc_session := deployedSession |}.
Definition machine1 : Machine := withServer (perform t0 callEnroll initial).2 machine0.
Definition machine2 : Machine := withServer (ServeHTTP demoHttpServer noon submission (mc_server machine1)).2 machine1.
Definition delivered (m : Machine) : Machine :=
  cycleOver demoConfig (exchange demoHttpServer demoConfig Delivered noon "req_1" []) bareHost m.
Definition machine3 : Machine := delivered machine2.
Definition machine4 : Machine := delivered machine3.

Example machines : (length (outbox (wdb (x_store (mc_agent machine3)))), length (x_launches (mc_agent machine3)),
   length (outbox (wdb (x_store (mc_agent machine4)))), length (worker_events (db (mc_server machine4)))) = (2, 1, 0, 2)%nat.
Proof. vm_compute. reflexivity. Qed.

Lemma machine0_installed : installed machine0.
Proof. repeat split. by exists (replicate 16 x00). Qed.

Lemma demoConfig_texts : valid (configTexts demoConfig).
Proof. apply (bool_decide_unpack _). vm_compute. exact I. Qed.

Lemma delivered_step m : deployStep demoHttpServer demoConfig m (delivered m).
Proof. exact (dp_cycle demoHttpServer demoConfig m Delivered noon "req_1" [] bareHost noon_ok). Qed.

Lemma machine2_reached : rtc (deployStep demoHttpServer demoConfig) machine0 machine2.
Proof.
  apply (rtc_l _ _ machine1); [exact (dp_command demoHttpServer demoConfig machine0 t0 callEnroll t0_year I)|].
  apply rtc_once. refine (dp_request demoHttpServer demoConfig machine1 noon submission noon_ok _).
  intros credential E. exfalso. vm_compute in E. discriminate E.
Qed.
Lemma machine3_reached : rtc (deployStep demoHttpServer demoConfig) machine0 machine3.
Proof. eapply rtc_r; [exact machine2_reached|apply delivered_step]. Qed.

Lemma deployment_refines_witness : rtc (sysStep demoConfig) (sysInitial deployedSession) (sysOf machine3).
Proof. exact (deployment_refines demoHttpServer demoConfig machine0 machine3 demoConfig_texts machine0_installed machine3_reached). Defined.

Definition launchedRow : OutboxRow :=
  default acceptedRow (last (outbox (wdb (x_store (mc_agent machine3))))).

Lemma launchedRow_in : launchedRow ∈ outbox (wdb (x_store (mc_agent machine3))).
Proof.
  unfold launchedRow. destruct (last (outbox _)) as [r|] eqn:E; [|exfalso; vm_compute in E; discriminate E].
  by apply last_Some_elem_of.
Qed.

Lemma deployment_loses_no_event_witness : length (outbox (wdb (x_store (mc_agent machine4)))) = 0%nat /\
  (launchedRow ∈ outbox (wdb (x_store (mc_agent machine4))) \/
   recordedAt (db (mc_server machine4)) demoWorker (e_EventID (ob_event launchedRow))).
Proof.
  split; [vm_compute; reflexivity|].
  exact (deployment_loses_no_event demoHttpServer demoConfig machine0 machine3 machine4 launchedRow demoConfig_texts
    machine0_installed machine3_reached launchedRow_in (rtc_once _ _ (delivered_step machine3))).
Defined.

Lemma deployment_launches_once_witness : length (x_launches (mc_agent machine3)) = 1%nat /\
  NoDup (ln_CommandID <$> filter (λ l, ln_Recorded l = true) (x_launches (mc_agent machine3))) /\
  Forall (λ l, ln_Recorded l = true -> exists row,
    commands (wdb (x_store (mc_agent machine3))) !! ln_CommandID l = Some row /\ cm_state row <> CommandPending)
    (x_launches (mc_agent machine3)).
Proof.
  split; [vm_compute; reflexivity|].
  exact (deployment_launches_once demoHttpServer demoConfig machine0 machine3 demoConfig_texts machine0_installed machine3_reached).
Defined.

(** The second exchange, from the state the first one left. *)
Definition server4 : St :=
  (SyncWorker t0 demoWorker request2 (AuthenticateWorkerToken t0 demoToken (mc_server machine3)).2).2.

Lemma exchange_gets_through_witness : exists o,
  exchange demoHttpServer demoConfig Delivered noon "req_1" [] (mc_server machine3) request2 = (o, server4) /\
  (o = Some response2 \/ o = None) /\
  o = decodeResponse (limited maxResponseBody (bodyText (SyncBody response2))) /\
  Forall (λ r, recordedAt (db server4) demoWorker (e_EventID (ob_event r)))
    (take 1000 (outbox (wdb (x_store (mc_agent machine3))))).
Proof.
  apply (exchange_gets_through demoHttpServer demoConfig machine0 machine3 noon "req_1" [] request2 "2"
    {| wc_WorkerID := demoWorker; wc_Name := "box" |} response2 server4 demoConfig_texts machine0_installed machine3_reached).
  - vm_compute. reflexivity.
  - vm_compute. reflexivity.
  - vm_compute. discriminate.
  - vm_compute. reflexivity.
  - reflexivity.
  - assert (E : (SyncWorker t0 demoWorker request2 (AuthenticateWorkerToken t0 demoToken (mc_server machine3)).2).1 = Ok response2)
      by (vm_compute; reflexivity).
    unfold server4. rewrite <- E. apply surjective_pairing.
Defined.
