(* ===== verification/Progress.v ===== *)
(** * What the control plane wants is done

    A cycle of the agent that succeeds leaves nothing of the control plane's
    wishes behind: the attempts offered to its worker have been taken up, and the
    live attempts of canceled jobs are told to stop. *)

From S2P Require Import Prelude Utf8 Times GoLib Encoding Ids Domain Validate ValidateSpec Database Jobs Health Events.
From S2P Require Import Lifecycle Auth Scheduler Sync WorkerStore WorkerLog Control Agent Scenario History.
From S2P Require Import SyncProperties WorkerProperties AgentProperties Paths Source Executor ExecutorLog Attempts Launches.
From S2P Require Import ExecutorProperties ExecutorScenario Details Report Http HttpLog HttpProperties.
From S2P Require Import Automation AutomationProperties Texts Exchange ExchangeProperties.
From Stdlib Require Import Strings.Byte.
Import ExecTheory.

(** A command that is not waiting any more: its process was started, or that it
    could not be is reported. *)
Definition begun (id : string) (d : WorkerDB) : Prop :=
  exists row, commands d !! id = Some row /\ cm_state row <> CommandPending.

(** How many commands one cycle begins at most. *)
Definition launchLimit (config : AgentConfig) : nat :=
  let n := c_MaxParallel (cf_Capacity config) in Z.to_nat (if n <=? 0 then 100 else n).

(** Between two states of the worker's database as many commands were begun. *)
Definition begunBetween (n : nat) (d d' : WorkerDB) : Prop :=
  exists ids, NoDup ids /\ length ids = n /\ Forall (λ id, begun id d' /\ ~ begun id d) ids.

Module ProgressTheory.
Import AttemptTheory LaunchTheory.
Section launches.
Context `{WorkerEnv} `{GitEnv} `{ExecEnv}.

Lemma begun_evolves id d d' : commandsEvolve d d' -> begun id d -> begun id d'.
Proof.
  intros He (row & Hr & Hs). destruct (He _ _ Hr) as (row' & Hr' & Hev). exists row'. split; [done|].
  pose proof (re_state _ _ Hev). destruct (cm_state row), (cm_state row'); simpl in *; try done; lia.
Qed.

Lemma failBeforeLaunch_ok h config k w a git e x x' :
  failBeforeLaunch h config k w a git e x = (Ok tt, x') -> begun (k_CommandID k) (wdb (x_store x')).
Proof.
  unfold failBeforeLaunch. intros Hr. apply bind_ok in Hr as ([] & x1 & _ & Hr). apply timed_ok in Hr as [now Hr].
  apply MarkFinished_ok in Hr as (row & _ & _ & _ & Hrow & Hs & _). exists row. by rewrite Hs.
Qed.

(** A launch that returns no error has begun its command. *)
Lemma launch_ok h config k x x' : launch h config k x = (Ok tt, x') -> begun (k_CommandID k) (wdb (x_store x')).
Proof.
  unfold launch. destruct (cf_Projects config !! _) as [workDir|]; [|by apply failBeforeLaunch_ok].
  destruct (h_mkdir h _); [by apply failBeforeLaunch_ok|]. intros Hr.
  apply bind_ok in Hr as (prepared & x1 & _ & Hr).
  destruct (prepared.2); [by eapply failBeforeLaunch_ok|]. destruct (negb _); [by eapply failBeforeLaunch_ok|].
  destruct (h_openLog h _); [by eapply failBeforeLaunch_ok|].
  destruct (h_executable h) as [executable|]; [|by eapply failBeforeLaunch_ok].
  destruct (h_start h _) as [pid|]; [|by eapply failBeforeLaunch_ok].
  unfold recordLaunch in Hr. destruct (timed h _ x1) as [[[]|e] x2] eqn:Et; [|done]. injection Hr as <-.
  apply timed_ok in Et as [now Et]. apply MarkStarted_ok in Et as (_ & row & _ & _ & Hrow & Hs).
  exists row. by rewrite Hs.
Qed.

Lemma begun_own (c : StoredCommand) j s s' : begun (idOf c) (wdb s) -> ownSteps j s s' -> j <> idOf c ->
  begun (idOf c) (wdb s').
Proof. intros (row & Hr & Hs) Ho Hne. exists row. by rewrite (own_other _ _ _ _ Ho). Qed.

(** What is pending and not canceled is begun by a round of launches, unless the
    round is full. *)
Lemma launchPending_ok h config x x' id row : WorkerInv (wdb (x_store x)) ->
  launchPending h config x = (Ok tt, x') -> commands (wdb (x_store x)) !! id = Some row ->
  begun id (wdb (x_store x')) \/ cm_cancel_requested_at row <> "" \/
  begunBetween (launchLimit config) (wdb (x_store x)) (wdb (x_store x')).
Proof.
  intros Hinv Hr Hrow. pose proof (launchPending_local h config x) as Hl. rewrite Hr in Hl.
  apply local_evolves in Hl. cbn [snd] in Hl.
  destruct (decide (cm_state row = CommandPending)) as [Hp|Hp]; [|left; by eapply begun_evolves; [exact Hl|exists row]].
  destruct (String.eqb_spec (cm_cancel_requested_at row) "") as [Hc|Hc]; [|by right; left].
  unfold launchPending in Hr. apply bind_ok in Hr as (cs & x1 & Hq & Hr).
  destruct (onStore_query (PendingCommands (c_MaxParallel (cf_Capacity config))) x (listCommands_state _ _ _)) as (r & E & Hq').
  rewrite Hq in E. injection E as <- ->. specialize (Hq' cs eq_refl). unfold PendingCommands in Hq'.
  destruct (listed_rows _ _ _ _ _ Hinv Hq') as (_ & Hnd & Hlen & Hrows).
  pose proof (own_loop_ok (λ stored, launch h config (sc_Command stored))
    (λ c, launch_own h config (sc_Command c)) (λ c d, begun (idOf c) d) cs x x'
    (λ c x1 x2, launch_ok h config (sc_Command c) x1 x2) begun_own Hnd Hr) as Hall.
  rewrite Forall_forall in Hall. pose proof (listCommands_ok _ _ _ _ _ Hq') as [_ H2].
  set (where_ := λ r, bool_decide (cm_state r = CommandPending) && (cm_cancel_requested_at r =? "")%string) in *.
  destruct (decide (length (selectCommands where_ (wdb (x_store x))) <= launchLimit config)%nat) as [Hle|Hgt].
  - left. destruct (listed_all _ _ _ _ _ Hq' Hle id row Hrow) as (c & Hin & Hst).
    { unfold where_. by rewrite Hp, Hc. }
    assert (Ei : idOf c = id); [|rewrite <- Ei; by apply Hall].
    destruct Hst as [Ek _]. cbn in Ek |- *. rewrite Ek. by destruct (wi_rows _ Hinv _ _ Hrow) as [<- _].
  - right. right. exists (idOf <$> cs). split; [done|]. split.
    + rewrite length_fmap. apply Forall2_length in H2. rewrite <- H2, length_take. unfold launchLimit in *. lia.
    + apply Forall_fmap, Forall_forall. intros c Hin. split; [by apply Hall|]. rewrite Forall_forall in Hrows.
      destruct (Hrows c Hin) as (row1 & Hr1 & Hw & _). intros (row2 & Hr2 & Hs2). simpl in Hr1, Hr2.
      apply andb_true_iff in Hw as [Hw%bool_decide_eq_true _]. congruence.
Qed.
End launches.
End ProgressTheory.

(** ** What is taken up *)

(** The worker's database [d'], after a cycle that found it as [d], has what the
    control plane's database wants of the worker: the attempts offered to it are
    begun, unless they are to be canceled or the cycle began as many others as it
    may; and a live attempt of a canceled job is to be canceled on the worker. *)
Definition takenUp (config : AgentConfig) (server : DB) (d d' : WorkerDB) : Prop :=
  forall id a j, attempts server !! id = Some a -> at_worker_id a = cf_WorkerID config ->
    jobs server !! at_job_id a = Some j ->
    (at_state a = AttemptOffered -> exists row, commands d' !! at_command_id a = Some row /\
       (cm_state row <> CommandPending \/ cm_cancel_requested_at row <> "" \/
        begunBetween (launchLimit config) d d')) /\
    (live (at_state a) = true -> jr_state j = JobCanceling \/ jr_state j = JobCanceled ->
       map_Forall (λ _ row, cm_attempt_id row = id -> active (cm_state row) = true ->
         cm_cancel_requested_at row <> "") (commands d')).

Module CatchUpTheory.
Import ProgressTheory.

Section worker.
Context `{Env} `{WorkerEnv} `{GitEnv} `{ExecEnv}.

(** A response is run commands followed by cancel commands. *)
Lemma response_shape now w request s p s' : SyncWorker now w request s = (Ok p, s') -> exists runs cancels,
  p_Commands p = runs ++ cancels /\ Forall (λ k, k_Kind k = WorkerCommandRunJob) runs /\
  Forall (λ k, k_Kind k = WorkerCommandCancelAttempt) cancels.
Proof.
  intros Hr. apply SyncTheory.SyncWorker_ok in Hr as (s1 & s2 & s3 & runs & _ & _ & _ & _ & Hc & _ & ->).
  apply CommandTheory.offeredCommands_ok in Hc as (-> & Hall & _). exists runs. eexists. split; [reflexivity|]. split.
  - eapply Forall_impl; [exact Hall|]. by intros k (? & ? & ? & ? & _ & _ & _ & _ & Hk & _).
  - apply Forall_fmap, Forall_forall. by intros [[id a] j] _.
Qed.

Lemma Acknowledge_commands through s : commands (wdb (Acknowledge through s).2) = commands (wdb s).
Proof. unfold Acknowledge. destruct (_ =? 0); [done|]. by destruct (_ <? _). Qed.

Lemma settled_commands d d' k : commands d' = commands d -> WorkerLifecycle.settled d k -> WorkerLifecycle.settled d' k.
Proof. intros E. unfold WorkerLifecycle.settled. by rewrite E. Qed.

Lemma acceptResponse_settles h p x x' runs cancels : p_Commands p = runs ++ cancels ->
  Forall (λ k, k_Kind k = WorkerCommandRunJob) runs -> Forall (λ k, k_Kind k = WorkerCommandCancelAttempt) cancels ->
  Forall (λ k, utf8Valid (k_AttemptID k) = true) (p_Commands p) ->
  acceptResponse h p x = (Ok tt, x') -> Forall (WorkerLifecycle.settled (wdb (x_store x'))) (p_Commands p).
Proof.
  intros Ep Hruns Hcancels Hv. unfold acceptResponse, onStore. cbn [x_store].
  destruct (receiveResponse _ p (x_store x)) as [[[]|e] w] eqn:Er; intros [= <-]. cbn [x_store set_store].
  unfold receiveResponse in Er. apply bind_ok in Er as ([] & s1 & Ha & Hk). rewrite Ep in Ha, Hv |- *.
  apply WorkerLifecycle.accept_all_settled in Ha; [|apply Forall_app in Hv as [Hv _]; by apply Forall_and|done].
  eapply Forall_impl; [exact Ha|]. intros k. apply settled_commands.
  pose proof (Acknowledge_commands (p_AcceptedThrough p) s1) as E. by rewrite Hk in E.
Qed.

(** Rounds of launches take nothing back. *)
Lemma local_settled s s' k : localSteps s s' -> WorkerLifecycle.settled (wdb s) k -> WorkerLifecycle.settled (wdb s') k.
Proof.
  intros Hl. apply WorkerLifecycle.settled_same; [by apply LaunchTheory.local_evolves|].
  induction Hl as [|s1 s2 s3 (c & Hc & ->) _ IH]; [done|]. unfold WorkerLifecycle.sameCommands in *. rewrite IH.
  apply (WorkerLifecycle.perform_sameCommands c). by destruct c.
Qed.

Lemma begunBetween_from n d d1 d2 : commandsEvolve d d1 -> begunBetween n d1 d2 -> begunBetween n d d2.
Proof.
  intros He (ids & Hn & Hl & Hall). exists ids. split_and!; [done..|]. eapply Forall_impl; [exact Hall|].
  intros id [Hd2 Hd1]. split; [done|]. intros Hb. by eapply Hd1, begun_evolves.
Qed.

(** What a cycle that succeeds does with the commands of the response. *)
Lemma cycle_takes_up h config session send x delay x' : WorkerInv (wdb (x_store x)) ->
  cycle h config session send x = (Ok (Some delay), x') -> exists request p,
  (prepareSync h config session x).1 = Ok request /\ send request = Some p /\
  forall runs cancels, p_Commands p = runs ++ cancels ->
  Forall (λ k, k_Kind k = WorkerCommandRunJob) runs -> Forall (λ k, k_Kind k = WorkerCommandCancelAttempt) cancels ->
  Forall (λ k, utf8Valid (k_AttemptID k) = true) (p_Commands p) ->
  Forall (WorkerLifecycle.settled (wdb (x_store x'))) (p_Commands p) /\
  forall id row, commands (wdb (x_store x')) !! id = Some row -> id ∈ k_CommandID <$> runs ->
    cm_state row <> CommandPending \/ cm_cancel_requested_at row <> "" \/
    begunBetween (launchLimit config) (wdb (x_store x)) (wdb (x_store x')).
Proof.
  intros Hinv Hr. unfold cycle in Hr. destruct (prepareSync_request config h session x) as [Hl _].
  apply bind_ok in Hr as (request & x1 & Hp & Hr). rewrite Hp in Hl |- *. cbn [fst snd] in Hl |- *.
  destruct (send request) as [p|] eqn:Es; [|done]. exists request, p. split; [done|]. split; [done|].
  intros runs cancels Ep Hruns Hcancels Hv. apply bind_ok in Hr as (d & x3 & Hf & Hr). injection Hr as -> ->.
  unfold finishSync in Hf. apply bind_ok in Hf as ([] & x2 & Ha & Hf). apply bind_ok in Hf as ([] & x3 & Hb & Hf).
  injection Hf as _ ->. pose proof (acceptResponse_settles _ _ _ _ _ _ Ep Hruns Hcancels Hv Ha) as Hset.
  pose proof (launchPending_local h config x2) as Hl2. rewrite Hb in Hl2. cbn [snd] in Hl2.
  assert (Hs : Forall (WorkerLifecycle.settled (wdb (x_store x'))) (p_Commands p))
    by (eapply Forall_impl; [exact Hset|]; intros k; by apply local_settled).
  split; [exact Hs|]. intros id row' Hrow' Hid.
  destruct (LaunchTheory.acceptResponse_evolves h p x1 Hv) as [_ He1]. rewrite Ha in He1. cbn [snd] in He1.
  assert (Hinv2 : WorkerInv (wdb (x_store x2))).
  { apply (AttemptTheory.local_inv _ _ Hl) in Hinv. unfold acceptResponse, onStore in Ha. cbn [x_store] in Ha.
    pose proof (receive_moves (λ n, h_clock h (x_ticks x1 + n)%nat) p (x_store x1) Hv) as Hm.
    destruct (receiveResponse _ p (x_store x1)) as [r w]. injection Ha as _ <-. cbn [x_store set_store snd] in *.
    by eapply WorkerLifecycle.wmoves_inv. }
  apply list_elem_of_fmap in Hid as (k & -> & Hk).
  assert (Hk2 : exists row, commands (wdb (x_store x2)) !! k_CommandID k = Some row).
  { rewrite Ep in Hset. apply Forall_app in Hset as [Hset _]. rewrite Forall_forall in Hset, Hruns.
    specialize (Hset k Hk). unfold WorkerLifecycle.settled in Hset. rewrite (Hruns k Hk) in Hset.
    destruct Hset as (row & Hrow & _). by exists row. }
  destruct Hk2 as [row Hrow]. pose proof (LaunchTheory.local_evolves _ _ Hl2) as He2.
  destruct (He2 _ _ Hrow) as (row2 & Hrow2 & Hev). rewrite Hrow' in Hrow2. injection Hrow2 as <-.
  destruct (launchPending_ok h config x2 x' _ row Hinv2 Hb Hrow) as [(row2 & Hr2 & Hs2)|[Hc|Hfull]].
  - left. congruence.
  - right. left. by rewrite (re_cancel _ _ Hev Hc).
  - right. right. eapply begunBetween_from; [|exact Hfull]. etrans; [by apply LaunchTheory.local_evolves|exact He1].
Qed.

(** An answer whose commands are settled is what the control plane wants. *)
Lemma answer_taken now w request s p s' runs cancels config d d' : cf_WorkerID config = w ->
  SyncWorker now w request s = (Ok p, s') -> p_Commands p = runs ++ cancels ->
  Forall (λ k, k_Kind k = WorkerCommandCancelAttempt) cancels ->
  Forall (WorkerLifecycle.settled d') (p_Commands p) ->
  (forall id row, commands d' !! id = Some row -> id ∈ k_CommandID <$> runs ->
    cm_state row <> CommandPending \/ cm_cancel_requested_at row <> "" \/ begunBetween (launchLimit config) d d') ->
  takenUp config (db s') d d'.
Proof.
  intros <- Hr Ep Hcancels Hset Hbegun. rewrite Forall_forall in Hset, Hcancels.
  apply sync_commands in Hr as (Hall & Hoff & Hcan). rewrite Forall_forall in Hall. intros id a j Ha Hw Hj. split.
  - intros Hst. destruct (proj1 (Exists_exists _ _) (Hoff id a Ha Hw Hst (mk_is_Some _ _ Hj))) as (k & Hk & Hid & Hkind).
    assert (Hcid : k_CommandID k = at_command_id a).
    { destruct (Hall k Hk) as [(id' & a' & ? & ? & Ha' & _ & _ & _ & _ & Hcid & Haid & _)|(? & ? & ? & _ & _ & _ & _ & _ & ->)];
        [congruence|done]. }
    assert (Hkr : k ∈ runs).
    { pose proof Hk as Hk'. rewrite Ep in Hk'. apply elem_of_app in Hk' as [Hk'|Hk']; [done|].
      specialize (Hcancels k Hk'). by rewrite Hkind in Hcancels. }
    specialize (Hset k Hk). unfold WorkerLifecycle.settled in Hset. rewrite Hkind, Hcid in Hset.
    destruct Hset as (row & Hrow & _). exists row. split; [done|]. eapply Hbegun; [exact Hrow|].
    rewrite <- Hcid. by apply list_elem_of_fmap_2.
  - intros Hl Hjs. apply (Hset (cancelCommand (id, a, j))), Hcan. by exists id, a, j.
Qed.
End worker.
End CatchUpTheory.

(** ** The property *)

Section properties.
Context `{Env} `{WorkerEnv} `{GitEnv} `{ExecEnv} `{HttpEnv} `{SyncText} `{PayloadText}.
Context `{!HttpLaws} `{!SyncTextLaws} (server : Server) (config : AgentConfig).

(** C5: The worker catches up: in the deployed program, a cycle of the agent that
    succeeds, over whatever network and on whatever machine, leaves nothing
    undone of what the control plane then wants of its worker: every attempt
    offered to it has a command that was begun (its process started, or its
    failure reported), unless it is to be canceled or the cycle began as many
    others as it may; and every live attempt of a canceled job that still has a
    command is told to stop. *)
Theorem worker_catches_up (m0 m : Machine) (net : Network) (clock : Clock) (requestID : string)
    (random : list byte) (h : Host) (delay : Z) :
  valid (configTexts config) -> installed m0 -> rtc (deployStep server config) m0 m -> clockOk clock ->
  let send := exchange server config net clock requestID random in
  (cycle h config (mc_session m) (λ request, (send (mc_server m) request).1) (mc_agent m)).1 = Ok (Some delay) ->
  let m' := cycleOver config send h m in
  takenUp config (db (mc_server m')) (wdb (x_store (mc_agent m))) (wdb (x_store (mc_agent m'))).
Proof.
  intros Hc Hi Hs Hclock send Hok m'. pose proof (ExchangeTheory.installed_text m0 Hi) as Ht0.
  destruct (ExchangeTheory.deploySteps_run server config Hc m0 m Hs Ht0) as [_ Ht].
  destruct (ExchangeTheory.deploySteps_agent server config Hc m0 m Hs Ht0 (ExchangeTheory.installed_agent m0 Hi)) as [Hinv _].
  destruct (cycle h config _ _ (mc_agent m)) as [r x'] eqn:Er. cbn [fst] in Hok. subst r.
  assert (Em : mc_agent m' = x') by (unfold m', cycleOver; cbn [mc_agent]; by rewrite Er).
  destruct (CatchUpTheory.cycle_takes_up _ _ _ _ _ _ _ Hinv Er) as (request & p & Hp & Hsend & Hup).
  destruct (prepareSync_request config h (mc_session m) (mc_agent m)) as [_ Hreq]. specialize (Hreq _ Hp).
  destruct (ExchangeTheory.cycle_sends server config Hc net clock requestID random h m request Hclock Ht Hreq)
    as (s1 & Hs1 & Hr).
  pose proof (ExchangeTheory.response_attempts p (ExchangeTheory.exchange_texts server config _ _ _ _ _ _ _
    (ExchangeTheory.tm_server m Ht) Hclock Hsend)) as Hv.
  fold send in Hr. assert (Es : mc_server m' = (send (mc_server m) request).2) by (unfold m', cycleOver; cbn; by rewrite Hp).
  destruct Hr as [Hr|[Hst Hans]]; [by rewrite Hr in Hsend|]. specialize (Hans _ Hsend).
  destruct (SyncWorker (clock 1%nat) (cf_WorkerID config) request s1) as [r s2] eqn:Ey. cbn [fst snd] in Hst, Hans. subst r.
  rewrite Em, Es, Hst. destruct (CatchUpTheory.response_shape _ _ _ _ _ _ Ey) as (runs & cancels & Ep & Hruns & Hcancels).
  destruct (Hup _ _ Ep Hruns Hcancels Hv). by eapply CatchUpTheory.answer_taken.
Qed.
End properties.

(** ** The property on a concrete deployment *)

#[local] Existing Instance demoEnv.
#[local] Existing Instance demoWorkerEnv.
#[local] Existing Instance demoGit.
#[local] Existing Instance demoExec.
#[local] Existing Instance deployHttp.
#[local] Existing Instance deployHttpLaws.
#[local] Existing Instance deployText.
#[local] Existing Instance deployTextLaws.
#[local] Existing Instance deployPayload.

(** The first cycle of the agent: the job is offered and started. *)
Lemma worker_catches_up_witness :
  takenUp demoConfig (db (mc_server machine3)) (wdb (x_store (mc_agent machine2))) (wdb (x_store (mc_agent machine3))) /\
  map_Exists (λ _ a, at_worker_id a = demoWorker /\ at_state a = AttemptOffered) (attempts (db (mc_server machine3))) /\
  map_Exists (λ _ row, cm_state row = CommandRunning) (commands (wdb (x_store (mc_agent machine3)))).
Proof.
  split; [|split; apply (bool_decide_unpack _); vm_compute; exact I].
  refine (worker_catches_up demoHttpServer demoConfig machine0 machine2 Delivered noon "req_1" [] bareHost (5 * GoTime.Second)
    demoConfig_texts machine0_installed machine2_reached noon_ok _).
  vm_compute. reflexivity.
Defined.
