(* ===== verification/Running.v ===== *)
(** * Starting and running the daemons

    (internal/worker/agent.go New and Run, internal/automation/runner.go Run,
    cmd/lcjs/main.go runServer)

    An agent is made from a configuration that passes the checks, its database
    and a session of its own; the two loops do cycle after cycle with a pause
    between them until they are told to stop, and the server serves until it
    fails or is told to. *)

From S2P Require Import Prelude Utf8 Times GoLib Encoding Ids Domain Validate Database Jobs Health Events.
From S2P Require Import Lifecycle Auth Scheduler Sync WorkerStore WorkerLog Control Agent Scenario.
From S2P Require Import WorkerProperties AgentProperties Paths Source Executor ExecutorLog ExecutorScenario.
From S2P Require Import Automation AutomationProperties Migrations MigrationsProperties WorkerOpen Texts.
From Stdlib Require Import Strings.Byte.

(** ** New *)

Inductive NewAgentError :=
  | NewConfig (e : AgentError)
  | NewStore (e : OpenStoreError)
  | NewSession (text : string).

Record AgentStarted := { as_Config : AgentConfig; as_Database : Schema; as_SessionID : string }.

(** [d] is what the database file holds; [random] is the read of crypto/rand. *)
Definition newAgent (parseURL : string -> option URL) (isDirectory : string -> bool) (disk : Disk)
    (databasePath : string) (d : Schema) (random : list byte) (config : AgentConfig)
    : result NewAgentError AgentStarted :=
  match checkConfig parseURL isDirectory config with
  | Err e => Err (NewConfig e)
  | Ok config =>
      match OpenStore disk databasePath d with
      | Err e => Err (NewStore e)
      | Ok store =>
          match New "ses" random with
          | Err e => Err (NewSession e)
          | Ok sessionID => Ok {| as_Config := config; as_Database := store; as_SessionID := sessionID |}
          end
      end
  end.

(** ** The loop of the agent *)

(** What a turn of the loop finds: whether the context is done before the timer
    fires, the machine, and the exchange. *)
Record Turn := {
  tn_Canceled : bool; tn_Host : Host; tn_Send : WorkerSyncRequest -> option WorkerSyncResponse;
}.

(** Run has returned, or is about to wait for some time. *)
Inductive RunState := RunReturned | RunWaiting (delay : Z).

Section run.
Context `{WorkerEnv} `{GitEnv} `{ExecEnv} (config : AgentConfig) (sessionID : string).

(** The loop over the turns that have come, with the pause chosen after each
    cycle. *)
Fixpoint runLoop (turns : list Turn) (delay : Z) (x : Exec) : RunState * list Z * Exec :=
  match turns with
  | [] => (RunWaiting delay, [], x)
  | turn :: rest =>
      if (0 <? delay) && tn_Canceled turn then (RunReturned, [], x)
      else
        let '(r, x1) := cycle (tn_Host turn) config sessionID (tn_Send turn) x in
        let '(state, pauses, x2) := runLoop rest (pauseAfter r) x1 in
        (state, pauseAfter r :: pauses, x2)
  end.

Definition Run (turns : list Turn) (x : Exec) : RunState * list Z * Exec := runLoop turns 0 x.
End run.

(** ** The loop of the automation runner *)

(** A cycle, and whether the context is done before the ticker fires. *)
Record AutomationTurn := { au_Clock : Readings; au_Client : Clients; au_Canceled : bool }.

Section automation.
Context `{Env} `{PayloadText}.

(** Whether the loop has returned; the errors of cycles are logged. *)
Fixpoint automationRun (turns : list AutomationTurn) (s : St) : bool * St :=
  match turns with
  | [] => (false, s)
  | turn :: rest =>
      let s1 := (Cycle (au_Clock turn) (au_Client turn) s).2 in
      if au_Canceled turn then (true, s1) else automationRun rest s1
  end.
End automation.

(** ** The end of the server *)

(** What comes first: ListenAndServe returns, with http.ErrServerClosed or
    another error, or a signal comes and Shutdown returns. *)
Inductive ServerEnd := ListenReturned (closed : bool) (text : string) | SignalCame (shutdown : option string).

Definition serverResult (e : ServerEnd) : result string unit :=
  match e with
  | ListenReturned closed text => if closed then Ok tt else Err text
  | SignalCame None => Ok tt
  | SignalCame (Some text) => Err text
  end.

(** ** The properties *)

(** A pause between two cycles that neither floods the control plane nor lets the
    worker look offline for long. *)
Definition paced (delay : Z) : Prop := GoTime.Second <= delay <= GoTime.Minute.

Module RunTheory.
Lemma nextDelay_paced seconds : paced (nextDelay seconds).
Proof.
  unfold nextDelay, paced. destruct (Z.ltb_spec (i64 (seconds * GoTime.Second)) GoTime.Second); cbn [orb];
    [|destruct (Z.ltb_spec GoTime.Minute (i64 (seconds * GoTime.Second)))];
    unfold GoTime.Minute, GoTime.Second in *; lia.
Qed.

Lemma omap_nil {A B} (f : A -> option B) l x : omap f l = [] -> x ∈ l -> f x = None.
Proof.
  intros Hn Hx. destruct (f x) as [y|] eqn:E; [|done]. exfalso.
  assert (Hy : y ∈ omap f l) by (apply list_elem_of_omap; eauto). rewrite Hn in Hy. by apply elem_of_nil in Hy.
Qed.

Section run.
Context `{WorkerEnv} `{GitEnv} `{ExecEnv} (config : AgentConfig) (sessionID : string).

Lemma pauseAfter_paced h send x : paced (pauseAfter (cycle h config sessionID send x).1).
Proof.
  assert (H5 : paced (5 * GoTime.Second)) by (split; apply (bool_decide_unpack _); vm_compute; exact I).
  unfold cycle, mbind, M_bind. destruct (prepareSync h config sessionID x) as [[request|e] x1]; [|exact H5].
  destruct (send request) as [response|]; [|exact H5]. unfold finishSync, mbind, M_bind.
  destruct (acceptResponse h response x1) as [[[]|e] x2]; [|exact H5].
  destruct (launchPending h config x2) as [[[]|e] x3]; [|exact H5]. apply nextDelay_paced.
Qed.

(** A turn that is reached with a pause and not canceled is a cycle. *)
Lemma runLoop_spec turns : forall delay x state pauses x', runLoop config sessionID turns delay x = (state, pauses, x') ->
  Forall paced pauses /\ (length pauses <= length turns)%nat /\
  (forall i turn, (i < length pauses)%nat -> turns !! i = Some turn -> (0 < i)%nat \/ 0 < delay -> tn_Canceled turn = false) /\
  match state with
  | RunReturned => exists turn, turns !! length pauses = Some turn /\ tn_Canceled turn = true /\
      ((0 < length pauses)%nat \/ 0 < delay)
  | RunWaiting d => length pauses = length turns /\ d = default delay (last pauses)
  end.
Proof.
  induction turns as [|turn turns IH]; intros delay x state pauses x'; cbn [runLoop].
  { intros [= <- <- <-]. split_and!; [constructor|cbn; lia|intros i turn Hi; cbn in Hi; lia|done|done]. }
  destruct (Z.ltb_spec 0 delay) as [Hd|Hd]; cbn [andb]; [destruct (tn_Canceled turn) eqn:Ec|].
  { intros [= <- <- <-]. split_and!; [constructor|cbn; lia|intros i t' Hi; cbn in Hi; lia|]. exists turn. cbn. auto. }
  all: pose proof (pauseAfter_paced (tn_Host turn) (tn_Send turn) x) as Hp;
    destruct (cycle (tn_Host turn) config sessionID (tn_Send turn) x) as [r x1]; cbn [fst] in Hp;
    destruct (runLoop config sessionID turns (pauseAfter r) x1) as [[state1 pauses1] x2] eqn:Er; intros [= <- <- <-];
    destruct (IH _ _ _ _ _ Er) as (Hall & Hlen & Hrun & Hst); assert (0 < pauseAfter r)
      by (destruct Hp as [Hp _]; revert Hp; unfold GoTime.Second; lia);
    (split; [by constructor|split; [cbn; lia|split]]);
    [ intros [|i] turn' Hi Ht Hpos; [cbn in Ht; first [congruence|lia]|apply (Hrun i); [cbn in Hi; lia|done|by right]]
    | destruct state1 as [|d]; cbn [length];
      [ destruct Hst as (turn' & Ht & Hc & _); exists turn'; cbn; split_and!; [done|done|left; lia]
      | destruct Hst as [Hst ->]; split; [lia|rewrite last_cons; by destruct (last pauses1)] ] ].
Qed.
End run.
End RunTheory.

(** What the checks of New promise the rest of the agent. *)
Record ConfigOk (parseURL : string -> option URL) (isDirectory : string -> bool) (config : AgentConfig) : Prop := {
  co_worker : cf_WorkerID config <> "" /\ 32 <= len (cf_Token config) /\ cf_ArtifactRoot config <> "";
  co_projects : cf_Projects config <> ∅;
  co_directories : map_Forall (λ name directory, name <> "" /\ isAbs directory = true /\ isDirectory directory = true)
    (cf_Projects config);
  co_advertised : forall name, name ∈ c_Projects (cf_Capacity config) <-> is_Some (cf_Projects config !! name);
  co_parallel : c_MaxParallel (cf_Capacity config) <> 0;
}.

Section properties.
Context `{WorkerEnv} `{GitEnv} `{ExecEnv}.

(** An agent that was made has a server it may send its token to, a worker, a
    token and a place for artifacts, advertises exactly the projects that have an
    existing absolute directory, runs at least one attempt at a time, and has a
    session made of fresh random bytes. *)
Theorem agent_made (parseURL : string -> option URL) (isDirectory : string -> bool) (disk : Disk) (path : string)
    (d : Schema) (random : list byte) (config : AgentConfig) (a : AgentStarted) :
  newAgent parseURL isDirectory disk path d random config = Ok a ->
  ConfigOk parseURL isDirectory (as_Config a) /\
  (exists u, parseURL (cf_ServerURL config) = Some u /\ u_Host u <> "" /\
     (u_Scheme u = "https" \/ u_Hostname u = "127.0.0.1" \/ u_Hostname u = "localhost")) /\
  New "ses" random = Ok (as_SessionID a) /\ OpenStore disk path d = Ok (as_Database a).
Proof.
  unfold newAgent, checkConfig. destruct (parseURL (cf_ServerURL config)) as [u|] eqn:Eu; [|done].
  destruct (String.eqb_spec (u_Host u) "") as [|Hhost]; [done|]. cbn [orb].
  destruct (negb (u_Scheme u =? "https")%string && _ && _) eqn:Escheme; [done|].
  destruct (String.eqb_spec (cf_WorkerID config) "") as [|Hw]; [done|]. cbn [orb].
  destruct (Z.ltb_spec (len (cf_Token config)) 32) as [|Ht]; [done|].
  destruct (String.eqb_spec (cf_ArtifactRoot config) "") as [|Har]; [done|].
  destruct (bool_decide (cf_Projects config = ∅)) eqn:Ep; [done|]. apply bool_decide_eq_false in Ep.
  destruct (omap (checkProject isDirectory) (map_to_list (cf_Projects config))) as [|e es] eqn:Eo; [|done].
  destruct (OpenStore disk path d) as [store|e] eqn:Es; [|done]. destruct (New "ses" random) as [i|e] eqn:En; [|done].
  intros [= <-]. cbn [as_Config as_SessionID as_Database]. split; [|split; [exists u|done]].
  - split; cbn [cf_WorkerID cf_Token cf_ArtifactRoot cf_Projects cf_Capacity withProjects c_Projects c_MaxParallel];
      [done|done| | |].
    + intros name directory Hl%elem_of_map_to_list. apply RunTheory.omap_nil with (2 := Hl) in Eo. revert Eo.
      unfold checkProject. cbn [fst snd]. destruct (String.eqb_spec name ""), (isAbs directory), (isDirectory directory); done.
    + intros name. unfold projectNames. rewrite merge_sort_Permutation. split.
      * intros ([n directory] & -> & Hl)%list_elem_of_fmap. apply elem_of_map_to_list in Hl. by exists directory.
      * intros [directory Hl%elem_of_map_to_list]. apply list_elem_of_fmap. by exists (name, directory).
    + destruct (Z.eqb_spec (c_MaxParallel (cf_Capacity config)) 0); [done|done].
  - split_and!; [done|done|]. revert Escheme. destruct (String.eqb_spec (u_Scheme u) "https"); [by left|].
    destruct (String.eqb_spec (u_Hostname u) "127.0.0.1"); [by right; left|].
    destruct (String.eqb_spec (u_Hostname u) "localhost"); [by right; right|done].
Qed.

(** C24: The agent keeps its pace and stops only when it is told to: whatever the
    machine and the control plane answer, every pause between two cycles is at
    least a second and at most a minute; Run returns only in a pause in which the
    context is done, and until then it does one cycle every turn. *)
Theorem run_paced (config : AgentConfig) (sessionID : string) (turns : list Turn) (x x' : Exec)
    (state : RunState) (pauses : list Z) :
  Run config sessionID turns x = (state, pauses, x') ->
  Forall paced pauses /\
  (forall i turn, (0 < i < length pauses)%nat -> turns !! i = Some turn -> tn_Canceled turn = false) /\
  match state with
  | RunReturned => (0 < length pauses)%nat /\ exists turn, turns !! length pauses = Some turn /\ tn_Canceled turn = true
  | RunWaiting d => length pauses = length turns /\ d = default 0 (last pauses)
  end.
Proof.
  intros Hr. apply RunTheory.runLoop_spec in Hr as (Hall & _ & Hrun & Hst). split; [done|]. split.
  - intros i turn [Hi Hlt] Ht. by apply (Hrun i); auto.
  - destruct state as [|d]; [|done]. destruct Hst as (turn & Ht & Hc & [Hl|Hl]); [|lia]. split; [done|by exists turn].
Qed.
End properties.

(** The automation loop is a run of calls of the store. *)
Theorem automation_runs `{Env} `{PayloadText} (turns : list AutomationTurn) (s : St) :
  Forall (λ turn, years (au_Clock turn)) turns ->
  rtc callStep s (automationRun turns s).2 /\
  ((automationRun turns s).1 = true <-> exists turn, turn ∈ turns /\ au_Canceled turn = true).
Proof.
  intros Hy. revert s. induction Hy as [|turn turns Ht _ IH]; intros s.
  { split; [apply rtc_refl|]. split; [done|]. intros (t & Hin & _). by apply elem_of_nil in Hin. }
  cbn [automationRun]. pose proof (AutomationTheory.cycle_calls (au_Clock turn) (au_Client turn) s Ht) as Hc.
  destruct (au_Canceled turn) eqn:Ec.
  - split; [exact Hc|]. split; [|done]. intros _. exists turn. split; [apply list_elem_of_here|done].
  - destruct (IH (Cycle (au_Clock turn) (au_Client turn) s).2) as [Hr Hst]. split; [by etrans|]. rewrite Hst. split.
    + intros (t & Hin & E). exists t. split; [by right|done].
    + intros (t & [->|Hin]%elem_of_cons & E); [congruence|by exists t].
Qed.

(** ** The properties on a concrete agent *)

#[local] Existing Instance demoEnv.
#[local] Existing Instance demoWorkerEnv.
#[local] Existing Instance demoGit.
#[local] Existing Instance demoExec.

Definition demoTurns : list Turn := [
  {| tn_Canceled := true; tn_Host := bareHost; tn_Send := λ _, Some (demoResponse sysSubmitted) |};
  {| tn_Canceled := false; tn_Host := bareHost; tn_Send := λ _, None |};
  {| tn_Canceled := true; tn_Host := bareHost; tn_Send := λ _, None |}].
Definition demoRun : RunState * list Z * Exec := Run demoConfig "session" demoTurns agentStarted.

Lemma run_paced_witness : demoRun.1 = (RunReturned, [5 * GoTime.Second; 5 * GoTime.Second]) /\
  Forall paced [5 * GoTime.Second; 5 * GoTime.Second] /\
  (forall i turn, (0 < i < 2)%nat -> demoTurns !! i = Some turn -> tn_Canceled turn = false) /\
  (0 < 2)%nat /\ exists turn, demoTurns !! 2%nat = Some turn /\ tn_Canceled turn = true.
Proof.
  assert (E : demoRun.1 = (RunReturned, [5 * GoTime.Second; 5 * GoTime.Second])) by (vm_compute; reflexivity).
  split; [exact E|].
  apply (run_paced demoConfig "session" demoTurns agentStarted demoRun.2 RunReturned [5 * GoTime.Second; 5 * GoTime.Second]).
  rewrite <- E. apply surjective_pairing.
Defined.

Definition demoParse (raw : string) : option URL :=
  Some {| u_Scheme := "https"; u_Host := raw; u_Hostname := raw; u_User := false; u_Fragment := ""; u_String := raw |}.
Definition demoDisk : Disk := {| dk_mkdir := λ _, None; dk_open := λ _, None; dk_chmod := λ _, None |}.
Definition demoMade : result NewAgentError AgentStarted :=
  newAgent demoParse (λ _, true) demoDisk "worker.db" oldWorker (replicate 16 x00) demoConfig.

Lemma agent_made_witness : exists a, demoMade = Ok a /\ ConfigOk demoParse (λ _, true) (as_Config a).
Proof.
  destruct demoMade as [a|e] eqn:E; [|exfalso; vm_compute in E; discriminate E]. exists a. split; [done|].
  exact (proj1 (agent_made demoParse (λ _, true) demoDisk "worker.db" oldWorker (replicate 16 x00) demoConfig a E)).
Defined.

#[local] Instance demoPayload : PayloadText := λ _, "payload".
Definition demoAutomation (canceled : bool) : AutomationTurn := {|
  au_Clock := λ _, t0; au_Client := λ _, {| cl_refuses := λ _, None; cl_Do := λ _, Replied 200 "200 OK" |};
  au_Canceled := canceled |}.

Lemma automation_runs_witness : rtc callStep enrolled (automationRun [demoAutomation false; demoAutomation true] enrolled).2.
Proof.
  apply (automation_runs [demoAutomation false; demoAutomation true] enrolled).
  repeat (apply Forall_cons; split; [intros n; exact t0_year|]). by apply Forall_nil.
Defined.
