(* ===== verification/Artifacts.v ===== *)
(** * Copying an artifact (internal/worker/executor.go copyArtifact)

    The bytes of a file are copied to a temporary file beside the destination,
    which is then renamed. The job may go on writing the file meanwhile, every
    operation may fail, and the agent may be stopped between any two of them, so
    the copy is a state machine: [copyStep] takes one thing that happens. *)

From S2P Require Import Prelude Utf8 Times GoLib Encoding Ids Domain Validate Database Jobs Health Events.
From S2P Require Import Lifecycle Auth Scheduler Sync WorkerStore WorkerLog Control Agent Paths Source Executor.
From S2P Require Import Scenario WorkerProperties AgentProperties ExecutorLog Ingest ExecutorScenario Details Report.
From S2P Require Import Sampler Cli Supervise SuperviseProperties.
Import Filepath.

(** errors.Join of two errors, as a text. *)
Definition joined (a b : option string) : option string :=
  match a, b with
  | Some x, Some y => Some (x +:+ String newline y)
  | Some x, None => Some x
  | None, y => y
  end.

(** Where copyArtifact stands. What was copied so far is in the temporary file
    and in the hash. *)
Inductive CopyStage :=
  | MakingDirectory
  | OpeningSource
  | OpeningTarget
  | Moving (copied : string)
  | Syncing (copied : string) (failure : option string)
  | Closing (copied : string) (failure : option string)
  | Renaming (copied : string)
  | Copied (r : result string (Z * string)).

(** The files below the artifact root, and the file that is copied. *)
Record Copy := { cy_files : gmap string string; cy_source : option string; cy_stage : CopyStage }.

Inductive CopyEvent :=
  | MkdirAll (failure : option string)
  | OpenSource (failure : option string)
  | OpenTarget (failure : option string)
  | MoveSome (n : Z)                               (* one read and its write, of at most n bytes *)
  | MoveFails (n : Z) (reason : string)            (* of a last read n bytes are written, or the read fails *)
  | ReachEnd
  | Sync (failure : option string)
  | CloseTarget (failure : option string)
  | Rename (failure : option string)
  | JobWrites (data : string).                     (* the job changes the file *)

Section copy.
Context `{Env} (destination : string).

Definition partial : string := destination +:+ ".partial".

Definition at_copy (s : CopyStage) (c : Copy) : Copy :=
  {| cy_files := cy_files c; cy_source := cy_source c; cy_stage := s |}.
Definition put (path data : string) (c : Copy) : Copy :=
  {| cy_files := <[path := data]> (cy_files c); cy_source := cy_source c; cy_stage := cy_stage c |}.

Definition append_ (path data : string) (c : Copy) : Copy := put path (default "" (cy_files c !! path) +:+ data) c.

(** An operation that fails ends the copy; one that succeeds leads on. *)
Definition orFail (failure : option string) (c next : Copy) : Copy :=
  match failure with Some reason => at_copy (Copied (Err reason)) c | None => next end.

(** One event; None where it cannot happen now. *)
Definition copyStep (e : CopyEvent) (c : Copy) : option Copy :=
  match e, cy_stage c with
  | JobWrites data, _ => Some {| cy_files := cy_files c; cy_source := Some data; cy_stage := cy_stage c |}
  | MkdirAll failure, MakingDirectory => Some (orFail failure c (at_copy OpeningSource c))
  | OpenSource failure, OpeningSource =>
      match failure, cy_source c with
      | None, None => None
      | _, _ => Some (orFail failure c (at_copy OpeningTarget c))
      end
  | OpenTarget failure, OpeningTarget => Some (orFail failure c (at_copy (Moving "") (put partial "" c)))
  | MoveSome n, Moving copied =>
      let chunk := sliceTo n (sliceFrom (len copied) (default "" (cy_source c))) in
      if (chunk =? "")%string then None
      else Some (at_copy (Moving (copied +:+ chunk)) (append_ partial chunk c))
  | MoveFails n reason, Moving copied =>
      let chunk := sliceTo n (sliceFrom (len copied) (default "" (cy_source c))) in
      Some (at_copy (Syncing copied (Some reason)) (append_ partial chunk c))
  | ReachEnd, Moving copied =>
      if len (default "" (cy_source c)) <=? len copied then Some (at_copy (Syncing copied None) c) else None
  | Sync failure, Syncing copied e => Some (at_copy (Closing copied (joined e failure)) c)
  | CloseTarget failure, Closing copied e => Some (orFail (joined e failure) c (at_copy (Renaming copied) c))
  | Rename failure, Renaming copied =>
      data ← cy_files c !! partial;
      Some (orFail failure c {| cy_files := <[destination := data]> (delete partial (cy_files c)); cy_source := cy_source c;
                                cy_stage := Copied (Ok (len copied, hexText (sha256 copied))) |})
  | _, _ => None
  end.

Fixpoint copyAll (events : list CopyEvent) (c : Copy) : option Copy :=
  match events with
  | [] => Some c
  | e :: rest => c' ← copyStep e c; copyAll rest c'
  end.

Definition startCopy (files : gmap string string) (source : option string) : Copy :=
  {| cy_files := files; cy_source := source; cy_stage := MakingDirectory |}.
End copy.

(** ** What a copy leaves *)

Definition extends (a b : string) : Prop := exists more, b = a +:+ more.

(** The job only appends to the file. *)
Fixpoint appends (source : string) (events : list CopyEvent) : Prop :=
  match events with
  | [] => True
  | JobWrites data :: rest => extends source data /\ appends data rest
  | _ :: rest => appends source rest
  end.

(** The bytes of a complete copy, and what copyArtifact returns for it. *)
Definition stored `{Env} (destination : string) (files : gmap string string) (r : Z * string) (data : string) : Prop :=
  files !! destination = Some data /\ files !! partial destination = None /\
  r = (len data, hexText (sha256 data)).

Module ArtifactTheory.
Import MetricTheory.
Section theory.
Context `{Env} (destination : string).

Lemma extends_refl a : extends a a.
Proof. exists "". by rewrite string_app_nil_r. Qed.
Lemma extends_trans a b c : extends a b -> extends b c -> extends a c.
Proof. intros [x ->] [y ->]. exists (x +:+ y). by rewrite string_app_assoc. Qed.

Lemma partial_ne : partial destination <> destination.
Proof.
  unfold partial. intros E. apply (f_equal (λ s, length (chars s))) in E. rewrite chars_app, length_app in E. cbn in E. lia.
Qed.

(** What is in the files, whatever has happened. *)
Record filesInv (files0 : gmap string string) (c : Copy) : Prop := {
  fi_others : forall p, p <> partial destination -> p <> destination -> cy_files c !! p = files0 !! p;
  fi_destination : (forall r, cy_stage c <> Copied (Ok r)) -> cy_files c !! destination = files0 !! destination;
  fi_stage : match cy_stage c with
    | Moving copied | Syncing copied None | Closing copied None | Renaming copied =>
        cy_files c !! partial destination = Some copied
    | Copied (Ok r) => exists data, stored destination (cy_files c) r data
    | _ => True
    end;
}.

Lemma files_same files0 c stage : filesInv files0 c -> (forall r, cy_stage c <> Copied (Ok r)) ->
  (match stage with
   | Moving copied | Syncing copied None | Closing copied None | Renaming copied =>
       cy_files c !! partial destination = Some copied
   | Copied (Ok r) => False
   | _ => True
   end) -> filesInv files0 (at_copy stage c).
Proof.
  intros [Ho Hd Hs] Hn Hst. split; [done|intros _; by apply Hd|]. cbn. by destruct stage as [| | | | ? []|? []| |[]].
Qed.

Lemma files_put files0 c data stage : filesInv files0 c -> (forall r, cy_stage c <> Copied (Ok r)) ->
  (match stage with
   | Moving copied => data = copied
   | Syncing _ (Some _) => True
   | _ => False
   end) -> filesInv files0 (at_copy stage (put (partial destination) data c)).
Proof.
  intros [Ho Hd Hs] Hn Hst. split; cbn.
  - intros p Hp Hp'. rewrite lookup_insert_ne by done. by apply Ho.
  - intros _. rewrite lookup_insert_ne by apply partial_ne. by apply Hd.
  - destruct stage as [| | | | ? []|? []| |[]]; try done. subst. apply lookup_insert_eq.
Qed.

Lemma joined_none a b : joined a b = None -> a = None /\ b = None.
Proof. by destruct a, b. Qed.

Lemma copyStep_files files0 e c c' : copyStep destination e c = Some c' -> filesInv files0 c -> filesInv files0 c'.
Proof.
  intros Hs Hi. pose proof (fi_stage _ _ Hi) as Hst.
  destruct e as [f|f|f|n|n reason| |f|f|f|data]; cbn [copyStep] in Hs.
  10: { injection Hs as <-. by destruct Hi. }
  all: destruct (cy_stage c) as [| | |copied|copied e|copied e|copied|r] eqn:Ec; try discriminate Hs; cbn in Hst.
  - injection Hs as <-. destruct f; by apply files_same; rewrite ?Ec.
  - destruct f, (cy_source c); try discriminate Hs; injection Hs as <-; by apply files_same; rewrite ?Ec.
  - injection Hs as <-. destruct f; [by apply files_same; rewrite ?Ec|by apply files_put; rewrite ?Ec].
  - destruct (_ =? _)%string; [discriminate Hs|]. injection Hs as <-. unfold append_. rewrite Hst. by apply files_put; rewrite ?Ec.
  - injection Hs as <-. by apply files_put; rewrite ?Ec.
  - destruct (_ <=? _); [|discriminate Hs]. injection Hs as <-. by apply files_same; rewrite ?Ec.
  - injection Hs as <-. apply files_same; [done|by rewrite Ec|]. destruct (joined e f) eqn:Ej; [done|].
    by apply joined_none in Ej as [-> _].
  - injection Hs as <-. destruct (joined e f) eqn:Ej; [by apply files_same; rewrite ?Ec|].
    apply joined_none in Ej as [-> _]. by apply files_same; rewrite ?Ec.
  - rewrite Hst in Hs. injection Hs as <-. destruct f as [reason|]; [by apply files_same; rewrite ?Ec|]. destruct Hi as [Ho Hd _]. split; cbn.
    + intros p Hp Hp'. rewrite lookup_insert_ne, lookup_delete_ne by done. by apply Ho.
    + intros Hn. by destruct (Hn _ eq_refl).
    + exists copied. split; [apply lookup_insert_eq|]. split; [|done].
      rewrite lookup_insert_ne by (apply not_eq_sym, partial_ne). apply lookup_delete_eq.
Qed.

(** What was copied, against a source that is only appended to. *)
Definition sourceInv (before : string) (c : Copy) : Prop :=
  exists now, cy_source c = Some now /\ extends before now /\
  match cy_stage c with
  | Moving copied => extends copied now
  | Syncing copied None | Closing copied None | Renaming copied => extends before copied /\ extends copied now
  | Copied (Ok (size, _)) => exists copied, size = len copied /\ extends before copied /\ extends copied now /\
      cy_files c !! destination = Some copied
  | _ => True
  end.

Lemma sliceFrom_app a b : sliceFrom (len a) (a +:+ b) = b.
Proof.
  unfold sliceFrom. rewrite chars_app, <- length_chars, Nat2Z.id, drop_app_length. apply Utf8Theory.unchars_chars.
Qed.

Lemma extends_chunk n copied now : extends copied now ->
  extends (copied +:+ sliceTo n (sliceFrom (len copied) now)) now.
Proof.
  intros [rest ->]. rewrite sliceFrom_app. exists (sliceFrom n rest).
  by rewrite string_app_assoc, SuperviseTheory.slice_split.
Qed.

Lemma extends_whole copied now : extends copied now -> len now <= len copied -> copied = now.
Proof.
  intros [rest ->] Hl. destruct rest as [|ch rest]; [by rewrite string_app_nil_r|]. exfalso.
  rewrite <- !length_chars, chars_app, length_app in Hl. cbn in Hl. lia.
Qed.

Lemma copyStep_source files0 before e c c' : copyStep destination e c = Some c' -> filesInv files0 c ->
  (forall data now, e = JobWrites data -> cy_source c = Some now -> extends now data) ->
  sourceInv before c -> sourceInv before c'.
Proof.
  intros Hs Hi He (now & Hnow & Hb & Hst). pose proof (fi_stage _ _ Hi) as Hf. unfold sourceInv.
  destruct e as [f|f|f|n|n reason| |f|f|f|data]; cbn [copyStep] in Hs.
  10: { injection Hs as <-. pose proof (He data now eq_refl Hnow) as Hd. exists data. cbn. split; [done|].
        split; [by eapply extends_trans|]. destruct (cy_stage c) as [| | |copied|copied []|copied []|copied|[[size sum]|]]; try done;
          try (by eapply extends_trans); try (destruct Hst; split; [done|by eapply extends_trans]).
        destruct Hst as (copied & ? & ? & ? & ?). exists copied. split_and!; try done. by eapply extends_trans. }
  all: destruct (cy_stage c) as [| | |copied|copied e|copied e|copied|r] eqn:Ec; try discriminate Hs; cbn in Hst, Hf.
  - injection Hs as <-. exists now. by destruct f.
  - rewrite Hnow in Hs. destruct f; injection Hs as <-; by exists now.
  - injection Hs as <-. exists now. destruct f; cbn; (split; [done|split; [done|]]); [done|by exists now].
  - rewrite Hnow in Hs. destruct (_ =? _)%string; [discriminate Hs|]. injection Hs as <-. exists now. cbn.
    split; [done|split; [done|]]. by apply extends_chunk.
  - injection Hs as <-. by exists now.
  - rewrite Hnow in Hs. cbn in Hs. destruct (Z.leb_spec (len now) (len copied)); [|discriminate Hs]. injection Hs as <-.
    exists now. cbn. rewrite (extends_whole _ _ Hst) by done. split_and!; try done. apply extends_refl.
  - injection Hs as <-. exists now. cbn. split; [done|split; [done|]]. destruct (joined e f) eqn:Ej; [done|].
    by apply joined_none in Ej as [-> _].
  - injection Hs as <-. exists now. destruct (joined e f) eqn:Ej; [done|]. apply joined_none in Ej as [-> _].
    by split_and!.
  - rewrite Hf in Hs. injection Hs as <-. exists now. destruct f; [done|]. cbn. split; [done|split; [done|]].
    exists copied. destruct Hst. split_and!; [done..|apply lookup_insert_eq].
Qed.

Lemma copyAll_files files0 events : forall c c', copyAll destination events c = Some c' -> filesInv files0 c -> filesInv files0 c'.
Proof.
  induction events as [|e events IH]; intros c c'; cbn; [by intros [= <-]|].
  destruct (copyStep destination e c) as [c1|] eqn:Es; [|done]. intros Hr Hi. eapply IH; [exact Hr|]. by eapply copyStep_files.
Qed.

Lemma copyStep_content e c c' now : copyStep destination e c = Some c' -> cy_source c = Some now ->
  cy_source c' = Some (match e with JobWrites data => data | _ => now end).
Proof.
  intros Hs Hn. destruct e as [f|f|f|n|n reason| |f|f|f|data]; cbn [copyStep] in Hs;
    [destruct (cy_stage c) as [| | |copied|copied e|copied e|copied|r]; try discriminate Hs..|by injection Hs as <-].
  - injection Hs as <-. by destruct f.
  - rewrite Hn in Hs. destruct f; injection Hs as <-; done.
  - injection Hs as <-. by destruct f.
  - destruct (_ =? _)%string; [discriminate Hs|]. by injection Hs as <-.
  - by injection Hs as <-.
  - destruct (_ <=? _); [|discriminate Hs]. by injection Hs as <-.
  - by injection Hs as <-.
  - injection Hs as <-. by destruct (joined e f).
  - destruct (cy_files c !! _); [|discriminate Hs]. cbn in Hs. injection Hs as <-. by destruct f.
Qed.

Lemma copyAll_source files0 before events : forall c c' now, copyAll destination events c = Some c' -> filesInv files0 c ->
  cy_source c = Some now -> appends now events -> sourceInv before c -> sourceInv before c'.
Proof.
  induction events as [|e events IH]; intros c c' now; cbn [copyAll]; [by intros [= <-]|].
  destruct (copyStep destination e c) as [c1|] eqn:Es; [|done]. intros Hr Hi Hn Ha Hb.
  pose proof (copyStep_content _ _ _ _ Es Hn) as Hn'. eapply IH; [exact Hr|by eapply copyStep_files|exact Hn'| |].
  - destruct e; try exact Ha. apply Ha.
  - eapply copyStep_source; [exact Es|exact Hi| |exact Hb]. intros data now' -> Hnow. rewrite Hn in Hnow. injection Hnow as <-.
    apply Ha.
Qed.

Lemma startCopy_files files source : filesInv files (startCopy files source).
Proof. split; [done|done|exact I]. Qed.

(** The end of a copy, and a whole one, that nothing disturbs. *)
Lemma copy_ends files data : files !! partial destination = Some data ->
  copyAll destination [ReachEnd; Sync None; CloseTarget None; Rename None]
    {| cy_files := files; cy_source := Some data; cy_stage := Moving data |} =
  Some {| cy_files := <[destination := data]> (delete (partial destination) files); cy_source := Some data;
          cy_stage := Copied (Ok (len data, hexText (sha256 data))) |}.
Proof. intros Hf. simpl. rewrite Z.leb_refl. simpl. by rewrite Hf. Qed.

Definition undisturbedCopy (data : string) : list CopyEvent :=
  [MkdirAll None; OpenSource None; OpenTarget None] ++
  (if (data =? "")%string then [] else [MoveSome (len data)]) ++ [ReachEnd; Sync None; CloseTarget None; Rename None].

Lemma copyAll_app es1 es2 c : copyAll destination (es1 ++ es2) c = (c' ← copyAll destination es1 c; copyAll destination es2 c').
Proof.
  revert c. induction es1 as [|e es1 IH]; intros c; [done|]. cbn. destruct (copyStep destination e c); [apply IH|done].
Qed.

Lemma copy_completes files data : exists files',
  copyAll destination (undisturbedCopy data) (startCopy files (Some data)) =
    Some {| cy_files := files'; cy_source := Some data; cy_stage := Copied (Ok (len data, hexText (sha256 data))) |}.
Proof.
  unfold undisturbedCopy. rewrite !copyAll_app.
  assert (E : copyAll destination [MkdirAll None; OpenSource None; OpenTarget None] (startCopy files (Some data)) =
    Some {| cy_files := <[partial destination := ""]> files; cy_source := Some data; cy_stage := Moving "" |}) by done.
  rewrite E. cbn [mbind option_bind]. rewrite copyAll_app. destruct (String.eqb_spec data "") as [->|Hne].
  - eexists. exact (copy_ends _ _ (lookup_insert_eq _ _ _)).
  - assert (Es : copyStep destination (MoveSome (len data))
      {| cy_files := <[partial destination := ""]> files; cy_source := Some data; cy_stage := Moving "" |} =
      Some {| cy_files := <[partial destination := data]> (<[partial destination := ""]> files); cy_source := Some data;
              cy_stage := Moving data |}).
    { cbn [copyStep cy_stage cy_source default]. change (len "") with 0.
      assert (Ec : sliceTo (len data) (sliceFrom 0 data) = data).
      { change (sliceFrom 0 data) with (unchars (chars data)). rewrite Utf8Theory.unchars_chars. apply SuperviseTheory.sliceTo_all. }
      unfold id. rewrite Ec. apply String.eqb_neq in Hne. rewrite Hne, string_app_nil_l. unfold append_, at_copy, put.
      cbn [cy_files cy_source cy_stage]. rewrite lookup_insert_eq. cbn [default id]. by rewrite string_app_nil_l. }
    assert (Em : copyAll destination [MoveSome (len data)]
      {| cy_files := <[partial destination := ""]> files; cy_source := Some data; cy_stage := Moving "" |} =
      Some {| cy_files := <[partial destination := data]> (<[partial destination := ""]> files); cy_source := Some data;
              cy_stage := Moving data |}) by (cbn [copyAll]; by rewrite Es).
    rewrite Em. eexists. exact (copy_ends _ _ (lookup_insert_eq _ _ _)).
Qed.
End theory.
End ArtifactTheory.

(** ** The properties *)

Section properties.
Context `{Env} `{ExecEnv}.

Lemma artifact_inv destination events files source c :
  copyAll destination events (startCopy files source) = Some c -> ArtifactTheory.filesInv destination files c.
Proof. intros Hr. eapply ArtifactTheory.copyAll_files; [exact Hr|apply ArtifactTheory.startCopy_files]. Qed.

Lemma artifact_run destination events files source c :
  copyAll destination events (startCopy files source) = Some c ->
  forall r, cy_stage c = Copied (Ok r) -> exists data, stored destination (cy_files c) r data.
Proof. intros [_ _ Hs]%artifact_inv r E. by rewrite E in Hs. Qed.

(** C21: A copy of an artifact is all or nothing: whatever fails, whatever the job
    writes meanwhile and wherever the agent is stopped, only the destination and
    the temporary file change; the destination is as it was until copyArtifact
    returns, and then it holds exactly the bytes whose number and SHA-256 it
    returned; where the job only appends, these begin with the file as it was
    before and are the beginning of the file as it is afterwards. *)
Theorem artifact_copied (destination : string) (events : list CopyEvent) (files : gmap string string)
    (source : option string) (c : Copy) :
  copyAll destination events (startCopy files source) = Some c ->
  (forall p, p <> partial destination -> p <> destination -> cy_files c !! p = files !! p) /\
  match cy_stage c with
  | Copied (Ok r) => exists data, stored destination (cy_files c) r data /\
      (forall before now, source = Some before -> appends before events -> cy_source c = Some now ->
         extends before data /\ extends data now)
  | _ => cy_files c !! destination = files !! destination
  end.
Proof.
  intros Hr. destruct (artifact_inv _ _ _ _ _ Hr) as [Ho Hd Hs]. split; [exact Ho|]. destruct (cy_stage c) as [| | | | | | |[r|e]] eqn:Ec; try (apply Hd; congruence).
  destruct Hs as [data Hst]. exists data. split; [exact Hst|]. intros before now -> Ha Hnow.
  assert (Hi : ArtifactTheory.sourceInv destination before c).
  { eapply ArtifactTheory.copyAll_source; [exact Hr|apply ArtifactTheory.startCopy_files|reflexivity|exact Ha|].
    exists before. split; [done|]. split; [apply ArtifactTheory.extends_refl|exact I]. }
  destruct Hi as (now' & En & _ & Hc). rewrite Ec in Hc. destruct r as [size sum]. rewrite Hnow in En. injection En as <-.
  destruct Hc as (copied & _ & Hb & He & Hf). destruct Hst as (Hf' & _ & _). rewrite Hf in Hf'. by injection Hf' as <-.
Qed.

(** One host for one copy: what copyArtifact returned, and the stored file. *)
Record copiedOn (h : Host) (sourcePath destination : string) (c : Copy) : Prop := {
  cp_events : exists events files source, copyAll destination events (startCopy files source) = Some c;
  cp_result : cy_stage c = Copied (h_copy h sourcePath destination);
  cp_file : h_file h destination = match cy_files c !! destination with None => Absent | Some data => Contents data None end;
}.

(** An artifact is announced as it is stored: its size and SHA-256 are those of
    the copy, and a text of at most 64 KiB is announced with the copy's content,
    anything else with none. *)
Theorem artifact_announced (h : Host) (workerID artifactRoot : string) (command : StoredCommand) (rule : ArtifactRule)
    (sourcePath relative : string) (a : ArtifactAnnouncement) (c : Copy) :
  Rel (sc_WorkDir command) sourcePath = Some relative ->
  copiedOn h sourcePath (artifactDestination artifactRoot (sc_Command command) rule relative) c ->
  collectMatch h workerID artifactRoot command rule sourcePath = Ok (Some a) ->
  exists data, cy_files c !! artifactDestination artifactRoot (sc_Command command) rule relative = Some data /\
    aa_Name a = ar_Name rule /\ aa_SizeBytes a = len data /\ aa_SHA256 a = hexText (sha256 data) /\
    aa_Content a = if (len data <=? maxInlineArtifactBytes) && utf8Valid data then data else "".
Proof.
  intros Hrel [(events & files & source & Hr) Hres Hfile]. unfold collectMatch. destruct (negb _); [done|]. rewrite Hrel.
  destruct (HasPrefix relative ".."); [done|]. 
  destruct (h_copy h sourcePath _) as [[size sum]|e] eqn:Eh; [|done]. intros [= <-].
  destruct (artifact_run _ _ _ _ _ Hr _ Hres) as (data & Hd & _ & [= -> ->]). exists data.
  cbn [aa_Name aa_SizeBytes aa_SHA256 aa_Content]. split_and!; [done..|].
  unfold inlineArtifactContent. rewrite Hfile, Hd, Z.eqb_refl. cbn [andb].
  destruct (Z.eqb_spec (len data) 0) as [E|_]; cbn [orb].
  { destruct data; [by destruct (_ && _)|]. unfold len in E. cbn in E. lia. }
  destruct (Z.ltb_spec maxInlineArtifactBytes (len data)), (Z.leb_spec (len data) maxInlineArtifactBytes); try lia; done.
Qed.
End properties.

(** ** The properties on a concrete artifact *)

#[local] Existing Instance demoEnv.
#[local] Existing Instance demoWorkerEnv.
#[local] Existing Instance demoGit.
#[local] Existing Instance demoExec.

(** A log that grows while it is copied; the copy before it stays until the end. *)
Definition growingCopy : list CopyEvent := [
  MkdirAll None; OpenSource None; OpenTarget None; MoveSome 6; JobWrites "epoch 1, epoch 2"; MoveSome 100; ReachEnd;
  Sync None; JobWrites "epoch 1, epoch 2, epoch 3"; CloseTarget None; Rename None].
Definition keptFiles : gmap string string := {["/artifacts/log" := "old"]}.
Definition grownCopy : Copy :=
  default (startCopy ∅ None) (copyAll "/artifacts/log" growingCopy (startCopy keptFiles (Some "epoch 1"))).

Lemma artifact_copied_witness : exists data,
  stored "/artifacts/log" (cy_files grownCopy) (16, hexText (sha256 "epoch 1, epoch 2")) data /\
  extends "epoch 1" data /\ extends data "epoch 1, epoch 2, epoch 3".
Proof.
  assert (Er : copyAll "/artifacts/log" growingCopy (startCopy keptFiles (Some "epoch 1")) = Some grownCopy)
    by (vm_compute; reflexivity).
  assert (Es : cy_stage grownCopy = Copied (Ok (16, hexText (sha256 "epoch 1, epoch 2")))) by (vm_compute; reflexivity).
  destruct (artifact_copied _ _ _ _ _ Er) as [_ Hd]. rewrite Es in Hd. destruct Hd as (data & Hst & Ha). exists data.
  split; [exact Hst|]. apply (Ha "epoch 1" "epoch 1, epoch 2, epoch 3"); [reflexivity| |vm_compute; reflexivity].
  split; [by exists ", epoch 2"|]. split; [by exists ", epoch 3"|exact I].
Defined.

(** A small text that is announced with its content. *)
Definition logRule : ArtifactRule := {| ar_Name := "log"; ar_Glob := "*.txt" |}.
Definition logDestination : string := artifactDestination "/artifacts" (sc_Command launchedCommand) logRule "log.txt".
Definition copyHost : Host := {|
  h_clock := λ _, t0; h_file := withFile logDestination "epoch 1"; h_alive := λ _, true;
  h_glob := λ _, Ok []; h_regular := λ _, true; h_copy := λ _ _, Ok (7, hexText (sha256 "epoch 1")); h_mkdir := λ _, None;
  h_openLog := λ _, None; h_executable := Ok "lcjs"; h_start := λ _, Ok 1; h_environ := [] |}.
Definition logCopy : Copy :=
  default (startCopy ∅ None) (copyAll logDestination (ArtifactTheory.undisturbedCopy "epoch 1") (startCopy ∅ (Some "epoch 1"))).

Lemma artifact_announced_witness : exists a data,
  collectMatch copyHost demoWorker "/artifacts" launchedCommand logRule "/srv/physics/log.txt" = Ok (Some a) /\
  cy_files logCopy !! logDestination = Some data /\ aa_Content a = data /\ aa_SHA256 a = hexText (sha256 data).
Proof.
  destruct (collectMatch copyHost demoWorker "/artifacts" launchedCommand logRule "/srv/physics/log.txt") as [[a|]|e] eqn:Ea;
    [|exfalso; vm_compute in Ea; discriminate Ea..].
  destruct (artifact_announced copyHost demoWorker "/artifacts" launchedCommand logRule "/srv/physics/log.txt" "log.txt" a logCopy)
    as (data & Hd & _ & _ & Hs & Hc).
  - vm_compute. reflexivity.
  - split; [|vm_compute; reflexivity..].
    exists (ArtifactTheory.undisturbedCopy "epoch 1"), ∅, (Some "epoch 1"). vm_compute. reflexivity.
  - exact Ea.
  - exists a, data. split; [done|]. split; [exact Hd|]. split; [|exact Hs]. rewrite Hc.
    assert (E : data = "epoch 1"); [|rewrite E; vm_compute; reflexivity].
    change (cy_files logCopy !! logDestination = Some data) in Hd. vm_compute in Hd. by injection Hd.
Defined.
