(* ===== verification/Html.v ===== *)
(** * Pages of HTML (html/template)

    What html/template makes of a template: the template's own text as it is, and
    every value escaped for its place. A page is the list of the two; what is
    proved is that escaped values cannot change where the browser is in the
    page's markup, and are shown as they were. *)

From S2P Require Import Prelude Utf8 GoLib Encoding.

(** ** Escaping *)

Definition quoteChar : ascii := "034"%char.

(** htmlReplacementTable; a NUL becomes U+FFFD. *)
Definition htmlReplacement (c : ascii) : list ascii :=
  let code := N_of_ascii c in
  if (code =? 0)%N then ascii_of_N <$> [239; 191; 189]%N
  else if (code =? 34)%N then chars "&#34;"
  else if (code =? 38)%N then chars "&amp;"
  else if (code =? 39)%N then chars "&#39;"
  else if (code =? 43)%N then chars "&#43;"
  else if (code =? 60)%N then chars "&lt;"
  else if (code =? 62)%N then chars "&gt;"
  else [c].

(** The escaper of text, of titles and of quoted attributes. *)
Definition htmlEscape (s : string) : string := unchars (chars s ≫= htmlReplacement).

Definition isHexDigit (c : ascii) : bool :=
  let n := N_of_ascii c in
  ((48 <=? n) && (n <=? 57))%N || ((97 <=? n) && (n <=? 102))%N || ((65 <=? n) && (n <=? 70))%N.
Definition isAlphanumeric (c : ascii) : bool :=
  let n := N_of_ascii c in
  ((48 <=? n) && (n <=? 57))%N || ((97 <=? n) && (n <=? 122))%N || ((65 <=? n) && (n <=? 90))%N.

(** urlnormalizer: what is not a character of URLs is percent-encoded, and an
    escape that is there already stays. *)
Fixpoint normalizeChars (s : list ascii) : list ascii :=
  match s with
  | [] => []
  | c :: rest =>
      let kept := isAlphanumeric c || existsb (Ascii.eqb c) (chars "!#$&*+,/:;=?@[]-._~") ||
                  (Ascii.eqb c "%" &&
                   match rest with a :: b :: _ => isHexDigit a && isHexDigit b | _ => false end) in
      (if kept then [c] else "%"%char :: chars (hexText (String c ""))) ++ normalizeChars rest
  end.
Definition urlNormalize (s : string) : string := unchars (normalizeChars (chars s)).

Example escapes : (htmlEscape "<a href='x'>1 + 1 & 2</a>", urlNormalize "job_1/<b>%2f%") =
  ("&lt;a href=&#39;x&#39;&gt;1 &#43; 1 &amp; 2&lt;/a&gt;", "job_1/%3cb%3e%2f%25").
Proof. vm_compute. reflexivity. Qed.

(** ** Pages *)

Inductive Piece :=
  | Markup (text : string)      (* of the template *)
  | Value (text : string).      (* before it is escaped *)
Definition Page : Type := list Piece.

#[export] Instance Piece_eq_dec : EqDecision Piece.
Proof. solve_decision. Defined.

Definition pieceText (p : Piece) : string := match p with Markup text => text | Value text => htmlEscape text end.
Definition render (p : Page) : string := unchars (p ≫= λ x, chars (pieceText x)).

(** The page with every value left empty. *)
Definition blanked (p : Page) : Page := (λ x, match x with Markup text => Markup text | Value _ => Value "" end) <$> p.

(** ** What a browser makes of it *)

(** Where it is: in text, in a tag, or in a quoted attribute value. *)
Inductive Place := InText | InTag | InQuoted.

#[export] Instance Place_eq_dec : EqDecision Place.
Proof. solve_decision. Defined.

Definition readChar (p : Place) (c : ascii) : Place :=
  match p with
  | InText => if Ascii.eqb c "<" then InTag else InText
  | InTag => if Ascii.eqb c ">" then InText else if Ascii.eqb c quoteChar then InQuoted else InTag
  | InQuoted => if Ascii.eqb c quoteChar then InTag else InQuoted
  end.
Definition readText (p : Place) (s : list ascii) : Place := foldl readChar p s.

(** The characters that are markup: those of tags without the attribute values. *)
Fixpoint markupOf (p : Place) (s : list ascii) : list ascii :=
  match s with
  | [] => []
  | c :: rest =>
      let p' := readChar p c in
      (if bool_decide (p = InTag \/ p' = InTag) then [c] else []) ++ markupOf p' rest
  end.

(** The character references of the escapers. *)
Definition references : list (string * ascii) :=
  [("&#34;", quoteChar); ("&amp;", "&"%char); ("&#39;", "'"%char); ("&#43;", "+"%char); ("&lt;", "<"%char); ("&gt;", ">"%char)].

(** The text a browser shows. *)
Fixpoint shown (fuel : nat) (s : list ascii) : list ascii :=
  match fuel, s with
  | S fuel, c :: rest =>
      match List.find (λ r, bool_decide (is_Some (dropPrefix (chars r.1) s))) references with
      | Some (text, char) => char :: shown fuel (drop (String.length text) s)
      | None => c :: shown fuel rest
      end
  | _, _ => []
  end.
Definition shownText (s : string) : string := unchars (shown (String.length s) (chars s)).

(** A value as it is shown. *)
Definition withoutNUL (s : string) : string :=
  unchars (chars s ≫= λ c, if (N_of_ascii c =? 0)%N then ascii_of_N <$> [239; 191; 189]%N else [c]).

(** Values stand in text and in quoted attribute values only. *)
Fixpoint placed (p : Place) (page : Page) : option Place :=
  match page with
  | [] => Some p
  | Markup text :: rest => placed (readText p (chars text)) rest
  | Value _ :: rest => if bool_decide (p = InTag) then None else placed p rest
  end.

Module HtmlTheory.

Definition harmless (c : ascii) : Prop := c <> "<"%char /\ c <> quoteChar.

(** A fact about all characters. *)
Lemma all_chars (P : ascii -> bool) : forallb P (ascii_of_N <$> (N.of_nat <$> seq 0 256)) = true -> forall c, P c = true.
Proof.
  intros H c. rewrite forallb_forall in H. apply H. apply list_elem_of_In, list_elem_of_fmap.
  exists (N_of_ascii c). split; [by rewrite ascii_N_embedding|]. apply list_elem_of_fmap. exists (N.to_nat (N_of_ascii c)).
  split; [by rewrite N2Nat.id|]. apply elem_of_seq. pose proof (N_ascii_bounded c). lia.
Qed.

Lemma replacement_harmless c : Forall harmless (htmlReplacement c).
Proof.
  assert (H : forallb (λ x, negb (Ascii.eqb x "<") && negb (Ascii.eqb x quoteChar)) (htmlReplacement c) = true).
  { revert c. apply all_chars. vm_compute. reflexivity. }
  apply Forall_forall. intros x Hx%list_elem_of_In. rewrite forallb_forall in H. apply H in Hx.
  apply andb_true_iff in Hx as [H1 H2]. apply negb_true_iff in H1, H2. apply Ascii.eqb_neq in H1, H2. by split.
Qed.

Lemma escape_harmless s : Forall harmless (chars (htmlEscape s)).
Proof. unfold htmlEscape. rewrite Utf8Theory.chars_unchars. apply Forall_bind, Forall_true. apply replacement_harmless. Qed.

(** Harmless text leaves the browser where it is, and is no markup. *)
Lemma harmless_stays p s : p <> InTag -> Forall harmless s -> readText p s = p /\ markupOf p s = [].
Proof.
  intros Hp Hs. induction Hs as [|c s [H1 H2] _ IH]; [done|]. destruct IH as [IH1 IH2].
  assert (E : readChar p c = p).
  { destruct p; [|done|]; cbn; [apply Ascii.eqb_neq in H1; by rewrite H1|apply Ascii.eqb_neq in H2; by rewrite H2]. }
  unfold readText in *. cbn [foldl markupOf]. rewrite E, bool_decide_eq_false_2 by tauto. done.
Qed.

Lemma readText_app p s t : readText p (s ++ t) = readText (readText p s) t.
Proof. apply foldl_app. Qed.

Lemma markupOf_app p s t : markupOf p (s ++ t) = markupOf p s ++ markupOf (readText p s) t.
Proof. revert p. induction s as [|c s IH]; intros p; [done|]. cbn. by rewrite IH, <- app_assoc. Qed.

(** *** Pages *)

Lemma placed_app p q1 q2 : placed p (q1 ++ q2) = (p' ← placed p q1; placed p' q2).
Proof. revert p. induction q1 as [|[t|t] q1 IH]; intros p; cbn; [done|apply IH|]. by destruct (bool_decide _). Qed.

Lemma render_chars page : chars (render page) = page ≫= λ x, chars (pieceText x).
Proof. apply Utf8Theory.chars_unchars. Qed.

(** Values that are in their places change nothing. *)
Lemma placed_markup page : forall p p', placed p page = Some p' ->
  readText p (chars (render page)) = p' /\
  markupOf p (chars (render page)) = markupOf p (chars (render (blanked page))).
Proof.
  setoid_rewrite render_chars. induction page as [|[t|t] page IH]; intros p p'; cbn [placed blanked fmap list_fmap].
  - by intros [= <-].
  - intros [H1 H2]%IH. cbn. rewrite readText_app, !markupOf_app. split; [done|]. f_equal. exact H2.
  - destruct (bool_decide (p = InTag)) eqn:E; [done|]. apply bool_decide_eq_false in E. intros [H1 H2]%IH. cbn.
    destruct (harmless_stays p _ E (escape_harmless t)) as [Hr Hm]. rewrite readText_app, markupOf_app, Hr, Hm. by split.
Qed.

(** *** What is shown *)

Lemma shown_plain fuel c rest : c <> "&"%char -> shown (S fuel) (c :: rest) = c :: shown fuel rest.
Proof.
  intros Hc. cbn [shown]. assert (E : List.find (λ r : string * ascii, bool_decide (is_Some (dropPrefix (chars r.1) (c :: rest)))) references = None);
    [|by rewrite E].
  assert (Hd : forall p, dropPrefix ("&"%char :: p) (c :: rest) = None) by (intros p; cbn; by rewrite decide_False by congruence).
  unfold references. cbn [List.find fst].
  repeat match goal with |- context [dropPrefix (chars ?t) (c :: rest)] =>
    let p := eval cbv in (List.tl (chars t)) in change (chars t) with ("&"%char :: p); rewrite (Hd p) end. reflexivity.
Qed.

Lemma shown_reference fuel text char rest : (text, char) ∈ references ->
  shown (S fuel) (chars text ++ rest) = char :: shown fuel rest.
Proof.
  intros Hin. repeat (apply elem_of_cons in Hin as [[= -> ->]|Hin]; [reflexivity|]). by apply elem_of_nil in Hin.
Qed.

Lemma charCode c k : N_of_ascii c = k -> c = ascii_of_N k.
Proof. intros <-. by rewrite ascii_N_embedding. Qed.

(** An escaped character is shown as it was. *)
Lemma shown_step c rest fuel : (length (htmlReplacement c ++ rest) <= fuel)%nat -> exists k, (length rest <= k)%nat /\
  shown fuel (htmlReplacement c ++ rest) =
    (if (N_of_ascii c =? 0)%N then ascii_of_N <$> [239; 191; 189]%N else [c]) ++ shown k rest.
Proof.
  rewrite length_app. unfold htmlReplacement. cbv zeta.
  destruct (N.eqb_spec (N_of_ascii c) 0) as [_|_].
  { intros Hf. destruct fuel as [|[|[|fuel]]]; cbn in Hf; try lia. exists fuel. split; [lia|].
    cbn [fmap list_fmap app]. by rewrite !shown_plain by (vm_compute; congruence). }
  repeat match goal with
  | |- context [(N_of_ascii c =? ?k)%N] => destruct (N.eqb_spec (N_of_ascii c) k) as [Ek|?];
      [apply charCode in Ek as ->; intros Hf; destruct fuel as [|fuel]; [cbn in Hf; lia|]; exists fuel; split;
       [cbn in Hf; lia|apply shown_reference; apply (bool_decide_unpack _); vm_compute; exact I]|]
  end.
  intros Hf. destruct fuel as [|fuel]; cbn in Hf; [lia|]. exists fuel. split; [lia|]. cbn [app].
  apply shown_plain. intros ->. match goal with Hne : N_of_ascii "&" <> 38%N |- _ => by apply Hne end.
Qed.

Lemma shown_escaped cs : forall fuel, (length (cs ≫= htmlReplacement) <= fuel)%nat ->
  shown fuel (cs ≫= htmlReplacement) = cs ≫= λ c, if (N_of_ascii c =? 0)%N then ascii_of_N <$> [239; 191; 189]%N else [c].
Proof.
  induction cs as [|c cs IH]; intros fuel Hf; [by destruct fuel|]. cbn [mbind list_bind] in *.
  destruct (shown_step c (cs ≫= htmlReplacement) fuel Hf) as (k & Hk & ->). f_equal. by apply IH.
Qed.

(** What was escaped is shown as it was. *)
Lemma escape_shown s : shownText (htmlEscape s) = withoutNUL s.
Proof.
  unfold shownText, withoutNUL, htmlEscape. rewrite Utf8Theory.chars_unchars. f_equal. apply shown_escaped.
  rewrite <- Utf8Theory.chars_length, Utf8Theory.chars_unchars. lia.
Qed.
End HtmlTheory.
