(* ===== verification/Pages.v ===== *)
(** * The pages of the console (internal/httpapi/ui.go)

    The three templates, piece by piece: [m] is the template's own text, with a
    caret for a double quote, [v] and [u] are values in text or an attribute and
    in an address, [n] is a number, and range, with and if are functions of
    lists, options and conditions. What is proved is that no value, whatever a
    job, a worker or an operator made it, can change the markup of a page. *)

From S2P Require Import Prelude Utf8 Times GoLib Encoding FloatText Ids Domain Validate Database Jobs Health Events.
From S2P Require Import Lifecycle Auth Scheduler Sync Control Scenario Details Report Console Http Html.

(** ** The actions of templates *)

Module Actions.
Definition m (text : string) : Page :=
  [Markup (unchars ((λ c, if Ascii.eqb c "^" then quoteChar else c) <$> chars text))].
Definition v (value : string) : Page := [Value value].
Definition u (value : string) : Page := [Value (urlNormalize value)].
Definition n (value : Z) : Page := [Value (decimalText value)].
Definition count {A} (l : list A) : Page := n (Z.of_nat (length l)).
(** range *)
Definition each {A} (body : A -> Page) (l : list A) : Page := l ≫= body.
Definition eachIndexed {A} (body : nat -> A -> Page) (l : list A) : Page := imap pair l ≫= λ x, body x.1 x.2.
Definition orElse {A} (l : list A) (full empty : Page) : Page := match l with [] => empty | _ => full end.
(** A text or a list that is not empty counts as true. *)
Definition given (s : string) : bool := negb (s =? "")%string.
Definition some {A} (l : list A) : bool := match l with [] => false | _ => true end.
End Actions.
Import Actions.

(** ** The texts of states and reasons *)

Definition WorkerStatus_text (s : WorkerStatus) : string :=
  match s with WorkerOnline => "online" | WorkerOffline => "offline" end.
Definition DeliveryState_text (s : DeliveryState) : string :=
  match s with DeliveryPending => "pending" | DeliveryDelivered => "delivered" | DeliveryDead => "dead" end.

(** time.Duration.String: a fraction without trailing zeros, with its unit. *)
Definition fractionText (digits : nat) (n : Z) : string :=
  let f := trimZerosRight (digitText digits (n mod 10 ^ Z.of_nat digits)) in
  decimalText (n / 10 ^ Z.of_nat digits) +:+ (if (f =? "")%string then "" else "." +:+ f).
Definition durationText (d : Z) : string :=
  let a := Z.abs d in
  (if d <? 0 then "-" else "") +:+
  (if a =? 0 then "0s"
   else if a <? 1000 then decimalText a +:+ "ns"
   else if a <? 1000000 then fractionText 3 a +:+ "µs"
   else if a <? 1000000000 then fractionText 6 a +:+ "ms"
   else
     let seconds := fractionText 9 (a mod (60 * GoTime.Second)) +:+ "s" in
     let minutes := a / (60 * GoTime.Second) in
     if minutes =? 0 then seconds
     else if minutes <? 60 then decimalText minutes +:+ "m" +:+ seconds
     else decimalText (minutes / 60) +:+ "h" +:+ decimalText (minutes mod 60) +:+ "m" +:+ seconds).

Example durationText_examples : (durationText 0, durationText 1500, durationText (90 * GoTime.Second), durationText (30 * GoTime.Minute),
    durationText (26 * GoTime.Hour + 5 * GoTime.Second), durationText (1500 * GoTime.Second / 1000), durationText (-2000000)) =
  ("0s", "1.5µs", "1m30s", "30m0s", "26h0m5s", "1.5s", "-2ms").
Proof. vm_compute. reflexivity. Qed.

(** The sentences of internal/store/sqlite/health.go and workers.go. *)
Definition reasonText (reason : option Reason) : string :=
  match reason with
  | None => ""
  | Some (ReasonFinished state exitCode) =>
      "attempt finished as " +:+ AttemptState_text state +:+ " (exit code " +:+ decimalText exitCode +:+ ")"
  | Some (ReasonRunning running) => "attempt has been running for " +:+ durationText running
  | Some (ReasonStalled metric delta samples window minimum) =>
      "metric " +:+ metric +:+ " improved by " +:+ printFloat delta +:+ " across " +:+ decimalText (Z.of_nat samples) +:+
      " samples in " +:+ durationText window +:+ "; required at least " +:+ printFloat minimum
  end.

(** ** loginTemplate *)

Definition loginHTML (error : string) : Page :=
  m "<!doctype html>
<html lang=^en^ data-theme=^light^>
<head>
  <meta charset=^utf-8^>
  <meta name=^viewport^ content=^width=device-width, initial-scale=1^>
  <meta name=^color-scheme^ content=^light dark^>
  <title>Sign in · Compute Jobs</title>
  <link rel=^stylesheet^ href=^/static/app.css?v=4^>
  <script src=^/static/theme.js^></script>
</head>
<body>
  <header class=^topbar^>
    <a class=^brand^ href=^/^>Compute Jobs</a>
    <label class=^theme-control^>Theme
      <select data-theme-picker aria-label=^Color theme^>
        <option value=^light^>Light</option>
        <option value=^dark^>Dark</option>
        <option value=^system^>System</option>
      </select>
    </label>
  </header>
  <main class=^login-main^>
    <section class=^login-panel^ aria-labelledby=^login-title^>
      <h1 id=^login-title^>Operator sign in</h1>
      <p>Enter an operator key once. This browser will stay signed in for 90 days.</p>
      " ++ (if given (error) then
   m "<div class=^notice error^ role=^alert^>" ++ v error ++ m "</div>"
   else []) ++ m "
      <form method=^post^ action=^/login^>
        <label for=^key^>Operator key</label>
        <input id=^key^ name=^key^ type=^password^ autocomplete=^off^ spellcheck=^false^ required autofocus>
        <button type=^submit^>Sign in</button>
      </form>
      <p class=^fine^>The key is exchanged for a secure browser session and is not stored in browser storage.</p>
    </section>
  </main>
</body>
</html>".

(** ** dashboardTemplate *)

Definition lineItem (metric : MetricDefinition) (line : MetricReferenceLine) : Page :=
  m "<span class=^reference-line^ data-kind=^" ++ v (rl_Kind line) ++ m "^><i aria-hidden=^true^></i>" ++ v (rl_Label line) ++ m " <b>" ++ v (formatMetricValue metric (rl_Value line)) ++ m "</b></span>".

Definition metricItem (metric : MetricDefinition) : Page :=
  m "<div class=^metric-definition^>
                    <div><strong>" ++ v (metricName metric) ++ m "</strong>" ++ (let objective := metricObjective (m_Objective metric) in
   if given objective then m "<small class=^objective^>" ++ v objective ++ m "</small>" else []) ++ m "</div>
                    " ++ orElse (m_ReferenceLines metric) (each (lineItem metric) (m_ReferenceLines metric))
  (m "<span class=^no-reference^>No reference lines</span>") ++ m "
                  </div>".

Definition jobRow (job : Job) : Page :=
  m "
            <tr>
              <td><span class=^state^ data-state=^" ++ v (JobState_text (j_State job)) ++ m "^>" ++ v (JobState_text (j_State job)) ++ m "</span></td>
              <td><strong><a href=^/jobs/" ++ u (j_ID job) ++ m "^>" ++ v (s_Name (j_Spec job)) ++ m "</a></strong><small title=^" ++ v (j_ID job) ++ m "^>" ++ v (j_ID job) ++ m "</small><small class=^command^ title=^" ++ v (commandText (s_Command (j_Spec job))) ++ m "^>" ++ v (commandText (s_Command (j_Spec job))) ++ m "</small></td>
              <td>" ++ v (s_Project (j_Spec job)) ++ m "</td>
              <td>" ++ v (resourcesText (s_Resources (j_Spec job))) ++ m "</td>
              <td>
                " ++ (if some (s_Metrics (j_Spec job)) then
   m "<div class=^metric-list^>
                  " ++ each metricItem (s_Metrics (j_Spec job)) ++ m "
                </div>"
   else m "—") ++ m "
              </td>
              <td class=^numeric^>" ++ n (s_Priority (j_Spec job)) ++ m "</td>
              <td><time datetime=^" ++ v (isoTime (j_CreatedAt job)) ++ m "^>" ++ v (jobTime (j_CreatedAt job)) ++ m "</time></td>
            </tr>
            ".

Definition workerRow (worker : Worker) : Page :=
  m "<tr>
          <td><span class=^state^ data-state=^" ++ v (WorkerStatus_text (w_Status worker)) ++ m "^>" ++ v (WorkerStatus_text (w_Status worker)) ++ m "</span></td>
          <td><strong>" ++ v (w_Name worker) ++ m "</strong><small>" ++ v (w_ID worker) ++ m "</small></td>
          <td>" ++ v (workerResources (w_Capacity worker)) ++ m "</td>
          <td><small class=^wide^>" ++ v (labelsText (map_to_list (c_Labels (w_Capacity worker)))) ++ m "</small></td>
          <td>" ++ v (optionalTime (w_LastSeenAt worker)) ++ m "</td>
          <td><small class=^wide^ title=^" ++ v (w_AgentVersion worker) ++ m "^>" ++ v (w_AgentVersion worker) ++ m "</small></td>
        </tr>".

Definition dashboardHTML (view : dashboardView) : Page :=
  m "<!doctype html>
<html lang=^en^ data-theme=^light^>
<head>
  <meta charset=^utf-8^>
  <meta name=^viewport^ content=^width=device-width, initial-scale=1^>
  <meta name=^color-scheme^ content=^light dark^>
  <meta http-equiv=^refresh^ content=^30^>
  <title>Compute Jobs</title>
  <link rel=^stylesheet^ href=^/static/app.css?v=4^>
  <script src=^/static/theme.js^></script>
</head>
<body>
  <header class=^topbar^>
    <a class=^brand^ href=^/^>Compute Jobs</a>
    <nav class=^toolbar^ aria-label=^Console controls^>
      <span class=^online^><span aria-hidden=^true^></span>Control plane online</span>
      <label class=^theme-control^>Theme
        <select data-theme-picker aria-label=^Color theme^>
          <option value=^light^>Light</option>
          <option value=^dark^>Dark</option>
          <option value=^system^>System</option>
        </select>
      </label>
      <form method=^post^ action=^/logout^><button class=^button-secondary^ type=^submit^>Sign out</button></form>
    </nav>
  </header>
  <main class=^console^>
    <div class=^section-heading^>
      <div><h1>Overview</h1><p>Central scheduler state · refreshes every 30 seconds</p></div>
      <span class=^identity^>" ++ v (dv_TokenName view) ++ m "</span>
    </div>
    <dl class=^stats^>
      <div><dt>Queued</dt><dd>" ++ n (dv_Queued view) ++ m "</dd></div>
      <div><dt>Active</dt><dd>" ++ n (dv_Active view) ++ m "</dd></div>
      <div><dt>Failed</dt><dd>" ++ n (dv_Failed view) ++ m "</dd></div>
      <div><dt>Succeeded</dt><dd>" ++ n (dv_Succeeded view) ++ m "</dd></div>
      <div><dt>Workers</dt><dd>" ++ count (dv_Workers view) ++ m "</dd></div>
    </dl>

    <section class=^panel^ aria-labelledby=^jobs-title^>
      <div class=^panel-header^><h2 id=^jobs-title^>Jobs</h2><span>" ++ count (dv_Jobs view) ++ m " total shown</span></div>
      <div class=^table-scroll^>
        <table>
          <thead><tr><th>State</th><th>Job</th><th>Project</th><th>Resources</th><th>Metrics &amp; references</th><th>Priority</th><th>Created</th></tr></thead>
          <tbody>
            " ++ orElse (dv_Jobs view) (each jobRow (dv_Jobs view))
  (m "
            <tr><td class=^empty^ colspan=^7^>No jobs submitted.</td></tr>
            ") ++ m "
          </tbody>
        </table>
      </div>
    </section>

    <section class=^panel^ aria-labelledby=^workers-title^>
      <div class=^panel-header^><h2 id=^workers-title^>Workers</h2><span>" ++ count (dv_Workers view) ++ m " enrolled</span></div>
      " ++ (if some (dv_Workers view) then
   m "<div class=^table-scroll^><table>
        <thead><tr><th>Status</th><th>Worker</th><th>Capacity</th><th>Labels</th><th>Last seen</th><th>Agent</th></tr></thead>
        <tbody>" ++ each workerRow (dv_Workers view) ++ m "</tbody>
      </table></div>"
   else m "
      <div class=^empty-block^><strong>No workers enrolled.</strong><span>Provision a worker-bound credential with <code>lcjs worker create</code>.</span></div>
      ") ++ m "
    </section>
  </main>
</body>
</html>".

(** ** jobTemplate *)

Section job.
Context `{IndentText}.

Definition attemptRow (attempt : Attempt) : Page :=
  m "<tr>
          <td class=^numeric^>" ++ n (a_AttemptNumber attempt) ++ m "</td>
          <td><span class=^state^ data-state=^" ++ v (AttemptState_text (a_State attempt)) ++ m "^>" ++ v (AttemptState_text (a_State attempt)) ++ m "</span><small>" ++ v (a_ID attempt) ++ m "</small></td>
          <td><small class=^wide^>" ++ v (a_WorkerID attempt) ++ m "</small></td>
          <td>" ++ match a_Git attempt with
  | Some git => m "<code title=^" ++ v (gs_Commit git) ++ m "^>" ++ v (shortCommit (gs_Commit git)) ++ m "</code><small>" ++ (if given (gs_Branch git) then
   v (gs_Branch git)
   else m "detached") ++ (if gs_Dirty git then
   m " · dirty"
   else []) ++ m "</small>"
  | None => m "—"
  end ++ m "</td>
          <td>" ++ v (optionalTime (a_StartedAt attempt)) ++ m "</td><td>" ++ v (optionalTime (a_FinishedAt attempt)) ++ m "</td><td class=^numeric^>" ++ v (exitCodeText (a_ExitCode attempt)) ++ m "</td>
          <td><small class=^wide^ title=^" ++ v (a_LogURI attempt) ++ m "^>" ++ (if given (a_LogURI attempt) then
   v (a_LogURI attempt)
   else m "—") ++ m "</small></td>
          <td class=^error-cell^>" ++ (if given (a_Error attempt) then
   v (a_Error attempt)
   else m "—") ++ m "</td>
        </tr>".

Definition attemptLog (attempt : Attempt) : Page :=
  (if given (a_LogTail attempt) then
   m "<details class=^log-tail^ open><summary>Attempt " ++ n (a_AttemptNumber attempt) ++ m " recent log (last 64 KiB)</summary><pre>" ++ v (a_LogTail attempt) ++ m "</pre></details>"
   else []).

Definition artifactRow (artifact : Artifact) : Page :=
  m "<tr><td><strong>" ++ v (f_Name artifact) ++ m "</strong></td><td class=^numeric^>" ++ n (f_SizeBytes artifact) ++ m " B</td><td><small class=^wide^>" ++ v (f_SHA256 artifact) ++ m "</small></td><td><small class=^wide^>" ++ v (f_URI artifact) ++ m "</small></td><td>" ++ v (jobTime (f_CreatedAt artifact)) ++ m "</td></tr>".

Definition artifactContent (artifact : Artifact) : Page :=
  (if given (f_Content artifact) then
   m "<details class=^log-tail^><summary>" ++ v (f_Name artifact) ++ m " · " ++ n (f_SizeBytes artifact) ++ m " B</summary><pre>" ++ v (artifactPreview artifact) ++ m "</pre></details>"
   else []).

Definition policyRow (index : nat) (policy : HealthPolicy) : Page :=
  m "<tr><td class=^numeric^>" ++ n (Z.of_nat index) ++ m "</td><td>" ++ v (hp_Kind policy) ++ m "</td><td>" ++ (if given (hp_Metric policy) then
   v (hp_Metric policy)
   else m "—") ++ m "</td><td>" ++ v (hp_Window policy) ++ m "</td><td>" ++ (if given (hp_Mode policy) then
   v (hp_Mode policy) ++ m " · Δ " ++ v (printFloat (hp_MinimumDelta policy))
   else m "—") ++ m "</td><td>" ++ v (hp_Action policy) ++ m "</td><td><code>" ++ v (hp_Target policy) ++ m "</code></td></tr>".

Definition firingRow (firing : HealthFiring) : Page :=
  m "<tr><td>" ++ v (jobTime (h_CreatedAt firing)) ++ m "</td><td>" ++ v (h_Kind firing) ++ m "</td><td class=^reason-cell^>" ++ v (reasonText (h_Reason firing)) ++ m "</td><td><code>" ++ v (h_Target firing) ++ m "</code></td><td><span class=^state^ data-state=^" ++ v (DeliveryState_text (ds_State (h_Delivery firing))) ++ m "^>" ++ v (DeliveryState_text (ds_State (h_Delivery firing))) ++ m "</span></td><td class=^numeric^>" ++ n (ds_AttemptCount (h_Delivery firing)) ++ m "</td><td class=^numeric^>" ++ v (exitCodeText (ds_ResponseCode (h_Delivery firing))) ++ m "</td><td class=^error-cell^>" ++ (if given (ds_LastError (h_Delivery firing)) then
   v (ds_LastError (h_Delivery firing))
   else m "—") ++ m "</td></tr>".

Definition jobHTML (tokenName : string) (detail : JobDetail) : Page :=
  let job := jd_Job detail in
  let spec := j_Spec job in
  m "<!doctype html>
<html lang=^en^ data-theme=^light^>
<head>
  <meta charset=^utf-8^>
  <meta name=^viewport^ content=^width=device-width, initial-scale=1^>
  <meta name=^color-scheme^ content=^light dark^>
  <title>" ++ v (s_Name spec) ++ m " · Compute Jobs</title>
  <link rel=^stylesheet^ href=^/static/uplot.css^>
  <link rel=^stylesheet^ href=^/static/app.css?v=4^>
  <script src=^/static/theme.js^></script>
  <script src=^/static/uplot.js^ defer></script>
  <script src=^/static/charts.js?v=1^ defer></script>
</head>
<body>
  <header class=^topbar^>
    <a class=^brand^ href=^/^>Compute Jobs</a>
    <nav class=^toolbar^ aria-label=^Console controls^>
      <a href=^/^>Overview</a>
      <label class=^theme-control^>Theme
        <select data-theme-picker aria-label=^Color theme^>
          <option value=^light^>Light</option>
          <option value=^dark^>Dark</option>
          <option value=^system^>System</option>
        </select>
      </label>
      <form method=^post^ action=^/logout^><button class=^button-secondary^ type=^submit^>Sign out</button></form>
    </nav>
  </header>
  <main class=^console^>
    <div class=^section-heading^>
      <div><h1>" ++ v (s_Name spec) ++ m " <span class=^state^ data-state=^" ++ v (JobState_text (j_State job)) ++ m "^>" ++ v (JobState_text (j_State job)) ++ m "</span></h1><p>" ++ v (s_Project spec) ++ m " · " ++ v (j_ID job) ++ m "</p></div>
      <span class=^identity^>" ++ v tokenName ++ m "</span>
    </div>

    <section class=^panel^ aria-labelledby=^spec-title^>
      <div class=^panel-header^><h2 id=^spec-title^>Execution</h2><span>revision " ++ n (j_Revision job) ++ m "</span></div>
      <dl class=^detail-grid^>
        <div><dt>Command</dt><dd><code>" ++ v (commandText (s_Command spec)) ++ m "</code></dd></div>
        <div><dt>Source</dt><dd>" ++ (if given (src_Commit (s_Source spec)) then
   m "<code>" ++ v (shortCommit (src_Commit (s_Source spec))) ++ m "</code><small>pinned commit</small>"
   else m "Worker project directory<small>git state recorded per attempt</small>") ++ m "</dd></div>
        <div><dt>Resources</dt><dd>" ++ v (resourcesText (s_Resources spec)) ++ m "</dd></div>
        <div><dt>Created</dt><dd>" ++ v (jobTime (j_CreatedAt job)) ++ m "</dd></div>
      </dl>
    </section>

    <section class=^panel^ aria-labelledby=^attempts-title^>
      <div class=^panel-header^><h2 id=^attempts-title^>Attempts</h2><span>" ++ count (jd_Attempts detail) ++ m " total</span></div>
      <div class=^table-scroll^><table>
        <thead><tr><th>#</th><th>State</th><th>Worker</th><th>Git state</th><th>Started</th><th>Finished</th><th>Exit</th><th>Log</th><th>Error</th></tr></thead>
        <tbody>" ++ orElse (jd_Attempts detail) (each attemptRow (jd_Attempts detail))
  (m "<tr><td class=^empty^ colspan=^9^>No attempt has been assigned.</td></tr>") ++ m "</tbody>
      </table></div>
      " ++ each attemptLog (jd_Attempts detail) ++ m "
    </section>

    <section class=^panel^ aria-labelledby=^metrics-title^>
      <div class=^panel-header^><h2 id=^metrics-title^>Metrics</h2><span data-metrics-meta>" ++ count (jd_Metrics detail) ++ m " samples</span></div>
      <div class=^metric-grid^ data-metric-charts data-job-id=^" ++ v (j_ID job) ++ m "^>
        <noscript><div class=^empty-block^><strong>Charts require JavaScript.</strong><span>Metric data remains available at metrics.json and the JSON API.</span></div></noscript>
      </div>
    </section>

    <section class=^panel^ aria-labelledby=^artifacts-title^>
      <div class=^panel-header^><h2 id=^artifacts-title^>Artifacts</h2><span>" ++ count (jd_Artifacts detail) ++ m " recorded</span></div>
      <div class=^table-scroll^><table>
        <thead><tr><th>Name</th><th>Size</th><th>SHA-256</th><th>Location</th><th>Created</th></tr></thead>
        <tbody>" ++ orElse (jd_Artifacts detail) (each artifactRow (jd_Artifacts detail))
  (m "<tr><td class=^empty^ colspan=^5^>No artifacts recorded.</td></tr>") ++ m "</tbody>
      </table></div>
      " ++ each artifactContent (jd_Artifacts detail) ++ m "
    </section>

    <section class=^panel^ aria-labelledby=^health-title^>
      <div class=^panel-header^><h2 id=^health-title^>Health &amp; notifications</h2><span>" ++ count (jd_Health detail) ++ m " fired</span></div>
      " ++ (if some (s_Health spec) then
   m "<div class=^table-scroll^><table>
        <thead><tr><th>#</th><th>Kind</th><th>Metric</th><th>Window</th><th>Rule</th><th>Action</th><th>Target</th></tr></thead>
        <tbody>" ++ eachIndexed policyRow (s_Health spec) ++ m "</tbody>
      </table></div>"
   else m "<div class=^empty-block^><strong>No health policies configured.</strong></div>") ++ m "
      " ++ (if some (jd_Health detail) then
   m "<div class=^table-scroll health-events^><table>
        <thead><tr><th>Fired</th><th>Kind</th><th>Reason</th><th>Target</th><th>Delivery</th><th>Attempts</th><th>Response</th><th>Error</th></tr></thead>
        <tbody>" ++ each firingRow (jd_Health detail) ++ m "</tbody>
      </table></div>"
   else []) ++ m "
    </section>
  </main>
</body>
</html>".

(** The body of a response as HTML, where it is a page. *)
Definition pageOf (b : Body) : option Page :=
  match b with
  | LoginPage error => Some (loginHTML error)
  | DashboardPage view => Some (dashboardHTML view)
  | JobPage tokenName detail => Some (jobHTML tokenName detail)
  | _ => None
  end.
End job.

(** ** Values stay in their places *)

Module PageTheory.
Import HtmlTheory.

Lemma placed_seq p p1 p2 q1 q2 : placed p q1 = Some p1 -> placed p1 q2 = Some p2 -> placed p (q1 ++ q2) = Some p2.
Proof. intros H1 H2. rewrite placed_app, H1. exact H2. Qed.
Lemma placed_v p x : p <> InTag -> placed p (v x) = Some p.
Proof. intros Hp. cbn. by rewrite bool_decide_eq_false_2. Qed.
Lemma placed_nil : placed InText [] = Some InText.
Proof. done. Qed.
Lemma placed_each {A} (body : A -> Page) l : (forall x, placed InText (body x) = Some InText) ->
  placed InText (each body l) = Some InText.
Proof.
  intros Hb. unfold each. induction l as [|x l IH]; [done|]. cbn [mbind list_bind]. by eapply placed_seq.
Qed.
Lemma placed_eachIndexed {A} (body : nat -> A -> Page) l : (forall i x, placed InText (body i x) = Some InText) ->
  placed InText (eachIndexed body l) = Some InText.
Proof. intros Hb. apply (placed_each (λ x, body x.1 x.2)). intros x. apply Hb. Qed.
Lemma placed_orElse {A} (l : list A) full empty : placed InText full = Some InText -> placed InText empty = Some InText ->
  placed InText (orElse l full empty) = Some InText.
Proof. by destruct l. Qed.

Create HintDb places.

(** Follows the pieces of a template; the place after a text of the template is
    computed. *)
Ltac place :=
  repeat (intros; lazymatch goal with
  | |- placed _ (_ ++ _) = Some _ => eapply placed_seq
  | |- placed ?p (m ?t) = Some _ =>
      let r := eval vm_compute in (placed p (m t)) in transitivity r; [vm_compute; reflexivity|reflexivity]
  | |- placed _ (v _) = Some _ => apply placed_v; discriminate
  | |- placed _ (u _) = Some _ => apply placed_v; discriminate
  | |- placed _ (n _) = Some _ => apply placed_v; discriminate
  | |- placed _ (count _) = Some _ => apply placed_v; discriminate
  | |- placed _ [] = Some _ => apply placed_nil
  | |- placed _ (each _ _) = Some _ => apply placed_each
  | |- placed _ (eachIndexed _ _) = Some _ => apply placed_eachIndexed
  | |- placed _ (orElse _ _ _) = Some _ => apply placed_orElse
  | |- placed _ (match ?o with _ => _ end) = Some ?q => first [is_evar q; unify q InText | destruct o]
  | |- placed _ (let _ := _ in _) = Some _ => cbv zeta
  | |- _ => solve [eauto with places]
  end).

Section pages.
Context `{IndentText}.

Lemma lineItem_placed metric line : placed InText (lineItem metric line) = Some InText.
Proof. unfold lineItem. place. Qed.
#[local] Hint Resolve lineItem_placed : places.
Lemma metricItem_placed metric : placed InText (metricItem metric) = Some InText.
Proof. unfold metricItem. place. Qed.
#[local] Hint Resolve metricItem_placed : places.
Lemma jobRow_placed job : placed InText (jobRow job) = Some InText.
Proof. unfold jobRow. place. Qed.
Lemma workerRow_placed worker : placed InText (workerRow worker) = Some InText.
Proof. unfold workerRow. place. Qed.
Lemma attemptRow_placed attempt : placed InText (attemptRow attempt) = Some InText.
Proof. unfold attemptRow. place. Qed.
Lemma attemptLog_placed attempt : placed InText (attemptLog attempt) = Some InText.
Proof. unfold attemptLog. place. Qed.
Lemma artifactRow_placed artifact : placed InText (artifactRow artifact) = Some InText.
Proof. unfold artifactRow. place. Qed.
Lemma artifactContent_placed artifact : placed InText (artifactContent artifact) = Some InText.
Proof. unfold artifactContent. place. Qed.
Lemma policyRow_placed index policy : placed InText (policyRow index policy) = Some InText.
Proof. unfold policyRow. place. Qed.
Lemma firingRow_placed firing : placed InText (firingRow firing) = Some InText.
Proof. unfold firingRow. place. Qed.
#[local] Hint Resolve jobRow_placed workerRow_placed attemptRow_placed attemptLog_placed artifactRow_placed
  artifactContent_placed policyRow_placed firingRow_placed : places.

Lemma login_placed error : placed InText (loginHTML error) = Some InText.
Proof. unfold loginHTML. place. Qed.
Lemma dashboard_placed view : placed InText (dashboardHTML view) = Some InText.
Proof. unfold dashboardHTML. place. Qed.
Lemma job_placed tokenName detail : placed InText (jobHTML tokenName detail) = Some InText.
Proof. unfold jobHTML. place. Qed.

Lemma page_placed b p : pageOf b = Some p -> placed InText p = Some InText.
Proof.
  destruct b; try discriminate; intros [= <-]; [apply login_placed|apply dashboard_placed|apply job_placed].
Qed.
End pages.
End PageTheory.

(** ** The property *)

Section properties.
Context `{IndentText}.

(** C22: Nothing a job, a worker, an artifact or an operator says can change a page
    of the console: for every page, the markup a browser reads of it (its tags
    with the names of their attributes) is the markup of the same page with every
    value left empty, the browser ends in text, and each value is shown
    character for character as it is, but for NULs. *)
Theorem pages_keep_markup (b : Body) (p : Page) : pageOf b = Some p ->
  readText InText (chars (render p)) = InText /\
  markupOf InText (chars (render p)) = markupOf InText (chars (render (blanked p))) /\
  (forall text, Value text ∈ p -> shownText (htmlEscape text) = withoutNUL text).
Proof.
  intros Hp%PageTheory.page_placed. destruct (HtmlTheory.placed_markup _ _ _ Hp) as [Hr Hm].
  split_and!; [done|done|]. intros text _. apply HtmlTheory.escape_shown.
Qed.
End properties.

(** ** The property on a concrete page *)

#[local] Instance demoIndent : IndentText := λ _, None.

(** A job whose name tries to be a script. *)
Definition evilName : string := "<script>alert('1')</script>".
Definition evilSpec : JobSpec := {|
  s_Project := "physics"; s_Name := evilName; s_Priority := 5; s_Source := s_Source demoSpec;
  s_Command := s_Command demoSpec; s_Environment := ∅; s_SecretRefs := ∅; s_Resources := demoResources; s_Labels := ∅;
  s_Retry := s_Retry demoSpec; s_Checkpoint := None; s_Artifacts := []; s_Metrics := []; s_Health := [] |}.
Definition evilJob : Job := {|
  j_ID := demoJob; j_State := JobQueued; j_Revision := 1; j_Spec := evilSpec; j_CreatedAt := t0; j_UpdatedAt := t0 |}.
Definition evilDashboard : dashboardView := {|
  dv_TokenName := "operator"; dv_Jobs := [evilJob]; dv_Workers := []; dv_Queued := 1; dv_Active := 0; dv_Failed := 0;
  dv_Succeeded := 0 |}.

Example evilDashboard_escaped :
  (Contains (render (dashboardHTML evilDashboard)) evilName,
   Contains (render (dashboardHTML evilDashboard)) "&lt;script&gt;alert(&#39;1&#39;)&lt;/script&gt;</a>") = (false, true).
Proof. vm_compute. reflexivity. Qed.

Lemma pages_keep_markup_witness :
  readText InText (chars (render (dashboardHTML evilDashboard))) = InText /\
  markupOf InText (chars (render (dashboardHTML evilDashboard))) =
    markupOf InText (chars (render (blanked (dashboardHTML evilDashboard)))) /\
  shownText (htmlEscape evilName) = withoutNUL evilName.
Proof.
  destruct (pages_keep_markup (DashboardPage evilDashboard) (dashboardHTML evilDashboard) eq_refl) as (Hr & Hm & Hs).
  split; [exact Hr|]. split; [exact Hm|]. apply Hs.
  apply (bool_decide_unpack _). vm_compute. exact I.
Defined.
